(* ===== verification/_CoqProject ===== *)
-Q . S2P
Prelude.v
Blk.v
DList.v
Requests.v
Ports.v
Hd.v
HdEnds.v
Buffer.v
BufferQueues.v
BufferCache.v
CacheView.v
Memory.v
Task.v
Sched.v
Floppy.v
FloppyEnds.v
Sys.v
Signal.v
Console.v
Tty.v
FsData.v
KernelRules.v
Bitmap.v
Inode.v
Namei.v
Super.v
Fork.v
FileIO.v
BlockStore.v
BlockFree.v
FileView.v
FileTree.v
FileGrow.v
FileWrite.v
Truncate.v
DirView.v
DirAdd.v
Pipe.v
PipeFifo.v
ReadWrite.v
Open.v
PageFault.v
Exit.v
Exec.v
Mktime.v
Boot.v
Vsprintf.v
Malloc.v
Heap.v
MallocSafe.v
