(* ===== verification/Prelude.v ===== *)
(** * A verified model of the kernel in this repository

    The repository is a collection of programs; the one with a logic of its own
    is the operating-system kernel under [src/linux-0.11].  This library models
    its C code, file by file, and proves what makes the parts correct.  All the
    paths below are relative to [src/linux-0.11].

    ** How C is modelled

    A function that reads or writes globals is a definition in the monad [M]
    (this file): from the globals to an outcome - a value and new globals
    ([Ret]), a call of [panic] ([Panic]), going to sleep ([Sleep]), the end of
    the task ([Exit]), a dangling pointer ([Fault]).  Tables are lists, and
    pointers into them indices ([ptr]); a NULL or dangling pointer that is
    followed is a [Fault].  Integers are [Z], cut to their width where C cuts
    them ([u8], [u16], [u32], [s32]).  Memory is bytes.  [wp m Q s] says that
    [m] returns and [Q] holds of the result: total correctness.  [ends m Q s]
    says that [m] does not run out of fuel, and that [Q] holds if it returns.

    The kernel runs one task at a time: a function that would sleep has the
    outcome [Sleep], or, where the code goes on after it was woken, takes what
    the other tasks do meanwhile as a parameter ([others]).  Hardware is a
    parameter too: the ports of the machine ([Ports]), and what a controller
    promises ([AtDrive] of Hd).  What a system call stores in user memory is
    part of its result, and what it reads there is an argument.

    ** The files

    - This file, DList (linked lists in tables), Ports, KernelRules (proof rules
      for the tables of the kernel): what the others share.
    - Block devices: Blk ([kernel/blk_drv/ll_rw_blk.c], [blk.h], [ramdisk.c]),
      Requests (the queues of requests and the elevator), Hd and HdEnds ([hd.c]),
      Floppy and FloppyEnds ([floppy.c]).  Blk ends with the interface
      [BlockDriver] and its laws [BlockDriverOk], which the RAM disk implements
      and the cache is proved against.
    - The buffer cache ([fs/buffer.c]): Buffer (the code), BufferQueues (its
      linked structure), BufferCache (what it promises), CacheView (what those
      who read blocks need to know).
    - Memory: Memory and PageFault ([mm/memory.c], [include/asm/segment.h]),
      Malloc ([lib/malloc.c]), Heap and MallocSafe (what it keeps and promises).
    - Tasks: Task ([include/linux/sched.h]), Sched ([kernel/sched.c]), Sys
      ([kernel/sys.c]), Signal ([kernel/signal.c] and the sending part of
      [kernel/exit.c]), Fork ([kernel/fork.c]), Exit ([kernel/exit.c]), Exec
      ([fs/exec.c]).
    - Terminals: Console ([kernel/chr_drv/console.c]), Tty ([tty_io.c],
      [tty_ioctl.c], [serial.c]).
    - Files: FsData (the tables), Bitmap ([fs/bitmap.c]), Inode ([fs/inode.c],
      [fs/truncate.c]), Namei ([fs/namei.c]), Super ([fs/super.c]), FileIO
      ([fs/file_dev.c], [fs/block_dev.c]), Pipe ([fs/pipe.c]), ReadWrite
      ([fs/read_write.c], [fs/char_dev.c], [fs/ioctl.c]), Open ([fs/open.c],
      [fs/fcntl.c], [fs/stat.c]); FileView, DirView and PipeFifo say what files,
      directories and pipes hold; BlockStore (a mounted device and its zone
      bitmaps), BlockFree (how blocks are given back to it), FileTree (the tree
      of the zones of a file), FileGrow (how it gets more of them), FileWrite,
      Truncate and DirAdd are about changing files and directories.
    - Mktime ([kernel/mktime.c]), Vsprintf ([kernel/vsprintf.c]), Boot (the
      parts of [init/main.c], [hd.c] and [ramdisk.c] that run at start).

    The state is layered as the kernel is: [blk] (requests, buffer heads, RAM
    disk) inside [bstate D E] of Buffer, where [D] is any block driver and [E]
    the rest of the kernel; FsData makes [E] the record [kernel], with the
    tables of inodes, files and super blocks, the tasks ([sched]), the memory
    manager ([mem]) and the terminals ([ttys]).  Code of one layer is lifted to
    the next by functions named [on_...].

    ** What is proved

    - Block devices: the elevator keeps a queue one of two sweeps; the
      hard-disk driver, with a controller that follows the AT protocol, brings
      the right two sectors into the buffer; it counts errors and resets; both
      disk drivers come back from every event whatever the controller answers.
    - Buffer cache: [getblk] takes the least recently used clean buffer and keeps
      the queues and the free list well formed; [bread] returns the contents of
      the block and disturbs no other; [sync_dev] brings the disk up to date.
    - Memory: allocation and freeing of pages, copy on write, sharing on fork
      and release on exit, mapping of a page, the layout of memory at start; the
      kernel's [malloc] serves any sequence of requests without overlap or loss.
    - Tasks: the choice of the next task, wake-ups, timers, pids, signals, and
      that no sequence of [setreuid] gains a user id.
    - Terminals: the console never leaves video memory, whatever is written;
      scrolling is the same on every card; the line discipline is line editing on
      lists; what is written is what is put into the output queue.
    - Files: bitmaps, new blocks, inodes on the disk, reading and writing through
      direct, indirect and doubly indirect blocks and reading back what was
      written, truncation without loss of a zone, directories as maps from names
      to inodes, pipes as queues, file descriptors.
    - Dates agree with the calendar; printed numbers read back.

    ** Fuel

    Recursion that is not structural takes fuel, and running out of it is the
    outcome [NoFuel], which [wp] and [ends] exclude.  [RETRIES] of Buffer: a
    search that slept is started again, and in a state that sleeps the outcome
    is [Sleep], so without other tasks the second attempt is the last.
    [SCHED_ROUNDS]: after one recharge some task has time left
    ([schedule_picks_best]).  [HD_FUEL]: five times the requests and one
    ([hd_driver_ends]); depth 2 of [do_fd_request] ([fd_driver_ends]).
    [TIME_REQUESTS], [NR_REQUEST]: the sizes of the tables a list is threaded
    through.  [TTY_FUEL], [DEPTH]: the size of a queue with room to spare, and
    the depth of echoes of answers of the console.  [CHAIN_FUEL] of Malloc: as
    many bucket descriptors as fit in memory.  The loops over user buffers take
    the number of bytes or blocks; the loops of pipes that wait take how often
    the task is woken.

    ** Not modelled, and why

    Assembly (the entry points, [boot/], the keyboard's scan codes,
    [include/string.h], the stubs of [lib/]) and [kernel/traps.c], which sets
    processor gates: no C semantics.  [kernel/printk.c] and all messages: only
    output.  The floating-point state of tasks, the descriptor tables of the
    processor, interrupt masking and the delays between port accesses: state of
    the processor that no C code looks at.  What the DMA chip does to memory.
    [init]: a user program.  [tools/build.c]: a host program.  Outside of
    [src/linux-0.11]: copies of SQLite and OpenSSL, programs over GTK and the
    Linux kernel's module interface, register tests of a board, and exercises. *)

(** ** Prelude

    The monad in which kernel code is modelled, C integers of a given width,
    arrays updated in place, the byte and word view of a disk block, and the
    tactics and hint databases of the library. *)

From stdpp Require Export base numbers list strings sets gmap.
From Stdlib Require Export ZArith Lia Bool.

Declare Scope kernel_scope.
Delimit Scope kernel_scope with kernel.

Open Scope Z_scope.

(** ** Outcomes of kernel code

    A kernel function started in a state either returns a value and a new
    state, or calls [panic] (which never returns: kernel/panic.c loops
    forever), or goes to sleep waiting for an event that only another task or
    an interrupt can produce, or ends the current task ([do_exit], which does
    not return to its caller either), or dereferences a pointer that designates no
    object of the model, or runs out of the fuel the model gives its loops. *)
Inductive outcome (S A : Type) : Type :=
| Ret (a : A) (s : S)
| Panic (msg : string)
| Sleep (s : S)
| Exit (code : Z) (s : S)
| Fault
| NoFuel.
Arguments Ret {S A} a s.
Arguments Panic {S A} msg.
Arguments Sleep {S A} s.
Arguments Exit {S A} code s.
Arguments Fault {S A}.
Arguments NoFuel {S A}.

Definition M (S A : Type) : Type := S → outcome S A.

#[global] Instance M_ret S : MRet (M S) := λ A a s, Ret a s.
#[global] Instance M_bind S : MBind (M S) := λ A B k m s,
  match m s with
  | Ret a s' => k a s'
  | Panic w => Panic w
  | Sleep s' => Sleep s'
  | Exit c s' => Exit c s'
  | Fault => Fault
  | NoFuel => NoFuel
  end.

Definition panic {S A} (msg : string) : M S A := λ _, Panic msg.
Definition fault {S A} : M S A := λ _, Fault.
Definition nofuel {S A} : M S A := λ _, NoFuel.
Definition blocked {S A} : M S A := λ s, Sleep s.
Definition exit_task {S A} (code : Z) : M S A := λ s, Exit code s.
Definition get_st {S} : M S S := λ s, Ret s s.
Definition gets {S A} (f : S → A) : M S A := λ s, Ret (f s) s.
Definition modify {S} (f : S → S) : M S unit := λ s, Ret tt (f s).
Definition of_opt {S A} (o : option A) : M S A :=
  match o with Some a => mret a | None => fault end.
Definition when {S} (b : bool) (m : M S unit) : M S unit :=
  if b then m else mret tt.

(** [for_each f l] runs [f] on the elements of [l] in order. *)
Fixpoint for_each {S A} (f : A → M S unit) (l : list A) : M S unit :=
  match l with
  | [] => mret tt
  | x :: l' => f x ;; for_each f l'
  end.

(** ** Total correctness

    [wp m Q s]: started in [s], [m] returns, and the value and the state
    returned satisfy [Q]. *)
Definition wp {S A} (m : M S A) (Q : A → S → Prop) (s : S) : Prop :=
  match m s with Ret a s' => Q a s' | _ => False end.
Arguments wp : simpl never.

Section wp.
Context {S : Type}.

Lemma wp_ret {A} (a : A) (Q : A → S → Prop) s : Q a s → wp (mret a) Q s.
Proof. done. Qed.

Lemma wp_bind {A B} (m : M S A) (k : A → M S B) Q s :
  wp m (λ a, wp (k a) Q) s → wp (m ≫= k) Q s.
Proof. unfold wp, mbind, M_bind. by destruct (m s). Qed.

Lemma wp_bind_inv {A B} (m : M S A) (k : A → M S B) Q s :
  wp (m ≫= k) Q s → wp m (λ a, wp (k a) Q) s.
Proof. unfold wp, mbind, M_bind. by destruct (m s). Qed.

Lemma wp_mono {A} (m : M S A) (P Q : A → S → Prop) s :
  wp m P s → (∀ a s', P a s' → Q a s') → wp m Q s.
Proof. unfold wp. destruct (m s); auto. Qed.

Lemma wp_conj {A} (m : M S A) (P Q : A → S → Prop) s :
  wp m P s → wp m Q s → wp m (λ a s', P a s' ∧ Q a s') s.
Proof. unfold wp. destruct (m s); auto. Qed.

Lemma wp_gets {A} (f : S → A) (Q : A → S → Prop) s : Q (f s) s → wp (gets f) Q s.
Proof. done. Qed.

Lemma wp_get (Q : S → S → Prop) s : Q s s → wp get_st Q s.
Proof. done. Qed.

Lemma wp_modify (f : S → S) (Q : unit → S → Prop) s : Q tt (f s) → wp (modify f) Q s.
Proof. done. Qed.

Lemma wp_of_opt {A} (o : option A) a (Q : A → S → Prop) s : o = Some a → Q a s → wp (of_opt o) Q s.
Proof. by intros ->. Qed.

Lemma wp_exists {A} (m : M S A) Q s :
  wp m Q s ↔ ∃ a s', m s = Ret a s' ∧ Q a s'.
Proof. unfold wp. destruct (m s); (split; [by eauto|]); intros (?&?&?&?); simplify_eq; done. Qed.

Lemma wp_eq {A} (m : M S A) a s' Q s : m s = Ret a s' → Q a s' → wp m Q s.
Proof. unfold wp. by intros ->. Qed.

(** The loop rule: an invariant on the elements still to be visited. *)
Lemma wp_for_each {A} (f : A → M S unit) (I : list A → S → Prop) l Q s :
  I l s →
  (∀ x l' s', I (x :: l') s' → wp (f x) (λ _, I l') s') →
  (∀ s', I [] s' → Q tt s') →
  wp (for_each f l) Q s.
Proof.
  intros HI Hstep Hend. revert s HI.
  induction l as [|x l IH]; intros s HI; simpl.
  - by apply wp_ret, Hend.
  - apply wp_bind. eapply wp_mono; [by apply Hstep|]. intros ? s' H'. by apply IH.
Qed.
End wp.

(** ** Termination without correctness

    [ends m Q s]: started in [s], [m] does not run out of fuel, and if it
    returns, the value and the state returned satisfy [Q].  It may also panic,
    sleep, end the task or follow a dangling pointer. *)
Definition ends {S A} (m : M S A) (Q : A → S → Prop) (s : S) : Prop :=
  match m s with Ret a s' => Q a s' | NoFuel => False | _ => True end.
Arguments ends : simpl never.

Section ends.
Context {S : Type}.

Lemma ends_ret {A} (a : A) (Q : A → S → Prop) s : Q a s → ends (mret a) Q s.
Proof. done. Qed.
Lemma ends_bind {A B} (m : M S A) (k : A → M S B) Q s : ends m (λ a, ends (k a) Q) s → ends (m ≫= k) Q s.
Proof. unfold ends, mbind, M_bind. by destruct (m s). Qed.
Lemma ends_mono {A} (m : M S A) (P Q : A → S → Prop) s : ends m P s → (∀ a s', P a s' → Q a s') → ends m Q s.
Proof. unfold ends. destruct (m s); auto. Qed.
Lemma ends_get (Q : S → S → Prop) s : Q s s → ends get_st Q s.
Proof. done. Qed.
Lemma ends_gets {A} (f : S → A) (Q : A → S → Prop) s : Q (f s) s → ends (gets f) Q s.
Proof. done. Qed.
Lemma ends_modify (f : S → S) (Q : unit → S → Prop) s : Q tt (f s) → ends (modify f) Q s.
Proof. done. Qed.
Lemma ends_of_opt {A} (o : option A) (Q : A → S → Prop) s : (∀ a, o = Some a → Q a s) → ends (of_opt o) Q s.
Proof. intros Ho. destruct o; [by apply Ho|done]. Qed.
Lemma ends_panic {A} w (Q : A → S → Prop) s : ends (panic w) Q s.
Proof. done. Qed.
Lemma ends_fault {A} (Q : A → S → Prop) s : ends fault Q s.
Proof. done. Qed.
Lemma ends_blocked {A} (Q : A → S → Prop) s : ends blocked Q s.
Proof. done. Qed.
Lemma ends_wp {A} (m : M S A) (Q : A → S → Prop) s : wp m Q s → ends m Q s.
Proof. unfold wp, ends. by destruct (m s). Qed.
Lemma ends_when b (m : M S unit) (Q : unit → S → Prop) s :
  (b = true → ends m Q s) → (b = false → Q tt s) → ends (when b m) Q s.
Proof. intros Ht Hf. destruct b; [by apply Ht|by apply Hf]. Qed.
(** an invariant that each step of a loop over a list keeps *)
Lemma ends_for_each {A} (f : A → M S unit) (I : S → Prop) l (Q : unit → S → Prop) s :
  I s → (∀ x s', I s' → ends (f x) (λ _, I) s') → (∀ s', I s' → Q tt s') → ends (for_each f l) Q s.
Proof.
  intros HI Hstep Hend. revert s HI. induction l as [|x l IH]; intros s HI; simpl; [by apply Hend|].
  apply ends_bind. eapply ends_mono; [by apply Hstep|]. intros ? s' H'. by apply IH.
Qed.
End ends.

(** [leaves f m]: [m] ends, and does not change what [f] sees of the state *)
Definition leaves {S X A} (f : S → X) (m : M S A) : Prop := ∀ s, ends m (λ _ s', f s' = f s) s.

Section leaves.
Context {S X : Type} {f : S → X}.

Lemma leaves_bind {A B} (m : M S A) (k : A → M S B) : leaves f m → (∀ a, leaves f (k a)) → leaves f (m ≫= k).
Proof.
  intros Hm Hk s. apply ends_bind. eapply ends_mono; [apply Hm|]. intros a s' E.
  eapply ends_mono; [apply Hk|]. intros b s2 E2. cbn in *. congruence.
Qed.
Lemma leaves_ret {A} (a : A) : leaves f (mret a).
Proof. done. Qed.
Lemma leaves_get : leaves f get_st.
Proof. done. Qed.
Lemma leaves_gets {A} (g : S → A) : leaves f (gets g).
Proof. done. Qed.
Lemma leaves_panic {A} w : leaves f (panic (A:=A) w).
Proof. done. Qed.
Lemma leaves_fault {A} : leaves f (fault (A:=A)).
Proof. done. Qed.
Lemma leaves_blocked {A} : leaves f (blocked (A:=A)).
Proof. done. Qed.
Lemma leaves_of_opt {A} (o : option A) : leaves f (of_opt o).
Proof. by destruct o. Qed.
Lemma leaves_modify (g : S → S) : (∀ s, f (g s) = f s) → leaves f (modify g).
Proof. intros Hg s. apply Hg. Qed.
Lemma leaves_when b (m : M S unit) : leaves f m → leaves f (when b m).
Proof. by destruct b. Qed.
Lemma leaves_if {A} (b : bool) (m m' : M S A) : leaves f m → leaves f m' → leaves f (if b then m else m').
Proof. by destruct b. Qed.
Lemma leaves_for_each {A} (g : A → M S unit) l : (∀ x, leaves f (g x)) → leaves f (for_each g l).
Proof. intros Hg. induction l as [|x l IH]; [done|]. by apply leaves_bind. Qed.
(** in front of other code, and at the end of it *)
Lemma ends_leaves {A B} (m : M S A) (k : A → M S B) Q s : leaves f m →
  (∀ a s', f s' = f s → ends (k a) Q s') → ends (m ≫= k) Q s.
Proof. intros Hm Hk. apply ends_bind. eapply ends_mono; [apply Hm|]. intros a s' E. by apply Hk. Qed.
End leaves.

Lemma bind_ret {S A B} (m : M S A) (k : A → M S B) s a s' :
  m s = Ret a s' → (m ≫= k) s = k a s'.
Proof. unfold mbind, M_bind. by intros ->. Qed.

(** ** C integers *)
Definition u8 (z : Z) : Z := z mod 2 ^ 8.
Definition u16 (z : Z) : Z := z mod 2 ^ 16.
Definition u32 (z : Z) : Z := z mod 2 ^ 32.
(** two's complement value of the low 32 bits *)
Definition s32 (z : Z) : Z := (z + 2 ^ 31) mod 2 ^ 32 - 2 ^ 31.
Definition s16 (z : Z) : Z := (z + 2 ^ 15) mod 2 ^ 16 - 2 ^ 15.
Definition s8 (z : Z) : Z := (z + 2 ^ 7) mod 2 ^ 8 - 2 ^ 7.

Lemma u32_id z : 0 ≤ z < 2 ^ 32 → u32 z = z.
Proof. apply Z.mod_small. Qed.
Lemma u16_id z : 0 ≤ z < 2 ^ 16 → u16 z = z.
Proof. apply Z.mod_small. Qed.
Lemma u8_id z : 0 ≤ z < 2 ^ 8 → u8 z = z.
Proof. apply Z.mod_small. Qed.
Lemma u32_bound z : 0 ≤ u32 z < 2 ^ 32.
Proof. by apply Z.mod_pos_bound. Qed.
Lemma u16_bound z : 0 ≤ u16 z < 2 ^ 16.
Proof. by apply Z.mod_pos_bound. Qed.
Lemma u8_bound z : 0 ≤ u8 z < 2 ^ 8.
Proof. by apply Z.mod_pos_bound. Qed.
Lemma s32_id z : - 2 ^ 31 ≤ z < 2 ^ 31 → s32 z = z.
Proof. intros. unfold s32. rewrite Z.mod_small; lia. Qed.
Lemma s32_bound z : - 2 ^ 31 ≤ s32 z < 2 ^ 31.
Proof. unfold s32. pose proof (Z.mod_pos_bound (z + 2 ^ 31) (2 ^ 32)). lia. Qed.

Create HintDb kernel.
#[export] Hint Resolve wp_ret : kernel.

(** One step of a [wp] proof: the head of the program is a primitive. *)
Ltac wp_step :=
  lazymatch goal with
  | |- wp (mbind _ _) _ _ => apply wp_bind
  | |- wp (mret _) _ _ => apply wp_ret
  | |- wp (gets _) _ _ => apply wp_gets
  | |- wp get_st _ _ => apply wp_get
  | |- wp (modify _) _ _ => apply wp_modify
  | |- wp (when ?b _) _ _ => unfold when
  | |- wp (if ?b then _ else _) _ _ => destruct b eqn:?
  end.
Ltac wp_steps := repeat (wp_step; cbn beta).

(** The same for [ends], where the failures end the proof. *)
Ltac ends_step :=
  lazymatch goal with
  | |- ends (mbind _ _) _ _ => apply ends_bind
  | |- ends (mret _) _ _ => apply ends_ret
  | |- ends (gets _) _ _ => apply ends_gets
  | |- ends get_st _ _ => apply ends_get
  | |- ends (modify _) _ _ => apply ends_modify
  | |- ends (of_opt _) _ _ => apply ends_of_opt; intros
  | |- ends (panic _) _ _ => apply ends_panic
  | |- ends fault _ _ => apply ends_fault
  | |- ends blocked _ _ => apply ends_blocked
  | |- ends (when _ _) _ _ => apply ends_when; intros
  | |- ends (if ?b then _ else _) _ _ => destruct b eqn:?
  | |- ends (match ?o with Some _ => _ | None => _ end) _ _ => destruct o eqn:?
  end.
Ltac ends_steps := repeat (ends_step; cbn beta).

Create HintDb leaves.
(** code is taken apart down to the parts that the hints are about *)
Ltac leaves_step :=
  lazymatch goal with
  | |- leaves _ (mbind _ _) => apply leaves_bind; [|intros ?]
  | |- leaves _ (when _ _) => apply leaves_when
  | |- leaves _ (if _ then _ else _) => apply leaves_if
  | |- leaves _ (for_each _ _) => apply leaves_for_each; intros ?
  | |- leaves _ (mret _) => apply leaves_ret
  | |- leaves _ get_st => apply leaves_get
  | |- leaves _ (gets _) => apply leaves_gets
  | |- leaves _ (panic _) => apply leaves_panic
  | |- leaves _ fault => apply leaves_fault
  | |- leaves _ blocked => apply leaves_blocked
  | |- leaves _ (of_opt _) => apply leaves_of_opt
  | |- leaves _ (modify _) => apply leaves_modify; done
  end.
Ltac leaves := repeat (leaves_step; cbn beta zeta); auto with leaves.

(** Boolean comparisons of the code as propositions. *)
Ltac b2p :=
  repeat match goal with
  | H : (_ <=? _) = true |- _ => apply Z.leb_le in H
  | H : (_ <=? _) = false |- _ => apply Z.leb_gt in H
  | H : (_ <? _) = true |- _ => apply Z.ltb_lt in H
  | H : (_ <? _) = false |- _ => apply Z.ltb_ge in H
  | H : (_ =? _) = true |- _ => apply Z.eqb_eq in H
  | H : (_ =? _) = false |- _ => apply Z.eqb_neq in H
  | H : (_ && _) = true |- _ => apply andb_true_iff in H; destruct H
  | H : (_ || _) = false |- _ => apply orb_false_iff in H; destruct H
  | H : negb _ = true |- _ => apply negb_true_iff in H
  | H : negb _ = false |- _ => apply negb_false_iff in H
  end.
Ltac blia := b2p; lia.

(** ** Memory as arrays of bytes

    A disk block, a page or the data of a buffer is a list of bytes, each the
    value of a C [unsigned char]. *)
Abbreviation bytes := (list Z).
Definition byte_ok (b : Z) : Prop := 0 ≤ b < 256.
Definition byte_at (d : bytes) (i : Z) : Z := d !!! Z.to_nat i.
Definition set_byte (d : bytes) (i v : Z) : bytes := <[Z.to_nat i := v]> d.

(** a contiguous piece of an array, and overwriting one *)
Definition slice {A} (off len : nat) (l : list A) : list A := take len (drop off l).
Definition splice {A} (off : nat) (data l : list A) : list A :=
  take off l ++ data ++ drop (off + length data) l.

(** little-endian 16-bit words: [((unsigned short * ) d)[i]] *)
Definition get16 (d : bytes) (i : Z) : Z := byte_at d (2 * i) + 256 * byte_at d (2 * i + 1).
Definition set16 (d : bytes) (i v : Z) : bytes :=
  set_byte (set_byte d (2 * i) (v mod 256)) (2 * i + 1) (v / 256 mod 256).

Lemma byte_at_set d i j v :
  0 ≤ i < Z.of_nat (length d) → 0 ≤ j →
  byte_at (set_byte d i v) j = if decide (i = j) then v else byte_at d j.
Proof.
  intros Hi Hj. unfold byte_at, set_byte. case_decide as E.
  - subst. apply list_lookup_total_insert_eq. lia.
  - apply list_lookup_total_insert_ne. lia.
Qed.

Lemma length_set_byte d i v : length (set_byte d i v) = length d.
Proof. apply length_insert. Qed.

Lemma length_set16 d i v : length (set16 d i v) = length d.
Proof. unfold set16. by rewrite !length_set_byte. Qed.

Lemma get16_set16_eq d i v :
  0 ≤ i → 2 * i + 1 < Z.of_nat (length d) → 0 ≤ v < 65536 → get16 (set16 d i v) i = v.
Proof.
  intros. unfold get16, set16. rewrite !byte_at_set; rewrite ?length_set_byte; try lia.
  repeat case_decide; try lia.
  rewrite (Z.mod_small (v / 256)) by (split; [by apply Z.div_pos; lia|apply Z.div_lt_upper_bound; lia]).
  pose proof (Z.div_mod v 256 ltac:(done)). lia.
Qed.

Lemma get16_set16_ne d i j v :
  0 ≤ i → 0 ≤ j → i ≠ j → 2 * i + 1 < Z.of_nat (length d) → get16 (set16 d i v) j = get16 d j.
Proof.
  intros. unfold get16, set16. rewrite !byte_at_set; rewrite ?length_set_byte; try lia.
  by repeat case_decide; try lia.
Qed.

Lemma byte_at_ok d i : Forall byte_ok d → byte_ok (byte_at d i).
Proof.
  intros Hd. unfold byte_at. destruct (decide (Z.to_nat i < length d)%nat) as [Hi|Hi].
  - rewrite Forall_forall in Hd. apply Hd, list_elem_of_lookup_total_2. done.
  - rewrite list_lookup_total_alt, (lookup_ge_None_2 d) by lia. cbn. unfold byte_ok. lia.
Qed.

Lemma get16_bound d i : Forall byte_ok d → 0 ≤ get16 d i < 65536.
Proof.
  intros Hd. unfold get16.
  pose proof (byte_at_ok d (2 * i) Hd). pose proof (byte_at_ok d (2 * i + 1) Hd).
  unfold byte_ok in *. lia.
Qed.

Lemma set16_ok d i v : Forall byte_ok d → Forall byte_ok (set16 d i v).
Proof.
  intros. unfold set16, set_byte.
  repeat apply Forall_insert; try done; unfold byte_ok; by apply Z.mod_pos_bound.
Qed.

Lemma length_splice {A} off (data l : list A) :
  (off + length data ≤ length l)%nat → length (splice off data l) = length l.
Proof. intros. unfold splice. rewrite !length_app, length_take, length_drop. lia. Qed.

Lemma length_slice {A} off len (l : list A) :
  (off + len ≤ length l)%nat → length (slice off len l) = len.
Proof. intros. unfold slice. rewrite length_take, length_drop. lia. Qed.

Lemma slice_splice_eq {A} off (data l : list A) :
  (off + length data ≤ length l)%nat → slice off (length data) (splice off data l) = data.
Proof.
  intros. unfold slice, splice. rewrite drop_app_length' by (rewrite length_take; lia).
  by rewrite take_app_length.
Qed.

Lemma lookup_splice {A} off (data l : list A) i :
  (off + length data ≤ length l)%nat →
  splice off data l !! i =
    if decide (off ≤ i < off + length data)%nat then data !! (i - off)%nat else l !! i.
Proof.
  intros Hlen. unfold splice. case_decide as Hi.
  - rewrite lookup_app_r by (rewrite length_take; lia).
    rewrite length_take, Nat.min_l by lia. by rewrite lookup_app_l by lia.
  - destruct (decide (i < off)%nat).
    + rewrite lookup_app_l by (rewrite length_take; lia). by apply lookup_take_lt.
    + rewrite lookup_app_r by (rewrite length_take; lia).
      rewrite length_take, Nat.min_l by lia.
      rewrite lookup_app_r by lia. rewrite lookup_drop. f_equal. lia.
Qed.

Lemma slice_splice_ne {A} off off' len (data l : list A) :
  (off + length data ≤ length l)%nat →
  (off' + len ≤ off ∨ off + length data ≤ off')%nat →
  slice off' len (splice off data l) = slice off' len l.
Proof.
  intros Hlen Hd. apply list_eq. intros i. unfold slice.
  destruct (decide (i < len)%nat).
  - rewrite !lookup_take_lt by done. rewrite !lookup_drop, lookup_splice by done.
    by rewrite decide_False by lia.
  - by rewrite !lookup_take_ge by lia.
Qed.

(** ** Little-endian integers in a list of bytes *)
Definition le16 (v : Z) : bytes := [v mod 256; v / 256 mod 256].
Definition le32 (v : Z) : bytes :=
  [v mod 256; v / 2 ^ 8 mod 256; v / 2 ^ 16 mod 256; v / 2 ^ 24 mod 256].
Definition rd16 (d : bytes) (i : nat) : Z := d !!! i + 256 * d !!! S i.
Definition rd_le32 (d : bytes) (i : nat) : Z :=
  d !!! i + 2 ^ 8 * d !!! (i + 1)%nat + 2 ^ 16 * d !!! (i + 2)%nat + 2 ^ 24 * d !!! (i + 3)%nat.

Lemma lookup_total_app_at (pre l : bytes) k : (pre ++ l) !!! (length pre + k)%nat = l !!! k.
Proof. rewrite !list_lookup_total_alt, lookup_app_r by lia. do 2 f_equal. lia. Qed.

Lemma rd16_le16 pre v post : 0 ≤ v < 2 ^ 16 → rd16 (pre ++ le16 v ++ post) (length pre) = v.
Proof.
  intros Hv. unfold rd16, le16.
  rewrite <- (Nat.add_0_r (length pre)) at 1. rewrite <- (Nat.add_1_r (length pre)), !lookup_total_app_at.
  cbn -[Z.mul Z.add Z.div Z.modulo Z.pow].
  rewrite (Z.mod_small (v / 256)) by (split; [apply Z.div_pos|apply Z.div_lt_upper_bound]; lia).
  pose proof (Z.div_mod v 256 ltac:(done)). lia.
Qed.

Lemma rd_le32_le32 pre v post : 0 ≤ v < 2 ^ 32 → rd_le32 (pre ++ le32 v ++ post) (length pre) = v.
Proof.
  intros Hv. unfold rd_le32, le32.
  rewrite <- (Nat.add_0_r (length pre)) at 1. rewrite !lookup_total_app_at.
  cbn -[Z.mul Z.add Z.div Z.modulo Z.pow].
  change (2 ^ 8) with 256 in *. change (2 ^ 16) with (256 * 256). change (2 ^ 24) with (256 * 256 * 256).
  rewrite <- !Z.div_div by lia. set (a := v / 256). set (b := a / 256). set (c := b / 256).
  assert (0 ≤ c < 256) as Hc.
  { unfold c, b, a. rewrite !Z.div_div by lia. split; [apply Z.div_pos; lia|apply Z.div_lt_upper_bound; lia]. }
  rewrite (Z.mod_small c) by done.
  pose proof (Z.div_mod v 256 ltac:(done)) as E1. pose proof (Z.div_mod a 256 ltac:(done)) as E2.
  pose proof (Z.div_mod b 256 ltac:(done)) as E3. fold a in E1. fold b in E2. fold c in E3. lia.
Qed.

(** reading an integer and writing it back *)
Lemma le16_bytes a b : byte_ok a → byte_ok b → le16 (a + 256 * b) = [a; b] ∧ 0 ≤ a + 256 * b < 2 ^ 16.
Proof.
  unfold byte_ok, le16. intros Ha Hb. split; [|lia].
  assert ((a + 256 * b) / 256 = b) as -> by (symmetry; apply Z.div_unique with a; lia).
  rewrite (Z.mod_small b) by lia. repeat f_equal. symmetry. apply Z.mod_unique with b; lia.
Qed.
Lemma le32_bytes a b c d : byte_ok a → byte_ok b → byte_ok c → byte_ok d →
  let v := a + 2 ^ 8 * b + 2 ^ 16 * c + 2 ^ 24 * d in le32 v = [a; b; c; d] ∧ 0 ≤ v < 2 ^ 32.
Proof.
  intros Ha Hb Hc Hd v. unfold byte_ok in *. split; [unfold le32|unfold v; lia].
  assert (v / 2 ^ 8 = b + 2 ^ 8 * c + 2 ^ 16 * d) as -> by (symmetry; apply Z.div_unique with a; unfold v; lia).
  assert (v / 2 ^ 16 = c + 2 ^ 8 * d) as -> by (symmetry; apply Z.div_unique with (a + 2 ^ 8 * b); unfold v; lia).
  assert (v / 2 ^ 24 = d) as -> by (symmetry; apply Z.div_unique with (a + 2 ^ 8 * b + 2 ^ 16 * c); unfold v; lia).
  rewrite (Z.mod_small d) by lia. repeat f_equal; symmetry.
  - apply Z.mod_unique with (b + 2 ^ 8 * c + 2 ^ 16 * d); unfold v; lia.
  - apply Z.mod_unique with (c + 2 ^ 8 * d); lia.
  - apply Z.mod_unique with d; lia.
Qed.

(** ** Finding the first element of a table that satisfies a test

    The shape of [for (p = table; p < table + N; p++) if (f(p)) break;]. *)
Fixpoint find_idx {A} (f : A → bool) (l : list A) : option nat :=
  match l with
  | [] => None
  | x :: l' => if f x then Some O else S <$> find_idx f l'
  end.

Lemma find_idx_Some {A} (f : A → bool) l i :
  find_idx f l = Some i →
  ∃ x, l !! i = Some x ∧ f x = true ∧ ∀ j y, (j < i)%nat → l !! j = Some y → f y = false.
Proof.
  revert i. induction l as [|x l IH]; intros i; simpl; [done|].
  destruct (f x) eqn:Hx.
  - intros [= <-]. exists x. repeat split; [done..|]. intros j y ?; lia.
  - destruct (find_idx f l) as [k|] eqn:E; simpl; [|done]. intros [= <-].
    destruct (IH k eq_refl) as (z & Hz & Hf & Hmin). exists z. repeat split; [done..|].
    intros [|j] y Hj Hy; simpl in Hy; [congruence|]. apply (Hmin j); [lia|done].
Qed.

Lemma find_idx_None {A} (f : A → bool) l :
  find_idx f l = None ↔ ∀ x, x ∈ l → f x = false.
Proof.
  induction l as [|x l IH]; simpl; [set_solver|].
  destruct (f x) eqn:Hx.
  - split; [done|]. intros H. rewrite (H x) in Hx; set_solver.
  - rewrite fmap_None, IH. set_solver.
Qed.

(** ** Counting *)
Definition count_idx (f : nat → bool) (n : nat) : nat := length (filter (λ k, f k = true) (seq 0 n)).

Lemma length_filter_ext {A} (f g : A → bool) l :
  (∀ x, x ∈ l → f x = g x) →
  length (filter (λ x, f x = true) l) = length (filter (λ x, g x = true) l).
Proof.
  induction l as [|x l IH]; [done|]. intros Hx. rewrite !filter_cons, Hx by set_solver.
  case_decide; cbn [length]; rewrite IH by set_solver; done.
Qed.

Lemma count_idx_ext f g n : (∀ k, (k < n)%nat → f k = g k) → count_idx f n = count_idx g n.
Proof. intros Hk. apply length_filter_ext. intros k ?%elem_of_seq. apply Hk. lia. Qed.

Lemma count_idx_S f n : Z.of_nat (count_idx f (S n)) = Z.b2z (f O) + Z.of_nat (count_idx (λ k, f (S k)) n).
Proof.
  unfold count_idx. cbn [seq]. rewrite filter_cons, <- fmap_S_seq.
  assert (length (filter (λ k, f k = true) (S <$> seq 0 n)) = length (filter (λ k, f (S k) = true) (seq 0 n))) as Hl.
  { induction (seq 0 n) as [|k l IH]; [done|]. cbn [fmap list_fmap]. rewrite !filter_cons.
    case_decide; cbn [length]; rewrite IH; done. }
  case_decide as Hc; cbn [length]; rewrite Hl; [rewrite Hc|apply not_true_is_false in Hc; rewrite Hc]; cbn [Z.b2z]; lia.
Qed.

Lemma count_idx_0 f n : (∀ k, (k < n)%nat → f k = false) → count_idx f n = 0%nat.
Proof.
  intros Hk. rewrite (count_idx_ext _ (λ _, false)) by done. unfold count_idx.
  induction (seq 0 n) as [|k l IH]; [done|]. rewrite filter_cons. by case_decide.
Qed.

Lemma count_idx_le f n : (count_idx f n ≤ n)%nat.
Proof. unfold count_idx. etransitivity; [apply length_filter|]. by rewrite length_seq. Qed.
