(* ===== verification/Blk.v ===== *)
(** * The block-device layer

    Models [linux-0.11/kernel/blk_drv/ll_rw_blk.c], the request structures of
    [blk.h] and the RAM-disk driver [ramdisk.c], over the buffer heads of
    [include/linux/fs.h].  The file ends with the interface [BlockDriver] that
    the buffer cache ([Buffer.v]) is proved against, and the proof that the
    RAM disk implements it.

    One task is modelled: a lock held by somebody else puts it to sleep (the
    outcome [Sleep]).  The RAM-disk driver answers inside the call, so with it
    no buffer stays locked; the [request_fn] table has the entry [rd_init]
    registers and no other.  The drivers that answer by interrupts are in the
    files Hd and Floppy, over the parts of this file that do not depend on the
    device. *)

From S2P Require Import Prelude.

(** a pointer into one of the kernel's tables: an index, or NULL *)
Abbreviation ptr := (option nat).

(** ** Constants of [fs.h] and [blk.h] *)
Definition READ : Z := 0.
Definition WRITE : Z := 1.
Definition READA : Z := 2.
Definition WRITEA : Z := 3.
Definition BLOCK_SIZE : Z := 1024.
Definition BLOCK_SIZE_BITS : Z := 10.
Definition NR_BLK_DEV : Z := 7.
Definition NR_REQUEST : nat := 32.
Definition MAJOR (a : Z) : Z := Z.shiftr (u32 a) 8.
Definition MINOR (a : Z) : Z := Z.land a 255.

(** ** Data *)

(** [struct buffer_head]; [b_data] stands for the 1024 bytes it points to, and
    the wait queue [b_wait] has no counterpart in a one-task model. *)
Record buffer_head := mk_bh {
  b_data : bytes;
  b_blocknr : Z;
  b_dev : Z;
  b_uptodate : bool;
  b_dirt : bool;
  b_count : Z;
  b_lock : bool;
  b_prev : ptr;
  b_next : ptr;
  b_prev_free : ptr;
  b_next_free : ptr
}.

Definition set_b_data (v : bytes) (x : buffer_head) : buffer_head :=
  mk_bh v (b_blocknr x) (b_dev x) (b_uptodate x) (b_dirt x) (b_count x) (b_lock x) (b_prev x) (b_next x) (b_prev_free x) (b_next_free x).
Definition set_b_blocknr (v : Z) (x : buffer_head) : buffer_head :=
  mk_bh (b_data x) v (b_dev x) (b_uptodate x) (b_dirt x) (b_count x) (b_lock x) (b_prev x) (b_next x) (b_prev_free x) (b_next_free x).
Definition set_b_dev (v : Z) (x : buffer_head) : buffer_head :=
  mk_bh (b_data x) (b_blocknr x) v (b_uptodate x) (b_dirt x) (b_count x) (b_lock x) (b_prev x) (b_next x) (b_prev_free x) (b_next_free x).
Definition set_b_uptodate (v : bool) (x : buffer_head) : buffer_head :=
  mk_bh (b_data x) (b_blocknr x) (b_dev x) v (b_dirt x) (b_count x) (b_lock x) (b_prev x) (b_next x) (b_prev_free x) (b_next_free x).
Definition set_b_dirt (v : bool) (x : buffer_head) : buffer_head :=
  mk_bh (b_data x) (b_blocknr x) (b_dev x) (b_uptodate x) v (b_count x) (b_lock x) (b_prev x) (b_next x) (b_prev_free x) (b_next_free x).
Definition set_b_count (v : Z) (x : buffer_head) : buffer_head :=
  mk_bh (b_data x) (b_blocknr x) (b_dev x) (b_uptodate x) (b_dirt x) v (b_lock x) (b_prev x) (b_next x) (b_prev_free x) (b_next_free x).
Definition set_b_lock (v : bool) (x : buffer_head) : buffer_head :=
  mk_bh (b_data x) (b_blocknr x) (b_dev x) (b_uptodate x) (b_dirt x) (b_count x) v (b_prev x) (b_next x) (b_prev_free x) (b_next_free x).
Definition set_b_prev (v : ptr) (x : buffer_head) : buffer_head :=
  mk_bh (b_data x) (b_blocknr x) (b_dev x) (b_uptodate x) (b_dirt x) (b_count x) (b_lock x) v (b_next x) (b_prev_free x) (b_next_free x).
Definition set_b_next (v : ptr) (x : buffer_head) : buffer_head :=
  mk_bh (b_data x) (b_blocknr x) (b_dev x) (b_uptodate x) (b_dirt x) (b_count x) (b_lock x) (b_prev x) v (b_prev_free x) (b_next_free x).
Definition set_b_prev_free (v : ptr) (x : buffer_head) : buffer_head :=
  mk_bh (b_data x) (b_blocknr x) (b_dev x) (b_uptodate x) (b_dirt x) (b_count x) (b_lock x) (b_prev x) (b_next x) v (b_next_free x).
Definition set_b_next_free (v : ptr) (x : buffer_head) : buffer_head :=
  mk_bh (b_data x) (b_blocknr x) (b_dev x) (b_uptodate x) (b_dirt x) (b_count x) (b_lock x) (b_prev x) (b_next x) (b_prev_free x) v.

(** [struct request]; the pointer [buffer] is a place in the data of a buffer:
    [rq_off] bytes from the start of the data of [rq_buffer] ([make_request]
    stores [bh->b_data] there, and the hard-disk driver moves it on). *)
Record request := mk_req {
  rq_dev : Z;
  rq_cmd : Z;
  rq_errors : Z;
  rq_sector : Z;
  rq_nr_sectors : Z;
  rq_buffer : ptr;
  rq_off : Z;
  rq_bh : ptr;
  rq_next : ptr
}.

Definition set_rq_dev (v : Z) (x : request) : request :=
  mk_req v (rq_cmd x) (rq_errors x) (rq_sector x) (rq_nr_sectors x) (rq_buffer x) (rq_off x) (rq_bh x) (rq_next x).
Definition set_rq_cmd (v : Z) (x : request) : request :=
  mk_req (rq_dev x) v (rq_errors x) (rq_sector x) (rq_nr_sectors x) (rq_buffer x) (rq_off x) (rq_bh x) (rq_next x).
Definition set_rq_errors (v : Z) (x : request) : request :=
  mk_req (rq_dev x) (rq_cmd x) v (rq_sector x) (rq_nr_sectors x) (rq_buffer x) (rq_off x) (rq_bh x) (rq_next x).
Definition set_rq_sector (v : Z) (x : request) : request :=
  mk_req (rq_dev x) (rq_cmd x) (rq_errors x) v (rq_nr_sectors x) (rq_buffer x) (rq_off x) (rq_bh x) (rq_next x).
Definition set_rq_nr_sectors (v : Z) (x : request) : request :=
  mk_req (rq_dev x) (rq_cmd x) (rq_errors x) (rq_sector x) v (rq_buffer x) (rq_off x) (rq_bh x) (rq_next x).
Definition set_rq_buffer (v : ptr) (x : request) : request :=
  mk_req (rq_dev x) (rq_cmd x) (rq_errors x) (rq_sector x) (rq_nr_sectors x) v (rq_off x) (rq_bh x) (rq_next x).
Definition set_rq_off (v : Z) (x : request) : request :=
  mk_req (rq_dev x) (rq_cmd x) (rq_errors x) (rq_sector x) (rq_nr_sectors x) (rq_buffer x) v (rq_bh x) (rq_next x).
Definition set_rq_bh (v : ptr) (x : request) : request :=
  mk_req (rq_dev x) (rq_cmd x) (rq_errors x) (rq_sector x) (rq_nr_sectors x) (rq_buffer x) (rq_off x) v (rq_next x).
Definition set_rq_next (v : ptr) (x : request) : request :=
  mk_req (rq_dev x) (rq_cmd x) (rq_errors x) (rq_sector x) (rq_nr_sectors x) (rq_buffer x) (rq_off x) (rq_bh x) v.

(** the drivers a [request_fn] slot can point to *)
Inductive driver : Type := do_rd_request_fn.

(** The globals of ll_rw_blk.c and ramdisk.c, and the buffer heads they work
    on.  [current_request] and [request_fn] are the two columns of [blk_dev];
    [rd_mem] is the memory from [rd_start] on. *)
Record blk := mk_blk {
  buffers : list buffer_head;
  request_tab : list request;
  current_request : list ptr;
  request_fn : list (option driver);
  rd_start : Z;
  rd_length : Z;
  rd_mem : bytes
}.

Definition set_buffers (v : list buffer_head) (x : blk) : blk :=
  mk_blk v (request_tab x) (current_request x) (request_fn x) (rd_start x) (rd_length x) (rd_mem x).
Definition set_request_tab (v : list request) (x : blk) : blk :=
  mk_blk (buffers x) v (current_request x) (request_fn x) (rd_start x) (rd_length x) (rd_mem x).
Definition set_current_request (v : list ptr) (x : blk) : blk :=
  mk_blk (buffers x) (request_tab x) v (request_fn x) (rd_start x) (rd_length x) (rd_mem x).
Definition set_request_fn (v : list (option driver)) (x : blk) : blk :=
  mk_blk (buffers x) (request_tab x) (current_request x) v (rd_start x) (rd_length x) (rd_mem x).
Definition set_rd_start (v : Z) (x : blk) : blk :=
  mk_blk (buffers x) (request_tab x) (current_request x) (request_fn x) v (rd_length x) (rd_mem x).
Definition set_rd_length (v : Z) (x : blk) : blk :=
  mk_blk (buffers x) (request_tab x) (current_request x) (request_fn x) (rd_start x) v (rd_mem x).
Definition set_rd_mem (v : bytes) (x : blk) : blk :=
  mk_blk (buffers x) (request_tab x) (current_request x) (request_fn x) (rd_start x) (rd_length x) v.

(** ** Access through pointers: a dangling pointer is a [Fault] *)
Definition the_bh (i : nat) : M blk buffer_head := λ d,
  of_opt (buffers d !! i) d.
Definition upd_bh (i : nat) (f : buffer_head → buffer_head) : M blk unit := λ d,
  match buffers d !! i with
  | Some b => Ret tt (set_buffers (<[i := f b]> (buffers d)) d)
  | None => Fault
  end.
Definition the_req (r : nat) : M blk request := λ d, of_opt (request_tab d !! r) d.
Definition upd_req (r : nat) (f : request → request) : M blk unit := λ d,
  match request_tab d !! r with
  | Some q => Ret tt (set_request_tab (<[r := f q]> (request_tab d)) d)
  | None => Fault
  end.
Definition get_current (major : nat) : M blk ptr := λ d, of_opt (current_request d !! major) d.
Definition put_current (major : nat) (p : ptr) : M blk unit := λ d,
  Ret tt (set_current_request (<[major := p]> (current_request d)) d).

(** ** ll_rw_blk.c *)

Definition lock_buffer (bh : nat) : M blk unit :=
  b ← the_bh bh;
  if b_lock b then blocked else upd_bh bh (set_b_lock true).

(** [unlock_buffer] also prints a warning when the buffer was not locked. *)
Definition unlock_buffer (bh : nat) : M blk unit := upd_bh bh (set_b_lock false).

(** the macro [IN_ORDER(s1,s2)] *)
Definition IN_ORDER (s1 s2 : request) : bool :=
  (rq_cmd s1 <? rq_cmd s2) ||
  ((rq_cmd s1 =? rq_cmd s2) &&
   ((rq_dev s1 <? rq_dev s2) ||
    ((rq_dev s1 =? rq_dev s2) && (rq_sector s1 <? rq_sector s2)))).

(** The insertion point of the elevator: the [for] loop of [add_request], from
    request [tmp] on.  The fuel is the number of requests. *)
Fixpoint elevator (fuel : nat) (tmp : nat) (req : request) : M blk nat :=
  match fuel with
  | O => nofuel
  | S fuel' =>
    t ← the_req tmp;
    match rq_next t with
    | None => mret tmp
    | Some nx =>
      n ← the_req nx;
      if (IN_ORDER t req || negb (IN_ORDER t n)) && IN_ORDER req n
      then mret tmp
      else elevator fuel' nx req
    end
  end.

(** ** ramdisk.c and the end of a request (blk.h) *)

(** [end_request]: the request at the head of the queue of [major] is done *)
Definition end_request (major : nat) (uptodate : bool) : M blk unit :=
  cur ← get_current major;
  r ← of_opt cur;
  q ← the_req r;
  match rq_bh q with
  | Some bh => upd_bh bh (set_b_uptodate uptodate) ;; unlock_buffer bh
  | None => mret tt
  end ;;
  (* the error message of the code dereferences [CURRENT->bh] *)
  when (negb uptodate) (_ ← of_opt (rq_bh q); mret tt) ;;
  upd_req r (set_rq_dev (-1)) ;;
  put_current major (rq_next q).

(** the macro [INIT_REQUEST], whose early return is [None] *)
Definition INIT_REQUEST (name : string) (major : nat) : M blk (option request) :=
  cur ← get_current major;
  match cur with
  | None => mret None
  | Some r =>
    q ← the_req r;
    (if MAJOR (rq_dev q) =? Z.of_nat major then mret tt
     else panic (name +:+ ": request list destroyed")) ;;
    match rq_bh q with
    | Some bh =>
      b ← the_bh bh;
      if b_lock b then mret (Some q) else panic (name +:+ ": block not locked")
    | None => mret (Some q)
    end
  end.

(** [do_rd_request]: serves requests until the queue is empty.  The fuel is
    one more than the number of requests. *)
Fixpoint do_rd_request (fuel : nat) : M blk unit :=
  match fuel with
  | O => nofuel
  | S fuel' =>
    oq ← INIT_REQUEST "ramdisk" 1;
    match oq with
    | None => mret tt
    | Some q =>
      d ← get_st;
      let addr := u32 (rd_start d + u32 (Z.shiftl (rq_sector q) 9)) in
      let len := Z.shiftl (rq_nr_sectors q) 9 in
      if negb (MINOR (rq_dev q) =? 1) || (rd_start d + rd_length d <? u32 (addr + len))
      then end_request 1 false ;; do_rd_request fuel'
      else if addr <? rd_start d then fault
      else
        let off := Z.to_nat (addr - rd_start d) in
        buf ← of_opt (rq_buffer q);
        (if rq_cmd q =? WRITE then
           b ← the_bh buf;
           modify (λ d, set_rd_mem (splice off (take (Z.to_nat len) (b_data b)) (rd_mem d)) d)
         else if rq_cmd q =? READ then
           upd_bh buf (set_b_data (slice off (Z.to_nat len) (rd_mem d)))
         else panic "unknown ramdisk-command") ;;
        end_request 1 true ;;
        do_rd_request fuel'
    end
  end.

Definition call_request_fn (major : nat) : M blk unit :=
  d ← get_st;
  match request_fn d !! major with
  | Some (Some do_rd_request_fn) => do_rd_request (S NR_REQUEST)
  | _ => fault
  end.

(** ** ll_rw_blk.c, continued *)

(** [add_request] up to the call of the driver: is the request the only one of
    its device? *)
Definition queue_request (major : nat) (req : nat) : M blk bool :=
  upd_req req (set_rq_next None) ;;
  q ← the_req req;
  match rq_bh q with
  | Some bh => upd_bh bh (set_b_dirt false)
  | None => mret tt
  end ;;
  cur ← get_current major;
  match cur with
  | None => put_current major (Some req) ;; mret true
  | Some tmp0 =>
    tmp ← elevator NR_REQUEST tmp0 q;
    t ← the_req tmp;
    upd_req req (set_rq_next (rq_next t)) ;;
    upd_req tmp (set_rq_next (Some req)) ;;
    mret false
  end.
Definition add_request (major : nat) (req : nat) : M blk unit :=
  only ← queue_request major req;
  when only (call_request_fn major).

(** the search for a free request, from the top of the table for reads and
    from two thirds of it for writes *)
Fixpoint free_request (n : nat) (tab : list request) : option nat :=
  match n with
  | O => None
  | S n' => match tab !! n' with
            | Some q => if rq_dev q <? 0 then Some n' else free_request n' tab
            | None => free_request n' tab
            end
  end.

(** [make_request] up to the call of [add_request]: the request to be added, if
    there is one *)
Definition prepare_request (rw : Z) (bh : nat) : M blk (option nat) :=
  let rw_ahead := (rw =? READA) || (rw =? WRITEA) in
  b0 ← the_bh bh;
  if rw_ahead && b_lock b0 then mret None
  else
    let rw := if rw_ahead then (if rw =? READA then READ else WRITE) else rw in
    if negb (rw =? READ) && negb (rw =? WRITE)
    then panic "Bad block dev command, must be R/W/RA/WA"
    else
      lock_buffer bh ;;
      b ← the_bh bh;
      if ((rw =? WRITE) && negb (b_dirt b)) || ((rw =? READ) && b_uptodate b)
      then unlock_buffer bh ;; mret None
      else
        d ← get_st;
        match free_request (if rw =? READ then NR_REQUEST else (NR_REQUEST * 2 / 3)%nat)
                (request_tab d) with
        | None => if rw_ahead then unlock_buffer bh ;; mret None else blocked
        | Some req =>
          upd_req req (λ _, mk_req (b_dev b) rw 0 (u32 (Z.shiftl (b_blocknr b) 1)) 2
                              (Some bh) 0 (Some bh) None) ;;
          mret (Some req)
        end.
Definition make_request (major : nat) (rw : Z) (bh : nat) : M blk unit :=
  p ← prepare_request rw bh;
  match p with Some req => add_request major req | None => mret tt end.

(** [ll_rw_block]: the message for a nonexistent device is not modelled *)
Definition ll_rw_block (rw : Z) (bh : nat) : M blk unit :=
  b ← the_bh bh;
  d ← get_st;
  let major := MAJOR (b_dev b) in
  if (NR_BLK_DEV <=? major)
     || match request_fn d !! Z.to_nat major with Some (Some _) => false | _ => true end
  then mret tt
  else make_request (Z.to_nat major) rw bh.

Definition blk_dev_init : M blk unit :=
  modify (λ d, set_request_tab
    ((λ q, set_rq_next None (set_rq_dev (-1) q)) <$> request_tab d) d).

(** [rd_init] reserves [length] bytes from [mem_start] on and clears them *)
Definition rd_init (mem_start length : Z) : M blk Z :=
  modify (λ d,
    set_rd_mem (replicate (Z.to_nat length) 0)
      (set_rd_length length (set_rd_start mem_start
        (set_request_fn (<[1%nat := Some do_rd_request_fn]> (request_fn d)) d)))) ;;
  mret length.

(** ** What the rest of the kernel relies on

    A block driver gives access to the buffer heads, moves one buffer to or
    from the medium, and has a medium that is a partial map from device and
    block numbers to blocks ([None]: a block that cannot be read). *)
Class BlockDriver (D : Type) := {
  dv_bufs : D → list buffer_head;
  dv_set_bufs : list buffer_head → D → D;
  dv_disk : D → Z → Z → option bytes;
  dv_ll_rw_block : Z → nat → M D unit
}.

(** what a read leaves in the buffer head [b], [o] being the medium's block *)
Definition read_result (b : buffer_head) (o : option bytes) : buffer_head :=
  if b_uptodate b then b
  else match o with Some x => set_b_uptodate true (set_b_data x b) | None => b end.

(** what a write leaves in the buffer head [b] *)
Definition write_result (b : buffer_head) : buffer_head :=
  if b_dirt b then set_b_uptodate true (set_b_dirt false b) else b.

(** block and device numbers are 16-bit quantities everywhere above *)
Definition dev_range (dev blk : Z) : Prop := 0 ≤ dev < 65536 ∧ 0 ≤ blk < 65536.

Class BlockDriverOk (D : Type) `{BlockDriver D} := {
  dv_ok : D → Prop;
  dv_bufs_set l d : dv_bufs (dv_set_bufs l d) = l;
  dv_disk_set l d : dv_disk (dv_set_bufs l d) = dv_disk d;
  dv_set_set l l' d : dv_set_bufs l (dv_set_bufs l' d) = dv_set_bufs l d;
  dv_set_id d : dv_set_bufs (dv_bufs d) d = d;
  dv_ok_set l d : dv_ok d → dv_ok (dv_set_bufs l d);
  dv_disk_block d dev blk x :
    dv_ok d → dv_disk d dev blk = Some x → length x = 1024%nat;
  dv_read d i b rw :
    dv_ok d → dv_bufs d !! i = Some b → b_lock b = false → b_dirt b = false →
    dev_range (b_dev b) (b_blocknr b) → rw = READ ∨ rw = READA →
    ∃ d', dv_ll_rw_block rw i d = Ret tt d' ∧ dv_ok d' ∧ dv_disk d' = dv_disk d ∧
      dv_bufs d' = <[i := read_result b (dv_disk d (b_dev b) (b_blocknr b))]> (dv_bufs d);
  dv_write d i b :
    dv_ok d → dv_bufs d !! i = Some b → b_lock b = false →
    dev_range (b_dev b) (b_blocknr b) →
    is_Some (dv_disk d (b_dev b) (b_blocknr b)) → length (b_data b) = 1024%nat →
    ∃ d', dv_ll_rw_block WRITE i d = Ret tt d' ∧ dv_ok d' ∧
      dv_bufs d' = <[i := write_result b]> (dv_bufs d) ∧
      ∀ dev blk, dv_disk d' dev blk =
        if decide (b_dirt b = true ∧ dev = b_dev b ∧ blk = b_blocknr b)
        then Some (b_data b) else dv_disk d dev blk
}.

(** ** The RAM disk implements the interface *)

(** The medium: device (1,1), as many blocks as fit in [rd_length] bytes. *)
Definition rd_disk (d : blk) (dev n : Z) : option bytes :=
  if (MAJOR dev =? 1) && (MINOR dev =? 1) && (0 <=? dev) && (dev <? 65536) && (0 <=? n)
     && (n * 1024 + 1024 <=? rd_length d)
  then Some (slice (Z.to_nat (n * 1024)) 1024 (rd_mem d)) else None.

(** Between two calls no request is pending. *)
Record rd_ok (d : blk) : Prop := {
  rdo_tab : length (request_tab d) = NR_REQUEST;
  rdo_idle : Forall (λ q, rq_dev q = -1) (request_tab d);
  rdo_current : current_request d !! 1%nat = Some None;
  rdo_fn : request_fn d !! 1%nat = Some (Some do_rd_request_fn);
  rdo_other : ∀ m, m ≠ 1%nat → request_fn d !! m = Some None ∨ request_fn d !! m = None;
  rdo_start : 0 ≤ rd_start d;
  rdo_len : 0 ≤ rd_length d;
  rdo_end : rd_start d + rd_length d < 2 ^ 31;
  rdo_mem : Z.of_nat (length (rd_mem d)) = rd_length d
}.

#[export] Instance ramdisk : BlockDriver blk := {
  dv_bufs := buffers;
  dv_set_bufs := set_buffers;
  dv_disk := rd_disk;
  dv_ll_rw_block := ll_rw_block
}.

(** ** Proof that it does *)

Lemma free_request_idle n tab :
  Forall (λ q, rq_dev q = -1) tab → (0 < n ≤ length tab)%nat → free_request n tab = Some (n - 1)%nat.
Proof.
  intros Hidle Hn. destruct n as [|n]; [lia|]. simpl.
  destruct (lookup_lt_is_Some_2 tab n) as [q Hq]; [lia|]. rewrite Hq.
  rewrite (Forall_lookup_1 _ _ _ _ Hidle Hq). simpl. f_equal. lia.
Qed.

Lemma rd_addr d n :
  0 ≤ rd_start d → rd_start d + rd_length d < 2 ^ 31 → 0 ≤ rd_length d → 0 ≤ n < 65536 →
  u32 (rd_start d + u32 (Z.shiftl (u32 (Z.shiftl n 1)) 9)) = rd_start d + n * 1024 ∧
  u32 (rd_start d + n * 1024 + Z.shiftl 2 9) = rd_start d + n * 1024 + 1024.
Proof.
  intros. rewrite !Z.shiftl_mul_pow2 by lia. change (2 * 2 ^ 9) with 1024.
  rewrite (u32_id (n * 2 ^ 1)) by lia.
  rewrite (u32_id (n * 2 ^ 1 * 2 ^ 9)) by lia. 
  split; [rewrite u32_id; lia|]. apply u32_id. lia.
Qed.


Section steps.
Context (d : blk).
Lemma wp_the_bh i b Q : buffers d !! i = Some b → Q b d → wp (the_bh i) Q d.
Proof. unfold wp, the_bh. by intros ->. Qed.
Lemma wp_upd_bh i b f Q :
  buffers d !! i = Some b → Q tt (set_buffers (<[i := f b]> (buffers d)) d) → wp (upd_bh i f) Q d.
Proof. unfold wp, upd_bh. by intros ->. Qed.
Lemma wp_the_req r q Q : request_tab d !! r = Some q → Q q d → wp (the_req r) Q d.
Proof. unfold wp, the_req. by intros ->. Qed.
Lemma wp_upd_req r q f Q :
  request_tab d !! r = Some q →
  Q tt (set_request_tab (<[r := f q]> (request_tab d)) d) → wp (upd_req r f) Q d.
Proof. unfold wp, upd_req. by intros ->. Qed.
Lemma wp_get_current m p Q : current_request d !! m = Some p → Q p d → wp (get_current m) Q d.
Proof. unfold wp, get_current. by intros ->. Qed.
Lemma wp_put_current m p Q :
  Q tt (set_current_request (<[m := p]> (current_request d)) d) → wp (put_current m p) Q d.
Proof. done. Qed.
Lemma wp_get_st Q : Q d d → wp get_st Q d.
Proof. done. Qed.
End steps.

(** reduce the projections and setters of the records, and nothing else *)
Ltac blk_cbn := cbn beta iota delta
  [buffers request_tab current_request request_fn rd_start rd_length rd_mem set_buffers set_request_tab set_current_request set_rd_mem b_data b_blocknr b_dev b_uptodate b_dirt b_count b_lock b_prev b_next b_prev_free b_next_free set_b_data set_b_uptodate set_b_dirt set_b_lock rq_dev rq_cmd rq_errors rq_sector rq_nr_sectors rq_buffer rq_bh rq_next set_rq_dev set_rq_next orb andb negb].
Ltac blk_cbn_all := cbn beta iota delta
  [buffers request_tab current_request request_fn rd_start rd_length rd_mem set_buffers set_request_tab set_current_request set_rd_mem b_data b_blocknr b_dev b_uptodate b_dirt b_count b_lock b_prev b_next b_prev_free b_next_free set_b_data set_b_uptodate set_b_dirt set_b_lock rq_dev rq_cmd rq_errors rq_sector rq_nr_sectors rq_buffer rq_bh rq_next set_rq_dev set_rq_next orb andb negb] in *.
(** the current entry of a table just updated *)
Ltac here := blk_cbn; rewrite ?list_insert_insert_eq, ?list_lookup_insert_eq by (rewrite ?length_insert; lia);
  reflexivity || eassumption.
Ltac blk_step :=
  lazymatch goal with
  | |- wp (mbind _ _) _ _ => apply wp_bind
  | |- wp (the_bh _) _ _ => eapply wp_the_bh; [here|]
  | |- wp (upd_bh _ _) _ _ => eapply wp_upd_bh; [here|]
  | |- wp (the_req _) _ _ => eapply wp_the_req; [here|]
  | |- wp (upd_req _ _) _ _ => eapply wp_upd_req; [here|]
  | |- wp (get_current _) _ _ => eapply wp_get_current; [here|]
  | |- wp (put_current _ _) _ _ => apply wp_put_current
  | |- wp get_st _ _ => apply wp_get_st
  | |- wp (mret _) _ _ => apply wp_ret
  | |- wp (of_opt (Some _)) _ _ => apply wp_ret
  | |- wp (modify _) _ _ => apply wp_modify
  end; blk_cbn.

Lemma do_rd_request_S fuel :
  do_rd_request (S fuel) =
    (oq ← INIT_REQUEST "ramdisk" 1;
    match oq with
    | None => mret tt
    | Some q =>
      d ← get_st;
      let addr := u32 (rd_start d + u32 (Z.shiftl (rq_sector q) 9)) in
      let len := Z.shiftl (rq_nr_sectors q) 9 in
      if negb (MINOR (rq_dev q) =? 1) || (rd_start d + rd_length d <? u32 (addr + len))
      then end_request 1 false ;; do_rd_request fuel
      else if addr <? rd_start d then fault
      else
        let off := Z.to_nat (addr - rd_start d) in
        buf ← of_opt (rq_buffer q);
        (if rq_cmd q =? WRITE then
           b ← the_bh buf;
           modify (λ d, set_rd_mem (splice off (take (Z.to_nat len) (b_data b)) (rd_mem d)) d)
         else if rq_cmd q =? READ then
           upd_bh buf (set_b_data (slice off (Z.to_nat len) (rd_mem d)))
         else panic "unknown ramdisk-command") ;;
        end_request 1 true ;;
        do_rd_request fuel
    end).
Proof. done. Qed.

Lemma rd_idle fuel d :
  current_request d !! 1%nat = Some None → do_rd_request (S fuel) d = Ret tt d.
Proof.
  intros H. rewrite do_rd_request_S. unfold INIT_REQUEST, get_current, mbind, M_bind. by rewrite H.
Qed.

(** the driver serves the one request in its queue *)
Lemma rd_serve fuel d r dev rw n i b :
  current_request d !! 1%nat = Some (Some r) →
  request_tab d !! r = Some (mk_req dev rw 0 (u32 (Z.shiftl n 1)) 2 (Some i) 0 (Some i) None) →
  buffers d !! i = Some b → b_lock b = true → MAJOR dev = 1 → 0 ≤ n < 65536 →
  0 ≤ dev < 65536 → 0 ≤ rd_start d → rd_start d + rd_length d < 2 ^ 31 → 0 ≤ rd_length d → rw = READ ∨ rw = WRITE →
  wp (do_rd_request (S (S fuel))) (λ _ d',
    d' = set_current_request (<[1%nat := None]> (current_request d))
      (set_request_tab (<[r := mk_req (-1) rw 0 (u32 (Z.shiftl n 1)) 2 (Some i) 0 (Some i) None]>
                          (request_tab d))
      (match rd_disk d dev n with
       | Some x =>
         set_buffers (<[i := set_b_lock false (set_b_uptodate true
                               (if rw =? WRITE then b else set_b_data x b))]> (buffers d))
          (set_rd_mem (if rw =? WRITE
             then splice (Z.to_nat (n * 1024)) (take 1024 (b_data b)) (rd_mem d)
             else rd_mem d) d)
       | None =>
         set_buffers (<[i := set_b_lock false (set_b_uptodate false b)]> (buffers d)) d
       end))) d.
Proof.
  intros Hcur Hr Hb Hlock Hmaj Hblk Hdev Hst Hend Hlen Hrw.
  destruct (rd_addr d n Hst Hend Hlen Hblk) as [Ha1 Ha2].
  assert (Hil : (i < length (buffers d))%nat) by (by eapply lookup_lt_Some).
  assert (Hrl : (r < length (request_tab d))%nat) by (by eapply lookup_lt_Some).
  assert (Hcl : (1 < length (current_request d))%nat) by (by eapply lookup_lt_Some).
  destruct d as [bufs tab cur fn start len mem]; blk_cbn_all.
  rewrite do_rd_request_S. unfold INIT_REQUEST, end_request, unlock_buffer.
  repeat blk_step. rewrite Hmaj. change (1 =? Z.of_nat 1) with true. cbn [negb].
  repeat blk_step. rewrite Hlock. repeat blk_step.
  rewrite Ha1, Ha2. unfold rd_disk; cbn [rd_length rd_mem rd_start]. rewrite Hmaj.
  replace ((1 =? 1) && (MINOR dev =? 1) && (0 <=? dev) && (dev <? 65536) && (0 <=? n)
     && (n * 1024 + 1024 <=? len))
    with (negb (negb (MINOR dev =? 1) || (start + len <? start + n * 1024 + 1024))) by lia.
  destruct (negb (MINOR dev =? 1) || _) eqn:Hrange; cbn [negb].
  - unfold when. repeat blk_step. eapply wp_eq; [apply rd_idle; here|].
    cbn. by rewrite !list_insert_insert_eq.
  - rewrite (proj2 (Z.ltb_ge _ _)) by lia. repeat blk_step. unfold when.
    replace (Z.to_nat (start + n * 1024 - start)) with (Z.to_nat (n * 1024)) by (f_equal; lia).
    replace (Z.to_nat (Z.shiftl 2 9)) with 1024%nat by done.
    destruct Hrw as [-> | ->]; cbn [Z.eqb READ WRITE Pos.eqb]; repeat blk_step;
      (eapply wp_eq; [apply rd_idle; here|]); cbn; by rewrite ?list_insert_insert_eq.
Qed.

(** everything [make_request] does when the RAM disk serves it *)
Lemma rd_transfer d i b rw0 rw :
  rd_ok d → buffers d !! i = Some b → b_lock b = false →
  dev_range (b_dev b) (b_blocknr b) → MAJOR (b_dev b) = 1 →
  rw0 = READA ∧ rw = READ ∨ rw0 = rw →
  rw = READ ∧ b_uptodate b = false ∨ rw = WRITE ∧ b_dirt b = true →
  wp (make_request 1 rw0 i) (λ _ d', rd_ok d' ∧
    rd_start d' = rd_start d ∧ rd_length d' = rd_length d ∧
    match rd_disk d (b_dev b) (b_blocknr b) with
    | None => rd_mem d' = rd_mem d ∧
       buffers d' = <[i := set_b_uptodate false (set_b_dirt false b)]> (buffers d)
    | Some x =>
       rd_mem d' = (if rw =? WRITE
                   then splice (Z.to_nat (b_blocknr b * 1024)) (take 1024 (b_data b)) (rd_mem d)
                   else rd_mem d) ∧
       buffers d' = <[i := set_b_uptodate true (set_b_dirt false
                             (if rw =? WRITE then b else set_b_data x b))]> (buffers d)
    end) d.
Proof.
  intros [Htab Hidle Hcur Hfn Hoth Hst Hlen Hend Hmem] Hb Hlock [Hdev Hblk] Hmaj Hrw0 Hrw.
  set (r := if rw =? READ then 31%nat else 20%nat).
  assert (Hr : free_request (if rw =? READ then NR_REQUEST else (NR_REQUEST * 2 / 3)%nat)
                 (request_tab d) = Some r).
  { subst r. by destruct (rw =? READ); (rewrite free_request_idle; [| |rewrite Htab; unfold NR_REQUEST; cbn; lia]). }
  assert (Hri : (r < length (request_tab d))%nat).
  { rewrite Htab. subst r. unfold NR_REQUEST. destruct (rw =? READ); lia. }
  destruct (lookup_lt_is_Some_2 _ r Hri) as [q0 Hq0].
  destruct d as [bufs tab cur fn start len mem]; blk_cbn_all.
  assert (Hil : (i < length bufs)%nat) by (by eapply lookup_lt_Some).
  assert (Hcl : (1 < length cur)%nat) by (by eapply lookup_lt_Some).
  unfold make_request, prepare_request, lock_buffer, add_request, queue_request, call_request_fn.
  repeat blk_step. rewrite Hlock, andb_false_r.
  assert ((if (rw0 =? READA) || (rw0 =? WRITEA) then if rw0 =? READA then READ else WRITE else rw0)
          = rw) as ->.
  { clear -Hrw0 Hrw. destruct Hrw0 as [[-> ->]| ->], Hrw as [[? ?]|[? ?]]; by subst. }
  assert (negb (rw =? READ) && negb (rw =? WRITE) = false) as -> by (destruct Hrw as [[-> ?]|[-> ?]]; done).
  repeat blk_step. rewrite Hlock. repeat blk_step.
  assert ((rw =? WRITE) && negb (b_dirt b) || (rw =? READ) && b_uptodate b = false) as ->
    by (destruct Hrw as [[-> ->]|[-> ->]]; done).
  repeat blk_step. rewrite Hr. repeat blk_step. unfold when. repeat blk_step. rewrite Hfn.
  eapply wp_mono; [eapply (rd_serve 31 _ r (b_dev b) rw (b_blocknr b) i); try here; cbn; try lia; tauto|].
  intros [] d' ->. cbn. unfold rd_disk; cbn.
  destruct (_ && _) eqn:Hrange; cbn; (split; [split; cbn|]); rewrite ?length_insert; try done.
  all: rewrite ?list_insert_insert_eq, ?list_lookup_insert_eq; try done; try lia.
  all: try by apply Forall_insert.
  - destruct (rw =? WRITE); [rewrite length_splice|]; rewrite ?length_take; lia.
  - repeat split. f_equal. destruct b; cbn in *; subst. by destruct (rw =? WRITE).
  - repeat split. f_equal. destruct b; cbn in *; by subst.
Qed.

(** a buffer that needs no transfer is locked and unlocked again *)
Lemma make_request_nop m d i b rw0 :
  buffers d !! i = Some b → b_lock b = false →
  rw0 = WRITE ∧ b_dirt b = false ∨ (rw0 = READ ∨ rw0 = READA) ∧ b_uptodate b = true →
  make_request m rw0 i d = Ret tt d.
Proof.
  intros Hb Hlock Hrw. assert (Hil : (i < length (buffers d))%nat) by (by eapply lookup_lt_Some).
  enough (wp (make_request m rw0 i) (λ _ d', d' = d) d) as ([]&d'&->&->)%wp_exists by done.
  destruct d as [bufs tab cur fn start len mem]; blk_cbn_all.
  unfold make_request, prepare_request, lock_buffer, unlock_buffer. repeat blk_step. rewrite Hlock, andb_false_r.
  destruct Hrw as [[-> Hd]|[[-> | ->] Hd]]; cbn [Z.eqb READ WRITE READA WRITEA Pos.eqb orb andb negb];
    repeat blk_step; rewrite Hlock; repeat blk_step; rewrite Hd; cbn [negb andb orb];
    repeat blk_step; unfold set_buffers; blk_cbn; rewrite list_insert_insert_eq, list_insert_id; try done;
    rewrite Hb; f_equal; destruct b; cbn in *; by subst.
Qed.

Lemma ll_rw_block_unfold rw i d b :
  buffers d !! i = Some b →
  ll_rw_block rw i d =
    (if (NR_BLK_DEV <=? MAJOR (b_dev b))
       || match request_fn d !! Z.to_nat (MAJOR (b_dev b)) with Some (Some _) => false | _ => true end
     then Ret tt d else make_request (Z.to_nat (MAJOR (b_dev b))) rw i d).
Proof.
  intros Hb. unfold ll_rw_block, the_bh, get_st, mbind, M_bind. rewrite Hb. cbn. by destruct (_ || _).
Qed.

(** only the RAM disk is registered *)
Lemma ll_rw_block_rd rw i d b :
  rd_ok d → buffers d !! i = Some b → 0 ≤ b_dev b < 65536 →
  ll_rw_block rw i d =
    if MAJOR (b_dev b) =? 1 then make_request 1 rw i d else Ret tt d.
Proof.
  intros Hok Hb Hdev. rewrite (ll_rw_block_unfold _ _ _ _ Hb).
  assert (0 ≤ MAJOR (b_dev b)).
  { apply Z.shiftr_nonneg. apply u32_bound. }
  destruct (Z.eqb_spec (MAJOR (b_dev b)) 1) as [->|Hne].
  - change (Z.to_nat 1) with 1%nat. rewrite (rdo_fn _ Hok). done.
  - destruct (rdo_other _ Hok (Z.to_nat (MAJOR (b_dev b)))) as [-> | ->];
      [lia| |]; by rewrite orb_true_r.
Qed.

Lemma rd_disk_major d dev n : MAJOR dev ≠ 1 → rd_disk d dev n = None.
Proof. intros H. unfold rd_disk. by rewrite (proj2 (Z.eqb_neq _ _) H). Qed.

(** device (1,1) is the only device number with these two halves *)
Lemma dev_eq a b :
  0 ≤ a < 65536 → 0 ≤ b < 65536 → MAJOR a = MAJOR b → MINOR a = MINOR b → a = b.
Proof.
  unfold MAJOR, MINOR. intros Ha Hb. rewrite !u32_id by lia.
  rewrite !Z.shiftr_div_pow2 by lia. change 255 with (Z.ones 8). rewrite !Z.land_ones by lia.
  intros H1 H2. pose proof (Z.div_mod a (2 ^ 8) ltac:(done)). pose proof (Z.div_mod b (2 ^ 8) ltac:(done)). lia.
Qed.

Lemma rd_disk_Some d dev n x :
  rd_disk d dev n = Some x →
  MAJOR dev = 1 ∧ MINOR dev = 1 ∧ 0 ≤ dev < 65536 ∧ 0 ≤ n ∧ n * 1024 + 1024 ≤ rd_length d ∧
  x = slice (Z.to_nat (n * 1024)) 1024 (rd_mem d).
Proof.
  unfold rd_disk. destruct (_ && _) eqn:E; [|done]. intros [= <-].
  rewrite !andb_true_iff in E. split_and!; try done; lia.
Qed.

Lemma rd_write_disk d d' dev n data :
  is_Some (rd_disk d dev n) → length data = 1024%nat →
  Z.of_nat (length (rd_mem d)) = rd_length d → rd_length d' = rd_length d →
  rd_mem d' = splice (Z.to_nat (n * 1024)) data (rd_mem d) →
  ∀ dev' n', rd_disk d' dev' n' = if decide (dev' = dev ∧ n' = n) then Some data else rd_disk d dev' n'.
Proof.
  intros [x (Hj & Hm & Hd & H0 & Hle & _)%rd_disk_Some] Hdata Hmem Hlen Hmem' dev' n'.
  unfold rd_disk. rewrite Hlen, Hmem'.
  destruct (_ && _) eqn:E; case_decide as Heq; try done.
  - destruct Heq as [-> ->]. f_equal. rewrite <- Hdata at 1. apply slice_splice_eq. lia.
  - f_equal. apply slice_splice_ne; [lia|].
    assert (n ≠ n'); [|lia]. intros <-. apply Heq. split; [|done].
    apply dev_eq; lia.
  - destruct Heq as [-> ->]. lia.
Qed.

Lemma rd_read_spec d i b rw :
  rd_ok d → buffers d !! i = Some b → b_lock b = false → b_dirt b = false →
  dev_range (b_dev b) (b_blocknr b) → rw = READ ∨ rw = READA →
  ∃ d', ll_rw_block rw i d = Ret tt d' ∧ rd_ok d' ∧ rd_disk d' = rd_disk d ∧
    buffers d' = <[i := read_result b (rd_disk d (b_dev b) (b_blocknr b))]> (buffers d).
Proof.
  intros Hok Hb Hlock Hdirt [Hdev Hblk] Hrw.
  rewrite (ll_rw_block_rd _ _ _ _ Hok Hb Hdev). unfold read_result.
  destruct (Z.eqb_spec (MAJOR (b_dev b)) 1) as [Hmaj|Hmaj]; cycle 1.
  { exists d. rewrite rd_disk_major by done. split_and!; try done.
    by destruct (b_uptodate b); rewrite list_insert_id. }
  destruct (b_uptodate b) eqn:Hup.
  { exists d. rewrite (make_request_nop _ _ _ b) by tauto.
    by rewrite list_insert_id. }
  destruct (proj1 (wp_exists _ _ _) (rd_transfer d i b rw READ Hok Hb Hlock (conj Hdev Hblk) Hmaj
     ltac:(tauto) ltac:(tauto))) as ([] & d' & -> & Hok' & Hs & Hl & Hm).
  exists d'. split; [done|]. split; [done|].
  destruct (rd_disk d (b_dev b) (b_blocknr b)); cbn in Hm; destruct Hm as [Hmem ->].
  all: assert (rd_disk d' = rd_disk d) as -> by (unfold rd_disk; by rewrite Hl, Hmem).
  all: split; [done|]; f_equal; destruct b; cbn in *; by subst.
Qed.
Lemma rd_write_spec d i b :
  rd_ok d → buffers d !! i = Some b → b_lock b = false →
  dev_range (b_dev b) (b_blocknr b) →
  is_Some (rd_disk d (b_dev b) (b_blocknr b)) → length (b_data b) = 1024%nat →
  ∃ d', ll_rw_block WRITE i d = Ret tt d' ∧ rd_ok d' ∧
    buffers d' = <[i := write_result b]> (buffers d) ∧
    ∀ dev n, rd_disk d' dev n =
      if decide (b_dirt b = true ∧ dev = b_dev b ∧ n = b_blocknr b)
      then Some (b_data b) else rd_disk d dev n.
Proof.
  intros Hok Hb Hlock [Hdev Hblk] [x Hx] Hdata.
  rewrite (ll_rw_block_rd _ _ _ _ Hok Hb Hdev). unfold write_result.
  destruct (rd_disk_Some _ _ _ _ Hx) as (Hmaj & _). rewrite Hmaj. cbn [Z.eqb Pos.eqb].
  destruct (b_dirt b) eqn:Hup; cycle 1.
  { exists d. rewrite (make_request_nop _ _ _ b) by tauto.
    rewrite list_insert_id by done. split_and!; [done..|]. intros. by rewrite decide_False by (intros [? _]; done). }
  destruct (proj1 (wp_exists _ _ _) (rd_transfer d i b WRITE WRITE Hok Hb Hlock (conj Hdev Hblk) Hmaj
     ltac:(tauto) ltac:(tauto))) as ([] & d' & -> & Hok' & Hs & Hl & Hm).
  exists d'. split; [done|]. split; [done|]. rewrite Hx in Hm. cbn in Hm. destruct Hm as [Hmem ->].
  split; [done|]. intros dev n.
  rewrite (rd_write_disk d d' (b_dev b) (b_blocknr b) (b_data b)); try done.
  - repeat case_decide; tauto.
  - by apply rdo_mem.
  - rewrite Hmem. by rewrite take_ge by lia.
Qed.

Lemma rd_disk_block d dev n x : rd_ok d → rd_disk d dev n = Some x → length x = 1024%nat.
Proof.
  intros Hok (?&?&?&?&?&->)%rd_disk_Some. apply length_slice. pose proof (rdo_mem _ Hok). lia.
Qed.

Lemma set_buffers_id d : set_buffers (buffers d) d = d.
Proof. by destruct d. Qed.

Lemma rd_ok_set l d : rd_ok d → rd_ok (set_buffers l d).
Proof. intros []. by constructor. Qed.

#[export] Instance ramdisk_ok : BlockDriverOk blk := {
  dv_ok := rd_ok;
  dv_bufs_set _ _ := eq_refl;
  dv_disk_set _ _ := eq_refl;
  dv_set_set _ _ _ := eq_refl;
  dv_set_id := set_buffers_id;
  dv_ok_set := rd_ok_set;
  dv_disk_block := rd_disk_block;
  dv_read := rd_read_spec;
  dv_write := rd_write_spec
}.
