(* ===== verification/DList.v ===== *)
(** * Linked lists threaded through a table of cells

    Lists whose cells are the entries of a table and whose links are indices
    into it: singly linked ones ([chain]), and doubly linked ones ([dll]) which
    may be circular. *)

From S2P Require Import Prelude Blk.

(** ** Singly linked lists

    [chain tab p l]: from [p] on, the fields [next] lead through the entries [l]
    of the table to a NULL pointer. *)
Section chain.
Context {A : Type} {next : A → ptr}.
Implicit Types (tab : list A) (p : ptr) (l : list nat).

Fixpoint chain (tab : list A) (p : ptr) (l : list nat) : Prop :=
  match l with
  | [] => p = None
  | r :: l' => p = Some r ∧ ∃ q, tab !! r = Some q ∧ chain tab (next q) l'
  end.

Lemma chain_unique tab p l l' : chain tab p l → chain tab p l' → l = l'.
Proof.
  revert p l'. induction l as [|r l IH]; intros p l' Hl Hl'; destruct l' as [|r' l']; cbn in *.
  - done.
  - destruct Hl' as [Hp _]. congruence.
  - destruct Hl as [Hp _]. congruence.
  - destruct Hl as (Hp & q & Hq & Hl), Hl' as (Hp' & q' & Hq' & Hl'). simplify_eq. f_equal. by eapply IH.
Qed.

(** the list from one of its entries on is a tail of it, so none is there twice *)
Lemma chain_tail tab p l1 r l2 : chain tab p (l1 ++ r :: l2) → chain tab (Some r) (r :: l2).
Proof.
  revert p. induction l1 as [|x l1 IH]; intros p; cbn.
  - intros (Hp & q & Hq & Hl). split; [done|]. by exists q.
  - intros (_ & q & _ & Hl). by eapply IH.
Qed.

Lemma chain_NoDup tab p l : chain tab p l → NoDup l.
Proof.
  revert p. induction l as [|r l IH]; intros p Hl; [constructor|].
  constructor; [|destruct Hl as (_ & q & _ & Hl); by eapply IH].
  intros (l1 & l2 & ->)%list_elem_of_split. pose proof (chain_tail tab p [] r (l1 ++ r :: l2) Hl) as H1.
  pose proof (chain_tail tab p (r :: l1) r l2 Hl) as H2.
  pose proof (chain_unique _ _ _ _ H1 H2) as Heq. apply (f_equal length) in Heq.
  cbn in Heq. rewrite length_app in Heq. cbn in Heq. lia.
Qed.

Lemma chain_lookup tab p l r : chain tab p l → r ∈ l → ∃ q, tab !! r = Some q.
Proof.
  revert p. induction l as [|x l IH]; intros p Hl Hr; [set_solver|]. destruct Hl as (_ & q & Hq & Hl).
  apply elem_of_cons in Hr as [->|Hr]; [by exists q|by eapply IH].
Qed.

(** a list is no longer than the table *)
Lemma chain_length tab p l : chain tab p l → (length l ≤ length tab)%nat.
Proof.
  intros Hl. transitivity (length (seq 0 (length tab))); [|by rewrite length_seq].
  apply submseteq_length, NoDup_submseteq.
  - by eapply chain_NoDup.
  - intros r Hr. destruct (chain_lookup _ _ _ _ Hl Hr) as [q Hq]. apply elem_of_seq.
    apply lookup_lt_Some in Hq. lia.
Qed.

(** changing another entry, or another field of an entry *)
Lemma chain_insert_ne tab p l r q : r ∉ l → chain tab p l → chain (<[r := q]> tab) p l.
Proof.
  revert p. induction l as [|x l IH]; intros p Hr Hl; [done|]. destruct Hl as (Hp & q' & Hq & Hl).
  split; [done|]. exists q'. split; [rewrite list_lookup_insert_ne by set_solver; done|]. apply IH; [set_solver|done].
Qed.
Lemma chain_insert tab p l r q q' : tab !! r = Some q → next q' = next q →
  chain tab p l → chain (<[r := q']> tab) p l.
Proof.
  intros Hr Hn. revert p. induction l as [|x l IH]; intros p Hl; [done|]. destruct Hl as (Hp & y & Hy & Hl).
  split; [done|]. destruct (decide (x = r)) as [->|Hne].
  - exists q'. split; [apply list_lookup_insert_eq; by eapply lookup_lt_Some|]. simplify_eq. rewrite Hn. by apply IH.
  - exists y. split; [by rewrite list_lookup_insert_ne|]. by apply IH.
Qed.
End chain.
Arguments chain {A} next tab p l.

(** ** Doubly linked lists

    [dll nx pv p xs n]: the cells [xs] are linked in this order by the fields
    [nx] and [pv]; the first cell points back to [p], the last on to [n]. *)
Definition dll (nx pv : nat → ptr) (p : ptr) (xs : list nat) (n : ptr) : Prop :=
  ∀ k i, xs !! k = Some i →
    pv i = match k with O => p | S k' => xs !! k' end ∧
    nx i = match xs !! S k with Some j => Some j | None => n end.

Section dll.
Implicit Types (xs ys : list nat).

Lemma dll_nil nx pv p n : dll nx pv p [] n.
Proof. by intros k i. Qed.

Lemma dll_app nx pv p xs ys n :
  dll nx pv p (xs ++ ys) n ↔
    dll nx pv p xs (match head ys with Some j => Some j | None => n end) ∧
    dll nx pv (match last xs with Some j => Some j | None => p end) ys n.
Proof.
  split.
  - intros Hd. split; intros k i Hk.
    + destruct (Hd k i) as [Hp Hn]; [by apply lookup_app_l_Some|].
      pose proof (lookup_lt_Some _ _ _ Hk). split.
      * rewrite Hp. destruct k; [done|]. by rewrite lookup_app_l by lia.
      * rewrite Hn. destruct (decide (S k < length xs)%nat).
        -- rewrite lookup_app_l by lia. by destruct (lookup_lt_is_Some_2 xs (S k)) as [? ->].
        -- rewrite lookup_app_r, (lookup_ge_None_2 xs) by lia.
           replace (S k - length xs)%nat with O by lia. by destruct ys.
    + destruct (Hd (length xs + k)%nat i) as [Hp Hn].
      { rewrite lookup_app_r by lia. by replace (length xs + k - length xs)%nat with k by lia. }
      split.
      * rewrite Hp. destruct k.
        -- rewrite Nat.add_0_r. rewrite last_lookup. destruct xs as [|x xs]; [done|].
           cbn [length pred]. rewrite lookup_app_l by (cbn; lia).
           destruct (lookup_lt_is_Some_2 (x :: xs) (length xs)) as [? ->]; [cbn; lia|done].
        -- rewrite Nat.add_succ_r. rewrite lookup_app_r by lia. f_equal. lia.
      * rewrite Hn. rewrite lookup_app_r by lia. by replace (S (length xs + k) - length xs)%nat with (S k) by lia.
  - intros [H1 H2] k i Hk. apply lookup_app_Some in Hk as [Hk|[Hge Hk]].
    + destruct (H1 k i Hk) as [Hp Hn]. pose proof (lookup_lt_Some _ _ _ Hk). split.
      * rewrite Hp. destruct k; [done|]. by rewrite lookup_app_l by lia.
      * rewrite Hn. destruct (decide (S k < length xs)%nat).
        -- rewrite lookup_app_l by lia. by destruct (lookup_lt_is_Some_2 xs (S k)) as [? ->].
        -- rewrite lookup_app_r, (lookup_ge_None_2 xs) by lia.
           replace (S k - length xs)%nat with O by lia. by destruct ys.
    + destruct (H2 _ i Hk) as [Hp Hn]. split.
      * rewrite Hp. destruct (k - length xs)%nat as [|k'] eqn:E.
        -- assert (k = length xs) as -> by lia. rewrite last_lookup. destruct xs as [|x xs]; [done|].
           cbn [length pred]. rewrite lookup_app_l by (cbn; lia).
           destruct (lookup_lt_is_Some_2 (x :: xs) (length xs)) as [? ->]; [cbn; lia|done].
        -- destruct k as [|k]; [lia|]. rewrite lookup_app_r by lia. f_equal. lia.
      * rewrite Hn. rewrite lookup_app_r by lia. by replace (S k - length xs)%nat with (S (k - length xs)) by lia.
Qed.

Lemma dll_singleton nx pv p x n : dll nx pv p [x] n ↔ pv x = p ∧ nx x = n.
Proof.
  split; [intros Hd; exact (Hd O x eq_refl)|].
  intros Hx [|k] i Hk; simplify_eq/=. done.
Qed.

(** moving the links at the two ends of a list *)
Lemma dll_ends nx pv nx' pv' p xs n p' n' :
  NoDup xs → dll nx pv p xs n →
  (∀ i, i ∈ xs → nx' i = if decide (last xs = Some i) then n' else nx i) →
  (∀ i, i ∈ xs → pv' i = if decide (head xs = Some i) then p' else pv i) →
  dll nx' pv' p' xs n'.
Proof.
  intros Hnd Hd Hnx Hpv k i Hk. destruct (Hd k i Hk) as [Hp Hn].
  assert (Hin : i ∈ xs) by (by eapply list_elem_of_lookup_2).
  rewrite Hnx, Hpv by done. rewrite Hp, Hn. clear Hd Hnx Hpv Hp Hn. split.
  - rewrite head_lookup. case_decide as E.
    + by rewrite (NoDup_lookup _ _ _ _ Hnd Hk E).
    + destruct k; [congruence|done].
  - rewrite last_lookup. case_decide as E.
    + rewrite (NoDup_lookup _ _ _ _ Hnd Hk E). apply lookup_lt_Some in Hk.
      by rewrite lookup_ge_None_2 by lia.
    + destruct (xs !! S k) eqn:E'; [done|].
      apply lookup_ge_None_1 in E'. pose proof (lookup_lt_Some _ _ _ Hk).
      exfalso. apply E. rewrite <- Hk. f_equal. lia.
Qed.

(** links outside the list do not matter *)
Lemma dll_ext nx pv nx' pv' p xs n :
  dll nx pv p xs n → (∀ i, i ∈ xs → nx' i = nx i ∧ pv' i = pv i) → dll nx' pv' p xs n.
Proof.
  intros Hd He k i Hk. destruct (He i) as [-> ->]; [by eapply list_elem_of_lookup_2|]. by apply Hd.
Qed.
End dll.
