(* ===== verification/Requests.v ===== *)
(** * The queues of requests

    The requests of a device are linked from [current_request] by their [next]
    fields.  [queued] gives the queue of a device as a list, and this file
    proves what the functions of the block-device layer do to it: [end_request]
    takes off the head, [queue_request] puts the new request where the elevator
    wants it.  The order of the elevator is kept: a queue is served in at most
    two sweeps over the disk. *)

From S2P Require Import Prelude Blk DList.

(** ** Linked requests *)
Abbreviation linked := (chain rq_next).

(** ** The elevator *)

(** the request with the fields the elevator looks at *)
Definition place (q : request) : Z * Z * Z := (rq_cmd q, rq_dev q, rq_sector q).

Lemma IN_ORDER_spec a b : IN_ORDER a b = true ↔
  rq_cmd a < rq_cmd b ∨ rq_cmd a = rq_cmd b ∧
    (rq_dev a < rq_dev b ∨ rq_dev a = rq_dev b ∧ rq_sector a < rq_sector b).
Proof. unfold IN_ORDER. by rewrite !orb_true_iff, !andb_true_iff, !orb_true_iff, !andb_true_iff, !Z.ltb_lt, !Z.eqb_eq. Qed.
Lemma IN_ORDER_irrefl a : IN_ORDER a a = false.
Proof. apply not_true_iff_false. rewrite IN_ORDER_spec. lia. Qed.
Lemma IN_ORDER_trans a b c : IN_ORDER a b = true → IN_ORDER b c = true → IN_ORDER a c = true.
Proof. rewrite !IN_ORDER_spec. lia. Qed.
Lemma IN_ORDER_total a b : place a ≠ place b → IN_ORDER a b = false → IN_ORDER b a = true.
Proof.
  intros Hne Hf. apply not_true_iff_false in Hf. rewrite IN_ORDER_spec in *.
  assert (rq_cmd a ≠ rq_cmd b ∨ rq_dev a ≠ rq_dev b ∨ rq_sector a ≠ rq_sector b); [|lia].
  destruct (decide (rq_cmd a = rq_cmd b)), (decide (rq_dev a = rq_dev b)), (decide (rq_sector a = rq_sector b)); auto.
  destruct Hne. unfold place. congruence.
Qed.

(** the place of [req] after the head [t] of a queue *)
Fixpoint elevate (req t : request) (l : list request) : list request :=
  match l with
  | [] => [req]
  | n :: l' =>
    if (IN_ORDER t req || negb (IN_ORDER t n)) && IN_ORDER req n then req :: n :: l'
    else n :: elevate req n l'
  end.

(** the number of sweeps over the disk in which a queue is served: the places
    where it does not go up, and one *)
Fixpoint descents (t : request) (l : list request) : nat :=
  match l with
  | [] => 0
  | n :: l' => (if IN_ORDER t n then 0 else 1) + descents n l'
  end.
Definition sweeps (l : list request) : nat :=
  match l with [] => 0 | t :: l' => 1 + descents t l' end.

Lemma place_cons req n l :
  place req ∉ place <$> (n :: l) ↔ place req ≠ place n ∧ place req ∉ place <$> l.
Proof. rewrite fmap_cons. apply not_elem_of_cons. Qed.

Lemma elevate_ascending req t l : place req ∉ place <$> l → descents t l = 0%nat →
  IN_ORDER t req = true → descents t (elevate req t l) = 0%nat.
Proof.
  revert t. induction l as [|n l IH]; intros t Hp Hd Ht; cbn [elevate descents] in *; [by rewrite Ht|].
  apply place_cons in Hp as [Hpn Hp].
  destruct (IN_ORDER t n) eqn:Hn; [|lia]. rewrite Ht. cbn [orb andb negb].
  destruct (IN_ORDER req n) eqn:Hr; cbn [descents]; [by rewrite Ht, Hr|]. rewrite Hn. apply IH; [done|done|].
  by apply IN_ORDER_total.
Qed.
Lemma elevate_below req t l : descents t l = 0%nat → IN_ORDER t req = false → IN_ORDER req t = true →
  elevate req t l = l ++ [req] ∧ descents t (l ++ [req]) = 1%nat.
Proof.
  revert t. induction l as [|n l IH]; intros t Hd Ht Ht'; cbn [elevate descents app] in *; [by rewrite Ht|].
  destruct (IN_ORDER t n) eqn:Hn; [|lia]. rewrite Ht. cbn [orb andb negb].
  assert (Hr : IN_ORDER req n = true) by (by eapply IN_ORDER_trans).
  destruct (IH n) as [-> ->]; [done| |done|done]. destruct (IN_ORDER n req) eqn:E; [|done].
  pose proof (IN_ORDER_trans _ _ _ E Hr) as Hx. by rewrite IN_ORDER_irrefl in Hx.
Qed.

(** after the head of a queue of two sweeps, the elevator finds a place for the
    new request in one of the two *)
Lemma elevate_descents req t l : place req ∉ place <$> (t :: l) → (descents t l ≤ 1)%nat →
  (descents t (elevate req t l) ≤ 1)%nat.
Proof.
  revert t. induction l as [|n l IH]; intros t Hp Hd; cbn [elevate descents] in *.
  { destruct (IN_ORDER t req); lia. }
  apply place_cons in Hp as [Hpt Hp]. destruct (IN_ORDER t n) eqn:Hn.
  - destruct (IN_ORDER t req) eqn:Ht; cbn [orb andb negb].
    + destruct (IN_ORDER req n) eqn:Hr; cbn [descents]; [rewrite Ht, Hr; lia|]. rewrite Hn. apply IH; [done|lia].
    + cbn [descents]. rewrite Hn. apply IH; [done|lia].
  - rewrite orb_true_r. cbn [andb]. apply place_cons in Hp as [Hpn Hp].
    destruct (IN_ORDER req n) eqn:Hr; cbn [descents].
    + rewrite Hr. destruct (IN_ORDER t req); lia.
    + rewrite Hn, elevate_ascending; [lia|done|lia|]. by apply IN_ORDER_total.
Qed.

Lemma elevate_split req t l : ∃ l1 l2, l = l1 ++ l2 ∧ elevate req t l = l1 ++ req :: l2.
Proof.
  revert t. induction l as [|n l IH]; intros t; cbn [elevate]; [by exists [], []|].
  destruct (_ && _); [by exists [], (n :: l)|]. destruct (IH n) as (l1 & l2 & -> & ->). by exists (n :: l1), l2.
Qed.

(** ** The queue of a device *)
Definition queued (major : nat) (l : list nat) (d : blk) : Prop :=
  ∃ p, current_request d !! major = Some p ∧ linked (request_tab d) p l.
Definition requests (tab : list request) (l : list nat) : list request := omap (λ r, tab !! r) l.

Lemma requests_app tab l l' : requests tab (l ++ l') = requests tab l ++ requests tab l'.
Proof. unfold requests. by rewrite omap_app. Qed.
Lemma requests_cons tab r q l : tab !! r = Some q → requests tab (r :: l) = q :: requests tab l.
Proof. intros Hr. unfold requests. cbn. by rewrite Hr. Qed.

Lemma requests_ext tab tab' l : (∀ r, r ∈ l → tab !! r = tab' !! r) → requests tab l = requests tab' l.
Proof.
  induction l as [|r l IH]; intros Hl; [done|].
  assert (requests tab l = requests tab' l) as E by (apply IH; intros x Hx; apply Hl; set_solver).
  destruct (tab' !! r) as [q|] eqn:Hr.
  - rewrite !(requests_cons _ r q), E by (by rewrite ?Hl by set_solver). done.
  - assert (tab !! r = None) as Hr' by (by rewrite Hl by set_solver).
    unfold requests in *. cbn. by rewrite Hr, Hr'.
Qed.
Lemma cons_eq {A} (x y : A) l k : x :: l = y :: k → x = y ∧ l = k.
Proof. by inversion 1. Qed.

(** the order of the elevator does not see the links *)
Lemma IN_ORDER_place a b a' b' : place a = place a' → place b = place b' → IN_ORDER a b = IN_ORDER a' b'.
Proof. unfold place, IN_ORDER. congruence. Qed.
Lemma descents_place t l t' l' : place t = place t' → place <$> l = place <$> l' → descents t l = descents t' l'.
Proof.
  revert t t' l'. induction l as [|n l IH]; intros t t' [|n' l'] Ht Hl; try done.
  rewrite !fmap_cons in Hl. apply cons_eq in Hl as [Hn Hl]. cbn [descents].
  by rewrite (IN_ORDER_place t n t' n' Ht Hn), (IH n n' l' Hn Hl).
Qed.
Lemma sweeps_place l l' : place <$> l = place <$> l' → sweeps l = sweeps l'.
Proof.
  destruct l as [|t l], l' as [|t' l']; try done. rewrite !fmap_cons. intros [Ht Hl]%cons_eq.
  cbn [sweeps]. f_equal. by apply descents_place.
Qed.
Lemma requests_place tab tab' l : (∀ r, place <$> tab !! r = place <$> tab' !! r) →
  place <$> requests tab l = place <$> requests tab' l.
Proof.
  intros Hp. induction l as [|r l IH]; [done|]. unfold requests in *. cbn. specialize (Hp r).
  destruct (tab !! r), (tab' !! r); try done. rewrite !fmap_cons. cbn in Hp. congruence.
Qed.

(** linking request [req] in after request [t] *)
Lemma linked_splice tab p k t q req qr l :
  linked tab p (k ++ t :: l) → tab !! t = Some q → tab !! req = Some qr → req ∉ k ++ t :: l →
  linked (<[t := set_rq_next (Some req) q]> (<[req := set_rq_next (rq_next q) qr]> tab)) p (k ++ t :: req :: l).
Proof.
  intros Hl Hq Hreq Hn. assert (Hnd := chain_NoDup _ _ _ Hl). revert p Hl Hn Hnd.
  assert (Hlt : (t < length tab)%nat) by (by eapply lookup_lt_Some).
  assert (Hlr : (req < length tab)%nat) by (by eapply lookup_lt_Some).
  induction k as [|x k IH]; intros p Hl Hn Hnd; cbn [app] in *.
  - apply not_elem_of_cons in Hn as [Hne Hn]. apply NoDup_cons in Hnd as [Hnt _].
    destruct Hl as (Hp & q' & Hq' & Hl). simplify_eq. split; [done|].
    exists (set_rq_next (Some req) q). split; [apply list_lookup_insert_eq; by rewrite length_insert|].
    split; [done|]. exists (set_rq_next (rq_next q) qr).
    split; [rewrite list_lookup_insert_ne by done; by apply list_lookup_insert_eq|].
    by apply chain_insert_ne, chain_insert_ne.
  - apply not_elem_of_cons in Hn as [Hne Hn]. apply NoDup_cons in Hnd as [Hnx Hnd].
    destruct Hl as (Hp & q' & Hq' & Hl). split; [done|]. exists q'.
    assert (x ≠ t) by (intros ->; apply Hnx, elem_of_app; right; apply elem_of_cons; by left).
    split; [by rewrite !list_lookup_insert_ne|]. by apply IH.
Qed.

Lemma elevator_run fuel d t q l req : request_tab d !! t = Some q → linked (request_tab d) (rq_next q) l →
  (length l < fuel)%nat →
  wp (elevator fuel t req) (λ u d', d' = d ∧ ∃ k l2 qu, t :: l = k ++ u :: l2 ∧ request_tab d !! u = Some qu ∧
    ∀ req', place req' = place req →
      q :: elevate req' q (requests (request_tab d) l) = requests (request_tab d) (k ++ [u]) ++ req' :: requests (request_tab d) l2) d.
Proof.
  revert t q l. induction fuel as [|fuel IH]; intros t q l Ht Hl Hf; [lia|]. cbn [elevator].
  apply wp_bind. eapply wp_the_req; [done|]. destruct l as [|n l].
  { cbn in Hl. rewrite Hl. apply wp_ret. split; [done|]. exists [], [], q. split; [done|]. split; [done|].
    intros req' _. cbn [app]. by rewrite (requests_cons _ _ q). }
  destruct Hl as (-> & qn & Hn & Hl). apply wp_bind. eapply wp_the_req; [done|].
  rewrite (requests_cons _ _ qn) by done. cbn [elevate]. destruct (_ && _) eqn:Hc.
  { apply wp_ret. split; [done|]. exists [], (n :: l), q. split; [done|]. split; [done|].
    intros req' Hp. rewrite (IN_ORDER_place q req' q req), (IN_ORDER_place req' qn req qn), Hc by done.
    cbn [app]. by rewrite (requests_cons _ t q), (requests_cons _ n qn). }
  eapply wp_mono; [eapply IH; [done|done|cbn in Hf; lia]|]. intros u d' (-> & k & l2 & qu & E & Hu & He).
  split; [done|]. exists (t :: k), l2, qu. split; [by rewrite E|]. split; [done|].
  intros req' Hp. rewrite (IN_ORDER_place q req' q req), (IN_ORDER_place req' qn req qn), Hc by done.
  cbn [app]. rewrite (requests_cons _ t q) by done. cbn [app]. by rewrite <- He.
Qed.

(** what [queue_request] does to the list: [req] comes after some request, the
    head at least, and where the elevator wants it *)
Definition enqueued (tab : list request) (req : nat) (q : request) (l l' : list nat) : Prop :=
  ∃ l1 l2, l = l1 ++ l2 ∧ l' = l1 ++ req :: l2 ∧ (l1 = [] → l = []) ∧
    match requests tab l with
    | [] => True
    | h :: t => requests tab l1 ++ q :: requests tab l2 = h :: elevate q h t
    end.

Lemma enqueued_sweeps tab req q l l' : place q ∉ place <$> requests tab l → tab !! req = Some q →
  (sweeps (requests tab l) ≤ 2)%nat → enqueued tab req q l l' → (sweeps (requests tab l') ≤ 2)%nat.
Proof.
  intros Hp Hq Hs (l1 & l2 & -> & -> & Hl1 & He). rewrite requests_app, (requests_cons _ _ q) by done.
  destruct (requests tab (l1 ++ l2)) as [|h t] eqn:E.
  - rewrite requests_app in E. apply app_eq_nil in E as [-> ->]. cbn. lia.
  - rewrite He. cbn [sweeps] in *. apply le_n_S, elevate_descents; [done|lia].
Qed.

(** what [queue_request] leaves as it was: the buffers but for the dirt of the
    one of the request, and the requests but for their links *)
Record relinked (major : nat) (q : request) (d d' : blk) : Prop := {
  rl_length : length (request_tab d') = length (request_tab d);
  rl_requests r : set_rq_next None <$> request_tab d' !! r = set_rq_next None <$> request_tab d !! r;
  rl_current m : m ≠ major → current_request d' !! m = current_request d !! m;
  rl_buffers : buffers d' = match rq_bh q with Some bh => alter (set_b_dirt false) bh (buffers d) | None => buffers d end
}.

Lemma alter_Some {A} (f : A → A) i (l : list A) x : l !! i = Some x → alter f i l = <[i := f x]> l.
Proof.
  intros Hx. apply list_eq. intros j. destruct (decide (i = j)) as [<-|Hne].
  - rewrite list_lookup_alter_eq, Hx, list_lookup_insert_eq; [done|]. by eapply lookup_lt_Some.
  - by rewrite list_lookup_alter_ne, list_lookup_insert_ne.
Qed.
Lemma set_next_insert (tab : list request) (r : nat) q (v : ptr) (x : nat) : tab !! r = Some q →
  set_rq_next None <$> (<[r := set_rq_next v q]> tab) !! x = set_rq_next None <$> tab !! x.
Proof.
  intros Hr. destruct (decide (x = r)) as [->|Hne]; [|by rewrite list_lookup_insert_ne].
  rewrite list_lookup_insert_eq by (by eapply lookup_lt_Some). by rewrite Hr.
Qed.

Lemma queue_request_run d major req q l :
  queued major l d → request_tab d !! req = Some q → req ∉ l → (length l ≤ NR_REQUEST)%nat →
  (∀ bh, rq_bh q = Some bh → is_Some (buffers d !! bh)) →
  wp (queue_request major req) (λ only d', only = bool_decide (l = []) ∧ relinked major q d d' ∧
    ∃ l', queued major l' d' ∧ enqueued (request_tab d) req q l l') d.
Proof.
  intros (p & Hp & Hl) Hreq Hn Hlen Hbh. unfold queue_request.
  set (q1 := set_rq_next None q). set (tab1 := <[req := q1]> (request_tab d)).
  set (bufs := match rq_bh q with Some bh => alter (set_b_dirt false) bh (buffers d) | None => buffers d end).
  set (d1 := set_buffers bufs (set_request_tab tab1 d)).
  assert (Hlr : (req < length (request_tab d))%nat) by (by eapply lookup_lt_Some).
  assert (Hreq1 : tab1 !! req = Some q1) by (by apply list_lookup_insert_eq).
  assert (Hl1 : linked tab1 p l) by (by apply chain_insert_ne).
  apply wp_bind. eapply wp_upd_req; [done|]. apply wp_bind. eapply wp_the_req; [done|].
  apply wp_bind. apply wp_mono with (λ _ d', d' = d1).
  { change (rq_bh q1) with (rq_bh q). unfold d1, bufs. destruct (rq_bh q) as [bh|]; [|by apply wp_ret; destruct d].
    destruct (Hbh bh eq_refl) as [b Hb]. eapply wp_upd_bh; [exact Hb|]. by rewrite (alter_Some _ _ _ b). }
  intros [] ? ->. apply wp_bind. eapply wp_get_current; [exact Hp|]. destruct l as [|t l].
  { cbn in Hl. subst p. apply wp_bind, wp_put_current, wp_ret. split; [done|]. split.
    - constructor; cbn; [apply length_insert|intros r; by apply set_next_insert| |done].
      intros m Hm. by rewrite list_lookup_insert_ne.
    - exists [req]. split.
      + exists (Some req). cbn. split; [apply list_lookup_insert_eq; by eapply lookup_lt_Some|]. split; [done|]. by exists q1.
      + exists [], []. by split_and!. }
  destruct Hl1 as (-> & qt & Ht & Hlt). apply wp_bind.
  eapply wp_mono; [apply (elevator_run _ _ _ qt l); [exact Ht|exact Hlt|cbn in Hlen; lia]|].
  intros u d' (-> & k & l2 & qu & E & Hu & He). apply wp_bind. eapply wp_the_req; [exact Hu|].
  assert (Hne : u ≠ req) by (intros ->; apply Hn; rewrite E; set_solver).
  apply wp_bind. eapply wp_upd_req; [exact Hreq1|]. apply wp_bind. eapply wp_upd_req.
  { cbn. rewrite list_lookup_insert_ne by done. exact Hu. }
  apply wp_ret. split; [done|]. cbn. change (request_tab d1) with tab1 in *.
  assert (Hut : request_tab d !! u = Some qu) by (unfold tab1 in Hu; by rewrite list_lookup_insert_ne in Hu).
  split.
  - constructor; cbn; [unfold tab1; by rewrite !length_insert| |done|done]. intros r.
    rewrite set_next_insert by (rewrite list_lookup_insert_ne by done; exact Hu).
    rewrite set_next_insert by done. unfold tab1. by apply set_next_insert.
  - exists (k ++ u :: req :: l2). split.
    + exists (Some t). split; [exact Hp|]. cbn. apply linked_splice; [|done|done|by rewrite <- E].
      rewrite <- E. split; [done|]. by exists qt.
    + exists (k ++ [u]), l2. rewrite <- !app_assoc. split; [done|]. split; [done|]. split; [by destruct k|].
      assert (Hre : ∀ l', (∀ r, r ∈ l' → r ≠ req) → requests tab1 l' = requests (request_tab d) l').
      { intros l' Hx. apply requests_ext. intros r Hr. unfold tab1. rewrite list_lookup_insert_ne; [done|].
        intros <-. by apply (Hx req). }
      assert (Hin : ∀ r, r ∈ t :: l → r ≠ req) by (by intros r Hr ->).
      assert (Ht' : request_tab d !! t = Some qt).
      { unfold tab1 in Ht. rewrite list_lookup_insert_ne in Ht; [done|]. symmetry. apply Hin. set_solver. }
      rewrite (requests_cons _ t qt) by done. symmetry.
      rewrite <- (Hre (k ++ [u])) by (intros r Hr; apply Hin; rewrite E; clear -Hr; set_solver).
      rewrite <- (Hre l2) by (intros r Hr; apply Hin; rewrite E; clear -Hr; set_solver).
      rewrite <- (Hre l) by (intros r Hr; apply Hin; clear -Hr; set_solver). by apply He.
Qed.

Lemma relinked_places major q d d' r : relinked major q d d' → place <$> request_tab d' !! r = place <$> request_tab d !! r.
Proof.
  intros Hr. pose proof (rl_requests _ _ _ _ Hr r) as E.
  destruct (request_tab d' !! r), (request_tab d !! r); try done. cbn in *. injection E. unfold place. congruence.
Qed.

(** C38. The elevator: a new request is linked into the queue of its device
    behind the request that is being served, so that a queue of at most two
    sweeps over the disk stays one: no request is overtaken for longer than the
    present sweep and the next.  Nothing else changes but the links of the
    requests, and the buffer of the new request, which is no longer dirty. *)
Theorem elevator_two_sweeps (d : blk) (major req : nat) (q : request) (l : list nat) :
  length (request_tab d) = NR_REQUEST → queued major l d → request_tab d !! req = Some q → req ∉ l →
  (∀ bh, rq_bh q = Some bh → is_Some (buffers d !! bh)) →
  place q ∉ place <$> requests (request_tab d) l → (sweeps (requests (request_tab d) l) ≤ 2)%nat →
  wp (queue_request major req) (λ only d', only = bool_decide (l = []) ∧ relinked major q d d' ∧
    ∃ l1 l2, l = l1 ++ l2 ∧ (l1 = [] → l = []) ∧ queued major (l1 ++ req :: l2) d' ∧
      (sweeps (requests (request_tab d') (l1 ++ req :: l2)) ≤ 2)%nat) d.
Proof.
  intros Hlen Hl Hreq Hn Hbh Hp Hs. assert (length l ≤ NR_REQUEST)%nat.
  { rewrite <- Hlen. destruct Hl as (p & _ & Hl). by eapply chain_length. }
  eapply wp_mono; [by eapply queue_request_run|]. intros only d' (-> & Hr & l' & Hq & He).
  split; [done|]. split; [done|]. pose proof (enqueued_sweeps _ _ _ _ _ Hp Hreq Hs He) as Hs'.
  destruct He as (l1 & l2 & -> & -> & Hl1 & _). exists l1, l2. split; [done|]. split; [done|]. split; [done|].
  rewrite (sweeps_place _ (requests (request_tab d) (l1 ++ req :: l2))); [done|].
  apply requests_place. intros r. by eapply relinked_places.
Qed.

Definition demo_req (sec : Z) (next : ptr) : request := mk_req 0x301 READ 0 sec 2 None 0 None next.
(** requests for the sectors 50, 80 and 20, and a new one for 60 *)
Definition demo_queue : blk :=
  mk_blk [] ([demo_req 50 (Some 2%nat); demo_req 60 None; demo_req 80 (Some 3%nat); demo_req 20 None] ++
             replicate 28 (set_rq_dev (-1) (demo_req 0 None)))
    (<[3%nat := Some 0%nat]> (replicate 7 None)) (replicate 7 None) 0 0 [].

Lemma elevator_two_sweeps_witness :
  wp (queue_request 3 1) (λ only d', only = bool_decide ([0; 2; 3]%nat = []) ∧ relinked 3 (demo_req 60 None) demo_queue d' ∧
    ∃ l1 l2, [0; 2; 3]%nat = l1 ++ l2 ∧ (l1 = [] → [0; 2; 3]%nat = []) ∧ queued 3 (l1 ++ 1%nat :: l2) d' ∧
      (sweeps (requests (request_tab d') (l1 ++ 1%nat :: l2)) ≤ 2)%nat) demo_queue ∧
  match queue_request 3 1 demo_queue with
  | Ret only d' => only = false ∧ rq_next <$> take 4 (request_tab d') = [Some 1; Some 2; Some 3; None]%nat
  | _ => False
  end.
Proof.
  split; [|vm_compute; split; reflexivity].
  apply (elevator_two_sweeps demo_queue 3 1 (demo_req 60 None) [0; 2; 3]%nat); [reflexivity| |reflexivity| | | |].
  - exists (Some 0%nat). split; [reflexivity|]. split; [reflexivity|]. eexists. split; [reflexivity|].
    split; [reflexivity|]. eexists. split; [reflexivity|]. split; [reflexivity|]. eexists. split; reflexivity.
  - clear. set_solver.
  - discriminate.
  - apply (bool_decide_unpack _). vm_compute. exact I.
  - apply (bool_decide_unpack _). vm_compute. exact I.
Defined.

(** ** Drivers always end

    A driver only ever takes requests off the head of its queue and changes
    their fields.  What that needs: the queue of the device is [l], the
    requests in it are in use, and all requests satisfy [P], a property that
    new requests have and that does not depend on device and link. *)
Class RequestProp (P : request → Prop) := {
  rp_new dev cmd sec nr buf off bh next : P (mk_req dev cmd 0 sec nr buf off bh next);
  rp_dev v q : P q → P (set_rq_dev v q);
  rp_next v q : P q → P (set_rq_next v q)
}.

Record served (P : request → Prop) (major : nat) (l : list nat) (d : blk) : Prop := {
  sd_length : length (request_tab d) = NR_REQUEST;
  sd_queued : queued major l d;
  sd_used r q : r ∈ l → request_tab d !! r = Some q → 0 ≤ rq_dev q;
  sd_prop r q : request_tab d !! r = Some q → P q;
  sd_devs i b : buffers d !! i = Some b → 0 ≤ b_dev b
}.

Lemma ends_the_bh i (Q : buffer_head → blk → Prop) d :
  (∀ b, buffers d !! i = Some b → Q b d) → ends (the_bh i) Q d.
Proof. unfold ends, the_bh. destruct (buffers d !! i); cbn; auto. Qed.
Lemma ends_upd_bh i f (Q : unit → blk → Prop) d :
  (∀ b, buffers d !! i = Some b → Q tt (set_buffers (<[i := f b]> (buffers d)) d)) → ends (upd_bh i f) Q d.
Proof. unfold ends, upd_bh. destruct (buffers d !! i); cbn; auto. Qed.
Lemma ends_the_req i (Q : request → blk → Prop) d :
  (∀ q, request_tab d !! i = Some q → Q q d) → ends (the_req i) Q d.
Proof. unfold ends, the_req. destruct (request_tab d !! i); cbn; auto. Qed.
Lemma ends_upd_req i f (Q : unit → blk → Prop) d :
  (∀ q, request_tab d !! i = Some q → Q tt (set_request_tab (<[i := f q]> (request_tab d)) d)) → ends (upd_req i f) Q d.
Proof. unfold ends, upd_req. destruct (request_tab d !! i); cbn; auto. Qed.
Lemma ends_get_current m (Q : ptr → blk → Prop) d :
  (∀ p, current_request d !! m = Some p → Q p d) → ends (get_current m) Q d.
Proof. unfold ends, get_current. destruct (current_request d !! m); cbn; auto. Qed.

Section served.
Context {P : request → Prop} `{RequestProp P} (major : nat).
Implicit Types (d : blk) (l : list nat).

Lemma served_buf l d i b b' : served P major l d → buffers d !! i = Some b → b_dev b' = b_dev b →
  served P major l (set_buffers (<[i := b']> (buffers d)) d).
Proof.
  intros [Hlen Hq Hu Hp Hd] Hb Hdev. constructor; try done. cbn. intros j y Hy.
  destruct (decide (j = i)) as [->|Hne]; [|rewrite list_lookup_insert_ne in Hy by done; by eapply Hd].
  rewrite list_lookup_insert_eq in Hy by (by eapply lookup_lt_Some). simplify_eq. rewrite Hdev. by eapply Hd.
Qed.

Lemma served_req l d r q q' : served P major l d → request_tab d !! r = Some q → P q' →
  (r ∈ l → rq_next q' = rq_next q ∧ 0 ≤ rq_dev q') → served P major l (set_request_tab (<[r := q']> (request_tab d)) d).
Proof.
  intros [Hlen (p & Hc & Hl) Hu Hp Hd] Hr HP Hin.
  assert (Hlt : (r < length (request_tab d))%nat) by (by eapply lookup_lt_Some).
  assert (Hlook : ∀ x y, (<[r := q']> (request_tab d)) !! x = Some y → x = r ∧ y = q' ∨ request_tab d !! x = Some y).
  { intros x y. destruct (decide (x = r)) as [->|Hne].
    - rewrite list_lookup_insert_eq by done. intros [= <-]. by left.
    - rewrite list_lookup_insert_ne by done. by right. }
  constructor; cbn; [by rewrite length_insert| | | |done].
  - exists p. split; [done|]. destruct (decide (r ∈ l)) as [Hx|Hx]; [|by apply chain_insert_ne].
    eapply chain_insert; [done|by apply Hin|done].
  - intros x y Hx [[-> ->]|Hy]%Hlook; [by apply Hin|by eapply Hu].
  - intros x y [[-> ->]|Hy]%Hlook; [done|by eapply Hp].
Qed.

Lemma served_length l d : served P major l d → (length l ≤ NR_REQUEST)%nat.
Proof. intros [<- (p & _ & Hl) _ _ _]. by eapply chain_length. Qed.

(** the request that is being served *)
Lemma served_head l d p : served P major l d → current_request d !! major = Some p →
  match p with
  | None => l = []
  | Some r => ∃ l', l = r :: l' ∧ r ∉ l' ∧ ∃ q, request_tab d !! r = Some q ∧ linked (request_tab d) (rq_next q) l'
  end.
Proof.
  intros [_ (p' & Hc & Hl) _ _ _] Hp. simplify_eq. pose proof (chain_NoDup _ _ _ Hl) as Hnd.
  destruct l as [|r l]; cbn in Hl; [by subst|]. destruct Hl as (-> & q & Hq & Hl). apply NoDup_cons in Hnd as [Hr _].
  exists l. split; [done|]. split; [done|]. by exists q.
Qed.

Lemma ends_end_request l d uptodate : served P major l d →
  ends (end_request major uptodate) (λ _ d', ∃ r, l = r :: tail l ∧ served P major (tail l) d') d.
Proof.
  intros Hs. unfold end_request, unlock_buffer.
  ends_step. apply ends_get_current. intros p Hp. pose proof (served_head _ _ _ Hs Hp) as Hh.
  ends_steps. subst p. destruct Hh as (l' & -> & Hr & q & Hq & Hl). apply ends_the_req. intros q' Hq'. assert (q' = q) as -> by congruence. clear Hq'.
  cbn [tail]. ends_step.
  assert (Hrest : ∀ d0, request_tab d0 = request_tab d → current_request d0 = current_request d → served P major (a :: l') d0 →
    ends (when (negb uptodate) (_ ← of_opt (rq_bh q); mret tt) ;;
      upd_req a (set_rq_dev (-1)) ;; put_current major (rq_next q))
      (λ _ d', ∃ r, a :: l' = r :: l' ∧ served P major l' d') d0).
  { intros d0 Ht Hc Hs0.
    assert (Hgo : ends (upd_req a (set_rq_dev (-1)) ;; put_current major (rq_next q))
      (λ _ d', ∃ r, a :: l' = r :: l' ∧ served P major l' d') d0).
    { ends_step. apply ends_upd_req. rewrite Ht. intros q0 Hq0. assert (q0 = q) as -> by congruence. exists a. split; [done|].
      destruct Hs0 as [Hlen _ Hu Hpp Hd]. rewrite Ht in *.
      assert (Hlook : ∀ x y, (<[a := set_rq_dev (-1) q]> (request_tab d)) !! x = Some y →
        x = a ∧ y = set_rq_dev (-1) q ∨ x ≠ a ∧ request_tab d !! x = Some y).
      { intros x y. destruct (decide (x = a)) as [->|Hne].
        - rewrite list_lookup_insert_eq by (by eapply lookup_lt_Some). intros [= <-]. by left.
        - rewrite list_lookup_insert_ne by done. by right. }
      constructor; cbn; [by rewrite length_insert| | | |done].
      - exists (rq_next q). cbn. rewrite Hc. split; [apply list_lookup_insert_eq; by eapply lookup_lt_Some|].
        eapply chain_insert; [done| |done]. done.
      - intros x y Hx [[-> _]|[_ Hy]]%Hlook; [done|]. eapply Hu; [by apply elem_of_cons; right|done].
      - intros x y [[-> ->]|[_ Hy]]%Hlook; [apply rp_dev; by eapply Hpp|by eapply Hpp]. }
    ends_step. apply ends_when; intros; [|exact Hgo]. do 3 ends_step. exact Hgo. }
  destruct (rq_bh q) as [bh|] eqn:Hbh; [|ends_step; by apply Hrest].
  ends_step. apply ends_upd_bh. intros b Hb. apply ends_upd_bh. cbn. intros b' Hb'. apply Hrest; [done|done|].
  pose proof (served_buf _ _ _ b (set_b_uptodate uptodate b) Hs Hb eq_refl) as H1.
  exact (served_buf _ _ bh b' (set_b_lock false b') H1 Hb' eq_refl).
Qed.

Lemma ends_INIT_REQUEST name l d : served P major l d →
  ends (INIT_REQUEST name major) (λ o d', d' = d ∧
    match o with
    | None => l = []
    | Some q => ∃ r l', l = r :: l' ∧ current_request d !! major = Some (Some r) ∧ request_tab d !! r = Some q
    end) d.
Proof.
  intros Hs. unfold INIT_REQUEST. ends_step. apply ends_get_current. intros p Hp.
  pose proof (served_head _ _ _ Hs Hp) as Hh. destruct p as [r|]; [|by ends_step].
  destruct Hh as (l' & -> & _ & q & Hq & _). ends_step. apply ends_the_req. intros q' Hq'.
  assert (q' = q) as -> by congruence. ends_step. destruct (_ =? _); [ends_step|done].
  destruct (rq_bh q); [|ends_step; split; [done|by exists r, l']].
  ends_step. apply ends_the_bh. intros b Hb. destruct (b_lock b); [|done]. ends_step. split; [done|by exists r, l'].
Qed.

Lemma free_request_free n tab r : free_request n tab = Some r → ∃ q, tab !! r = Some q ∧ rq_dev q < 0.
Proof.
  induction n as [|n IH]; [done|]. cbn. destruct (tab !! n) as [q|] eqn:E; [|done].
  destruct (Z.ltb_spec (rq_dev q) 0); [|done]. intros [= <-]. by exists q.
Qed.

Lemma ends_prepare_request l rw bh d : served P major l d →
  ends (prepare_request rw bh) (λ o d', served P major l d' ∧
    match o with
    | None => True
    | Some r => r ∉ l ∧ ∃ q, request_tab d' !! r = Some q ∧ 0 ≤ rq_dev q
    end) d.
Proof.
  intros Hs. unfold prepare_request, lock_buffer, unlock_buffer. ends_step. apply ends_the_bh. intros b0 Hb0.
  destruct (_ && b_lock b0); [by ends_step|]. match goal with |- context [negb (?x =? READ)] => generalize x; intros rw1 end.
  destruct (negb _ && negb _); [done|]. do 2 ends_step. apply ends_the_bh. intros b1 Hb1.
  destruct (b_lock b1); [done|]. apply ends_upd_bh. intros b2 Hb2.
  pose proof (served_buf _ _ _ b2 (set_b_lock true b2) Hs Hb2 eq_refl) as Hs1.
  ends_step. apply ends_the_bh. intros b Hb.
  assert (Hunlock : ends (upd_bh bh (set_b_lock false) ;; mret None) (λ (o : option nat) d', served P major l d' ∧
    match o with None => True | Some r => r ∉ l ∧ ∃ q, request_tab d' !! r = Some q ∧ 0 ≤ rq_dev q end)
    (set_buffers (<[bh := set_b_lock true b2]> (buffers d)) d)).
  { ends_step. apply ends_upd_bh. intros b3 Hb3. ends_step. split; [|done].
    exact (served_buf _ _ bh b3 (set_b_lock false b3) Hs1 Hb3 eq_refl). }
  destruct (_ || _); [exact Hunlock|]. do 2 ends_step.
  destruct (free_request _ _) as [r|] eqn:Hfree; [|by destruct (_ || _)].
  destruct (free_request_free _ _ _ Hfree) as (q & Hq & Hneg).
  assert (Hr : r ∉ l) by (intros Hr; pose proof (sd_used _ _ _ _ Hs1 r q Hr Hq); lia).
  ends_step. apply ends_upd_req. intros q' Hq'. ends_step. split.
  - by apply (served_req _ _ r q'); [exact Hs1|exact Hq'|apply rp_new|].
  - split; [done|]. eexists. split; [apply list_lookup_insert_eq; by eapply lookup_lt_Some|]. cbn.
    exact (sd_devs _ _ _ _ Hs1 bh b Hb).
Qed.

Lemma served_relinked l1 l2 req q d d' : served P major (l1 ++ l2) d → request_tab d !! req = Some q → 0 ≤ rq_dev q →
  relinked major q d d' → queued major (l1 ++ req :: l2) d' → served P major (l1 ++ req :: l2) d'.
Proof.
  intros [Hlen _ Hu Hp Hd] Hreq Hdev [Hlen' Hrq _ Hbufs] Hq.
  assert (Hlook : ∀ r x, request_tab d' !! r = Some x → ∃ y, request_tab d !! r = Some y ∧ x = set_rq_next (rq_next x) y).
  { intros r x Hx. specialize (Hrq r). rewrite Hx in Hrq. destruct (request_tab d !! r) as [y|]; [|done].
    exists y. split; [done|]. destruct x, y. cbn in Hrq. by inversion Hrq. }
  constructor; [congruence|done| | |].
  - intros r x Hr Hx. destruct (Hlook r x Hx) as (y & Hy & ->). change (rq_dev (set_rq_next _ y)) with (rq_dev y).
    destruct (decide (r = req)) as [->|Hne]; [congruence|]. apply (Hu r); [|done].
    clear -Hr Hne. set_solver.
  - intros r x Hx. destruct (Hlook r x Hx) as (y & Hy & ->). apply rp_next. by eapply Hp.
  - intros i b. rewrite Hbufs. destruct (rq_bh q) as [bh|]; [|by apply Hd].
    destruct (decide (i = bh)) as [->|Hne]; [|rewrite list_lookup_alter_ne by done; by apply Hd].
    rewrite list_lookup_alter_eq. destruct (buffers d !! bh) as [b0|] eqn:Hb0; [|done].
    intros [= <-]. by eapply (Hd bh b0).
Qed.

Lemma ends_queue_request l req q d : served P major l d → req ∉ l → request_tab d !! req = Some q → 0 ≤ rq_dev q →
  ends (queue_request major req) (λ _ d', ∃ l1 l2, l = l1 ++ l2 ∧ served P major (l1 ++ req :: l2) d') d.
Proof.
  intros Hs Hn Hreq Hdev.
  pose proof (served_length _ _ Hs) as Hlen.
  assert (Hbh : (∀ bh, rq_bh q = Some bh → is_Some (buffers d !! bh)) ∨ ∃ bh, rq_bh q = Some bh ∧ buffers d !! bh = None).
  { destruct (rq_bh q) as [bh|]; [|by left]. destruct (buffers d !! bh) as [b|] eqn:E; [left; intros ? [= <-]; by exists b|].
    right. by exists bh. }
  destruct Hbh as [Hbh|(bh & Eb & Hbh)].
  - apply ends_wp. eapply wp_mono; [by apply (queue_request_run _ _ _ q _ (sd_queued _ _ _ _ Hs))|].
    intros _ d' (_ & Hr & l' & Hq & l1 & l2 & -> & -> & _). exists l1, l2. split; [done|]. by eapply served_relinked.
  - unfold queue_request. ends_step. apply ends_upd_req. intros q' Hq'. assert (q' = q) as -> by congruence.
    ends_step. apply ends_the_req. cbn. rewrite list_lookup_insert_eq by (by eapply lookup_lt_Some).
    intros ? [= <-]. change (rq_bh (set_rq_next None q)) with (rq_bh q). rewrite Eb.
    ends_step. apply ends_upd_bh. cbn. congruence.
Qed.
End served.
