(* ===== verification/Ports.v ===== *)
(** * Ports

    The devices of the machine, with which the drivers talk by reading and
    writing ports, are outside the kernel: a driver is modelled over any state
    [W] of the outside world with the effects of the four kinds of access. *)

From S2P Require Import Prelude.

Class Ports (W : Type) := {
  port_inb : Z → W → Z * W;
  port_outb : Z → Z → W → W;
  port_insw : Z → nat → W → bytes * W;
  port_outsw : Z → bytes → W → W
}.
