(* ===== verification/Hd.v ===== *)
(** * The hard-disk driver

    Models [linux-0.11/kernel/blk_drv/hd.c] and [hd_interrupt] of
    [kernel/system_call.s], with the registers of [include/linux/hdreg.h].

    The controller is a device outside the kernel: an argument of the model
    ([Ports]), with which the driver talks by reading and writing ports.  The
    driver is a state machine: [do_hd_request] starts a command and names the
    function that is to run at the next interrupt ([do_hd]).  The messages
    printed and the delays are left out.

    [hd_ll_rw_block] is the way from [ll_rw_block] to this driver: the parts of
    [make_request] and [add_request] that do not depend on the device are those
    of the file Blk. *)

From S2P Require Import Prelude Ports Blk.

(** ** Registers *)
Definition HD_DATA : Z := 0x1f0.
Definition HD_ERROR : Z := 0x1f1.
Definition HD_STATUS : Z := 0x1f7.
Definition HD_CMD : Z := 0x3f6.
Definition ERR_STAT : Z := 0x01.
Definition DRQ_STAT : Z := 0x08.
Definition SEEK_STAT : Z := 0x10.
Definition WRERR_STAT : Z := 0x20.
Definition READY_STAT : Z := 0x40.
Definition BUSY_STAT : Z := 0x80.
Definition WIN_RESTORE : Z := 0x10.
Definition WIN_READ : Z := 0x20.
Definition WIN_WRITE : Z := 0x30.
Definition WIN_SPECIFY : Z := 0x91.
Definition MAX_ERRORS : Z := 7.
Definition HD_MAJOR : nat := 3.

(** ** State *)

(** [struct hd_i_struct] and [struct hd_struct]: a drive, and a partition *)
Record hd_i_struct := mk_hdi { hd_head : Z; hd_sect : Z; hd_cyl : Z; hd_wpcom : Z; hd_lzone : Z; hd_ctl : Z }.
Record hd_struct := mk_hds { start_sect : Z; nr_sects : Z }.

(** what [do_hd] can point to *)
Inductive hd_handler := h_read_intr | h_write_intr | h_recal_intr.

(** the globals of hd.c, with the block-device layer and the outside world *)
Record hd_state (W : Type) := mk_hd {
  hd_blk : blk;
  hd_ports : W;
  recalibrate : bool;
  reset : bool;
  hd_info : list hd_i_struct;
  NR_HD : Z;
  hd : list hd_struct;
  do_hd : option hd_handler;
  hd_registered : bool
}.
Arguments mk_hd {W}.
Arguments hd_blk {W}. Arguments hd_ports {W}. Arguments recalibrate {W}. Arguments reset {W}.
Arguments hd_info {W}. Arguments NR_HD {W}. Arguments hd {W}. Arguments do_hd {W}. Arguments hd_registered {W}.

Section setters.
Context {W : Type}.
Definition set_hd_blk (v : blk) (x : hd_state W) : hd_state W :=
  mk_hd v (hd_ports x) (recalibrate x) (reset x) (hd_info x) (NR_HD x) (hd x) (do_hd x) (hd_registered x).
Definition set_hd_ports (v : W) (x : hd_state W) : hd_state W :=
  mk_hd (hd_blk x) v (recalibrate x) (reset x) (hd_info x) (NR_HD x) (hd x) (do_hd x) (hd_registered x).
Definition set_recalibrate (v : bool) (x : hd_state W) : hd_state W :=
  mk_hd (hd_blk x) (hd_ports x) v (reset x) (hd_info x) (NR_HD x) (hd x) (do_hd x) (hd_registered x).
Definition set_reset (v : bool) (x : hd_state W) : hd_state W :=
  mk_hd (hd_blk x) (hd_ports x) (recalibrate x) v (hd_info x) (NR_HD x) (hd x) (do_hd x) (hd_registered x).
Definition set_hd_info (v : list hd_i_struct) (x : hd_state W) : hd_state W :=
  mk_hd (hd_blk x) (hd_ports x) (recalibrate x) (reset x) v (NR_HD x) (hd x) (do_hd x) (hd_registered x).
Definition set_NR_HD (v : Z) (x : hd_state W) : hd_state W :=
  mk_hd (hd_blk x) (hd_ports x) (recalibrate x) (reset x) (hd_info x) v (hd x) (do_hd x) (hd_registered x).
Definition set_hd (v : list hd_struct) (x : hd_state W) : hd_state W :=
  mk_hd (hd_blk x) (hd_ports x) (recalibrate x) (reset x) (hd_info x) (NR_HD x) v (do_hd x) (hd_registered x).
Definition set_do_hd (v : option hd_handler) (x : hd_state W) : hd_state W :=
  mk_hd (hd_blk x) (hd_ports x) (recalibrate x) (reset x) (hd_info x) (NR_HD x) (hd x) v (hd_registered x).
Definition set_hd_registered (v : bool) (x : hd_state W) : hd_state W :=
  mk_hd (hd_blk x) (hd_ports x) (recalibrate x) (reset x) (hd_info x) (NR_HD x) (hd x) (do_hd x) v.
End setters.

Section hd.
Context {W : Type} `{Ports W}.
Abbreviation st := (hd_state W).

Definition on_blk {A} (m : M blk A) : M st A := λ s,
  match m (hd_blk s) with
  | Ret a d => Ret a (set_hd_blk d s)
  | Panic w => Panic w
  | Sleep d => Sleep (set_hd_blk d s)
  | Exit c d => Exit c (set_hd_blk d s)
  | Fault => Fault
  | NoFuel => NoFuel
  end.
Definition inb (port : Z) : M st Z := λ s,
  let '(v, w) := port_inb port (hd_ports s) in Ret v (set_hd_ports w s).
Definition outb (v port : Z) : M st unit := modify (λ s, set_hd_ports (port_outb port (u8 v) (hd_ports s)) s).

(** the request at the head of the queue: [CURRENT]; a NULL pointer that is
    dereferenced is a fault *)
Definition CURRENT : M st nat := p ← on_blk (get_current HD_MAJOR); of_opt p.
Definition the_current_req : M st request := r ← CURRENT; on_blk (the_req r).
Definition upd_current_req (f : request → request) : M st unit := r ← CURRENT; on_blk (upd_req r f).

(** [port_read(HD_DATA,CURRENT->buffer,256)] and [port_write] *)
Definition port_read : M st unit :=
  q ← the_current_req;
  buf ← of_opt (rq_buffer q);
  d ← (λ s, let '(d, w) := port_insw HD_DATA 256 (hd_ports s) in Ret d (set_hd_ports w s));
  on_blk (upd_bh buf (λ b, set_b_data (splice (Z.to_nat (rq_off q)) d (b_data b)) b)).
Definition port_write : M st unit :=
  q ← the_current_req;
  buf ← of_opt (rq_buffer q);
  b ← on_blk (the_bh buf);
  modify (λ s, set_hd_ports (port_outsw HD_DATA (slice (Z.to_nat (rq_off q)) 512 (b_data b)) (hd_ports s)) s).

(** ** Talking to the controller *)
Fixpoint controller_loop (retries : nat) : M st Z :=
  match retries with
  | O | S O => mret 0
  | S retries' =>
    i ← inb HD_STATUS;
    if Z.land i 0xc0 =? 0x40 then mret (Z.of_nat retries') else controller_loop retries'
  end.
Definition controller_ready : M st Z := controller_loop (Z.to_nat 10000).

Definition win_result : M st Z :=
  i ← inb HD_STATUS;
  if Z.land i (Z.lor BUSY_STAT (Z.lor READY_STAT (Z.lor WRERR_STAT (Z.lor SEEK_STAT ERR_STAT))))
       =? Z.lor READY_STAT SEEK_STAT then mret 0
  else
    when (negb (Z.land i 1 =? 0)) (_ ← inb HD_ERROR; mret tt) ;;
    mret 1.

Definition the_drive (drive : Z) : M st hd_i_struct := λ s, of_opt (hd_info s !! Z.to_nat drive) s.

Definition hd_out (drive nsect sect head cyl cmd : Z) (intr : hd_handler) : M st unit :=
  if (1 <? drive) || (15 <? head) then panic "Trying to write bad sector"
  else
    r ← controller_ready;
    if r =? 0 then panic "HD controller not ready"
    else
      modify (set_do_hd (Some intr)) ;;
      i ← the_drive drive;
      outb (hd_ctl i) HD_CMD ;;
      outb (Z.shiftr (hd_wpcom i) 2) (HD_DATA + 1) ;;
      outb nsect (HD_DATA + 2) ;;
      outb sect (HD_DATA + 3) ;;
      outb cyl (HD_DATA + 4) ;;
      outb (Z.shiftr cyl 8) (HD_DATA + 5) ;;
      outb (Z.lor (Z.lor 0xA0 (Z.shiftl drive 4)) head) (HD_DATA + 6) ;;
      outb cmd (HD_DATA + 7).

Fixpoint busy_loop (n : nat) : M st unit :=
  match n with
  | O => mret tt
  | S n' =>
    i ← inb HD_STATUS;
    if Z.land i (Z.lor BUSY_STAT READY_STAT) =? READY_STAT then mret tt else busy_loop n'
  end.

(** the test of the source reads [(i == READY_STAT) | SEEK_STAT] *)
Definition drive_busy : M st Z :=
  busy_loop (Z.to_nat 10000) ;;
  i ← inb HD_STATUS;
  let i := Z.land i (Z.lor BUSY_STAT (Z.lor READY_STAT SEEK_STAT)) in
  mret (if negb (Z.lor (Z.b2z (i =? READY_STAT)) SEEK_STAT =? 0) then 0 else 1).

Definition reset_controller : M st unit :=
  outb 4 HD_CMD ;;
  i ← the_drive 0;
  outb (Z.land (hd_ctl i) 0x0f) HD_CMD ;;
  _ ← drive_busy;
  _ ← inb HD_ERROR;
  mret tt.

Definition reset_hd (nr : Z) : M st unit :=
  reset_controller ;;
  i ← the_drive nr;
  hd_out nr (hd_sect i) (hd_sect i) (u32 (hd_head i - 1)) (hd_cyl i) WIN_SPECIFY h_recal_intr.

(** ** Requests *)

(** after [end_request] the request whose errors are looked at is the next
    one, if there is one *)
Definition bad_rw_intr : M st unit :=
  upd_current_req (λ q, set_rq_errors (rq_errors q + 1) q) ;;
  q ← the_current_req;
  when (MAX_ERRORS <=? rq_errors q) (on_blk (end_request HD_MAJOR false)) ;;
  q ← the_current_req;
  when (MAX_ERRORS / 2 <? rq_errors q) (modify (set_reset true)).

(** the sector, head and cylinder of block [block] of a drive: the two [divl]
    of the source, which trap on a division by zero *)
Definition chs (i : hd_i_struct) (block : Z) : M st (Z * Z * Z) :=
  if (hd_sect i =? 0) || (hd_head i =? 0) then fault
  else
    let sec := block mod hd_sect i in
    let block := block / hd_sect i in
    mret (u32 (sec + 1), block mod hd_head i, block / hd_head i).

Fixpoint wait_drq (n : nat) (r : Z) : M st Z :=
  match n with
  | O => mret r
  | S n' =>
    i ← inb HD_STATUS;
    let r := Z.land i DRQ_STAT in
    if r =? 0 then wait_drq n' r else mret r
  end.

(** [fuel] bounds the number of times the label [repeat] is reached *)
Fixpoint do_hd_request_loop (fuel : nat) : M st unit :=
  match fuel with
  | O => nofuel
  | S fuel' =>
    oq ← on_blk (INIT_REQUEST "harddisk" HD_MAJOR);
    match oq with
    | None => mret tt
    | Some q =>
      s ← get_st;
      let dev := MINOR (rq_dev q) in
      let block := rq_sector q in
      if 5 * NR_HD s <=? dev then on_blk (end_request HD_MAJOR false) ;; do_hd_request_loop fuel'
      else
        p ← of_opt (hd s !! Z.to_nat dev);
        if u32 (nr_sects p) <? u32 (block + 2) then
          on_blk (end_request HD_MAJOR false) ;; do_hd_request_loop fuel'
        else
          let block := u32 (block + start_sect p) in
          let dev := dev / 5 in
          i ← the_drive dev;
          c ← chs i block;
          let '(sec, head, cyl) := c in
          let nsect := rq_nr_sectors q in
          if reset s then
            modify (set_reset false) ;;
            modify (set_recalibrate true) ;;
            reset_hd dev
          else if recalibrate s then
            modify (set_recalibrate false) ;;
            hd_out dev (hd_sect i) 0 0 0 WIN_RESTORE h_recal_intr
          else if rq_cmd q =? WRITE then
            hd_out dev nsect sec head cyl WIN_WRITE h_write_intr ;;
            r ← wait_drq (Z.to_nat 3000) 0;
            if r =? 0 then bad_rw_intr ;; do_hd_request_loop fuel'
            else port_write
          else if rq_cmd q =? READ then hd_out dev nsect sec head cyl WIN_READ h_read_intr
          else panic "unknown hd-command"
    end
  end.

(** every request is either ended or counts an error, and four errors of a
    request set [reset], which ends the loop *)
Definition HD_FUEL : nat := 5 * S NR_REQUEST.
Definition do_hd_request : M st unit := do_hd_request_loop HD_FUEL.

(** ** Interrupts *)
Definition read_intr : M st unit :=
  r ← win_result;
  if negb (r =? 0) then bad_rw_intr ;; do_hd_request
  else
    port_read ;;
    upd_current_req (λ q, set_rq_sector (u32 (rq_sector q + 1)) (set_rq_off (rq_off q + 512) (set_rq_errors 0 q))) ;;
    upd_current_req (λ q, set_rq_nr_sectors (u32 (rq_nr_sectors q - 1)) q) ;;
    q ← the_current_req;
    if negb (rq_nr_sectors q =? 0) then modify (set_do_hd (Some h_read_intr))
    else on_blk (end_request HD_MAJOR true) ;; do_hd_request.

Definition write_intr : M st unit :=
  r ← win_result;
  if negb (r =? 0) then bad_rw_intr ;; do_hd_request
  else
    upd_current_req (λ q, set_rq_nr_sectors (u32 (rq_nr_sectors q - 1)) q) ;;
    q ← the_current_req;
    if negb (rq_nr_sectors q =? 0) then
      upd_current_req (λ q, set_rq_off (rq_off q + 512) (set_rq_sector (u32 (rq_sector q + 1)) q)) ;;
      modify (set_do_hd (Some h_write_intr)) ;;
      port_write
    else on_blk (end_request HD_MAJOR true) ;; do_hd_request.

Definition recal_intr : M st unit :=
  r ← win_result;
  when (negb (r =? 0)) bad_rw_intr ;;
  do_hd_request.

(** system_call.s: the handler is taken out of [do_hd]; with none the interrupt
    is unexpected, and only a message is printed *)
Definition hd_interrupt : M st unit :=
  s ← get_st;
  modify (set_do_hd None) ;;
  match do_hd s with
  | Some h_read_intr => read_intr
  | Some h_write_intr => write_intr
  | Some h_recal_intr => recal_intr
  | None => mret tt
  end.

(** ** From the block-device layer *)
Definition hd_ll_rw_block (rw : Z) (bh : nat) : M st unit :=
  s ← get_st;
  if negb (hd_registered s) then mret tt
  else
    p ← on_blk (prepare_request rw bh);
    match p with
    | None => mret tt
    | Some req =>
      only ← on_blk (queue_request HD_MAJOR req);
      when only do_hd_request
    end.

(** the gate of the interrupt is not modelled *)
Definition hd_init : M st unit :=
  modify (set_hd_registered true) ;;
  i ← inb 0x21;
  outb (Z.land i 0xfb) 0x21 ;;
  i ← inb 0xA1;
  outb (Z.land i 0xbf) 0xA1.
End hd.

(** ** The controller

    What the driver relies on: a controller that is [at_idle] answers that it
    is ready; the eight bytes of a READ command start the transfer of a number
    of sectors, addressed by cylinder, head and sector in the geometry of the drive; at each interrupt of
    the transfer the status is good and the data register holds the next
    sector.  [lba] numbers the sectors of a drive in the order of the
    geometry [i]. *)
Definition lba (i : hd_i_struct) (cyl head sec : Z) : Z := (cyl * hd_head i + head) * hd_sect i + (sec - 1).

Definition status_ok (v : Z) : Prop :=
  Z.land v 0xf1 = Z.lor READY_STAT SEEK_STAT.

(** the bytes [hd_out] writes *)
Definition command {W} `{Ports W} (i : hd_i_struct) (drive nsect sect head cyl cmd : Z) (w : W) : W :=
  port_outb 0x1f7 (u8 cmd) (port_outb 0x1f6 (u8 (Z.lor (Z.lor 0xA0 (Z.shiftl drive 4)) head))
   (port_outb 0x1f5 (u8 (Z.shiftr cyl 8)) (port_outb 0x1f4 (u8 cyl) (port_outb 0x1f3 (u8 sect)
     (port_outb 0x1f2 (u8 nsect) (port_outb 0x1f1 (u8 (Z.shiftr (hd_wpcom i) 2))
       (port_outb 0x3f6 (u8 (hd_ctl i)) w))))))).

Class AtDrive (W : Type) `{Ports W} := {
  at_geometry : Z → hd_i_struct;
  at_idle : W → Prop;
  (** [at_reading w drive i n k]: [k] sectors are to come, the next is number [n] *)
  at_reading : W → Z → hd_i_struct → Z → Z → Prop;
  at_sector : W → Z → hd_i_struct → Z → bytes;
  at_idle_ready w : at_idle w → ∃ v w', port_inb HD_STATUS w = (v, w') ∧ Z.land v 0xc0 = 0x40 ∧ at_idle w' ∧ at_sector w' = at_sector w;
  at_read_command w i drive nsect sect head cyl :
    at_idle w → i = at_geometry drive → 0 ≤ drive ≤ 1 → 0 ≤ head ≤ 15 → 0 ≤ cyl < 2 ^ 16 → 1 ≤ sect < 2 ^ 8 → 1 ≤ nsect < 2 ^ 8 →
    at_reading (command i drive nsect sect head cyl WIN_READ w) drive i (lba i cyl head sect) nsect ∧
    at_sector (command i drive nsect sect head cyl WIN_READ w) = at_sector w;
  at_read_status w drive i n k : at_reading w drive i n k →
    ∃ v w', port_inb HD_STATUS w = (v, w') ∧ status_ok v ∧ at_reading w' drive i n k ∧ at_sector w' = at_sector w;
  at_read_data w drive i n k : at_reading w drive i n k → 0 < k →
    ∃ w', port_insw HD_DATA 256 w = (at_sector w drive i n, w') ∧ at_sector w' = at_sector w ∧
      if k =? 1 then at_idle w' else at_reading w' drive i (n + 1) (k - 1);
  at_sector_length w drive i n : length (at_sector w drive i n) = 512%nat
}.

(** the two divisions of the driver give the address of the block *)
Lemma chs_lba {W} `{Ports W} i block (Q : Z * Z * Z → hd_state W → Prop) s :
  0 < hd_sect i < 2 ^ 8 → 0 < hd_head i ≤ 16 → 0 ≤ block →
  (∀ sec head cyl, 1 ≤ sec ≤ hd_sect i → 0 ≤ head < hd_head i → 0 ≤ cyl → lba i cyl head sec = block →
     Q (sec, head, cyl) s) →
  wp (chs i block) Q s.
Proof.
  intros Hs Hh Hb HQ. unfold chs. rewrite !(proj2 (Z.eqb_neq _ 0)) by lia. cbn [orb]. apply wp_ret.
  pose proof (Z.mod_pos_bound block (hd_sect i) ltac:(lia)).
  pose proof (Z.mod_pos_bound (block / hd_sect i) (hd_head i) ltac:(lia)).
  pose proof (Z.div_mod block (hd_sect i) ltac:(lia)). pose proof (Z.div_mod (block / hd_sect i) (hd_head i) ltac:(lia)).
  rewrite u32_id by lia. apply HQ; [lia|lia|repeat apply Z.div_pos; lia|]. unfold lba. lia.
Qed.

(** ** Steps of the driver *)
Section hd_proofs.
Context {W : Type} `{AtDrive W}.
Abbreviation st := (hd_state W).
Implicit Types s : st.

Lemma wp_on_blk {A} (m : M blk A) (Q : A → st → Prop) s :
  wp m (λ a d, Q a (set_hd_blk d s)) (hd_blk s) → wp (on_blk m) Q s.
Proof. unfold wp, on_blk. by destruct (m (hd_blk s)). Qed.

Lemma wp_inb port v w (Q : Z → st → Prop) s :
  port_inb port (hd_ports s) = (v, w) → Q v (set_hd_ports w s) → wp (inb port) Q s.
Proof. unfold wp, inb. by intros ->. Qed.

Lemma wp_the_drive drive i (Q : hd_i_struct → st → Prop) s :
  hd_info s !! Z.to_nat drive = Some i → Q i s → wp (the_drive drive) Q s.
Proof. unfold wp, the_drive. by intros ->. Qed.

Lemma controller_ready_run s : at_idle (hd_ports s) →
  wp controller_ready (λ r s', r ≠ 0 ∧ ∃ w, s' = set_hd_ports w s ∧ at_idle w ∧ at_sector w = at_sector (hd_ports s)) s.
Proof.
  intros Hi. destruct (at_idle_ready _ Hi) as (v & w & Hv & Hok & Hi' & Hs). unfold controller_ready.
  replace (Z.to_nat 10000) with (S (S (Z.to_nat 9998))) by lia. cbn [controller_loop].
  apply wp_bind. eapply wp_inb; [done|]. rewrite Hok. apply wp_ret. split; [lia|]. by exists w.
Qed.

Lemma hd_out_run s i drive nsect sect head cyl cmd h :
  at_idle (hd_ports s) → hd_info s !! Z.to_nat drive = Some i → drive ≤ 1 → head ≤ 15 →
  wp (hd_out drive nsect sect head cyl cmd h) (λ _ s', ∃ w, at_idle w ∧ at_sector w = at_sector (hd_ports s) ∧
    s' = set_do_hd (Some h) (set_hd_ports (command i drive nsect sect head cyl cmd w) s)) s.
Proof.
  intros Hi Hd Hdr Hh. unfold hd_out. rewrite !(proj2 (Z.ltb_ge _ _)) by lia. cbn [orb].
  apply wp_bind. eapply wp_mono; [by apply controller_ready_run|]. intros r s' (Hr & w & -> & Hi' & Hs).
  rewrite (proj2 (Z.eqb_neq _ _) Hr). apply wp_bind, wp_modify, wp_bind.
  eapply wp_the_drive; [done|].
  unfold outb. repeat (apply wp_bind, wp_modify). apply wp_modify. exists w. done.
Qed.

(** request [r], which reads into buffer [bh], is the only one *)
Record serving s (r : nat) (q : request) (bh : nat) (b : buffer_head) : Prop := {
  sv_current : current_request (hd_blk s) !! HD_MAJOR = Some (Some r);
  sv_req : request_tab (hd_blk s) !! r = Some q;
  sv_next : rq_next q = None;
  sv_bh : rq_bh q = Some bh;
  sv_buffer : rq_buffer q = Some bh;
  sv_major : MAJOR (rq_dev q) = Z.of_nat HD_MAJOR;
  sv_buf : buffers (hd_blk s) !! bh = Some b;
  sv_lock : b_lock b = true
}.

Lemma wp_init_request s r q bh b (Q : option request → st → Prop) :
  serving s r q bh b → Q (Some q) s → wp (on_blk (INIT_REQUEST "harddisk" HD_MAJOR)) Q s.
Proof.
  intros [Hc Hr _ Hb _ Hm Hbuf Hl] HQ. apply wp_on_blk. unfold INIT_REQUEST.
  apply wp_bind. eapply wp_get_current; [done|]. apply wp_bind. eapply wp_the_req; [done|].
  rewrite Hm, Z.eqb_refl. apply wp_bind, wp_ret. rewrite Hb. apply wp_bind. eapply wp_the_bh; [done|].
  rewrite Hl. apply wp_ret. by destruct s.
Qed.

(** where request [q] is on the disk: on drive [drive] of geometry [i], from
    sector [n] on *)
Record located s (q : request) (drive : Z) (i : hd_i_struct) (n : Z) : Prop := {
  lc_minor : MINOR (rq_dev q) < 5 * NR_HD s;
  lc_drive : drive = MINOR (rq_dev q) / 5;
  lc_nr : NR_HD s ≤ 2;
  lc_geometry : i = at_geometry drive;
  lc_info : hd_info s !! Z.to_nat drive = Some i;
  lc_sect : 0 < hd_sect i < 2 ^ 8;
  lc_head : 0 < hd_head i ≤ 16;
  lc_part : ∃ p, hd s !! Z.to_nat (MINOR (rq_dev q)) = Some p ∧ 0 ≤ rq_sector q ∧ rq_sector q + 2 ≤ nr_sects p < 2 ^ 32 ∧
    0 ≤ start_sect p ∧ n = rq_sector q + start_sect p;
  lc_end : 0 ≤ n < hd_sect i * hd_head i * 2 ^ 16 ∧ n < 2 ^ 32
}.

Lemma do_hd_request_read fuel s r q bh b drive i n :
  serving s r q bh b → located s q drive i n → rq_cmd q = READ → 1 ≤ rq_nr_sectors q < 2 ^ 8 →
  reset s = false → recalibrate s = false → at_idle (hd_ports s) →
  wp (do_hd_request_loop (S fuel)) (λ _ s', ∃ w, s' = set_do_hd (Some h_read_intr) (set_hd_ports w s) ∧
    at_reading w drive i n (rq_nr_sectors q) ∧ at_sector w = at_sector (hd_ports s)) s.
Proof.
  intros Hs [Hmin -> Hnr Hgeo Hinfo Hsect Hhead (p & Hp & Hq0 & Hq & Hp0 & Hn) Hend] Hcmd Hns Hrs Hrc Hi.
  cbn [do_hd_request_loop].
  apply wp_bind. eapply wp_init_request; [done|]. apply wp_bind, wp_get.
  assert (Hm0 : 0 ≤ MINOR (rq_dev q)) by (apply Z.land_nonneg; lia).
  rewrite (proj2 (Z.leb_gt _ _)) by lia. apply wp_bind. eapply wp_of_opt; [done|].
  rewrite !u32_id by lia. rewrite (proj2 (Z.ltb_ge _ _)) by lia.
  apply wp_bind. eapply wp_the_drive; [done|].
  apply wp_bind. apply chs_lba; [done|done|lia|]. intros sec head cyl Hsec Hhd Hcyl Hlba.
  rewrite Hrs, Hrc, Hcmd. cbn [Z.eqb WRITE READ].
  assert (Hd1 : 0 ≤ MINOR (rq_dev q) / 5 ≤ 1).
  { split; [apply Z.div_pos; lia|]. assert (MINOR (rq_dev q) / 5 < 2); [|lia]. apply Z.div_lt_upper_bound; lia. }
  eapply wp_mono; [eapply hd_out_run; [done|done|lia|lia]|].
  intros [] s' (w & Hw & Hws & ->). eexists. split; [reflexivity|].
  assert (Hcyl' : cyl < 2 ^ 16).
  { unfold lba in Hlba. apply Z.nle_gt. intros Hge.
    assert (hd_sect i * hd_head i * 2 ^ 16 ≤ hd_sect i * (hd_head i * cyl)) by nia. nia. }
  destruct (at_read_command w i (MINOR (rq_dev q) / 5) (rq_nr_sectors q) sec head cyl) as [Hrd Hrs']; [done|done|lia..|].
  rewrite Hlba in Hrd. rewrite Hn, (Z.add_comm (rq_sector q)) in *. split; [|congruence].
  by rewrite Z.add_comm in Hrd |- *.
Qed.

Definition put_req (r : nat) (q : request) s : st :=
  set_hd_blk (set_request_tab (<[r := q]> (request_tab (hd_blk s))) (hd_blk s)) s.
Definition put_buf (bh : nat) (b : buffer_head) s : st :=
  set_hd_blk (set_buffers (<[bh := b]> (buffers (hd_blk s))) (hd_blk s)) s.

Lemma wp_CURRENT s r q bh b (Q : nat → st → Prop) : serving s r q bh b → Q r s → wp CURRENT Q s.
Proof.
  intros Hs HQ. unfold CURRENT. apply wp_bind, wp_on_blk. eapply wp_get_current; [apply Hs|].
  destruct s. by apply wp_ret.
Qed.
Lemma wp_the_current_req s r q bh b (Q : request → st → Prop) : serving s r q bh b → Q q s → wp the_current_req Q s.
Proof.
  intros Hs HQ. apply wp_bind. eapply wp_CURRENT; [done|]. apply wp_on_blk. eapply wp_the_req; [apply Hs|]. by destruct s.
Qed.
Lemma wp_upd_current_req s r q bh b f (Q : unit → st → Prop) :
  serving s r q bh b → Q tt (put_req r (f q) s) → wp (upd_current_req f) Q s.
Proof. intros Hs HQ. apply wp_bind. eapply wp_CURRENT; [done|]. apply wp_on_blk. eapply wp_upd_req; [apply Hs|]. done. Qed.

Lemma serving_blk s s' r q bh b : hd_blk s' = hd_blk s → serving s r q bh b → serving s' r q bh b.
Proof. intros E [? ? ? ? ? ? ? ?]. constructor; by rewrite ?E. Qed.
Lemma serving_req s r q q' bh b : rq_next q' = rq_next q → rq_bh q' = rq_bh q → rq_buffer q' = rq_buffer q →
  rq_dev q' = rq_dev q → serving s r q bh b → serving (put_req r q' s) r q' bh b.
Proof.
  intros E1 E2 E3 E4 [? Hr ? ? ? ? ? ?]. constructor; rewrite ?E1, ?E2, ?E3, ?E4; try done.
  cbn. apply list_lookup_insert_eq. by eapply lookup_lt_Some.
Qed.
Lemma serving_buf s r q bh b b' : b_lock b' = true → serving s r q bh b → serving (put_buf bh b' s) r q bh b'.
Proof.
  intros Hl [? ? ? ? ? ? Hb ?]. constructor; try done. cbn. apply list_lookup_insert_eq. by eapply lookup_lt_Some.
Qed.

Lemma wp_win_result s v w (Q : Z → st → Prop) :
  port_inb HD_STATUS (hd_ports s) = (v, w) → status_ok v → Q 0 (set_hd_ports w s) → wp win_result Q s.
Proof.
  intros Hv Hok HQ. unfold win_result. apply wp_bind. eapply wp_inb; [done|].
  change (Z.lor BUSY_STAT _) with 0xf1. unfold status_ok in Hok. rewrite Hok, Z.eqb_refl. by apply wp_ret.
Qed.

Lemma wp_port_read s r q bh b d w (Q : unit → st → Prop) :
  serving s r q bh b → port_insw HD_DATA 256 (hd_ports s) = (d, w) →
  Q tt (put_buf bh (set_b_data (splice (Z.to_nat (rq_off q)) d (b_data b)) b) (set_hd_ports w s)) → wp port_read Q s.
Proof.
  intros Hs Hd HQ. unfold port_read. apply wp_bind. eapply wp_the_current_req; [done|].
  apply wp_bind. eapply wp_of_opt; [apply Hs|]. apply wp_bind. unfold wp at 1. rewrite Hd.
  apply wp_on_blk. eapply wp_upd_bh; [apply Hs|]. done.
Qed.

(** the last request is taken off the queue *)
Definition ended (r : nat) (q : request) (bh : nat) (b : buffer_head) (uptodate : bool) s : st :=
  let d := hd_blk s in
  set_hd_blk (set_current_request (<[HD_MAJOR := None]> (current_request d))
    (set_request_tab (<[r := set_rq_dev (-1) q]> (request_tab d))
      (set_buffers (<[bh := set_b_lock false (set_b_uptodate uptodate b)]> (buffers d)) d))) s.

Lemma wp_end_request s r q bh b uptodate (Q : unit → st → Prop) :
  serving s r q bh b → Q tt (ended r q bh b uptodate s) → wp (on_blk (end_request HD_MAJOR uptodate)) Q s.
Proof.
  intros [Hc Hr Hn Hb Hbuf Hm Hbh Hl] HQ. apply wp_on_blk. unfold end_request, unlock_buffer.
  apply wp_bind. eapply wp_get_current; [done|]. apply wp_bind, wp_ret, wp_bind. eapply wp_the_req; [done|].
  rewrite Hb. apply wp_bind, wp_bind. eapply wp_upd_bh; [done|]. eapply wp_upd_bh.
  { cbn. apply list_lookup_insert_eq. by eapply lookup_lt_Some. }
  cbn. rewrite list_insert_insert_eq. apply wp_bind. unfold when.
  assert (Hrest : wp (upd_req r (set_rq_dev (-1)) ;; put_current HD_MAJOR (rq_next q)) (λ a d, Q a (set_hd_blk d s))
    (set_buffers (<[bh:=set_b_lock false (set_b_uptodate uptodate b)]> (buffers (hd_blk s))) (hd_blk s))).
  { apply wp_bind. eapply wp_upd_req; [done|]. rewrite Hn. exact HQ. }
  destruct uptodate; [by apply wp_ret|]. by apply wp_bind, wp_ret, wp_ret.
Qed.

Lemma do_hd_request_idle fuel s : current_request (hd_blk s) !! HD_MAJOR = Some None →
  wp (do_hd_request_loop (S fuel)) (λ _ s', s' = s) s.
Proof.
  intros Hc. cbn [do_hd_request_loop]. apply wp_bind, wp_on_blk. unfold INIT_REQUEST. apply wp_bind.
  eapply wp_get_current; [done|]. apply wp_ret, wp_ret. by destruct s.
Qed.

(** a sector has arrived *)
Definition next_sector (q : request) : request :=
  set_rq_nr_sectors (u32 (rq_nr_sectors q - 1)) (set_rq_sector (u32 (rq_sector q + 1))
    (set_rq_off (rq_off q + 512) (set_rq_errors 0 q))).

Lemma read_intr_run s r q bh b drive i n :
  serving s r q bh b → at_reading (hd_ports s) drive i n (rq_nr_sectors q) → 1 ≤ rq_nr_sectors q < 2 ^ 8 →
  let b' := set_b_data (splice (Z.to_nat (rq_off q)) (at_sector (hd_ports s) drive i n) (b_data b)) b in
  wp read_intr (λ _ s', ∃ w, at_sector w = at_sector (hd_ports s) ∧
    let s1 := put_req r (next_sector q) (put_buf bh b' (set_hd_ports w s)) in
    if rq_nr_sectors q =? 1 then at_idle w ∧ s' = ended r (next_sector q) bh b' true s1
    else at_reading w drive i (n + 1) (rq_nr_sectors q - 1) ∧ s' = set_do_hd (Some h_read_intr) s1) s.
Proof.
  intros Hs Hrd Hk b'. destruct (at_read_status _ _ _ _ _ Hrd) as (v & w1 & Hv & Hok & Hrd1 & Hsec1).
  destruct (at_read_data _ _ _ _ _ Hrd1) as (w & Hd & Hsec & Hnext); [lia|].
  unfold read_intr. apply wp_bind. eapply wp_win_result; [done|done|]. cbn [Z.eqb negb].
  apply wp_bind. eapply (wp_port_read _ r q bh b); [by apply (serving_blk s)|done|].
  assert (Hb' : set_b_data (splice (Z.to_nat (rq_off q)) (at_sector w1 drive i n) (b_data b)) b = b') by (unfold b'; by rewrite Hsec1).
  rewrite Hb'. set (s0 := put_buf bh b' _).
  assert (Hs0 : serving s0 r q bh b') by (apply (serving_buf _ _ _ _ b); [apply Hs|by apply (serving_blk s)]).
  apply wp_bind. eapply wp_upd_current_req; [done|]. set (q1 := set_rq_sector _ _).
  assert (Hs1 : serving (put_req r q1 s0) r q1 bh b') by (by apply (serving_req _ _ q)).
  apply wp_bind. eapply wp_upd_current_req; [done|].
  assert (Hs2 : serving (put_req r (next_sector q) s0) r (next_sector q) bh b') by (by apply (serving_req _ _ q)).
  assert (put_req r (set_rq_nr_sectors (u32 (rq_nr_sectors q1 - 1)) q1) (put_req r q1 s0) = put_req r (next_sector q) s0) as ->.
  { unfold put_req, set_hd_blk, set_request_tab. cbn. by rewrite list_insert_insert_eq. }
  apply wp_bind. eapply wp_the_current_req; [done|]. change (rq_nr_sectors (next_sector q)) with (u32 (rq_nr_sectors q - 1)).
  rewrite u32_id by lia.
  replace (rq_nr_sectors q - 1 =? 0) with (rq_nr_sectors q =? 1) by lia.
  destruct (rq_nr_sectors q =? 1); cbn [negb].
  - apply wp_bind. eapply wp_end_request; [done|]. eapply wp_mono; [apply do_hd_request_idle|].
    + cbn. apply list_lookup_insert_eq. by eapply lookup_lt_Some, Hs.
    + intros [] s' ->. exists w. split; [congruence|]. done.
  - apply wp_modify. exists w. split; [congruence|]. done.
Qed.

(** the request that [make_request] makes to read the buffer [b] *)
Definition read_request (bh : nat) (b : buffer_head) : request :=
  mk_req (b_dev b) READ 0 (u32 (Z.shiftl (b_blocknr b) 1)) 2 (Some bh) 0 (Some bh) None.

(** buffer [bh] can be read: it is neither locked nor up to date, it is on a
    partition of a drive, from sector [n] of the drive on, and the driver has
    nothing else to do *)
Record hd_readable s (bh : nat) (b : buffer_head) (drive : Z) (i : hd_i_struct) (n : Z) : Prop := {
  hr_registered : hd_registered s = true;
  hr_buf : buffers (hd_blk s) !! bh = Some b;
  hr_lock : b_lock b = false;
  hr_uptodate : b_uptodate b = false;
  hr_data : length (b_data b) = 1024%nat;
  hr_major : MAJOR (b_dev b) = Z.of_nat HD_MAJOR;
  hr_located : located s (read_request bh b) drive i n;
  hr_idle : current_request (hd_blk s) !! HD_MAJOR = Some None;
  hr_reset : reset s = false;
  hr_recalibrate : recalibrate s = false;
  hr_at : at_idle (hd_ports s)
}.

Lemma two_sectors (a b d : bytes) : length a = 512%nat → length b = 512%nat → length d = 1024%nat →
  splice 512 b (splice 0 a d) = a ++ b.
Proof.
  intros Ha Hb Hd. unfold splice. rewrite Ha, Hb, take_0. cbn [app Nat.add].
  rewrite take_app_length' by done. rewrite drop_ge; [by rewrite app_nil_r|]. rewrite length_app, length_drop. lia.
Qed.

Lemma free_request_lookup n tab r : free_request n tab = Some r → ∃ q, tab !! r = Some q.
Proof.
  induction n as [|n IH]; [done|]. cbn. destruct (tab !! n) as [q|] eqn:E; [|done].
  destruct (rq_dev q <? 0); [intros [= <-]; by exists q|done].
Qed.

(** the read has been asked for: request [r] is the only one *)
Lemma hd_queue_run s bh b drive i n r : hd_readable s bh b drive i n →
  free_request NR_REQUEST (request_tab (hd_blk s)) = Some r →
  let b1 := set_b_dirt false (set_b_lock true b) in
  let q := read_request bh b in
  ∃ s1, serving s1 r q bh b1 ∧
    s1 = set_hd_blk (set_current_request (<[HD_MAJOR := Some r]> (current_request (hd_blk s)))
      (set_request_tab (<[r := q]> (request_tab (hd_blk s))) (set_buffers (<[bh := b1]> (buffers (hd_blk s))) (hd_blk s)))) s ∧
    ∀ Q, wp do_hd_request Q s1 → wp (hd_ll_rw_block READ bh) Q s.
Proof.
  intros [Hreg Hbuf Hlock Hup Hdata Hmaj _ Hidle _ _ _] Hfree b1 q.
  destruct (free_request_lookup _ _ _ Hfree) as [q0 Hq0].
  assert (Hbl : (bh < length (buffers (hd_blk s)))%nat) by (by eapply lookup_lt_Some).
  assert (Hrl : (r < length (request_tab (hd_blk s)))%nat) by (by eapply lookup_lt_Some).
  assert (Hcl : (HD_MAJOR < length (current_request (hd_blk s)))%nat) by (by eapply lookup_lt_Some).
  eexists. split; [|split; [reflexivity|]].
  { constructor; cbn; rewrite ?list_lookup_insert_eq by done; done. }
  intros Q HQ. unfold hd_ll_rw_block. apply wp_bind, wp_get. rewrite Hreg. cbn [negb].
  destruct s as [[bufs tab cur fn st len mem] w rec rst info nr parts dh reg].
  cbn [hd_blk hd_registered] in *. blk_cbn_all.
  apply wp_bind, wp_on_blk. unfold prepare_request, lock_buffer. cbn [hd_blk].
  repeat blk_step. rewrite Hlock. cbn [Z.eqb READ READA WRITEA WRITE Pos.eqb orb andb negb].
  repeat blk_step. rewrite Hlock. repeat blk_step. rewrite Hup. cbn [andb orb]. repeat blk_step. rewrite Hfree.
  repeat blk_step. apply wp_on_blk. unfold queue_request. cbn [hd_blk set_hd_blk].
  repeat blk_step. unfold when. cbn [hd_blk set_hd_blk] in HQ |- *. rewrite !list_insert_insert_eq. exact HQ.
Qed.

(** C13. Reading a block of the hard disk: the driver is started by
    [ll_rw_block], works out the drive, cylinder, head and sector of the block
    from the partition table and the geometry of the drive, and after the
    second interrupt the buffer holds the two sectors of the block, is up to
    date and unlocked; the request is free again and the driver idle. *)
Theorem hd_read_block s (bh : nat) (b : buffer_head) (drive : Z) (i : hd_i_struct) (n : Z) :
  hd_readable s bh b drive i n → is_Some (free_request NR_REQUEST (request_tab (hd_blk s))) →
  wp (hd_ll_rw_block READ bh ;; hd_interrupt ;; hd_interrupt) (λ _ s',
    buffers (hd_blk s') = <[bh := set_b_lock false (set_b_uptodate true (set_b_dirt false
        (set_b_data (at_sector (hd_ports s) drive i n ++ at_sector (hd_ports s) drive i (n + 1)) b)))]> (buffers (hd_blk s)) ∧
    current_request (hd_blk s') = current_request (hd_blk s) ∧ do_hd s' = None ∧
    at_idle (hd_ports s') ∧ at_sector (hd_ports s') = at_sector (hd_ports s)) s.
Proof.
  intros Hr [r Hfree]. destruct (hd_queue_run s bh b drive i n r Hr Hfree) as (s1 & Hs1 & Es1 & Hgo).
  pose proof Hr as [_ Hbuf Hlock Hup Hdata Hmaj Hloc Hidle Hrst Hrec Hat].
  set (q := read_request bh b) in *. set (b1 := set_b_dirt false (set_b_lock true b)) in *.
  set (sec0 := at_sector (hd_ports s) drive i n). set (sec1 := at_sector (hd_ports s) drive i (n + 1)).
  apply wp_bind, Hgo. assert (Hp1 : hd_ports s1 = hd_ports s) by (by rewrite Es1).
  eapply wp_mono; [apply (do_hd_request_read 164 s1 r q bh b1 drive i n); try (by rewrite Es1); try done|].
  { rewrite Es1. by destruct Hloc. }
  intros [] s2 (w2 & Es2 & Hrd2 & Hsec2). rewrite Hp1 in Hsec2.
  (* the first interrupt *)
  apply wp_bind. unfold hd_interrupt at 1. apply wp_bind, wp_get, wp_bind, wp_modify. rewrite Es2 at 1.
  cbn [do_hd set_do_hd]. set (s3 := set_do_hd None s2).
  assert (Hs3 : serving s3 r q bh b1) by (apply (serving_blk s1); [by unfold s3; rewrite Es2|done]).
  assert (Hp3 : hd_ports s3 = w2) by (unfold s3; by rewrite Es2).
  eapply wp_mono; [apply (read_intr_run s3 r q bh b1 drive i n); [done|by rewrite Hp3|done]|].
  cbn [rq_nr_sectors q read_request Z.eqb Pos.eqb]. rewrite Hp3. intros [] s4 (w4 & Hsec4 & Hrd4 & Es4).
  set (b2 := set_b_data _ b1) in *. set (q2 := next_sector q) in *.
  assert (Hs4 : serving s4 r q2 bh b2).
  { rewrite Es4. apply (serving_blk (put_req r q2 (put_buf bh b2 s3))); [done|].
    apply (serving_req _ _ q); [done..|]. apply (serving_buf _ _ _ _ b1); [apply Hs3|done]. }
  (* the second *)
  unfold hd_interrupt. apply wp_bind, wp_get, wp_bind, wp_modify. rewrite Es4 at 1. cbn [do_hd set_do_hd].
  set (s5 := set_do_hd None s4). assert (Hs5 : serving s5 r q2 bh b2) by (by apply (serving_blk s4)).
  assert (Hp5 : hd_ports s5 = w4) by (unfold s5; by rewrite Es4).
  eapply wp_mono; [apply (read_intr_run s5 r q2 bh b2 drive i (n + 1)); [done|by rewrite Hp5|done]|].
  change (rq_nr_sectors q2 =? 1) with true. cbv iota. rewrite Hp5. intros [] s6 (w6 & Hsec6 & Hat6 & ->).
  pose proof (at_sector_length (hd_ports s) drive i n) as Hl0. pose proof (at_sector_length (hd_ports s) drive i (n + 1)) as Hl1.
  assert (Hb3 : set_b_lock false (set_b_uptodate true (set_b_data (splice (Z.to_nat (rq_off q2)) (at_sector w4 drive i (n + 1)) (b_data b2)) b2))
    = set_b_lock false (set_b_uptodate true (set_b_dirt false (set_b_data (sec0 ++ sec1) b)))).
  { rewrite Hsec4, Hsec2. fold sec1. unfold b2. rewrite ?Hsec2. fold sec0. cbn [b_data set_b_data].
    change (Z.to_nat (rq_off q2)) with 512%nat. change (Z.to_nat (rq_off q)) with 0%nat. change (b_data b1) with (b_data b).
    rewrite (two_sectors sec0 sec1) by done. reflexivity. }
  unfold s5. rewrite Es4. unfold s3. rewrite Es2, Es1. unfold ended, put_req, put_buf.
  cbn [hd_blk set_hd_blk hd_ports set_hd_ports do_hd set_do_hd current_request set_current_request set_request_tab set_buffers buffers].
  rewrite !list_insert_insert_eq, Hb3. split; [done|]. split; [by apply list_insert_id|]. split; [done|]. split; [done|congruence].
Qed.

(** C35. A failed transfer is counted against its request, which is tried again,
    and from the fourth failure on only after the controller has been reset.
    The seventh failure ends the request; when there is no other request the
    driver then looks at the errors of a request that is not there. *)
Theorem bad_rw_intr_counts s (r : nat) (q : request) (bh : nat) (b : buffer_head) :
  serving s r q bh b → 0 ≤ rq_errors q < MAX_ERRORS →
  let s1 := put_req r (set_rq_errors (rq_errors q + 1) q) s in
  if rq_errors q <? 6 then
    bad_rw_intr s = Ret tt (if 3 <? rq_errors q + 1 then set_reset true s1 else s1)
  else bad_rw_intr s = Fault.
Proof.
  intros Hs He s1. set (q1 := set_rq_errors (rq_errors q + 1) q) in *. unfold MAX_ERRORS in He.
  assert (Hs1 : serving s1 r q1 bh b) by (by apply (serving_req _ _ q)).
  destruct (Z.ltb_spec (rq_errors q) 6).
  - assert (Hwp : wp bad_rw_intr (λ _ s', s' = if 3 <? rq_errors q + 1 then set_reset true s1 else s1) s).
    { unfold bad_rw_intr. apply wp_bind. eapply wp_upd_current_req; [done|]. fold q1 s1.
      apply wp_bind. eapply wp_the_current_req; [done|]. change (rq_errors q1) with (rq_errors q + 1).
      rewrite (proj2 (Z.leb_gt _ _)) by (unfold MAX_ERRORS; lia). apply wp_bind, wp_ret, wp_bind.
      eapply wp_the_current_req; [done|]. change (rq_errors q1) with (rq_errors q + 1).
      change (MAX_ERRORS / 2) with 3. unfold when. destruct (3 <? rq_errors q + 1); [by apply wp_modify|by apply wp_ret]. }
    apply wp_exists in Hwp as ([] & s' & -> & ->). done.
  - unfold bad_rw_intr.
    assert (Hu : wp (upd_current_req (λ q, set_rq_errors (rq_errors q + 1) q)) (λ _ s', s' = s1) s)
      by (by eapply wp_upd_current_req).
    apply wp_exists in Hu as ([] & s' & Hu & ->). rewrite (bind_ret _ _ _ _ _ Hu).
    assert (Hg : wp the_current_req (λ x s', x = q1 ∧ s' = s1) s1) by (by eapply wp_the_current_req).
    apply wp_exists in Hg as (x & s' & Hg & -> & ->). rewrite (bind_ret _ _ _ _ _ Hg).
    change (rq_errors q1) with (rq_errors q + 1). rewrite (proj2 (Z.leb_le MAX_ERRORS _)) by (unfold MAX_ERRORS; lia).
    assert (Hend : wp (on_blk (end_request HD_MAJOR false)) (λ _ s', s' = ended r q1 bh b false s1) s1)
      by (by eapply wp_end_request).
    apply wp_exists in Hend as ([] & s' & Hend & ->). unfold when at 1. rewrite (bind_ret _ _ _ _ _ Hend).
    unfold the_current_req, CURRENT, on_blk, get_current, mbind, M_bind. cbn [hd_blk ended set_hd_blk current_request set_current_request].
    rewrite list_lookup_insert_eq; [done|]. by eapply lookup_lt_Some, Hs1.
Qed.
End hd_proofs.

(** ** Concrete input: a controller with one drive of 4 heads and 17 sectors,
    on which every byte of a sector is the sector's number *)
Record demo_at := mk_demo_at { da_regs : Z → Z; da_drive : Z; da_next : Z; da_left : Z }.
Definition demo_geometry : hd_i_struct := mk_hdi 4 17 100 0 0 8.
Definition demo_sector (n : Z) : bytes := replicate 512 (u8 n).

#[local] Instance demo_ports : Ports demo_at := {
  port_inb p w := (if p =? HD_STATUS then 0x50 else 0, w);
  port_outb p v w :=
    if (p =? HD_STATUS) && (v =? WIN_READ) then
      mk_demo_at (da_regs w) (Z.land (Z.shiftr (da_regs w 0x1f6) 4) 1)
        (lba demo_geometry (da_regs w 0x1f4 + 256 * da_regs w 0x1f5) (Z.land (da_regs w 0x1f6) 15) (da_regs w 0x1f3))
        (da_regs w 0x1f2)
    else mk_demo_at (λ q, if q =? p then v else da_regs w q) (da_drive w) (da_next w) (da_left w);
  port_insw p n w := (demo_sector (da_next w), mk_demo_at (da_regs w) (da_drive w) (da_next w + 1) (da_left w - 1));
  port_outsw p d w := w
}.

Lemma drive_head_byte drive head : 0 ≤ drive ≤ 1 → 0 ≤ head ≤ 15 →
  let v := u8 (Z.lor (Z.lor 0xA0 (Z.shiftl drive 4)) head) in
  Z.land (Z.shiftr v 4) 1 = drive ∧ Z.land v 15 = head.
Proof.
  intros Hd Hh.
  assert (Hall : forallb (λ drive, forallb (λ head,
    let v := u8 (Z.lor (Z.lor 0xA0 (Z.shiftl drive 4)) head) in
    (Z.land (Z.shiftr v 4) 1 =? drive) && (Z.land v 15 =? head)) (seqZ 0 16)) (seqZ 0 2) = true) by (vm_compute; reflexivity).
  assert (Hd' : drive ∈ seqZ 0 2) by (apply elem_of_seqZ; lia).
  assert (Hh' : head ∈ seqZ 0 16) by (apply elem_of_seqZ; lia).
  rewrite forallb_forall in Hall. apply list_elem_of_In in Hd', Hh'. apply Hall in Hd'.
  rewrite forallb_forall in Hd'. apply Hd' in Hh'. clear Hall Hd'. rename Hh' into Hall.
  cbv zeta in Hall. apply andb_true_iff in Hall. rewrite !Z.eqb_eq in Hall. exact Hall.
Qed.

#[local] Instance demo_drive : AtDrive demo_at.
Proof.
  refine {| at_geometry _ := demo_geometry; at_idle w := da_left w = 0;
    at_reading w drive i n k := da_next w = n ∧ da_left w = k; at_sector w drive i n := demo_sector n |}.
  - intros w Hi. exists 0x50, w. done.
  - intros w i drive nsect sect head cyl Hi -> Hd Hh Hc Hs Hn. split; [|done].
    destruct (drive_head_byte drive head Hd Hh) as [_ Eh]. unfold command.
    set (dh := u8 (Z.lor (Z.lor 0xA0 (Z.shiftl drive 4)) head)) in *.
    assert (Ec : u8 cyl + 256 * u8 (Z.shiftr cyl 8) = cyl).
    { rewrite Z.shiftr_div_pow2 by lia. unfold u8. change (2 ^ 8) with 256.
      rewrite (Z.mod_small (cyl / 256)) by (split; [apply Z.div_pos|apply Z.div_lt_upper_bound]; lia).
      pose proof (Z.div_mod cyl 256 ltac:(done)). lia. }
    change (da_next ?w = ?n ∧ da_left ?w = ?k) with (lba demo_geometry (u8 cyl + 256 * u8 (Z.shiftr cyl 8)) (Z.land dh 15) (u8 sect) = lba demo_geometry cyl head sect ∧ u8 nsect = nsect).
    rewrite Ec, Eh, !u8_id by lia. done.
  - intros w drive i n k [Hn Hk]. exists 0x50, w. done.
  - intros w drive i n k [Hn Hk] Hpos. eexists. split; [cbn; rewrite Hn; reflexivity|]. split; [done|].
    cbn. destruct (Z.eqb_spec k 1); [lia|]. lia.
  - intros w drive i n. apply length_replicate.
Defined.

Definition demo_bh : buffer_head := mk_bh (replicate 1024 0) 10 0x301 false false 1 false None None None None.
Definition demo_hd : hd_state demo_at :=
  mk_hd (mk_blk [demo_bh] (replicate NR_REQUEST (mk_req (-1) 0 0 0 0 None 0 None None)) (replicate 7 None) (replicate 7 None) 0 0 [])
    (mk_demo_at (λ _, 0) 0 0 0) false false [demo_geometry] 1
    (<[1%nat := mk_hds 17 2000]> (replicate 10 (mk_hds 0 0))) None true.

Lemma demo_located : located demo_hd (read_request 0 demo_bh) 0 demo_geometry 37.
Proof.
  constructor; [vm_compute; reflexivity|vm_compute; reflexivity|vm_compute; discriminate|reflexivity|reflexivity|..].
  - split; [reflexivity|vm_compute; reflexivity].
  - split; [reflexivity|vm_compute; discriminate].
  - exists (mk_hds 17 2000). split; [reflexivity|]. change (rq_sector (read_request 0 demo_bh)) with 20. cbn [nr_sects start_sect]. lia.
  - change (hd_sect demo_geometry) with 17. change (hd_head demo_geometry) with 4. lia.
Qed.
Lemma demo_hd_readable : hd_readable demo_hd 0 demo_bh 0 demo_geometry 37.
Proof. constructor; [reflexivity|reflexivity|reflexivity|reflexivity|reflexivity|reflexivity|exact demo_located|reflexivity..]. Qed.

Lemma hd_read_block_witness :
  wp (hd_ll_rw_block READ 0 ;; hd_interrupt ;; hd_interrupt) (λ _ s',
    buffers (hd_blk s') = <[0%nat := set_b_lock false (set_b_uptodate true (set_b_dirt false
        (set_b_data (demo_sector 37 ++ demo_sector 38) demo_bh)))]> (buffers (hd_blk demo_hd)) ∧
    current_request (hd_blk s') = current_request (hd_blk demo_hd) ∧ do_hd s' = None ∧
    at_idle (hd_ports s') ∧ at_sector (hd_ports s') = at_sector (hd_ports demo_hd)) demo_hd.
Proof. apply (hd_read_block demo_hd 0 demo_bh 0 demo_geometry 37 demo_hd_readable). eexists. reflexivity. Defined.

(** the state of the driver while it reads the block *)
Definition demo_busy (errors : Z) : hd_state demo_at :=
  set_hd_blk (set_current_request (<[HD_MAJOR := Some 31%nat]> (replicate 7 None))
    (set_request_tab (<[31%nat := set_rq_errors errors (read_request 0 demo_bh)]> (request_tab (hd_blk demo_hd)))
      (set_buffers [set_b_lock true demo_bh] (hd_blk demo_hd)))) demo_hd.

Lemma bad_rw_intr_counts_witness :
  bad_rw_intr (demo_busy 3) = Ret tt (set_reset true (put_req 31 (set_rq_errors 4 (read_request 0 demo_bh)) (demo_busy 3))) ∧
  bad_rw_intr (demo_busy 6) = Fault.
Proof.
  assert (Hs : ∀ e, serving (demo_busy e) 31 (set_rq_errors e (read_request 0 demo_bh)) 0 (set_b_lock true demo_bh)).
  { intros e. constructor; reflexivity. }
  split.
  - apply (bad_rw_intr_counts _ _ _ _ _ (Hs 3)). unfold MAX_ERRORS. cbn. lia.
  - apply (bad_rw_intr_counts _ _ _ _ _ (Hs 6)). unfold MAX_ERRORS. cbn. lia.
Defined.
