(* ===== verification/HdEnds.v ===== *)
(** * The hard-disk driver always ends

    Whatever the controller answers, the driver keeps its queue of requests in
    order and comes back from every request and every interrupt: the loop of
    [do_hd_request] ends before the fuel it is given. *)

From S2P Require Import Prelude Ports Blk Requests Hd.

(** errors are counted from 0 *)
Definition counted (q : request) : Prop := 0 ≤ rq_errors q.
#[local] Instance counted_prop : RequestProp counted.
Proof. split; unfold counted; cbn; [lia|done|done]. Qed.

Section hd_ends.
Context {W : Type} `{Ports W}.
Abbreviation st := (hd_state W).
Implicit Types s : st.
Abbreviation hd_served l s := (served counted HD_MAJOR l (hd_blk s)).

Lemma ends_on_blk {A} (m : M blk A) (Q : A → st → Prop) s :
  ends m (λ a d, Q a (set_hd_blk d s)) (hd_blk s) → ends (on_blk m) Q s.
Proof. unfold ends, on_blk. by destruct (m (hd_blk s)). Qed.

(** ** Code that does not touch the requests *)
Abbreviation hd_leaves := (leaves (λ s : st, (hd_blk s, reset s))).

Lemma leaves_inb port : hd_leaves (inb port).
Proof. intros s. unfold ends, inb. by destruct (port_inb _ _). Qed.
Lemma leaves_outb v port : hd_leaves (outb v port).
Proof. done. Qed.
Lemma leaves_the_drive drive : hd_leaves (the_drive drive).
Proof. intros s. unfold ends, the_drive. by destruct (_ !! _). Qed.
Lemma leaves_read {A} (m : M blk A) : (∀ d, ends m (λ _ d', d' = d) d) → hd_leaves (on_blk m).
Proof. intros Hm s. apply ends_on_blk. eapply ends_mono; [apply Hm|]. by intros a d ->. Qed.
#[local] Hint Resolve leaves_inb leaves_outb leaves_the_drive : leaves.

Lemma leaves_controller_loop n : hd_leaves (controller_loop n).
Proof. induction n as [|[|n] IH]; [done|done|]. cbn [controller_loop]. leaves. Qed.
Lemma leaves_busy_loop n : hd_leaves (busy_loop n).
Proof. induction n as [|n IH]; [done|]. cbn [busy_loop]. leaves. Qed.
Lemma leaves_wait_drq n r : hd_leaves (wait_drq n r).
Proof. revert r. induction n as [|n IH]; intros r; [done|]. cbn [wait_drq]. leaves. Qed.
#[local] Hint Resolve leaves_controller_loop leaves_busy_loop leaves_wait_drq : leaves.
Lemma leaves_win_result : hd_leaves win_result.
Proof. unfold win_result. leaves. Qed.
Lemma leaves_hd_out drive nsect sect head cyl cmd h : hd_leaves (hd_out drive nsect sect head cyl cmd h).
Proof. unfold hd_out, controller_ready. leaves. Qed.
#[local] Hint Resolve leaves_win_result leaves_hd_out : leaves.
Lemma leaves_reset_hd nr : hd_leaves (reset_hd nr).
Proof. unfold reset_hd, reset_controller, drive_busy. leaves. Qed.
Lemma leaves_chs i block : hd_leaves (chs i block).
Proof. unfold chs. leaves. Qed.
Lemma leaves_the_current_req : hd_leaves the_current_req.
Proof.
  unfold the_current_req, CURRENT. leaves; apply leaves_read; intros d.
  - by apply ends_get_current.
  - by apply ends_the_req.
Qed.
Lemma leaves_port_write : hd_leaves port_write.
Proof.
  unfold port_write. leaves; [apply leaves_the_current_req|]. apply leaves_read. intros d. by apply ends_the_bh.
Qed.
#[local] Hint Resolve leaves_reset_hd leaves_chs leaves_the_current_req leaves_port_write : leaves.

Lemma ends_leaves_hd {A B} (m : M st A) (k : A → M st B) Q s : hd_leaves m →
  (∀ a s', hd_blk s' = hd_blk s → reset s' = reset s → ends (k a) Q s') → ends (m ≫= k) Q s.
Proof. intros Hm Hk. apply (ends_leaves _ _ _ _ Hm). intros a s' E. injection E as E1 E2. by apply Hk. Qed.
Lemma ends_leaves_last {A} (m : M st A) l s : hd_leaves m → hd_served l s → ends m (λ _ s', ∃ l, hd_served l s') s.
Proof. intros Hm Hs. eapply ends_mono; [apply Hm|]. intros a s' E. injection E as E _. exists l. by rewrite E. Qed.

(** ** The loop *)

(** the number of errors of the request at the head of the queue *)
Definition head_errors (l : list nat) s : Z :=
  match l with
  | [] => 0
  | r :: _ => match request_tab (hd_blk s) !! r with Some q => rq_errors q | None => 0 end
  end.

(** how often the label [repeat] can still be reached: a request is ended, or
    counts an error, and the fourth error ends the loop by a reset *)
Definition need (l : list nat) s : nat :=
  if reset s then S (length l) else (5 * length l + 2 - Z.to_nat (Z.min 4 (head_errors l s)))%nat.

Lemma need_le l s : (need l s ≤ 5 * length l + 2)%nat.
Proof. unfold need. destruct (reset s); lia. Qed.
Lemma need_ge l s : (1 ≤ need l s)%nat.
Proof. unfold need, head_errors. destruct (reset s), l; cbn [length]; lia. Qed.
Lemma need_tail r l s s' : (reset s = true → reset s' = true) → (need l s' < need (r :: l) s)%nat.
Proof.
  intros Hr. unfold need at 2. destruct (reset s); cbn [length].
  - unfold need. rewrite Hr by done. lia.
  - pose proof (need_le l s'). lia.
Qed.

Lemma ends_upd_current_req f l s : hd_served l s →
  (∀ q, rq_next (f q) = rq_next q ∧ rq_dev (f q) = rq_dev q ∧ (counted q → counted (f q))) →
  ends (upd_current_req f) (λ _ s', hd_served l s' ∧ reset s' = reset s ∧
    ∃ r l' q, l = r :: l' ∧ request_tab (hd_blk s) !! r = Some q ∧ request_tab (hd_blk s') !! r = Some (f q)) s.
Proof.
  intros Hs Hf. unfold upd_current_req, CURRENT. ends_step. ends_step. apply ends_on_blk, ends_get_current.
  intros p Hp. ends_steps. subst p. pose proof (served_head _ _ _ _ Hs Hp) as (l' & -> & _ & q & Hq & _).
  destruct (Hf q) as (E1 & E2 & E3). apply ends_on_blk, ends_upd_req. intros q' Hq'.
  change (hd_blk (set_hd_blk (hd_blk s) s)) with (hd_blk s) in *.
  assert (q' = q) as -> by congruence. split; [|split; [done|]].
  - apply (served_req _ _ _ a q); [exact Hs|exact Hq|apply E3; exact (sd_prop _ _ _ _ Hs a q Hq)|].
    intros Ha. split; [done|]. rewrite E2. exact (sd_used _ _ _ _ Hs a q Ha Hq).
  - exists a, l', q. split; [done|]. split; [done|]. apply list_lookup_insert_eq. by eapply lookup_lt_Some.
Qed.

Lemma ends_the_current_req l s (Q : request → st → Prop) : hd_served l s →
  (∀ r l' q, l = r :: l' → request_tab (hd_blk s) !! r = Some q → Q q s) → ends the_current_req Q s.
Proof.
  intros Hs HQ. unfold the_current_req, CURRENT. ends_step. ends_step. apply ends_on_blk, ends_get_current.
  intros p Hp. ends_steps. subst p. pose proof (served_head _ _ _ _ Hs Hp) as (l' & -> & _).
  apply ends_on_blk, ends_the_req. intros q Hq. destruct s. by eapply HQ.
Qed.

Lemma ends_hd_end_request l s uptodate : hd_served l s →
  ends (on_blk (end_request HD_MAJOR uptodate)) (λ _ s', ∃ r, l = r :: tail l ∧ hd_served (tail l) s' ∧ reset s' = reset s) s.
Proof.
  intros Hs. apply ends_on_blk. eapply ends_mono; [exact (ends_end_request HD_MAJOR l _ uptodate Hs)|].
  intros [] d (r & E & Hd). by exists r.
Qed.

Lemma bad_rw_intr_ends l s : hd_served l s →
  ends bad_rw_intr (λ _ s', ∃ l', hd_served l' s' ∧ (reset s = false → need l' s' < need l s)%nat) s.
Proof.
  intros Hs. unfold bad_rw_intr. ends_step. eapply ends_mono.
  { apply (ends_upd_current_req _ l); [done|]. intros q. split_and!; [done|done|]. unfold counted. cbn. lia. }
  intros [] s1 (Hs1 & Hr1 & r & l' & q & -> & Hq & Hq1). set (q1 := set_rq_errors _ q) in *.
  ends_step. apply (ends_the_current_req (r :: l')); [done|]. intros ? ? q1' [= <- <-] Hq1'.
  assert (q1' = q1) as -> by congruence. clear Hq1'. ends_step. apply ends_when; intros Hmax.
  - eapply ends_mono; [by apply ends_hd_end_request|]. intros [] s2 (_ & _ & Hs2 & Hr2). cbn [tail] in Hs2.
    ends_step. apply (ends_the_current_req l'); [done|]. intros r2 l2 q2 -> Hq2.
    assert (Hn : ∀ s3, (reset s = false → need (r2 :: l2) s3 < need (r :: r2 :: l2) s)%nat)
      by (intros s3 Hf; apply need_tail; congruence).
    apply ends_when; intros _; [ends_step|]; (exists (r2 :: l2); split; [done|apply Hn]).
  - ends_step. apply (ends_the_current_req (r :: l')); [done|]. intros ? ? q1' [= <- <-] Hq1'.
    assert (q1' = q1) as -> by congruence. clear Hq1'.
    assert (Hc : 0 ≤ rq_errors q) by exact (sd_prop _ _ _ _ Hs r q Hq).
    assert (Hh : head_errors (r :: l') s = rq_errors q) by (unfold head_errors; by rewrite Hq).
    assert (Hh1 : head_errors (r :: l') s1 = rq_errors q + 1) by (unfold head_errors; by rewrite Hq1).
    change (rq_errors q1) with (rq_errors q + 1) in *. change (MAX_ERRORS / 2) with 3.
    apply ends_when; intros He; [ends_step|]; exists (r :: l'); (split; [done|]); intros Hf; unfold need; rewrite Hf, Hh.
    + change (reset (set_reset true s1)) with true. cbn [length]. lia.
    + rewrite Hr1, Hf, Hh1. b2p. cbn [length]. lia.
Qed.

Lemma do_hd_request_loop_ends fuel l s : hd_served l s → (need l s ≤ fuel)%nat →
  ends (do_hd_request_loop fuel) (λ _ s', ∃ l, hd_served l s') s.
Proof.
  revert l s. induction fuel as [|fuel IH]; intros l s Hs Hf; [pose proof (need_ge l s); lia|].
  cbn [do_hd_request_loop]. ends_step. apply ends_on_blk.
  eapply ends_mono; [exact (ends_INIT_REQUEST HD_MAJOR "harddisk" l _ Hs)|]. intros o d [-> Ho].
  replace (set_hd_blk (hd_blk s) s) with s by (by destruct s).
  destruct o as [q|]; [|ends_step; by exists l]. destruct Ho as (r & l' & -> & Hc & Hq).
  assert (Hend : ends (on_blk (end_request HD_MAJOR false) ;; do_hd_request_loop fuel) (λ _ s', ∃ l, hd_served l s') s).
  { ends_step. eapply ends_mono; [by apply ends_hd_end_request|]. intros [] s' (_ & _ & Hs' & Hr).
    apply (IH l'); [done|]. assert (need l' s' < need (r :: l') s)%nat by (apply need_tail; congruence). lia. }
  do 2 ends_step. destruct (_ <=? _); [done|]. do 2 ends_step. destruct (_ <? _); [done|].
  apply ends_leaves_hd; [apply leaves_the_drive|]. intros i s1 E1 R1. apply ends_leaves_hd; [apply leaves_chs|].
  intros [[sec head] cyl] s2 E2 R2. assert (Hs2 : hd_served (r :: l') s2) by (by rewrite E2, E1).
  assert (Hlast : ∀ m : M st unit, hd_leaves m → ends m (λ _ s', ∃ l, hd_served l s') s2)
    by (intros m Hm; by apply (ends_leaves_last m (r :: l'))).
  destruct (reset s) eqn:Hreset.
  { do 2 ends_step. do 2 ends_step. eapply (ends_leaves_last _ (r :: l')); [apply leaves_reset_hd|exact Hs2]. }
  destruct (recalibrate s).
  { do 2 ends_step. eapply (ends_leaves_last _ (r :: l')); [apply leaves_hd_out|exact Hs2]. }
  destruct (_ =? WRITE); [|destruct (_ =? READ); [apply Hlast, leaves_hd_out|by apply Hlast]].
  apply ends_leaves_hd; [apply leaves_hd_out|]. intros _ s3 E3 R3. apply ends_leaves_hd; [apply leaves_wait_drq|].
  intros v s4 E4 R4. assert (E : hd_blk s4 = hd_blk s) by congruence. assert (R : reset s4 = false) by congruence.
  assert (Hs4 : hd_served (r :: l') s4) by (by rewrite E).
  destruct (v =? 0); [|eapply ends_leaves_last; [apply leaves_port_write|exact Hs4]].
  ends_step. eapply ends_mono; [exact (bad_rw_intr_ends _ _ Hs4)|]. intros [] s5 (l5 & Hs5 & Hn).
  apply (IH l5); [exact Hs5|]. specialize (Hn R).
  assert (need (r :: l') s4 = need (r :: l') s) as En by (unfold need, head_errors; by rewrite R, Hreset, E). lia.
Qed.

Lemma do_hd_request_ends l s : hd_served l s → ends do_hd_request (λ _ s', ∃ l, hd_served l s') s.
Proof.
  intros Hs. eapply do_hd_request_loop_ends; [exact Hs|]. pose proof (need_le l s).
  pose proof (served_length HD_MAJOR l _ Hs). unfold HD_FUEL. lia.
Qed.

(** ** Interrupts and requests *)
Abbreviation hd_ends m s := (ends m (λ (_ : unit) s', ∃ l, hd_served l s') s).

Lemma bad_then_request l s : hd_served l s → hd_ends (bad_rw_intr ;; do_hd_request) s.
Proof.
  intros Hs. ends_step. eapply ends_mono; [exact (bad_rw_intr_ends _ _ Hs)|]. intros [] s' (l' & Hs' & _).
  by eapply do_hd_request_ends.
Qed.
Lemma end_then_request l s uptodate : hd_served l s →
  hd_ends (on_blk (end_request HD_MAJOR uptodate) ;; do_hd_request) s.
Proof.
  intros Hs. ends_step. eapply ends_mono; [exact (ends_hd_end_request _ _ uptodate Hs)|]. intros [] s' (_ & _ & Hs' & _).
  by eapply do_hd_request_ends.
Qed.

Lemma ends_port_read l s : hd_served l s → ends port_read (λ _ s', hd_served l s') s.
Proof.
  intros Hs. unfold port_read. apply ends_leaves_hd; [apply leaves_the_current_req|]. intros q s1 E1 _.
  ends_step. ends_step. ends_step. unfold ends at 1. destruct (port_insw _ _ _) as [d w].
  apply ends_on_blk, ends_upd_bh. cbn. rewrite E1. intros b Hb. by apply (served_buf _ _ _ _ b).
Qed.

Lemma read_intr_ends l s : hd_served l s → hd_ends read_intr s.
Proof.
  intros Hs. unfold read_intr. apply ends_leaves_hd; [apply leaves_win_result|]. intros r s1 E1 _.
  assert (Hs1 : hd_served l s1) by (by rewrite E1). clear Hs E1. destruct (negb _); [by eapply bad_then_request|].
  ends_step. eapply ends_mono; [exact (ends_port_read _ _ Hs1)|]. intros [] s2 Hs2.
  do 2 (ends_step; eapply ends_mono;
    [eapply ends_upd_current_req; [eassumption|]; intros q; split_and!; [done|done|]; unfold counted; cbn; lia|];
    intros [] ? (? & _ & _)).
  apply ends_leaves_hd; [apply leaves_the_current_req|]. intros q s5 E5 _.
  assert (Hs5 : hd_served l s5) by (by rewrite E5). destruct (negb _); [ends_step; by exists l|by eapply end_then_request].
Qed.

Lemma write_intr_ends l s : hd_served l s → hd_ends write_intr s.
Proof.
  intros Hs. unfold write_intr. apply ends_leaves_hd; [apply leaves_win_result|]. intros r s1 E1 _.
  assert (Hs1 : hd_served l s1) by (by rewrite E1). clear Hs E1. destruct (negb _); [by eapply bad_then_request|].
  ends_step. eapply ends_mono; [eapply ends_upd_current_req; [exact Hs1|]; intros q; split_and!; done|].
  intros [] s2 (Hs2 & _ & _). apply ends_leaves_hd; [apply leaves_the_current_req|]. intros q s3 E3 _.
  assert (Hs3 : hd_served l s3) by (by rewrite E3). destruct (negb _); [|by eapply end_then_request].
  ends_step. eapply ends_mono; [eapply ends_upd_current_req; [exact Hs3|]; intros q'; split_and!; done|].
  intros [] s4 (Hs4 & _ & _). do 2 ends_step. eapply (ends_leaves_last _ l); [apply leaves_port_write|exact Hs4].
Qed.

Lemma hd_interrupt_ends l s : hd_served l s → hd_ends hd_interrupt s.
Proof.
  intros Hs. unfold hd_interrupt. do 2 ends_step. do 2 ends_step.
  destruct (do_hd s) as [[| |]|]; [by apply (read_intr_ends l)|by apply (write_intr_ends l)| |ends_step; by exists l].
  unfold recal_intr. apply ends_leaves_hd; [apply leaves_win_result|]. intros r s1 E1 _.
  assert (Hs1 : hd_served l s1) by (by rewrite E1). ends_step. apply ends_when; intros _; [|by eapply do_hd_request_ends].
  eapply ends_mono; [exact (bad_rw_intr_ends _ _ Hs1)|]. intros [] s2 (l2 & Hs2 & _). by eapply do_hd_request_ends.
Qed.

Lemma hd_ll_rw_block_ends rw bh l s : hd_served l s → hd_ends (hd_ll_rw_block rw bh) s.
Proof.
  intros Hs. unfold hd_ll_rw_block. do 2 ends_step. destruct (negb _); [ends_step; by exists l|].
  ends_step. apply ends_on_blk. eapply ends_mono; [exact (ends_prepare_request HD_MAJOR l rw bh _ Hs)|].
  intros [r|] d [Hd Hr]; [|ends_step; by exists l]. destruct Hr as (Hn & q & Hq & Hdev).
  ends_step. apply ends_on_blk. eapply ends_mono; [exact (ends_queue_request HD_MAJOR l r q _ Hd Hn Hq Hdev)|].
  intros only d' (l1 & l2 & _ & Hd'). apply ends_when; intros _; [by eapply do_hd_request_ends|by exists (l1 ++ r :: l2)].
Qed.

(** what can happen to the driver: a block is asked for, the controller
    interrupts, or the outside world changes *)
Inductive hd_event := hd_rw (rw : Z) (bh : nat) | hd_irq | hd_world (w : W).
Definition hd_step (e : hd_event) : M st unit :=
  match e with
  | hd_rw rw bh => hd_ll_rw_block rw bh
  | hd_irq => hd_interrupt
  | hd_world w => modify (set_hd_ports w)
  end.

End hd_ends.

(** ** Concrete input: a controller on which everything fails *)
#[local] Instance broken : Ports unit := {
  port_inb p w := (0x51, w); port_outb p v w := w; port_insw p n w := (replicate 512 0, w); port_outsw p d w := w
}.
Definition demo_broken : hd_state unit :=
  mk_hd (mk_blk [mk_bh (replicate 1024 0) 10 0x301 false false 1 false None None None None]
      (replicate NR_REQUEST (mk_req (-1) 0 0 0 0 None 0 None None)) (replicate 7 None) (replicate 7 None) 0 0 [])
    tt false false [mk_hdi 4 17 100 0 0 8] 1 (<[1%nat := mk_hds 17 2000]> (replicate 10 (mk_hds 0 0))) None true.

Lemma demo_broken_served : served counted HD_MAJOR [] (hd_blk demo_broken).
Proof.
  constructor; [reflexivity|by exists None|intros r q Hr; by apply elem_of_nil in Hr| |].
  - intros r q (-> & _)%lookup_replicate. unfold counted. cbn. lia.
  - intros [|[|]] b; [|done|done]. intros [= <-]. cbn. lia.
Qed.

