(* ===== verification/Buffer.v ===== *)
(** * The buffer cache

    Models [linux-0.11/fs/buffer.c]: the cache of disk blocks with its hash
    queues and its circular free list, over any block driver ([BlockDriver] of
    [Blk.v]).  [sync_dev] calls back into inode.c; that call is the argument
    [sync_inodes] of the section, instantiated when the layers are put
    together.

    The proofs come in three layers: the pointer structure (hash queues and
    free list are well-linked doubly linked lists), what each function does to
    the array of buffer heads, and the contract the file system relies on. *)

From S2P Require Import Prelude Blk.

Definition NR_HASH : Z := 307.

(** ** State

    [drv] holds the block driver with the buffer heads, [up] whatever the layers
    above keep (the buffer cache reaches it only through [sync_inodes]).
    [insert_into_queues] stores through [bh->b_next] without testing it; when
    it is NULL the store lands in low memory, at the offset of [b_prev]:
    [null_b_prev] is that cell. *)
Section state.
Context {D E : Type}.
Record bstate := mk_bst {
  drv : D;
  hash_table : list ptr;
  free_list : ptr;
  null_b_prev : ptr;
  up : E
}.
Definition set_drv (v : D) (x : bstate) : bstate := mk_bst v (hash_table x) (free_list x) (null_b_prev x) (up x).
Definition set_hash_table (v : list ptr) (x : bstate) : bstate := mk_bst (drv x) v (free_list x) (null_b_prev x) (up x).
Definition set_free_list (v : ptr) (x : bstate) : bstate := mk_bst (drv x) (hash_table x) v (null_b_prev x) (up x).
Definition set_null_b_prev (v : ptr) (x : bstate) : bstate := mk_bst (drv x) (hash_table x) (free_list x) v (up x).
Definition set_up (v : E) (x : bstate) : bstate := mk_bst (drv x) (hash_table x) (free_list x) (null_b_prev x) v.
End state.
Arguments bstate D E : clear implicits.

Section buffer.
Context {D E : Type} `{BlockDriver D}.
Abbreviation st := (bstate D E).

(** ** Access to the buffer heads *)
Definition bufs (s : st) : list buffer_head := dv_bufs (drv s).
Definition put_bufs (l : list buffer_head) (s : st) : st := set_drv (dv_set_bufs l (drv s)) s.
Definition the_buf (i : nat) : M st buffer_head := λ s, of_opt (bufs s !! i) s.
Definition upd_buf (i : nat) (f : buffer_head → buffer_head) : M st unit := λ s,
  match bufs s !! i with
  | Some b => Ret tt (put_bufs (<[i := f b]> (bufs s)) s)
  | None => Fault
  end.
Definition ll_rw (rw : Z) (i : nat) : M st unit := λ s,
  match dv_ll_rw_block rw i (drv s) with
  | Ret _ d => Ret tt (set_drv d s)
  | Panic w => Panic w
  | Sleep d => Sleep (set_drv d s)
  | Exit c d => Exit c (set_drv d s)
  | Fault => Fault
  | NoFuel => NoFuel
  end.
Definition NR_BUFFERS (s : st) : nat := length (bufs s).

(** [inode.c]'s [sync_inodes] *)
Context (sync_inodes : M st unit).

Definition wait_on_buffer (bh : nat) : M st unit :=
  b ← the_buf bh;
  if b_lock b then blocked else mret tt.

Definition sync_one (bh : nat) : M st unit :=
  wait_on_buffer bh ;;
  b ← the_buf bh;
  when (b_dirt b) (ll_rw WRITE bh).

Definition sys_sync : M st Z :=
  sync_inodes ;;
  n ← gets NR_BUFFERS;
  for_each sync_one (seq 0 n) ;;
  mret 0.

(** one of the two loops of [sync_dev] *)
Definition sync_dev_pass (dev : Z) : M st unit :=
  n ← gets NR_BUFFERS;
  for_each (λ bh,
    b ← the_buf bh;
    if negb (b_dev b =? dev) then mret tt
    else
      wait_on_buffer bh ;;
      b ← the_buf bh;
      when ((b_dev b =? dev) && b_dirt b) (ll_rw WRITE bh)) (seq 0 n).

Definition sync_dev (dev : Z) : M st Z :=
  sync_dev_pass dev ;;
  sync_inodes ;;
  sync_dev_pass dev ;;
  mret 0.

Definition invalidate_buffers (dev : Z) : M st unit :=
  n ← gets NR_BUFFERS;
  for_each (λ bh,
    b ← the_buf bh;
    if negb (b_dev b =? dev) then mret tt
    else
      wait_on_buffer bh ;;
      b ← the_buf bh;
      when (b_dev b =? dev) (upd_buf bh (λ b, set_b_uptodate false (set_b_dirt false b))))
    (seq 0 n).

(** ** Hash queues and free list *)

Definition hashfn (dev block : Z) : nat := Z.to_nat (u32 (Z.lxor dev block) mod NR_HASH).

Definition get_hash (h : nat) : M st ptr := λ s, of_opt (hash_table s !! h) s.
Definition put_hash (h : nat) (p : ptr) : M st unit := λ s,
  Ret tt (set_hash_table (<[h := p]> (hash_table s)) s).

(** [p->f = v], a store through a pointer *)
Definition via (p : ptr) (f : buffer_head → buffer_head) : M st unit :=
  i ← of_opt p; upd_buf i f.

Definition remove_from_queues (bh : nat) : M st unit :=
  (* remove from hash-queue *)
  b ← the_buf bh;
  when (bool_decide (is_Some (b_next b))) (via (b_next b) (set_b_prev (b_prev b))) ;;
  b ← the_buf bh;
  when (bool_decide (is_Some (b_prev b))) (via (b_prev b) (set_b_next (b_next b))) ;;
  b ← the_buf bh;
  let h := hashfn (b_dev b) (b_blocknr b) in
  p ← get_hash h;
  when (bool_decide (p = Some bh)) (put_hash h (b_next b)) ;;
  (* remove from free list *)
  (if bool_decide (b_prev_free b = None ∨ b_next_free b = None)
   then panic "Free block list corrupted" else mret tt) ;;
  via (b_prev_free b) (set_b_next_free (b_next_free b)) ;;
  b ← the_buf bh;
  via (b_next_free b) (set_b_prev_free (b_prev_free b)) ;;
  fl ← gets free_list;
  b ← the_buf bh;
  when (bool_decide (fl = Some bh)) (modify (set_free_list (b_next_free b))).

Definition insert_into_queues (bh : nat) : M st unit :=
  (* put at end of free list *)
  fl ← gets free_list;
  upd_buf bh (set_b_next_free fl) ;;
  head ← of_opt fl;
  hb ← the_buf head;
  upd_buf bh (set_b_prev_free (b_prev_free hb)) ;;
  hb ← the_buf head;
  via (b_prev_free hb) (set_b_next_free (Some bh)) ;;
  upd_buf head (set_b_prev_free (Some bh)) ;;
  (* put the buffer in new hash-queue if it has a device *)
  upd_buf bh (set_b_prev None) ;;
  upd_buf bh (set_b_next None) ;;
  b ← the_buf bh;
  if b_dev b =? 0 then mret tt
  else
    let h := hashfn (b_dev b) (b_blocknr b) in
    p ← get_hash h;
    upd_buf bh (set_b_next p) ;;
    put_hash h (Some bh) ;;
    match p with
    | Some n => upd_buf n (set_b_prev (Some bh))
    | None => modify (set_null_b_prev (Some bh))
    end.

(** ** Looking a block up *)

(** the [for] loop of [find_buffer]; the fuel is the number of buffers *)
Fixpoint find_in_queue (fuel : nat) (tmp : ptr) (dev block : Z) : M st ptr :=
  match tmp with
  | None => mret None
  | Some i =>
    match fuel with
    | O => nofuel
    | S fuel' =>
      b ← the_buf i;
      if (b_dev b =? dev) && (b_blocknr b =? u32 block) then mret (Some i)
      else find_in_queue fuel' (b_next b) dev block
    end
  end.

Definition find_buffer (dev block : Z) : M st ptr :=
  p ← get_hash (hashfn dev block);
  n ← gets NR_BUFFERS;
  find_in_queue n p dev block.

Definition inc_count (b : buffer_head) : buffer_head := set_b_count (u8 (b_count b + 1)) b.
Definition dec_count (b : buffer_head) : buffer_head := set_b_count (u8 (b_count b - 1)) b.

(** [get_hash_table]; the fuel bounds the retries of its loop *)
Fixpoint get_hash_table_loop (fuel : nat) (dev block : Z) : M st ptr :=
  match fuel with
  | O => nofuel
  | S fuel' =>
    p ← find_buffer dev block;
    match p with
    | None => mret None
    | Some bh =>
      upd_buf bh inc_count ;;
      wait_on_buffer bh ;;
      b ← the_buf bh;
      if (b_dev b =? dev) && (b_blocknr b =? u32 block) then mret (Some bh)
      else upd_buf bh dec_count ;; get_hash_table_loop fuel' dev block
    end
  end.

(** Retries happen only when a task slept; one task never needs a second. *)
Definition RETRIES : nat := 3.
Definition get_hash_table (dev block : Z) : M st ptr := get_hash_table_loop RETRIES dev block.

(** ** Getting a buffer for a block *)

Definition BADNESS (b : buffer_head) : Z :=
  Z.shiftl (Z.b2z (b_dirt b)) 1 + Z.b2z (b_lock b).

(** the [do ... while] loop of [getblk], over the free list from [tmp] on *)
Fixpoint scan_free (fuel : nat) (tmp : nat) (best : ptr) : M st ptr :=
  match fuel with
  | O => nofuel
  | S fuel' =>
    t ← the_buf tmp;
    let continue best :=
      fl ← gets free_list;
      if bool_decide (b_next_free t = fl) then mret best
      else nx ← of_opt (b_next_free t); scan_free fuel' nx best in
    if negb (b_count t =? 0) then continue best
    else
      better ← (match best with
                | None => mret true
                | Some j => bj ← the_buf j; mret (BADNESS t <? BADNESS bj)
                end : M st bool);
      if (better : bool) then
        if BADNESS t =? 0 then mret (Some tmp) else continue (Some tmp)
      else continue best
  end.

(** [while (bh->b_dirt)] of [getblk]; [true]: some other user took the buffer *)
Fixpoint clean_victim (fuel : nat) (bh : nat) : M st bool :=
  match fuel with
  | O => nofuel
  | S fuel' =>
    b ← the_buf bh;
    if negb (b_dirt b) then mret false
    else
      sync_dev (b_dev b) ;;
      wait_on_buffer bh ;;
      b ← the_buf bh;
      if negb (b_count b =? 0) then mret true else clean_victim fuel' bh
  end.

Fixpoint getblk_loop (fuel : nat) (dev block : Z) : M st nat :=
  match fuel with
  | O => nofuel
  | S fuel' =>
    r ← get_hash_table dev block;
    match r with
    | Some bh => mret bh
    | None =>
      fl ← gets free_list;
      tmp ← of_opt fl;
      n ← gets NR_BUFFERS;
      best ← scan_free n tmp None;
      match best with
      | None => blocked                     (* sleep_on(&buffer_wait) *)
      | Some bh =>
        wait_on_buffer bh ;;
        b ← the_buf bh;
        if negb (b_count b =? 0) then getblk_loop fuel' dev block
        else
          again ← clean_victim RETRIES bh;
          if (again : bool) then getblk_loop fuel' dev block
          else
            fb ← find_buffer dev block;
            match fb with
            | Some _ => getblk_loop fuel' dev block
            | None =>
              upd_buf bh (set_b_count 1) ;;
              upd_buf bh (set_b_dirt false) ;;
              upd_buf bh (set_b_uptodate false) ;;
              remove_from_queues bh ;;
              upd_buf bh (set_b_dev (u16 dev)) ;;
              upd_buf bh (set_b_blocknr (u32 block)) ;;
              insert_into_queues bh ;;
              mret bh
            end
      end
    end
  end.
Definition getblk (dev block : Z) : M st nat := getblk_loop RETRIES dev block.

Definition brelse (buf : ptr) : M st unit :=
  match buf with
  | None => mret tt
  | Some bh =>
    wait_on_buffer bh ;;
    b ← the_buf bh;
    upd_buf bh dec_count ;;
    if b_count b =? 0 then panic "Trying to free free buffer" else mret tt
  end.

(** ** Reading blocks *)

Definition bread (dev block : Z) : M st ptr :=
  bh ← getblk dev block;
  b ← the_buf bh;
  if b_uptodate b then mret (Some bh)
  else
    ll_rw READ bh ;;
    wait_on_buffer bh ;;
    b ← the_buf bh;
    if b_uptodate b then mret (Some bh)
    else brelse (Some bh) ;; mret None.

(** first loop of [bread_page]: get the buffers and start the reads *)
Fixpoint bread_page_start (dev : Z) (b : list Z) : M st (list ptr) :=
  match b with
  | [] => mret []
  | n :: rest =>
    p ← (if n =? 0 then mret None
         else
           bh ← getblk dev n;
           x ← the_buf bh;
           when (negb (b_uptodate x)) (ll_rw READ bh) ;;
           mret (Some bh));
    ps ← bread_page_start dev rest;
    mret (p :: ps)
  end.

(** second loop: what is copied to the [i]-th quarter of the page, [None]
    where nothing is *)
Fixpoint bread_page_copy (ps : list ptr) : M st (list (option bytes)) :=
  match ps with
  | [] => mret []
  | p :: rest =>
    x ← match p with
        | None => mret None
        | Some bh =>
          wait_on_buffer bh ;;
          b ← the_buf bh;
          brelse (Some bh) ;;
          mret (if b_uptodate b then Some (b_data b) else None)
        end;
    xs ← bread_page_copy rest;
    mret (x :: xs)
  end.

Definition bread_page (dev : Z) (b : list Z) : M st (list (option bytes)) :=
  ps ← bread_page_start dev b; bread_page_copy ps.

(** the read-ahead loop of [breada] over its remaining arguments; it issues
    its requests on [bh], the buffer of the first block, not on [tmp] *)
Fixpoint breada_ahead (dev : Z) (bh : nat) (args : list Z) : M st unit :=
  match args with
  | [] => mret tt
  | first :: rest =>
    if first <? 0 then mret tt
    else
      tmp ← getblk dev first;
      t ← the_buf tmp;
      when (negb (b_uptodate t)) (ll_rw READA bh) ;;
      upd_buf tmp dec_count ;;
      breada_ahead dev bh rest
  end.

Definition breada (dev first : Z) (args : list Z) : M st ptr :=
  bh ← getblk dev first;
  b ← the_buf bh;
  when (negb (b_uptodate b)) (ll_rw READ bh) ;;
  breada_ahead dev bh args ;;
  wait_on_buffer bh ;;
  b ← the_buf bh;
  if b_uptodate b then mret (Some bh)
  else brelse (Some bh) ;; mret None.
End buffer.

(** ** Setting the cache up

    [buffer_init] lays buffer heads upwards from [start_buffer] and data blocks
    downwards from [buffer_end], skipping the hole from 640 kB to 1 MB.
    [sizeof (struct buffer_head)] is 36. *)
Definition SIZEOF_BUFFER_HEAD : Z := 36.

(** the addresses of the data blocks, from head address [h] and data address
    [b] on *)
Fixpoint init_blocks (fuel : nat) (h b : Z) : list Z :=
  match fuel with
  | O => []
  | S fuel' =>
    let b := b - BLOCK_SIZE in
    if h + SIZEOF_BUFFER_HEAD <=? b
    then b :: init_blocks fuel' (h + SIZEOF_BUFFER_HEAD) (if b =? 0x100000 then 0xA0000 else b)
    else []
  end.

Definition buffer_addrs (start_buffer buffer_end : Z) : list Z :=
  let b := if buffer_end =? Z.shiftl 1 20 then 640 * 1024 else buffer_end in
  init_blocks (Z.to_nat buffer_end) start_buffer b.

(** the buffer head of number [i] of [n], with data block [d] (whatever is in
    that memory): linked to its neighbours, the list closed into a ring by the
    assignments after the loop *)
Definition init_head (n i : nat) (d : bytes) : buffer_head :=
  mk_bh d 0 0 false false 0 false None None
    (Some (if decide (i = 0%nat) then (n - 1)%nat else (i - 1)%nat))
    (Some (if decide (i = (n - 1)%nat) then 0%nat else (i + 1)%nat)).

(** [contents a]: the 1024 bytes of memory at address [a] *)
Definition buffer_init {D E} `{BlockDriver D} (contents : Z → bytes) (start_buffer buffer_end : Z) :
    M (bstate D E) unit :=
  let addrs := buffer_addrs start_buffer buffer_end in
  let n := length addrs in
  modify (put_bufs (imap (λ i a, init_head n i (contents a)) addrs)) ;;
  modify (set_free_list (Some 0%nat)) ;;
  modify (set_hash_table (replicate (Z.to_nat NR_HASH) None)).
