(* ===== verification/BufferQueues.v ===== *)
(** * The queues of the buffer cache

    The hash queues and the free list of [buffer.c] are doubly linked lists
    threaded through the buffer heads.  [qinv] says what they look like, and
    this file proves what [remove_from_queues] and [insert_into_queues] do to
    them, store by store. *)
From S2P Require Import Prelude Blk DList Buffer.
#[local] Set Warnings "-clear-no-such-hyp".

(** ** Buffer heads without their links *)
Record core := mk_core {
  c_data : bytes; c_blocknr : Z; c_dev : Z; c_uptodate : bool; c_dirt : bool;
  c_count : Z; c_lock : bool
}.
Definition core_of (b : buffer_head) : core :=
  mk_core (b_data b) (b_blocknr b) (b_dev b) (b_uptodate b) (b_dirt b) (b_count b) (b_lock b).

(** a link field, as a partial map of buffer numbers *)
Definition link (g : buffer_head → ptr) (l : list buffer_head) (i : nat) : ptr := l !! i ≫= g.

(** [p->f = ..] when [p] may be NULL *)
Definition setp (p : ptr) (f : buffer_head → buffer_head) (l : list buffer_head) : list buffer_head :=
  match p with Some i => alter f i l | None => l end.

Section lists.
Implicit Types (l : list buffer_head) (p v : ptr).

Lemma length_setp p f l : length (setp p f l) = length l.
Proof. destruct p; [apply length_alter|done]. Qed.

Lemma link_setp g f p l j :
  link g (setp p f l) j = if decide (p = Some j) then l !! j ≫= (g ∘ f) else link g l j.
Proof.
  unfold link, setp. destruct p as [i|]; [|by rewrite decide_False].
  rewrite list_lookup_alter. case_decide as E; case_decide as E'; simplify_eq; try done.
  by destruct (l !! j).
Qed.

(** a store to one link field: that field changes at one place, the others not *)
Lemma link_setp_same g f p v l j :
  (∀ b, g (f b) = v) → (j < length l)%nat →
  link g (setp p f l) j = if decide (p = Some j) then v else link g l j.
Proof.
  intros Hg Hj. rewrite link_setp. case_decide; [|done].
  destruct (lookup_lt_is_Some_2 l j Hj) as [b ->]. apply Hg.
Qed.
Lemma link_setp_other g f p l j :
  (∀ b, g (f b) = g b) → link g (setp p f l) j = link g l j.
Proof.
  intros Hg. rewrite link_setp. case_decide; [|done]. unfold link. destruct (l !! j); cbn; auto.
Qed.
Lemma core_setp f p l :
  (∀ b, core_of (f b) = core_of b) → core_of <$> setp p f l = core_of <$> l.
Proof.
  intros Hf. destruct p as [i|]; [|done]. apply list_eq. intros j. cbn.
  rewrite !list_lookup_fmap, list_lookup_alter. case_decide as E; [|done]. subst.
  destruct (l !! j) as [b|]; [|reflexivity]. exact (f_equal Some (Hf b)).
Qed.
End lists.

(** ** The queues are well formed

    [qinv l tab flp out fl ch]: the free list is the ring [fl] entered at [flp],
    bucket [h] of the hash table [tab] is the list [ch h], each buffer with a
    device is in exactly the bucket of its block.  [out] is a buffer that is
    currently taken out of all queues. *)
Record qinv (l : list buffer_head) (tab : list ptr) (flp out : ptr) (fl : list nat)
    (ch : nat → list nat) : Prop := {
  q_perm : fl ++ option_list out ≡ₚ seq 0 (length l);
  q_ring : dll (link b_next_free l) (link b_prev_free l) (last fl) fl (head fl);
  q_head : flp = head fl;
  q_tab : length tab = Z.to_nat NR_HASH;
  q_nodup h : (h < Z.to_nat NR_HASH)%nat → NoDup (ch h);
  q_bucket h : (h < Z.to_nat NR_HASH)%nat → tab !! h = Some (head (ch h));
  q_chain h : (h < Z.to_nat NR_HASH)%nat → dll (link b_next l) (link b_prev l) None (ch h) None;
  q_mem h i : (h < Z.to_nat NR_HASH)%nat →
    i ∈ ch h ↔ Some i ≠ out ∧ ∃ b, l !! i = Some b ∧ b_dev b ≠ 0 ∧
                 hashfn (b_dev b) (b_blocknr b) = h;
  q_nodev i b : Some i ≠ out → l !! i = Some b → b_dev b = 0 → b_prev b = None ∧ b_next b = None
}.

Lemma hashfn_bound dev block : (hashfn dev block < Z.to_nat NR_HASH)%nat.
Proof.
  unfold hashfn. pose proof (Z.mod_pos_bound (u32 (Z.lxor dev block)) NR_HASH ltac:(done)). lia.
Qed.

Lemma NoDup_perm_seq (fl : list nat) n : fl ≡ₚ seq 0 n → NoDup fl ∧ ∀ i, i ∈ fl ↔ (i < n)%nat.
Proof.
  intros Hp. split; [rewrite Hp; apply NoDup_seq|]. intros i. rewrite Hp, elem_of_seq. lia.
Qed.

(** the neighbours of a cell *)
Lemma dll_middle nx pv p a x c n :
  dll nx pv p (a ++ x :: c) n →
  pv x = (match last a with Some j => Some j | None => p end) ∧
  nx x = (match head c with Some j => Some j | None => n end).
Proof.
  intros Hd. apply dll_app in Hd as [_ Hd]. change (x :: c) with ([x] ++ c) in Hd.
  apply dll_app in Hd as [Hd _]. by apply dll_singleton in Hd.
Qed.

(** unlinking a cell in the middle of a list *)
Lemma dll_remove nx pv nx' pv' p a x c n :
  NoDup (a ++ x :: c) →
  dll nx pv p (a ++ x :: c) n →
  (∀ i, i ∈ a ++ c → nx' i = if decide (last a = Some i) then nx x else nx i) →
  (∀ i, i ∈ a ++ c → pv' i = if decide (head c = Some i) then pv x else pv i) →
  dll nx' pv' p (a ++ c) n.
Proof.
  intros Hnd Hd Hnx Hpv. destruct (dll_middle _ _ _ _ _ _ _ Hd) as [Epv Enx].
  rewrite Epv in Hpv. rewrite Enx in Hnx.
  apply dll_app in Hd as [Ha Hd]. change (x :: c) with ([x] ++ c) in Hd.
  apply dll_app in Hd as [_ Hc]. cbn in Ha, Hc.
  apply NoDup_app in Hnd as (Hnda & Hdis & Hndc). apply NoDup_cons in Hndc as [Hx Hndc].
  apply dll_app. split.
  - eapply dll_ends; [done|exact Ha|..]; intros i Hi.
    + apply Hnx. set_solver.
    + rewrite Hpv by set_solver. rewrite decide_False.
      * case_decide as E; [|done]. destruct (Ha O i) as [-> _]; [by rewrite <- head_lookup|done].
      * intros E. apply head_Some_elem_of in E. set_solver.
  - eapply dll_ends; [done|exact Hc|..]; intros i Hi.
    + rewrite Hnx by set_solver. rewrite decide_False.
      * case_decide as E; [|done]. rewrite last_lookup in E.
        destruct (Hc _ i E) as [_ ->]. rewrite lookup_ge_None_2; [done|]. destruct c; cbn; lia.
      * intros E. apply last_Some_elem_of in E. set_solver.
    + apply Hpv. set_solver.
Qed.

(** unlinking the first cell of a ring, or any: rings can be entered anywhere *)
Lemma ring_rotate nx pv a c :
  dll nx pv (last (a ++ c)) (a ++ c) (head (a ++ c)) →
  dll nx pv (last (c ++ a)) (c ++ a) (head (c ++ a)).
Proof.
  destruct a as [|x a]; [by rewrite app_nil_r|]. destruct c as [|y c]; [by rewrite app_nil_r|].
  rewrite !dll_app, !last_app. cbn [head app].
  destruct (last (x :: a)) eqn:E1; [|by apply last_None in E1].
  destruct (last (y :: c)) eqn:E2; [|by apply last_None in E2]. tauto.
Qed.

Lemma ring_remove nx pv nx' pv' a x c :
  NoDup (a ++ x :: c) → a ++ c ≠ [] →
  dll nx pv (last (a ++ x :: c)) (a ++ x :: c) (head (a ++ x :: c)) →
  (∀ i, i ∈ a ++ c → nx' i = if decide (pv x = Some i) then nx x else nx i) →
  (∀ i, i ∈ a ++ c → pv' i = if decide (nx x = Some i) then pv x else pv i) →
  dll nx' pv' (last (a ++ c)) (a ++ c) (head (a ++ c)) ∧
  nx x = head (c ++ a) ∧ pv x = last (c ++ a).
Proof.
  intros Hnd Hne Hr Hnx Hpv. apply ring_rotate in Hr. cbn in Hr.
  set (r := c ++ a) in *.
  assert (Hp : a ++ c ≡ₚ r) by (subst r; apply Permutation_app_comm).
  assert (Hndr : NoDup r ∧ x ∉ r).
  { rewrite <- Permutation_middle in Hnd. apply NoDup_cons in Hnd as [? ?]. by rewrite <- Hp. }
  destruct r as [|h r'] eqn:Er; [by apply Permutation_nil_r in Hp|]. rewrite <- Er in *.
  destruct (last r) as [t|] eqn:Et; [|rewrite Er in Et; by apply last_None in Et].
  change (x :: r) with ([x] ++ r) in Hr. rewrite last_app, Et in Hr.
  apply dll_app in Hr as [Hx Hr]. apply dll_singleton in Hx as [Hxp Hxn].
  cbn in Hr. rewrite Er in Hxn. cbn in Hxn.
  split; [|split; [by rewrite Hxn, Er|by rewrite Hxp]].
  enough (dll nx' pv' (last r) r (head r)) as H' by (subst r; by apply ring_rotate).
  eapply dll_ends; [apply Hndr|exact Hr|..]; intros i Hi.
  - rewrite Hnx by (by rewrite Hp). rewrite Hxp, Hxn, Et, Er. done.
  - rewrite Hpv by (by rewrite Hp). rewrite Hxp, Hxn, Et, Er. done.
Qed.

Lemma ring_insert nx pv nx' pv' r x h t :
  NoDup (r ++ [x]) → head r = Some h → last r = Some t →
  dll nx pv (last r) r (head r) →
  (∀ i, i ∈ r → nx' i = if decide (t = i) then Some x else nx i) →
  (∀ i, i ∈ r → pv' i = if decide (h = i) then Some x else pv i) →
  nx' x = Some h → pv' x = Some t →
  dll nx' pv' (last (r ++ [x])) (r ++ [x]) (head (r ++ [x])).
Proof.
  intros Hnd Hh Ht Hr Hnx Hpv Hnxx Hpvx. apply NoDup_app in Hnd as (Hnd & _ & _).
  rewrite last_app, head_app, Hh. cbn. apply dll_app. rewrite Ht. cbn. split.
  - eapply dll_ends; [done|exact Hr|..]; intros i Hi.
    + rewrite Hnx, Ht by done. by repeat case_decide; simplify_eq.
    + rewrite Hpv, Hh by done. by repeat case_decide; simplify_eq.
  - by apply dll_singleton.
Qed.

Section queues.
Context {D E : Type} `{BlockDriverOk D}.
Abbreviation st := (bstate D E).
Implicit Types (s : st) (i : nat).

Lemma bufs_put l s : bufs (put_bufs l s) = l.
Proof. unfold bufs, put_bufs. cbn. apply dv_bufs_set. Qed.
Lemma put_put l l' s : put_bufs l (put_bufs l' s) = put_bufs l s.
Proof. unfold put_bufs. cbn. by rewrite dv_set_set. Qed.
Lemma put_bufs_bufs_hash l s p : put_bufs l (set_hash_table p s) = set_hash_table p (put_bufs l s).
Proof. done. Qed.

Lemma bufs_hash s p : bufs (set_hash_table p s) = bufs s.
Proof. done. Qed.

Lemma wp_the_buf i b Q s : bufs s !! i = Some b → Q b s → wp (the_buf i) Q s.
Proof. unfold wp, the_buf. by intros ->. Qed.

Lemma wp_upd_buf i f Q s :
  (i < length (bufs s))%nat → Q tt (put_bufs (alter f i (bufs s)) s) → wp (upd_buf i f) Q s.
Proof.
  intros Hi HQ. unfold wp, upd_buf. destruct (lookup_lt_is_Some_2 _ _ Hi) as [b Hb]. rewrite Hb.
  enough (<[i := f b]> (bufs s) = alter f i (bufs s)) as -> by done.
  apply list_eq. intros j. rewrite list_lookup_alter, list_lookup_insert.
  case_decide as E1; case_decide as E2; simplify_eq; try done; [by rewrite Hb|naive_solver..].
Qed.

Lemma wp_via p f Q s :
  is_Some p → (∀ i, p = Some i → (i < length (bufs s))%nat) →
  Q tt (put_bufs (setp p f (bufs s)) s) → wp (via p f) Q s.
Proof. intros [i ->] Hi HQ. apply wp_bind, wp_ret, wp_upd_buf; [by apply Hi|done]. Qed.

Lemma put_bufs_id s : put_bufs (bufs s) s = s.
Proof. unfold put_bufs, bufs. rewrite dv_set_id. by destruct s. Qed.

Lemma wp_when_via p f Q s :
  (∀ i, p = Some i → (i < length (bufs s))%nat) →
  Q tt (put_bufs (setp p f (bufs s)) s) → wp (when (bool_decide (is_Some p)) (via p f)) Q s.
Proof.
  intros Hi HQ. unfold when. case_bool_decide as Hp; [by apply wp_via|].
  destruct p as [i|]; [by destruct Hp|]. cbn in HQ. rewrite put_bufs_id in HQ. by apply wp_ret.
Qed.

(** what [remove_from_queues] computes, as long as the neighbours of [x] in
    its two lists are other buffers *)
Definition removed (x : nat) (b : buffer_head) (s : st) : st :=
  let l1 := setp (b_next b) (set_b_prev (b_prev b)) (bufs s) in
  let l2 := setp (b_prev b) (set_b_next (b_next b)) l1 in
  let l3 := setp (b_prev_free b) (set_b_next_free (b_next_free b)) l2 in
  let l4 := setp (b_next_free b) (set_b_prev_free (b_prev_free b)) l3 in
  let h := hashfn (b_dev b) (b_blocknr b) in
  let tab := if decide (hash_table s !! h = Some (Some x))
             then <[h := b_next b]> (hash_table s) else hash_table s in
  put_bufs l4 (set_hash_table tab
    (set_free_list (if decide (free_list s = Some x) then b_next_free b else free_list s) s)).

Lemma lookup_setp_ne l p f i : p ≠ Some i → setp p f l !! i = l !! i.
Proof. intros Hp. destruct p as [j|]; [|done]. apply list_lookup_alter_ne. congruence. Qed.

Lemma remove_run x b s (Q : unit → st → Prop) :
  bufs s !! x = Some b →
  (hashfn (b_dev b) (b_blocknr b) < length (hash_table s))%nat →
  (∀ p i, p ∈ [b_next b; b_prev b; b_prev_free b; b_next_free b] → p = Some i →
          i ≠ x ∧ (i < length (bufs s))%nat) →
  is_Some (b_prev_free b) → is_Some (b_next_free b) →
  Q tt (removed x b s) → wp (remove_from_queues x) Q s.
Proof.
  intros Hx Hh Hn Hpf Hnf HQ. unfold remove_from_queues.
  assert (Hne : ∀ p, p ∈ [b_next b; b_prev b; b_prev_free b; b_next_free b] → p ≠ Some x).
  { intros p Hp ->. by destruct (Hn _ _ Hp eq_refl). }
  assert (Hlt : ∀ p i, p ∈ [b_next b; b_prev b; b_prev_free b; b_next_free b] → p = Some i →
            (i < length (bufs s))%nat) by (intros; by eapply Hn).
  apply wp_bind. eapply wp_the_buf; [exact Hx|].
  apply wp_bind, wp_when_via; [intros; eapply Hlt; [|done]; set_solver|].
  apply wp_bind. eapply wp_the_buf; [rewrite bufs_put, lookup_setp_ne; [exact Hx|apply Hne; set_solver]|].
  apply wp_bind, wp_when_via.
  { intros i Hi. rewrite bufs_put, length_setp. eapply Hlt; [|done]; set_solver. }
  apply wp_bind. rewrite bufs_put, put_put.
  eapply wp_the_buf; [rewrite bufs_put, !lookup_setp_ne; [exact Hx|apply Hne; set_solver..]|].
  cbn zeta.
  set (h := hashfn _ _) in *. set (l2 := setp (b_prev b) _ _).
  assert (Hl2 : length l2 = length (bufs s)) by (subst l2; by rewrite !length_setp).
  destruct (lookup_lt_is_Some_2 _ _ Hh) as [p Hp].
  apply wp_bind. apply wp_eq with (a := p) (s' := put_bufs l2 s); [unfold get_hash; cbn; by rewrite Hp|].
  apply wp_bind.
  set (tab := if decide (hash_table s !! h = Some (Some x)) then <[h := b_next b]> (hash_table s)
              else hash_table s).
  apply wp_mono with (P := λ _ s', s' = put_bufs l2 (set_hash_table tab s)).
  { unfold when, tab. case_bool_decide as E1; case_decide as E2; try congruence.
    - by unfold wp.
    - apply wp_ret. by destruct s. }
  intros [] ? ->. rewrite bool_decide_false; [|destruct Hpf as [? ->], Hnf as [? ->]; intros [?|?]; done].
  apply wp_bind, wp_ret, wp_bind, wp_via; [done|intros i Hi; rewrite bufs_put, Hl2; eapply Hlt; [|done]; set_solver|].
  rewrite bufs_put, put_put.
  apply wp_bind. eapply wp_the_buf.
  { rewrite bufs_put. subst l2. rewrite !lookup_setp_ne; [exact Hx|apply Hne; set_solver..]. }
  apply wp_bind, wp_via; [done|intros i Hi; rewrite bufs_put, length_setp, Hl2; eapply Hlt; [|done]; set_solver|].
  rewrite bufs_put, put_put. apply wp_bind, wp_gets, wp_bind. eapply wp_the_buf.
  { rewrite bufs_put. subst l2. rewrite !lookup_setp_ne; [exact Hx|apply Hne; set_solver..]. }
  unfold removed in HQ. cbn zeta in HQ. fold h l2 tab in HQ.
  cbn. unfold when. case_bool_decide as E1; case_decide as E2; try congruence.
  - apply wp_modify. exact HQ.
  - apply wp_ret. destruct s; exact HQ.
Qed.

(** the link fields after [remove_from_queues] *)
Definition removed_bufs (b : buffer_head) (l : list buffer_head) : list buffer_head :=
  setp (b_next_free b) (set_b_prev_free (b_prev_free b))
    (setp (b_prev_free b) (set_b_next_free (b_next_free b))
      (setp (b_prev b) (set_b_next (b_next b))
        (setp (b_next b) (set_b_prev (b_prev b)) l))).

Lemma removed_links b l :
  length (removed_bufs b l) = length l ∧
  core_of <$> removed_bufs b l = core_of <$> l ∧
  ∀ j, (j < length l)%nat →
    link b_next_free (removed_bufs b l) j =
      (if decide (b_prev_free b = Some j) then b_next_free b else link b_next_free l j) ∧
    link b_prev_free (removed_bufs b l) j =
      (if decide (b_next_free b = Some j) then b_prev_free b else link b_prev_free l j) ∧
    link b_next (removed_bufs b l) j =
      (if decide (b_prev b = Some j) then b_next b else link b_next l j) ∧
    link b_prev (removed_bufs b l) j =
      (if decide (b_next b = Some j) then b_prev b else link b_prev l j).
Proof.
  unfold removed_bufs. split_and!; [by rewrite !length_setp|by rewrite !core_setp by done|].
  intros j Hj.
  split_and!.
  - rewrite link_setp_other by done.
    rewrite (link_setp_same _ _ _ (b_next_free b)) by (try done; rewrite !length_setp; lia).
    by rewrite !link_setp_other by done.
  - rewrite (link_setp_same _ _ _ (b_prev_free b)) by (try done; rewrite !length_setp; lia).
    by rewrite !link_setp_other by done.
  - rewrite 2!link_setp_other by done.
    rewrite (link_setp_same _ _ _ (b_next b)) by (try done; rewrite !length_setp; lia).
    by rewrite !link_setp_other by done.
  - rewrite 3!link_setp_other by done.
    by rewrite (link_setp_same _ _ _ (b_prev b)) by done.
Qed.

Lemma core_fields (l l' : list buffer_head) i :
  core_of <$> l = core_of <$> l' → l !! i = None ∧ l' !! i = None ∨
  ∃ b b', l !! i = Some b ∧ l' !! i = Some b' ∧ core_of b = core_of b'.
Proof.
  intros Heq. assert (core_of <$> l !! i = core_of <$> l' !! i) as Hi by (by rewrite <- !list_lookup_fmap, Heq).
  destruct (l !! i) as [b|], (l' !! i) as [b'|]; try discriminate Hi; [right|by left].
  exists b, b'. split_and!; try done. exact (f_equal (from_option id (core_of b)) Hi).
Qed.

(** membership of the buckets only depends on the cores *)
Definition in_bucket (l : list buffer_head) (h i : nat) : Prop :=
  ∃ b, l !! i = Some b ∧ b_dev b ≠ 0 ∧ hashfn (b_dev b) (b_blocknr b) = h.
Lemma in_bucket_core (l l' : list buffer_head) h i :
  core_of <$> l = core_of <$> l' → in_bucket l h i ↔ in_bucket l' h i.
Proof.
  intros Heq. destruct (core_fields l l' i Heq) as [[E1 E2]|(b & b' & E1 & E2 & Ec)].
  - unfold in_bucket. rewrite E1, E2. split; by intros (?&?&_).
  - unfold in_bucket. rewrite E1, E2. injection Ec as _ Eb Ed _ _ _ _.
    split; intros (b0 & [= <-] & Hd & Hh); eexists; (split; [done|]); split; congruence.
Qed.

(** a chain without one buffer *)
Definition drop_elem (x : nat) (l : list nat) : list nat := filter (λ i, i ≠ x) l.
Lemma drop_elem_notin x l : x ∉ l → drop_elem x l = l.
Proof.
  intros Hx. unfold drop_elem. induction l as [|y l IH]; [done|].
  rewrite filter_cons_True by set_solver. f_equal. set_solver.
Qed.
Lemma drop_elem_middle x a c : NoDup (a ++ x :: c) → drop_elem x (a ++ x :: c) = a ++ c.
Proof.
  intros (_ & Hd & Hnd)%NoDup_app. apply NoDup_cons in Hnd as [Hx _].
  unfold drop_elem. rewrite filter_app, filter_cons_False by tauto.
  f_equal; apply drop_elem_notin; set_solver.
Qed.
(** where a buffer sits in its bucket *)
Lemma chain_split l tab flp fl ch x b :
  qinv l tab flp None fl ch → l !! x = Some b → b_dev b ≠ 0 →
  ∃ a c, ch (hashfn (b_dev b) (b_blocknr b)) = a ++ x :: c ∧
         b_prev b = last a ∧ b_next b = head c.
Proof.
  intros [_ _ _ _ _ _ Hch Hmem _] Hx Hd. pose proof (hashfn_bound (b_dev b) (b_blocknr b)) as Hb.
  set (h := hashfn _ _) in *.
  assert (Hin : x ∈ ch h) by (apply Hmem; [done|]; split; [done|]; by exists b).
  apply list_elem_of_split in Hin as (a & c & Hac). exists a, c.
  pose proof (Hch h Hb) as Hdl. rewrite Hac in Hdl. apply dll_middle in Hdl as [Hp Hn].
  unfold link in Hp, Hn. rewrite Hx in Hp, Hn. cbn in Hp, Hn.
  split_and!; [done|by destruct (last a)|by destruct (head c)].
Qed.

Lemma chain_neighbour l tab flp fl ch x b i :
  qinv l tab flp None fl ch → l !! x = Some b → b_next b = Some i ∨ b_prev b = Some i →
  i ≠ x ∧ (i < length l)%nat.
Proof.
  intros Hq Hx Hi. destruct (decide (b_dev b = 0)) as [Hd|Hd].
  { destruct (q_nodev _ _ _ _ _ _ Hq x b) as [Ep En]; [done..|]. rewrite Ep, En in Hi. by destruct Hi. }
  destruct (chain_split _ _ _ _ _ _ _ Hq Hx Hd) as (a & c & Hac & Hp & Hn).
  pose proof (hashfn_bound (b_dev b) (b_blocknr b)) as Hb.
  pose proof (q_nodup _ _ _ _ _ _ Hq _ Hb) as Hnd. rewrite Hac in Hnd.
  assert (Hin : i ∈ a ++ c).
  { destruct Hi as [Hi|Hi]; [rewrite Hn in Hi; apply head_Some_elem_of in Hi|
                             rewrite Hp in Hi; apply last_Some_elem_of in Hi]; set_solver. }
  split.
  - intros ->. rewrite <- Permutation_middle in Hnd. by apply NoDup_cons in Hnd as [? _].
  - assert (i ∈ ch (hashfn (b_dev b) (b_blocknr b))) as Hi' by (rewrite Hac; set_solver).
    apply (q_mem _ _ _ _ _ _ Hq) in Hi' as (_ & b1 & ? & _); [|done]. by eapply lookup_lt_Some.
Qed.

Section removing.
Context (l : list buffer_head) (tab : list ptr) (flp : ptr) (x : nat) (b : buffer_head) (a c : list nat) (ch : nat → list nat).
Context (Hq : qinv l tab flp None (a ++ x :: c) ch) (Hx : l !! x = Some b) (Hne : a ++ c ≠ []).
Abbreviation hx := (hashfn (b_dev b) (b_blocknr b)).
Abbreviation l' := (removed_bufs b l).

Lemma removing_perm : NoDup (a ++ x :: c) ∧ ∀ i, i ∈ a ++ x :: c ↔ (i < length l)%nat.
Proof. pose proof (q_perm _ _ _ _ _ _ Hq) as Hp. cbn in Hp. rewrite app_nil_r in Hp. by apply NoDup_perm_seq. Qed.

Lemma removing_lt h i : (h < Z.to_nat NR_HASH)%nat → i ∈ ch h → (i < length l)%nat.
Proof. intros Hh (_ & b0 & ? & _)%(q_mem _ _ _ _ _ _ Hq); [|done]. by eapply lookup_lt_Some. Qed.

(** the free list is closed behind the buffer, which still points into it *)
Lemma removing_ring :
  dll (link b_next_free l') (link b_prev_free l') (last (a ++ c)) (a ++ c) (head (a ++ c)) ∧
  b_next_free b = head (c ++ a).
Proof.
  destruct removing_perm as [Hnd Hlt]. pose proof (removed_links b l) as (_ & _ & Hlinks).
  assert (Hnf : link b_next_free l x = b_next_free b ∧ link b_prev_free l x = b_prev_free b) by (unfold link; by rewrite Hx).
  destruct Hnf as [Hnf Hpf].
  destruct (ring_remove (link b_next_free l) (link b_prev_free l) (link b_next_free l')
     (link b_prev_free l') a x c Hnd Hne (q_ring _ _ _ _ _ _ Hq)) as (Hring' & Hnx & Hpx).
  - intros i Hi. destruct (Hlinks i) as (-> & _); [apply Hlt; set_solver|]. by rewrite Hnf, Hpf.
  - intros i Hi. destruct (Hlinks i) as (_ & -> & _); [apply Hlt; set_solver|]. by rewrite Hnf, Hpf.
  - split; [done|]. by rewrite <- Hnf.
Qed.

(** how the buckets are split by the buffer: it is only in that of its block *)
Lemma removing_chain h : (h < Z.to_nat NR_HASH)%nat →
  ((x ∉ ch h) ∧ (∀ i, i ∈ ch h → b_prev b ≠ Some i ∧ b_next b ≠ Some i)) ∨
  (h = hx ∧ ∃ a' c', ch h = a' ++ x :: c' ∧ b_prev b = last a' ∧ b_next b = head c').
Proof.
  intros Hh. pose proof (q_mem _ _ _ _ _ _ Hq) as Hmem. pose proof (hashfn_bound (b_dev b) (b_blocknr b)) as Hhb.
  destruct (decide (b_dev b = 0)) as [Hd0|Hd0].
  - left. split; [intros (_ & b0 & ? & ? & _)%Hmem; [congruence|done]|].
    destruct (q_nodev _ _ _ _ _ _ Hq x b) as [-> ->]; done.
  - destruct (chain_split _ _ _ _ _ x b Hq Hx) as (a' & c' & Hac & Hp2 & Hn2); [done|].
    destruct (decide (h = hx)) as [->|Hne']; [right; eauto 10|left].
    assert (Hdis : ∀ i, i ∈ ch h → i ∉ ch hx).
    { intros i (_ & b1 & Hi & _ & E1)%Hmem (_ & b2 & Hi2 & _ & E2)%Hmem; try done. congruence. }
    split; [intros Hin; apply (Hdis x Hin); rewrite Hac; set_solver|].
    intros i Hi. rewrite Hp2, Hn2. split; intros E0; apply (Hdis i Hi); rewrite Hac.
    + apply last_Some_elem_of in E0. set_solver.
    + apply head_Some_elem_of in E0. set_solver.
Qed.

Lemma removing_bucket h : (h < Z.to_nat NR_HASH)%nat →
  (if decide (tab !! hx = Some (Some x)) then <[hx := b_next b]> tab else tab) !! h = Some (head (drop_elem x (ch h))).
Proof.
  intros Hh. pose proof (q_bucket _ _ _ _ _ _ Hq) as Hbk. pose proof (q_nodup _ _ _ _ _ _ Hq) as Hnd.
  pose proof (hashfn_bound (b_dev b) (b_blocknr b)) as Hhb.
  destruct (removing_chain h Hh) as [[Hnin _]|(-> & a' & c' & Hac & Hp2 & Hn2)].
  - rewrite drop_elem_notin by done. case_decide as Et; [|by apply Hbk].
    rewrite list_lookup_insert_ne; [by apply Hbk|]. intros Eh. rewrite Eh, Hbk in Et by done.
    injection Et as Et. apply head_Some_elem_of in Et. done.
  - rewrite Hac, drop_elem_middle by (rewrite <- Hac; by apply Hnd).
    rewrite Hbk, Hac by done. destruct a' as [|y a']; cbn.
    + rewrite decide_True by done. rewrite list_lookup_insert_eq by (by rewrite (q_tab _ _ _ _ _ _ Hq)). by rewrite Hn2.
    + rewrite decide_False; [by rewrite Hbk, Hac by done|]. intros [= Eh].
      pose proof (Hnd _ Hhb) as Hnd'. rewrite Hac in Hnd'. apply NoDup_cons in Hnd'. set_solver.
Qed.

Lemma removing_dll h : (h < Z.to_nat NR_HASH)%nat → dll (link b_next l') (link b_prev l') None (drop_elem x (ch h)) None.
Proof.
  intros Hh. pose proof (removed_links b l) as (_ & _ & Hlinks). pose proof (q_chain _ _ _ _ _ _ Hq h Hh) as Hdl.
  pose proof (q_nodup _ _ _ _ _ _ Hq h Hh) as Hnd'.
  assert (Hxl : link b_next l x = b_next b ∧ link b_prev l x = b_prev b) by (unfold link; by rewrite Hx). destruct Hxl as [Hn Hp].
  destruct (removing_chain h Hh) as [[Hnin Hno]|(_ & a' & c' & Hac & Hp2 & Hn2)].
  - rewrite drop_elem_notin by done. eapply dll_ext; [exact Hdl|]. intros i Hi.
    destruct (Hlinks i) as (_ & _ & -> & ->); [by eapply removing_lt|].
    destruct (Hno i Hi). by rewrite !decide_False.
  - assert (Hl' : ∀ i, i ∈ a' ++ c' → (i < length l)%nat) by (intros i Hi; apply (removing_lt h); [done|]; rewrite Hac; set_solver).
    rewrite Hac in Hnd', Hdl |- *. rewrite drop_elem_middle by done.
    eapply dll_remove; [done|exact Hdl|..]; intros i Hi.
    + destruct (Hlinks i) as (_ & _ & -> & _); [auto|]. by rewrite Hp2, Hn.
    + destruct (Hlinks i) as (_ & _ & _ & ->); [auto|]. by rewrite Hn2, Hp.
Qed.

(** no buffer without a device is next to the one removed *)
Lemma removing_nodev i b1 : l !! i = Some b1 → b_dev b1 = 0 → b_prev b ≠ Some i ∧ b_next b ≠ Some i.
Proof.
  intros Hi Hd. pose proof (q_mem _ _ _ _ _ _ Hq) as Hmem. pose proof (hashfn_bound (b_dev b) (b_blocknr b)) as Hhb.
  destruct (removing_chain _ Hhb) as [[Hnin _]|(_ & a' & c' & Hac & Hp2 & Hn2)].
  - destruct (decide (b_dev b = 0)) as [Hb|Hb]; [by destruct (q_nodev _ _ _ _ _ _ Hq x b) as [-> ->]|].
    exfalso. apply Hnin, Hmem; [done|]. split; [done|]. by exists b.
  - assert (Hno : i ∉ ch hx) by (intros (_ & b3 & ? & ? & _)%Hmem; [congruence|done]).
    rewrite Hp2, Hn2. split; intros E0; apply Hno; rewrite Hac; [apply last_Some_elem_of in E0|apply head_Some_elem_of in E0]; set_solver.
Qed.

Lemma removed_inv :
  qinv l' (if decide (tab !! hx = Some (Some x)) then <[hx := b_next b]> tab else tab)
    (if decide (flp = Some x) then b_next_free b else flp)
    (Some x) (a ++ c) (λ h, drop_elem x (ch h)).
Proof.
  pose proof (removed_links b l) as (Hlen & Hcore & Hlinks). destruct removing_ring as [Hring' Hnx]. destruct removing_perm as [Hndf _].
  constructor; rewrite ?Hlen.
  - pose proof (q_perm _ _ _ _ _ _ Hq) as Hperm. cbn in Hperm |- *. rewrite app_nil_r in Hperm.
    by rewrite <- Permutation_middle, <- Hperm, <- Permutation_middle, app_nil_r.
  - exact Hring'.
  - rewrite (q_head _ _ _ _ _ _ Hq). destruct a as [|y a0]; cbn; [rewrite decide_True by done; by rewrite Hnx, app_nil_r|].
    rewrite decide_False; [done|]. intros [= Eh]. apply NoDup_cons in Hndf. set_solver.
  - case_decide; rewrite ?length_insert; apply (q_tab _ _ _ _ _ _ Hq).
  - intros h Hh. by apply NoDup_filter, (q_nodup _ _ _ _ _ _ Hq).
  - exact removing_bucket.
  - exact removing_dll.
  - intros h i Hh. unfold drop_elem. rewrite list_elem_of_filter, (q_mem _ _ _ _ _ _ Hq h i Hh).
    pose proof (in_bucket_core _ _ h i Hcore) as Hib. unfold in_bucket in Hib.
    rewrite Hib. clear. intuition congruence.
  - intros i b0 Hi Hb0 Hd0.
    destruct (core_fields _ _ i Hcore) as [[? ?]|(b1 & b2 & E1 & E2 & Ec)]; [congruence|].
    rewrite Hb0 in E1. injection E1 as <-. injection Ec as _ _ Ed _ _ _ _.
    destruct (q_nodev _ _ _ _ _ _ Hq i b2) as [Ep En]; [done..|congruence|].
    destruct (Hlinks i) as (_ & _ & L1 & L2); [by eapply lookup_lt_Some|].
    unfold link in L1, L2. rewrite Hb0, E2 in L1, L2. cbn in L1, L2. rewrite L1, L2.
    destruct (removing_nodev i b2); [done|congruence|]. by rewrite !decide_False.
Qed.
End removing.

(** what [insert_into_queues] computes; [hd] and [t] are the ends of the free
    list, [p] the head of the bucket *)
Definition inserted_free (x hd t : nat) (l : list buffer_head) : list buffer_head :=
  setp (Some x) (set_b_next None)
    (setp (Some x) (set_b_prev None)
      (setp (Some hd) (set_b_prev_free (Some x))
        (setp (Some t) (set_b_next_free (Some x))
          (setp (Some x) (set_b_prev_free (Some t))
            (setp (Some x) (set_b_next_free (Some hd)) l))))).
Definition inserted_bufs (x hd t : nat) (p : ptr) (l : list buffer_head) : list buffer_head :=
  setp p (set_b_prev (Some x)) (setp (Some x) (set_b_next p) (inserted_free x hd t l)).

Lemma inserted_free_links x hd t l :
  hd ≠ x → t ≠ x →
  length (inserted_free x hd t l) = length l ∧
  core_of <$> inserted_free x hd t l = core_of <$> l ∧
  ∀ j, (j < length l)%nat →
    link b_next_free (inserted_free x hd t l) j =
      (if decide (j = x) then Some hd else if decide (t = j) then Some x else link b_next_free l j) ∧
    link b_prev_free (inserted_free x hd t l) j =
      (if decide (j = x) then Some t else if decide (hd = j) then Some x else link b_prev_free l j) ∧
    link b_next (inserted_free x hd t l) j = (if decide (j = x) then None else link b_next l j) ∧
    link b_prev (inserted_free x hd t l) j = (if decide (j = x) then None else link b_prev l j).
Proof.
  intros Hhd Ht. unfold inserted_free.
  split_and!; [by rewrite !length_setp|by rewrite !core_setp by done|]. intros j Hj. split_and!.
  - rewrite 3!link_setp_other by done.
    rewrite (link_setp_same _ _ _ (Some x)) by (try done; rewrite !length_setp; lia).
    rewrite link_setp_other by done. rewrite (link_setp_same _ _ _ (Some hd)) by done.
    repeat case_decide; congruence.
  - rewrite 2!link_setp_other by done.
    rewrite (link_setp_same _ _ _ (Some x)) by (try done; rewrite !length_setp; lia).
    rewrite link_setp_other by done.
    rewrite (link_setp_same _ _ _ (Some t)) by (try done; rewrite !length_setp; lia).
    rewrite link_setp_other by done. repeat case_decide; congruence.
  - rewrite (link_setp_same _ _ _ None) by (try done; rewrite !length_setp; lia).
    rewrite 5!link_setp_other by done. repeat case_decide; congruence.
  - rewrite link_setp_other by done.
    rewrite (link_setp_same _ _ _ None) by (try done; rewrite !length_setp; lia).
    rewrite 4!link_setp_other by done. repeat case_decide; congruence.
Qed.

Definition inserted (x hd t : nat) (b : buffer_head) (s : st) : st :=
  if decide (b_dev b = 0) then put_bufs (inserted_free x hd t (bufs s)) s
  else
    let h := hashfn (b_dev b) (b_blocknr b) in
    let p := mjoin (hash_table s !! h) in
    let s' := put_bufs (inserted_bufs x hd t p (bufs s))
                (set_hash_table (<[h := Some x]> (hash_table s)) s) in
    match p with Some _ => s' | None => set_null_b_prev (Some x) s' end.

Lemma wp_upd_setp i f Q s :
  (i < length (bufs s))%nat → Q tt (put_bufs (setp (Some i) f (bufs s)) s) → wp (upd_buf i f) Q s.
Proof. apply wp_upd_buf. Qed.

Lemma insert_run x b s hd hb t (Q : unit → st → Prop) :
  bufs s !! x = Some b → free_list s = Some hd → bufs s !! hd = Some hb → hd ≠ x →
  b_prev_free hb = Some t → t ≠ x → (t < length (bufs s))%nat →
  (hashfn (b_dev b) (b_blocknr b) < length (hash_table s))%nat →
  (∀ p, hash_table s !! hashfn (b_dev b) (b_blocknr b) = Some (Some p) → (p < length (bufs s))%nat) →
  Q tt (inserted x hd t b s) → wp (insert_into_queues x) Q s.
Proof.
  intros Hx Hfl Hhd Hne Ht Htne Htl Hh Hp HQ. unfold insert_into_queues.
  assert (Hxl : (x < length (bufs s))%nat) by (by eapply lookup_lt_Some).
  assert (Hhl : (hd < length (bufs s))%nat) by (by eapply lookup_lt_Some).
  assert (Hfar : ∀ f l, setp (Some x) f l !! hd = l !! hd) by (intros; apply lookup_setp_ne; congruence).
  apply wp_bind, wp_gets, wp_bind. rewrite Hfl. apply wp_upd_setp; [done|].
  apply wp_bind, wp_ret, wp_bind. eapply wp_the_buf; [by rewrite bufs_put, Hfar|].
  rewrite Ht. apply wp_bind, wp_upd_setp; rewrite bufs_put, ?length_setp, ?put_put; [done|].
  apply wp_bind. eapply wp_the_buf; [by rewrite bufs_put, !Hfar|].
  rewrite Ht. apply wp_bind, wp_via; [done|by intros ? [= <-]; rewrite bufs_put, !length_setp|].
  rewrite bufs_put, put_put.
  apply wp_bind, wp_upd_setp; rewrite bufs_put, ?length_setp, ?put_put; [done|].
  apply wp_bind, wp_upd_setp; rewrite bufs_put, ?length_setp, ?put_put; [done|].
  apply wp_bind, wp_upd_setp; rewrite bufs_put, ?length_setp, ?put_put; [done|].
  fold (inserted_free x hd t (bufs s)). destruct (inserted_free_links x hd t (bufs s) Hne Htne) as (Hlen & Hcore & _).
  destruct (core_fields _ _ x Hcore) as [[? ?]|(b' & b0 & Hb' & Hb0 & Ec)]; [congruence|].
  rewrite Hx in Hb0. injection Hb0 as <-. injection Ec as _ En Ed _ _ _ _.
  apply wp_bind. eapply wp_the_buf; [by rewrite bufs_put|]. rewrite Ed, En.
  unfold inserted in HQ. destruct (Z.eqb_spec (b_dev b) 0) as [Hd|Hd].
  { rewrite decide_True in HQ by done. by apply wp_ret. }
  rewrite decide_False in HQ by done. cbn zeta in HQ |- *. set (h := hashfn _ _) in *.
  destruct (lookup_lt_is_Some_2 _ _ Hh) as [p Hp']. rewrite Hp' in HQ. cbn in HQ.
  apply wp_bind. apply wp_eq with (a := p) (s' := put_bufs (inserted_free x hd t (bufs s)) s).
  { unfold get_hash. cbn. by rewrite Hp'. }
  apply wp_bind, wp_upd_setp; rewrite bufs_put, ?length_setp, ?put_put, ?Hlen; [done|].
  apply wp_bind. eapply wp_eq; [reflexivity|]. destruct p as [n|].
  - apply wp_upd_setp; rewrite bufs_hash, bufs_put; [rewrite length_setp, Hlen; by apply Hp|].
    rewrite put_bufs_bufs_hash, put_put. exact HQ.
  - apply wp_modify. exact HQ.
Qed.

(** the buffer that is out of the queues can change freely *)
Lemma qinv_out l l' tab flp x fl ch :
  qinv l tab flp (Some x) fl ch → length l' = length l → (∀ i, i ≠ x → l' !! i = l !! i) →
  qinv l' tab flp (Some x) fl ch.
Proof.
  intros [Hperm Hring Hhd Htab Hnd Hbk Hch Hmem Hnodev] Hlen Hsame.
  assert (Hfl : ∀ i, i ∈ fl → i ≠ x).
  { intros i Hi ->. assert (Hn : NoDup (fl ++ [x])) by (change [x] with (option_list (Some x)); rewrite Hperm; apply NoDup_seq).
    apply NoDup_app in Hn. set_solver. }
  constructor; try done; rewrite ?Hlen; try done.
  - eapply dll_ext; [done|]. intros i Hi. unfold link. by rewrite Hsame by auto.
  - intros h Hh. eapply dll_ext; [by apply Hch|]. intros i Hi. unfold link. rewrite Hsame; [done|].
    intros ->. by apply Hmem in Hi as [? _].
  - intros h i Hh. rewrite (Hmem h i Hh). destruct (decide (i = x)) as [->|Hi].
    + by split; intros [? _].
    + by rewrite Hsame.
  - intros i b Hi Hb Hd. rewrite Hsame in Hb by congruence. by eapply Hnodev.
Qed.

Section inserting.
Context (l : list buffer_head) (tab : list ptr) (flp : ptr) (x : nat) (b : buffer_head) (hd t : nat) (fl : list nat) (ch : nat → list nat).
Context (Hq : qinv l tab flp (Some x) fl ch) (Hx : l !! x = Some b) (Hhead : head fl = Some hd) (Hlast : last fl = Some t).
Abbreviation h := (hashfn (b_dev b) (b_blocknr b)).
Abbreviation p := (mjoin (tab !! h)).
Abbreviation l' := (if decide (b_dev b = 0) then inserted_free x hd t l else inserted_bufs x hd t p l).
Abbreviation ch' := (λ k, if decide (b_dev b ≠ 0 ∧ k = h) then x :: ch k else ch k).

Lemma inserting_perm : NoDup (fl ++ [x]) ∧ ∀ i, i ∈ fl ++ [x] ↔ (i < length l)%nat.
Proof. pose proof (q_perm _ _ _ _ _ _ Hq) as Hp. by apply NoDup_perm_seq. Qed.
Lemma inserting_new : (x ∉ fl) ∧ hd ≠ x ∧ t ≠ x.
Proof.
  destruct inserting_perm as [Hnd _]. assert (Hxfl : x ∉ fl) by (apply NoDup_app in Hnd; set_solver).
  split_and!; [done|intros E0|intros E0]; [rewrite E0 in Hhead; by apply head_Some_elem_of in Hhead|rewrite E0 in Hlast; by apply last_Some_elem_of in Hlast].
Qed.

Lemma inserting_bucket : p = head (ch h).
Proof. by rewrite (q_bucket _ _ _ _ _ _ Hq) by apply hashfn_bound. Qed.
Lemma inserting_notin k : (k < Z.to_nat NR_HASH)%nat → x ∉ ch k.
Proof. intros Hk (? & _)%(q_mem _ _ _ _ _ _ Hq); done. Qed.
Lemma inserting_lt k i : (k < Z.to_nat NR_HASH)%nat → i ∈ ch k → (i < length l)%nat.
Proof. intros Hk (_ & b0 & ? & _)%(q_mem _ _ _ _ _ _ Hq); [|done]. by eapply lookup_lt_Some. Qed.
(** the head of the bucket has a device and is in no other *)
Lemma inserting_head i : p = Some i → i ≠ x ∧ ∃ b0, l !! i = Some b0 ∧ b_dev b0 ≠ 0 ∧ hashfn (b_dev b0) (b_blocknr b0) = h.
Proof.
  rewrite inserting_bucket. intros Hi%head_Some_elem_of. pose proof (hashfn_bound (b_dev b) (b_blocknr b)) as Hh.
  split; [intros Ex; rewrite Ex in Hi; by apply (inserting_notin _ Hh)|]. by apply (q_mem _ _ _ _ _ _ Hq) in Hi as [_ Hi].
Qed.

Lemma inserting_same : length l' = length l ∧ core_of <$> l' = core_of <$> l.
Proof.
  destruct inserting_new as (_ & N1 & N2). destruct (inserted_free_links x hd t l N1 N2) as (Hlen0 & Hcore0 & _).
  case_decide; [done|]. unfold inserted_bufs. by rewrite !length_setp, !core_setp.
Qed.

Lemma inserting_links j : (j < length l)%nat →
  link b_next_free l' j =
    (if decide (j = x) then Some hd else if decide (t = j) then Some x else link b_next_free l j) ∧
  link b_prev_free l' j =
    (if decide (j = x) then Some t else if decide (hd = j) then Some x else link b_prev_free l j) ∧
  link b_next l' j = (if decide (j = x) then if decide (b_dev b = 0) then None else p else link b_next l j) ∧
  link b_prev l' j = (if decide (b_dev b ≠ 0 ∧ p = Some j) then Some x
                      else if decide (j = x) then None else link b_prev l j).
Proof.
  destruct inserting_new as (_ & N1 & N2). destruct (inserted_free_links x hd t l N1 N2) as (Hlen0 & _ & Hlk0).
  intros Hj. destruct (Hlk0 j Hj) as (L1 & L2 & L3 & L4).
  destruct (decide (b_dev b = 0)) as [Hd|Hd];
    [rewrite (decide_False (P := b_dev b ≠ 0 ∧ p = Some j)) by tauto; done|].
  unfold inserted_bufs. split_and!.
  - by rewrite !link_setp_other by done.
  - by rewrite !link_setp_other by done.
  - rewrite link_setp_other by done.
    rewrite (link_setp_same _ _ _ p) by (try done; lia). rewrite L3. repeat case_decide; congruence.
  - rewrite (link_setp_same _ _ _ (Some x)) by (try done; rewrite !length_setp; lia).
    rewrite link_setp_other by done. rewrite L4. repeat case_decide; tauto || congruence.
Qed.

Lemma inserting_ring : dll (link b_next_free l') (link b_prev_free l') (last (fl ++ [x])) (fl ++ [x]) (head (fl ++ [x])).
Proof.
  destruct inserting_perm as [Hndf Hlt], inserting_new as (Hxfl & _). pose proof (lookup_lt_Some _ _ _ Hx) as Hxl.
  eapply ring_insert; [done..|exact (q_ring _ _ _ _ _ _ Hq)| | | |]; [intros i Hi..| |].
  - destruct (inserting_links i) as (-> & _); [apply Hlt; set_solver|]. by rewrite decide_False by (intros ->; done).
  - destruct (inserting_links i) as (_ & -> & _); [apply Hlt; set_solver|]. by rewrite decide_False by (intros ->; done).
  - destruct (inserting_links x) as (-> & _); [done|]. by rewrite decide_True.
  - destruct (inserting_links x) as (_ & -> & _); [done|]. by rewrite decide_True.
Qed.

(** the bucket of the buffer, which is now its head *)
Lemma inserting_own : b_dev b ≠ 0 → dll (link b_next l') (link b_prev l') None (x :: ch h) None.
Proof.
  intros Hd. pose proof (lookup_lt_Some _ _ _ Hx) as Hxl. pose proof (hashfn_bound (b_dev b) (b_blocknr b)) as Hhb.
  pose proof (inserting_notin _ Hhb) as Hxc. pose proof inserting_links as Hlk. pose proof (q_chain _ _ _ _ _ _ Hq _ Hhb) as Hch.
  rewrite !(decide_False (P := b_dev b = 0)) in Hlk |- * by done.
  change (x :: ch h) with ([x] ++ ch h). apply dll_app. split.
  - apply dll_singleton. destruct (Hlk x) as (_ & _ & -> & ->); [done|].
    rewrite decide_False; [rewrite !decide_True, !decide_False by done; rewrite inserting_bucket; by destruct (head (ch h))|].
    intros [_ Hpx]. by destruct (inserting_head x Hpx).
  - cbn. eapply dll_ends; [by apply (q_nodup _ _ _ _ _ _ Hq)|exact Hch|..]; intros i Hi; assert (i ≠ x) by (intros ->; done).
    + destruct (Hlk i) as (_ & _ & -> & _); [by eapply inserting_lt|]. rewrite decide_False by done.
      destruct (decide (last (ch h) = Some i)) as [E1|E1]; [|done]. rewrite last_lookup in E1.
      destruct (Hch _ _ E1) as [_ ->]. rewrite lookup_ge_None_2; [done|].
      destruct (ch h); [by apply not_elem_of_nil in Hi|cbn; lia].
    + destruct (Hlk i) as (_ & _ & _ & ->); [by eapply inserting_lt|]. rewrite inserting_bucket.
      repeat case_decide; tauto || congruence.
Qed.

Lemma inserting_dll k : (k < Z.to_nat NR_HASH)%nat → dll (link b_next l') (link b_prev l') None (ch' k) None.
Proof.
  intros Hk. cbv beta. destruct (decide (b_dev b ≠ 0 ∧ k = h)) as [[Hd ->]|Hc]; [by apply inserting_own|].
  eapply dll_ext; [by apply (q_chain _ _ _ _ _ _ Hq)|]. intros i Hi.
  assert (i ≠ x) by (intros ->; by eapply inserting_notin).
  destruct (inserting_links i) as (_ & _ & -> & ->); [by eapply inserting_lt|]. rewrite !(decide_False (P := i = x)) by done.
  rewrite decide_False; [done|]. intros [Hd E1]. apply Hc. split; [done|].
  apply (q_mem _ _ _ _ _ _ Hq) in Hi as (_ & b1 & ? & _ & <-); [|done].
  destruct (inserting_head i E1) as (_ & b2 & ? & _ & E2). congruence.
Qed.

Lemma inserted_inv : qinv l' (if decide (b_dev b = 0) then tab else <[h := Some x]> tab) flp None (fl ++ [x]) ch'.
Proof.
  destruct inserting_same as [Hlen Hcore]. pose proof (q_mem _ _ _ _ _ _ Hq) as Hmem. pose proof (q_tab _ _ _ _ _ _ Hq) as Htab.
  pose proof (hashfn_bound (b_dev b) (b_blocknr b)) as Hhb.
  constructor; rewrite ?Hlen.
  - pose proof (q_perm _ _ _ _ _ _ Hq) as Hperm. cbn in Hperm |- *. by rewrite app_nil_r.
  - exact inserting_ring.
  - by rewrite head_app, Hhead, (q_head _ _ _ _ _ _ Hq).
  - by case_decide; rewrite ?length_insert.
  - intros k Hk. pose proof (q_nodup _ _ _ _ _ _ Hq k Hk). cbv beta. destruct (decide (b_dev b ≠ 0 ∧ k = h)); [|done]. apply NoDup_cons. split; [by apply inserting_notin|done].
  - intros k Hk. pose proof (q_bucket _ _ _ _ _ _ Hq k Hk) as Hbk.
    destruct (decide (b_dev b ≠ 0 ∧ k = h)) as [Hc|Hc]; destruct (decide (b_dev b = 0)); try tauto; try done.
    + destruct Hc as [_ ->]. by rewrite list_lookup_insert_eq by (by rewrite Htab).
    + rewrite list_lookup_insert_ne by (intros Eh; apply Hc; by split). done.
  - exact inserting_dll.
  - intros k i Hk. pose proof (in_bucket_core l' l k i Hcore) as Hib. unfold in_bucket in Hib. rewrite Hib.
    destruct (decide (b_dev b ≠ 0 ∧ k = h)) as [Hc|Hc]; rewrite ?elem_of_cons, (Hmem k i Hk).
    + destruct Hc as [Hd ->]. split.
      * intros [->|[_ ?]]; (split; [done|]); [by exists b|done].
      * intros [_ ?]. destruct (decide (i = x)); [by left|right]. split; [congruence|done].
    + split; [by intros [_ ?]|]. intros [_ (b1 & E1 & Hd & E2)].
      split; [|by exists b1]. intros [= ->]. rewrite Hx in E1. injection E1 as <-. apply Hc. by split.
  - intros i b0 _ Hb0 Hd0.
    destruct (core_fields _ _ i Hcore) as [[? ?]|(b1 & b2 & E1 & E2 & Ec)]; [congruence|].
    rewrite Hb0 in E1. injection E1 as <-. injection Ec as _ _ Ed _ _ _ _.
    destruct (inserting_links i) as (_ & _ & L1 & L2); [by eapply lookup_lt_Some|].
    unfold link in L1, L2. rewrite Hb0, E2 in L1, L2. cbn in L1, L2. rewrite L1, L2.
    assert (¬ (b_dev b ≠ 0 ∧ p = Some i)) as Hno by (intros [_ (_ & b3 & ? & ? & _)%inserting_head]; congruence).
    rewrite (decide_False (P := b_dev b ≠ 0 ∧ _)) by done. destruct (decide (i = x)) as [->|Hix].
    + rewrite Hx in E2. injection E2 as <-. by rewrite (decide_True (P := b_dev b = 0)) by congruence.
    + destruct (q_nodev _ _ _ _ _ _ Hq i b2) as [Ep En]; [congruence|done|congruence|]. by rewrite Ep, En.
Qed.
End inserting.

(** *** What the queue operations do to the whole state *)
Definition cores (s : st) : list core := core_of <$> bufs s.
Definition queues (s : st) (out : ptr) (fl : list nat) : Prop :=
  ∃ ch, qinv (bufs s) (hash_table s) (free_list s) out fl ch.
(** only the buffer heads and the queues changed *)
Definition same_env (s s' : st) : Prop :=
  up s' = up s ∧ drv s' = dv_set_bufs (bufs s') (drv s).

Lemma same_env_refl s : same_env s s.
Proof. split; [done|]. unfold bufs. by rewrite dv_set_id. Qed.
Lemma same_env_put l s : same_env s (put_bufs l s).
Proof. split; [done|]. by rewrite bufs_put. Qed.
Lemma same_env_trans s1 s2 s3 : same_env s1 s2 → same_env s2 s3 → same_env s1 s3.
Proof. intros [U1 D1] [U2 D2]. split; [congruence|]. by rewrite D2, D1, dv_set_set. Qed.
Lemma cores_put l s : cores (put_bufs l s) = core_of <$> l.
Proof. unfold cores. by rewrite bufs_put. Qed.
Lemma lookup_cores s i c : cores s !! i = Some c → ∃ b, bufs s !! i = Some b ∧ core_of b = c.
Proof. unfold cores. rewrite list_lookup_fmap. destruct (bufs s !! i); intros [= <-]; eauto. Qed.
Lemma cores_lookup s i b : bufs s !! i = Some b → cores s !! i = Some (core_of b).
Proof. unfold cores. rewrite list_lookup_fmap. by intros ->. Qed.
Lemma length_cores s : length (cores s) = length (bufs s).
Proof. apply length_fmap. Qed.

Lemma queues_free s fl : queues s None fl → NoDup fl ∧ ∀ i, i ∈ fl ↔ (i < length (bufs s))%nat.
Proof. intros [ch Hq]. apply NoDup_perm_seq. rewrite <- (q_perm _ _ _ _ _ _ Hq). cbn. by rewrite app_nil_r. Qed.

Lemma remove_spec x s fl :
  queues s None fl → x ∈ fl → fl ≠ [x] →
  wp (remove_from_queues x) (λ _ s',
    queues s' (Some x) (drop_elem x fl) ∧ cores s' = cores s ∧ same_env s s') s.
Proof.
  intros Hq Hin Hne. destruct (queues_free _ _ Hq) as [Hnd Hlt]. destruct Hq as [ch Hq].
  destruct (lookup_lt_is_Some_2 (bufs s) x) as [b Hb]; [by apply Hlt|].
  apply list_elem_of_split in Hin as (a & c & ->).
  assert (Hne' : a ++ c ≠ []) by (intros [-> ->]%app_nil; done).
  pose proof (removed_inv _ _ _ _ b _ _ _ Hq Hb Hne') as Hq'.
  destruct (removed_links b (bufs s)) as (Hlen & Hcore & _).
  rewrite drop_elem_middle by done.
  pose proof (q_ring _ _ _ _ _ _ Hq) as Hring.
  assert (Hlx : link b_next_free (bufs s) x = b_next_free b ∧
                link b_prev_free (bufs s) x = b_prev_free b) by (unfold link; by rewrite Hb).
  destruct Hlx as [Hnf Hpf].
  destruct (ring_remove (link b_next_free (bufs s)) (link b_prev_free (bufs s))
    (λ i, if decide (b_prev_free b = Some i) then b_next_free b else link b_next_free (bufs s) i)
    (λ i, if decide (b_next_free b = Some i) then b_prev_free b else link b_prev_free (bufs s) i)
    a x c Hnd Hne' Hring) as (_ & Hnx & Hpx); [intros; by rewrite Hnf, Hpf..|].
  rewrite Hnf in Hnx. rewrite Hpf in Hpx.
  assert (Hr : c ++ a ≠ []) by (intros [-> ->]%app_nil; done).
  assert (Hnbr : ∀ i, i ∈ c ++ a → i ≠ x ∧ (i < length (bufs s))%nat).
  { intros i Hi. split; [intros ->; apply NoDup_app in Hnd as (_ & ? & Hx);
      apply NoDup_cons in Hx; set_solver|apply Hlt; set_solver]. }
  eapply remove_run; [done|rewrite (q_tab _ _ _ _ _ _ Hq); apply hashfn_bound|..].
  - intros p i Hp ->. rewrite !elem_of_cons in Hp. destruct Hp as [Hp|[Hp|[Hp|[Hp|Hp]]]].
    + eapply chain_neighbour; [done..|by left].
    + eapply chain_neighbour; [done..|by right].
    + apply Hnbr, last_Some_elem_of. congruence.
    + apply Hnbr, head_Some_elem_of. congruence.
    + by apply not_elem_of_nil in Hp.
  - rewrite Hpx. by apply last_is_Some.
  - rewrite Hnx. by apply head_is_Some.
  - split_and!.
    + eexists. unfold removed. rewrite bufs_put. exact Hq'.
    + unfold removed. rewrite cores_put. exact Hcore.
    + split; [done|]. unfold removed. by rewrite bufs_put.
Qed.

Lemma insert_spec x b s fl :
  queues s (Some x) fl → bufs s !! x = Some b → fl ≠ [] →
  wp (insert_into_queues x) (λ _ s',
    queues s' None (fl ++ [x]) ∧ cores s' = cores s ∧ same_env s s') s.
Proof.
  intros [ch Hq] Hb Hne.
  destruct (head fl) as [hd|] eqn:Ehd; [|by apply head_None in Ehd].
  destruct (last fl) as [t|] eqn:Et; [|by apply last_None in Et].
  pose proof (inserted_inv _ _ _ _ _ _ _ _ _ Hq Hb Ehd Et) as Hq'. cbn zeta in Hq'.
  pose proof (q_perm _ _ _ _ _ _ Hq) as Hperm. cbn in Hperm.
  destruct (NoDup_perm_seq _ _ Hperm) as [Hnd Hlt].
  assert (Hx : x ∉ fl) by (apply NoDup_app in Hnd; set_solver).
  pose proof (head_Some_elem_of _ _ Ehd) as Hhd. pose proof (last_Some_elem_of _ _ Et) as Ht.
  assert (Hhne : hd ≠ x) by (by intros ->). assert (Htne : t ≠ x) by (by intros ->).
  destruct (lookup_lt_is_Some_2 (bufs s) hd) as [hb Hhb]; [apply Hlt; set_solver|].
  pose proof (q_tab _ _ _ _ _ _ Hq) as Htab.
  pose proof (hashfn_bound (b_dev b) (b_blocknr b)) as Hbound.
  pose proof (q_bucket _ _ _ _ _ _ Hq _ Hbound) as Hbk.
  destruct (inserted_free_links x hd t (bufs s) Hhne Htne) as (_ & Hcore & _).
  eapply insert_run; [done|by rewrite (q_head _ _ _ _ _ _ Hq)|done|done| |done| |by rewrite Htab| |].
  - pose proof (q_ring _ _ _ _ _ _ Hq) as Hring. destruct (Hring O hd) as [Hp _].
    { by rewrite <- head_lookup. }
    unfold link in Hp. rewrite Hhb, Et in Hp. done.
  - apply Hlt. set_solver.
  - intros p Hp. rewrite Hbk in Hp. injection Hp as Hp. apply head_Some_elem_of in Hp.
    apply (q_mem _ _ _ _ _ _ Hq) in Hp as (_ & b1 & ? & _); [|done]. by eapply lookup_lt_Some.
  - unfold inserted. destruct (decide (b_dev b = 0)) as [Hd|Hd].
    + split_and!; [eexists; rewrite bufs_put; exact Hq'|by rewrite cores_put|apply same_env_put].
    + cbn zeta. set (p := mjoin _) in *.
      assert (Hc : core_of <$> inserted_bufs x hd t p (bufs s) = cores s).
      { unfold inserted_bufs. by rewrite !core_setp. }
      destruct p; (split; [|split; [|split]]; [eexists; cbn; unfold set_null_b_prev, bufs; cbn; rewrite dv_bufs_set; exact Hq'
         |unfold cores, bufs; cbn; rewrite dv_bufs_set; exact Hc|done|unfold bufs; cbn; by rewrite dv_bufs_set]).
Qed.
End queues.
