(* ===== verification/BufferCache.v ===== *)
(** * What the buffer cache promises

    The proofs about [buffer.c] on top of the queues: which buffer [getblk]
    picks (the least recently used clean free one), that [bread] returns the
    current contents of a block and disturbs no other, that releasing and
    writing back preserve all contents, and that [buffer_init] starts from a
    correct state.  Contents are given by [view]: what the cache holds, or
    else what the disk holds.

    The premise [available] is the code's own condition for not going to
    sleep: the block is cached, or some buffer is free and clean. *)
From S2P Require Import Prelude Blk DList Buffer BufferQueues.
#[local] Set Warnings "-clear-no-such-hyp,-level-tolerance".

(** a block of some device, as the kernel names it: [dev] is not 0 *)
Definition block_range (dev n : Z) : Prop := 0 < dev ∧ dev_range dev n.

(** buffer [i] holds block [n] of [dev] *)
Definition has_key (cs : list core) (dev n : Z) (i : nat) : Prop :=
  ∃ c, cs !! i = Some c ∧ c_dev c = dev ∧ c_blocknr c = n.
Definition key_eqb (dev n : Z) (c : core) : bool := (c_dev c =? dev) && (c_blocknr c =? n).

Lemma key_eqb_true dev n c : key_eqb dev n c = true ↔ c_dev c = dev ∧ c_blocknr c = n.
Proof. unfold key_eqb. rewrite andb_true_iff, !Z.eqb_eq. done. Qed.

Lemma alter_alter {A} (f g : A → A) i (l : list A) : alter f i (alter g i l) = alter (f ∘ g) i l.
Proof.
  apply list_eq. intros j. rewrite !list_lookup_alter. repeat case_decide; try congruence. by destruct (l !! i).
Qed.

Section cache.
Context {D E : Type} `{BlockDriverOk D}.
Abbreviation st := (bstate D E).
Implicit Types (s : st) (i : nat).

Lemma find_in_queue_spec s ch fl h dev n ys xs fuel :
  qinv (bufs s) (hash_table s) (free_list s) None fl ch →
  (h < Z.to_nat NR_HASH)%nat → ch h = ys ++ xs → (length xs ≤ fuel)%nat → 0 ≤ n < 2 ^ 32 →
  wp (find_in_queue fuel (head xs) dev n) (λ r s', s' = s ∧
    match r with
    | Some i => i ∈ xs ∧ has_key (cores s) dev n i
    | None => ∀ i, i ∈ xs → ¬ has_key (cores s) dev n i
    end) s.
Proof.
  intros Hq Hh. revert ys xs. induction fuel as [|fuel IH]; intros ys xs Hch Hlen Hn.
  { destruct xs; [|cbn in Hlen; lia]. apply wp_ret. split; [done|]. set_solver. }
  destruct xs as [|i xs]; [apply wp_ret; split; [done|set_solver]|]. cbn [head find_in_queue].
  pose proof (q_chain _ _ _ _ _ _ Hq h Hh) as Hdl. rewrite Hch in Hdl.
  apply dll_middle in Hdl as [_ Hnx].
  assert (Hi : i ∈ ch h) by (rewrite Hch; set_solver).
  apply (q_mem _ _ _ _ _ _ Hq) in Hi as (_ & b & Hb & _); [|done].
  unfold link in Hnx. rewrite Hb in Hnx. cbn in Hnx.
  apply wp_bind. eapply wp_the_buf; [done|].
  pose proof (cores_lookup _ _ _ Hb) as Hc. rewrite u32_id by done.
  destruct (_ && _) eqn:Ek.
  - apply andb_true_iff in Ek as [?%Z.eqb_eq ?%Z.eqb_eq]. apply wp_ret. split; [done|].
    split; [set_solver|]. by exists (core_of b).
  - rewrite Hnx. replace (match head xs with Some j => Some j | None => None end) with (head xs) by (by destruct (head xs)).
    eapply wp_mono; [apply (IH (ys ++ [i])); [by rewrite <- app_assoc|cbn in Hlen; lia|done]|].
    intros r s' [-> Hr]. split; [done|]. destruct r as [j|]; [set_solver|].
    intros j [->|Hj]%elem_of_cons; [|by apply Hr]. intros (c & Hc' & <- & <-).
    rewrite Hc in Hc'. injection Hc' as <-. cbn in Ek. by rewrite !Z.eqb_refl in Ek.
Qed.

Lemma find_buffer_spec s fl dev n :
  queues s None fl → block_range dev n →
  wp (find_buffer dev n) (λ r s', s' = s ∧
    match r with
    | Some i => has_key (cores s) dev n i
    | None => ∀ i, ¬ has_key (cores s) dev n i
    end) s.
Proof.
  intros [ch Hq] (Hd & _ & Hn). unfold find_buffer. pose proof (hashfn_bound dev n) as Hh.
  set (h := hashfn dev n) in *.
  apply wp_bind. eapply wp_eq; [unfold get_hash; by rewrite (q_bucket _ _ _ _ _ _ Hq h Hh)|].
  apply wp_bind, wp_gets. cbn beta. eapply wp_mono.
  - apply (find_in_queue_spec s ch fl h dev n [] (ch h)); [done..| |lia].
    transitivity (length (seq 0 (length (bufs s)))); [|by rewrite length_seq].
    apply submseteq_length, NoDup_submseteq; [by apply (q_nodup _ _ _ _ _ _ Hq)|].
    intros i Hi. apply (q_mem _ _ _ _ _ _ Hq) in Hi as (_ & b & Hb & _); [|done].
    apply lookup_lt_Some in Hb. apply elem_of_seq. lia.
  - intros r s' [-> Hr]. split; [done|]. destruct r as [i|]; [by destruct Hr|].
    intros i Hi. apply (Hr i); [|done]. destruct Hi as (c & Hc & <- & <-).
    apply lookup_cores in Hc as (b & Hb & <-).
    apply (q_mem _ _ _ _ _ _ Hq); [done|]. split; [done|]. exists b. split; [done|]. cbn in *. split; [lia|done].
Qed.

(** *** Searching the free list *)
Definition is_clean (c : core) : bool := (c_count c =? 0) && negb (c_dirt c) && negb (c_lock c).
Definition clean_at (cs : list core) (i : nat) : bool :=
  match cs !! i with Some c => is_clean c | None => false end.
(** the least recently used clean free buffer *)
Definition victim (cs : list core) (fl : list nat) : ptr := head (filter (λ i, clean_at cs i = true) fl).

Lemma BADNESS_nonneg b : 0 ≤ BADNESS b ∧ (BADNESS b = 0 ↔ b_dirt b = false ∧ b_lock b = false).
Proof. unfold BADNESS. destruct (b_dirt b), (b_lock b); cbn; intuition (done || lia). Qed.

Lemma scan_free_spec s fl v ys xs x fuel best :
  queues s None fl → fl = ys ++ x :: xs → victim (cores s) (x :: xs) = Some v →
  (length (x :: xs) ≤ fuel)%nat →
  (∀ j, best = Some j → ∃ b, bufs s !! j = Some b ∧ 0 < BADNESS b) →
  scan_free fuel x best s = Ret (Some v) s.
Proof.
  intros Hq. destruct (queues_free _ _ Hq) as [Hnd Hlt].
  revert ys xs x best. induction fuel as [|fuel IH]; intros ys xs x best Hfl Hv Hlen Hbest; [cbn in Hlen; lia|].
  destruct (lookup_lt_is_Some_2 (bufs s) x) as [b Hb]; [apply Hlt; set_solver|].
  pose proof (cores_lookup _ _ _ Hb) as Hc.
  destruct (BADNESS_nonneg b) as [Hbn Hb0].
  assert (Hskip : clean_at (cores s) x = false → ∀ best',
     (∀ j, best' = Some j → ∃ b, bufs s !! j = Some b ∧ 0 < BADNESS b) →
     (fl ← gets free_list;
      if bool_decide (b_next_free b = fl) then mret best'
      else nx ← of_opt (b_next_free b); scan_free fuel nx best') s = Ret (Some v) s).
  { intros Hcl best' Hbest'. unfold victim in Hv. rewrite filter_cons_False in Hv by congruence.
    destruct xs as [|y xs]; [done|].
    destruct Hq as [ch Hq]. pose proof (q_ring _ _ _ _ _ _ Hq) as Hr. rewrite Hfl in Hr.
    apply dll_middle in Hr as [_ Hnx]. unfold link in Hnx. rewrite Hb in Hnx. cbn in Hnx.
    unfold mbind, M_bind, gets. rewrite Hnx, (q_head _ _ _ _ _ _ Hq), Hfl.
    rewrite bool_decide_false.
    - cbn. apply (IH (ys ++ [x]) xs y); [by rewrite <- app_assoc|done|cbn in Hlen |- *; lia|done].
    - intros E0. rewrite Hfl in Hnd. apply NoDup_app in Hnd as (_ & Hd & Hnd).
      destruct ys as [|z ys]; cbn in E0; injection E0 as ->.
      + apply NoDup_cons in Hnd. set_solver.
      + apply (Hd z); set_solver. }
  cbn [scan_free]. rewrite (bind_ret _ _ _ b s) by (unfold the_buf; by rewrite Hb). cbn zeta.
  unfold clean_at in Hskip. rewrite Hc in Hskip. unfold is_clean in Hskip. cbn in Hskip.
  destruct (b_count b =? 0) eqn:Ecnt; cbn [negb]; cbn in Hskip; [|by apply Hskip].
  assert (Hbetter : (match best with
            | None => mret true
            | Some j => bj ← the_buf j; mret (BADNESS b <? BADNESS bj)
            end : M st bool) s =
     Ret (match best with None => true | Some j =>
            match bufs s !! j with Some bj => BADNESS b <? BADNESS bj | None => false end end) s).
  { destruct best as [j|]; [|done]. destruct (Hbest j eq_refl) as (bj & Hbj & _).
    rewrite (bind_ret _ _ _ bj s) by (unfold the_buf; by rewrite Hbj). by rewrite Hbj. }
  rewrite (bind_ret _ _ _ _ _ Hbetter). clear Hbetter.
  destruct (decide (BADNESS b = 0)) as [Hz|Hz].
  - assert (match best with None => true | Some j =>
            match bufs s !! j with Some bj => BADNESS b <? BADNESS bj | None => false end end = true) as ->.
    { destruct best as [j|]; [|done]. destruct (Hbest j eq_refl) as (bj & -> & ?). lia. }
    rewrite Hz. cbn. unfold victim in Hv. rewrite filter_cons_True in Hv; [by injection Hv as ->|].
    unfold clean_at. rewrite Hc. unfold is_clean. cbn. rewrite Ecnt.
    destruct Hb0 as [[-> ->] _]; done.
  - assert (Hd : negb (b_dirt b) && negb (b_lock b) = false).
    { destruct (b_dirt b), (b_lock b); try done. exfalso. tauto. }
    destruct (match best with None => true | _ => _ end).
    + rewrite (proj2 (Z.eqb_neq _ _) Hz). apply Hskip; [done|].
      intros j [= <-]. exists b. split; [done|lia].
    + by apply Hskip.
Qed.

(** *** The invariant of the cache *)
Record buf_ok (c : core) : Prop := {
  bo_lock : c_lock c = false;
  bo_dirt : c_dirt c = true → c_uptodate c = true;
  bo_data : length (c_data c) = 1024%nat;
  bo_count : 0 ≤ c_count c < 256;
  bo_key : c_dev c = 0 ∨ block_range (c_dev c) (c_blocknr c)
}.
Record cores_ok (cs : list core) : Prop := {
  co_size : (2 ≤ length cs)%nat;
  co_buf i c : cs !! i = Some c → buf_ok c;
  co_uniq dev n i j : dev ≠ 0 → has_key cs dev n i → has_key cs dev n j → i = j
}.
Record cache_inv s : Prop := {
  ci_ok : dv_ok (drv s);
  ci_queues : ∃ fl, queues s None fl;
  ci_cores : cores_ok (cores s);
  ci_coherent i c : cores s !! i = Some c → c_dev c ≠ 0 → c_uptodate c = true → c_dirt c = false →
    dv_disk (drv s) (c_dev c) (c_blocknr c) = Some (c_data c)
}.
(** some buffer is free and clean *)
Definition room (cs : list core) : Prop := ∃ i, clean_at cs i = true.

Lemma victim_Some s fl : queues s None fl → room (cores s) → ∃ v, victim (cores s) fl = Some v.
Proof.
  intros Hq [i Hi]. unfold victim. destruct (head _) eqn:Eh; [eauto|]. apply head_None in Eh.
  assert (i ∈ filter (λ i, clean_at (cores s) i = true) fl) as Hin; [|rewrite Eh in Hin; set_solver].
  apply list_elem_of_filter. split; [done|]. apply (queues_free _ _ Hq).
  unfold clean_at in Hi. destruct (cores s !! i) eqn:Ec; [|done].
  apply lookup_lt_Some in Ec. by rewrite length_cores in Ec.
Qed.
Lemma victim_clean cs fl v : victim cs fl = Some v → v ∈ fl ∧ clean_at cs v = true.
Proof. intros Hv. apply head_Some_elem_of in Hv. apply list_elem_of_filter in Hv. tauto. Qed.

(** updates that keep the links and the key of a buffer *)
Definition keeps_place (f : buffer_head → buffer_head) : Prop := ∀ b,
  b_dev (f b) = b_dev b ∧ b_blocknr (f b) = b_blocknr b ∧
  b_next (f b) = b_next b ∧ b_prev (f b) = b_prev b ∧
  b_next_free (f b) = b_next_free b ∧ b_prev_free (f b) = b_prev_free b.

Lemma link_alter g f i l j : (∀ b, g (f b) = g b) → link g (alter f i l) j = link g l j.
Proof.
  intros Hg. unfold link. rewrite list_lookup_alter. case_decide as E0; [subst|done].
  destruct (l !! j) as [b|]; [exact (Hg b)|done].
Qed.

Lemma queues_alter s fl i f :
  keeps_place f → queues s None fl → queues (put_bufs (alter f i (bufs s)) s) None fl.
Proof.
  intros Hf [ch [Hperm Hring Hhd Htab Hnd Hbk Hch Hmem Hnodev]]. exists ch. rewrite bufs_put.
  assert (Hl : ∀ j b', alter f i (bufs s) !! j = Some b' →
     ∃ b, bufs s !! j = Some b ∧ b_dev b' = b_dev b ∧ b_blocknr b' = b_blocknr b ∧
          b_next b' = b_next b ∧ b_prev b' = b_prev b).
  { intros j b'. rewrite list_lookup_alter. case_decide as E0; [|eauto 10]. subst.
    destruct (bufs s !! j) as [b|]; [|done]. intros [= <-]. exists b. destruct (Hf b); naive_solver. }
  constructor; rewrite ?length_alter; try done.
  - eapply dll_ext; [done|]. intros j _. rewrite !link_alter; [done|intros b; apply Hf..].
  - intros h Hh. eapply dll_ext; [by apply Hch|]. intros j _. rewrite !link_alter; [done|intros b; apply Hf..].
  - intros h j Hh. rewrite (Hmem h j Hh). apply and_iff_compat_l. split.
    + intros (b & Hb & Hd & <-). destruct (decide (i = j)) as [->|].
      * exists (f b). rewrite list_lookup_alter, decide_True, Hb by done. destruct (Hf b) as (-> & -> & _). done.
      * exists b. by rewrite list_lookup_alter_ne.
    + intros (b' & Hb' & Hd & <-). destruct (Hl _ _ Hb') as (b & Hb & E1 & E2 & _).
      exists b. by rewrite <- E1, <- E2.
  - intros j b' Hj Hb' Hd. destruct (Hl _ _ Hb') as (b & Hb & E1 & _ & -> & ->).
    apply (Hnodev j b); [done..|congruence].
Qed.

Lemma wp_wait s i b Q : bufs s !! i = Some b → b_lock b = false → Q tt s → wp (wait_on_buffer i) Q s.
Proof.
  intros Hb Hl HQ. unfold wait_on_buffer. apply wp_bind. eapply wp_the_buf; [done|].
  rewrite Hl. by apply wp_ret.
Qed.

(** the core of buffer [i] after an update of its head *)
Lemma cores_alter s i f g :
  (∀ b, core_of (f b) = g (core_of b)) → core_of <$> alter f i (bufs s) = alter g i (cores s).
Proof.
  intros Hfg. unfold cores. apply list_eq. intros j. rewrite list_lookup_fmap, !list_lookup_alter.
  case_decide as E0; rewrite ?list_lookup_fmap; [subst|done].
  destruct (bufs s !! j) as [b|]; [exact (f_equal Some (Hfg b))|done].
Qed.

Definition c_set_count (v : Z) (c : core) : core :=
  mk_core (c_data c) (c_blocknr c) (c_dev c) (c_uptodate c) (c_dirt c) v (c_lock c).
Definition c_inc (c : core) : core := c_set_count (u8 (c_count c + 1)) c.
Definition c_dec (c : core) : core := c_set_count (u8 (c_count c - 1)) c.

Lemma cores_ok_alter cs i g :
  cores_ok cs → (∀ c, cs !! i = Some c → buf_ok (g c)) →
  (∀ c, cs !! i = Some c → c_dev (g c) = c_dev c ∧ c_blocknr (g c) = c_blocknr c) →
  cores_ok (alter g i cs).
Proof.
  intros [Hsz Hbuf Huq] Hg Hk.
  assert (Hkey : ∀ dev n j, has_key (alter g i cs) dev n j → has_key cs dev n j).
  { intros dev n j (c' & Hc' & <- & <-). rewrite list_lookup_alter in Hc'.
    case_decide as E0; [subst|by exists c'].
    destruct (cs !! j) as [c|] eqn:Hc; [|done]. injection Hc' as <-.
    exists c. destruct (Hk c eq_refl) as [-> ->]. done. }
  constructor.
  - by rewrite length_alter.
  - intros j c. rewrite list_lookup_alter. case_decide as E0; [subst|by apply Hbuf].
    destruct (cs !! j) as [c0|] eqn:Hc; [|done]. intros [= <-]. by apply Hg.
  - intros dev n j k Hd Hj Hk'. eapply Huq; eauto.
Qed.


Lemma core_surj c : ∃ b, core_of b = c.
Proof.
  exists (mk_bh (c_data c) (c_blocknr c) (c_dev c) (c_uptodate c) (c_dirt c) (c_count c) (c_lock c) None None None None).
  by destruct c.
Qed.

Lemma inv_alter s i f g fl :
  keeps_place f → (∀ b, core_of (f b) = g (core_of b)) →
  dv_ok (drv s) → queues s None fl → cores_ok (cores s) →
  (∀ c, cores s !! i = Some c → buf_ok (g c)) →
  (i < length (bufs s))%nat →
  ∃ s', upd_buf i f s = Ret tt s' ∧ dv_ok (drv s') ∧ queues s' None fl ∧ cores_ok (cores s') ∧
        cores s' = alter g i (cores s) ∧ same_env s s'.
Proof.
  intros Hf Hfg Hok Hq Hco Hg Hi.
  assert (wp (upd_buf i f) (λ _ s', s' = put_bufs (alter f i (bufs s)) s) s) as ([]&s'&->&->)%wp_exists
    by by apply wp_upd_buf.
  eexists. split; [done|]. split_and!.
  - by apply dv_ok_set.
  - by apply queues_alter.
  - rewrite cores_put, (cores_alter _ _ _ g) by done. apply cores_ok_alter; [done..|].
    intros c _. destruct (core_surj c) as [b <-]. rewrite <- Hfg. destruct (Hf b) as (? & ? & _). done.
  - by rewrite cores_put, (cores_alter _ _ _ g).
  - apply same_env_put.
Qed.

Lemma get_hash_table_spec s fl dev n :
  queues s None fl → dv_ok (drv s) → cores_ok (cores s) → block_range dev n →
  wp (get_hash_table dev n) (λ r s',
    match r with
    | Some i => has_key (cores s) dev n i ∧ cores s' = alter c_inc i (cores s) ∧
                dv_ok (drv s') ∧ queues s' None fl ∧ cores_ok (cores s') ∧ same_env s s'
    | None => s' = s ∧ ∀ i, ¬ has_key (cores s) dev n i
    end) s.
Proof.
  intros Hq Hok Hco Hr. unfold get_hash_table, RETRIES. cbn [get_hash_table_loop].
  apply wp_bind. eapply wp_mono; [by eapply find_buffer_spec|]. intros r s0 [-> Hr0].
  destruct r as [i|]; [|by apply wp_ret]. destruct Hr0 as (c & Hc & Hd & Hn).
  destruct (lookup_cores _ _ _ Hc) as (b & Hb & Hbc).
  destruct (inv_alter s i inc_count c_inc fl) as (s' & Hu & Hok' & Hq' & Hco' & Hcs' & He);
    try done.
  { intros c' Hc'. destruct (co_buf _ Hco _ _ Hc'). constructor; try done. cbn. apply u8_bound. }
  { by eapply lookup_lt_Some. }
  apply wp_bind. eapply wp_eq; [exact Hu|].
  assert (Hb' : bufs s' !! i = Some (inc_count b)).
  { unfold upd_buf in Hu. rewrite Hb in Hu. injection Hu as <-. rewrite bufs_put.
    apply list_lookup_insert_eq. by eapply lookup_lt_Some. }
  apply wp_bind. eapply wp_wait; [exact Hb'| |].
  { cbn. change (b_lock b) with (c_lock (core_of b)). rewrite Hbc. by apply (co_buf _ Hco i). }
  apply wp_bind. eapply wp_the_buf; [exact Hb'|]. cbn.
  change (b_dev b) with (c_dev (core_of b)). change (b_blocknr b) with (c_blocknr (core_of b)).
  rewrite Hbc, Hd, Hn, u32_id by (destruct Hr as (_ & _ & ?); lia).
  rewrite !Z.eqb_refl. cbn. apply wp_ret. split_and!; try done. by exists c.
Qed.

(** *** [getblk] *)
Definition c_fresh (dev n : Z) (c : core) : core := mk_core (c_data c) n dev false false 1 false.

(** what [getblk] does to the array of buffers, [fl] being the free list *)
Definition getblk_result (cs : list core) (fl : list nat) (dev n : Z) (i : nat) (cs' : list core)
    (fl' : list nat) : Prop :=
  has_key cs dev n i ∧ cs' = alter c_inc i cs ∧ fl' = fl ∨
  (∀ j, ¬ has_key cs dev n j) ∧ victim cs fl = Some i ∧ cs' = alter (c_fresh dev n) i cs ∧
  fl' = drop_elem i fl ++ [i].

Lemma cores_ok_fresh cs i dev n :
  cores_ok cs → block_range dev n → (∀ j, ¬ has_key cs dev n j) →
  cores_ok (alter (c_fresh dev n) i cs).
Proof.
  intros [Hsz Hbuf Huq] Hr Hno.
  assert (Hkey : ∀ dev' n' j, has_key (alter (c_fresh dev n) i cs) dev' n' j →
     (j = i ∧ dev' = dev ∧ n' = n) ∨ (j ≠ i ∧ has_key cs dev' n' j)).
  { intros dev' n' j (c' & Hc' & <- & <-). rewrite list_lookup_alter in Hc'. case_decide as E0.
    - subst. destruct (cs !! j); [|done]. injection Hc' as <-. by left.
    - right. split; [congruence|]. by exists c'. }
  constructor.
  - by rewrite length_alter.
  - intros j c. rewrite list_lookup_alter. case_decide as E0; [subst|by apply Hbuf].
    destruct (cs !! j) as [c0|] eqn:Hc; [|discriminate]. intros [= <-]. destruct (Hbuf _ _ Hc).
    constructor; cbn; auto; lia.
  - intros dev' n' j k Hd [(-> & -> & ->)|[? Hj]]%Hkey [(-> & E1 & E2)|[? Hk]]%Hkey; subst.
    + done.
    + by destruct (Hno _ Hk).
    + by destruct (Hno _ Hj).
    + by eapply Huq.
Qed.

Lemma find_victim fl cs v : victim cs fl = Some v → ∃ x xs, fl = x :: xs.
Proof. destruct fl; [done|eauto]. Qed.

(** the steps of [getblk] that take the victim over, from the moment it is
    known to be free, clean and unlocked *)
Lemma take_over_spec s fl dev n v :
  dv_ok (drv s) → queues s None fl → cores_ok (cores s) → block_range dev n →
  (∀ j, ¬ has_key (cores s) dev n j) → (v < length (bufs s))%nat →
  (∃ c, cores s !! v = Some c ∧ c_lock c = false) →
  wp (upd_buf v (set_b_count 1) ;;
      upd_buf v (set_b_dirt false) ;;
      upd_buf v (set_b_uptodate false) ;;
      remove_from_queues v ;;
      upd_buf v (set_b_dev (u16 dev)) ;;
      upd_buf v (set_b_blocknr (u32 n)) ;;
      insert_into_queues v ;;
      mret v)
    (λ i s', i = v ∧ dv_ok (drv s') ∧ queues s' None (drop_elem v fl ++ [v]) ∧
      cores_ok (cores s') ∧ cores s' = alter (c_fresh dev n) v (cores s) ∧ same_env s s') s.
Proof.
  intros Hok Hq Hco Hr Hno Hv (c & Hc & Hlock).
  destruct (queues_free _ _ Hq) as [Hnd Hlt].
  apply wp_bind, wp_upd_buf; [done|].
  apply wp_bind, wp_upd_buf; rewrite bufs_put, ?length_alter, ?put_put; [done|].
  apply wp_bind, wp_upd_buf; rewrite bufs_put, ?length_alter, ?put_put; [done|].
  rewrite !alter_alter.
  set (s0 := put_bufs _ s).
  assert (Hq0 : queues s0 None fl) by (by apply queues_alter).
  assert (Hvfl : v ∈ fl) by (by apply Hlt).
  apply wp_bind. eapply wp_mono; [apply (remove_spec v s0 fl Hq0 Hvfl)|].
  { intros ->. destruct Hco as [Hsz _ _]. rewrite length_cores in Hsz.
    assert (O ∈ [v] ∧ 1%nat ∈ [v]) by (rewrite !Hlt; lia). set_solver. }
  intros [] s1 ([ch1 Hq1] & Hcs1 & He1).
  assert (Hlen1 : length (bufs s1) = length (bufs s)).
  { rewrite <- !length_cores, Hcs1. unfold s0. by rewrite cores_put, length_fmap, length_alter, length_cores. }
  apply wp_bind, wp_upd_buf; [by rewrite Hlen1|].
  apply wp_bind, wp_upd_buf; rewrite bufs_put, ?length_alter, ?put_put; [by rewrite Hlen1|].
  rewrite alter_alter. set (s2 := put_bufs _ s1).
  assert (Hq2 : queues s2 (Some v) (drop_elem v fl)).
  { exists ch1. unfold s2. rewrite bufs_put. eapply qinv_out; [exact Hq1|by rewrite length_alter|].
    intros j Hj. by rewrite list_lookup_alter_ne. }
  destruct (lookup_lt_is_Some_2 (bufs s2) v) as [b2 Hb2].
  { unfold s2. by rewrite bufs_put, length_alter, Hlen1. }
  apply wp_bind. eapply wp_mono; [apply (insert_spec v b2 s2 _ Hq2 Hb2)|].
  { intros Hnil. assert (Hall : ∀ i, (i < length (bufs s))%nat → i = v).
    { intros i Hi. apply Hlt in Hi. destruct (decide (i = v)); [done|].
      assert (i ∈ drop_elem v fl) as Hin; [by apply list_elem_of_filter|]. rewrite Hnil in Hin. set_solver. }
    destruct Hco as [Hsz _ _]. rewrite length_cores in Hsz.
    pose proof (Hall O ltac:(lia)). pose proof (Hall 1%nat ltac:(lia)). lia. }
  intros [] s3 (Hq3 & Hcs3 & He3). apply wp_ret. split; [done|].
  assert (Hcs : cores s3 = alter (c_fresh dev n) v (cores s)).
  { rewrite Hcs3. unfold s2. rewrite cores_put. apply list_eq. intros j.
    rewrite list_lookup_fmap, !list_lookup_alter. case_decide as E0.
    - subst j. pose proof (f_equal (lookup v) Hcs1) as Hv1. unfold cores in Hv1 |- *.
      rewrite !list_lookup_fmap in Hv1. unfold s0 in Hv1. rewrite bufs_put, list_lookup_alter, decide_True in Hv1 by done.
      rewrite list_lookup_fmap. destruct (lookup_cores _ _ _ Hc) as (b & Hb & Hbc).
      rewrite Hb in Hv1 |- *. destruct (bufs s1 !! v) as [b1|]; [|done]. cbn in Hv1 |- *.
      injection Hv1 as H1 H2 H3 H4 H5 H6 H7. unfold core_of, c_fresh. cbn.
      rewrite H1, H4, H5, H6, H7. destruct Hr as (? & ? & ?).
      rewrite u16_id, u32_id by lia. unfold core_of in Hbc. rewrite <- Hbc in Hlock. cbn in Hlock. by rewrite Hlock.
    - pose proof (f_equal (lookup j) Hcs1) as Hj1. unfold cores in Hj1 |- *.
      rewrite !list_lookup_fmap in Hj1. rewrite Hj1. unfold s0. rewrite bufs_put, list_lookup_alter_ne by done.
      by rewrite list_lookup_fmap. }
  assert (He : same_env s s3).
  { eapply same_env_trans; [apply same_env_put|]. eapply same_env_trans; [exact He1|].
    eapply same_env_trans; [apply same_env_put|exact He3]. }
  split_and!; try done.
  - destruct He as [_ ->]. by apply dv_ok_set.
  - rewrite Hcs. by apply cores_ok_fresh.
Qed.

Lemma getblk_run sync s fl dev n :
  dv_ok (drv s) → queues s None fl → cores_ok (cores s) → block_range dev n →
  (∃ i, has_key (cores s) dev n i) ∨ room (cores s) →
  wp (getblk sync dev n) (λ i s', ∃ fl',
    getblk_result (cores s) fl dev n i (cores s') fl' ∧
    dv_ok (drv s') ∧ queues s' None fl' ∧ cores_ok (cores s') ∧ same_env s s') s.
Proof.
  intros Hok Hq Hco Hr Hroom. unfold getblk, RETRIES. cbn [getblk_loop].
  apply wp_bind. eapply wp_mono; [by apply get_hash_table_spec|]. intros r s0 Hpost. cbn beta in Hpost.
  destruct r as [i|].
  { destruct Hpost as (Hk & Hcs & Hok' & Hq' & Hco' & He). apply wp_ret. exists fl.
    split_and!; try done. by left. }
  destruct Hpost as [-> Hno]. destruct Hroom as [[i Hi]|Hroom]; [by destruct (Hno i)|].
  destruct (victim_Some _ _ Hq Hroom) as [v Hv]. destruct (find_victim _ _ _ Hv) as (x & xs & Hfl).
  apply wp_bind, wp_gets. cbn beta. destruct Hq as [ch Hq].
  rewrite (q_head _ _ _ _ _ _ Hq), Hfl. apply wp_bind, wp_ret, wp_bind, wp_gets. cbn beta.
  assert (Hq' : queues s None fl) by (by exists ch).
  destruct (queues_free _ _ Hq') as [Hnd Hlt].
  apply wp_bind. eapply wp_eq.
  { eapply (scan_free_spec s fl v [] xs x); [done..| | |done].
    - by rewrite Hfl in Hv.
    - rewrite <- Hfl. unfold NR_BUFFERS.
      pose proof (Permutation_length (q_perm _ _ _ _ _ _ Hq)) as Hpl. rewrite length_app, length_seq in Hpl. cbn in Hpl. lia. }
  destruct (victim_clean _ _ _ Hv) as [Hvfl Hcl]. unfold clean_at in Hcl.
  destruct (cores s !! v) as [c|] eqn:Hc; [|done].
  destruct (lookup_cores _ _ _ Hc) as (b & Hb & <-). unfold is_clean in Hcl.
  rewrite !andb_true_iff, !negb_true_iff, Z.eqb_eq in Hcl. destruct Hcl as [[Hcnt Hd] Hl]. cbn in Hcnt, Hd, Hl.
  apply wp_bind. eapply wp_wait; [done..|].
  apply wp_bind. eapply wp_the_buf; [done|]. rewrite Hcnt. cbn [Z.eqb negb].
  apply wp_bind. eapply wp_eq.
  { unfold RETRIES; cbn [clean_victim]. rewrite (bind_ret _ _ _ b s) by (unfold the_buf; by rewrite Hb). rewrite Hd. done. }
  apply wp_bind. eapply wp_mono; [by eapply find_buffer_spec|]. intros r s0 [-> Hr0].
  destruct r as [i|]; [by destruct (Hno i)|].
  eapply wp_mono; [apply take_over_spec; try done|].
  - by apply Hlt.
  - eexists. split; [exact Hc|done].
  - intros i s' (-> & Hok' & Hq2 & Hco' & Hcs & He). rewrite <- ?Hfl. exists (drop_elem v fl ++ [v]). split_and!; try done.
    right. split_and!; assumption || reflexivity.
Qed.

(** *** What the rest of the kernel sees: the contents of the blocks

    A block in the cache hides the one on the disk. *)
Definition view s (dev n : Z) : option bytes :=
  match find_idx (key_eqb dev n) (cores s) ≫= (λ i, cores s !! i) with
  | Some c => if c_uptodate c then Some (c_data c) else dv_disk (drv s) dev n
  | None => dv_disk (drv s) dev n
  end.

Lemma view_hit s dev n i c :
  cores_ok (cores s) → dev ≠ 0 → cores s !! i = Some c → c_dev c = dev → c_blocknr c = n →
  view s dev n = if c_uptodate c then Some (c_data c) else dv_disk (drv s) dev n.
Proof.
  intros Hco Hdev Hc Hd Hn. unfold view.
  destruct (find_idx _ _) as [j|] eqn:Ej.
  - apply find_idx_Some in Ej as (c' & Hc' & Hk%key_eqb_true & _).
    assert (j = i) as -> by (eapply (co_uniq _ Hco dev n); [done|by exists c'|by exists c]).
    cbn. rewrite Hc. done.
  - rewrite find_idx_None in Ej. specialize (Ej c).
    rewrite (proj2 (key_eqb_true _ _ _)) in Ej by done.
    discriminate Ej. by eapply list_elem_of_lookup_2.
Qed.

Lemma view_miss s dev n : (∀ i, ¬ has_key (cores s) dev n i) → view s dev n = dv_disk (drv s) dev n.
Proof.
  intros Hno. unfold view. destruct (find_idx _ _) as [j|] eqn:Ej; [|done].
  apply find_idx_Some in Ej as (c' & Hc' & Hk%key_eqb_true & _). destruct (Hno j). by exists c'.
Qed.

Lemma key_dec cs dev n : (∃ i, has_key cs dev n i) ∨ (∀ i, ¬ has_key cs dev n i).
Proof.
  destruct (find_idx (key_eqb dev n) cs) as [j|] eqn:Ej.
  - apply find_idx_Some in Ej as (c' & Hc' & Hk%key_eqb_true & _). left. exists j, c'. done.
  - right. intros i (c & Hc & Hk). rewrite find_idx_None in Ej. specialize (Ej c).
    rewrite (proj2 (key_eqb_true _ _ _)) in Ej by done. discriminate Ej. by eapply list_elem_of_lookup_2.
Qed.

(** one buffer changed and kept its key: only its block's contents change *)
Lemma view_alter s s' i c c' :
  cores_ok (cores s) → cores_ok (cores s') → dv_disk (drv s') = dv_disk (drv s) →
  cores s !! i = Some c → cores s' !! i = Some c' → c_dev c' = c_dev c → c_blocknr c' = c_blocknr c →
  (∀ j, j ≠ i → cores s' !! j = cores s !! j) →
  ∀ dev n, dev ≠ 0 → view s' dev n =
    if decide (dev = c_dev c ∧ n = c_blocknr c)
    then (if c_uptodate c' then Some (c_data c') else dv_disk (drv s) dev n)
    else view s dev n.
Proof.
  intros Hco Hco' Hdisk Hc Hc' Hd Hn Hrest dev n Hdev. case_decide as Hk.
  - destruct Hk as [-> ->]. rewrite (view_hit s' _ _ i c') by done. by rewrite Hdisk.
  - assert (Hki : ∀ j, has_key (cores s') dev n j ↔ has_key (cores s) dev n j).
    { intros j. destruct (decide (j = i)) as [->|Hj].
      - split; intros (c0 & Hc0 & <- & <-); [rewrite Hc' in Hc0|rewrite Hc in Hc0]; injection Hc0 as <-;
          exfalso; apply Hk; by split.
      - unfold has_key. by rewrite Hrest. }
    destruct (key_dec (cores s) dev n) as [[j Hj]|Hno].
    + destruct Hj as (cj & Hcj & Hdj & Hnj). assert (j ≠ i).
      { intros ->. rewrite Hc in Hcj. injection Hcj as ->. apply Hk. by split. }
      rewrite (view_hit s _ _ j cj), (view_hit s' _ _ j cj); rewrite ?Hrest; try done. by rewrite Hdisk.
    + rewrite !view_miss; [by rewrite Hdisk|done|]. intros j Hj%Hki. by destruct (Hno j).
Qed.

(** *** The contract

    [stepped s s' i]: only buffer [i] may have changed, nothing was written
    to the disk, and every block still has its contents. *)
Record stepped s s' i : Prop := {
  sp_inv : cache_inv s';
  sp_up : up s' = up s;
  sp_disk : dv_disk (drv s') = dv_disk (drv s);
  sp_others j : j ≠ i → cores s' !! j = cores s !! j;
  sp_view dev n : dev ≠ 0 → view s' dev n = view s dev n
}.

Lemma same_env_disk s s' : same_env s s' → dv_disk (drv s') = dv_disk (drv s).
Proof. intros [_ ->]. apply dv_disk_set. Qed.

Lemma lookup_clean cs i : clean_at cs i = true → ∃ c, cs !! i = Some c ∧ c_count c = 0 ∧ c_dirt c = false.
Proof.
  unfold clean_at, is_clean. destruct (cs !! i) as [c|]; [|done].
  rewrite !andb_true_iff, Z.eqb_eq, negb_true_iff. intros [[? ?] ?]. eauto.
Qed.

(** the key of a buffer taken over is looked up on the disk from now on *)
Lemma view_fresh s s' i c dev n :
  cache_inv s → cores_ok (cores s') → block_range dev n → (∀ j, ¬ has_key (cores s) dev n j) →
  cores s !! i = Some c → c_dirt c = false →
  dv_disk (drv s') = dv_disk (drv s) → cores s' = alter (c_fresh dev n) i (cores s) →
  ∀ dev' n', dev' ≠ 0 → view s' dev' n' = view s dev' n'.
Proof.
  intros Hinv Hco' [Hr _] Hno Hc Hdirt Hdisk Hcs dev' n' Hdev. pose proof (ci_cores _ Hinv) as Hco.
  assert (Hc' : cores s' !! i = Some (c_fresh dev n c)) by (by rewrite Hcs, list_lookup_alter, decide_True, Hc).
  assert (Hoth : ∀ j, j ≠ i → cores s' !! j = cores s !! j) by (intros; by rewrite Hcs, list_lookup_alter_ne).
  destruct (key_dec (cores s) dev' n') as [[j (cj & Hcj & Hdj & Hnj)]|Hno'].
  - destruct (decide (j = i)) as [->|Hj].
    + (* the block the victim held *)
      rewrite Hc in Hcj. injection Hcj as <-. rewrite (view_hit s dev' n' i c) by done.
      rewrite view_miss, Hdisk.
      * destruct (c_uptodate c) eqn:Eu; [|done]. subst. by apply (ci_coherent _ Hinv i).
      * intros k (ck & Hck & Hdk & Hnk). destruct (decide (k = i)) as [->|Hk].
        -- rewrite Hc' in Hck. injection Hck as <-. cbn in Hdk, Hnk. subst. destruct (Hno i). by exists c.
        -- rewrite Hoth in Hck by done. apply Hk.
           eapply (co_uniq _ Hco dev' n'); [done|by exists ck|by exists c].
    + rewrite (view_hit s dev' n' j cj), (view_hit s' dev' n' j cj), Hdisk; rewrite ?Hoth; done.
  - rewrite (view_miss s) by done. destruct (decide (dev' = dev ∧ n' = n)) as [[-> ->]|Hne].
    + rewrite (view_hit s' dev n i (c_fresh dev n c)) by done. cbn. by rewrite Hdisk.
    + rewrite view_miss; [by rewrite Hdisk|]. intros k (ck & Hck & Hdk & Hnk).
      destruct (decide (k = i)) as [->|Hk].
      * rewrite Hc' in Hck. injection Hck as <-. cbn in Hdk, Hnk. apply Hne. by split.
      * rewrite Hoth in Hck by done. destruct (Hno' k). by exists ck.
Qed.

(** block [n] of [dev] can be had: it is in the cache, and its 8-bit use
    count does not overflow, or there is room for it *)
Definition available (cs : list core) (dev n : Z) : Prop :=
  (∃ i c, cs !! i = Some c ∧ c_dev c = dev ∧ c_blocknr c = n ∧ c_count c < 255) ∨
  (∀ i, ¬ has_key cs dev n i) ∧ room cs.

(** how the buffer handed out looks, before and after *)
Definition handed_out (cs : list core) (dev n : Z) (i : nat) (c c' : core) : Prop :=
  c_dev c = dev ∧ c_blocknr c = n ∧ c_count c < 255 ∧ c_count c' = c_count c + 1 ∧ c_dirt c' = c_dirt c ∨
  clean_at cs i = true ∧ (∀ j, ¬ has_key cs dev n j) ∧ c_count c' = 1 ∧ c_dirt c' = false.

Lemma getblk_contract sync s dev n :
  cache_inv s → block_range dev n → available (cores s) dev n →
  wp (getblk sync dev n) (λ i s', stepped s s' i ∧ ∃ c c',
    cores s !! i = Some c ∧ cores s' !! i = Some c' ∧ handed_out (cores s) dev n i c c' ∧
    (c_dev c = dev ∧ c_blocknr c = n ∧ c' = c_inc c ∨
     clean_at (cores s) i = true ∧ (∀ j, ¬ has_key (cores s) dev n j) ∧ c' = c_fresh dev n c)) s.
Proof.
  intros Hinv Hr Hroom. pose proof Hinv as [Hok [fl Hq] Hco Hcoh].
  eapply wp_mono.
  { apply (getblk_run sync s fl); try done. destruct Hroom as [(i & c & ? & ? & ? & ?)|[_ ?]]; [left|by right].
    by exists i, c. }
  intros i s' (fl' & Hres & Hok' & Hq' & Hco' & He).
  pose proof (same_env_disk _ _ He) as Hdisk.
  destruct Hres as [((c & Hc & Hd & Hn) & Hcs & _)|(Hno & Hv & Hcs & _)].
  - assert (Hc' : cores s' !! i = Some (c_inc c)) by (by rewrite Hcs, list_lookup_alter, decide_True, Hc).
    assert (Hoth : ∀ j, j ≠ i → cores s' !! j = cores s !! j) by (intros; by rewrite Hcs, list_lookup_alter_ne).
    assert (Hcnt : c_count c < 255).
    { destruct Hroom as [(k & ck & Hck & Hdk & Hnk & ?)|[Hno _]]; [|destruct (Hno i); by exists c].
      assert (k = i) as -> by (eapply (co_uniq _ Hco dev n); [destruct Hr; lia|by exists ck|by exists c]).
      congruence. }
    pose proof (bo_count _ (co_buf _ Hco _ _ Hc)) as Hc0.
    split; [|exists c, (c_inc c); split_and!; [done..| |by left];
              left; split_and!; try done; cbn; apply u8_id; lia]. constructor; try done; [|by destruct He|].
    + constructor; [done|by exists fl'|done|]. intros j cj Hcj. rewrite Hdisk.
      destruct (decide (j = i)) as [->|Hj]; [|rewrite Hoth in Hcj by done; by apply (Hcoh j)].
      rewrite Hc' in Hcj. injection Hcj as <-. exact (Hcoh i c Hc).
    + intros dev' n' Hdev. rewrite (view_alter s s' i c (c_inc c)) by done. case_decide as Hk; [|done].
      destruct Hk as [-> ->]. by rewrite (view_hit s _ _ i c).
  - destruct (victim_clean _ _ _ Hv) as [_ Hcl]. destruct (lookup_clean _ _ Hcl) as (c & Hc & Hcnt & Hdirt).
    assert (Hc' : cores s' !! i = Some (c_fresh dev n c)) by (by rewrite Hcs, list_lookup_alter, decide_True, Hc).
    assert (Hoth : ∀ j, j ≠ i → cores s' !! j = cores s !! j) by (intros; by rewrite Hcs, list_lookup_alter_ne).
    split; [|exists c, (c_fresh dev n c); split_and!; [done..| |]; right; split_and!; assumption || reflexivity].
    constructor; try done; [|by destruct He|by eapply view_fresh].
    constructor; [done|by exists fl'|done|]. intros j cj Hcj. rewrite Hdisk.
    destruct (decide (j = i)) as [->|Hj]; [|rewrite Hoth in Hcj by done; by apply (Hcoh j)].
    rewrite Hc' in Hcj. by injection Hcj as <-.
Qed.

(** a change of one held buffer that keeps its key *)
Lemma step_upd s i f g c :
  cache_inv s → keeps_place f → (∀ b, core_of (f b) = g (core_of b)) → cores s !! i = Some c →
  buf_ok (g c) →
  (c_dev c ≠ 0 → c_uptodate (g c) = true → c_dirt (g c) = false →
    dv_disk (drv s) (c_dev c) (c_blocknr c) = Some (c_data (g c))) →
  ∃ s', upd_buf i f s = Ret tt s' ∧ cache_inv s' ∧ up s' = up s ∧ dv_disk (drv s') = dv_disk (drv s) ∧
    cores s' = alter g i (cores s) ∧ cores s' !! i = Some (g c) ∧
    (∀ j, j ≠ i → cores s' !! j = cores s !! j) ∧
    ∀ dev n, dev ≠ 0 → view s' dev n =
      if decide (dev = c_dev c ∧ n = c_blocknr c)
      then (if c_uptodate (g c) then Some (c_data (g c)) else dv_disk (drv s) dev n)
      else view s dev n.
Proof.
  intros [Hok [fl Hq] Hco Hcoh] Hf Hfg Hc Hbok Hgc.
  destruct (inv_alter s i f g fl) as (s' & Hu & Hok' & Hq' & Hco' & Hcs & He); try done.
  { intros c0 Hc0. rewrite Hc in Hc0. by injection Hc0 as <-. }
  { apply lookup_lt_Some in Hc. by rewrite length_cores in Hc. }
  pose proof (same_env_disk _ _ He) as Hdisk.
  assert (Hc' : cores s' !! i = Some (g c)) by (by rewrite Hcs, list_lookup_alter, decide_True, Hc).
  assert (Hoth : ∀ j, j ≠ i → cores s' !! j = cores s !! j) by (intros; by rewrite Hcs, list_lookup_alter_ne).
  assert (Hkey : c_dev (g c) = c_dev c ∧ c_blocknr (g c) = c_blocknr c).
  { destruct (core_surj c) as [b <-]. rewrite <- Hfg. destruct (Hf b) as (? & ? & _). done. }
  exists s'. split_and!; try done; [|by destruct He|].
  - constructor; [done|by exists fl|done|]. intros j cj Hcj. rewrite Hdisk.
    destruct (decide (j = i)) as [->|Hj]; [|rewrite Hoth in Hcj by done; by apply (Hcoh j)].
    rewrite Hc' in Hcj. injection Hcj as <-. destruct Hkey as [-> ->]. done.
  - destruct Hkey. by apply (view_alter s s' i c (g c)).
Qed.

(** the same, for a sequence of updates of one buffer seen as one *)
Lemma step_put s i f g c :
  cache_inv s → keeps_place f → (∀ b, core_of (f b) = g (core_of b)) → cores s !! i = Some c →
  buf_ok (g c) →
  (c_dev c ≠ 0 → c_uptodate (g c) = true → c_dirt (g c) = false →
    dv_disk (drv s) (c_dev c) (c_blocknr c) = Some (c_data (g c))) →
  let s' := put_bufs (alter f i (bufs s)) s in
  cache_inv s' ∧ up s' = up s ∧ dv_disk (drv s') = dv_disk (drv s) ∧
    cores s' = alter g i (cores s) ∧ cores s' !! i = Some (g c) ∧
    (∀ j, j ≠ i → cores s' !! j = cores s !! j) ∧
    ∀ dev n, dev ≠ 0 → view s' dev n =
      if decide (dev = c_dev c ∧ n = c_blocknr c)
      then (if c_uptodate (g c) then Some (c_data (g c)) else dv_disk (drv s) dev n)
      else view s dev n.
Proof.
  intros Hinv Hf Hfg Hc Hbo Hco.
  destruct (step_upd s i f g c Hinv Hf Hfg Hc Hbo Hco) as (s' & Hu & Hrest).
  assert (Hi : (i < length (bufs s))%nat) by (apply lookup_lt_Some in Hc; by rewrite length_cores in Hc).
  assert (wp (upd_buf i f) (λ _ s', s' = put_bufs (alter f i (bufs s)) s) s) as ([]&s2&Hu2&->)%wp_exists
    by by apply wp_upd_buf.
  rewrite Hu in Hu2. injection Hu2 as ->. exact Hrest.
Qed.

Lemma brelse_contract s i c :
  cache_inv s → cores s !! i = Some c → 0 < c_count c →
  wp (brelse (Some i)) (λ _ s', stepped s s' i ∧ cores s' !! i = Some (c_dec c)) s.
Proof.
  intros Hinv Hc Hcnt. pose proof (co_buf _ (ci_cores _ Hinv) _ _ Hc) as Hbo.
  destruct (lookup_cores _ _ _ Hc) as (b & Hb & Hbc). unfold brelse.
  apply wp_bind. eapply wp_wait; [done| |].
  { change (b_lock b) with (c_lock (core_of b)). rewrite Hbc. apply Hbo. }
  apply wp_bind. eapply wp_the_buf; [done|].
  destruct (step_upd s i dec_count c_dec c) as (s' & Hu & Hinv' & Hup & Hdisk & Hcs & Hc' & Hoth & Hview); try done.
  { destruct Hbo. constructor; try done. cbn. apply u8_bound. }
  { intros Hd Hup Hdi. exact (ci_coherent _ Hinv i c Hc Hd Hup Hdi). }
  apply wp_bind. eapply wp_eq; [exact Hu|].
  replace (b_count b) with (c_count c) by (by rewrite <- Hbc).
  rewrite (proj2 (Z.eqb_neq _ _)) by lia. apply wp_ret. split; [|done]. constructor; try done.
  intros dev n Hdev. rewrite Hview by done. case_decide as Hk; [|done]. destruct Hk as [-> ->].
  by rewrite (view_hit s _ _ i c) by (done || by apply ci_cores).
Qed.

(** the driver has replaced a buffer by one in the same place of the queues *)
Lemma driver_alters s d' f fl i b : queues s None fl → keeps_place f → bufs s !! i = Some b →
  dv_bufs d' = <[i := f b]> (dv_bufs (drv s)) →
  let s' := set_drv d' s in
  queues s' None fl ∧ (∀ j, j ≠ i → cores s' !! j = cores s !! j) ∧ cores s' !! i = Some (core_of (f b)).
Proof.
  intros Hq Hfp Hb Hbufs s'. assert (Hbufs' : bufs s' = alter f i (bufs s)).
  { unfold s', bufs; cbn. rewrite Hbufs. apply list_eq. intros j. rewrite list_lookup_alter.
    destruct (decide (i = j)) as [<-|Hij].
    - rewrite list_lookup_insert_eq by (by eapply lookup_lt_Some). unfold bufs in Hb. by rewrite Hb.
    - by rewrite list_lookup_insert_ne. }
  split; [|split].
  - destruct (queues_alter s fl i f Hfp Hq) as [ch Hch]. exists ch. rewrite bufs_put in Hch. by rewrite Hbufs'.
  - intros j Hj. unfold cores. rewrite Hbufs', !list_lookup_fmap. by rewrite list_lookup_alter_ne.
  - apply cores_lookup. by rewrite Hbufs', list_lookup_alter, decide_True, Hb.
Qed.

(** reading a buffer that is not up to date *)
Lemma ll_rw_read s i c dev n :
  cache_inv s → cores s !! i = Some c → c_dev c = dev → c_blocknr c = n → block_range dev n →
  c_uptodate c = false →
  ∃ s', ll_rw READ i s = Ret tt s' ∧ cache_inv s' ∧ up s' = up s ∧
    dv_disk (drv s') = dv_disk (drv s) ∧
    (∀ j, j ≠ i → cores s' !! j = cores s !! j) ∧
    (∀ dev n, dev ≠ 0 → view s' dev n = view s dev n) ∧
    cores s' !! i = Some (match dv_disk (drv s) dev n with
      | Some x => mk_core x n dev true (c_dirt c) (c_count c) (c_lock c)
      | None => c end).
Proof.
  intros [Hok [fl Hq] Hco Hcoh] Hc Hd Hn [Hr0 Hr] Hup.
  pose proof (co_buf _ Hco _ _ Hc) as [Bl Bd Bdata Bcnt Bkey].
  destruct (lookup_cores _ _ _ Hc) as (b & Hb & Hbc).
  assert (Hdirt : c_dirt c = false) by (destruct (c_dirt c); [by rewrite Bd in Hup|done]).
  destruct (dv_read (drv s) i b READ Hok Hb) as (d' & Hrun & Hok' & Hdisk & Hbufs).
  { by rewrite <- Hbc in Bl. } { by rewrite <- Hbc in Hdirt. } { rewrite <- Hbc in Hd, Hn. cbn in Hd, Hn. by rewrite Hd, Hn. } { by left. }
  set (s' := set_drv d' s).
  set (f := λ b, read_result b (dv_disk (drv s) dev n)).
  assert (Hfp : keeps_place f).
  { intros b0. unfold f, read_result. destruct (b_uptodate b0); [done|]. by destruct (dv_disk (drv s) dev n). }
  destruct (driver_alters s d' f fl i b Hq Hfp Hb) as (Hq' & Hoth & Hc').
  { rewrite Hbufs. unfold f. rewrite <- Hbc in Hd, Hn. cbn in Hd, Hn. by rewrite Hd, Hn. }
  set (c' := match dv_disk (drv s) dev n with Some x => _ | None => c end).
  assert (Hfb : core_of (f b) = c').
  { unfold f, c', read_result. rewrite <- Hbc in Hup, Hd, Hn |- *. cbn in Hup, Hd, Hn. rewrite Hup.
    destruct (dv_disk (drv s) dev n); [|done]. unfold core_of. cbn. by rewrite Hd, Hn. }
  rewrite Hfb in Hc'. fold s' in Hc', Hoth, Hq'.
  assert (Hkey : c_dev c' = dev ∧ c_blocknr c' = n).
  { rewrite <- Hfb. destruct (Hfp b) as (E1 & E2 & _). cbn. rewrite E1, E2.
    rewrite <- Hbc in Hd, Hn. done. }
  destruct Hkey as [Hd' Hn'].
  assert (Hco' : cores_ok (cores s')).
  { assert (cores s' = alter (λ _, c') i (cores s)) as ->.
    { apply list_eq. intros j. rewrite list_lookup_alter. case_decide as E0; [subst j; by rewrite Hc', Hc|].
      by apply Hoth. }
    apply cores_ok_alter; [done| |]; intros c0 Hc0; rewrite Hc in Hc0; injection Hc0 as <-; [|split; congruence].
    unfold c'. destruct (dv_disk (drv s) dev n) as [x|] eqn:Ex; [|by constructor].
    constructor; cbn; try done; [|right; by split].
    by apply (dv_disk_block (drv s) dev n x). }
  assert (Hdisk' : dv_disk (drv s') = dv_disk (drv s)) by done.
  exists s'. split_and!; try done.
  - unfold ll_rw. by rewrite Hrun.
  - constructor; [done|by exists fl|done|]. intros j cj Hcj. rewrite Hdisk'.
    destruct (decide (j = i)) as [->|Hj]; [|rewrite Hoth in Hcj by done; by apply (Hcoh j)].
    rewrite Hc' in Hcj. injection Hcj as <-. intros _. rewrite Hd', Hn'. unfold c'.
    destruct (dv_disk (drv s) dev n); cbn; [done|congruence].
  - intros dev' n' Hdev. rewrite (view_alter s s' i c c') by (done || congruence). case_decide as Hk; [|done].
    destruct Hk as [-> ->]. rewrite (view_hit s _ _ i c) by done. rewrite Hup, Hd, Hn. unfold c'.
    destruct (dv_disk (drv s) dev n); cbn; [done|by rewrite Hup].
Qed.

(** what [bread] hands out: block [n] of [dev], or nothing if the disk cannot
    read it (the buffer that [getblk] gave it is released) *)
Theorem bread_contract sync s dev n :
  cache_inv s → block_range dev n → available (cores s) dev n →
  wp (bread sync dev n) (λ r s', ∃ i, stepped s s' i ∧
    match view s dev n with
    | Some x => r = Some i ∧ ∃ c c', cores s !! i = Some c ∧ cores s' !! i = Some c' ∧
        c' = mk_core x n dev true (c_dirt c') (c_count c') false ∧ handed_out (cores s) dev n i c c'
    | None => r = None ∧ ∃ c c', cores s !! i = Some c ∧ cores s' !! i = Some (c_dec c') ∧
        handed_out (cores s) dev n i c c'
    end) s.
Proof.
  intros Hinv Hr Hroom. unfold bread. apply wp_bind.
  eapply wp_mono; [by apply getblk_contract|].
  intros i s1 ([Hinv1 Hup1 Hdisk1 Hoth1 Hview1] & c & c1 & Hc & Hc1 & Hout & Hcase).
  pose proof (co_buf _ (ci_cores _ Hinv1) _ _ Hc1) as Hbo.
  destruct Hr as [Hr0 Hr].
  assert (Hkey : c_dev c1 = dev ∧ c_blocknr c1 = n).
  { destruct Hcase as [(? & ? & ->)|(_ & _ & ->)]; done. }
  destruct Hkey as [Hd1 Hn1].
  rewrite <- (Hview1 dev n) by lia. rewrite (view_hit s1 dev n i c1); [|by apply ci_cores|lia|done..].
  destruct (lookup_cores _ _ _ Hc1) as (b1 & Hb1 & Hbc1).
  apply wp_bind. eapply wp_the_buf; [done|].
  replace (b_uptodate b1) with (c_uptodate c1) by (by rewrite <- Hbc1).
  destruct (c_uptodate c1) eqn:Eu.
  { apply wp_ret. exists i. split; [by constructor|]. split; [done|]. exists c, c1.
    split_and!; try done. by destruct c1, Hbo; cbn in *; subst. }
  destruct (ll_rw_read s1 i c1 dev n) as (s2 & Hrun & Hinv2 & Hup2 & Hdisk2 & Hoth2 & Hview2 & Hc2); try done.
  apply wp_bind. eapply wp_eq; [exact Hrun|].
  set (c2 := match dv_disk (drv s1) dev n with Some x => _ | None => c1 end) in Hc2.
  destruct (lookup_cores _ _ _ Hc2) as (b2 & Hb2 & Hbc2).
  pose proof (co_buf _ (ci_cores _ Hinv2) _ _ Hc2) as Hbo2.
  apply wp_bind. eapply wp_wait; [done| |].
  { change (b_lock b2) with (c_lock (core_of b2)). rewrite Hbc2. apply Hbo2. }
  apply wp_bind. eapply wp_the_buf; [done|].
  replace (b_uptodate b2) with (c_uptodate c2) by (by rewrite <- Hbc2).
  assert (Hst2 : stepped s s2 i).
  { constructor; [done|congruence|congruence| |].
    - intros j Hj. by rewrite Hoth2, Hoth1.
    - intros dev' n' Hdev. by rewrite Hview2, Hview1. }
  unfold c2 in Hc2, Hbo2 |- *. destruct (dv_disk (drv s1) dev n) as [x|] eqn:Ex.
  - apply wp_ret. exists i. split; [done|]. split; [done|].
    eexists c, _. split; [done|]. split; [exact Hc2|]. cbn. split; [by rewrite (bo_lock _ Hbo)|exact Hout].
  - rewrite Eu. apply wp_bind. eapply wp_mono; [eapply (brelse_contract s2 i c1); try done|].
    { pose proof (bo_count _ (co_buf _ (ci_cores _ Hinv) _ _ Hc)). destruct Hout as [(? & ? & ? & ? & ?)|(? & ? & ? & ?)]; lia. }
    intros [] s3 [[Hinv3 Hup3 Hdisk3 Hoth3 Hview3] Hc3]. apply wp_ret. exists i. split; [|by split; [|exists c, c1]].
    destruct Hst2 as [? ? ? Ho Hv]. constructor; [done|congruence|congruence| |].
    + intros j Hj. by rewrite Hoth3, Ho.
    + intros dev' n' Hdev. by rewrite Hview3, Hv.
Qed.

(** *** Writing back *)
Definition c_clean (c : core) : core :=
  mk_core (c_data c) (c_blocknr c) (c_dev c) (c_uptodate c) false (c_count c) (c_lock c).

(** every dirty buffer has a place on the disk *)
Definition writable s : Prop := ∀ i c, cores s !! i = Some c → c_dirt c = true →
  c_dev c ≠ 0 ∧ is_Some (dv_disk (drv s) (c_dev c) (c_blocknr c)).

(** a dirty buffer goes to the disk: nothing is seen of it *)
Lemma view_cleaned s s' i c dev n : cores_ok (cores s) → cores_ok (cores s') → c_uptodate c = true →
  cores s !! i = Some c → cores s' !! i = Some (c_clean c) → (∀ j, j ≠ i → cores s' !! j = cores s !! j) →
  (∀ dev n, dv_disk (drv s') dev n = if decide (dev = c_dev c ∧ n = c_blocknr c) then Some (c_data c) else dv_disk (drv s) dev n) →
  dev ≠ 0 → view s' dev n = view s dev n.
Proof.
  intros Hco Hco' Hup Hc Hc' Hoth Hdisk' Hd0. destruct (decide (dev = c_dev c ∧ n = c_blocknr c)) as [[-> ->]|Hne].
  - rewrite (view_hit s' _ _ i (c_clean c)), (view_hit s _ _ i c) by done. cbn. by rewrite Hup.
  - assert (Hki : ∀ j, has_key (cores s') dev n j ↔ has_key (cores s) dev n j).
    { intros j. destruct (decide (j = i)) as [->|Hj].
      - split; intros (c0 & Hc0 & <- & <-); [rewrite Hc' in Hc0|rewrite Hc in Hc0]; injection Hc0 as <-;
          exfalso; apply Hne; by split.
      - unfold has_key. by rewrite Hoth. }
    destruct (key_dec (cores s) dev n) as [[j Hj]|Hno].
    + destruct Hj as (cj & Hcj & Hdj & Hnj). assert (j ≠ i).
      { intros ->. rewrite Hc in Hcj. injection Hcj as ->. apply Hne. by split. }
      rewrite (view_hit s _ _ j cj), (view_hit s' _ _ j cj); rewrite ?Hoth; try done.
      rewrite Hdisk', decide_False by done. done.
    + rewrite !view_miss; [by rewrite Hdisk', decide_False|done|]. intros j Hj%Hki. by destruct (Hno j).
Qed.

Lemma ll_rw_write s i c :
  cache_inv s → writable s → cores s !! i = Some c → c_dirt c = true →
  ∃ s', ll_rw WRITE i s = Ret tt s' ∧ cache_inv s' ∧ writable s' ∧ up s' = up s ∧
    cores s' = alter c_clean i (cores s) ∧
    (∀ dev n, dev ≠ 0 → view s' dev n = view s dev n).
Proof.
  intros [Hok [fl Hq] Hco Hcoh] Hw Hc Hdirt.
  pose proof (co_buf _ Hco _ _ Hc) as [Bl Bd Bdata Bcnt Bkey]. pose proof (Bd Hdirt) as Hup.
  destruct (Hw _ _ Hc Hdirt) as [Hdev Hsome]. destruct Bkey as [?|[Hpos Hr]]; [done|].
  destruct (lookup_cores _ _ _ Hc) as (b & Hb & Hbc).
  destruct (dv_write (drv s) i b Hok Hb) as (d' & Hrun & Hok' & Hbufs & Hdisk);
    [rewrite <- Hbc in *; done..|].
  set (s' := set_drv d' s).
  assert (Hfp : keeps_place write_result).
  { intros b0. unfold write_result. by destruct (b_dirt b0). }
  destruct (driver_alters s d' write_result fl i b Hq Hfp Hb Hbufs) as (Hq' & Hoth & Hc'). fold s' in Hc', Hoth, Hq'.
  assert (core_of (write_result b) = c_clean c) as Hcl.
  { rewrite <- Hbc in Hdirt, Hup |- *. unfold write_result. cbn in Hdirt, Hup. rewrite Hdirt.
    unfold core_of, c_clean. cbn. by rewrite Hup. }
  rewrite Hcl in Hc'.
  assert (Hcs : cores s' = alter c_clean i (cores s)).
  { apply list_eq. intros j. rewrite list_lookup_alter. destruct (decide (i = j)) as [<-|E0]; [by rewrite Hc', Hc|].
    by apply Hoth. }
  assert (Hdisk' : ∀ dev n, dv_disk (drv s') dev n =
     if decide (dev = c_dev c ∧ n = c_blocknr c) then Some (c_data c) else dv_disk (drv s) dev n).
  { intros dev n. cbn. rewrite Hdisk. rewrite <- Hbc in Hdirt |- *. cbn in Hdirt |- *.
    repeat case_decide; tauto. }
  assert (Hco' : cores_ok (cores s')).
  { rewrite Hcs. apply cores_ok_alter; [done| |done]. intros c0 Hc0. rewrite Hc in Hc0. injection Hc0 as <-.
    constructor; try done. right. by split. }
  exists s'. split; [unfold ll_rw; by rewrite Hrun|]. split_and!; try done.
  - constructor; [done|by exists fl|done|]. intros j cj Hcj Hdj Huj Hjd. rewrite Hdisk'.
    destruct (decide (j = i)) as [->|Hj].
    + rewrite Hc' in Hcj. injection Hcj as <-. by rewrite decide_True.
    + rewrite Hoth in Hcj by done. rewrite decide_False; [by apply (Hcoh j)|]. intros [E1 E2].
      apply Hj. eapply (co_uniq _ Hco (c_dev c) (c_blocknr c)); [done|by exists cj|by exists c].
  - intros j cj Hcj Hjd. rewrite Hdisk'. destruct (decide (j = i)) as [->|Hj].
    + rewrite Hc' in Hcj. by injection Hcj as <-.
    + rewrite Hoth in Hcj by done. destruct (Hw _ _ Hcj Hjd). split; [done|]. clear Hdisk'. by destruct (decide (c_dev cj = c_dev c ∧ c_blocknr cj = c_blocknr c)); [eexists|].
  - intros dev n Hd0. by apply (view_cleaned s s' i c).
Qed.

(** how a write-back pass may change a buffer *)
Definition flushed (c c' : core) : Prop := c' = c ∨ c' = c_clean c.

(** One pass of [sync_dev] writes every dirty buffer of the device: afterwards
    the disk holds what the cache shows. *)
Theorem sync_dev_pass_flushes s dev :
  cache_inv s → writable s → dev ≠ 0 →
  wp (sync_dev_pass dev) (λ _ s', cache_inv s' ∧ writable s' ∧ up s' = up s ∧
    Forall2 flushed (cores s) (cores s') ∧
    (∀ dev' n, dev' ≠ 0 → view s' dev' n = view s dev' n) ∧
    ∀ n, dv_disk (drv s') dev n = view s' dev n) s.
Proof.
  intros Hinv Hw Hdev. unfold sync_dev_pass. apply wp_bind, wp_gets. cbn beta.
  set (N := NR_BUFFERS s).
  apply wp_for_each with (I := λ l s', cache_inv s' ∧ writable s' ∧ up s' = up s ∧
    Forall2 flushed (cores s) (cores s') ∧
    (∀ dev' n, dev' ≠ 0 → view s' dev' n = view s dev' n) ∧
    (∀ i, i ∈ l → (i < N)%nat) ∧
    ∀ i c, cores s' !! i = Some c → c_dev c = dev → c_dirt c = true → i ∈ l).
  - split_and!; try done.
    + apply Forall_Forall2_diag, Forall_true. by left.
    + intros i ?%elem_of_seq. lia.
    + intros i c Hc _ _. apply elem_of_seq. apply lookup_lt_Some in Hc. rewrite length_cores in Hc.
      unfold N, NR_BUFFERS. lia.
  - intros i l s1 (Hinv1 & Hw1 & Hup1 & Hfl1 & Hv1 & Hlt1 & Hd1).
    assert (Hlen : length (bufs s1) = N).
    { rewrite <- length_cores. rewrite <- (Forall2_length _ _ _ Hfl1). apply length_cores. }
    destruct (lookup_lt_is_Some_2 (bufs s1) i) as [b Hb]; [rewrite Hlen; apply Hlt1; set_solver|].
    pose proof (cores_lookup _ _ _ Hb) as Hc.
    pose proof (co_buf _ (ci_cores _ Hinv1) _ _ Hc) as Hbo.
    assert (Hskip : ¬ (b_dev b = dev ∧ b_dirt b = true) →
      cache_inv s1 ∧ writable s1 ∧ up s1 = up s ∧ Forall2 flushed (cores s) (cores s1) ∧
      (∀ dev' n, dev' ≠ 0 → view s1 dev' n = view s dev' n) ∧
      (∀ i, i ∈ l → (i < N)%nat) ∧
      ∀ i c, cores s1 !! i = Some c → c_dev c = dev → c_dirt c = true → i ∈ l).
    { intros Hno. split_and!; try done; [intros; apply Hlt1; set_solver|].
      intros j c Hcj Hdj Hdirt. pose proof (Hd1 j c Hcj Hdj Hdirt) as [->|?]%elem_of_cons; [|done].
      rewrite Hc in Hcj. injection Hcj as <-. destruct Hno. by split. }
    apply wp_bind. eapply wp_the_buf; [done|]. destruct (Z.eqb_spec (b_dev b) dev) as [Hbd|Hbd]; cbn [negb].
    2:{ apply wp_ret, Hskip. tauto. }
    apply wp_bind. eapply wp_wait; [done|apply (bo_lock _ Hbo)|].
    apply wp_bind. eapply wp_the_buf; [done|]. rewrite Hbd, Z.eqb_refl. cbn [andb]. unfold when.
    destruct (b_dirt b) eqn:Ed; [|apply wp_ret, Hskip; intros [_ ?]; done].
    destruct (ll_rw_write s1 i _ Hinv1 Hw1 Hc Ed) as (s2 & Hrun & Hinv2 & Hw2 & Hup2 & Hcs2 & Hv2).
    eapply wp_eq; [exact Hrun|]. split_and!; try done.
    + congruence.
    + rewrite Hcs2. apply Forall2_lookup. intros j. rewrite list_lookup_alter.
      destruct (decide (i = j)) as [<-|E0]; [|by apply Forall2_lookup].
      pose proof (proj1 (Forall2_lookup _ _ _) Hfl1 i) as Hji. rewrite Hc in Hji |- *. cbn.
      inversion Hji as [c0 c1 Hf1 E1 E2|]; subst. constructor. destruct Hf1 as [->| ->]; by right.
    + intros dev' n Hd'. rewrite Hv2 by done. by apply Hv1.
    + intros; apply Hlt1; set_solver.
    + intros j c Hcj Hdj Hdirt. rewrite Hcs2, list_lookup_alter in Hcj. destruct (decide (i = j)) as [<-|E0].
      * rewrite Hc in Hcj. by injection Hcj as <-.
      * pose proof (Hd1 j c Hcj Hdj Hdirt) as [?|?]%elem_of_cons; [congruence|done].
  - intros s1 (Hinv1 & Hw1 & Hup1 & Hfl1 & Hv1 & Hlt1 & Hd1). split_and!; try done.
    intros n. destruct (key_dec (cores s1) dev n) as [[j (c & Hc & Hd & Hn)]|Hno]; [|by rewrite view_miss].
    rewrite (view_hit s1 dev n j c) by (done || by apply ci_cores).
    destruct (c_uptodate c) eqn:Eu; [|done]. subst. apply (ci_coherent _ Hinv1 j); try done.
    destruct (c_dirt c) eqn:Ed; [|done]. pose proof (Hd1 j c Hc eq_refl Ed). set_solver.
Qed.

(** *** [buffer_init] *)
Lemma last_seq n : (0 < n)%nat → last (seq 0 n) = Some (n - 1)%nat.
Proof. intros. rewrite last_lookup, length_seq. rewrite lookup_seq_lt by lia. f_equal. lia. Qed.

Lemma buffer_init_run s contents start_buffer buffer_end :
  dv_ok (drv s) → (∀ a, length (contents a) = 1024%nat) →
  (2 ≤ length (buffer_addrs start_buffer buffer_end))%nat →
  wp (buffer_init contents start_buffer buffer_end) (λ _ s',
    cache_inv s' ∧ length (bufs s') = length (buffer_addrs start_buffer buffer_end) ∧
    (∀ i, (i < length (bufs s'))%nat → clean_at (cores s') i = true) ∧
    up s' = up s ∧ dv_disk (drv s') = dv_disk (drv s) ∧
    (∀ dev n i, dev ≠ 0 → ¬ has_key (cores s') dev n i)) s.
Proof.
  intros Hok Hcont. unfold buffer_init. set (addrs := buffer_addrs _ _). set (n := length addrs). intros Hn.
  apply wp_bind, wp_modify, wp_bind, wp_modify, wp_modify.
  set (s' := set_hash_table _ _). set (l := imap (λ i a, init_head n i (contents a)) addrs).
  assert (Hb : bufs s' = l) by (unfold s', bufs; cbn; apply dv_bufs_set).
  assert (Hlen : length l = n) by (unfold l; by rewrite length_imap).
  assert (Hl : ∀ i, (i < n)%nat → ∃ a, l !! i = Some (init_head n i (contents a))).
  { intros i Hi. destruct (lookup_lt_is_Some_2 addrs i Hi) as [a Ha]. exists a.
    unfold l. by rewrite list_lookup_imap, Ha. }
  assert (Hl' : ∀ i b, l !! i = Some b → ∃ a, b = init_head n i (contents a)).
  { intros i b Hi. destruct (Hl i) as [a Ha]; [rewrite <- Hlen; by eapply lookup_lt_Some|].
    exists a. congruence. }
  assert (Hc : ∀ i c, cores s' !! i = Some c → ∃ a, c = mk_core (contents a) 0 0 false false 0 false).
  { intros i c (b & Hb' & <-)%lookup_cores. rewrite Hb in Hb'. apply Hl' in Hb' as [a ->]. by exists a. }
  assert (Hseq : head (seq 0 n) = Some 0%nat) by (destruct n; [lia|done]).
  assert (Hno : ∀ dev k i, dev ≠ 0 → ¬ has_key (cores s') dev k i).
  { intros dev k i Hd (c & [a ->]%Hc & E1 & _). cbn in E1. congruence. }
  assert (Hdisk : dv_disk (drv s') = dv_disk (drv s)) by (cbn; apply dv_disk_set).
  split_and!; [constructor| | | | |]; try done.
  - by apply dv_ok_set.
  - exists (seq 0 n), (λ _, []). rewrite Hb. constructor; rewrite ?Hlen; try done.
    + cbn. by rewrite app_nil_r.
    + intros k i Hk. apply lookup_seq in Hk as [-> Hk]. cbn. unfold link.
      destruct (Hl k Hk) as [a ->]. cbn. rewrite last_seq, Hseq by lia. split.
      * destruct k; cbn; [done|]. rewrite ?decide_False by lia. rewrite lookup_seq_lt by lia. f_equal. lia.
      * destruct (decide (k = (n - 1)%nat)) as [E0|E0];
          [rewrite (lookup_ge_None_2 (seq 0 n)) by (rewrite length_seq; lia); done|].
        rewrite lookup_seq_lt by lia. f_equal. lia.
    + intros h Hh. apply NoDup_nil_2.
    + intros h Hh. cbn. by rewrite lookup_replicate_2.
    + intros h i Hh. split; [set_solver|]. intros (_ & b & Hb' & Hd & _).
      apply Hl' in Hb' as [a ->]. by destruct Hd.
    + intros i b _ Hb' _. by apply Hl' in Hb' as [a ->].
  - constructor.
    + rewrite length_cores, Hb. lia.
    + intros i c [a ->]%Hc. constructor; cbn; try done. by left.
    + intros dev k i j Hd Hi. by apply Hno in Hi.
  - intros i c [a ->]%Hc. done.
  - by rewrite Hb.
  - intros i Hi. rewrite Hb, Hlen in Hi. unfold clean_at, cores. rewrite Hb, list_lookup_fmap.
    by destruct (Hl i Hi) as [a ->].
Qed.
End cache.

(** ** A cache to try things on: thirteen buffers over a RAM disk of 8 blocks *)
Definition demo_disk : blk :=
  mk_blk [] (replicate NR_REQUEST (mk_req (-1) 0 0 0 0 None 0 None None)) (replicate 7 None)
    (<[1%nat := Some do_rd_request_fn]> (replicate 7 None)) 0x400000 8192 (replicate 8192 7).
Definition demo_start {E} (e : E) : bstate blk E := mk_bst demo_disk [] None None e.
Definition demo_cache {E} (e : E) : bstate blk E :=
  match buffer_init (λ _, replicate 1024 0) 0 14000 (demo_start e) with Ret _ s => s | _ => demo_start e end.

Lemma demo_disk_ok : rd_ok demo_disk.
Proof.
  constructor; try (vm_compute; done).
  - by apply Forall_replicate.
  - intros m Hm. do 7 (destruct m as [|m]; [by (left + contradiction)|]). by right.
Qed.

Section demo.
Context {E : Type} (e : E).
Lemma demo_start_ok : dv_ok (drv (demo_start e)).
Proof. exact demo_disk_ok. Qed.

Lemma demo_addrs : (2 ≤ length (buffer_addrs 0 14000))%nat.
Proof. vm_compute. lia. Qed.

Lemma demo_cache_ok :
  cache_inv (demo_cache e) ∧ length (bufs (demo_cache e)) = 13%nat ∧
  (∀ i, (i < 13)%nat → clean_at (cores (demo_cache e)) i = true) ∧
  (∀ dev n i, dev ≠ 0 → ¬ has_key (cores (demo_cache e)) dev n i) ∧
  rd_disk (drv (demo_cache e)) = rd_disk demo_disk ∧ up (demo_cache e) = e.
Proof.
  destruct (proj1 (wp_exists _ _ _) (buffer_init_run (demo_start e) (λ _, replicate 1024 0) 0 14000
     demo_start_ok (λ _, length_replicate 1024 0) demo_addrs)) as ([] & s & Hs & Hinv & Hlen & Hcl & Hup & Hd & Hno).
  assert (demo_cache e = s) as -> by (unfold demo_cache; by rewrite Hs).
  assert (length (bufs s) = 13%nat) as Hl by (rewrite Hlen; reflexivity).
  rewrite Hl in Hcl. done.
Qed.

Lemma demo_room : room (cores (demo_cache e)).
Proof. exists 0%nat. apply demo_cache_ok. lia. Qed.
Lemma demo_range : block_range 0x101 3.
Proof. unfold block_range, dev_range. lia. Qed.
Lemma demo_available : available (cores (demo_cache e)) 0x101 3.
Proof. right. split; [intros i; by apply demo_cache_ok|exact demo_room]. Qed.

Lemma clean_lookup cs i c : clean_at cs i = true → cs !! i = Some c → c_dirt c = false.
Proof.
  intros Hcl Hc. destruct (lookup_clean _ _ Hcl) as (c' & Hc' & _ & Hd). rewrite Hc in Hc'.
  by injection Hc' as ->.
Qed.
Lemma demo_writable : writable (demo_cache e).
Proof.
  intros i c Hc Hd. destruct demo_cache_ok as (_ & Hlen & Hcl & _).
  assert (i < 13)%nat as Hi by (rewrite <- Hlen, <- length_cores; by eapply lookup_lt_Some).
  pose proof (clean_lookup _ _ _ (Hcl i Hi) Hc) as Hno. rewrite Hno in Hd. discriminate Hd.
Qed.
End demo.

(** ** Properties *)
Section properties.
Context {D E : Type} `{BlockDriverOk D}.
Abbreviation st := (bstate D E).

(** C1. [getblk] finds the buffer of a cached block and adds a user to it;
    for a block that is not cached it takes the least recently used buffer
    that is free and clean, gives it the block's identity (not up to date,
    one user) and moves it to the end of the free list.  No other buffer
    changes, and the hash queues and the free list stay well formed. *)
Theorem getblk_takes_lru (sync : M st unit) (s : st) (fl : list nat) (dev n : Z) :
  cache_inv s → queues s None fl → block_range dev n →
  (∃ i, has_key (cores s) dev n i) ∨ room (cores s) →
  wp (getblk sync dev n) (λ i s', ∃ fl', queues s' None fl' ∧ same_env s s' ∧
    (has_key (cores s) dev n i ∧ cores s' = alter c_inc i (cores s) ∧ fl' = fl ∨
     (∀ j, ¬ has_key (cores s) dev n j) ∧ victim (cores s) fl = Some i ∧
     cores s' = alter (c_fresh dev n) i (cores s) ∧ fl' = drop_elem i fl ++ [i])) s.
Proof.
  intros [Hok _ Hco _] Hq Hr Hroom. eapply wp_mono; [by apply getblk_run|].
  intros i s' (fl' & Hres & _ & Hq' & _ & He). by exists fl'.
Qed.

(** C2. [bread] returns a buffer holding the current contents of the block
    (what the cache has, else what the disk has), or NULL when the disk
    cannot read it.  No block changes its contents, only the buffer
    returned changes, and the cache invariant is preserved. *)
Theorem bread_reads_block (sync : M st unit) (s : st) (dev n : Z) :
  cache_inv s → block_range dev n → available (cores s) dev n →
  wp (bread sync dev n) (λ r s', cache_inv s' ∧ up s' = up s ∧
    dv_disk (drv s') = dv_disk (drv s) ∧
    (∀ dev' n', dev' ≠ 0 → view s' dev' n' = view s dev' n') ∧
    match view s dev n with
    | Some x => ∃ i c, r = Some i ∧ cores s' !! i = Some c ∧ c_dev c = dev ∧ c_blocknr c = n ∧
        c_uptodate c = true ∧ c_data c = x ∧ 0 < c_count c ∧
        ∀ j, j ≠ i → cores s' !! j = cores s !! j
    | None => r = None
    end) s.
Proof.
  intros Hinv Hr Hav. eapply wp_mono; [by apply bread_contract|].
  intros r s' (i & [Hinv' Hup Hd Hoth Hview] & Hres). split_and!; try done.
  destruct (view s dev n) as [x|]; [|by destruct Hres].
  destruct Hres as (-> & c & c' & Hc & Hc' & Hc1 & Hout). exists i, c'. rewrite Hc1. cbn.
  split_and!; try done; [by rewrite <- Hc1|].
  pose proof (bo_count _ (co_buf _ (ci_cores _ Hinv) _ _ Hc)).
  destruct Hout as [(? & ? & ? & ? & ?)|(? & ? & ? & ?)]; lia.
Qed.


(** C14. [buffer_init] builds a consistent cache: every buffer it made is free
    and clean, no block is cached, and every block reads from the disk. *)
Theorem buffer_init_correct (s : st) (contents : Z → bytes) (start_buffer buffer_end : Z) :
  dv_ok (drv s) → (∀ a, length (contents a) = 1024%nat) →
  (2 ≤ length (buffer_addrs start_buffer buffer_end))%nat →
  wp (buffer_init contents start_buffer buffer_end) (λ _ s',
    cache_inv s' ∧ length (bufs s') = length (buffer_addrs start_buffer buffer_end) ∧
    (∀ i, (i < length (bufs s'))%nat → clean_at (cores s') i = true) ∧
    (∀ dev n, dev ≠ 0 → view s' dev n = dv_disk (drv s) dev n)) s.
Proof.
  intros Hok Hc Hn. eapply wp_mono; [by apply buffer_init_run|].
  intros [] s' (? & ? & ? & ? & Hd & Hno). split_and!; try done.
  intros dev n Hdev. rewrite view_miss by auto. by rewrite Hd.
Qed.
End properties.

Lemma getblk_takes_lru_witness :
  ∃ fl, queues (demo_cache tt) None fl ∧
  wp (getblk (mret tt) 0x101 3) (λ i s', ∃ fl', queues s' None fl' ∧ same_env (demo_cache tt) s' ∧
      (has_key (cores (demo_cache tt)) 0x101 3 i ∧ cores s' = alter c_inc i (cores (demo_cache tt)) ∧ fl' = fl ∨
       (∀ j, ¬ has_key (cores (demo_cache tt)) 0x101 3 j) ∧ victim (cores (demo_cache tt)) fl = Some i ∧
       cores s' = alter (c_fresh 0x101 3) i (cores (demo_cache tt)) ∧ fl' = drop_elem i fl ++ [i])) (demo_cache tt).
Proof.
  destruct (demo_cache_ok tt) as [Hinv _]. destruct (ci_queues _ Hinv) as [fl Hq]. exists fl. split; [exact Hq|].
  apply (getblk_takes_lru (mret tt) (demo_cache tt) fl 0x101 3 Hinv Hq demo_range).
  right. exact (demo_room tt).
Defined.

Lemma bread_reads_block_witness :
  wp (bread (mret tt) 0x101 3) (λ r s', cache_inv s' ∧ up s' = up (demo_cache tt) ∧
      dv_disk (drv s') = dv_disk (drv (demo_cache tt)) ∧
      (∀ dev' n', dev' ≠ 0 → view s' dev' n' = view (demo_cache tt) dev' n') ∧
      match view (demo_cache tt) 0x101 3 with
      | Some x => ∃ i c, r = Some i ∧ cores s' !! i = Some c ∧ c_dev c = 0x101 ∧ c_blocknr c = 3 ∧
          c_uptodate c = true ∧ c_data c = x ∧ 0 < c_count c ∧
          ∀ j, j ≠ i → cores s' !! j = cores (demo_cache tt) !! j
      | None => r = None
      end) (demo_cache tt) ∧ view (demo_cache tt) 0x101 3 = Some (replicate 1024 7).
Proof.
  split; [|vm_compute; reflexivity].
  apply (bread_reads_block (mret tt) (demo_cache tt) 0x101 3); [apply (demo_cache_ok tt)|exact demo_range|exact (demo_available tt)].
Defined.


Lemma buffer_init_correct_witness :
  wp (buffer_init (λ _, replicate 1024 0) 0 14000) (λ _ s',
      cache_inv s' ∧ length (bufs s') = length (buffer_addrs 0 14000) ∧
      (∀ i, (i < length (bufs s'))%nat → clean_at (cores s') i = true) ∧
      (∀ dev n, dev ≠ 0 → view s' dev n = dv_disk (drv (demo_start tt)) dev n)) (demo_start tt).
Proof.
  apply (buffer_init_correct (demo_start tt) (λ _, replicate 1024 0) 0 14000);
    [exact (demo_start_ok tt)|intros; apply length_replicate|exact demo_addrs].
Defined.
