(* ===== verification/CacheView.v ===== *)
(** * Reading blocks through the cache

    What a function that reads blocks, each with a [bread] and a [brelse],
    needs to know of the cache: a [calm] state, in which no block is out of
    reach, and the contents of the blocks ([view]). *)
From S2P Require Import Prelude Blk DList Buffer BufferQueues BufferCache.

Section cache_view.
Context {D E : Type} `{BlockDriverOk D}.
Abbreviation st := (bstate D E).
Implicit Types (s : st).

(** no one is in the way: some buffer can be taken over, and no count is about
    to overflow *)
Record calm s : Prop := {
  cm_inv : cache_inv s;
  cm_room : room (cores s);
  cm_count i c : cores s !! i = Some c → c_count c < 255
}.

Definition same_view s s' : Prop := ∀ dev n, dev ≠ 0 → view s' dev n = view s dev n.
#[export] Instance same_view_refl : Reflexive same_view.
Proof. intros s dev n _. reflexivity. Qed.
#[export] Instance same_view_trans : Transitive same_view.
Proof. intros s1 s2 s3 H1 H2 dev n Hd. by rewrite H2, H1. Qed.

(** buffer [bh] is in use for block [n] of [dev], whose contents are [d]; to
    release it makes the state calm *)
Record held s (bh : nat) (dev n : Z) (d : bytes) : Prop := {
  hd_inv : cache_inv s;
  hd_core : ∃ c, cores s !! bh = Some c ∧ c_data c = d ∧ c_dev c = dev ∧ c_blocknr c = n ∧ c_uptodate c = true ∧
    1 ≤ c_count c ≤ 255 ∧
    (c_count c = 1 ∧ c_dirt c = false ∨ ∃ v, v ≠ bh ∧ clean_at (cores s) v = true);
  hd_others j c : j ≠ bh → cores s !! j = Some c → c_count c < 255
}.

Lemma calm_available s dev n : calm s → available (cores s) dev n.
Proof.
  intros [Hinv Hroom Hcnt]. destruct (key_dec (cores s) dev n) as [[i (c & Hc & Hd & Hn)]|Hno]; [left|by right].
  exists i, c. split_and!; try done. by eapply Hcnt.
Qed.

(** nothing has happened but to the cache: nothing above it has changed, and
    every block has the contents it had *)
Record quiet s s' : Prop := {
  qt_calm : calm s';
  qt_up : up s' = up s;
  qt_view : same_view s s'
}.
Lemma quiet_refl s : calm s → quiet s s.
Proof. by constructor. Qed.
Lemma quiet_trans s1 s2 s3 : quiet s1 s2 → quiet s2 s3 → quiet s1 s3.
Proof. intros [_ H1 H2] [H3 H4 H5]. constructor; [done|congruence|by etransitivity]. Qed.

Lemma clean_stays s s' i c c' v dev n :
  (∀ j, j ≠ i → cores s' !! j = cores s !! j) → cores s !! i = Some c → 0 ≤ c_count c →
  handed_out (cores s) dev n i c c' → clean_at (cores s) v = true →
  c_count c' = 1 ∧ c_dirt c' = false ∨ ∃ w, w ≠ i ∧ clean_at (cores s') w = true.
Proof.
  intros Hoth Hc Hc0 Hout Hv.
  destruct Hout as [(_ & _ & Hlt & Hcn & Hdi)|(_ & _ & Hcn & Hdi)]; [|by left].
  destruct (decide (v = i)) as [->|Hne]; [left|right; exists v; split; [done|unfold clean_at; by rewrite Hoth]].
  destruct (lookup_clean _ _ Hv) as (c0 & Hc0' & Hz & Hd0). rewrite Hc in Hc0'. injection Hc0' as <-.
  split; [lia|by rewrite Hdi].
Qed.

Lemma bread_calm sync s dev n :
  calm s → block_range dev n →
  wp (bread sync dev n) (λ p s', up s' = up s ∧ same_view s s' ∧
    match view s dev n with
    | Some d => ∃ bh, p = Some bh ∧ held s' bh dev n d
    | None => p = None ∧ calm s'
    end) s.
Proof.
  intros Hcalm Hr. pose proof Hcalm as [Hinv [v Hroom] Hcnt].
  eapply wp_mono; [apply bread_contract; [done|done|by apply calm_available]|].
  intros p s' (i & [Hinv' Hup _ Hoth Hview] & Hres). split; [done|]. split; [done|].
  destruct (view s dev n) as [d|].
  - destruct Hres as (-> & c & c' & Hc & Hc' & Hcv & Hout). exists i. split; [done|].
    pose proof (bo_count _ (co_buf _ (ci_cores _ Hinv) _ _ Hc)) as Hc0.
    constructor; [done| |].
    + exists c'. rewrite Hcv. cbn. split; [by rewrite <- Hcv|]. do 4 (split; [done|]). split; [|exact (clean_stays _ _ _ _ _ _ _ _ Hoth Hc (proj1 Hc0) Hout Hroom)].
      destruct Hout as [(_ & _ & Hlt & Hcn & Hdi)|(_ & _ & Hcn & Hdi)]; lia.
    + intros j cj Hj Hcj. rewrite Hoth in Hcj by done. by eapply Hcnt.
  - destruct Hres as (-> & c & c' & Hc & Hc' & Hout). split; [done|].
    pose proof (bo_count _ (co_buf _ (ci_cores _ Hinv) _ _ Hc)) as Hc0.
    pose proof (co_buf _ (ci_cores _ Hinv') _ _ Hc') as Hbo'.
    assert (Hc1 : u8 (c_count c' - 1) = c_count c' - 1 ∧ c_count c' - 1 < 255).
    { destruct Hout as [(_ & _ & Hlt & Hcn & Hdi)|(_ & _ & Hcn & Hdi)]; rewrite Hcn, u8_id; lia. }
    destruct Hc1 as [Hu Hlt]. constructor; [done| |].
    + destruct (clean_stays _ _ _ _ _ _ _ _ Hoth Hc (proj1 Hc0) Hout Hroom) as [[H1 H2]|(w & _ & Hw)]; [|by exists w].
      exists i. unfold clean_at. rewrite Hc'. unfold is_clean. pose proof (bo_lock _ Hbo') as Hl.
      unfold c_dec, c_set_count in Hl |- *. cbn in Hl |- *. by rewrite H1, H2, Hl.
    + intros j cj Hcj. destruct (decide (j = i)) as [->|Hj]; [|rewrite Hoth in Hcj by done; by eapply Hcnt].
      rewrite Hc' in Hcj. injection Hcj as <-. cbn. lia.
Qed.

Lemma view_length s dev n d : calm s → view s dev n = Some d → length d = 1024%nat.
Proof.
  intros [[Hok _ Hco _] _ _]. unfold view.
  destruct (find_idx (key_eqb dev n) (cores s)) as [i|]; cbn; [|by apply dv_disk_block].
  destruct (cores s !! i) as [c|] eqn:Hc; [|by apply dv_disk_block].
  destruct (c_uptodate c); [|by apply dv_disk_block]. intros [= <-]. by apply (bo_data _ (co_buf _ Hco _ _ Hc)).
Qed.

Lemma brelse_held s bh dev n d : held s bh dev n d →
  wp (brelse (Some bh)) (λ _ s', calm s' ∧ up s' = up s ∧ same_view s s') s.
Proof.
  intros [Hinv (c & Hc & Hcd & Hdev & Hn & Hupt & Hcnt & Hroom) Hoth].
  pose proof (co_buf _ (ci_cores _ Hinv) _ _ Hc) as Hbo.
  eapply wp_mono; [by eapply brelse_contract; [done|done|lia]|].
  intros [] s' [[Hinv' Hup _ Hoth' Hview] Hc']. split; [|done]. constructor; [done| |].
  - destruct Hroom as [[H1 H2]|(v & Hv & Hcl)].
    + exists bh. unfold clean_at. rewrite Hc'. unfold is_clean, c_dec, c_set_count. cbn.
      rewrite H1, H2, (bo_lock _ Hbo). done.
    + exists v. unfold clean_at. by rewrite Hoth'.
  - intros j cj Hcj. destruct (decide (j = bh)) as [->|Hj].
    + rewrite Hc' in Hcj. injection Hcj as <-. cbn. rewrite u8_id by lia. lia.
    + rewrite Hoth' in Hcj by done. by eapply Hoth.
Qed.

Lemma wp_the_held s bh dev n d (Q : buffer_head → st → Prop) :
  held s bh dev n d → (∀ b, b_data b = d → Q b s) → wp (the_buf bh) Q s.
Proof.
  intros [_ (c & Hc & Hcd & _)] HQ. destruct (lookup_cores _ _ _ Hc) as (b & Hb & Hbc).
  eapply wp_the_buf; [done|]. apply HQ. by rewrite <- Hcd, <- Hbc.
Qed.

(** the two rules of a function that reads a block *)
Lemma wp_bread {A} sync s dev n (k : ptr → M st A) Q :
  calm s → block_range dev n →
  (∀ s', view s dev n = None → quiet s s' → wp (k None) Q s') →
  (∀ s' bh d, view s dev n = Some d → held s' bh dev n d → up s' = up s → same_view s s' →
     wp (k (Some bh)) Q s') →
  wp (bread sync dev n ≫= k) Q s.
Proof.
  intros Hc Hr Hno Hyes. apply wp_bind. eapply wp_mono; [by apply bread_calm|].
  intros p s' (Hup & Hv & Hres). destruct (view s dev n) as [d|].
  - destruct Hres as (bh & -> & Hh). by eapply Hyes.
  - destruct Hres as [-> Hc']. by apply Hno.
Qed.

Lemma wp_brelse s0 s bh dev n d (Q : unit → st → Prop) :
  held s bh dev n d → up s = up s0 → same_view s0 s → (∀ s', quiet s0 s' → Q tt s') →
  wp (brelse (Some bh)) Q s.
Proof.
  intros Hh Hup Hv HQ. eapply wp_mono; [by eapply brelse_held|].
  intros [] s' (Hc' & Hup' & Hv'). apply HQ. constructor; [done|congruence|by etransitivity].
Qed.

(** what is above the cache does not matter to it *)
Lemma cache_inv_up k s : cache_inv s → cache_inv (set_up k s).
Proof. intros [H1 H2 H3 H4]. by constructor. Qed.
Lemma calm_up k s : calm s → calm (set_up k s).
Proof. intros [H1 H2 H3]. constructor; [by apply cache_inv_up|done|done]. Qed.
Lemma held_up k s bh dev n d : held s bh dev n d → held (set_up k s) bh dev n d.
Proof. intros [H1 H2 H3]. constructor; [by apply cache_inv_up|done|done]. Qed.
Lemma same_view_up k s : same_view s (set_up k s).
Proof. intros dev n _. reflexivity. Qed.
End cache_view.

#[export] Hint Resolve calm_up held_up same_view_up : kernel.
