(* ===== verification/Memory.v ===== *)
(** * Physical pages and page tables

    Models [linux-0.11/mm/memory.c]: the map of reference counts of the pages
    above 1 MB, the page tables (which live in physical memory themselves, the
    page directory at address 0), sharing on fork and copying on write.

    Physical memory is a function from addresses to bytes.  [do_no_page] needs
    the file system and is not in this file.  [invalidate] flushes the
    processor's cache of translations, which the model does not have. *)

From S2P Require Import Prelude.

(** ** Constants of memory.c *)
Definition LOW_MEM : Z := 0x100000.
Definition PAGING_MEMORY : Z := 15 * 1024 * 1024.
Definition PAGING_PAGES : Z := Z.shiftr PAGING_MEMORY 12.
Definition MAP_NR (addr : Z) : Z := Z.shiftr (u32 (addr - LOW_MEM)) 12.
Definition USED : Z := 100.
Definition PAGE_SIZE : Z := 4096.
Definition SIGSEGV : Z := 11.

(** ** State *)
Record mem := mk_mem {
  mem_map : list Z;        (* unsigned char [PAGING_PAGES] *)
  HIGH_MEMORY : Z;
  phys : Z → Z             (* the bytes of physical memory *)
}.
Definition set_mem_map (v : list Z) (x : mem) : mem := mk_mem v (HIGH_MEMORY x) (phys x).
Definition set_HIGH_MEMORY (v : Z) (x : mem) : mem := mk_mem (mem_map x) v (phys x).
Definition set_phys (v : Z → Z) (x : mem) : mem := mk_mem (mem_map x) (HIGH_MEMORY x) v.

(** an [unsigned long] in memory *)
Definition rd32 (p : Z → Z) (a : Z) : Z :=
  p a + 2 ^ 8 * p (a + 1) + 2 ^ 16 * p (a + 2) + 2 ^ 24 * p (a + 3).
Definition wr32 (a v : Z) (p : Z → Z) : Z → Z := λ x,
  if (a <=? x) && (x <? a + 4) then Z.shiftr v (8 * (x - a)) mod 256 else p x.

Definition load (a : Z) : M mem Z := gets (λ s, rd32 (phys s) a).
Definition store (a v : Z) : M mem unit := modify (λ s, set_phys (wr32 a v (phys s)) s).

(** [mem_map[i]], an index outside of the array being a [Fault] *)
Definition get_map (i : Z) : M mem Z := λ s,
  if i <? 0 then Fault else of_opt (mem_map s !! Z.to_nat i) s.
Definition put_map (i v : Z) : M mem unit := λ s,
  if (i <? 0) || (Z.of_nat (length (mem_map s)) <=? i) then Fault
  else Ret tt (set_mem_map (<[Z.to_nat i := u8 v]> (mem_map s)) s).

(** the macro [copy_page] *)
Definition copy_page (from to : Z) (p : Z → Z) : Z → Z := λ x,
  if (to <=? x) && (x <? to + 4096) then p (from + (x - to)) else p x.
Definition clear_page (a : Z) (p : Z → Z) : Z → Z := λ x,
  if (a <=? x) && (x <? a + 4096) then 0 else p x.

(** [n] bytes of memory from [a] on, and storing bytes there *)
Definition mem_bytes (p : Z → Z) (a : Z) (n : nat) : bytes := (λ k, p (a + Z.of_nat k)) <$> seq 0 n.
Definition mem_write (a : Z) (d : bytes) (p : Z → Z) : Z → Z := λ x,
  if (a <=? x) && (x <? a + Z.of_nat (length d)) then d !!! Z.to_nat (x - a) else p x.

Definition oom {A} : M mem A := exit_task SIGSEGV.

(** ** Allocation *)

(** [repne scasb] downwards from the end of [mem_map]: the last free page
    among the first [n] *)
Fixpoint scan_down (n : nat) (l : list Z) : option nat :=
  match n with
  | O => None
  | S n' => match l !! n' with
            | Some 0 => Some n'
            | _ => scan_down n' l
            end
  end.

Definition get_free_page : M mem Z := λ s,
  match scan_down (Z.to_nat PAGING_PAGES) (mem_map s) with
  | None => Ret 0 s
  | Some i =>
    let a := LOW_MEM + Z.shiftl (Z.of_nat i) 12 in
    Ret a (set_phys (clear_page a (phys s)) (set_mem_map (<[i := 1]> (mem_map s)) s))
  end.

Definition free_page (addr : Z) : M mem unit :=
  if addr <? LOW_MEM then mret tt
  else
    hi ← gets HIGH_MEMORY;
    if hi <=? addr then panic "trying to free nonexistent page"
    else
      let i := MAP_NR addr in
      c ← get_map i;
      put_map i (c - 1) ;;
      if negb (c =? 0) then mret tt
      else put_map i 0 ;; panic "trying to free free page".

(** ** Page tables *)

Definition page_of (e : Z) : Z := Z.land 0xfffff000 e.
Definition present (e : Z) : bool := Z.testbit e 0.

(** the inner loop of [free_page_tables]: [n] entries from [pg_table] on *)
Fixpoint free_table (n : nat) (pg_table : Z) : M mem unit :=
  match n with
  | O => mret tt
  | S n' =>
    e ← load pg_table;
    when (present e) (free_page (page_of e)) ;;
    store pg_table 0 ;;
    free_table n' (pg_table + 4)
  end.

Fixpoint free_dirs (n : nat) (dir : Z) : M mem unit :=
  match n with
  | O => mret tt
  | S n' =>
    e ← load dir;
    when (present e)
      (free_table 1024 (page_of e) ;;
       e ← load dir;
       free_page (page_of e) ;;
       store dir 0) ;;
    free_dirs n' (dir + 4)
  end.

Definition free_page_tables (from size : Z) : M mem Z :=
  if negb (Z.land from 0x3fffff =? 0) then panic "free_page_tables called with wrong alignment"
  else if from =? 0 then panic "Trying to free up swapper memory space"
  else
    let size := Z.shiftr (u32 (size + 0x3fffff)) 22 in
    let dir := Z.land (Z.shiftr from 20) 0xffc in
    free_dirs (Z.to_nat size) dir ;;
    mret 0.

(** the inner loop of [copy_page_tables]: [n] entries *)
Fixpoint copy_table (n : nat) (from_page_table to_page_table : Z) : M mem unit :=
  match n with
  | O => mret tt
  | S n' =>
    this_page ← load from_page_table;
    when (present this_page)
      (let this_page := Z.land this_page (Z.lnot 2) in
       store to_page_table this_page ;;
       when (LOW_MEM <? this_page)
         (store from_page_table this_page ;;
          c ← get_map (MAP_NR this_page);
          put_map (MAP_NR this_page) (c + 1))) ;;
    copy_table n' (from_page_table + 4) (to_page_table + 4)
  end.

Fixpoint copy_dirs (n : nat) (from from_dir to_dir : Z) : M mem Z :=
  match n with
  | O => mret 0
  | S n' =>
    t ← load to_dir;
    if present t then panic "copy_page_tables: already exist"
    else
      f ← load from_dir;
      if negb (present f) then copy_dirs n' from (from_dir + 4) (to_dir + 4)
      else
        to_page_table ← get_free_page;
        if to_page_table =? 0 then mret (-1)
        else
          store to_dir (Z.lor to_page_table 7) ;;
          copy_table (if from =? 0 then 0xA0%nat else 1024%nat) (page_of f) to_page_table ;;
          copy_dirs n' from (from_dir + 4) (to_dir + 4)
  end.

Definition copy_page_tables (from to size : Z) : M mem Z :=
  if negb (Z.land from 0x3fffff =? 0) || negb (Z.land to 0x3fffff =? 0)
  then panic "copy_page_tables called with wrong alignment"
  else
    let from_dir := Z.land (Z.shiftr from 20) 0xffc in
    let to_dir := Z.land (Z.shiftr to 20) 0xffc in
    let size := Z.shiftr (u32 (size + 0x3fffff)) 22 in
    copy_dirs (Z.to_nat size) from from_dir to_dir.

(** [put_page]; its two warnings are not modelled, but the read of [mem_map]
    they need is *)
Definition put_page (page address : Z) : M mem Z :=
  get_map (MAP_NR page) ;;
  let dir := Z.land (Z.shiftr address 20) 0xffc in
  e ← load dir;
  if present e then
    store (page_of e + 4 * Z.land (Z.shiftr address 12) 0x3ff) (Z.lor page 7) ;;
    mret page
  else
    tmp ← get_free_page;
    if tmp =? 0 then mret 0
    else
      store dir (Z.lor tmp 7) ;;
      store (tmp + 4 * Z.land (Z.shiftr address 12) 0x3ff) (Z.lor page 7) ;;
      mret page.

Definition un_wp_page (table_entry : Z) : M mem unit :=
  e ← load table_entry;
  let old_page := page_of e in
  alone ← (if LOW_MEM <=? old_page
           then c ← get_map (MAP_NR old_page); mret (c =? 1) else mret false : M mem bool);
  if (alone : bool) then store table_entry (Z.lor e 2)
  else
    new_page ← get_free_page;
    if new_page =? 0 then oom
    else
      when (LOW_MEM <=? old_page)
        (c ← get_map (MAP_NR old_page); put_map (MAP_NR old_page) (c - 1)) ;;
      store table_entry (Z.lor new_page 7) ;;
      modify (λ s, set_phys (copy_page old_page new_page (phys s)) s).

Definition do_wp_page (error_code address : Z) : M mem unit :=
  d ← load (Z.land (Z.shiftr address 20) 0xffc);
  un_wp_page (Z.land (Z.shiftr address 10) 0xffc + page_of d).

Definition write_verify (address : Z) : M mem unit :=
  page ← load (Z.land (Z.shiftr address 20) 0xffc);
  if negb (present page) then mret tt
  else
    let page := page_of page + Z.land (Z.shiftr address 10) 0xffc in
    e ← load page;
    when (Z.land 3 e =? 1) (un_wp_page page).

Definition get_empty_page (address : Z) : M mem unit :=
  tmp ← get_free_page;
  if tmp =? 0 then free_page tmp ;; oom
  else
    r ← put_page tmp address;
    if r =? 0 then free_page tmp ;; oom else mret tt.

(** [p_start] and [cur_start] are the [start_code] of [p] and of [current] *)
Definition try_to_share (address p_start cur_start : Z) : M mem bool :=
  let base := Z.land (Z.shiftr address 20) 0xffc in
  let from_page := base + Z.land (Z.shiftr p_start 20) 0xffc in
  let to_page := base + Z.land (Z.shiftr cur_start 20) 0xffc in
  from ← load from_page;
  if negb (present from) then mret false
  else
    let from_page := page_of from + Z.land (Z.shiftr address 10) 0xffc in
    phys_addr ← load from_page;
    if negb (Z.land phys_addr 0x41 =? 1) then mret false
    else
      let phys_addr := page_of phys_addr in
      hi ← gets HIGH_MEMORY;
      if (hi <=? phys_addr) || (phys_addr <? LOW_MEM) then mret false
      else
        to ← load to_page;
        to ← (if negb (present to) then
                t ← get_free_page;
                if t =? 0 then oom else store to_page (Z.lor t 7) ;; mret t
              else mret to : M mem Z);
        let to_page := page_of to + Z.land (Z.shiftr address 10) 0xffc in
        e ← load to_page;
        if present e then panic "try_to_share: to_page already exists"
        else
          e ← load from_page;
          store from_page (Z.land e (Z.lnot 2)) ;;
          e ← load from_page;
          store to_page e ;;
          c ← get_map (MAP_NR phys_addr);
          put_map (MAP_NR phys_addr) (c + 1) ;;
          mret true.

(** what the processor does with a linear address: the physical one, if the
    page is there *)
Definition translate (p : Z → Z) (address : Z) : option Z :=
  let d := rd32 p (Z.land (Z.shiftr address 20) 0xffc) in
  if present d then
    let e := rd32 p (page_of d + 4 * Z.land (Z.shiftr address 12) 0x3ff) in
    if present e then Some (page_of e + address mod 4096) else None
  else None.

(** ** Setting the page map up *)

(** the [while] loop of [mem_init]: [n] pages from number [i] on are free *)
Fixpoint free_from (n : nat) (i : Z) : M mem unit :=
  match n with
  | O => mret tt
  | S n' => put_map i 0 ;; free_from n' (i + 1)
  end.

Definition mem_init (start_mem end_mem : Z) : M mem unit :=
  modify (set_HIGH_MEMORY end_mem) ;;
  modify (set_mem_map (replicate (Z.to_nat PAGING_PAGES) USED)) ;;
  free_from (Z.to_nat (Z.shiftr (end_mem - start_mem) 12)) (Z.shiftr (start_mem - LOW_MEM) 12).

(** [calc_mem]'s count of the free pages, which it prints *)
Definition free_pages (s : mem) : nat := length (filter (λ c, c = 0) (mem_map s)).

(** ** Reading and writing words *)

Lemma wr32_byte v k : 0 ≤ k → Z.shiftr v (8 * k) mod 256 = Z.land (Z.shiftr v (8 * k)) (Z.ones 8).
Proof. intros. by rewrite Z.land_ones by lia. Qed.

Lemma rd32_wr32 a v p : 0 ≤ v < 2 ^ 32 → rd32 (wr32 a v p) a = v.
Proof.
  intros Hv. unfold rd32, wr32.
  rewrite !(proj2 (andb_true_iff _ _)) by lia.
  replace (a - a) with 0 by lia. replace (a + 1 - a) with 1 by lia.
  replace (a + 2 - a) with 2 by lia. replace (a + 3 - a) with 3 by lia.
  rewrite !Z.shiftr_div_pow2 by lia. change (2 ^ (8 * 0)) with 1. change (2 ^ (8 * 1)) with 256.
  change (2 ^ (8 * 2)) with (256 * 256). change (2 ^ (8 * 3)) with (256 * 256 * 256).
  rewrite Z.div_1_r, <- !Z.div_div by lia.
  pose proof (Z.div_mod v 256 ltac:(done)). pose proof (Z.div_mod (v / 256) 256 ltac:(done)).
  pose proof (Z.div_mod (v / 256 / 256) 256 ltac:(done)).
  assert (0 ≤ v / 256 / 256 / 256 < 256).
  { rewrite !Z.div_div by lia. split; [apply Z.div_pos; lia|apply Z.div_lt_upper_bound; lia]. }
  rewrite (Z.mod_small (v / 256 / 256 / 256)) by done. lia.
Qed.

Lemma rd32_ext p q a : (∀ x, a ≤ x < a + 4 → p x = q x) → rd32 p a = rd32 q a.
Proof. intros Hx. unfold rd32. by rewrite !Hx by lia. Qed.

Lemma rd32_wr32_ne a b v p : a + 4 ≤ b ∨ b + 4 ≤ a → rd32 (wr32 a v p) b = rd32 p b.
Proof.
  intros Hd. apply rd32_ext. intros x Hx. unfold wr32.
  destruct (_ && _) eqn:E; [|done]. lia.
Qed.

(** ** Page numbers *)
Lemma page_of_bits e : 0 ≤ e < 2 ^ 32 → page_of e = 4096 * (e / 4096).
Proof.
  intros He. unfold page_of. replace 0xfffff000 with (Z.shiftl (Z.ones 20) 12) by done.
  rewrite Z.land_comm. transitivity (Z.shiftl (Z.land (Z.shiftr e 12) (Z.ones 20)) 12).
  - apply Z.bits_inj'. intros k Hk. rewrite Z.land_spec, !Z.shiftl_spec, Z.land_spec by lia.
    destruct (Z.ltb_spec (k - 12) 0).
    + rewrite (Z.testbit_neg_r (Z.ones 20)) by lia. by rewrite !andb_false_r.
    + rewrite Z.shiftr_spec by lia. by replace (k - 12 + 12) with k by lia.
  - rewrite Z.land_ones, Z.shiftr_div_pow2, Z.shiftl_mul_pow2 by lia.
    rewrite Z.mod_small; [change (2 ^ 12) with 4096; lia|].
    change (2 ^ 12) with 4096. split; [apply Z.div_pos; lia|apply Z.div_lt_upper_bound; lia].
Qed.

(** a page-aligned address with flags in its low bits *)
Lemma lor_flags a f : 0 ≤ a < 2 ^ 20 → 0 ≤ f < 4096 → Z.lor (4096 * a) f = 4096 * a + f.
Proof.
  intros Ha Hf. replace (4096 * a) with (Z.shiftl a 12) by (rewrite Z.shiftl_mul_pow2 by lia; lia).
  rewrite <- Z.lxor_lor; [rewrite <- Z.add_nocarry_lxor; [done|]|].
  all: apply Z.bits_inj'; intros k Hk; rewrite Z.land_spec, Z.shiftl_spec, Z.bits_0 by lia.
  all: destruct (Z.ltb_spec k 12); [by rewrite Z.testbit_neg_r by lia|].
  all: rewrite (Z.bits_above_log2 f), andb_false_r; [done|lia|].
  all: destruct (decide (f = 0)) as [->|]; [cbn; lia|apply Z.log2_lt_pow2; [lia|]].
  all: apply Z.lt_le_trans with (2 ^ 12); [lia|by apply Z.pow_le_mono_r; lia].
Qed.

(** ** Allocation *)

Lemma scan_down_Some n l i :
  scan_down n l = Some i →
  l !! i = Some 0 ∧ (i < n)%nat ∧ ∀ j, (i < j < n)%nat → l !! j ≠ Some 0.
Proof.
  induction n as [|n IH]; [done|]. cbn. destruct (l !! n) as [c|] eqn:Ec; [destruct c as [|p|p]|].
  - intros [= <-]. split_and!; [done|lia|]. lia.
  - intros (? & ? & Hj)%IH. split_and!; [done|lia|]. intros j Hjn. destruct (decide (j = n)) as [->|]; [congruence|].
    apply Hj. lia.
  - intros (? & ? & Hj)%IH. split_and!; [done|lia|]. intros j Hjn. destruct (decide (j = n)) as [->|]; [congruence|].
    apply Hj. lia.
  - intros (? & ? & Hj)%IH. split_and!; [done|lia|]. intros j Hjn. destruct (decide (j = n)) as [->|]; [congruence|].
    apply Hj. lia.
Qed.

Lemma scan_down_None n l : scan_down n l = None → ∀ j, (j < n)%nat → l !! j ≠ Some 0.
Proof.
  induction n as [|n IH]; [lia|]. cbn. intros Hs j Hj.
  destruct (decide (j = n)) as [->|]; [intros E; by rewrite E in Hs|].
  apply IH; [|lia]. destruct (l !! n) as [c|]; [by destruct c|done].
Qed.

(** the page frame number [i] of [mem_map] *)
Definition frame (i : nat) : Z := LOW_MEM + 4096 * Z.of_nat i.

Lemma MAP_NR_frame i f : (Z.of_nat i < 2 ^ 18) → 0 ≤ f < 4096 → MAP_NR (frame i + f) = Z.of_nat i.
Proof.
  intros Hi Hf. unfold MAP_NR, frame. replace (LOW_MEM + 4096 * Z.of_nat i + f - LOW_MEM) with (Z.of_nat i * 4096 + f) by lia.
  rewrite u32_id by lia. rewrite Z.shiftr_div_pow2 by lia. change (2 ^ 12) with 4096.
  rewrite Z.div_add_l, Z.div_small by lia. lia.
Qed.

Record mem_ok (s : mem) : Prop := {
  mo_len : length (mem_map s) = Z.to_nat PAGING_PAGES;
  mo_byte : Forall byte_ok (mem_map s);
  mo_high : LOW_MEM ≤ HIGH_MEMORY s ≤ LOW_MEM + PAGING_MEMORY;
  mo_unused i : frame i >= HIGH_MEMORY s → (i < length (mem_map s))%nat → mem_map s !! i ≠ Some 0
}.

Lemma get_free_page_run s :
  mem_ok s →
  (∃ i, (i < length (mem_map s))%nat ∧ mem_map s !! i = Some 0 ∧
    (∀ j, (i < j)%nat → mem_map s !! j ≠ Some 0) ∧
    get_free_page s = Ret (frame i) (set_phys (clear_page (frame i) (phys s))
                        (set_mem_map (<[i := 1]> (mem_map s)) s))) ∨
  ((∀ j, mem_map s !! j ≠ Some 0) ∧ get_free_page s = Ret 0 s).
Proof.
  intros Hok. unfold get_free_page. rewrite <- (mo_len _ Hok).
  destruct (scan_down _ _) as [i|] eqn:Es.
  - left. apply scan_down_Some in Es as (Hi & Hlt & Hlast). exists i.
    assert (LOW_MEM + Z.shiftl (Z.of_nat i) 12 = frame i) as ->.
    { unfold frame. rewrite Z.shiftl_mul_pow2 by lia. lia. }
    split_and!; try done. intros j Hj. destruct (decide (j < length (mem_map s))%nat); [apply Hlast; lia|].
    by rewrite lookup_ge_None_2 by lia.
  - right. split; [|done]. intros j. destruct (decide (j < length (mem_map s))%nat).
    + by apply (scan_down_None _ _ Es).
    + by rewrite lookup_ge_None_2 by lia.
Qed.

Lemma get_map_eq s i c : mem_map s !! i = Some c → get_map (Z.of_nat i) s = Ret c s.
Proof. intros Hc. unfold get_map. rewrite (proj2 (Z.ltb_ge _ _)) by lia. by rewrite Nat2Z.id, Hc. Qed.
Lemma put_map_eq s i v :
  (i < length (mem_map s))%nat →
  put_map (Z.of_nat i) v s = Ret tt (set_mem_map (<[i := u8 v]> (mem_map s)) s).
Proof.
  intros Hi. unfold put_map. rewrite (proj2 (orb_false_iff _ _)) by (split; lia). by rewrite Nat2Z.id.
Qed.

Lemma PAGING_PAGES_val : PAGING_PAGES = 3840.
Proof. done. Qed.

Lemma free_page_run s i c :
  mem_ok s → mem_map s !! i = Some c → frame i < HIGH_MEMORY s → 0 < c →
  free_page (frame i) s = Ret tt (set_mem_map (<[i := c - 1]> (mem_map s)) s).
Proof.
  intros Hok Hc Hhi Hpos. pose proof (lookup_lt_Some _ _ _ Hc) as Hi.
  pose proof (mo_len _ Hok) as Hlen. rewrite PAGING_PAGES_val in Hlen.
  assert (Hb : byte_ok c) by (eapply Forall_lookup_1; [apply (mo_byte _ Hok)|done]). unfold byte_ok in Hb.
  enough (wp (free_page (frame i)) (λ _ s', s' = set_mem_map (<[i := c - 1]> (mem_map s)) s) s)
    as ([]&?&->&->)%wp_exists by done.
  unfold free_page. rewrite (proj2 (Z.ltb_ge _ _)) by (unfold frame; lia).
  apply wp_bind, wp_gets. rewrite (proj2 (Z.leb_gt _ _)) by done. cbn zeta.
  replace (MAP_NR (frame i)) with (Z.of_nat i) by (rewrite <- (Z.add_0_r (frame i)), MAP_NR_frame; lia).
  apply wp_bind. eapply wp_eq; [by apply get_map_eq|]. apply wp_bind. eapply wp_eq; [by apply put_map_eq|].
  rewrite (proj2 (Z.eqb_neq c 0)) by lia. apply wp_ret. by rewrite u8_id by lia.
Qed.

Lemma free_page_free s i :
  mem_ok s → mem_map s !! i = Some 0 → frame i < HIGH_MEMORY s →
  free_page (frame i) s = Panic "trying to free free page".
Proof.
  intros Hok Hc Hhi. pose proof (lookup_lt_Some _ _ _ Hc) as Hi.
  pose proof (mo_len _ Hok) as Hlen. rewrite PAGING_PAGES_val in Hlen.
  unfold free_page. rewrite (proj2 (Z.ltb_ge _ _)) by (unfold frame; lia).
  rewrite (bind_ret _ _ _ (HIGH_MEMORY s) s) by done. rewrite (proj2 (Z.leb_gt _ _)) by done. cbn zeta.
  replace (MAP_NR (frame i)) with (Z.of_nat i) by (rewrite <- (Z.add_0_r (frame i)), MAP_NR_frame; lia).
  rewrite (bind_ret _ _ _ 0 s) by (by apply get_map_eq).
  rewrite (bind_ret _ _ _ _ _ (put_map_eq s i _ Hi)). cbn [Z.eqb negb].
  erewrite bind_ret; [done|]. apply put_map_eq. cbn. by rewrite length_insert.
Qed.

(** *** Sharing page tables *)
Definition entry (p : Z → Z) (t : Z) (k : nat) : Z := rd32 p (t + 4 * Z.of_nat k).
(** an entry without its write permission *)
Definition ro (e : Z) : Z := Z.land e (Z.lnot 2).
(** entry [e] refers to a counted page, number [j] of [mem_map] *)
Definition counts (j : nat) (e : Z) : bool :=
  present e && (LOW_MEM <? ro e) && (MAP_NR (ro e) =? Z.of_nat j).
Definition bytes_mem (p : Z → Z) : Prop := ∀ x, 0 ≤ p x < 256.

Lemma rd32_bound p a : bytes_mem p → 0 ≤ rd32 p a < 2 ^ 32.
Proof.
  intros Hp. unfold rd32. pose proof (Hp a). pose proof (Hp (a + 1)). pose proof (Hp (a + 2)). pose proof (Hp (a + 3)). lia.
Qed.
Lemma wr32_bytes a v p : bytes_mem p → bytes_mem (wr32 a v p).
Proof. intros Hp x. unfold wr32. destruct (_ && _); [by apply Z.mod_pos_bound|done]. Qed.
Lemma ro_bound e : 0 ≤ e < 2 ^ 32 → 0 ≤ ro e < 2 ^ 32.
Proof.
  intros He. unfold ro. assert (0 ≤ Z.land e (Z.lnot 2)) by (apply Z.land_nonneg; lia). split; [done|].
  enough (Z.land e (Z.lnot 2) ≤ e) by lia.
  assert (Z.land e (Z.lnot 2) + Z.land e 2 = e) as Hs.
  { rewrite Z.add_nocarry_lxor, Z.lxor_lor.
    - rewrite <- Z.land_lor_distr_r. rewrite Z.lor_comm, Z.lor_lnot_diag. apply Z.land_m1_r.
    - rewrite Z.land_assoc, (Z.land_comm _ e), Z.land_assoc, Z.land_diag, <- Z.land_assoc.
      rewrite (Z.land_comm (Z.lnot 2)), Z.land_lnot_diag. apply Z.land_0_r.
    - rewrite Z.land_assoc, (Z.land_comm _ e), Z.land_assoc, Z.land_diag, <- Z.land_assoc.
      rewrite (Z.land_comm (Z.lnot 2)), Z.land_lnot_diag. apply Z.land_0_r. }
  assert (0 ≤ Z.land e 2) by (apply Z.land_nonneg; lia). lia.
Qed.

Lemma u8_u8_add a b : u8 (u8 a + b) = u8 (a + b).
Proof. unfold u8. by rewrite Zplus_mod_idemp_l. Qed.

(** one step of the loop of [copy_page_tables] *)
Lemma copy_entry_run from to s (Q : unit → mem → Prop) :
  let e := rd32 (phys s) from in
  (present e = true → LOW_MEM < ro e → ∃ i, (i < length (mem_map s))%nat ∧ MAP_NR (ro e) = Z.of_nat i) →
  Forall byte_ok (mem_map s) →
  (∀ s1, HIGH_MEMORY s1 = HIGH_MEMORY s → length (mem_map s1) = length (mem_map s) →
    Forall byte_ok (mem_map s1) →
    phys s1 = (let p1 := if present e then wr32 to (ro e) (phys s) else phys s in
               if present e && (LOW_MEM <? ro e) then wr32 from (ro e) p1 else p1) →
    (∀ j c, mem_map s !! j = Some c → mem_map s1 !! j = Some (u8 (c + Z.b2z (counts j e)))) → Q tt s1) →
  wp (when (present e)
      (let this_page := Z.land e (Z.lnot 2) in
       store to this_page ;;
       when (LOW_MEM <? this_page)
         (store from this_page ;;
          c ← get_map (MAP_NR this_page);
          put_map (MAP_NR this_page) (c + 1)))) Q s.
Proof.
  intros e Hidx Hmb HQ. cbn zeta. fold (ro e). unfold when.
  assert (Hid : ∀ c : Z, c ∈ mem_map s → u8 (c + 0) = c).
  { intros c Hc. rewrite Forall_forall in Hmb. apply Hmb in Hc. unfold byte_ok in Hc.
    rewrite Z.add_0_r. by apply u8_id. }
  destruct (present e) eqn:Ep; cbn [andb] in HQ.
  2:{ apply wp_ret, HQ; try done. intros j c Hc. rewrite Hc. unfold counts. rewrite Ep. cbn. f_equal.
      symmetry. apply Hid. by eapply list_elem_of_lookup_2. }
  apply wp_bind, wp_modify. destruct (Z.ltb_spec LOW_MEM (ro e)) as [Hl|Hl].
  2:{ apply wp_ret, HQ; try done. intros j c Hc. cbn. rewrite Hc. unfold counts.
      rewrite Ep, (proj2 (Z.ltb_ge _ _)) by done. cbn. f_equal. symmetry. apply Hid. by eapply list_elem_of_lookup_2. }
  apply wp_bind, wp_modify. destruct (Hidx eq_refl Hl) as (i & Hi & Hm). rewrite Hm.
  destruct (lookup_lt_is_Some_2 _ _ Hi) as [c Hc].
  apply wp_bind. eapply wp_eq; [by apply get_map_eq|]. eapply wp_eq; [by apply put_map_eq|].
  apply HQ; cbn; try done.
  - by rewrite length_insert.
  - apply Forall_insert; [done|]. unfold byte_ok. apply u8_bound.
  - intros j cj Hcj. unfold counts. rewrite Ep, Hm, (proj2 (Z.ltb_lt _ _)) by done. cbn [andb].
    destruct (Z.eqb_spec (Z.of_nat i) (Z.of_nat j)) as [Hij|Hij].
    + apply Nat2Z.inj in Hij as ->. rewrite Hc in Hcj. injection Hcj as ->. by rewrite list_lookup_insert_eq.
    + rewrite list_lookup_insert_ne by (intros ->; done). rewrite Hcj. f_equal. symmetry. apply Hid.
      by eapply list_elem_of_lookup_2.
Qed.

Definition shares (p : Z → Z) (from : Z) (n j : nat) : nat :=
  count_idx (λ k, counts j (entry p from k)) n.

Lemma shares_S p q from n j :
  (∀ k, (k < n)%nat → entry q (from + 4) k = entry p from (S k)) →
  Z.of_nat (shares p from (S n) j) =
    Z.b2z (counts j (entry p from 0)) + Z.of_nat (shares q (from + 4) n j).
Proof.
  intros Hk. unfold shares. rewrite count_idx_S. do 2 f_equal.
  apply count_idx_ext. intros k Hkn. by rewrite Hk.
Qed.

Lemma entry_S p t k : entry p t (S k) = entry p (t + 4) k.
Proof. unfold entry. f_equal. lia. Qed.

Lemma entry_wr_ne p a v t k : a + 4 ≤ t ∨ t + 4 * Z.of_nat k + 4 ≤ a → entry (wr32 a v p) t k = entry p t k.
Proof. intros. apply rd32_wr32_ne. lia. Qed.

Lemma copy_table_run n : ∀ from to s,
  bytes_mem (phys s) → from + 4 * Z.of_nat n ≤ to ∨ to + 4 * Z.of_nat n ≤ from →
  Forall byte_ok (mem_map s) →
  (∀ k, (k < n)%nat → present (entry (phys s) from k) = true → LOW_MEM < ro (entry (phys s) from k) →
     ∃ i, (i < length (mem_map s))%nat ∧ MAP_NR (ro (entry (phys s) from k)) = Z.of_nat i) →
  wp (copy_table n from to) (λ _ s',
    bytes_mem (phys s') ∧ HIGH_MEMORY s' = HIGH_MEMORY s ∧ length (mem_map s') = length (mem_map s) ∧
    (∀ k, (k < n)%nat →
       let e := entry (phys s) from k in
       entry (phys s') to k = (if present e then ro e else entry (phys s) to k) ∧
       entry (phys s') from k = (if present e && (LOW_MEM <? ro e) then ro e else e)) ∧
    (∀ x, ¬ (from ≤ x < from + 4 * Z.of_nat n) → ¬ (to ≤ x < to + 4 * Z.of_nat n) →
       phys s' x = phys s x) ∧
    ∀ j c, mem_map s !! j = Some c →
      mem_map s' !! j = Some (u8 (c + Z.of_nat (shares (phys s) from n j)))) s.
Proof.
  induction n as [|n IH]; intros from to s Hbytes Hdisj Hmb Hidx.
  { apply wp_ret. split_and!; try done; [lia|]. intros j c Hc. rewrite Hc. cbn. f_equal.
    pose proof (Forall_lookup_1 _ _ _ _ Hmb Hc) as Hb. unfold byte_ok in Hb. rewrite Z.add_0_r. symmetry. by apply u8_id. }
  cbn [copy_table]. apply wp_bind, wp_gets, wp_bind. set (e := rd32 (phys s) from).
  pose proof (rd32_bound _ from Hbytes : 0 ≤ e < 2 ^ 32) as He. pose proof (ro_bound _ He) as Hro.
  assert (He0 : entry (phys s) from 0 = e) by (unfold entry, e; f_equal; lia).
  apply copy_entry_run; [|done|].
  { intros Hp Hl. specialize (Hidx O ltac:(lia)). rewrite He0 in Hidx. by apply Hidx. }
  fold e. intros s1 Hhi1 Hlen1 Hmb1 Hp1 Hmap1.
  assert (Hfar : ∀ t k, (k < n)%nat → t = from ∨ t = to → entry (phys s1) t (S k) = entry (phys s) t (S k)).
  { intros t k Hk Ht. rewrite Hp1. cbn zeta.
    destruct (present e); cbn [andb]; [|done]. destruct (LOW_MEM <? ro e); rewrite !entry_S;
      rewrite ?entry_wr_ne; try done; destruct Ht as [-> | ->]; lia. }
  eapply wp_mono; [apply IH|].
  - rewrite Hp1. cbn zeta. destruct (present e), (LOW_MEM <? ro e); cbn; auto using wr32_bytes.
  - lia.
  - done.
  - intros k Hk. rewrite <- entry_S, (Hfar from k) by (done || by left). rewrite Hlen1. apply Hidx. lia.
  - intros [] s' (Hbm & Hhi & Hlen & Hent & Hout & Hmap). split_and!.
    + done.
    + congruence.
    + congruence.
    + intros [|k] Hk; cbn zeta.
      * rewrite He0. unfold entry. rewrite Z.add_0_r, Z.add_0_r.
        assert (Hsame : ∀ x, x = from ∨ x = to → rd32 (phys s') x = rd32 (phys s1) x).
        { intros x Hx. apply rd32_ext. intros y Hy. apply Hout; destruct Hx as [-> | ->]; lia. }
        rewrite !Hsame by tauto. rewrite Hp1. cbn zeta.
        destruct (present e); cbn [andb]; [|done].
        destruct (LOW_MEM <? ro e).
        -- rewrite rd32_wr32_ne by lia. by rewrite !rd32_wr32 by done.
        -- rewrite rd32_wr32 by done. by rewrite rd32_wr32_ne by lia.
      * assert (Hk' : (k < n)%nat) by lia.
        pose proof (Hfar from k Hk' (or_introl eq_refl)) as Hff.
        pose proof (Hfar to k Hk' (or_intror eq_refl)) as Hft.
        destruct (Hent k Hk') as [E1 E2]. rewrite <- !entry_S in E1, E2.
        rewrite Hff in E1, E2. rewrite <- (entry_S (phys s1) to), Hft in E1. done.
    + intros x Hx1 Hx2. rewrite Hout by lia. rewrite Hp1. cbn zeta.
      destruct (present e); cbn [andb]; [|done]. unfold wr32.
      destruct (LOW_MEM <? ro e); rewrite !(proj2 (andb_false_iff _ _)); try done; lia.
    + intros j c Hc. rewrite (Hmap j _ (Hmap1 j c Hc)), u8_u8_add. do 2 f_equal.
      rewrite (shares_S (phys s) (phys s1) from n j); [rewrite He0; lia|].
      intros k Hk. rewrite <- entry_S. apply Hfar; tauto.
Qed.

(** *** Freeing page tables *)

(** a present entry refers to the counted page number [j] *)
Definition refers (j : nat) (e : Z) : bool := present e && (page_of e =? frame j).
Definition refs (p : Z → Z) (t : Z) (n j : nat) : nat :=
  count_idx (λ k, refers j (entry p t k)) n.

Lemma refs_S p q t n j :
  (∀ k, (k < n)%nat → entry q (t + 4) k = entry p t (S k)) →
  Z.of_nat (refs p t (S n) j) = Z.b2z (refers j (entry p t 0)) + Z.of_nat (refs q (t + 4) n j).
Proof.
  intros Hk. unfold refs. rewrite count_idx_S. do 2 f_equal.
  apply count_idx_ext. intros k Hkn. by rewrite Hk.
Qed.

(** what a page table may refer to: memory below 1 MB, which is not counted,
    or a page of [mem_map] *)
Definition ref_ok (s : mem) (e : Z) : Prop :=
  present e = true → page_of e < LOW_MEM ∨
    ∃ i, (i < length (mem_map s))%nat ∧ page_of e = frame i ∧ frame i < HIGH_MEMORY s.

Lemma frame_inj i j : frame i = frame j → i = j.
Proof. unfold frame. lia. Qed.

(** one entry of a page table is given up *)
Lemma free_entry_run e s : mem_ok s → ref_ok s e → (∀ j c, mem_map s !! j = Some c → refers j e = true → 0 < c) →
  wp (when (present e) (free_page (page_of e))) (λ _ s1, phys s1 = phys s ∧ HIGH_MEMORY s1 = HIGH_MEMORY s ∧
    length (mem_map s1) = length (mem_map s) ∧ mem_ok s1 ∧
    ∀ j c, mem_map s !! j = Some c → mem_map s1 !! j = Some (c - Z.b2z (refers j e))) s.
Proof.
  intros Hok Hr0 Hcnt. unfold when, refers in *. destruct (present e) eqn:Ep; cbn [andb] in *.
  2:{ apply wp_ret. split_and!; try done. intros j c Hc. rewrite Hc. cbn. f_equal. lia. }
  destruct (Hr0 Ep) as [Hlow|(i & Hi & Hpage & Hhi)].
  - unfold free_page. rewrite (proj2 (Z.ltb_lt _ _)) by done. apply wp_ret. split_and!; try done.
    intros j c Hc. rewrite Hc, (proj2 (Z.eqb_neq _ _)); [cbn; f_equal; lia|]. unfold frame. lia.
  - rewrite Hpage in *. destruct (lookup_lt_is_Some_2 _ _ Hi) as [c Hc].
    assert (Hpos : 0 < c) by (apply (Hcnt i c Hc), Z.eqb_refl).
    eapply wp_eq; [by apply free_page_run|].
    pose proof (Forall_lookup_1 _ _ _ _ (mo_byte _ Hok) Hc) as Hb. unfold byte_ok in Hb.
    split_and!; try done; cbn; [by rewrite length_insert| |].
    + destruct Hok as [Hlen Hbyte Hhigh Hun]. constructor; cbn; rewrite ?length_insert; try done.
      * apply Forall_insert; [done|]. unfold byte_ok. lia.
      * intros k Hk Hkl Hz. apply (Hun k Hk Hkl). rewrite list_lookup_insert_ne in Hz; [done|].
        intros ->. lia.
    + intros j cj Hcj. destruct (decide (i = j)) as [<-|Hij].
      * rewrite Hc in Hcj. injection Hcj as ->. rewrite list_lookup_insert_eq, Z.eqb_refl by done. done.
      * rewrite list_lookup_insert_ne, (proj2 (Z.eqb_neq _ _)), Hcj by (done || intros ?%frame_inj; done).
        cbn. f_equal. lia.
Qed.

Lemma free_table_run n : ∀ t s,
  bytes_mem (phys s) → mem_ok s →
  (∀ k, (k < n)%nat → ref_ok s (entry (phys s) t k)) →
  (∀ j c, mem_map s !! j = Some c → Z.of_nat (refs (phys s) t n j) ≤ c) →
  wp (free_table n t) (λ _ s',
    HIGH_MEMORY s' = HIGH_MEMORY s ∧ length (mem_map s') = length (mem_map s) ∧
    (∀ k, (k < n)%nat → entry (phys s') t k = 0) ∧
    (∀ x, ¬ (t ≤ x < t + 4 * Z.of_nat n) → phys s' x = phys s x) ∧
    ∀ j c, mem_map s !! j = Some c → mem_map s' !! j = Some (c - Z.of_nat (refs (phys s) t n j))) s.
Proof.
  induction n as [|n IH]; intros t s Hbytes Hok Href Hcnt.
  { apply wp_ret. split_and!; try done; [lia|]. intros j c Hc. rewrite Hc. cbn. f_equal. lia. }
  cbn [free_table]. apply wp_bind, wp_gets, wp_bind. set (e := rd32 (phys s) t).
  assert (He0 : entry (phys s) t 0 = e) by (unfold entry, e; f_equal; lia).
  pose proof (Href O ltac:(lia)) as Hr0. rewrite He0 in Hr0.
  eapply wp_mono; [apply free_entry_run; [done|exact Hr0|]|].
  { intros j c Hc Hj. specialize (Hcnt _ _ Hc). rewrite (refs_S _ (phys s)) in Hcnt by (intros; by rewrite entry_S).
    rewrite He0, Hj in Hcnt. cbn in Hcnt. lia. }
  intros [] s1 (Hp1 & Hhi1 & Hlen1 & Hok1 & Hmap1). apply wp_bind, wp_modify.
  set (s2 := set_phys _ s1).
  assert (Hp2 : phys s2 = wr32 t 0 (phys s)) by (unfold s2; cbn; by rewrite Hp1).
  assert (Hent : ∀ k, (k < n)%nat → entry (phys s2) (t + 4) k = entry (phys s) t (S k)).
  { intros k Hk. rewrite Hp2, entry_S. apply entry_wr_ne. lia. }
  assert (Hrefs : ∀ j c, mem_map s !! j = Some c → mem_map s2 !! j = Some (c - Z.b2z (refers j e)) ∧
     Z.of_nat (refs (phys s) t (S n) j) = Z.b2z (refers j e) + Z.of_nat (refs (phys s2) (t + 4) n j)).
  { intros j c Hc. split; [by apply Hmap1|]. rewrite (refs_S _ (phys s2)) by done. by rewrite He0. }
  eapply wp_mono; [apply IH|].
  - rewrite Hp2. by apply wr32_bytes.
  - destruct Hok1; by constructor.
  - intros k Hk. rewrite Hent by done. intros Hpr.
    destruct (Href (S k) ltac:(lia) Hpr) as [?|(i & ? & ? & ?)]; [by left|right].
    exists i. cbn. rewrite Hlen1, Hhi1. done.
  - intros j c Hc. assert (Hj : (j < length (mem_map s))%nat) by (rewrite <- Hlen1; by eapply lookup_lt_Some).
    destruct (lookup_lt_is_Some_2 _ _ Hj) as [c0 Hc0]. destruct (Hrefs _ _ Hc0) as [E1 E2].
    specialize (Hcnt _ _ Hc0). rewrite Hc in E1. injection E1 as ->. lia.
  - intros [] s' (Hhi & Hlen & Hz & Hout & Hmap). split_and!.
    + by rewrite Hhi.
    + by rewrite Hlen.
    + intros [|k] Hk; [|rewrite entry_S; apply Hz; lia].
      unfold entry. rewrite Z.add_0_r. transitivity (rd32 (phys s2) t).
      * apply rd32_ext. intros x Hx. apply Hout. lia.
      * rewrite Hp2. by apply rd32_wr32.
    + intros x Hx. rewrite Hout, Hp2 by lia. unfold wr32. by rewrite (proj2 (andb_false_iff _ _)) by lia.
    + intros j c Hc. destruct (Hrefs _ _ Hc) as [E1 E2]. rewrite (Hmap _ _ E1). f_equal. lia.
Qed.

Lemma mem_ok_alloc s i :
  mem_ok s → (i < length (mem_map s))%nat → mem_map s !! i = Some 0 →
  mem_ok (set_phys (clear_page (frame i) (phys s)) (set_mem_map (<[i := 1]> (mem_map s)) s)) ∧
  LOW_MEM ≤ frame i < HIGH_MEMORY s.
Proof.
  intros [Hlen Hbyte Hhigh Hun] Hi Hz. split.
  - constructor; cbn; rewrite ?length_insert; try done.
    + apply Forall_insert; [done|]. unfold byte_ok. lia.
    + intros j Hj Hjl. destruct (decide (i = j)) as [<-|].
      * by rewrite list_lookup_insert_eq.
      * rewrite list_lookup_insert_ne by done. by apply Hun.
  - split; [unfold frame; lia|]. destruct (decide (frame i < HIGH_MEMORY s)); [done|].
    exfalso. apply (Hun i); [lia|done|done].
Qed.

(** C16. [get_free_page] returns the highest free page, cleared and counted
    once, and leaves all other memory and counts alone; it returns 0, and
    changes nothing, exactly when no page is free. *)
Theorem get_free_page_correct (s : mem) :
  mem_ok s →
  wp get_free_page (λ a s',
    (a = 0 ∧ s' = s ∧ ∀ j, mem_map s !! j ≠ Some 0) ∨
    (∃ i, a = frame i ∧ LOW_MEM ≤ a < HIGH_MEMORY s ∧
       mem_map s !! i = Some 0 ∧ (∀ j, (i < j)%nat → mem_map s !! j ≠ Some 0) ∧
       mem_map s' = <[i := 1]> (mem_map s) ∧ mem_ok s' ∧
       (∀ x, a ≤ x < a + PAGE_SIZE → phys s' x = 0) ∧
       (∀ x, ¬ (a ≤ x < a + PAGE_SIZE) → phys s' x = phys s x))) s.
Proof.
  intros Hok. destruct (get_free_page_run s Hok) as [(i & Hi & Hz & Hlast & Hrun)|[Hno Hrun]].
  - destruct (mem_ok_alloc s i Hok Hi Hz) as [Hok' Hr].
    eapply wp_eq; [exact Hrun|]. right. exists i. split_and!; try done; try lia; cbn; intros x Hx; unfold clear_page, PAGE_SIZE in *.
    + by rewrite (proj2 (andb_true_iff _ _)) by lia.
    + by rewrite (proj2 (andb_false_iff _ _)) by lia.
  - eapply wp_eq; [exact Hrun|]. left. done.
Qed.

(** a machine with three pages of memory above 1 MB, the middle one in use *)
Definition three_pages : mem :=
  mk_mem ([0; 1; 0] ++ replicate 3837 USED) (LOW_MEM + 3 * 4096) (λ _, 255).

Lemma three_pages_ok : mem_ok three_pages.
Proof.
  constructor; [done| |cbn; unfold LOW_MEM, PAGING_MEMORY; lia|].
  - apply Forall_app. split; [repeat constructor; unfold byte_ok; lia|].
    apply Forall_replicate. unfold byte_ok, USED. lia.
  - intros i Hi _. unfold frame in Hi. cbn in Hi. assert (3 ≤ i)%nat as Hi' by (unfold LOW_MEM in Hi; lia).
    cbn -[replicate]. destruct i as [|[|[|i]]]; try lia. cbn -[replicate].
    destruct (replicate 3837 USED !! i) eqn:E; [|done]. apply lookup_replicate in E as [-> _]. done.
Qed.

Lemma get_free_page_correct_witness :
  wp get_free_page (λ a s',
    (a = 0 ∧ s' = three_pages ∧ ∀ j, mem_map three_pages !! j ≠ Some 0) ∨
    (∃ i, a = frame i ∧ LOW_MEM ≤ a < HIGH_MEMORY three_pages ∧
       mem_map three_pages !! i = Some 0 ∧ (∀ j, (i < j)%nat → mem_map three_pages !! j ≠ Some 0) ∧
       mem_map s' = <[i := 1]> (mem_map three_pages) ∧ mem_ok s' ∧
       (∀ x, a ≤ x < a + PAGE_SIZE → phys s' x = 0) ∧
       (∀ x, ¬ (a ≤ x < a + PAGE_SIZE) → phys s' x = phys three_pages x))) three_pages.
Proof. apply (get_free_page_correct three_pages). exact three_pages_ok. Defined.

(** Freeing the page just allocated restores the page map, and freeing it
    a second time is caught. *)
Theorem free_page_roundtrip (s : mem) (a : Z) (s' : mem) :
  mem_ok s → get_free_page s = Ret a s' → a ≠ 0 →
  ∃ s'', free_page a s' = Ret tt s'' ∧ mem_map s'' = mem_map s ∧ HIGH_MEMORY s'' = HIGH_MEMORY s ∧
    free_page a s'' = Panic "trying to free free page".
Proof.
  intros Hok Hget Ha. destruct (get_free_page_run s Hok) as [(i & Hi & Hz & _ & Hrun)|[_ Hrun]];
    rewrite Hrun in Hget; injection Hget as <- <-; [|done].
  destruct (mem_ok_alloc s i Hok Hi Hz) as [Hok' Hr].
  assert (Hi1 : <[i:=1]> (mem_map s) !! i = Some 1) by (by rewrite list_lookup_insert_eq).
  eexists. split; [apply (free_page_run _ i 1 Hok'); [done|cbn; lia|lia]|].
  assert (Hmap : <[i:=1 - 1]> (<[i:=1]> (mem_map s)) = mem_map s).
  { rewrite list_insert_insert_eq. by apply list_insert_id. }
  cbn. split; [done|]. split; [done|]. apply free_page_free; cbn; [|by rewrite Hmap|lia].
  destruct Hok. by constructor; cbn; rewrite ?Hmap.
Qed.

Lemma free_page_roundtrip_witness :
  ∃ s'', free_page (frame 2) (set_phys (clear_page (frame 2) (λ _, 255)) (set_mem_map (<[2%nat := 1]> (mem_map three_pages)) three_pages)) = Ret tt s'' ∧
    mem_map s'' = mem_map three_pages ∧ HIGH_MEMORY s'' = HIGH_MEMORY three_pages ∧
    free_page (frame 2) s'' = Panic "trying to free free page".
Proof.
  apply (free_page_roundtrip three_pages); [exact three_pages_ok|reflexivity|done].
Defined.

(** C10. Copy on write.  Writing to a shared page gives the writer a page of
    its own with the same contents: the entry is redirected to it and made
    writable, the old page keeps its bytes and loses one reference, and no
    other byte of memory changes. *)
Theorem un_wp_page_isolates (s : mem) (te : Z) (i : nat) (c : Z) :
  mem_ok s → bytes_mem (phys s) → 0 ≤ te →
  page_of (rd32 (phys s) te) = frame i → mem_map s !! i = Some c → 1 < c →
  (∃ k, mem_map s !! k = Some 0) →
  (* the page table holding the entry is neither a free page nor the old page *)
  (∀ k, mem_map s !! k = Some 0 → te + 4 ≤ frame k ∨ frame k + PAGE_SIZE ≤ te) →
  te + 4 ≤ frame i ∨ frame i + PAGE_SIZE ≤ te →
  wp (un_wp_page te) (λ _ s', ∃ k, mem_map s !! k = Some 0 ∧ k ≠ i ∧
    rd32 (phys s') te = frame k + 7 ∧
    mem_map s' !! k = Some 1 ∧ mem_map s' !! i = Some (c - 1) ∧
    (∀ j, j ≠ k → j ≠ i → mem_map s' !! j = mem_map s !! j) ∧
    (∀ x, 0 ≤ x < PAGE_SIZE → phys s' (frame k + x) = phys s (frame i + x)) ∧
    (∀ x, ¬ (frame k ≤ x < frame k + PAGE_SIZE) → ¬ (te ≤ x < te + 4) → phys s' x = phys s x)) s.
Proof.
  intros Hok Hbytes Hte Hpage Hc Hshared [k0 Hk0] Hfree Hold. unfold PAGE_SIZE in *.
  pose proof (mo_len _ Hok) as Hlen. rewrite PAGING_PAGES_val in Hlen.
  pose proof (lookup_lt_Some _ _ _ Hc) as Hi.
  assert (Hb : byte_ok c) by (eapply Forall_lookup_1; [apply (mo_byte _ Hok)|done]). unfold byte_ok in Hb.
  assert (Hmap : MAP_NR (frame i) = Z.of_nat i) by (rewrite <- (Z.add_0_r (frame i)), MAP_NR_frame; lia).
  unfold un_wp_page. apply wp_bind, wp_gets. cbn zeta. rewrite Hpage.
  rewrite (proj2 (Z.leb_le _ _)) by (unfold frame; lia).
  apply wp_bind. rewrite Hmap. apply wp_bind. eapply wp_eq; [by apply get_map_eq|].
  apply wp_ret. rewrite (proj2 (Z.eqb_neq _ _)) by lia.
  apply wp_bind. destruct (get_free_page_run s Hok) as [(k & Hk & Hz & _ & Hrun)|[Hno _]]; [|by destruct (Hno k0)].
  eapply wp_eq; [exact Hrun|]. cbn zeta. rewrite (proj2 (Z.eqb_neq _ _)) by (unfold frame, LOW_MEM; lia).
  assert (Hki : k ≠ i) by (intros ->; rewrite Hc in Hz; injection Hz as ->; lia).
  pose proof (Hfree k Hz) as Hdk.
  apply wp_bind. unfold when. apply wp_bind.
  eapply wp_eq; [apply get_map_eq; cbn; by rewrite list_lookup_insert_ne|].
  eapply wp_eq; [apply put_map_eq; cbn; by rewrite length_insert|].
  apply wp_bind, wp_modify, wp_modify. cbn. exists k. split; [done|]. split; [done|].
  assert (Hkm : Z.of_nat k < 2 ^ 18) by (apply lookup_lt_Some in Hz; lia).
  assert (Hkv : Z.lor (frame k) 7 = frame k + 7).
  { replace (frame k) with (4096 * (256 + Z.of_nat k)) by (unfold frame, LOW_MEM; lia). apply lor_flags; lia. }
  assert (Hdisj : ∀ x, frame k ≤ x < frame k + 4096 → ¬ (te ≤ x < te + 4)) by lia.
  split_and!.
  - rewrite <- Hkv. transitivity (rd32 (wr32 te (Z.lor (frame k) 7) (clear_page (frame k) (phys s))) te).
    + apply rd32_ext. intros x Hx. unfold copy_page. by rewrite (proj2 (andb_false_iff _ _)) by lia.
    + apply rd32_wr32. rewrite Hkv. unfold frame, LOW_MEM. lia.
  - by rewrite list_lookup_insert_ne, list_lookup_insert_eq by done.
  - rewrite list_lookup_insert_eq by (by rewrite length_insert). by rewrite u8_id by lia.
  - intros j Hj1 Hj2. by rewrite !list_lookup_insert_ne by done.
  - intros x Hx. unfold copy_page. rewrite (proj2 (andb_true_iff _ _)) by lia.
    replace (frame i + (frame k + x - frame k)) with (frame i + x) by lia.
    assert (Hfr : frame i + 4096 ≤ frame k ∨ frame k + 4096 ≤ frame i) by (unfold frame; lia).
    unfold wr32. rewrite (proj2 (andb_false_iff _ _)) by lia.
    unfold clear_page. by rewrite (proj2 (andb_false_iff _ _)) by lia.
  - intros x Hx1 Hx2. unfold copy_page. rewrite (proj2 (andb_false_iff _ _)) by lia.
    unfold wr32. rewrite (proj2 (andb_false_iff _ _)) by lia.
    unfold clear_page. by rewrite (proj2 (andb_false_iff _ _)) by lia.
Qed.

Definition shared_page : mem :=
  mk_mem ([0; 2; 0] ++ replicate 3837 USED) (LOW_MEM + 3 * 4096) (wr32 0x2000 (frame 1 + 5) (λ _, 7)).

Lemma shared_page_ok : mem_ok shared_page ∧ bytes_mem (phys shared_page).
Proof.
  split; [|apply wr32_bytes; intros x; lia].
  constructor; [done| |cbn; unfold LOW_MEM, PAGING_MEMORY; lia|].
  - apply Forall_app. split; [repeat constructor; unfold byte_ok; lia|].
    apply Forall_replicate. unfold byte_ok, USED. lia.
  - intros i Hi _. unfold frame in Hi. cbn in Hi. assert (3 ≤ i)%nat as Hi' by (unfold LOW_MEM in Hi; lia).
    cbn -[replicate]. destruct i as [|[|[|i]]]; try lia. cbn -[replicate].
    destruct (replicate 3837 USED !! i) eqn:E; [|done]. apply lookup_replicate in E as [-> _]. done.
Qed.

Lemma un_wp_page_isolates_witness :
  page_of (rd32 (phys shared_page) 0x2000) = frame 1 ∧
  wp (un_wp_page 0x2000) (λ _ s', ∃ k, mem_map shared_page !! k = Some 0 ∧ k ≠ 1%nat ∧
    rd32 (phys s') 0x2000 = frame k + 7 ∧
    mem_map s' !! k = Some 1 ∧ mem_map s' !! 1%nat = Some 1 ∧
    (∀ j, j ≠ k → j ≠ 1%nat → mem_map s' !! j = mem_map shared_page !! j) ∧
    (∀ x, 0 ≤ x < PAGE_SIZE → phys s' (frame k + x) = phys shared_page (frame 1 + x)) ∧
    (∀ x, ¬ (frame k ≤ x < frame k + PAGE_SIZE) → ¬ (0x2000 ≤ x < 0x2000 + 4) → phys s' x = phys shared_page x))
    shared_page.
Proof.
  split; [reflexivity|].
  apply (un_wp_page_isolates shared_page 0x2000 1 2);
    [apply shared_page_ok|apply shared_page_ok|lia|reflexivity|reflexivity|lia|by exists 0%nat| |].
  - intros k _. left. unfold frame, LOW_MEM. lia.
  - left. unfold frame, LOW_MEM. lia.
Defined.

Lemma present_ro e : present (ro e) = present e.
Proof. unfold present, ro. by rewrite Z.land_spec, Z.lnot_spec, andb_true_r by done. Qed.
Lemma page_of_ro e : page_of (ro e) = page_of e.
Proof.
  unfold page_of, ro. rewrite (Z.land_comm e), Z.land_assoc. done.
Qed.

Lemma counts_refers s j e :
  mem_ok s → 0 ≤ e < 2 ^ 32 → ref_ok s e → counts j e = refers j (ro e).
Proof.
  intros Hok He Href. unfold counts, refers. rewrite present_ro, page_of_ro.
  destruct (present e) eqn:Ep; cbn [andb]; [|done].
  pose proof (ro_bound _ He) as Hro. pose proof (page_of_bits _ Hro) as Hp.
  rewrite page_of_ro in Hp. pose proof (Z.div_mod (ro e) 4096 ltac:(done)) as Hdm.
  pose proof (Z.mod_pos_bound (ro e) 4096 ltac:(done)) as Hm.
  rewrite <- Hp in Hdm. set (f := ro e mod 4096) in *.
  pose proof (mo_len _ Hok) as Hlen. rewrite PAGING_PAGES_val in Hlen.
  destruct (Href Ep) as [Hlow|(i & Hi & Hf & Hhi)].
  - rewrite (proj2 (Z.ltb_ge _ _)); [cbn; symmetry; apply Z.eqb_neq; unfold frame; lia|].
    assert (page_of e + 4096 ≤ LOW_MEM); [|lia]. rewrite Hp in *. unfold LOW_MEM in *. lia.
  - assert (Hodd : 0 < f).
    { enough (f ≠ 0) by lia. intros Hf0. rewrite <- present_ro in Ep. unfold present in Ep.
      rewrite Hdm, Hf0, Hp, Z.add_0_r in Ep. replace (4096 * (ro e / 4096)) with (2 * (2048 * (ro e / 4096))) in Ep by lia.
      by rewrite Z.testbit_even_0 in Ep. }
    rewrite Hdm, Hf. rewrite (proj2 (Z.ltb_lt _ _)) by (unfold frame; lia). cbn [andb].
    rewrite MAP_NR_frame by lia.
    destruct (Z.eqb_spec (Z.of_nat i) (Z.of_nat j)); destruct (Z.eqb_spec (frame i) (frame j)); unfold frame in *; lia.
Qed.

(** the state [s1] after [n] entries have been copied from [from] to [to] *)
Record copied (n : nat) (from to : Z) (s s1 : mem) : Prop := {
  cp_bytes : bytes_mem (phys s1);
  cp_high : HIGH_MEMORY s1 = HIGH_MEMORY s;
  cp_length : length (mem_map s1) = length (mem_map s);
  cp_to k : (k < n)%nat → entry (phys s1) to k =
    if present (entry (phys s) from k) then ro (entry (phys s) from k) else 0;
  cp_from k : (k < n)%nat → entry (phys s1) from k =
    (let e := entry (phys s) from k in if present e && (LOW_MEM <? ro e) then ro e else e);
  cp_map j c : mem_map s !! j = Some c → mem_map s1 !! j = Some (c + Z.of_nat (refs (phys s) from n j))
}.

Lemma refers_ro e j : refers j (ro e) = refers j e.
Proof. unfold refers. by rewrite present_ro, page_of_ro. Qed.

Lemma copy_table_copied (n : nat) (from to : Z) (s : mem) :
  mem_ok s → bytes_mem (phys s) → from + 4 * Z.of_nat n ≤ to ∨ to + 4 * Z.of_nat n ≤ from →
  (∀ k, (k < n)%nat → ref_ok s (entry (phys s) from k) ∧ entry (phys s) to k = 0) →
  (∀ j c, mem_map s !! j = Some c → c + Z.of_nat (refs (phys s) from n j) < 256) →
  wp (copy_table n from to) (λ _ s1, copied n from to s s1) s.
Proof.
  intros Hok Hbytes Hdisj Hent Hcnt. pose proof (mo_len _ Hok) as Hlen. rewrite PAGING_PAGES_val in Hlen.
  set (E k := entry (phys s) from k) in *. assert (Hb : ∀ k, 0 ≤ E k < 2 ^ 32) by (intros; by apply rd32_bound).
  eapply wp_mono; [apply (copy_table_run n from to s Hbytes Hdisj (mo_byte _ Hok))|].
  - intros k Hk Hp Hl. fold (E k) in Hp, Hl |- *. destruct (Hent k Hk) as [Href _].
    pose proof (ro_bound _ (Hb k)) as Hro. pose proof (page_of_bits _ Hro) as Hpb. rewrite page_of_ro in Hpb.
    destruct (Href Hp) as [Hlow|(i & Hi & Hpg & Hhi)].
    + fold (E k) in Hlow. rewrite Hpb in Hlow. unfold LOW_MEM in *.
      pose proof (Z.div_mod (ro (E k)) 4096 ltac:(done)). pose proof (Z.mod_pos_bound (ro (E k)) 4096 ltac:(done)). lia.
    + exists i. split; [done|]. fold (E k) in Hpg. rewrite Hpg in Hpb.
      rewrite (Z.div_mod (ro (E k)) 4096), <- Hpb by done. apply MAP_NR_frame; [lia|by apply Z.mod_pos_bound].
  - intros [] s1 (Hb1 & Hhi1 & Hlen1 & Hent1 & Hout1 & Hmap1). constructor; try done.
    + intros k Hk. destruct (Hent1 k Hk) as [-> _]. by destruct (Hent k Hk) as [_ ->].
    + intros k Hk. by apply Hent1.
    + intros j c Hc. assert (shares (phys s) from n j = refs (phys s) from n j) as Hsh.
      { apply count_idx_ext. intros k Hk. fold (E k). rewrite <- refers_ro.
        eapply counts_refers; [exact Hok|apply Hb|by apply Hent]. }
      rewrite (Hmap1 j c Hc), Hsh. f_equal. apply u8_id.
      pose proof (Forall_lookup_1 _ _ _ _ (mo_byte _ Hok) Hc) as Hbc. unfold byte_ok in Hbc.
      specialize (Hcnt j c Hc). lia.
Qed.

Lemma copied_map n from to s s1 j c1 : copied n from to s s1 → mem_map s1 !! j = Some c1 →
  ∃ c, mem_map s !! j = Some c ∧ c1 = c + Z.of_nat (refs (phys s) from n j).
Proof.
  intros Hc Hc1. destruct (lookup_lt_is_Some_2 (mem_map s) j) as [c Hcj];
    [rewrite <- (cp_length _ _ _ _ _ Hc); by eapply lookup_lt_Some|].
  exists c. split; [done|]. rewrite (cp_map _ _ _ _ _ Hc j c Hcj) in Hc1. by injection Hc1 as <-.
Qed.

Lemma copied_ok n from to s s1 : mem_ok s → copied n from to s s1 →
  (∀ j c, mem_map s !! j = Some c → c + Z.of_nat (refs (phys s) from n j) < 256) → mem_ok s1.
Proof.
  intros [Hl Hbyte Hh Hun] Hc Hcnt. constructor; rewrite ?(cp_length _ _ _ _ _ Hc), ?(cp_high _ _ _ _ _ Hc); try done.
  - apply Forall_lookup. intros j c1 (c & Hcj & ->)%(copied_map _ _ _ _ _ _ _ Hc). specialize (Hcnt j c Hcj).
    pose proof (Forall_lookup_1 _ _ _ _ Hbyte Hcj) as Hbc. unfold byte_ok in *. lia.
  - intros j Hj Hjl (c & Hcj & Heq)%(copied_map _ _ _ _ _ _ _ Hc). apply (Hun j Hj Hjl). rewrite Hcj. f_equal.
    pose proof (Forall_lookup_1 _ _ _ _ Hbyte Hcj) as Hbc. unfold byte_ok in *. lia.
Qed.

(** C11. Fork then exit.  Sharing a page table with a child and then freeing
    the child's table returns every page to the number of users it had, clears
    the child's entries, and leaves the parent's entries referring to the same
    pages, present or not as before. *)
Theorem fork_exit_balance (n : nat) (from to : Z) (s : mem) :
  mem_ok s → bytes_mem (phys s) →
  from + 4 * Z.of_nat n ≤ to ∨ to + 4 * Z.of_nat n ≤ from →
  (∀ k, (k < n)%nat → ref_ok s (entry (phys s) from k) ∧ entry (phys s) to k = 0) →
  (∀ j c, mem_map s !! j = Some c → c + Z.of_nat (refs (phys s) from n j) < 256) →
  wp (copy_table n from to ;; free_table n to) (λ _ s',
    mem_map s' = mem_map s ∧
    (∀ k, (k < n)%nat → entry (phys s') to k = 0 ∧
       page_of (entry (phys s') from k) = page_of (entry (phys s) from k) ∧
       present (entry (phys s') from k) = present (entry (phys s) from k))) s.
Proof.
  intros Hok Hbytes Hdisj Hent Hcnt.
  apply wp_bind. eapply wp_mono; [by apply copy_table_copied|]. intros [] s1 Hc.
  pose proof (copied_ok _ _ _ _ _ Hok Hc Hcnt) as Hok1.
  assert (Href1 : ∀ j, refs (phys s1) to n j = refs (phys s) from n j).
  { intros j. apply count_idx_ext. intros k Hk. rewrite (cp_to _ _ _ _ _ Hc) by done.
    destruct (present _) eqn:Ep; [apply refers_ro|]. unfold refers. by rewrite Ep. }
  eapply wp_mono; [apply (free_table_run n to s1 (cp_bytes _ _ _ _ _ Hc) Hok1)|].
  - intros k Hk. rewrite (cp_to _ _ _ _ _ Hc) by done. destruct (present _) eqn:Ep; [|done].
    unfold ref_ok. rewrite page_of_ro, (cp_length _ _ _ _ _ Hc), (cp_high _ _ _ _ _ Hc). intros _. by apply (proj1 (Hent k Hk)).
  - intros j c1 (c & Hcj & ->)%(copied_map _ _ _ _ _ _ _ Hc). rewrite Href1.
    pose proof (Forall_lookup_1 _ _ _ _ (mo_byte _ Hok) Hcj) as Hbc. unfold byte_ok in *. lia.
  - intros [] s' (Hhi & Hlen' & Hz & Hout & Hmap). split.
    + apply list_eq_same_length with (n := length (mem_map s)); [done|rewrite Hlen'; apply Hc|].
      intros j c' c Hj Hc' Hcj. rewrite (Hmap j _ (cp_map _ _ _ _ _ Hc j c Hcj)), Href1 in Hc'. injection Hc' as <-. lia.
    + intros k Hk. split; [by apply Hz|].
      assert (entry (phys s') from k = entry (phys s1) from k) as -> by (apply rd32_ext; intros x Hx; apply Hout; lia).
      rewrite (cp_from _ _ _ _ _ Hc) by done. cbn zeta. destruct (_ && _); [|done]. by rewrite page_of_ro, present_ro.
Qed.

(** a parent's table with one counted page and one page below 1 MB *)
Definition fork_demo : mem :=
  mk_mem ([0; 2; 0] ++ replicate 3837 USED) (LOW_MEM + 3 * 4096)
    (wr32 0x2000 (frame 1 + 7) (wr32 0x2004 (0x5000 + 7) (λ _, 0))).

Lemma fork_demo_ok : mem_ok fork_demo ∧ bytes_mem (phys fork_demo).
Proof.
  split; [|do 2 apply wr32_bytes; intros x; lia]. destruct shared_page_ok as [[] _]. by constructor.
Qed.

Lemma fork_exit_balance_witness :
  page_of (entry (phys fork_demo) 0x2000 0) = frame 1 ∧
  wp (copy_table 2 0x2000 0x3000 ;; free_table 2 0x3000) (λ _ s',
    mem_map s' = mem_map fork_demo ∧
    (∀ k, (k < 2)%nat → entry (phys s') 0x3000 k = 0 ∧
       page_of (entry (phys s') 0x2000 k) = page_of (entry (phys fork_demo) 0x2000 k) ∧
       present (entry (phys s') 0x2000 k) = present (entry (phys fork_demo) 0x2000 k))) fork_demo.
Proof.
  split; [reflexivity|].
  apply (fork_exit_balance 2 0x2000 0x3000 fork_demo); [apply fork_demo_ok|apply fork_demo_ok|lia| |].
  - intros k Hk. destruct k as [|[|k]]; [| |lia]; (split; [intros _|reflexivity]).
    + right. exists 1%nat. split; [cbn; lia|]. split; reflexivity.
    + left. reflexivity.
  - intros j c Hc.
    assert (c ≤ 100) as Hc100.
    { apply list_elem_of_lookup_2 in Hc. cbn -[replicate] in Hc. rewrite !elem_of_cons in Hc.
      destruct Hc as [->|[->|[->|Hc]]]; [lia..|]. apply elem_of_replicate in Hc as [-> _]. done. }
    pose proof (count_idx_le (λ k, refers j (entry (phys fork_demo) 0x2000 k)) 2). unfold refs. lia.
Defined.

(** *** Setting up *)
Lemma free_from_run n : ∀ i s,
  (i + n ≤ length (mem_map s))%nat →
  wp (free_from n (Z.of_nat i)) (λ _ s', HIGH_MEMORY s' = HIGH_MEMORY s ∧
    length (mem_map s') = length (mem_map s) ∧
    ∀ j, mem_map s' !! j = if decide (i ≤ j < i + n)%nat then Some 0 else mem_map s !! j) s.
Proof.
  induction n as [|n IH]; intros i s Hi.
  { apply wp_ret. split_and!; [done|done|]. intros j. by rewrite decide_False by lia. }
  cbn [free_from]. apply wp_bind. eapply wp_eq; [apply put_map_eq; lia|].
  replace (Z.of_nat i + 1) with (Z.of_nat (S i)) by lia.
  eapply wp_mono; [apply IH; cbn; rewrite length_insert; lia|].
  intros [] s' (Hhi & Hlen & Hj). cbn in Hhi, Hlen. rewrite length_insert in Hlen. split_and!; [done|done|].
  intros j. rewrite Hj. cbn. destruct (decide (j = i)) as [->|Hne].
  - rewrite decide_False, decide_True by lia. by rewrite list_lookup_insert_eq by lia.
  - rewrite list_lookup_insert_ne by done.
    clear Hj. by repeat case_decide; try lia.
Qed.

Lemma mem_init_run (start_mem end_mem : Z) (s : mem) :
  LOW_MEM ≤ start_mem ≤ end_mem → end_mem ≤ LOW_MEM + PAGING_MEMORY →
  start_mem mod 4096 = 0 → end_mem mod 4096 = 0 →
  wp (mem_init start_mem end_mem) (λ _ s', mem_ok s' ∧ HIGH_MEMORY s' = end_mem ∧
    ∀ i, mem_map s' !! i = Some 0 ↔ start_mem ≤ frame i < end_mem) s.
Proof.
  intros Hs He Hsm Hem. unfold mem_init. apply wp_bind, wp_modify, wp_bind, wp_modify.
  pose proof (Z.div_mod (start_mem - LOW_MEM) 4096 ltac:(done)) as Hds.
  pose proof (Z.div_mod (end_mem - start_mem) 4096 ltac:(done)) as Hde.
  assert ((start_mem - LOW_MEM) mod 4096 = 0) as Hm1.
  { unfold LOW_MEM. rewrite Zminus_mod, Hsm. done. }
  assert ((end_mem - start_mem) mod 4096 = 0) as Hm2 by (rewrite Zminus_mod, Hem, Hsm; done).
  rewrite Hm1 in Hds. rewrite Hm2 in Hde. rewrite !Z.shiftr_div_pow2 by lia. change (2 ^ 12) with 4096.
  set (a := (start_mem - LOW_MEM) / 4096) in *. set (n := (end_mem - start_mem) / 4096) in *.
  assert (0 ≤ a) by lia. assert (0 ≤ n) by lia.
  unfold PAGING_MEMORY in He.
  rewrite <- (Z2Nat.id a) by done. 
  eapply wp_mono; [apply free_from_run; cbn [mem_map set_mem_map]; rewrite length_replicate, PAGING_PAGES_val; lia|].
  intros [] s' (Hhi & Hlen & Hj). cbn in Hhi. cbn [mem_map set_mem_map] in Hlen, Hj. rewrite length_replicate in Hlen.
  assert (Hiff : ∀ i, mem_map s' !! i = Some 0 ↔ start_mem ≤ frame i < end_mem).
  { intros i. rewrite Hj. unfold frame. case_decide as Hd; [split; [lia|done]|].
    split; [|lia]. intros Hr. apply lookup_replicate in Hr as [? _]. done. }
  split; [|done]. constructor; rewrite ?Hhi.
  - done.
  - apply Forall_lookup. intros i c. rewrite Hj. case_decide; [intros [= <-]; unfold byte_ok; lia|].
    intros [-> _]%lookup_replicate. unfold byte_ok, USED. lia.
  - unfold PAGING_MEMORY. lia.
  - intros i Hi _ Hz%Hiff. lia.
Qed.

(** *** Translation of linear addresses *)
(** the page tables in use are pages of their own, outside of the directory *)
Record tables_ok (p : Z → Z) : Prop := {
  to_bytes : bytes_mem p;
  to_above i : 0 ≤ i < 1024 → present (rd32 p (4 * i)) = true → 4096 ≤ page_of (rd32 p (4 * i));
  to_distinct i j : 0 ≤ i < 1024 → 0 ≤ j < 1024 → i ≠ j →
    present (rd32 p (4 * i)) = true → present (rd32 p (4 * j)) = true →
    page_of (rd32 p (4 * i)) ≠ page_of (rd32 p (4 * j))
}.

Lemma dir_index a : 0 ≤ a < 2 ^ 32 → Z.land (Z.shiftr a 20) 0xffc = 4 * (a / 2 ^ 22) ∧ 0 ≤ a / 2 ^ 22 < 1024.
Proof.
  intros Ha. split; [|split; [apply Z.div_pos; lia|apply Z.div_lt_upper_bound; lia]].
  assert (Z.shiftr a 22 = a / 2 ^ 22) as <- by (by rewrite Z.shiftr_div_pow2 by lia).
  replace (4 * Z.shiftr a 22) with (Z.shiftl (Z.shiftr a 22) 2) by (rewrite Z.shiftl_mul_pow2 by lia; lia).
  apply Z.bits_inj'. intros k Hk. rewrite Z.land_spec, Z.shiftr_spec, Z.shiftl_spec by lia.
  replace 0xffc with (Z.shiftl (Z.ones 10) 2) by done. rewrite Z.shiftl_spec by lia.
  destruct (Z.ltb_spec k 2); [rewrite !(Z.testbit_neg_r _ (k - 2)) by lia; by rewrite andb_false_r|].
  rewrite Z.shiftr_spec by lia. replace (k - 2 + 22) with (k + 20) by lia.
  destruct (Z.ltb_spec (k - 2) 10); [rewrite Z.ones_spec_low by lia; by rewrite andb_true_r|].
  rewrite Z.ones_spec_high by lia. rewrite andb_false_r. symmetry.
  destruct (decide (a = 0)) as [->|]; [apply Z.bits_0|].
  apply Z.bits_above_log2; [lia|]. apply Z.log2_lt_pow2; [lia|].
  apply Z.lt_le_trans with (2 ^ 32); [lia|]. apply Z.pow_le_mono_r; lia.
Qed.

Lemma table_index a : Z.land (Z.shiftr a 12) 0x3ff = (a / 4096) mod 1024.
Proof. change 0x3ff with (Z.ones 10). rewrite Z.land_ones, Z.shiftr_div_pow2 by lia. done. Qed.

Lemma page_of_mult e : 0 ≤ e < 2 ^ 32 → ∃ q, page_of e = 4096 * q ∧ 0 ≤ q < 2 ^ 20.
Proof.
  intros He. exists (e / 4096). rewrite page_of_bits by done. split; [done|].
  split; [apply Z.div_pos; lia|apply Z.div_lt_upper_bound; lia].
Qed.

Lemma dir_bound p i : bytes_mem p → 0 ≤ rd32 p (4 * i) < 2 ^ 32.
Proof. apply rd32_bound. Qed.

Lemma translate_eq p a :
  0 ≤ a < 2 ^ 32 →
  translate p a =
    (let d := rd32 p (4 * (a / 2 ^ 22)) in
     if present d then
       let e := rd32 p (page_of d + 4 * ((a / 4096) mod 1024)) in
       if present e then Some (page_of e + a mod 4096) else None
     else None).
Proof. intros Ha. unfold translate. destruct (dir_index a Ha) as [-> _]. by rewrite table_index. Qed.

Lemma div_page a b :
  0 ≤ a → 0 ≤ b → a / 2 ^ 22 = b / 2 ^ 22 → (a / 4096) mod 1024 = (b / 4096) mod 1024 → a / 4096 = b / 4096.
Proof.
  intros Ha Hb. replace (2 ^ 22) with (4096 * 1024) by done. rewrite <- !Z.div_div by lia.
  intros Hd Hm. rewrite (Z.div_mod (a / 4096) 1024), (Z.div_mod (b / 4096) 1024) by done. congruence.
Qed.

(** storing one entry of a page table changes the translation of one page *)
Lemma translate_store p i k v a :
  tables_ok p → 0 ≤ i < 1024 → 0 ≤ k < 1024 → present (rd32 p (4 * i)) = true → 0 ≤ v < 2 ^ 32 →
  0 ≤ a < 2 ^ 32 →
  translate (wr32 (page_of (rd32 p (4 * i)) + 4 * k) v p) a =
    if decide (a / 2 ^ 22 = i ∧ (a / 4096) mod 1024 = k)
    then (if present v then Some (page_of v + a mod 4096) else None) else translate p a.
Proof.
  intros [Hbytes Habove Hdist] Hi Hk Hp Hv Ha. rewrite !translate_eq by done.
  destruct (dir_index a Ha) as [_ Hj]. set (j := a / 2 ^ 22) in *.
  pose proof (Z.mod_pos_bound (a / 4096) 1024 ltac:(done)) as Hm. set (m := (a / 4096) mod 1024) in *.
  set (T := page_of (rd32 p (4 * i))) in *.
  pose proof (Habove i Hi Hp) as HT. fold T in HT. cbn zeta.
  rewrite (rd32_wr32_ne _ (4 * j)) by lia.
  destruct (present (rd32 p (4 * j))) eqn:Ej.
  2:{ destruct (decide (j = i ∧ m = k)) as [[-> _]|]; [congruence|done]. }
  destruct (decide (j = i ∧ m = k)) as [[-> ->]|Hne].
  - fold T. by rewrite rd32_wr32.
  - rewrite rd32_wr32_ne; [done|].
    destruct (page_of_mult _ (dir_bound p i Hbytes)) as (q & Hq & _). fold T in Hq.
    destruct (page_of_mult _ (dir_bound p j Hbytes)) as (r & Hr & _). rewrite Hq, Hr.
    destruct (decide (j = i)) as [->|Hji]; [fold T in Hr; lia|].
    pose proof (Hdist j i Hj Hi Hji Ej Hp) as Hne'. fold T in Hne'. lia.
Qed.

(** an entry made of a page and flags *)
Lemma frame_mult k : frame k = 4096 * (256 + Z.of_nat k).
Proof. unfold frame, LOW_MEM. lia. Qed.
Lemma page_of_frame k f : Z.of_nat k < 2 ^ 18 → 0 ≤ f < 4096 → page_of (frame k + f) = frame k.
Proof.
  intros Hk Hf. rewrite frame_mult. rewrite page_of_bits by lia. f_equal.
  replace (4096 * (256 + Z.of_nat k) + f) with ((256 + Z.of_nat k) * 4096 + f) by lia.
  rewrite Z.div_add_l, Z.div_small by lia. lia.
Qed.
Lemma present_frame k : present (frame k + 7) = true.
Proof.
  unfold present. rewrite frame_mult.
  replace (4096 * (256 + Z.of_nat k) + 7) with (2 * (2048 * (256 + Z.of_nat k) + 3) + 1) by lia.
  apply Z.testbit_odd_0.
Qed.

(** a page directory entry made to point to a cleared table *)
Lemma translate_new_table p i k :
  tables_ok p → 0 ≤ i < 1024 → (Z.of_nat k < 2 ^ 18) → present (rd32 p (4 * i)) = false →
  (∀ j, 0 ≤ j < 1024 → present (rd32 p (4 * j)) = true → page_of (rd32 p (4 * j)) ≠ frame k) →
  let q := wr32 (4 * i) (frame k + 7) (clear_page (frame k) p) in
  tables_ok q ∧ rd32 q (4 * i) = frame k + 7 ∧ (∀ a, 0 ≤ a < 2 ^ 32 → translate q a = translate p a).
Proof.
  intros [Hbytes Habove Hdist] Hi Hk Hp Hfresh q.
  pose proof (frame_mult k) as Hf.
  assert (Hd : ∀ j, 0 ≤ j < 1024 → rd32 q (4 * j) = if decide (j = i) then frame k + 7 else rd32 p (4 * j)).
  { intros j Hj. unfold q. case_decide as E; [subst; apply rd32_wr32; lia|].
    rewrite rd32_wr32_ne by lia. apply rd32_ext. intros x Hx. unfold clear_page.
    by rewrite (proj2 (andb_false_iff _ _)) by lia. }
  pose proof (page_of_frame k 7 Hk ltac:(lia)) as Hpg. pose proof (present_frame k) as Hpr.
  assert (Hbq : bytes_mem q).
  { apply wr32_bytes. intros x. unfold clear_page. destruct (_ && _); [lia|apply Hbytes]. }
  split; [|split].
  - constructor; [done| |].
    + intros j Hj. rewrite Hd by done. case_decide; [intros _; rewrite Hpg; lia|by apply Habove].
    + intros j l Hj Hl Hjl. rewrite !Hd by done. repeat case_decide; subst; rewrite ?Hpg; try done.
      * intros _ Hpl He. by apply (Hfresh l Hl Hpl).
      * intros Hpj _ He. by apply (Hfresh j Hj Hpj).
      * by apply Hdist.
  - rewrite Hd by done. by rewrite decide_True.
  - intros a Ha. rewrite !translate_eq by done. destruct (dir_index a Ha) as [_ Hj]. set (j := a / 2 ^ 22) in *.
    pose proof (Z.mod_pos_bound (a / 4096) 1024 ltac:(done)) as Hm. set (m := (a / 4096) mod 1024) in *.
    cbn zeta. rewrite Hd by done. case_decide as E.
    + subst j. rewrite E, Hp, Hpr, Hpg.
      assert (rd32 q (frame k + 4 * m) = 0) as ->; [|done].
      transitivity (rd32 (λ _, 0) (frame k + 4 * m)); [|done]. apply rd32_ext. intros x Hx. unfold q, wr32, clear_page.
      rewrite (proj2 (andb_false_iff _ _)) by lia. by rewrite (proj2 (andb_true_iff _ _)) by lia.
    + destruct (present (rd32 p (4 * j))) eqn:Ej; [|done].
      pose proof (Hfresh j Hj Ej) as Hne. pose proof (Habove j Hj Ej) as Hab.
      destruct (page_of_mult _ (dir_bound p j Hbytes)) as (r & Hr & _).
      assert (rd32 q (page_of (rd32 p (4 * j)) + 4 * m) = rd32 p (page_of (rd32 p (4 * j)) + 4 * m)) as ->; [|done].
      apply rd32_ext. intros x Hx. unfold q, wr32, clear_page.
      rewrite !(proj2 (andb_false_iff _ _)) by lia. done.
Qed.

(** C15. [put_page] maps the page at the address asked for and changes the
    translation of no other page; it allocates and links a page table when
    the address has none, and returns 0 without mapping anything when memory
    runs out. *)
Theorem put_page_maps (s : mem) (i : nat) (address : Z) :
  mem_ok s → tables_ok (phys s) → 0 ≤ address < 2 ^ 32 →
  (i < length (mem_map s))%nat →
  (* page tables are pages in use *)
  (∀ j k, 0 ≤ j < 1024 → present (rd32 (phys s) (4 * j)) = true →
     mem_map s !! k = Some 0 → page_of (rd32 (phys s) (4 * j)) ≠ frame k) →
  wp (put_page (frame i) address) (λ r s',
    r = 0 ∧ s' = s ∧ (∀ k, mem_map s !! k ≠ Some 0) ∧ translate (phys s) address = None ∨
    r = frame i ∧ translate (phys s') address = Some (frame i + address mod 4096) ∧
    ∀ a, 0 ≤ a < 2 ^ 32 → a / 4096 ≠ address / 4096 →
      translate (phys s') a = translate (phys s) a) s.
Proof.
  intros Hok Htab Ha Hi Huse. pose proof (mo_len _ Hok) as Hlen. rewrite PAGING_PAGES_val in Hlen.
  destruct (lookup_lt_is_Some_2 _ _ Hi) as [c Hc]. destruct (dir_index _ Ha) as [Hdir Hdr].
  set (j := address / 2 ^ 22) in *. pose proof (table_index address) as Hti.
  pose proof (Z.mod_pos_bound (address / 4096) 1024 ltac:(done)) as Hm. set (m := (address / 4096) mod 1024) in *.
  pose proof frame_mult as Hf.
  assert (H7 : ∀ k, (k < 3840)%nat → Z.lor (frame k) 7 = frame k + 7).
  { intros k Hk. rewrite Hf. apply lor_flags; lia. }
  pose proof (page_of_frame i 7 ltac:(lia) ltac:(lia)) as Hpg. pose proof (present_frame i) as Hpr.
  assert (Hstore : ∀ p, tables_ok p → present (rd32 p (4 * j)) = true →
     (∀ a, 0 ≤ a < 2 ^ 32 → translate p a = translate (phys s) a) →
     let p' := wr32 (page_of (rd32 p (4 * j)) + 4 * m) (frame i + 7) p in
     translate p' address = Some (frame i + address mod 4096) ∧
     ∀ a, 0 ≤ a < 2 ^ 32 → a / 4096 ≠ address / 4096 → translate p' a = translate (phys s) a).
  { intros p Hp Hpj Hsame p'. assert (0 ≤ frame i + 7 < 2 ^ 32) by (rewrite Hf; lia). split.
    - unfold p'. rewrite translate_store by done. rewrite decide_True by done. by rewrite Hpr, Hpg.
    - intros a Har Hne. unfold p'. rewrite translate_store by done. rewrite decide_False; [by apply Hsame|].
      intros [E1 E2]. apply Hne. apply div_page; [lia|lia|done|done]. }
  unfold put_page. rewrite <- (Z.add_0_r (frame i)) at 1. rewrite MAP_NR_frame by lia.
  apply wp_bind. eapply wp_eq; [by apply get_map_eq|]. cbn zeta. rewrite Hdir, Hti.
  apply wp_bind, wp_gets. rewrite H7 by lia. destruct (present (rd32 (phys s) (4 * j))) eqn:Ep.
  - apply wp_bind, wp_modify, wp_ret. right. split; [done|]. cbn. by apply Hstore.
  - apply wp_bind. destruct (get_free_page_run s Hok) as [(k & Hk & Hz & _ & Hrun)|[Hno Hrun]].
    + eapply wp_eq; [exact Hrun|]. rewrite (proj2 (Z.eqb_neq _ _)) by (rewrite Hf; lia).
      apply wp_bind, wp_modify, wp_bind, wp_modify, wp_ret. right. split; [done|]. cbn.
      rewrite H7 by lia.
      destruct (translate_new_table (phys s) j k) as (Htab' & Hrd & Hsame); try done; [lia| |].
      { intros l Hl Hpl. by eapply Huse. }
      destruct (Hstore _ Htab') as [H1 H2]; [|exact Hsame|].
      { rewrite Hrd. apply present_frame. }
      rewrite Hrd, page_of_frame in H1, H2 by lia. done.
    + eapply wp_eq; [exact Hrun|]. cbn. apply wp_ret. left. split_and!; try done.
      rewrite translate_eq by done. fold j. cbn zeta. by rewrite Ep.
Qed.

(** no page table yet: the first page mapped needs one *)
Definition empty_tables : mem := mk_mem (mem_map three_pages) (LOW_MEM + 3 * 4096) (λ _, 0).

Lemma put_page_maps_witness :
  wp (put_page (frame 1) 0x8001234) (λ r s',
    r = 0 ∧ s' = empty_tables ∧ (∀ k, mem_map empty_tables !! k ≠ Some 0) ∧
      translate (phys empty_tables) 0x8001234 = None ∨
    r = frame 1 ∧ translate (phys s') 0x8001234 = Some (frame 1 + 0x8001234 mod 4096) ∧
    ∀ a, 0 ≤ a < 2 ^ 32 → a / 4096 ≠ 0x8001234 / 4096 →
      translate (phys s') a = translate (phys empty_tables) a) empty_tables.
Proof.
  assert (Hno : ∀ a, present (rd32 (phys empty_tables) a) = false) by reflexivity.
  apply (put_page_maps empty_tables 1 0x8001234).
  - destruct three_pages_ok. by constructor.
  - constructor; [intros x; cbn; lia| |].
    + intros i _ Hp. by rewrite Hno in Hp.
    + intros i j _ _ _ Hp. by rewrite Hno in Hp.
  - lia.
  - cbn; lia.
  - intros j k _ Hp. by rewrite Hno in Hp.
Defined.
