(* ===== verification/Task.v ===== *)
(** * Tasks

    The task table of [include/linux/sched.h]: [struct task_struct] without the
    floating-point state and the unused stacks of its [tss], and the globals of
    sched.c and fork.c that the rest of the kernel reads.  A task is known by
    its slot in the table; [t_page] is the address of the page that holds it. *)

From S2P Require Import Prelude Blk.

Definition NR_TASKS : nat := 64.
Definition HZ : Z := 100.
Definition TASK_RUNNING : Z := 0.
Definition TASK_INTERRUPTIBLE : Z := 1.
Definition TASK_UNINTERRUPTIBLE : Z := 2.
Definition TASK_ZOMBIE : Z := 3.
Definition TASK_STOPPED : Z := 4.
Definition NR_OPEN : nat := 20.

(** error numbers (include/errno.h) *)
Definition ERROR : Z := 99.
Definition EPERM : Z := 1.
Definition ENOENT : Z := 2.
Definition ESRCH : Z := 3.
Definition EINTR : Z := 4.
Definition EIO : Z := 5.
Definition E2BIG : Z := 7.
Definition ENOEXEC : Z := 8.
Definition EBADF : Z := 9.
Definition ECHILD : Z := 10.
Definition EAGAIN : Z := 11.
Definition ENOMEM : Z := 12.
Definition EACCES : Z := 13.
Definition ENOTBLK : Z := 15.
Definition EBUSY : Z := 16.
Definition EEXIST : Z := 17.
Definition EXDEV : Z := 18.
Definition ENODEV : Z := 19.
Definition ENOTDIR : Z := 20.
Definition EISDIR : Z := 21.
Definition EINVAL : Z := 22.
Definition ENFILE : Z := 23.
Definition EMFILE : Z := 24.
Definition ENOTTY : Z := 25.
Definition ENOSPC : Z := 28.
Definition ESPIPE : Z := 29.
Definition ENOSYS : Z := 38.
Definition ENOTEMPTY : Z := 39.

(** signals (include/signal.h) *)
Definition SIGHUP : Z := 1.
Definition SIGINT : Z := 2.
Definition SIGQUIT : Z := 3.
Definition SIGKILL : Z := 9.
Definition SIGSEGV : Z := 11.
Definition SIGPIPE : Z := 13.
Definition SIGALRM : Z := 14.
Definition SIGCHLD : Z := 17.
Definition SIGSTOP : Z := 19.

(** [struct sigaction] (include/signal.h) *)
Record sigaction := mk_sigaction {
  sa_handler : Z;
  sa_mask : Z;
  sa_flags : Z;
  sa_restorer : Z
}.
Definition set_sa_handler (v : Z) (x : sigaction) : sigaction := mk_sigaction v (sa_mask x) (sa_flags x) (sa_restorer x).

(** a segment descriptor of the [ldt], by its base and its limit *)
Record desc := mk_desc { d_base : Z; d_limit : Z }.

(** [struct tss_struct] *)
Record tss := mk_tss {
  back_link : Z; esp0 : Z; ss0 : Z; r_eip : Z; r_eflags : Z;
  r_eax : Z; r_ecx : Z; r_edx : Z; r_ebx : Z; r_esp : Z; r_ebp : Z; r_esi : Z; r_edi : Z;
  r_es : Z; r_cs : Z; r_ss : Z; r_ds : Z; r_fs : Z; r_gs : Z;
  r_ldt : Z; trace_bitmap : Z
}.
Definition zero_tss : tss := mk_tss 0 0 0 0 0 0 0 0 0 0 0 0 0 0 0 0 0 0 0 0 0.

Record task_struct := mk_task {
  t_state : Z;
  t_counter : Z;
  t_priority : Z;
  t_signal : Z;
  t_sigaction : list sigaction;
  t_blocked : Z;
  t_exit_code : Z;
  t_start_code : Z;
  t_end_code : Z;
  t_end_data : Z;
  t_brk : Z;
  t_start_stack : Z;
  t_pid : Z;
  t_father : Z;
  t_pgrp : Z;
  t_session : Z;
  t_leader : Z;
  t_uid : Z;
  t_euid : Z;
  t_suid : Z;
  t_gid : Z;
  t_egid : Z;
  t_sgid : Z;
  t_alarm : Z;
  t_utime : Z;
  t_stime : Z;
  t_cutime : Z;
  t_cstime : Z;
  t_start_time : Z;
  t_used_math : Z;
  t_tty : Z;
  t_umask : Z;
  t_pwd : ptr;
  t_root : ptr;
  t_executable : ptr;
  t_close_on_exec : Z;
  t_filp : list ptr;
  t_ldt : list desc;
  t_tss : tss;
  t_page : Z
}.

Definition set_t_state (v : Z) (x : task_struct) : task_struct :=
  mk_task v (t_counter x) (t_priority x) (t_signal x) (t_sigaction x) (t_blocked x) (t_exit_code x) (t_start_code x) (t_end_code x) (t_end_data x) (t_brk x) (t_start_stack x) (t_pid x) (t_father x) (t_pgrp x) (t_session x) (t_leader x) (t_uid x) (t_euid x) (t_suid x) (t_gid x) (t_egid x) (t_sgid x) (t_alarm x) (t_utime x) (t_stime x) (t_cutime x) (t_cstime x) (t_start_time x) (t_used_math x) (t_tty x) (t_umask x) (t_pwd x) (t_root x) (t_executable x) (t_close_on_exec x) (t_filp x) (t_ldt x) (t_tss x) (t_page x).
Definition set_t_counter (v : Z) (x : task_struct) : task_struct :=
  mk_task (t_state x) v (t_priority x) (t_signal x) (t_sigaction x) (t_blocked x) (t_exit_code x) (t_start_code x) (t_end_code x) (t_end_data x) (t_brk x) (t_start_stack x) (t_pid x) (t_father x) (t_pgrp x) (t_session x) (t_leader x) (t_uid x) (t_euid x) (t_suid x) (t_gid x) (t_egid x) (t_sgid x) (t_alarm x) (t_utime x) (t_stime x) (t_cutime x) (t_cstime x) (t_start_time x) (t_used_math x) (t_tty x) (t_umask x) (t_pwd x) (t_root x) (t_executable x) (t_close_on_exec x) (t_filp x) (t_ldt x) (t_tss x) (t_page x).
Definition set_t_priority (v : Z) (x : task_struct) : task_struct :=
  mk_task (t_state x) (t_counter x) v (t_signal x) (t_sigaction x) (t_blocked x) (t_exit_code x) (t_start_code x) (t_end_code x) (t_end_data x) (t_brk x) (t_start_stack x) (t_pid x) (t_father x) (t_pgrp x) (t_session x) (t_leader x) (t_uid x) (t_euid x) (t_suid x) (t_gid x) (t_egid x) (t_sgid x) (t_alarm x) (t_utime x) (t_stime x) (t_cutime x) (t_cstime x) (t_start_time x) (t_used_math x) (t_tty x) (t_umask x) (t_pwd x) (t_root x) (t_executable x) (t_close_on_exec x) (t_filp x) (t_ldt x) (t_tss x) (t_page x).
Definition set_t_signal (v : Z) (x : task_struct) : task_struct :=
  mk_task (t_state x) (t_counter x) (t_priority x) v (t_sigaction x) (t_blocked x) (t_exit_code x) (t_start_code x) (t_end_code x) (t_end_data x) (t_brk x) (t_start_stack x) (t_pid x) (t_father x) (t_pgrp x) (t_session x) (t_leader x) (t_uid x) (t_euid x) (t_suid x) (t_gid x) (t_egid x) (t_sgid x) (t_alarm x) (t_utime x) (t_stime x) (t_cutime x) (t_cstime x) (t_start_time x) (t_used_math x) (t_tty x) (t_umask x) (t_pwd x) (t_root x) (t_executable x) (t_close_on_exec x) (t_filp x) (t_ldt x) (t_tss x) (t_page x).
Definition set_t_sigaction (v : list sigaction) (x : task_struct) : task_struct :=
  mk_task (t_state x) (t_counter x) (t_priority x) (t_signal x) v (t_blocked x) (t_exit_code x) (t_start_code x) (t_end_code x) (t_end_data x) (t_brk x) (t_start_stack x) (t_pid x) (t_father x) (t_pgrp x) (t_session x) (t_leader x) (t_uid x) (t_euid x) (t_suid x) (t_gid x) (t_egid x) (t_sgid x) (t_alarm x) (t_utime x) (t_stime x) (t_cutime x) (t_cstime x) (t_start_time x) (t_used_math x) (t_tty x) (t_umask x) (t_pwd x) (t_root x) (t_executable x) (t_close_on_exec x) (t_filp x) (t_ldt x) (t_tss x) (t_page x).
Definition set_t_blocked (v : Z) (x : task_struct) : task_struct :=
  mk_task (t_state x) (t_counter x) (t_priority x) (t_signal x) (t_sigaction x) v (t_exit_code x) (t_start_code x) (t_end_code x) (t_end_data x) (t_brk x) (t_start_stack x) (t_pid x) (t_father x) (t_pgrp x) (t_session x) (t_leader x) (t_uid x) (t_euid x) (t_suid x) (t_gid x) (t_egid x) (t_sgid x) (t_alarm x) (t_utime x) (t_stime x) (t_cutime x) (t_cstime x) (t_start_time x) (t_used_math x) (t_tty x) (t_umask x) (t_pwd x) (t_root x) (t_executable x) (t_close_on_exec x) (t_filp x) (t_ldt x) (t_tss x) (t_page x).
Definition set_t_exit_code (v : Z) (x : task_struct) : task_struct :=
  mk_task (t_state x) (t_counter x) (t_priority x) (t_signal x) (t_sigaction x) (t_blocked x) v (t_start_code x) (t_end_code x) (t_end_data x) (t_brk x) (t_start_stack x) (t_pid x) (t_father x) (t_pgrp x) (t_session x) (t_leader x) (t_uid x) (t_euid x) (t_suid x) (t_gid x) (t_egid x) (t_sgid x) (t_alarm x) (t_utime x) (t_stime x) (t_cutime x) (t_cstime x) (t_start_time x) (t_used_math x) (t_tty x) (t_umask x) (t_pwd x) (t_root x) (t_executable x) (t_close_on_exec x) (t_filp x) (t_ldt x) (t_tss x) (t_page x).
Definition set_t_start_code (v : Z) (x : task_struct) : task_struct :=
  mk_task (t_state x) (t_counter x) (t_priority x) (t_signal x) (t_sigaction x) (t_blocked x) (t_exit_code x) v (t_end_code x) (t_end_data x) (t_brk x) (t_start_stack x) (t_pid x) (t_father x) (t_pgrp x) (t_session x) (t_leader x) (t_uid x) (t_euid x) (t_suid x) (t_gid x) (t_egid x) (t_sgid x) (t_alarm x) (t_utime x) (t_stime x) (t_cutime x) (t_cstime x) (t_start_time x) (t_used_math x) (t_tty x) (t_umask x) (t_pwd x) (t_root x) (t_executable x) (t_close_on_exec x) (t_filp x) (t_ldt x) (t_tss x) (t_page x).
Definition set_t_end_code (v : Z) (x : task_struct) : task_struct :=
  mk_task (t_state x) (t_counter x) (t_priority x) (t_signal x) (t_sigaction x) (t_blocked x) (t_exit_code x) (t_start_code x) v (t_end_data x) (t_brk x) (t_start_stack x) (t_pid x) (t_father x) (t_pgrp x) (t_session x) (t_leader x) (t_uid x) (t_euid x) (t_suid x) (t_gid x) (t_egid x) (t_sgid x) (t_alarm x) (t_utime x) (t_stime x) (t_cutime x) (t_cstime x) (t_start_time x) (t_used_math x) (t_tty x) (t_umask x) (t_pwd x) (t_root x) (t_executable x) (t_close_on_exec x) (t_filp x) (t_ldt x) (t_tss x) (t_page x).
Definition set_t_end_data (v : Z) (x : task_struct) : task_struct :=
  mk_task (t_state x) (t_counter x) (t_priority x) (t_signal x) (t_sigaction x) (t_blocked x) (t_exit_code x) (t_start_code x) (t_end_code x) v (t_brk x) (t_start_stack x) (t_pid x) (t_father x) (t_pgrp x) (t_session x) (t_leader x) (t_uid x) (t_euid x) (t_suid x) (t_gid x) (t_egid x) (t_sgid x) (t_alarm x) (t_utime x) (t_stime x) (t_cutime x) (t_cstime x) (t_start_time x) (t_used_math x) (t_tty x) (t_umask x) (t_pwd x) (t_root x) (t_executable x) (t_close_on_exec x) (t_filp x) (t_ldt x) (t_tss x) (t_page x).
Definition set_t_brk (v : Z) (x : task_struct) : task_struct :=
  mk_task (t_state x) (t_counter x) (t_priority x) (t_signal x) (t_sigaction x) (t_blocked x) (t_exit_code x) (t_start_code x) (t_end_code x) (t_end_data x) v (t_start_stack x) (t_pid x) (t_father x) (t_pgrp x) (t_session x) (t_leader x) (t_uid x) (t_euid x) (t_suid x) (t_gid x) (t_egid x) (t_sgid x) (t_alarm x) (t_utime x) (t_stime x) (t_cutime x) (t_cstime x) (t_start_time x) (t_used_math x) (t_tty x) (t_umask x) (t_pwd x) (t_root x) (t_executable x) (t_close_on_exec x) (t_filp x) (t_ldt x) (t_tss x) (t_page x).
Definition set_t_start_stack (v : Z) (x : task_struct) : task_struct :=
  mk_task (t_state x) (t_counter x) (t_priority x) (t_signal x) (t_sigaction x) (t_blocked x) (t_exit_code x) (t_start_code x) (t_end_code x) (t_end_data x) (t_brk x) v (t_pid x) (t_father x) (t_pgrp x) (t_session x) (t_leader x) (t_uid x) (t_euid x) (t_suid x) (t_gid x) (t_egid x) (t_sgid x) (t_alarm x) (t_utime x) (t_stime x) (t_cutime x) (t_cstime x) (t_start_time x) (t_used_math x) (t_tty x) (t_umask x) (t_pwd x) (t_root x) (t_executable x) (t_close_on_exec x) (t_filp x) (t_ldt x) (t_tss x) (t_page x).
Definition set_t_pid (v : Z) (x : task_struct) : task_struct :=
  mk_task (t_state x) (t_counter x) (t_priority x) (t_signal x) (t_sigaction x) (t_blocked x) (t_exit_code x) (t_start_code x) (t_end_code x) (t_end_data x) (t_brk x) (t_start_stack x) v (t_father x) (t_pgrp x) (t_session x) (t_leader x) (t_uid x) (t_euid x) (t_suid x) (t_gid x) (t_egid x) (t_sgid x) (t_alarm x) (t_utime x) (t_stime x) (t_cutime x) (t_cstime x) (t_start_time x) (t_used_math x) (t_tty x) (t_umask x) (t_pwd x) (t_root x) (t_executable x) (t_close_on_exec x) (t_filp x) (t_ldt x) (t_tss x) (t_page x).
Definition set_t_father (v : Z) (x : task_struct) : task_struct :=
  mk_task (t_state x) (t_counter x) (t_priority x) (t_signal x) (t_sigaction x) (t_blocked x) (t_exit_code x) (t_start_code x) (t_end_code x) (t_end_data x) (t_brk x) (t_start_stack x) (t_pid x) v (t_pgrp x) (t_session x) (t_leader x) (t_uid x) (t_euid x) (t_suid x) (t_gid x) (t_egid x) (t_sgid x) (t_alarm x) (t_utime x) (t_stime x) (t_cutime x) (t_cstime x) (t_start_time x) (t_used_math x) (t_tty x) (t_umask x) (t_pwd x) (t_root x) (t_executable x) (t_close_on_exec x) (t_filp x) (t_ldt x) (t_tss x) (t_page x).
Definition set_t_pgrp (v : Z) (x : task_struct) : task_struct :=
  mk_task (t_state x) (t_counter x) (t_priority x) (t_signal x) (t_sigaction x) (t_blocked x) (t_exit_code x) (t_start_code x) (t_end_code x) (t_end_data x) (t_brk x) (t_start_stack x) (t_pid x) (t_father x) v (t_session x) (t_leader x) (t_uid x) (t_euid x) (t_suid x) (t_gid x) (t_egid x) (t_sgid x) (t_alarm x) (t_utime x) (t_stime x) (t_cutime x) (t_cstime x) (t_start_time x) (t_used_math x) (t_tty x) (t_umask x) (t_pwd x) (t_root x) (t_executable x) (t_close_on_exec x) (t_filp x) (t_ldt x) (t_tss x) (t_page x).
Definition set_t_session (v : Z) (x : task_struct) : task_struct :=
  mk_task (t_state x) (t_counter x) (t_priority x) (t_signal x) (t_sigaction x) (t_blocked x) (t_exit_code x) (t_start_code x) (t_end_code x) (t_end_data x) (t_brk x) (t_start_stack x) (t_pid x) (t_father x) (t_pgrp x) v (t_leader x) (t_uid x) (t_euid x) (t_suid x) (t_gid x) (t_egid x) (t_sgid x) (t_alarm x) (t_utime x) (t_stime x) (t_cutime x) (t_cstime x) (t_start_time x) (t_used_math x) (t_tty x) (t_umask x) (t_pwd x) (t_root x) (t_executable x) (t_close_on_exec x) (t_filp x) (t_ldt x) (t_tss x) (t_page x).
Definition set_t_leader (v : Z) (x : task_struct) : task_struct :=
  mk_task (t_state x) (t_counter x) (t_priority x) (t_signal x) (t_sigaction x) (t_blocked x) (t_exit_code x) (t_start_code x) (t_end_code x) (t_end_data x) (t_brk x) (t_start_stack x) (t_pid x) (t_father x) (t_pgrp x) (t_session x) v (t_uid x) (t_euid x) (t_suid x) (t_gid x) (t_egid x) (t_sgid x) (t_alarm x) (t_utime x) (t_stime x) (t_cutime x) (t_cstime x) (t_start_time x) (t_used_math x) (t_tty x) (t_umask x) (t_pwd x) (t_root x) (t_executable x) (t_close_on_exec x) (t_filp x) (t_ldt x) (t_tss x) (t_page x).
Definition set_t_uid (v : Z) (x : task_struct) : task_struct :=
  mk_task (t_state x) (t_counter x) (t_priority x) (t_signal x) (t_sigaction x) (t_blocked x) (t_exit_code x) (t_start_code x) (t_end_code x) (t_end_data x) (t_brk x) (t_start_stack x) (t_pid x) (t_father x) (t_pgrp x) (t_session x) (t_leader x) v (t_euid x) (t_suid x) (t_gid x) (t_egid x) (t_sgid x) (t_alarm x) (t_utime x) (t_stime x) (t_cutime x) (t_cstime x) (t_start_time x) (t_used_math x) (t_tty x) (t_umask x) (t_pwd x) (t_root x) (t_executable x) (t_close_on_exec x) (t_filp x) (t_ldt x) (t_tss x) (t_page x).
Definition set_t_euid (v : Z) (x : task_struct) : task_struct :=
  mk_task (t_state x) (t_counter x) (t_priority x) (t_signal x) (t_sigaction x) (t_blocked x) (t_exit_code x) (t_start_code x) (t_end_code x) (t_end_data x) (t_brk x) (t_start_stack x) (t_pid x) (t_father x) (t_pgrp x) (t_session x) (t_leader x) (t_uid x) v (t_suid x) (t_gid x) (t_egid x) (t_sgid x) (t_alarm x) (t_utime x) (t_stime x) (t_cutime x) (t_cstime x) (t_start_time x) (t_used_math x) (t_tty x) (t_umask x) (t_pwd x) (t_root x) (t_executable x) (t_close_on_exec x) (t_filp x) (t_ldt x) (t_tss x) (t_page x).
Definition set_t_suid (v : Z) (x : task_struct) : task_struct :=
  mk_task (t_state x) (t_counter x) (t_priority x) (t_signal x) (t_sigaction x) (t_blocked x) (t_exit_code x) (t_start_code x) (t_end_code x) (t_end_data x) (t_brk x) (t_start_stack x) (t_pid x) (t_father x) (t_pgrp x) (t_session x) (t_leader x) (t_uid x) (t_euid x) v (t_gid x) (t_egid x) (t_sgid x) (t_alarm x) (t_utime x) (t_stime x) (t_cutime x) (t_cstime x) (t_start_time x) (t_used_math x) (t_tty x) (t_umask x) (t_pwd x) (t_root x) (t_executable x) (t_close_on_exec x) (t_filp x) (t_ldt x) (t_tss x) (t_page x).
Definition set_t_gid (v : Z) (x : task_struct) : task_struct :=
  mk_task (t_state x) (t_counter x) (t_priority x) (t_signal x) (t_sigaction x) (t_blocked x) (t_exit_code x) (t_start_code x) (t_end_code x) (t_end_data x) (t_brk x) (t_start_stack x) (t_pid x) (t_father x) (t_pgrp x) (t_session x) (t_leader x) (t_uid x) (t_euid x) (t_suid x) v (t_egid x) (t_sgid x) (t_alarm x) (t_utime x) (t_stime x) (t_cutime x) (t_cstime x) (t_start_time x) (t_used_math x) (t_tty x) (t_umask x) (t_pwd x) (t_root x) (t_executable x) (t_close_on_exec x) (t_filp x) (t_ldt x) (t_tss x) (t_page x).
Definition set_t_egid (v : Z) (x : task_struct) : task_struct :=
  mk_task (t_state x) (t_counter x) (t_priority x) (t_signal x) (t_sigaction x) (t_blocked x) (t_exit_code x) (t_start_code x) (t_end_code x) (t_end_data x) (t_brk x) (t_start_stack x) (t_pid x) (t_father x) (t_pgrp x) (t_session x) (t_leader x) (t_uid x) (t_euid x) (t_suid x) (t_gid x) v (t_sgid x) (t_alarm x) (t_utime x) (t_stime x) (t_cutime x) (t_cstime x) (t_start_time x) (t_used_math x) (t_tty x) (t_umask x) (t_pwd x) (t_root x) (t_executable x) (t_close_on_exec x) (t_filp x) (t_ldt x) (t_tss x) (t_page x).
Definition set_t_sgid (v : Z) (x : task_struct) : task_struct :=
  mk_task (t_state x) (t_counter x) (t_priority x) (t_signal x) (t_sigaction x) (t_blocked x) (t_exit_code x) (t_start_code x) (t_end_code x) (t_end_data x) (t_brk x) (t_start_stack x) (t_pid x) (t_father x) (t_pgrp x) (t_session x) (t_leader x) (t_uid x) (t_euid x) (t_suid x) (t_gid x) (t_egid x) v (t_alarm x) (t_utime x) (t_stime x) (t_cutime x) (t_cstime x) (t_start_time x) (t_used_math x) (t_tty x) (t_umask x) (t_pwd x) (t_root x) (t_executable x) (t_close_on_exec x) (t_filp x) (t_ldt x) (t_tss x) (t_page x).
Definition set_t_alarm (v : Z) (x : task_struct) : task_struct :=
  mk_task (t_state x) (t_counter x) (t_priority x) (t_signal x) (t_sigaction x) (t_blocked x) (t_exit_code x) (t_start_code x) (t_end_code x) (t_end_data x) (t_brk x) (t_start_stack x) (t_pid x) (t_father x) (t_pgrp x) (t_session x) (t_leader x) (t_uid x) (t_euid x) (t_suid x) (t_gid x) (t_egid x) (t_sgid x) v (t_utime x) (t_stime x) (t_cutime x) (t_cstime x) (t_start_time x) (t_used_math x) (t_tty x) (t_umask x) (t_pwd x) (t_root x) (t_executable x) (t_close_on_exec x) (t_filp x) (t_ldt x) (t_tss x) (t_page x).
Definition set_t_utime (v : Z) (x : task_struct) : task_struct :=
  mk_task (t_state x) (t_counter x) (t_priority x) (t_signal x) (t_sigaction x) (t_blocked x) (t_exit_code x) (t_start_code x) (t_end_code x) (t_end_data x) (t_brk x) (t_start_stack x) (t_pid x) (t_father x) (t_pgrp x) (t_session x) (t_leader x) (t_uid x) (t_euid x) (t_suid x) (t_gid x) (t_egid x) (t_sgid x) (t_alarm x) v (t_stime x) (t_cutime x) (t_cstime x) (t_start_time x) (t_used_math x) (t_tty x) (t_umask x) (t_pwd x) (t_root x) (t_executable x) (t_close_on_exec x) (t_filp x) (t_ldt x) (t_tss x) (t_page x).
Definition set_t_stime (v : Z) (x : task_struct) : task_struct :=
  mk_task (t_state x) (t_counter x) (t_priority x) (t_signal x) (t_sigaction x) (t_blocked x) (t_exit_code x) (t_start_code x) (t_end_code x) (t_end_data x) (t_brk x) (t_start_stack x) (t_pid x) (t_father x) (t_pgrp x) (t_session x) (t_leader x) (t_uid x) (t_euid x) (t_suid x) (t_gid x) (t_egid x) (t_sgid x) (t_alarm x) (t_utime x) v (t_cutime x) (t_cstime x) (t_start_time x) (t_used_math x) (t_tty x) (t_umask x) (t_pwd x) (t_root x) (t_executable x) (t_close_on_exec x) (t_filp x) (t_ldt x) (t_tss x) (t_page x).
Definition set_t_cutime (v : Z) (x : task_struct) : task_struct :=
  mk_task (t_state x) (t_counter x) (t_priority x) (t_signal x) (t_sigaction x) (t_blocked x) (t_exit_code x) (t_start_code x) (t_end_code x) (t_end_data x) (t_brk x) (t_start_stack x) (t_pid x) (t_father x) (t_pgrp x) (t_session x) (t_leader x) (t_uid x) (t_euid x) (t_suid x) (t_gid x) (t_egid x) (t_sgid x) (t_alarm x) (t_utime x) (t_stime x) v (t_cstime x) (t_start_time x) (t_used_math x) (t_tty x) (t_umask x) (t_pwd x) (t_root x) (t_executable x) (t_close_on_exec x) (t_filp x) (t_ldt x) (t_tss x) (t_page x).
Definition set_t_cstime (v : Z) (x : task_struct) : task_struct :=
  mk_task (t_state x) (t_counter x) (t_priority x) (t_signal x) (t_sigaction x) (t_blocked x) (t_exit_code x) (t_start_code x) (t_end_code x) (t_end_data x) (t_brk x) (t_start_stack x) (t_pid x) (t_father x) (t_pgrp x) (t_session x) (t_leader x) (t_uid x) (t_euid x) (t_suid x) (t_gid x) (t_egid x) (t_sgid x) (t_alarm x) (t_utime x) (t_stime x) (t_cutime x) v (t_start_time x) (t_used_math x) (t_tty x) (t_umask x) (t_pwd x) (t_root x) (t_executable x) (t_close_on_exec x) (t_filp x) (t_ldt x) (t_tss x) (t_page x).
Definition set_t_start_time (v : Z) (x : task_struct) : task_struct :=
  mk_task (t_state x) (t_counter x) (t_priority x) (t_signal x) (t_sigaction x) (t_blocked x) (t_exit_code x) (t_start_code x) (t_end_code x) (t_end_data x) (t_brk x) (t_start_stack x) (t_pid x) (t_father x) (t_pgrp x) (t_session x) (t_leader x) (t_uid x) (t_euid x) (t_suid x) (t_gid x) (t_egid x) (t_sgid x) (t_alarm x) (t_utime x) (t_stime x) (t_cutime x) (t_cstime x) v (t_used_math x) (t_tty x) (t_umask x) (t_pwd x) (t_root x) (t_executable x) (t_close_on_exec x) (t_filp x) (t_ldt x) (t_tss x) (t_page x).
Definition set_t_used_math (v : Z) (x : task_struct) : task_struct :=
  mk_task (t_state x) (t_counter x) (t_priority x) (t_signal x) (t_sigaction x) (t_blocked x) (t_exit_code x) (t_start_code x) (t_end_code x) (t_end_data x) (t_brk x) (t_start_stack x) (t_pid x) (t_father x) (t_pgrp x) (t_session x) (t_leader x) (t_uid x) (t_euid x) (t_suid x) (t_gid x) (t_egid x) (t_sgid x) (t_alarm x) (t_utime x) (t_stime x) (t_cutime x) (t_cstime x) (t_start_time x) v (t_tty x) (t_umask x) (t_pwd x) (t_root x) (t_executable x) (t_close_on_exec x) (t_filp x) (t_ldt x) (t_tss x) (t_page x).
Definition set_t_tty (v : Z) (x : task_struct) : task_struct :=
  mk_task (t_state x) (t_counter x) (t_priority x) (t_signal x) (t_sigaction x) (t_blocked x) (t_exit_code x) (t_start_code x) (t_end_code x) (t_end_data x) (t_brk x) (t_start_stack x) (t_pid x) (t_father x) (t_pgrp x) (t_session x) (t_leader x) (t_uid x) (t_euid x) (t_suid x) (t_gid x) (t_egid x) (t_sgid x) (t_alarm x) (t_utime x) (t_stime x) (t_cutime x) (t_cstime x) (t_start_time x) (t_used_math x) v (t_umask x) (t_pwd x) (t_root x) (t_executable x) (t_close_on_exec x) (t_filp x) (t_ldt x) (t_tss x) (t_page x).
Definition set_t_umask (v : Z) (x : task_struct) : task_struct :=
  mk_task (t_state x) (t_counter x) (t_priority x) (t_signal x) (t_sigaction x) (t_blocked x) (t_exit_code x) (t_start_code x) (t_end_code x) (t_end_data x) (t_brk x) (t_start_stack x) (t_pid x) (t_father x) (t_pgrp x) (t_session x) (t_leader x) (t_uid x) (t_euid x) (t_suid x) (t_gid x) (t_egid x) (t_sgid x) (t_alarm x) (t_utime x) (t_stime x) (t_cutime x) (t_cstime x) (t_start_time x) (t_used_math x) (t_tty x) v (t_pwd x) (t_root x) (t_executable x) (t_close_on_exec x) (t_filp x) (t_ldt x) (t_tss x) (t_page x).
Definition set_t_pwd (v : ptr) (x : task_struct) : task_struct :=
  mk_task (t_state x) (t_counter x) (t_priority x) (t_signal x) (t_sigaction x) (t_blocked x) (t_exit_code x) (t_start_code x) (t_end_code x) (t_end_data x) (t_brk x) (t_start_stack x) (t_pid x) (t_father x) (t_pgrp x) (t_session x) (t_leader x) (t_uid x) (t_euid x) (t_suid x) (t_gid x) (t_egid x) (t_sgid x) (t_alarm x) (t_utime x) (t_stime x) (t_cutime x) (t_cstime x) (t_start_time x) (t_used_math x) (t_tty x) (t_umask x) v (t_root x) (t_executable x) (t_close_on_exec x) (t_filp x) (t_ldt x) (t_tss x) (t_page x).
Definition set_t_root (v : ptr) (x : task_struct) : task_struct :=
  mk_task (t_state x) (t_counter x) (t_priority x) (t_signal x) (t_sigaction x) (t_blocked x) (t_exit_code x) (t_start_code x) (t_end_code x) (t_end_data x) (t_brk x) (t_start_stack x) (t_pid x) (t_father x) (t_pgrp x) (t_session x) (t_leader x) (t_uid x) (t_euid x) (t_suid x) (t_gid x) (t_egid x) (t_sgid x) (t_alarm x) (t_utime x) (t_stime x) (t_cutime x) (t_cstime x) (t_start_time x) (t_used_math x) (t_tty x) (t_umask x) (t_pwd x) v (t_executable x) (t_close_on_exec x) (t_filp x) (t_ldt x) (t_tss x) (t_page x).
Definition set_t_executable (v : ptr) (x : task_struct) : task_struct :=
  mk_task (t_state x) (t_counter x) (t_priority x) (t_signal x) (t_sigaction x) (t_blocked x) (t_exit_code x) (t_start_code x) (t_end_code x) (t_end_data x) (t_brk x) (t_start_stack x) (t_pid x) (t_father x) (t_pgrp x) (t_session x) (t_leader x) (t_uid x) (t_euid x) (t_suid x) (t_gid x) (t_egid x) (t_sgid x) (t_alarm x) (t_utime x) (t_stime x) (t_cutime x) (t_cstime x) (t_start_time x) (t_used_math x) (t_tty x) (t_umask x) (t_pwd x) (t_root x) v (t_close_on_exec x) (t_filp x) (t_ldt x) (t_tss x) (t_page x).
Definition set_t_close_on_exec (v : Z) (x : task_struct) : task_struct :=
  mk_task (t_state x) (t_counter x) (t_priority x) (t_signal x) (t_sigaction x) (t_blocked x) (t_exit_code x) (t_start_code x) (t_end_code x) (t_end_data x) (t_brk x) (t_start_stack x) (t_pid x) (t_father x) (t_pgrp x) (t_session x) (t_leader x) (t_uid x) (t_euid x) (t_suid x) (t_gid x) (t_egid x) (t_sgid x) (t_alarm x) (t_utime x) (t_stime x) (t_cutime x) (t_cstime x) (t_start_time x) (t_used_math x) (t_tty x) (t_umask x) (t_pwd x) (t_root x) (t_executable x) v (t_filp x) (t_ldt x) (t_tss x) (t_page x).
Definition set_t_filp (v : list ptr) (x : task_struct) : task_struct :=
  mk_task (t_state x) (t_counter x) (t_priority x) (t_signal x) (t_sigaction x) (t_blocked x) (t_exit_code x) (t_start_code x) (t_end_code x) (t_end_data x) (t_brk x) (t_start_stack x) (t_pid x) (t_father x) (t_pgrp x) (t_session x) (t_leader x) (t_uid x) (t_euid x) (t_suid x) (t_gid x) (t_egid x) (t_sgid x) (t_alarm x) (t_utime x) (t_stime x) (t_cutime x) (t_cstime x) (t_start_time x) (t_used_math x) (t_tty x) (t_umask x) (t_pwd x) (t_root x) (t_executable x) (t_close_on_exec x) v (t_ldt x) (t_tss x) (t_page x).
Definition set_t_ldt (v : list desc) (x : task_struct) : task_struct :=
  mk_task (t_state x) (t_counter x) (t_priority x) (t_signal x) (t_sigaction x) (t_blocked x) (t_exit_code x) (t_start_code x) (t_end_code x) (t_end_data x) (t_brk x) (t_start_stack x) (t_pid x) (t_father x) (t_pgrp x) (t_session x) (t_leader x) (t_uid x) (t_euid x) (t_suid x) (t_gid x) (t_egid x) (t_sgid x) (t_alarm x) (t_utime x) (t_stime x) (t_cutime x) (t_cstime x) (t_start_time x) (t_used_math x) (t_tty x) (t_umask x) (t_pwd x) (t_root x) (t_executable x) (t_close_on_exec x) (t_filp x) v (t_tss x) (t_page x).
Definition set_t_tss (v : tss) (x : task_struct) : task_struct :=
  mk_task (t_state x) (t_counter x) (t_priority x) (t_signal x) (t_sigaction x) (t_blocked x) (t_exit_code x) (t_start_code x) (t_end_code x) (t_end_data x) (t_brk x) (t_start_stack x) (t_pid x) (t_father x) (t_pgrp x) (t_session x) (t_leader x) (t_uid x) (t_euid x) (t_suid x) (t_gid x) (t_egid x) (t_sgid x) (t_alarm x) (t_utime x) (t_stime x) (t_cutime x) (t_cstime x) (t_start_time x) (t_used_math x) (t_tty x) (t_umask x) (t_pwd x) (t_root x) (t_executable x) (t_close_on_exec x) (t_filp x) (t_ldt x) v (t_page x).
Definition set_t_page (v : Z) (x : task_struct) : task_struct :=
  mk_task (t_state x) (t_counter x) (t_priority x) (t_signal x) (t_sigaction x) (t_blocked x) (t_exit_code x) (t_start_code x) (t_end_code x) (t_end_data x) (t_brk x) (t_start_stack x) (t_pid x) (t_father x) (t_pgrp x) (t_session x) (t_leader x) (t_uid x) (t_euid x) (t_suid x) (t_gid x) (t_egid x) (t_sgid x) (t_alarm x) (t_utime x) (t_stime x) (t_cutime x) (t_cstime x) (t_start_time x) (t_used_math x) (t_tty x) (t_umask x) (t_pwd x) (t_root x) (t_executable x) (t_close_on_exec x) (t_filp x) (t_ldt x) (t_tss x) v.

(** The task table, the running task, the clock, and the last pid given out.
    A slot of the table is NULL when it is free. *)
Record sched := mk_sched {
  task : list (option task_struct);
  current : nat;
  jiffies : Z;
  startup_time : Z;
  last_pid : Z
}.

Definition set_task (v : list (option task_struct)) (x : sched) : sched :=
  mk_sched v (current x) (jiffies x) (startup_time x) (last_pid x).
Definition set_current (v : nat) (x : sched) : sched :=
  mk_sched (task x) v (jiffies x) (startup_time x) (last_pid x).
Definition set_jiffies (v : Z) (x : sched) : sched :=
  mk_sched (task x) (current x) v (startup_time x) (last_pid x).
Definition set_startup_time (v : Z) (x : sched) : sched :=
  mk_sched (task x) (current x) (jiffies x) v (last_pid x).
Definition set_last_pid (v : Z) (x : sched) : sched :=
  mk_sched (task x) (current x) (jiffies x) (startup_time x) v.

(** ** Access *)
Definition the_task (i : nat) : M sched task_struct := λ s,
  match task s !! i with Some (Some t) => Ret t s | _ => Fault end.
Definition upd_task (i : nat) (f : task_struct → task_struct) : M sched unit := λ s,
  match task s !! i with
  | Some (Some t) => Ret tt (set_task (<[i := Some (f t)]> (task s)) s)
  | _ => Fault
  end.
Definition cur : M sched task_struct := λ s, the_task (current s) s.
Definition upd_cur (f : task_struct → task_struct) : M sched unit := λ s, upd_task (current s) f s.

(** the macros [suser] and [CURRENT_TIME] *)
Definition suser (c : task_struct) : bool := t_euid c =? 0.
Definition CURRENT_TIME (s : sched) : Z := startup_time s + Z.quot (jiffies s) HZ.

(** ** Rules for the access functions *)

(** the running task replaced by [t] *)
Definition with_cur (t : task_struct) (s : sched) : sched := set_task (<[current s := Some t]> (task s)) s.
Definition is_cur (s : sched) (t : task_struct) : Prop := task s !! current s = Some (Some t).

Lemma wp_the_task i t (Q : task_struct → sched → Prop) s :
  task s !! i = Some (Some t) → Q t s → wp (the_task i) Q s.
Proof. unfold wp, the_task. by intros ->. Qed.
Lemma wp_upd_task i t f (Q : unit → sched → Prop) s :
  task s !! i = Some (Some t) → Q tt (set_task (<[i := Some (f t)]> (task s)) s) → wp (upd_task i f) Q s.
Proof. unfold wp, upd_task. by intros ->. Qed.
Lemma wp_cur t (Q : task_struct → sched → Prop) s : is_cur s t → Q t s → wp cur Q s.
Proof. apply wp_the_task. Qed.
Lemma wp_upd_cur t f (Q : unit → sched → Prop) s : is_cur s t → Q tt (with_cur (f t) s) → wp (upd_cur f) Q s.
Proof. apply wp_upd_task. Qed.
Lemma is_cur_with t u s : is_cur s t → is_cur (with_cur u s) u.
Proof. intros Ht. apply list_lookup_insert_eq. by eapply lookup_lt_Some. Qed.
Lemma with_cur_twice t u s : with_cur u (with_cur t s) = with_cur u s.
Proof. unfold with_cur, set_task. cbn. by rewrite list_insert_insert_eq. Qed.
Lemma with_cur_id t s : is_cur s t → with_cur t s = s.
Proof. intros Ht. unfold with_cur. rewrite list_insert_id by done. by destruct s. Qed.
#[export] Hint Resolve is_cur_with : kernel.
