(* ===== verification/Sched.v ===== *)
(** * The scheduler

    Models [linux-0.11/kernel/sched.c]: the choice of the next task, wait
    queues, timers, and the system calls of the file.

    [schedule] ends by switching to the task it has chosen: here it sets
    [current].  The halves of [sleep_on] before and after the call of
    [schedule] are two definitions, since what comes between is the run of
    other tasks. *)

From S2P Require Import Prelude Blk Task.

(** ** schedule *)
Definition _S (nr : Z) : Z := Z.shiftl 1 (nr - 1).
Definition _BLOCKABLE : Z := Z.lnot (Z.lor (_S SIGKILL) (_S SIGSTOP)).

(** alarms, and interruptible tasks that have got a signal *)
Definition check_task (jiffies : Z) (t : task_struct) : task_struct :=
  let t := if negb (t_alarm t =? 0) && (t_alarm t <? jiffies)
           then set_t_alarm 0 (set_t_signal (Z.lor (t_signal t) (_S SIGALRM)) t) else t in
  if negb (Z.land (t_signal t) (Z.lnot (Z.land _BLOCKABLE (t_blocked t))) =? 0) && (t_state t =? TASK_INTERRUPTIBLE)
  then set_t_state TASK_RUNNING t else t.

(** a change of every task but task 0 *)
Definition map_tasks (f : task_struct → task_struct) (l : list (option task_struct)) : list (option task_struct) :=
  match l with
  | [] => []
  | t0 :: l' => t0 :: ((λ o : option task_struct, f <$> o) <$> l')
  end.

(** the loop over the slots [n], ..., 1: the counter and the slot of the best
    task so far *)
Fixpoint pick (n : nat) (l : list (option task_struct)) (c : Z) (next : nat) : Z * nat :=
  match n with
  | O => (c, next)
  | S n' =>
    match l !! n with
    | Some (Some t) =>
      if (t_state t =? TASK_RUNNING) && (c <? t_counter t) then pick n' l (t_counter t) n
      else pick n' l c next
    | _ => pick n' l c next
    end
  end.

Definition recharge (t : task_struct) : task_struct :=
  set_t_counter (Z.shiftr (t_counter t) 1 + t_priority t) t.

(** the [while (1)] of the scheduler proper *)
Fixpoint sched_loop (fuel : nat) : M sched nat :=
  match fuel with
  | O => nofuel
  | S fuel' =>
    s ← get_st;
    let '(c, next) := pick (NR_TASKS - 1) (task s) (-1) 0 in
    if negb (c =? 0) then mret next
    else modify (λ s, set_task (map_tasks recharge (task s)) s) ;; sched_loop fuel'
  end.

(** two rounds are enough when the priorities are positive *)
Definition SCHED_ROUNDS : nat := 2.

Definition schedule : M sched unit :=
  modify (λ s, set_task (map_tasks (check_task (jiffies s)) (task s)) s) ;;
  next ← sched_loop SCHED_ROUNDS;
  modify (set_current next).

(** ** Waiting *)

(** A wait queue is a pointer to the task that went to sleep last. *)
Definition set_state (v : Z) (p : ptr) : M sched unit :=
  match p with Some i => upd_task i (set_t_state v) | None => mret tt end.

(** [sleep_on] up to [schedule]: the result is what the caller keeps in [tmp],
    and the new contents of the queue *)
Definition sleep_begin (state : Z) (q : ptr) : M sched (ptr * ptr) :=
  i ← gets current;
  if (i =? 0)%nat then panic "task[0] trying to sleep"
  else
    upd_cur (set_t_state state) ;;
    mret (q, Some i).
(** and after it *)
Definition sleep_end (tmp : ptr) : M sched unit := set_state 0 tmp.

Definition sleep_on_begin (q : ptr) : M sched (ptr * ptr) := sleep_begin TASK_UNINTERRUPTIBLE q.

(** [interruptible_sleep_on] when it runs again: not being the last of the
    queue it wakes the last and goes back to sleep ([true]), or it empties the
    queue and wakes the one before it *)
Definition interruptible_resume (tmp q : ptr) : M sched (bool * ptr) :=
  i ← gets current;
  match q with
  | Some j =>
    if (j =? i)%nat then sleep_end tmp ;; mret (false, None)
    else
      set_state 0 (Some j) ;;
      upd_cur (set_t_state TASK_INTERRUPTIBLE) ;;
      mret (true, q)
  | None => sleep_end tmp ;; mret (false, None)
  end.

Definition wake_up (q : ptr) : M sched ptr := set_state 0 q ;; mret None.

(** ** System calls *)
Definition sys_pause_begin : M sched unit := upd_cur (set_t_state TASK_INTERRUPTIBLE) ;; schedule.

Definition sys_alarm (seconds : Z) : M sched Z :=
  c ← cur;
  s ← get_st;
  let old := t_alarm c in
  let old := if negb (old =? 0) then Z.quot (old - jiffies s) HZ else old in
  upd_cur (set_t_alarm (if 0 <? seconds then s32 (jiffies s + HZ * seconds) else 0)) ;;
  mret old.
Definition sys_getpid : M sched Z := c ← cur; mret (t_pid c).
Definition sys_getppid : M sched Z := c ← cur; mret (t_father c).
Definition sys_getuid : M sched Z := c ← cur; mret (t_uid c).
Definition sys_geteuid : M sched Z := c ← cur; mret (t_euid c).
Definition sys_getgid : M sched Z := c ← cur; mret (t_gid c).
Definition sys_getegid : M sched Z := c ← cur; mret (t_egid c).
Definition sys_nice (increment : Z) : M sched Z :=
  c ← cur;
  when (0 <? s32 (t_priority c - increment)) (upd_cur (λ c, set_t_priority (s32 (t_priority c - increment)) c)) ;;
  mret 0.
Definition sched_init : M sched unit := modify (λ s, set_task (map_tasks id (take 1 (task s)) ++ replicate (NR_TASKS - 1) None) s).

(** ** Timers *)
Definition TIME_REQUESTS : nat := 64.

(** [struct timer_list]: the function is known by a number, [None] is NULL *)
Record timer := mk_timer { tm_jiffies : Z; tm_fn : option Z; tm_next : ptr }.
Definition set_tm_jiffies (v : Z) (x : timer) : timer := mk_timer v (tm_fn x) (tm_next x).
Definition set_tm_fn (v : option Z) (x : timer) : timer := mk_timer (tm_jiffies x) v (tm_next x).
Definition set_tm_next (v : ptr) (x : timer) : timer := mk_timer (tm_jiffies x) (tm_fn x) v.

(** the timers, and the functions called so far *)
Record timers := mk_timers { timer_list : list timer; next_timer : ptr; called : list Z }.
Definition set_timer_list (v : list timer) (x : timers) : timers := mk_timers v (next_timer x) (called x).
Definition set_next_timer (v : ptr) (x : timers) : timers := mk_timers (timer_list x) v (called x).
Definition set_called (v : list Z) (x : timers) : timers := mk_timers (timer_list x) (next_timer x) v.

Definition the_timer (i : nat) : M timers timer := λ s, of_opt (timer_list s !! i) s.
Definition upd_timer (i : nat) (f : timer → timer) : M timers unit := λ s,
  match timer_list s !! i with
  | Some t => Ret tt (set_timer_list (<[i := f t]> (timer_list s)) s)
  | None => Fault
  end.
Definition call (fn : Z) : M timers unit := modify (λ s, set_called (called s ++ [fn]) s).

(** [while (p->next && p->next->jiffies < p->jiffies)]: the new timer moves
    down the list, taking off the time of those it passes *)
Fixpoint timer_sift (fuel : nat) (p : nat) : M timers unit :=
  match fuel with
  | O => nofuel
  | S fuel' =>
    t ← the_timer p;
    match tm_next t with
    | None => mret tt
    | Some n =>
      u ← the_timer n;
      if tm_jiffies u <? tm_jiffies t then
        upd_timer p (λ t, set_tm_fn (tm_fn u) (set_tm_jiffies (tm_jiffies u) t)) ;;
        upd_timer n (λ u, set_tm_fn (tm_fn t) (set_tm_jiffies (s32 (tm_jiffies t - tm_jiffies u)) u)) ;;
        timer_sift fuel' n
      else mret tt
    end
  end.

Definition add_timer (jiffies : Z) (fn : option Z) : M timers unit :=
  match fn with
  | None => mret tt
  | Some f =>
    if jiffies <=? 0 then call f
    else
      q ← gets (λ s, find_idx (λ t, match tm_fn t with None => true | Some _ => false end) (timer_list s));
      match q with
      | None => panic "No more time requests free"
      | Some p =>
        s ← get_st;
        upd_timer p (λ _, mk_timer jiffies (Some f) (next_timer s)) ;;
        modify (set_next_timer (Some p)) ;;
        timer_sift (S TIME_REQUESTS) p
      end
  end.

(** calling the timers that have run out; each call frees one *)
Fixpoint fire_timers (fuel : nat) : M timers unit :=
  match fuel with
  | O => nofuel
  | S fuel' =>
    s ← get_st;
    match next_timer s with
    | None => mret tt
    | Some p =>
      t ← the_timer p;
      if tm_jiffies t <=? 0 then
        upd_timer p (set_tm_fn None) ;;
        modify (set_next_timer (tm_next t)) ;;
        f ← of_opt (tm_fn t);
        call f ;;
        fire_timers fuel'
      else mret tt
    end
  end.

(** the part of [do_timer] that concerns the timers *)
Definition timer_tick : M timers unit :=
  s ← get_st;
  match next_timer s with
  | None => mret tt
  | Some p =>
    upd_timer p (λ t, set_tm_jiffies (s32 (tm_jiffies t - 1)) t) ;;
    fire_timers (S TIME_REQUESTS)
  end.

(** ** The motors of the floppy drives *)
Record floppy := mk_floppy {
  mon_timer : list Z; moff_timer : list Z; current_DOR : Z; selected : bool;
  (** the drives whose waiting tasks have been woken *)
  motor_wakeups : list nat
}.
Definition set_mon_timer (v : list Z) (x : floppy) : floppy :=
  mk_floppy v (moff_timer x) (current_DOR x) (selected x) (motor_wakeups x).
Definition set_moff_timer (v : list Z) (x : floppy) : floppy :=
  mk_floppy (mon_timer x) v (current_DOR x) (selected x) (motor_wakeups x).
Definition set_current_DOR (v : Z) (x : floppy) : floppy :=
  mk_floppy (mon_timer x) (moff_timer x) v (selected x) (motor_wakeups x).
Definition set_motor_wakeups (v : list nat) (x : floppy) : floppy :=
  mk_floppy (mon_timer x) (moff_timer x) (current_DOR x) (selected x) v.

Definition ticks_to_floppy_on (nr : nat) : M floppy Z :=
  if (3 <? nr)%nat then panic "floppy_on: nr>3"
  else
    modify (λ s, set_moff_timer (<[nr := 10000]> (moff_timer s)) s) ;;
    s ← get_st;
    let mask := Z.lor (u8 (Z.shiftl 0x10 (Z.of_nat nr))) (current_DOR s) in
    let mask := if selected s then mask else Z.lor (Z.land mask 0xFC) (Z.of_nat nr) in
    when (negb (mask =? current_DOR s))
      ((if negb (Z.land (Z.lxor mask (current_DOR s)) 0xf0 =? 0)
        then modify (λ s, set_mon_timer (<[nr := Z.quot HZ 2]> (mon_timer s)) s)
        else when (mon_timer s !!! nr <? 2) (modify (λ s, set_mon_timer (<[nr := 2]> (mon_timer s)) s))) ;;
       modify (set_current_DOR mask)) ;;
    gets (λ s, mon_timer s !!! nr).
Definition floppy_on (nr : nat) : M floppy unit :=
  t ← ticks_to_floppy_on nr;
  if t =? 0 then mret tt else blocked.
Definition floppy_off (nr : nat) : M floppy unit :=
  modify (λ s, set_moff_timer (<[nr := 3 * HZ]> (moff_timer s)) s).
Definition do_floppy_timer : M floppy unit :=
  for_each (λ i,
    s ← get_st;
    let mask := Z.shiftl 0x10 (Z.of_nat i) in
    if Z.land mask (current_DOR s) =? 0 then mret tt
    else if negb (mon_timer s !!! i =? 0) then
      modify (λ s, set_mon_timer (<[i := mon_timer s !!! i - 1]> (mon_timer s)) s) ;;
      when (mon_timer s !!! i - 1 =? 0) (modify (λ s, set_motor_wakeups (motor_wakeups s ++ [i]) s))
    else if moff_timer s !!! i =? 0 then
      modify (λ s, set_current_DOR (Z.land (current_DOR s) (Z.lnot mask)) s)
    else modify (λ s, set_moff_timer (<[i := moff_timer s !!! i - 1]> (moff_timer s)) s)) (seq 0 4).

(** ** The timer interrupt *)
Record clock := mk_clock { ck_sched : sched; ck_timers : timers; ck_floppy : floppy; ck_beepcount : Z; ck_speaker_off : nat }.
Definition on_ck_sched {A} (m : M sched A) : M clock A := λ k,
  match m (ck_sched k) with
  | Ret a x => Ret a (mk_clock x (ck_timers k) (ck_floppy k) (ck_beepcount k) (ck_speaker_off k))
  | Panic w => Panic w
  | Sleep x => Sleep (mk_clock x (ck_timers k) (ck_floppy k) (ck_beepcount k) (ck_speaker_off k))
  | Exit c x => Exit c (mk_clock x (ck_timers k) (ck_floppy k) (ck_beepcount k) (ck_speaker_off k))
  | Fault => Fault
  | NoFuel => NoFuel
  end.
Definition on_ck_timers {A} (m : M timers A) : M clock A := λ k,
  match m (ck_timers k) with
  | Ret a x => Ret a (mk_clock (ck_sched k) x (ck_floppy k) (ck_beepcount k) (ck_speaker_off k))
  | Panic w => Panic w
  | Sleep x => Sleep (mk_clock (ck_sched k) x (ck_floppy k) (ck_beepcount k) (ck_speaker_off k))
  | Exit c x => Exit c (mk_clock (ck_sched k) x (ck_floppy k) (ck_beepcount k) (ck_speaker_off k))
  | Fault => Fault
  | NoFuel => NoFuel
  end.
Definition on_ck_floppy {A} (m : M floppy A) : M clock A := λ k,
  match m (ck_floppy k) with
  | Ret a x => Ret a (mk_clock (ck_sched k) (ck_timers k) x (ck_beepcount k) (ck_speaker_off k))
  | Panic w => Panic w
  | Sleep x => Sleep (mk_clock (ck_sched k) (ck_timers k) x (ck_beepcount k) (ck_speaker_off k))
  | Exit c x => Exit c (mk_clock (ck_sched k) (ck_timers k) x (ck_beepcount k) (ck_speaker_off k))
  | Fault => Fault
  | NoFuel => NoFuel
  end.

(** [if (beepcount) if (!--beepcount) sysbeepstop();] *)
Definition beep_tick : M clock unit := modify (λ k,
  if ck_beepcount k =? 0 then k
  else mk_clock (ck_sched k) (ck_timers k) (ck_floppy k) (ck_beepcount k - 1)
         (if ck_beepcount k - 1 =? 0 then S (ck_speaker_off k) else ck_speaker_off k)).

(** [cpl] is not 0 when the interrupt came in user mode *)
Definition do_timer (cpl : bool) : M clock unit :=
  beep_tick ;;
  on_ck_sched (upd_cur (λ c, if cpl then set_t_utime (s32 (t_utime c + 1)) c else set_t_stime (s32 (t_stime c + 1)) c)) ;;
  on_ck_timers timer_tick ;;
  dor ← gets (λ k, current_DOR (ck_floppy k));
  when (negb (Z.land dor 0xf0 =? 0)) (on_ck_floppy do_floppy_timer) ;;
  on_ck_sched (upd_cur (λ c, set_t_counter (s32 (t_counter c - 1)) c)) ;;
  c ← on_ck_sched cur;
  if 0 <? t_counter c then mret tt
  else
    on_ck_sched (upd_cur (set_t_counter 0)) ;;
    when cpl (on_ck_sched schedule).


(** ** The choice of the next task *)

(** task [t] is in slot [n], not 0, and runnable *)
Definition runnable (l : list (option task_struct)) (n : nat) (t : task_struct) : Prop :=
  (1 ≤ n < NR_TASKS)%nat ∧ l !! n = Some (Some t) ∧ t_state t = TASK_RUNNING.

Lemma pick_spec n l c next : (n < NR_TASKS)%nat →
  let '(c', next') := pick n l c next in
  c ≤ c' ∧
  (∀ m t, (m ≤ n)%nat → runnable l m t → t_counter t ≤ c') ∧
  (c' = c ∧ next' = next ∨ ∃ t, runnable l next' t ∧ t_counter t = c' ∧ c < c').
Proof.
  revert c next. induction n as [|n IH]; intros c next Hn; cbn [pick].
  { split; [lia|]. split; [|by left]. intros m t Hm [Hr _]. lia. }
  assert (Hskip : (∀ t, runnable l (S n) t → t_counter t ≤ c) →
    let '(c', next') := pick n l c next in
    c ≤ c' ∧ (∀ m t, (m ≤ S n)%nat → runnable l m t → t_counter t ≤ c') ∧
    (c' = c ∧ next' = next ∨ ∃ t, runnable l next' t ∧ t_counter t = c' ∧ c < c')).
  { intros Hs. specialize (IH c next ltac:(lia)). destruct (pick n l c next) as [c' next'].
    destruct IH as (H1 & H2 & H3). split; [done|]. split; [|done]. intros m t Hm Hr.
    destruct (decide (m = S n)) as [->|]; [specialize (Hs t Hr); lia|]. apply (H2 m); [lia|done]. }
  destruct (l !! S n) as [[t|]|] eqn:E.
  2:{ apply Hskip. intros t (_ & Ht & _). congruence. }
  2:{ apply Hskip. intros t (_ & Ht & _). congruence. }
  destruct ((t_state t =? TASK_RUNNING) && (c <? t_counter t)) eqn:Eb.
  - b2p. specialize (IH (t_counter t) (S n) ltac:(lia)). destruct (pick n l (t_counter t) (S n)) as [c' next'].
    destruct IH as (H1 & H2 & H3). split; [lia|]. split.
    + intros m t' Hm Hr. destruct (decide (m = S n)) as [->|]; [|apply (H2 m); [lia|done]].
      destruct Hr as (_ & Ht' & _). assert (t' = t) as -> by congruence. lia.
    + right. destruct H3 as [[-> ->]|(t' & ? & ? & ?)]; [|exists t'; split_and!; [done|done|lia]].
      exists t. split; [|split; [done|lia]]. split; [lia|]. done.
  - apply Hskip. intros t' (_ & Ht' & Hs'). assert (t' = t) as -> by congruence.
    apply andb_false_iff in Eb as [Eb|Eb]; b2p; [done|lia].
Qed.

(** the task table the scheduler needs: time left is not negative, and every
    task has a positive priority *)
Definition tasks_ok (l : list (option task_struct)) : Prop :=
  ∀ n t, l !! n = Some (Some t) → 0 ≤ t_counter t ∧ 0 < t_priority t.

Lemma map_tasks_lookup f l n : (1 ≤ n)%nat → map_tasks f l !! n = (λ o : option task_struct, f <$> o) <$> l !! n.
Proof. intros Hn. destruct l as [|t0 l]; [done|]. destruct n as [|n]; [lia|]. exact (list_lookup_fmap (λ o : option task_struct, f <$> o) l n). Qed.

Lemma map_tasks_0 f l : map_tasks f l !! 0%nat = l !! 0%nat.
Proof. by destruct l. Qed.

Lemma length_map_tasks f l : length (map_tasks f l) = length l.
Proof. destruct l; [done|]. cbn [map_tasks length]. f_equal. apply length_fmap. Qed.

Lemma map_tasks_ok f l :
  (∀ t, 0 ≤ t_counter t ∧ 0 < t_priority t → 0 ≤ t_counter (f t) ∧ 0 < t_priority (f t)) →
  tasks_ok l → tasks_ok (map_tasks f l).
Proof.
  intros Hf Hl n t Ht. destruct n as [|n]; [rewrite map_tasks_0 in Ht; by eapply Hl|].
  rewrite map_tasks_lookup in Ht by lia. destruct (l !! S n) as [[t'|]|] eqn:E; try done. injection Ht as <-.
  by eapply Hf, Hl.
Qed.

Lemma check_task_ok j t : t_counter (check_task j t) = t_counter t ∧ t_priority (check_task j t) = t_priority t.
Proof. unfold check_task. repeat case_match; done. Qed.

Lemma recharge_ok t : 0 ≤ t_counter t → 0 < t_priority t →
  t_state (recharge t) = t_state t ∧ 0 < t_counter (recharge t) ∧ t_priority (recharge t) = t_priority t.
Proof.
  intros Hc Hp. split; [done|]. split; [|done]. cbn.
  assert (0 ≤ Z.shiftr (t_counter t) 1) by (by apply Z.shiftr_nonneg). lia.
Qed.

(** [n] is the scheduler's choice: a runnable task with the most time left,
    or task 0 when no other is runnable *)
Definition best_task (l : list (option task_struct)) (n : nat) : Prop :=
  (n = 0%nat ∧ ∀ m t, ¬ runnable l m t) ∨
  (∃ t, runnable l n t ∧ 0 < t_counter t ∧ ∀ m t', runnable l m t' → t_counter t' ≤ t_counter t).

Lemma sched_loop_run s :
  tasks_ok (task s) →
  wp (sched_loop SCHED_ROUNDS) (λ next s', best_task (task s') next ∧ current s' = current s ∧
    (task s' = task s ∨ task s' = map_tasks recharge (task s))) s.
Proof.
  intros Hok. unfold SCHED_ROUNDS. cbn [sched_loop].
  apply wp_bind, wp_get. change (NR_TASKS - 1)%nat with 63%nat.
  pose proof (pick_spec 63 (task s) (-1) 0 ltac:(unfold NR_TASKS; lia)) as Hp.
  destruct (pick 63 (task s) (-1) 0) as [c next]. destruct Hp as (Hc & Hall & Hcase).
  assert (Hmax : ∀ m t, runnable (task s) m t → t_counter t ≤ c).
  { intros m t Hr. apply (Hall m t); [|done]. destruct Hr as [Hm _]. unfold NR_TASKS in Hm. lia. }
  destruct (c =? 0) eqn:Ec; b2p; cbn [negb].
  - (* everybody runnable has used his time: recharge *)
    subst c. destruct Hcase as [[? _]|(t & Hr & Ht & _)]; [lia|].
    apply wp_bind, wp_modify, wp_bind, wp_get. set (s1 := set_task _ s).
    pose proof (pick_spec 63 (task s1) (-1) 0 ltac:(unfold NR_TASKS; lia)) as Hp1.
    destruct (pick 63 (task s1) (-1) 0) as [c1 next1]. destruct Hp1 as (Hc1 & Hall1 & Hcase1).
    assert (Hmax1 : ∀ m t, runnable (task s1) m t → t_counter t ≤ c1).
    { intros m t' Hr'. apply (Hall1 m t'); [|done]. destruct Hr' as [Hm _]. unfold NR_TASKS in Hm. lia. }
    assert (Hr1 : runnable (task s1) next (recharge t) ∧ 0 < t_counter (recharge t)).
    { destruct Hr as (Hn & Hl & Hst). destruct (Hok _ _ Hl) as [H1 H2].
      destruct (recharge_ok t H1 H2) as (E1 & E2 & _). split; [|done]. split; [done|]. split; [|congruence].
      cbn [s1 task set_task]. rewrite map_tasks_lookup by lia. by rewrite Hl. }
    destruct Hr1 as [Hr1 Hpos]. specialize (Hmax1 _ _ Hr1) as Hge.
    rewrite (proj2 (Z.eqb_neq c1 0)) by lia. cbn [negb]. apply wp_ret. split; [|by auto].
    right. destruct Hcase1 as [[? _]|(t1 & Hr' & Ht1 & _)]; [lia|]. exists t1. split; [done|]. split; [lia|].
    intros m t' Hrm. rewrite Ht1. by eapply Hmax1.
  - apply wp_ret. split; [|by auto]. destruct Hcase as [[-> ->]|(t & Hr & Ht & Hlt)].
    + left. split; [done|]. intros m t Hr. pose proof (Hmax _ _ Hr). destruct Hr as (_ & Hl & _).
      destruct (Hok _ _ Hl). lia.
    + right. exists t. split; [done|]. destruct Hr as (Hn & Hl & Hst). destruct (Hok _ _ Hl). split; [lia|].
      intros m t' Hr'. rewrite Ht. by eapply Hmax.
Qed.

(** C23. The scheduler terminates and switches to a runnable task with the most
    time left - to task 0 only when no other task is runnable.  Signals and
    alarms have been looked at first, and the time slices renewed only if every
    runnable task had used its own. *)
Theorem schedule_picks_best s :
  tasks_ok (task s) →
  wp schedule (λ _ s', best_task (task s') (current s') ∧
    (task s' = map_tasks (check_task (jiffies s)) (task s) ∨
     task s' = map_tasks recharge (map_tasks (check_task (jiffies s)) (task s)))) s.
Proof.
  intros Hok. unfold schedule. apply wp_bind, wp_modify, wp_bind. set (s1 := set_task _ s).
  eapply wp_mono; [apply (sched_loop_run s1)|].
  - apply map_tasks_ok; [|done]. intros t Ht. destruct (check_task_ok (jiffies s) t) as [-> ->]. done.
  - intros next s2 (Hbest & _ & Htask). apply wp_modify. cbn [set_current task current]. split; [done|exact Htask].
Qed.

Definition demo_task (state counter : Z) : task_struct :=
  mk_task state counter 15 0 [] 0 0 0 0 0 0 0 0 0 0 0 0 0 0 0 0 0 0 0 0 0 0 0 0 0 0 0 None None None 0 [] [] zero_tss 0.
Definition demo_sched : sched :=
  mk_sched ([Some (demo_task 0 0); Some (demo_task 0 0); Some (demo_task 1 7); Some (demo_task 0 0)] ++ replicate 60 None) 1 5 0 3.

Lemma schedule_picks_best_witness :
  wp schedule (λ _ s', best_task (task s') (current s')) demo_sched ∧
  match schedule demo_sched with Ret _ s => current s = 3%nat | _ => False end.
Proof.
  split; [|vm_compute; reflexivity].
  refine (wp_mono _ _ _ _ (schedule_picks_best demo_sched _) _); [|intros [] s' [H _]; exact H].
  intros n t Ht. cbn in Ht. do 4 (destruct n as [|n]; [injection Ht as <-; split; vm_compute; congruence|]).
  cbn in Ht. exfalso. revert Ht. change (replicate 60 (@None task_struct) !! n = Some (Some t) → False).
  intros Ht%lookup_replicate_1. destruct Ht as [? _]. done.
Defined.

(** ** Wait queues

    A queue is a single pointer; the rest of it is in the local variables
    [tmp] of the sleeping tasks.  A stack of sleepers, the last first: *)
Fixpoint wait_chain (q : ptr) (fr : list (nat * ptr)) : Prop :=
  match fr with
  | [] => q = None
  | (id, tmp) :: fr' => q = Some id ∧ wait_chain tmp fr'
  end.

(** the tasks [ids] going to sleep on the queue one after the other *)
Fixpoint sleep_all (ids : list nat) (q : ptr) (fr : list (nat * ptr)) : M sched (ptr * list (nat * ptr)) :=
  match ids with
  | [] => mret (q, fr)
  | id :: ids' =>
    modify (set_current id) ;;
    r ← sleep_on_begin q;
    sleep_all ids' r.2 ((id, r.1) :: fr)
  end.

(** a sleeper runs again, which it can only do when somebody has woken it *)
Definition resume (p : nat * ptr) : M sched unit :=
  t ← the_task p.1;
  if t_state t =? TASK_RUNNING then modify (set_current p.1) ;; sleep_end p.2 else blocked.

Definition in_state (s : sched) (v : Z) (id : nat) : Prop :=
  ∃ t, task s !! id = Some (Some t) ∧ t_state t = v.

Lemma upd_task_run i f t s : task s !! i = Some (Some t) →
  wp (upd_task i f) (λ _ s', task s' = <[i := Some (f t)]> (task s) ∧ current s' = current s) s.
Proof. intros Ht. unfold wp, upd_task. by rewrite Ht. Qed.

Lemma in_state_insert i t s s' v id : task s !! i = Some (Some t) → task s' = <[i := Some (set_t_state v t)]> (task s) →
  (id = i → in_state s' v id) ∧ (∀ w, id ≠ i → in_state s w id → in_state s' w id).
Proof.
  intros Ht Hs. split.
  - intros ->. eexists. rewrite Hs, list_lookup_insert_eq by (by apply lookup_lt_Some in Ht). done.
  - intros w Hne (t' & Ht' & Hw). exists t'. rewrite Hs, list_lookup_insert_ne by done. done.
Qed.

Lemma sleep_all_run ids q fr s :
  NoDup (ids ++ fr.*1) → (∀ id, id ∈ ids → id ≠ 0%nat ∧ ∃ t, task s !! id = Some (Some t)) →
  wait_chain q fr → (∀ id, id ∈ fr.*1 → in_state s TASK_UNINTERRUPTIBLE id) →
  wp (sleep_all ids q fr) (λ r s', wait_chain r.1 r.2 ∧ r.2.*1 = reverse ids ++ fr.*1 ∧
    ∀ id, id ∈ r.2.*1 → in_state s' TASK_UNINTERRUPTIBLE id) s.
Proof.
  revert q fr s. induction ids as [|id ids IH]; intros q fr s Hnd Hids Hch Hfr; cbn [sleep_all].
  { apply wp_ret. by split_and!. }
  destruct (Hids id ltac:(set_solver)) as (Hid & t & Ht).
  apply wp_bind, wp_modify, wp_bind. unfold sleep_on_begin, sleep_begin. apply wp_bind, wp_gets. cbn [set_current current].
  rewrite (proj2 (Nat.eqb_neq id 0)) by done. apply wp_bind. unfold upd_cur.
  eapply wp_mono; [apply (upd_task_run id _ t); done|]. cbn [set_current task current]. intros [] s1 [Ht1 _].
  apply wp_ret. apply NoDup_cons in Hnd as [Hni Hnd]. rewrite reverse_cons.
  pose proof (in_state_insert id t s s1 TASK_UNINTERRUPTIBLE) as Hin.
  eapply wp_mono; [apply IH|].
  - cbn [fmap list_fmap fst]. rewrite <- Permutation_middle. by apply NoDup_cons.
  - intros id' Hid'. destruct (Hids id' ltac:(set_solver)) as (Hz & t' & Ht'). split; [done|]. exists t'.
    rewrite Ht1, list_lookup_insert_ne; [done|]. intros ->. apply Hni. set_solver.
  - by split.
  - intros id' Hid'. cbn [fmap list_fmap fst] in Hid'. apply elem_of_cons in Hid' as [->|Hid'].
    + destruct (Hin id Ht Ht1) as [Ha _]. by apply Ha.
    + destruct (Hin id' Ht Ht1) as [_ Ha]. apply Ha; [|by apply Hfr]. intros ->. apply Hni. set_solver.
  - intros r s' (H1 & H2 & H3). split; [done|]. split; [|done]. rewrite H2. cbn [fmap list_fmap fst].
    by rewrite <- app_assoc.
Qed.

Lemma set_state_run q fr s v :
  wait_chain q fr → (∀ id, id ∈ fr.*1 → ∃ w, in_state s w id) →
  wp (set_state v q) (λ _ s', (∀ id w, Some id ≠ q → in_state s w id → in_state s' w id) ∧
    ∀ id, q = Some id → in_state s' v id) s.
Proof.
  intros Hch Hfr. destruct q as [i|]; [|by apply wp_ret]. destruct fr as [|[id tmp] fr]; [done|].
  destruct Hch as [[= <-] _]. destruct (Hfr i ltac:(cbn; set_solver)) as (w & t & Ht & _).
  eapply wp_mono; [by eapply upd_task_run|]. intros [] s1 [Ht1 _]. split.
  - intros id' w' Hne Hin. destruct (in_state_insert i t s s1 v id' Ht Ht1) as [_ Ha]. apply Ha; [|done]. congruence.
  - intros id' [= <-]. destruct (in_state_insert i t s s1 v i Ht Ht1) as [Ha _]. by apply Ha.
Qed.

Lemma resume_all_run q fr s :
  NoDup (fr.*1) → wait_chain q fr → (∀ id, q = Some id → in_state s TASK_RUNNING id) →
  (∀ id, id ∈ fr.*1 → Some id ≠ q → in_state s TASK_UNINTERRUPTIBLE id) →
  ∀ (Done : nat → Prop), (∀ id, Done id → id ∉ fr.*1 ∧ in_state s TASK_RUNNING id) →
  wp (for_each resume fr) (λ _ s', ∀ id, id ∈ fr.*1 ∨ Done id → in_state s' TASK_RUNNING id) s.
Proof.
  revert q s. induction fr as [|[id tmp] fr IH]; intros q s Hnd Hch Hrun Hsl Dn HD; cbn [for_each].
  { apply wp_ret. intros id [Hid|Hid]; [set_solver|by apply HD]. }
  destruct Hch as [-> Hch]. cbn [fmap list_fmap fst] in *. apply NoDup_cons in Hnd as [Hni Hnd].
  destruct (Hrun id eq_refl) as (t & Ht & Hst). apply wp_bind. unfold resume. cbn [fst snd].
  apply wp_bind. unfold wp at 1, the_task. rewrite Ht. rewrite Hst. cbn [Z.eqb TASK_RUNNING]. apply wp_bind, wp_modify.
  eapply wp_mono; [apply (set_state_run tmp fr (set_current id s)); [done|]|].
  - intros id' Hid'. exists TASK_UNINTERRUPTIBLE. apply (Hsl id'); [set_solver|]. intros [= ->]. done.
  - intros [] s1 [Hkeep Hwoken]. eapply wp_mono; [apply (IH tmp s1 Hnd Hch Hwoken) with (Done := λ k, k = id ∨ Dn k)|].
    + intros id' Hid' Hne. apply Hkeep; [done|]. apply (Hsl id'); [set_solver|]. intros [= ->]. done.
    + intros id' [->|Hd].
      * split; [done|]. apply Hkeep; [|by exists t]. destruct fr as [|[id1 tmp1] fr]; [by cbn in Hch; subst|].
        destruct Hch as [-> _]. intros [= ->]. apply Hni. cbn. set_solver.
      * destruct (HD id' Hd) as [Hn Hr]. split; [set_solver|]. apply Hkeep; [|done].
        destruct fr as [|[id1 tmp1] fr]; [by cbn in Hch; subst|]. destruct Hch as [-> _]. intros [= ->]. apply Hn. cbn. set_solver.
    + intros [] s' Hs'. intros id' [Hid'|Hid']; apply Hs'; set_solver.
Qed.

(** C24. Nobody is forgotten on a wait queue: when any number of tasks have gone
    to sleep on it, one [wake_up] wakes the last, and as each one runs again it
    wakes the one before it, until all are runnable and the queue is empty. *)
Theorem wake_up_wakes_all ids s :
  NoDup ids → (∀ id, id ∈ ids → id ≠ 0%nat ∧ ∃ t, task s !! id = Some (Some t)) →
  wp (r ← sleep_all ids None []; q ← wake_up r.1; for_each resume r.2 ;; mret q)
    (λ q s', q = None ∧ ∀ id, id ∈ ids → in_state s' TASK_RUNNING id) s.
Proof.
  intros Hnd Hids. apply wp_bind.
  eapply wp_mono; [apply (sleep_all_run ids None [] s); cbn; rewrite ?app_nil_r; try done; set_solver|].
  intros [q fr] s1 (Hch & Hfst & Hsl). cbn [fst snd] in *. rewrite app_nil_r in Hfst.
  assert (Hnd' : NoDup (fr.*1)) by (rewrite Hfst; by rewrite reverse_Permutation).
  apply wp_bind. unfold wake_up. apply wp_bind.
  eapply wp_mono; [apply (set_state_run q fr s1); [done|eauto]|].
  intros [] s2 [Hkeep Hwoken]. apply wp_ret, wp_bind.
  eapply wp_mono; [apply (resume_all_run q fr s2 Hnd' Hch Hwoken) with (Done := λ _, False)|].
  - intros id Hid Hne. by apply Hkeep; [|apply Hsl].
  - done.
  - intros [] s3 Hall. apply wp_ret. split; [done|]. intros id Hid. apply Hall. left. rewrite Hfst. set_solver.
Qed.

Lemma wake_up_wakes_all_witness :
  wp (r ← sleep_all [1; 3; 2]%nat None []; q ← wake_up r.1; for_each resume r.2 ;; mret q)
    (λ q s', q = None ∧ ∀ id, id ∈ [1; 3; 2]%nat → in_state s' TASK_RUNNING id) demo_sched.
Proof.
  apply wake_up_wakes_all.
  - apply (bool_decide_unpack _). vm_compute. exact I.
  - intros id Hid. repeat (apply elem_of_cons in Hid as [->|Hid]; [split; [discriminate|eexists; reflexivity]|]).
    by apply elem_of_nil in Hid.
Defined.

(** ** The timer list

    The nodes [is] linked from [q] hold the delays and functions [cs]; each
    delay is relative to the timer before it. *)
Fixpoint timer_chain (tl : list timer) (q : ptr) (ns : list nat) (cs : list (Z * Z)) : Prop :=
  match ns, cs with
  | [], [] => q = None
  | n :: ns', (d, f) :: cs' => q = Some n ∧ ∃ nx, tl !! n = Some (mk_timer d (Some f) nx) ∧ timer_chain tl nx ns' cs'
  | _, _ => False
  end.

(** the new timer [(d, f)] put into the list [cs], as the code does it *)
Fixpoint sift (d f : Z) (cs : list (Z * Z)) : list (Z * Z) :=
  match cs with
  | (e, g) :: cs' => if e <? d then (e, g) :: sift (d - e) f cs' else (d, f) :: cs
  | [] => [(d, f)]
  end.

Lemma timer_chain_insert tl q ns cs n t : n ∉ ns → timer_chain tl q ns cs → timer_chain (<[n := t]> tl) q ns cs.
Proof.
  revert q cs. induction ns as [|m ns IH]; intros q [|[d f] cs] Hn Hc; try done. cbn in *.
  apply not_elem_of_cons in Hn as [Hne Hn]. destruct Hc as (-> & nx & Hm & Hc). split; [done|]. exists nx.
  rewrite list_lookup_insert_ne by done. split; [done|]. by apply IH.
Qed.

Lemma wp_the_timer i t (Q : timer → timers → Prop) s : timer_list s !! i = Some t → Q t s → wp (the_timer i) Q s.
Proof. intros Ht HQ. unfold wp, the_timer, of_opt. by rewrite Ht. Qed.
Lemma wp_upd_timer i f t (Q : unit → timers → Prop) s :
  timer_list s !! i = Some t → Q tt (set_timer_list (<[i := f t]> (timer_list s)) s) → wp (upd_timer i f) Q s.
Proof. intros Ht HQ. unfold wp, upd_timer. by rewrite Ht. Qed.

Lemma timer_sift_run fuel p ns d f cs s :
  (length cs < fuel)%nat → NoDup (p :: ns) → 0 ≤ d < 2 ^ 31 → Forall (λ c, 0 ≤ c.1) cs →
  timer_chain (timer_list s) (Some p) (p :: ns) ((d, f) :: cs) →
  wp (timer_sift fuel p) (λ _ s', timer_chain (timer_list s') (Some p) (p :: ns) (sift d f cs) ∧
    next_timer s' = next_timer s ∧ called s' = called s ∧
    ∀ k, k ∉ p :: ns → timer_list s' !! k = timer_list s !! k) s.
Proof.
  revert p ns d cs s. induction fuel as [|fuel IH]; intros p ns d cs s Hf Hnd Hd Hcs Hch; [lia|].
  cbn [timer_sift]. pose proof Hch as Hch0. destruct Hch as (_ & nx & Hp & Hch). cbn in Hp.
  apply wp_bind. eapply wp_the_timer; [done|]. cbn [tm_next tm_jiffies tm_fn].
  destruct ns as [|n ns], cs as [|[e g] cs]; try done.
  { cbn in Hch. subst nx. by apply wp_ret. }
  destruct Hch as (-> & ny & Hn & Hch). apply wp_bind. eapply wp_the_timer; [done|]. cbn [tm_next tm_jiffies tm_fn sift].
  destruct (e <? d) eqn:E; b2p; [|by apply wp_ret].
  apply NoDup_cons in Hnd as [Hpn Hnd]. apply Forall_cons in Hcs as [He Hcs]. cbn in He.
  assert (Hne : p ≠ n) by set_solver. pose proof Hnd as [Hnn _]%NoDup_cons.
  apply wp_bind. eapply wp_upd_timer; [done|]. apply wp_bind. eapply wp_upd_timer.
  { cbn [set_timer_list timer_list]. rewrite list_lookup_insert_ne by done. done. }
  cbn [set_tm_fn set_tm_jiffies tm_jiffies tm_fn tm_next set_timer_list timer_list next_timer called].
  rewrite (s32_id (d - e)) by lia. match goal with |- wp _ _ ?s' => set (s1 := s') end.
  assert (Hn1 : timer_list s1 !! n = Some (mk_timer (d - e) (Some f) ny)).
  { cbn. apply list_lookup_insert_eq. rewrite length_insert. by apply lookup_lt_Some in Hn. }
  assert (Hp1 : timer_list s1 !! p = Some (mk_timer e (Some g) (Some n))).
  { cbn. rewrite list_lookup_insert_ne by done. apply list_lookup_insert_eq. by apply lookup_lt_Some in Hp. }
  eapply wp_mono; [apply (IH n ns (d - e) cs s1); try done|].
  - cbn in Hf. lia.
  - lia.
  - split; [done|]. exists ny. split; [done|]. cbn. do 2 (apply timer_chain_insert; [set_solver|]). done.
  - intros [] s2 (Hc2 & Hn2 & Hcl2 & Hk2). split; [|split; [done|split; [done|]]].
    + split; [done|]. exists (Some n). split; [|done]. by rewrite Hk2.
    + intros k Hk. rewrite Hk2 by set_solver. cbn. rewrite !list_lookup_insert_ne by set_solver. done.
Qed.

Definition total (cs : list (Z * Z)) : Z := foldr (λ c x, c.1 + x) 0 cs.

Lemma sift_split d f cs : Forall (λ c, 0 ≤ c.1) cs → 0 < d →
  ∃ l1 l2, cs = l1 ++ l2 ∧ sift d f cs = l1 ++ (d - total l1, f) :: l2 ∧ 0 < d - total l1 ∧
    match l2 with (e, _) :: _ => d - total l1 ≤ e | [] => True end.
Proof.
  revert d. induction cs as [|[e g] cs IH]; intros d Hcs Hd; cbn [sift].
  { exists [], []. cbn. split; [done|]. rewrite Z.sub_0_r. done. }
  apply Forall_cons in Hcs as [He Hcs]. cbn in He. destruct (e <? d) eqn:E; b2p.
  - destruct (IH (d - e) Hcs ltac:(lia)) as (l1 & l2 & -> & -> & H1 & H2). exists ((e, g) :: l1), l2.
    cbn [app total foldr fst]. fold (total l1). replace (d - (e + total l1)) with (d - e - total l1) by lia. done.
  - exists [], ((e, g) :: cs). cbn. rewrite Z.sub_0_r. split_and!; done.
Qed.

(** C25. [add_timer] puts a new timer where it belongs: after the timers [l1]
    that run out before it, with the time that remains after them, so that it
    runs out [d] ticks from now.  (The delays of the later timers [l2] are left
    as they were, although they now count from the new one: the first of them
    runs out [d - total l1] ticks too late.) *)
Theorem add_timer_inserts s ns cs d f k t :
  timer_chain (timer_list s) (next_timer s) ns cs → NoDup ns → (length ns ≤ TIME_REQUESTS)%nat →
  Forall (λ c, 0 ≤ c.1) cs → 0 < d < 2 ^ 31 →
  timer_list s !! k = Some t → tm_fn t = None →
  wp (add_timer d (Some f)) (λ _ s', called s' = called s ∧ ∃ p l1 l2,
    cs = l1 ++ l2 ∧ p ∉ ns ∧
    timer_chain (timer_list s') (next_timer s') (p :: ns) (l1 ++ (d - total l1, f) :: l2) ∧
    0 < d - total l1 ∧ match l2 with (e, _) :: _ => d - total l1 ≤ e | [] => True end) s.
Proof.
  intros Hch Hnd Hlen Hcs Hd Hk Ht. unfold add_timer. rewrite (proj2 (Z.leb_gt d 0)) by lia.
  apply wp_bind, wp_gets. set (free := λ t : timer, match tm_fn t with None => true | Some _ => false end).
  destruct (find_idx free (timer_list s)) as [p|] eqn:Ep.
  2:{ exfalso. rewrite find_idx_None in Ep. specialize (Ep t). unfold free in Ep. rewrite Ht in Ep.
      discriminate Ep. by eapply list_elem_of_lookup_2. }
  apply find_idx_Some in Ep as (u & Hu & Hfree & _).
  assert (Hpn : p ∉ ns).
  { intros Hin. assert (∃ dd ff nx, timer_list s !! p = Some (mk_timer dd (Some ff) nx)) as (dd & ff & nx & Hp).
    { clear -Hch Hin. revert Hch. generalize (next_timer s). revert cs. induction ns as [|n ns IH]; intros cs q Hch; [set_solver|].
      destruct cs as [|[d f] cs]; [done|]. destruct Hch as (_ & nx & Hn & Hch). apply elem_of_cons in Hin as [->|Hin]; [eauto|by eapply IH]. }
    rewrite Hu in Hp. injection Hp as ->. done. }
  apply wp_bind, wp_get, wp_bind. eapply wp_upd_timer; [done|]. apply wp_bind, wp_modify.
  cbn [set_timer_list set_next_timer timer_list next_timer called].
  match goal with |- wp _ _ ?s' => set (s1 := s') end.
  assert (Hlcs : length cs = length ns).
  { clear -Hch. revert Hch. generalize (next_timer s). revert cs. induction ns as [|n ns IH]; intros [|[d f] cs] q Hch; try done.
    destruct Hch as (_ & nx & _ & Hch). cbn. f_equal. by eapply IH. }
  eapply wp_mono; [apply (timer_sift_run _ p ns d f cs s1)|].
  - lia.
  - by apply NoDup_cons.
  - lia.
  - done.
  - split; [done|]. exists (next_timer s). split; [apply list_lookup_insert_eq; by apply lookup_lt_Some in Hu|].
    cbn. by apply timer_chain_insert.
  - intros [] s2 (Hc2 & Hn2 & Hcl2 & _). split; [done|].
    destruct (sift_split d f cs Hcs ltac:(lia)) as (l1 & l2 & -> & Hs & H1 & H2).
    exists p, l1, l2. split; [done|]. split; [done|]. rewrite Hs in Hc2. rewrite Hn2. cbn. split_and!; done.
Qed.

Definition demo_timers : timers :=
  mk_timers ([mk_timer 10 (Some 1) None] ++ replicate 63 (mk_timer 0 None None)) (Some 0%nat) [].

(** a timer of 10 ticks, then one of 3: the first is called at tick 13 *)
Lemma add_timer_inserts_witness :
  wp (add_timer 3 (Some 2)) (λ _ s', called s' = [] ∧ ∃ p l1 l2,
    [(10, 1)] = l1 ++ l2 ∧ p ∉ [0%nat] ∧
    timer_chain (timer_list s') (next_timer s') [p; 0%nat] (l1 ++ (3 - total l1, 2) :: l2) ∧
    0 < 3 - total l1 ∧ match l2 with (e, _) :: _ => 3 - total l1 ≤ e | [] => True end) demo_timers ∧
  match (add_timer 3 (Some 2) ;; for_each (λ _, timer_tick) (seq 0 12)) demo_timers with
  | Ret _ s => called s = [2] | _ => False end.
Proof.
  split; [|vm_compute; reflexivity].
  apply (add_timer_inserts demo_timers [0%nat] [(10, 1)] 3 2 1 (mk_timer 0 None None)).
  - split; [reflexivity|]. exists None. split; reflexivity.
  - apply (bool_decide_unpack _). vm_compute. exact I.
  - apply Nat.leb_le. reflexivity.
  - repeat constructor. discriminate.
  - lia.
  - reflexivity.
  - reflexivity.
Defined.
