(* ===== verification/Floppy.v ===== *)
(** * The floppy driver

    Models [linux-0.11/kernel/blk_drv/floppy.c] and [floppy_interrupt] of
    [kernel/system_call.s], with the registers of [include/linux/fdreg.h].

    The driver is a state machine: [do_fd_request] starts what has to be done
    next for the request at the head of the queue - reset, recalibration,
    switching on the motor, seeking, transferring - and it is continued by
    timers ([floppy_on_interrupt], [transfer]) and by the interrupts of the
    controller, each of which runs the function named by [do_floppy].

    The controller and the DMA chip are reached by ports, and are a parameter
    of the model ([Ports]), as is the address of the data of a buffer.  The
    timers and the motors are those of the file Sched.  Messages printed and
    delays are left out. *)

From S2P Require Import Prelude Ports Blk Sched.

Definition FLOPPY_MAJOR : nat := 2.
Definition MAX_ERRORS : Z := 8.
Definition MAX_REPLIES : Z := 7.
Definition FD_STATUS : Z := 0x3f4.
Definition FD_DATA : Z := 0x3f5.
Definition FD_DOR : Z := 0x3f2.
Definition FD_DIR : Z := 0x3f7.
Definition FD_DCR : Z := 0x3f7.
Definition STATUS_BUSY : Z := 0x10.
Definition STATUS_DIR : Z := 0x40.
Definition STATUS_READY : Z := 0x80.
Definition FD_RECALIBRATE : Z := 0x07.
Definition FD_SEEK : Z := 0x0F.
Definition FD_READ : Z := 0xE6.
Definition FD_WRITE : Z := 0xC5.
Definition FD_SENSEI : Z := 0x08.
Definition FD_SPECIFY : Z := 0x03.
Definition DMA_READ : Z := 0x46.
Definition DMA_WRITE : Z := 0x4A.

(** ** State *)

(** [struct floppy_struct], and the table of the types of disk *)
Record floppy_struct := mk_type {
  f_size : Z; f_sect : Z; f_head : Z; f_track : Z; f_stretch : Z; f_gap : Z; f_rate : Z; f_spec1 : Z
}.
Definition floppy_type : list floppy_struct := [
  mk_type 0 0 0 0 0 0 0 0;
  mk_type 720 9 2 40 0 0x2A 0x02 0xDF;
  mk_type 2400 15 2 80 0 0x1B 0x00 0xDF;
  mk_type 720 9 2 40 1 0x2A 0x02 0xDF;
  mk_type 1440 9 2 80 0 0x2A 0x02 0xDF;
  mk_type 720 9 2 40 1 0x23 0x01 0xDF;
  mk_type 1440 9 2 80 0 0x23 0x01 0xDF;
  mk_type 2880 18 2 80 0 0x1B 0x00 0xCF].

(** what [do_floppy] can point to *)
Inductive fd_handler := h_rw_interrupt | h_seek_interrupt | h_recal_interrupt | h_reset_interrupt.

(** the variables of the current request; the pointer [floppy] is a place in
    [floppy_type], [floppy_no] *)
Record fd_globals := mk_globals {
  cur_spec1 : Z;
  cur_rate : Z;
  floppy_no : nat;
  current_drive : Z;
  sector : Z;
  head : Z;
  track : Z;
  seek_track : Z;
  current_track : Z;
  command : Z
}.
Definition set_cur_spec1 (v : Z) (x : fd_globals) : fd_globals :=
  mk_globals v (cur_rate x) (floppy_no x) (current_drive x) (sector x) (head x) (track x) (seek_track x) (current_track x) (command x).
Definition set_cur_rate (v : Z) (x : fd_globals) : fd_globals :=
  mk_globals (cur_spec1 x) v (floppy_no x) (current_drive x) (sector x) (head x) (track x) (seek_track x) (current_track x) (command x).
Definition set_floppy_no (v : nat) (x : fd_globals) : fd_globals :=
  mk_globals (cur_spec1 x) (cur_rate x) v (current_drive x) (sector x) (head x) (track x) (seek_track x) (current_track x) (command x).
Definition set_current_drive (v : Z) (x : fd_globals) : fd_globals :=
  mk_globals (cur_spec1 x) (cur_rate x) (floppy_no x) v (sector x) (head x) (track x) (seek_track x) (current_track x) (command x).
Definition set_sector (v : Z) (x : fd_globals) : fd_globals :=
  mk_globals (cur_spec1 x) (cur_rate x) (floppy_no x) (current_drive x) v (head x) (track x) (seek_track x) (current_track x) (command x).
Definition set_head (v : Z) (x : fd_globals) : fd_globals :=
  mk_globals (cur_spec1 x) (cur_rate x) (floppy_no x) (current_drive x) (sector x) v (track x) (seek_track x) (current_track x) (command x).
Definition set_track (v : Z) (x : fd_globals) : fd_globals :=
  mk_globals (cur_spec1 x) (cur_rate x) (floppy_no x) (current_drive x) (sector x) (head x) v (seek_track x) (current_track x) (command x).
Definition set_seek_track (v : Z) (x : fd_globals) : fd_globals :=
  mk_globals (cur_spec1 x) (cur_rate x) (floppy_no x) (current_drive x) (sector x) (head x) (track x) v (current_track x) (command x).
Definition set_current_track (v : Z) (x : fd_globals) : fd_globals :=
  mk_globals (cur_spec1 x) (cur_rate x) (floppy_no x) (current_drive x) (sector x) (head x) (track x) (seek_track x) v (command x).
Definition set_command (v : Z) (x : fd_globals) : fd_globals :=
  mk_globals (cur_spec1 x) (cur_rate x) (floppy_no x) (current_drive x) (sector x) (head x) (track x) (seek_track x) (current_track x) v.

(** the variables of the driver, with the block-device layer, the timers, the
    motors and the outside world; [select_wakeups] counts the calls of
    [wake_up] on [wait_on_floppy_select] *)
Record fd_state (W : Type) := mk_fd {
  fd_blk : blk;
  fd_ports : W;
  fd_timers : timers;
  fd_motor : floppy;
  fd_cur : fd_globals;
  recalibrate : bool;
  reset : bool;
  seek : bool;
  reply_buffer : bytes;
  tmp_floppy_area : bytes;
  do_floppy : option fd_handler;
  fd_registered : bool;
  select_wakeups : nat
}.
Arguments mk_fd {W}.
Arguments fd_blk {W}.
Arguments fd_ports {W}.
Arguments fd_timers {W}.
Arguments fd_motor {W}.
Arguments fd_cur {W}.
Arguments recalibrate {W}.
Arguments reset {W}.
Arguments seek {W}.
Arguments reply_buffer {W}.
Arguments tmp_floppy_area {W}.
Arguments do_floppy {W}.
Arguments fd_registered {W}.
Arguments select_wakeups {W}.

Section setters.
Context {W : Type}.
Definition set_fd_blk (v : blk) (x : fd_state W) : fd_state W :=
  mk_fd v (fd_ports x) (fd_timers x) (fd_motor x) (fd_cur x) (recalibrate x) (reset x) (seek x) (reply_buffer x) (tmp_floppy_area x) (do_floppy x) (fd_registered x) (select_wakeups x).
Definition set_fd_ports (v : W) (x : fd_state W) : fd_state W :=
  mk_fd (fd_blk x) v (fd_timers x) (fd_motor x) (fd_cur x) (recalibrate x) (reset x) (seek x) (reply_buffer x) (tmp_floppy_area x) (do_floppy x) (fd_registered x) (select_wakeups x).
Definition set_fd_timers (v : timers) (x : fd_state W) : fd_state W :=
  mk_fd (fd_blk x) (fd_ports x) v (fd_motor x) (fd_cur x) (recalibrate x) (reset x) (seek x) (reply_buffer x) (tmp_floppy_area x) (do_floppy x) (fd_registered x) (select_wakeups x).
Definition set_fd_motor (v : floppy) (x : fd_state W) : fd_state W :=
  mk_fd (fd_blk x) (fd_ports x) (fd_timers x) v (fd_cur x) (recalibrate x) (reset x) (seek x) (reply_buffer x) (tmp_floppy_area x) (do_floppy x) (fd_registered x) (select_wakeups x).
Definition set_fd_cur (v : fd_globals) (x : fd_state W) : fd_state W :=
  mk_fd (fd_blk x) (fd_ports x) (fd_timers x) (fd_motor x) v (recalibrate x) (reset x) (seek x) (reply_buffer x) (tmp_floppy_area x) (do_floppy x) (fd_registered x) (select_wakeups x).
Definition set_recalibrate (v : bool) (x : fd_state W) : fd_state W :=
  mk_fd (fd_blk x) (fd_ports x) (fd_timers x) (fd_motor x) (fd_cur x) v (reset x) (seek x) (reply_buffer x) (tmp_floppy_area x) (do_floppy x) (fd_registered x) (select_wakeups x).
Definition set_reset (v : bool) (x : fd_state W) : fd_state W :=
  mk_fd (fd_blk x) (fd_ports x) (fd_timers x) (fd_motor x) (fd_cur x) (recalibrate x) v (seek x) (reply_buffer x) (tmp_floppy_area x) (do_floppy x) (fd_registered x) (select_wakeups x).
Definition set_seek (v : bool) (x : fd_state W) : fd_state W :=
  mk_fd (fd_blk x) (fd_ports x) (fd_timers x) (fd_motor x) (fd_cur x) (recalibrate x) (reset x) v (reply_buffer x) (tmp_floppy_area x) (do_floppy x) (fd_registered x) (select_wakeups x).
Definition set_reply_buffer (v : bytes) (x : fd_state W) : fd_state W :=
  mk_fd (fd_blk x) (fd_ports x) (fd_timers x) (fd_motor x) (fd_cur x) (recalibrate x) (reset x) (seek x) v (tmp_floppy_area x) (do_floppy x) (fd_registered x) (select_wakeups x).
Definition set_tmp_floppy_area (v : bytes) (x : fd_state W) : fd_state W :=
  mk_fd (fd_blk x) (fd_ports x) (fd_timers x) (fd_motor x) (fd_cur x) (recalibrate x) (reset x) (seek x) (reply_buffer x) v (do_floppy x) (fd_registered x) (select_wakeups x).
Definition set_do_floppy (v : option fd_handler) (x : fd_state W) : fd_state W :=
  mk_fd (fd_blk x) (fd_ports x) (fd_timers x) (fd_motor x) (fd_cur x) (recalibrate x) (reset x) (seek x) (reply_buffer x) (tmp_floppy_area x) v (fd_registered x) (select_wakeups x).
Definition set_fd_registered (v : bool) (x : fd_state W) : fd_state W :=
  mk_fd (fd_blk x) (fd_ports x) (fd_timers x) (fd_motor x) (fd_cur x) (recalibrate x) (reset x) (seek x) (reply_buffer x) (tmp_floppy_area x) (do_floppy x) v (select_wakeups x).
Definition set_select_wakeups (v : nat) (x : fd_state W) : fd_state W :=
  mk_fd (fd_blk x) (fd_ports x) (fd_timers x) (fd_motor x) (fd_cur x) (recalibrate x) (reset x) (seek x) (reply_buffer x) (tmp_floppy_area x) (do_floppy x) (fd_registered x) v.
End setters.

(** the functions given to timers, which the file Sched knows by numbers *)
Definition FN_ON_INTERRUPT : Z := 1.
Definition FN_TRANSFER : Z := 2.

Section floppy.
Context {W : Type} `{Ports W}.
Abbreviation st := (fd_state W).
(** the address of the data of a buffer, and of [tmp_floppy_area] *)
Context (buffer_addr : nat → Z) (tmp_addr : Z).

Definition on_part {X A} (get : st → X) (set : X → st → st) (m : M X A) : M st A := λ s,
  match m (get s) with
  | Ret a x => Ret a (set x s)
  | Panic w => Panic w
  | Sleep x => Sleep (set x s)
  | Exit c x => Exit c (set x s)
  | Fault => Fault
  | NoFuel => NoFuel
  end.
Definition on_blk {A} : M blk A → M st A := on_part fd_blk set_fd_blk.
Definition on_timers {A} : M timers A → M st A := on_part fd_timers set_fd_timers.
Definition inb (port : Z) : M st Z := λ s,
  let '(v, w) := port_inb port (fd_ports s) in Ret v (set_fd_ports w s).
Definition outb (v port : Z) : M st unit := modify (λ s, set_fd_ports (port_outb port (u8 v) (fd_ports s)) s).
Definition upd_cur (f : fd_globals → fd_globals) : M st unit := modify (λ s, set_fd_cur (f (fd_cur s)) s).
Definition the_cur : M st fd_globals := gets fd_cur.

Definition CURRENT : M st nat := p ← on_blk (get_current FLOPPY_MAJOR); of_opt p.
Definition the_current_req : M st request := r ← CURRENT; on_blk (the_req r).
Definition CURRENT_DEV (q : request) : nat := Z.to_nat (Z.land (rq_dev q) 3).

(** the functions of sched.c on the motors, which write the new value of
    [current_DOR] to the controller when they change it *)
Definition on_motor {A} (m : M floppy A) : M st A :=
  dor ← gets (λ s, current_DOR (fd_motor s));
  a ← on_part fd_motor set_fd_motor m;
  dor' ← gets (λ s, current_DOR (fd_motor s));
  when (negb (dor' =? dor)) (outb dor' FD_DOR) ;;
  mret a.

(** [end_request] with the [DEVICE_OFF] of floppies *)
Definition fd_end_request (uptodate : bool) : M st unit :=
  q ← the_current_req;
  on_motor (floppy_off (CURRENT_DEV q)) ;;
  on_blk (end_request FLOPPY_MAJOR uptodate).

(** ** Selecting drives *)
Definition upd_motor (f : floppy → floppy) : M st unit := modify (λ s, set_fd_motor (f (fd_motor s)) s).
Definition set_selected (v : bool) (x : floppy) : floppy :=
  mk_floppy (mon_timer x) (moff_timer x) (current_DOR x) v (motor_wakeups x).

Definition floppy_deselect : M st unit :=
  upd_motor (set_selected false) ;;
  modify (λ s, set_select_wakeups (S (select_wakeups s)) s).

(** when the task has to sleep the outcome is [Sleep]; without that,
    [floppy_on] selects the drive, and the second attempt is the last *)
Fixpoint floppy_change_loop (fuel : nat) (nr : nat) : M st Z :=
  match fuel with
  | O => nofuel
  | S fuel' =>
    on_motor (floppy_on nr) ;;
    x ← gets fd_motor;
    if negb (Z.land (current_DOR x) 3 =? Z.of_nat nr) then
      if selected x then blocked else floppy_change_loop fuel' nr
    else
      v ← inb FD_DIR;
      on_motor (floppy_off nr) ;;
      mret (if negb (Z.land v 0x80 =? 0) then 1 else 0)
  end.
Definition floppy_change (nr : nat) : M st Z := floppy_change_loop 2 nr.

(** ** Talking to the controller *)
Definition setup_DMA : M st unit :=
  q ← the_current_req;
  buf ← of_opt (rq_buffer q);
  c ← the_cur;
  let addr := buffer_addr buf in
  addr ← (if 0x100000 <=? addr then
            when (command c =? FD_WRITE) (b ← on_blk (the_bh buf); modify (set_tmp_floppy_area (b_data b))) ;;
            mret tmp_addr
          else mret addr);
  outb (Z.lor 4 2) 10 ;;
  let mode := if command c =? FD_READ then DMA_READ else DMA_WRITE in
  outb mode 12 ;;
  outb mode 11 ;;
  outb addr 4 ;;
  outb (Z.shiftr addr 8) 4 ;;
  outb (Z.shiftr addr 16) 0x81 ;;
  outb 0xff 5 ;;
  outb 3 5 ;;
  outb (Z.lor 0 2) 10.

Fixpoint output_byte_loop (n : nat) (byte : Z) : M st unit :=
  match n with
  | O => modify (set_reset true)
  | S n' =>
    status ← inb FD_STATUS;
    if Z.land status (Z.lor STATUS_READY STATUS_DIR) =? STATUS_READY then outb byte FD_DATA
    else output_byte_loop n' byte
  end.
Definition output_byte (byte : Z) : M st unit :=
  r ← gets reset;
  if (r : bool) then mret tt else output_byte_loop (Z.to_nat 10000) byte.

(** the bytes of the result, [i] of which have been read *)
Fixpoint result_loop (n : nat) (i : Z) : M st Z :=
  match n with
  | O => modify (set_reset true) ;; mret (-1)
  | S n' =>
    v ← inb FD_STATUS;
    let status := Z.land v (Z.lor STATUS_DIR (Z.lor STATUS_READY STATUS_BUSY)) in
    if status =? STATUS_READY then mret i
    else if status =? Z.lor STATUS_DIR (Z.lor STATUS_READY STATUS_BUSY) then
      if MAX_REPLIES <=? i then modify (set_reset true) ;; mret (-1)
      else
        d ← inb FD_DATA;
        modify (λ s, set_reply_buffer (<[Z.to_nat i := u8 d]> (reply_buffer s)) s) ;;
        result_loop n' (i + 1)
    else result_loop n' i
  end.
Definition result : M st Z :=
  r ← gets reset;
  if (r : bool) then mret (-1) else result_loop (Z.to_nat 10000) 0.

Definition ST (i : nat) : M st Z := gets (λ s, reply_buffer s !!! i).

(** as in the hard-disk driver, the second [CURRENT] is the next request *)
Definition bad_flp_intr : M st unit :=
  r ← CURRENT;
  on_blk (upd_req r (λ q, set_rq_errors (s32 (rq_errors q + 1)) q)) ;;
  q ← the_current_req;
  when (MAX_ERRORS <? rq_errors q) (floppy_deselect ;; fd_end_request false) ;;
  q ← the_current_req;
  if MAX_ERRORS / 2 <? rq_errors q then modify (set_reset true) else modify (set_recalibrate true).

(** ** The steps of a transfer

    Each ends by starting the next request when the controller does not answer:
    [again] is that call of [do_fd_request]. *)
Section steps.
Context (again : M st unit).

Definition if_reset (m : M st unit) : M st unit := r ← gets reset; when (r : bool) m.

Definition setup_rw_floppy : M st unit :=
  setup_DMA ;;
  modify (set_do_floppy (Some h_rw_interrupt)) ;;
  c ← the_cur;
  f ← of_opt (floppy_type !! floppy_no c);
  for_each output_byte
    [command c; Z.lor (Z.shiftl (head c) 2) (current_drive c); track c; head c; sector c; 2; f_sect f; f_gap f; 0xFF] ;;
  if_reset again.

Definition transfer : M st unit :=
  c ← the_cur;
  f ← of_opt (floppy_type !! floppy_no c);
  when (negb (cur_spec1 c =? f_spec1 f))
    (upd_cur (set_cur_spec1 (f_spec1 f)) ;; for_each output_byte [FD_SPECIFY; f_spec1 f; 6]) ;;
  when (negb (cur_rate c =? f_rate f)) (upd_cur (set_cur_rate (f_rate f)) ;; outb (f_rate f) FD_DCR) ;;
  r ← gets reset;
  if (r : bool) then again
  else
    k ← gets seek;
    if negb k then setup_rw_floppy
    else
      modify (set_do_floppy (Some h_seek_interrupt)) ;;
      (if negb (seek_track c =? 0) then
         for_each output_byte [FD_SEEK; Z.lor (Z.shiftl (head c) 2) (current_drive c); seek_track c]
       else for_each output_byte [FD_RECALIBRATE; Z.lor (Z.shiftl (head c) 2) (current_drive c)]) ;;
      if_reset again.

Definition recalibrate_floppy : M st unit :=
  modify (set_recalibrate false) ;;
  upd_cur (set_current_track 0) ;;
  modify (set_do_floppy (Some h_recal_interrupt)) ;;
  c ← the_cur;
  for_each output_byte [FD_RECALIBRATE; Z.lor (Z.shiftl (head c) 2) (current_drive c)] ;;
  if_reset again.

(** [add_timer(jiffies,fn)], which calls [fn] at once when there is no time to wait *)
Definition fd_add_timer (jiffies fn : Z) (run : M st unit) : M st unit :=
  on_timers (add_timer jiffies (Some fn)) ;;
  when (jiffies <=? 0) run.

Definition floppy_on_interrupt : M st unit :=
  upd_motor (set_selected true) ;;
  c ← the_cur;
  x ← gets fd_motor;
  if negb (current_drive c =? Z.land (current_DOR x) 3) then
    let dor := Z.lor (Z.land (current_DOR x) 0xFC) (current_drive c) in
    upd_motor (set_current_DOR dor) ;;
    outb dor FD_DOR ;;
    fd_add_timer 2 FN_TRANSFER transfer
  else transfer.
End steps.

Definition reset_floppy : M st unit :=
  modify (set_reset false) ;;
  upd_cur (set_cur_spec1 (-1)) ;;
  upd_cur (set_cur_rate (-1)) ;;
  modify (set_recalibrate true) ;;
  modify (set_do_floppy (Some h_reset_interrupt)) ;;
  x ← gets fd_motor;
  outb (Z.land (current_DOR x) (Z.lnot 0x04)) FD_DOR ;;
  outb (current_DOR x) FD_DOR.

(** the place on the disk of a request: the type of the disk, and the first
    of its sectors *)
Definition locate (q : request) (f : floppy_struct) (c : fd_globals) : M st fd_globals :=
  if (f_sect f =? 0) || (f_head f =? 0) then fault
  else
    let block := rq_sector q in
    let sec := u8 (block mod f_sect f) in
    let block := block / f_sect f in
    let trk := u8 (block / f_head f) in
    mret (set_sector (u8 (sec + 1)) (set_seek_track (u8 (Z.shiftl trk (f_stretch f)))
      (set_track trk (set_head (u8 (block mod f_head f)) c)))).

(** the part of [do_fd_request] after [INIT_REQUEST], for the request [q] that
    fits on its disk, of type [f] *)
Definition start_request (again : M st unit) (q : request) (f : floppy_struct) : M st unit :=
  c ← the_cur;
  c ← locate q f c;
  upd_cur (λ _, c) ;;
  when (negb (seek_track c =? current_track c)) (modify (set_seek true)) ;;
  (if rq_cmd q =? READ then upd_cur (set_command FD_READ)
   else if rq_cmd q =? WRITE then upd_cur (set_command FD_WRITE)
   else panic "do_fd_request: unknown command") ;;
  ticks ← on_motor (ticks_to_floppy_on (Z.to_nat (current_drive c)));
  fd_add_timer ticks FN_ON_INTERRUPT (floppy_on_interrupt again).

(** the label [repeat] of [INIT_REQUEST] is reached again after the end of a
    request that does not fit on its disk: once per request at most *)
Fixpoint next_request (again : M st unit) (fuel : nat) : M st unit :=
  match fuel with
  | O => nofuel
  | S fuel' =>
    oq ← on_blk (INIT_REQUEST "floppy" FLOPPY_MAJOR);
    match oq with
    | None => mret tt
    | Some q =>
      let no := Z.to_nat (Z.shiftr (MINOR (rq_dev q)) 2) in
      upd_cur (set_floppy_no no) ;;
      c ← the_cur;
      let dev := Z.of_nat (CURRENT_DEV q) in
      when (negb (current_drive c =? dev)) (modify (set_seek true)) ;;
      upd_cur (set_current_drive dev) ;;
      f ← of_opt (floppy_type !! no);
      if f_size f <? u32 (rq_sector q + 2) then fd_end_request false ;; next_request again fuel'
      else start_request again q f
    end
  end.

(** a call of [do_fd_request] in one of the steps above finds [reset] set, and
    does not lead to a further one: see [fd_driver_ends] *)
Fixpoint do_fd_request_depth (depth : nat) : M st unit :=
  match depth with
  | O => nofuel
  | S depth' =>
    let again := do_fd_request_depth depth' in
    modify (set_seek false) ;;
    r ← gets reset;
    if (r : bool) then reset_floppy
    else
      r ← gets recalibrate;
      if (r : bool) then recalibrate_floppy again
      else next_request again (S NR_REQUEST)
  end.
Definition do_fd_request : M st unit := do_fd_request_depth 2.

(** ** Interrupts *)
Definition rw_interrupt : M st unit :=
  n ← result;
  st0 ← ST 0; st1 ← ST 1; st2 ← ST 2;
  if negb (n =? 7) || negb (Z.land st0 0xf8 =? 0) || negb (Z.land st1 0xbf =? 0) || negb (Z.land st2 0x73 =? 0) then
    (if negb (Z.land st1 0x02 =? 0) then floppy_deselect ;; fd_end_request false else bad_flp_intr) ;;
    do_fd_request
  else
    c ← the_cur;
    q ← the_current_req;
    buf ← of_opt (rq_buffer q);
    when ((command c =? FD_READ) && (0x100000 <=? buffer_addr buf))
      (d ← gets tmp_floppy_area; on_blk (upd_bh buf (set_b_data d))) ;;
    floppy_deselect ;;
    fd_end_request true ;;
    do_fd_request.

Definition seek_interrupt : M st unit :=
  output_byte FD_SENSEI ;;
  n ← result;
  st0 ← ST 0; st1 ← ST 1;
  c ← the_cur;
  if negb (n =? 2) || negb (Z.land st0 0xF8 =? 0x20) || negb (st1 =? seek_track c) then
    bad_flp_intr ;; do_fd_request
  else
    upd_cur (set_current_track st1) ;;
    setup_rw_floppy do_fd_request.

(** [FD_SENSEI], and what its result says: is the drive there? *)
Definition sense (v : bool) : M st unit :=
  output_byte FD_SENSEI ;;
  n ← result;
  st0 ← ST 0;
  if negb (n =? 2) || (Z.land st0 0xE0 =? 0x60) then modify (set_reset true)
  else modify (set_recalibrate v).
Definition recal_interrupt : M st unit := sense false ;; do_fd_request.
Definition unexpected_floppy_interrupt : M st unit := sense true.

Definition reset_interrupt : M st unit :=
  output_byte FD_SENSEI ;;
  _ ← result;
  c ← the_cur;
  for_each output_byte [FD_SPECIFY; cur_spec1 c; 6] ;;
  do_fd_request.

(** system_call.s *)
Definition floppy_interrupt : M st unit :=
  h ← gets do_floppy;
  modify (set_do_floppy None) ;;
  match h with
  | Some h_rw_interrupt => rw_interrupt
  | Some h_seek_interrupt => seek_interrupt
  | Some h_recal_interrupt => recal_interrupt
  | Some h_reset_interrupt => reset_interrupt
  | None => unexpected_floppy_interrupt
  end.

(** a timer of the driver has run out *)
Definition run_timer (fn : Z) : M st unit :=
  if fn =? FN_ON_INTERRUPT then floppy_on_interrupt do_fd_request
  else if fn =? FN_TRANSFER then transfer do_fd_request
  else mret tt.

(** ** From the block-device layer *)
Definition fd_ll_rw_block (rw : Z) (bh : nat) : M st unit :=
  s ← get_st;
  if negb (fd_registered s) then mret tt
  else
    p ← on_blk (prepare_request rw bh);
    match p with
    | None => mret tt
    | Some req =>
      only ← on_blk (queue_request FLOPPY_MAJOR req);
      when only do_fd_request
    end.

(** the gate of the interrupt is not modelled *)
Definition floppy_init : M st unit :=
  modify (set_fd_registered true) ;;
  v ← inb 0x21;
  outb (Z.land v (Z.lnot 0x40)) 0x21.
End floppy.
