(* ===== verification/FloppyEnds.v ===== *)
(** * The floppy driver always ends

    Whatever the controller answers, the driver comes back from every request,
    interrupt and timer: [do_fd_request] is entered again by one of its own
    steps only to start a reset. *)

From S2P Require Import Prelude Ports Blk Sched Floppy DList Requests.

(** ** The timers *)

(** the timers [l] are linked from [next_timer] on, and in use *)
Record timing (l : list nat) (t : timers) : Prop := {
  ti_length : length (timer_list t) = TIME_REQUESTS;
  ti_chain : chain tm_next (timer_list t) (next_timer t) l;
  ti_used i x : i ∈ l → timer_list t !! i = Some x → tm_fn x ≠ None
}.

Lemma ends_the_timer i (Q : timer → timers → Prop) t :
  (∀ x, timer_list t !! i = Some x → Q x t) → ends (the_timer i) Q t.
Proof. unfold ends, the_timer. destruct (timer_list t !! i); cbn; auto. Qed.
Lemma ends_upd_timer i f (Q : unit → timers → Prop) t :
  (∀ x, timer_list t !! i = Some x → Q tt (set_timer_list (<[i := f x]> (timer_list t)) t)) → ends (upd_timer i f) Q t.
Proof. unfold ends, upd_timer. destruct (timer_list t !! i); cbn; auto. Qed.

Lemma timing_upd l t i x x' : timing l t → timer_list t !! i = Some x → tm_next x' = tm_next x →
  tm_fn x' ≠ None → timing l (set_timer_list (<[i := x']> (timer_list t)) t).
Proof.
  intros [Hlen Hc Hu] Hi Hn Hf. constructor; cbn; [by rewrite length_insert|by eapply chain_insert|].
  intros j y Hj. destruct (decide (j = i)) as [->|Hne].
  - rewrite list_lookup_insert_eq by (by eapply lookup_lt_Some). congruence.
  - rewrite list_lookup_insert_ne by done. by apply Hu.
Qed.

Lemma timer_sift_ends fuel p l ls t : timing ls t → chain tm_next (timer_list t) (Some p) (p :: l) →
  (∀ i, i ∈ p :: l → i ∈ ls) → (length l < fuel)%nat → ends (timer_sift fuel p) (λ _ t', timing ls t') t.
Proof.
  revert p l t. induction fuel as [|fuel IH]; intros p l t Ht Hc Hin Hf; [lia|]. cbn [timer_sift].
  pose proof (chain_NoDup _ _ _ Hc) as Hnd.
  destruct Hc as (_ & x & Hx & Hc). ends_step. apply ends_the_timer. intros x' Hx'.
  assert (x' = x) as -> by congruence. destruct l as [|n l]; cbn in Hc.
  { rewrite Hc. by ends_step. }
  destruct Hc as (-> & y & Hy & Hc). ends_step. apply ends_the_timer. intros y' Hy'.
  assert (y' = y) as -> by congruence. destruct (_ <? _); [|by ends_step].
  assert (Hne : n ≠ p) by (intros ->; apply NoDup_cons in Hnd as [Hp _]; set_solver).
  ends_step. apply ends_upd_timer. intros x' Hx''. assert (x' = x) as -> by congruence.
  ends_step. apply ends_upd_timer. cbn [timer_list set_timer_list]. intros y' Hy''.
  rewrite list_lookup_insert_ne in Hy'' by done. assert (y' = y) as -> by congruence.
  assert (Hxf : tm_fn x ≠ None) by (by apply (ti_used _ _ Ht p); [apply Hin; set_solver|]).
  assert (Hyf : tm_fn y ≠ None) by (by apply (ti_used _ _ Ht n); [apply Hin; set_solver|]).
  pose proof (timing_upd ls t p x (set_tm_fn (tm_fn y) (set_tm_jiffies (tm_jiffies y) x)) Ht Hx eq_refl Hyf) as H1.
  assert (Hy1 : timer_list (set_timer_list (<[p := set_tm_fn (tm_fn y) (set_tm_jiffies (tm_jiffies y) x)]> (timer_list t)) t) !! n = Some y)
    by (cbn; by rewrite list_lookup_insert_ne).
  apply (IH n l).
  - exact (timing_upd ls _ n y (set_tm_fn (tm_fn x) (set_tm_jiffies (s32 (tm_jiffies x - tm_jiffies y)) y)) H1 Hy1 eq_refl Hxf).
  - cbn [timer_list set_timer_list]. eapply (chain_insert _ _ _ n); [exact Hy1|done|]. eapply (chain_insert _ _ _ p); [exact Hx|done|].
    split; [done|]. by exists y.
  - intros i Hi. apply Hin. set_solver.
  - cbn in Hf. lia.
Qed.

Lemma add_timer_ends l t jiffies fn : timing l t → ends (add_timer jiffies (Some fn)) (λ _ t', ∃ l', timing l' t') t.
Proof.
  intros Ht. unfold add_timer. destruct (jiffies <=? 0).
  { exists l. destruct Ht. by constructor. }
  do 2 ends_step. destruct (find_idx _ _) as [p|] eqn:Hp; [|done]. apply find_idx_Some in Hp as (x & Hx & Hfx & _).
  assert (Hpl : p ∉ l) by (intros Hin; pose proof (ti_used _ _ Ht p x Hin Hx); by destruct (tm_fn x)).
  do 2 ends_step. ends_step. apply ends_upd_timer. intros x' Hx'. do 2 ends_step.
  destruct Ht as [Hlen Hc Hu]. cbn [set_timer_list timer_list next_timer set_next_timer].
  set (t1 := set_next_timer _ _). 
  assert (Hc1 : chain tm_next (timer_list t1) (Some p) (p :: l)).
  { split; [done|]. eexists. split; [cbn; apply list_lookup_insert_eq; by eapply lookup_lt_Some|]. by apply chain_insert_ne. }
  assert (Ht1 : timing (p :: l) t1).
  { constructor; [cbn; by rewrite length_insert|exact Hc1|]. intros i y Hi. cbn. destruct (decide (i = p)) as [->|Hne].
    - rewrite list_lookup_insert_eq by (by eapply lookup_lt_Some). by intros [= <-].
    - rewrite list_lookup_insert_ne by done. apply Hu. set_solver. }
  eapply ends_mono; [apply (timer_sift_ends _ p l (p :: l) t1)|]; [done|done|done| |].
  - assert (length l ≤ length (timer_list t))%nat by (by eapply chain_length). unfold TIME_REQUESTS in *. lia.
  - intros [] t' Ht'. by exists (p :: l).
Qed.

Lemma fire_timers_ends fuel l t : timing l t → (length l < fuel)%nat →
  ends (fire_timers fuel) (λ _ t', ∃ l', timing l' t') t.
Proof.
  revert l t. induction fuel as [|fuel IH]; intros l t Ht Hf; [lia|]. cbn [fire_timers]. do 2 ends_step.
  pose proof (ti_chain _ _ Ht) as Hc. pose proof (chain_NoDup _ _ _ Hc) as Hnd. destruct l as [|p l].
  { rewrite Hc. ends_step. by exists []. }
  destruct Hc as (-> & x & Hx & Hc). apply NoDup_cons in Hnd as [Hp _].
  ends_step. apply ends_the_timer. intros x' Hx'. assert (x' = x) as -> by congruence.
  destruct (_ <=? 0); [|ends_step; by exists (p :: l)].
  ends_step. apply ends_upd_timer. intros x' Hx''. assert (x' = x) as -> by congruence.
  do 2 ends_step. do 2 ends_step. unfold call. do 2 ends_step.
  apply (IH l); [|cbn in Hf; lia]. destruct Ht as [Hlen _ Hu].
  constructor; cbn; [by rewrite length_insert|by apply chain_insert_ne|].
  intros i y Hi. rewrite list_lookup_insert_ne by (by intros ->). apply Hu. by apply elem_of_cons; right.
Qed.
Lemma timer_tick_ends l t : timing l t → ends timer_tick (λ _ t', ∃ l', timing l' t') t.
Proof.
  intros Ht. unfold timer_tick. do 2 ends_step. pose proof (ti_chain _ _ Ht) as Hc.
  destruct l as [|p l]; [rewrite Hc; ends_step; by exists []|]. destruct Hc as (-> & x & Hx & _).
  ends_step. apply ends_upd_timer. intros x' Hx'. assert (x' = x) as -> by congruence.
  apply (fire_timers_ends _ (p :: l)).
  - assert (Hf : tm_fn x ≠ None) by (apply (ti_used _ _ Ht p); [by apply elem_of_cons; left|done]).
    exact (timing_upd _ _ p x (set_tm_jiffies (s32 (tm_jiffies x - 1)) x) Ht Hx eq_refl Hf).
  - destruct Ht as [Hlen Hc _]. pose proof (chain_length _ _ _ Hc). unfold TIME_REQUESTS in *. lia.
Qed.

(** ** The driver *)
Definition any_request (q : request) : Prop := True.
#[local] Instance any_request_prop : RequestProp any_request.
Proof. by split. Qed.

Section fd_ends.
Context {W : Type} `{Ports W} (buffer_addr : nat → Z) (tmp_addr : Z).
Abbreviation st := (fd_state W).
Implicit Types s : st.

(** the queue of requests is [l], and the list of timers is well formed *)
Definition fd_ok (l : list nat) s : Prop :=
  served any_request FLOPPY_MAJOR l (fd_blk s) ∧ ∃ ts, timing ts (fd_timers s).
Abbreviation fd_ends m s := (ends m (λ (_ : unit) s', ∃ l, fd_ok l s') s).

Lemma ends_on_part {X A} (get : st → X) (set : X → st → st) (m : M X A) (Q : A → st → Prop) s :
  ends m (λ a x, Q a (set x s)) (get s) → ends (on_part get set m) Q s.
Proof. unfold ends, on_part. by destruct (m (get s)). Qed.

(** *** Code that touches neither *)
Abbreviation fd_leaves := (leaves (λ s : st, (fd_blk s, fd_timers s))).

Lemma fd_leaves_inb port : fd_leaves (inb port).
Proof. intros s. unfold ends, inb. by destruct (port_inb _ _). Qed.
Lemma fd_leaves_outb v port : fd_leaves (outb v port).
Proof. done. Qed.
Lemma fd_leaves_read {A} (m : M blk A) : (∀ d, ends m (λ _ d', d' = d) d) → fd_leaves (on_blk m).
Proof.
  intros Hm s. apply ends_on_part. eapply ends_mono; [apply Hm|]. by intros a d ->.
Qed.
Lemma fd_leaves_the_bh i : fd_leaves (on_blk (the_bh i)).
Proof. apply fd_leaves_read. intros d. by apply ends_the_bh. Qed.
Lemma fd_leaves_the_req i : fd_leaves (on_blk (the_req i)).
Proof. apply fd_leaves_read. intros d. by apply ends_the_req. Qed.
Lemma fd_leaves_get_current m : fd_leaves (on_blk (get_current m)).
Proof. apply fd_leaves_read. intros d. by apply ends_get_current. Qed.
#[local] Hint Resolve fd_leaves_inb fd_leaves_outb fd_leaves_the_bh fd_leaves_the_req fd_leaves_get_current : leaves.

Lemma fd_leaves_on_motor {A} (m : M floppy A) : (∀ x, ends m (λ _ _, True) x) → fd_leaves (on_motor m).
Proof.
  intros Hm. unfold on_motor. leaves. intros s. apply ends_on_part. eapply ends_mono; [apply Hm|done].
Qed.
Lemma fd_leaves_off nr : fd_leaves (on_motor (floppy_off nr)).
Proof. by apply fd_leaves_on_motor. Qed.
Lemma ticks_ends nr x : ends (ticks_to_floppy_on nr) (λ _ _, True) x.
Proof. unfold ticks_to_floppy_on. ends_steps; done. Qed.
Lemma fd_leaves_ticks nr : fd_leaves (on_motor (ticks_to_floppy_on nr)).
Proof. apply fd_leaves_on_motor, ticks_ends. Qed.
#[local] Hint Resolve fd_leaves_off fd_leaves_ticks : leaves.

Lemma fd_leaves_output_byte v : fd_leaves (output_byte v).
Proof.
  unfold output_byte. leaves. generalize (Z.to_nat 10000). intros n.
  induction n as [|n IH]; cbn [output_byte_loop]; leaves.
Qed.
Lemma fd_leaves_result : fd_leaves result.
Proof.
  unfold result. leaves. generalize 0 (Z.to_nat 10000). intros i n. revert i.
  induction n as [|n IH]; intros i; cbn [result_loop]; leaves.
Qed.
#[local] Hint Resolve fd_leaves_output_byte fd_leaves_result : leaves.
Lemma fd_leaves_the_current_req : fd_leaves the_current_req.
Proof. unfold the_current_req, CURRENT. leaves. Qed.
#[local] Hint Resolve fd_leaves_the_current_req : leaves.
Lemma fd_leaves_setup_DMA : fd_leaves (setup_DMA buffer_addr tmp_addr).
Proof. unfold setup_DMA, the_cur. leaves. Qed.
Lemma fd_leaves_reset_floppy : fd_leaves reset_floppy.
Proof. unfold reset_floppy, upd_cur. leaves. Qed.
Lemma fd_leaves_deselect : fd_leaves floppy_deselect.
Proof. unfold floppy_deselect, upd_motor. leaves. Qed.
Lemma fd_leaves_sense v : fd_leaves (sense v).
Proof. unfold sense, ST. leaves. Qed.
#[local] Hint Resolve fd_leaves_setup_DMA fd_leaves_reset_floppy fd_leaves_deselect fd_leaves_sense : leaves.

Lemma fd_ok_same l s s' : (fd_blk s', fd_timers s') = (fd_blk s, fd_timers s) → fd_ok l s → fd_ok l s'.
Proof. intros [= E1 E2]. unfold fd_ok. by rewrite E1, E2. Qed.
(** such code, in front of other code and at the end of it *)
Lemma fd_skip {A B} (m : M st A) (k : A → M st B) l Q s : fd_leaves m → fd_ok l s →
  (∀ a s', fd_ok l s' → ends (k a) Q s') → ends (m ≫= k) Q s.
Proof. intros Hm Hs Hk. apply (ends_leaves _ _ _ _ Hm). intros a s' E. apply Hk. exact (fd_ok_same _ _ _ E Hs). Qed.
Lemma fd_last m l s : fd_leaves m → fd_ok l s → fd_ends m s.
Proof. intros Hm Hs. eapply ends_mono; [apply Hm|]. intros a s' E. exists l. exact (fd_ok_same _ _ _ E Hs). Qed.

(** *** The steps *)
Lemma fd_end_request_ends l s uptodate : fd_ok l s →
  ends (fd_end_request uptodate) (λ _ s', ∃ r, l = r :: tail l ∧ fd_ok (tail l) s') s.
Proof.
  intros Hs. unfold fd_end_request. apply (fd_skip _ _ l); [auto with leaves|done|]. intros q s1 Hs1.
  apply (fd_skip _ _ l); [auto with leaves|done|]. intros _ s2 [Hd Ht]. apply ends_on_part.
  eapply ends_mono; [exact (ends_end_request FLOPPY_MAJOR l _ uptodate Hd)|]. intros [] d (r & E & Hd').
  by exists r.
Qed.

Lemma fd_add_timer_ends l s jiffies fn run : fd_ok l s →
  (∀ s', fd_ok l s' → reset s' = reset s → fd_ends run s') → fd_ends (fd_add_timer jiffies fn run) s.
Proof.
  intros [Hd [ts Ht]] Hrun. unfold fd_add_timer. ends_step. apply ends_on_part.
  eapply ends_mono; [by apply (add_timer_ends ts)|]. intros [] t [ts' Ht'].
  assert (Hok : fd_ok l (set_fd_timers t s)) by (split; [done|by exists ts']).
  apply ends_when; intros _; [by apply Hrun|by exists l].
Qed.

(** a call of [do_fd_request] that finds [reset] set *)
Definition resets (again : M st unit) : Prop := ∀ l s, fd_ok l s → reset s = true → fd_ends again s.

Lemma if_reset_ends again l s : resets again → fd_ok l s → fd_ends (if_reset again) s.
Proof.
  intros Ha Hs. unfold if_reset. do 2 ends_step. destruct (reset s) eqn:E; [by apply (Ha l)|by exists l].
Qed.

Lemma setup_rw_floppy_ends again l s : resets again → fd_ok l s → fd_ends (setup_rw_floppy buffer_addr tmp_addr again) s.
Proof.
  intros Ha Hs. unfold setup_rw_floppy, the_cur.
  do 5 (apply (fd_skip _ _ l); [leaves|done|]; clear dependent s; intros ? s Hs). by eapply if_reset_ends.
Qed.

Lemma transfer_ends again l s : resets again → fd_ok l s → fd_ends (transfer buffer_addr tmp_addr again) s.
Proof.
  intros Ha Hs. unfold transfer, the_cur, upd_cur.
  do 4 (apply (fd_skip _ _ l); [leaves|done|]; clear dependent s; intros ? s Hs).
  do 2 ends_step. destruct (reset s) eqn:E; [by apply (Ha l)|]. do 2 ends_step. destruct (negb (seek s)).
  { by eapply setup_rw_floppy_ends. }
  do 2 (apply (fd_skip _ _ l); [leaves|done|]; clear dependent s; intros ? s Hs). by eapply if_reset_ends.
Qed.

Lemma recalibrate_floppy_ends again l s : resets again → fd_ok l s → fd_ends (recalibrate_floppy again) s.
Proof.
  intros Ha Hs. unfold recalibrate_floppy, the_cur, upd_cur.
  do 5 (apply (fd_skip _ _ l); [leaves|done|]; clear dependent s; intros ? s Hs). by eapply if_reset_ends.
Qed.

Lemma floppy_on_interrupt_ends again l s : resets again → fd_ok l s →
  fd_ends (floppy_on_interrupt buffer_addr tmp_addr again) s.
Proof.
  intros Ha Hs. unfold floppy_on_interrupt, the_cur, upd_motor.
  do 3 (apply (fd_skip _ _ l); [leaves|done|]; clear dependent s; intros ? s Hs).
  destruct (negb _); [|by eapply transfer_ends].
  do 2 (apply (fd_skip _ _ l); [leaves|done|]; clear dependent s; intros ? s Hs).
  apply (fd_add_timer_ends l); [done|]. intros s' Hs' _. by eapply transfer_ends.
Qed.

Lemma start_request_ends again q f l s : resets again → fd_ok l s →
  fd_ends (start_request buffer_addr tmp_addr again q f) s.
Proof.
  intros Ha Hs. unfold start_request, locate, the_cur, upd_cur.
  do 6 (apply (fd_skip _ _ l); [leaves|done|]; clear dependent s; intros ? s Hs).
  apply (fd_add_timer_ends l); [done|]. intros s' Hs' _. by eapply floppy_on_interrupt_ends.
Qed.

Lemma next_request_ends again fuel l s : resets again → fd_ok l s → (length l < fuel)%nat →
  fd_ends (next_request buffer_addr tmp_addr again fuel) s.
Proof.
  intros Ha. revert l s. induction fuel as [|fuel IH]; intros l s Hs Hf; [lia|]. cbn [next_request].
  ends_step. apply ends_on_part. eapply ends_mono; [exact (ends_INIT_REQUEST FLOPPY_MAJOR "floppy" l _ (proj1 Hs))|].
  intros o d [-> _]. replace (set_fd_blk (fd_blk s) s) with s by (by destruct s).
  destruct o as [q|]; [|ends_step; by exists l]. unfold upd_cur, the_cur.
  do 5 (apply (fd_skip _ _ l); [leaves|done|]; clear dependent s; intros ? s Hs).
  destruct (_ <? _); [|by eapply start_request_ends]. ends_step.
  eapply ends_mono; [by apply fd_end_request_ends|]. intros [] s' (r & E & Hs'). apply (IH (tail l)); [done|].
  rewrite E in Hf. cbn [length] in Hf. lia.
Qed.

Lemma do_fd_request_reset depth : resets (do_fd_request_depth buffer_addr tmp_addr (S depth)).
Proof.
  intros l s Hs Hr. cbn [do_fd_request_depth]. do 2 ends_step. do 2 ends_step.
  change (reset (set_seek false s)) with (reset s). rewrite Hr. apply (fd_last _ l); [leaves|done].
Qed.

Lemma do_fd_request_ends l s : fd_ok l s → fd_ends (do_fd_request buffer_addr tmp_addr) s.
Proof.
  intros Hs. unfold do_fd_request. pose proof (do_fd_request_reset 0) as Ha.
  change (do_fd_request_depth _ _ 2) with
    (modify (set_seek false) ;; r ← gets reset;
     if (r : bool) then reset_floppy else
     r ← gets recalibrate;
     if (r : bool) then recalibrate_floppy (do_fd_request_depth buffer_addr tmp_addr 1)
     else next_request buffer_addr tmp_addr (do_fd_request_depth buffer_addr tmp_addr 1) (S NR_REQUEST)).
  do 2 ends_step. do 2 ends_step. destruct (reset _); [apply (fd_last _ l); [leaves|done]|].
  do 2 ends_step. destruct (recalibrate _); [by apply (recalibrate_floppy_ends _ l)|].
  apply (next_request_ends _ _ l); [done|done|].
  pose proof (served_length FLOPPY_MAJOR l _ (proj1 Hs)). lia.
Qed.
Lemma do_fd_request_resets : resets (do_fd_request buffer_addr tmp_addr).
Proof. intros l s Hs _. by apply (do_fd_request_ends l). Qed.

(** *** Interrupts, timers and requests *)
Lemma bad_flp_intr_ends l s : fd_ok l s → fd_ends bad_flp_intr s.
Proof.
  intros Hs. unfold bad_flp_intr, CURRENT. do 2 ends_step. apply ends_on_part, ends_get_current. intros p Hp.
  ends_step. subst p. pose proof (served_head FLOPPY_MAJOR l _ _ (proj1 Hs) Hp) as (l' & -> & _ & q & Hq & _).
  replace (set_fd_blk (fd_blk s) s) with s by (by destruct s).
  ends_step. apply ends_on_part, ends_upd_req. intros q' Hq'. assert (q' = q) as -> by congruence.
  set (s1 := set_fd_blk _ s). assert (Hs1 : fd_ok (a :: l') s1).
  { destruct Hs as [Hd Ht]. split; [|done]. apply (served_req _ _ _ a q); [done|done|done|]. intros Hin.
    split; [done|]. exact (sd_used _ _ _ _ Hd a q Hin Hq). }
  apply (fd_skip _ _ (a :: l')); [leaves|done|]. intros q1 s2 Hs2. ends_step.
  assert (Hlast : ∀ l s, fd_ok l s →
    fd_ends (q ← the_current_req; if MAX_ERRORS / 2 <? rq_errors q then modify (set_reset true)
                                  else modify (set_recalibrate true)) s).
  { intros l3 s3 Hs3. apply (fd_last _ l3); [leaves|done]. }
  apply ends_when; intros _; [|by apply (Hlast (a :: l'))].
  apply (fd_skip _ _ (a :: l')); [leaves|done|]. intros _ s3 Hs3.
  eapply ends_mono; [by apply (fd_end_request_ends (a :: l'))|]. intros [] s4 (_ & _ & Hs4). by apply (Hlast _ _ Hs4).
Qed.

Lemma end_then_fd_request l s uptodate : fd_ok l s →
  fd_ends (floppy_deselect ;; fd_end_request uptodate ;; do_fd_request buffer_addr tmp_addr) s.
Proof.
  intros Hs. apply (fd_skip _ _ l); [leaves|done|]. intros _ s1 Hs1. ends_step.
  eapply ends_mono; [by apply (fd_end_request_ends l)|]. intros [] s2 (_ & _ & Hs2). by eapply do_fd_request_ends.
Qed.
Lemma bad_then_fd_request l s : fd_ok l s → fd_ends (bad_flp_intr ;; do_fd_request buffer_addr tmp_addr) s.
Proof.
  intros Hs. ends_step. eapply ends_mono; [by apply (bad_flp_intr_ends l)|]. intros [] s1 [l1 Hs1].
  by eapply do_fd_request_ends.
Qed.

Lemma rw_interrupt_ends l s : fd_ok l s → fd_ends (rw_interrupt buffer_addr tmp_addr) s.
Proof.
  intros Hs. unfold rw_interrupt, ST, the_cur.
  do 4 (apply (fd_skip _ _ l); [leaves|done|]; clear dependent s; intros ? s Hs).
  destruct (_ || _).
  - destruct (negb _); [|by apply (bad_then_fd_request l)].
    do 2 ends_step. eapply ends_mono; [apply fd_leaves_deselect|]. intros [] s1 E.
    eapply ends_mono; [apply (fd_end_request_ends l); exact (fd_ok_same _ _ _ E Hs)|].
    intros [] s2 (_ & _ & Hs2). by eapply do_fd_request_ends.
  - do 3 (apply (fd_skip _ _ l); [leaves|done|]; clear dependent s; intros ? s Hs). ends_step.
    apply ends_when; intros _; [|by apply end_then_fd_request with l].
    do 2 ends_step. apply ends_on_part, ends_upd_bh. intros b Hb. apply end_then_fd_request with l.
    destruct Hs as [Hd Ht]. split; [|done]. by apply (served_buf _ _ _ _ b).
Qed.

Lemma seek_interrupt_ends l s : fd_ok l s → fd_ends (seek_interrupt buffer_addr tmp_addr) s.
Proof.
  intros Hs. unfold seek_interrupt, ST, the_cur, upd_cur.
  do 5 (apply (fd_skip _ _ l); [leaves|done|]; clear dependent s; intros ? s Hs).
  destruct (_ || _); [by apply (bad_then_fd_request l)|].
  apply (fd_skip _ _ l); [leaves|done|]. intros _ s1 Hs1. apply (setup_rw_floppy_ends _ l); [apply do_fd_request_resets|done].
Qed.

Lemma floppy_interrupt_ends l s : fd_ok l s → fd_ends (floppy_interrupt buffer_addr tmp_addr) s.
Proof.
  intros Hs. unfold floppy_interrupt. do 2 ends_step. do 2 ends_step.
  assert (Hs1 : fd_ok l (set_do_floppy None s)) by exact Hs. clear Hs. destruct (do_floppy s) as [[| | |]|].
  - by apply (rw_interrupt_ends l).
  - by apply (seek_interrupt_ends l).
  - apply (fd_skip _ _ l); [leaves|done|]. intros _ s2 Hs2. by apply (do_fd_request_ends l).
  - unfold reset_interrupt, the_cur. do 4 (apply (fd_skip _ _ l); [leaves|eassumption|]; intros ? ? ?).
    by apply (do_fd_request_ends l).
  - apply (fd_last _ l); [unfold unexpected_floppy_interrupt; leaves|done].
Qed.

Lemma run_timer_ends fn l s : fd_ok l s → fd_ends (run_timer buffer_addr tmp_addr fn) s.
Proof.
  intros Hs. unfold run_timer. pose proof do_fd_request_resets.
  destruct (_ =? _); [by apply (floppy_on_interrupt_ends _ l)|].
  destruct (_ =? _); [by apply (transfer_ends _ l)|by exists l].
Qed.

Lemma fd_ll_rw_block_ends rw bh l s : fd_ok l s → fd_ends (fd_ll_rw_block buffer_addr tmp_addr rw bh) s.
Proof.
  intros [Hd Ht]. unfold fd_ll_rw_block. do 2 ends_step. destruct (negb _); [ends_step; by exists l|].
  ends_step. apply ends_on_part. eapply ends_mono; [exact (ends_prepare_request FLOPPY_MAJOR l rw bh _ Hd)|].
  intros [r|] d [Hd1 Hr]; [|ends_step; by exists l]. destruct Hr as (Hn & q & Hq & Hdev).
  ends_step. apply ends_on_part. eapply ends_mono; [exact (ends_queue_request FLOPPY_MAJOR l r q _ Hd1 Hn Hq Hdev)|].
  intros only d' (l1 & l2 & _ & Hd'). apply ends_when; intros _; [by apply (do_fd_request_ends (l1 ++ r :: l2))|].
  by exists (l1 ++ r :: l2).
Qed.

(** what can happen to the driver: a block is asked for, the controller
    interrupts, the clock ticks, a timer of the driver has run out, or the
    outside world changes *)
Inductive fd_event := fd_rw (rw : Z) (bh : nat) | fd_irq | fd_tick | fd_timer (fn : Z) | fd_world (w : W).
Definition fd_step (e : fd_event) : M st unit :=
  match e with
  | fd_rw rw bh => fd_ll_rw_block buffer_addr tmp_addr rw bh
  | fd_irq => floppy_interrupt buffer_addr tmp_addr
  | fd_tick => on_timers timer_tick
  | fd_timer fn => run_timer buffer_addr tmp_addr fn
  | fd_world w => modify (set_fd_ports w)
  end.

End fd_ends.

(** ** Concrete input: a controller that never answers, and a disk of 1.44 MB *)
#[local] Instance mute : Ports unit := {
  port_inb p w := (0, w); port_outb p v w := w; port_insw p n w := (replicate 512 0, w); port_outsw p d w := w
}.
Definition demo_mute : fd_state unit :=
  mk_fd (mk_blk [mk_bh (replicate 1024 0) 10 0x21c false false 1 false None None None None]
      (replicate NR_REQUEST (mk_req (-1) 0 0 0 0 None 0 None None)) (replicate 7 None) (replicate 7 None) 0 0 [])
    tt (mk_timers (replicate TIME_REQUESTS (mk_timer 0 None None)) None []) (mk_floppy (replicate 4 0) (replicate 4 0) 0x0c false [])
    (mk_globals (-1) (-1) 0 0 0 0 0 0 255 0) false false false (replicate 7 0) (replicate 1024 0) None true 0.

Lemma demo_mute_ok : fd_ok [] demo_mute.
Proof.
  split.
  - constructor; [reflexivity|by exists None|intros r q Hr; by apply elem_of_nil in Hr|done|].
    intros [|[|]] b; [|done|done]. intros [= <-]. cbn. lia.
  - exists []. constructor; [reflexivity|done|]. intros i x Hi. by apply elem_of_nil in Hi.
Qed.

