(* ===== verification/Sys.v ===== *)
(** * System calls on the running task

    Models [linux-0.11/kernel/sys.c]: user and group ids, process groups,
    sessions, times and the break, and the calls that are not implemented.

    What a call writes to user memory is part of its result. *)

From S2P Require Import Prelude Blk Task Sched.

(** ** Calls that are not implemented *)
Definition sys_ftime : Z := - ENOSYS.
Definition sys_break : Z := - ENOSYS.
Definition sys_ptrace : Z := - ENOSYS.
Definition sys_stty : Z := - ENOSYS.
Definition sys_gtty : Z := - ENOSYS.
Definition sys_rename : Z := - ENOSYS.
Definition sys_prof : Z := - ENOSYS.
Definition sys_acct : Z := - ENOSYS.
Definition sys_phys : Z := - ENOSYS.
Definition sys_lock : Z := - ENOSYS.
Definition sys_mpx : Z := - ENOSYS.
Definition sys_ulimit : Z := - ENOSYS.

(** ** Users and groups *)
Definition sys_setregid (rgid egid : Z) : M sched Z :=
  c ← cur;
  let ok := negb (0 <? rgid) || (t_gid c =? rgid) || suser c in
  if negb ok then mret (- EPERM)
  else
    when (0 <? rgid) (upd_cur (set_t_gid (u16 rgid))) ;;
    c ← cur;
    if negb (0 <? egid) then mret 0
    else if (t_gid c =? egid) || (t_egid c =? egid) || (t_sgid c =? egid) || suser c then
      upd_cur (set_t_egid (u16 egid)) ;; mret 0
    else mret (- EPERM).
Definition sys_setgid (gid : Z) : M sched Z := sys_setregid gid gid.

Definition sys_setreuid (ruid euid : Z) : M sched Z :=
  c ← cur;
  let old_ruid := t_uid c in
  let ok := negb (0 <? ruid) || (t_euid c =? ruid) || (old_ruid =? ruid) || suser c in
  if negb ok then mret (- EPERM)
  else
    when (0 <? ruid) (upd_cur (set_t_uid (u16 ruid))) ;;
    if negb (0 <? euid) then mret 0
    else if (old_ruid =? euid) || (t_euid c =? euid) || suser c then
      upd_cur (set_t_euid (u16 euid)) ;; mret 0
    else upd_cur (set_t_uid old_ruid) ;; mret (- EPERM).
Definition sys_setuid (uid : Z) : M sched Z := sys_setreuid uid uid.

(** ** Times *)

(** the time, and what is stored at [tloc] *)
Definition sys_time (tloc : bool) : M sched (Z * list Z) :=
  i ← gets (λ s, s32 (CURRENT_TIME s));
  mret (i, if tloc then [i] else []).

(** [t] is the long at [tptr] *)
Definition sys_stime (t : Z) : M sched Z :=
  c ← cur;
  if negb (suser c) then mret (- EPERM)
  else modify (λ s, set_startup_time (s32 (t - Z.quot (jiffies s) HZ)) s) ;; mret 0.

Definition sys_times (tbuf : bool) : M sched (Z * list Z) :=
  c ← cur;
  j ← gets jiffies;
  mret (j, if tbuf then [t_utime c; t_stime c; t_cutime c; t_cstime c] else []).

(** ** Memory *)
Definition sys_brk (end_data_seg : Z) : M sched Z :=
  c ← cur;
  when ((t_end_code c <=? end_data_seg) && (end_data_seg <? u32 (t_start_stack c - 16384)))
    (upd_cur (set_t_brk end_data_seg)) ;;
  c ← cur;
  mret (s32 (t_brk c)).

(** ** Process groups and sessions *)
Definition has_pid (pid : Z) (o : option task_struct) : bool :=
  match o with Some t => t_pid t =? pid | None => false end.

Definition sys_setpgid (pid pgid : Z) : M sched Z :=
  c ← cur;
  let pid := if pid =? 0 then t_pid c else pid in
  let pgid := if pgid =? 0 then t_pid c else pgid in
  i ← gets (λ s, find_idx (has_pid pid) (task s));
  match i with
  | None => mret (- ESRCH)
  | Some i =>
    t ← the_task i;
    if negb (t_leader t =? 0) then mret (- EPERM)
    else if negb (t_session t =? t_session c) then mret (- EPERM)
    else upd_task i (set_t_pgrp pgid) ;; mret 0
  end.

Definition sys_getpgrp : M sched Z := c ← cur; mret (t_pgrp c).

Definition sys_setsid : M sched Z :=
  c ← cur;
  if negb (t_leader c =? 0) && negb (suser c) then mret (- EPERM)
  else
    upd_cur (λ c, set_t_tty (-1) (set_t_session (t_pid c) (set_t_pgrp (t_pid c) (set_t_leader 1 c)))) ;;
    c ← cur;
    mret (t_pgrp c).

(** ** The rest *)
Definition cstring (s : string) : bytes := (λ a, Z.of_nat (Ascii.nat_of_ascii a)) <$> String.list_ascii_of_string s.

(** [struct utsname]: five arrays of nine characters *)
Definition thisname : bytes :=
  concat ((λ s, cstring s ++ [0]) <$> ["linux .0"; "nodename"; "release "; "version "; "machine "]%string).
Definition sys_uname (name : bool) : Z * bytes := if name then (0, thisname) else (- ERROR, []).

Definition sys_umask (mask : Z) : M sched Z :=
  c ← cur;
  upd_cur (set_t_umask (Z.land mask 0x1ff)) ;;
  mret (t_umask c).

(** ** Proofs *)

(** a task that has neither the privilege nor any id but [u] and [e] *)
Definition confined (u e : Z) (c : task_struct) : Prop :=
  t_euid c ≠ 0 ∧ t_uid c ∈ [u; e] ∧ t_euid c ∈ [u; e].

Definition setreuid_calls (l : list (Z * Z)) : M sched unit :=
  for_each (λ q, sys_setreuid q.1 q.2 ;; mret tt) l.

(** the ids of a task changed *)
Definition with_ids (c : task_struct) (uid euid : Z) : task_struct := set_t_euid euid (set_t_uid uid c).

Lemma setreuid_step u e c ruid euid s : is_cur s c → confined u e c → 0 ≤ u < 2 ^ 16 → 0 ≤ e < 2 ^ 16 →
  wp (sys_setreuid ruid euid) (λ r s', (r = 0 ∨ r = - EPERM) ∧
    ∃ uid' euid', s' = with_cur (with_ids c uid' euid') s ∧ confined u e (with_ids c uid' euid')) s.
Proof.
  intros Hc (Hnz & Hu & He) Hur Her.
  assert (Hsame : ∀ r, (r = 0 ∨ r = - EPERM) → (r = 0 ∨ r = - EPERM) ∧
    ∃ uid' euid', s = with_cur (with_ids c uid' euid') s ∧ confined u e (with_ids c uid' euid')).
  { intros r Hr. split; [done|]. exists (t_uid c), (t_euid c).
    assert (with_ids c (t_uid c) (t_euid c) = c) as -> by (by destruct c). by rewrite with_cur_id. }
  assert (Hsuser : suser c = false) by (unfold suser; by apply Z.eqb_neq).
  assert (Hrange : ∀ z, z ∈ [u; e] → u16 z = z).
  { intros z Hz. apply u16_id. rewrite !elem_of_cons, elem_of_nil in Hz. destruct Hz as [->|[->|[]]]; lia. }
  unfold sys_setreuid. apply wp_bind. eapply wp_cur; [done|]. rewrite Hsuser, !orb_false_r.
  destruct (negb (0 <? ruid) || (t_euid c =? ruid) || (t_uid c =? ruid)) eqn:Hok; cbn [negb];
    [|by apply wp_ret, Hsame; right].
  assert (Hruid : 0 < ruid → ruid ∈ [u; e]).
  { intros Hr. rewrite !orb_true_iff, negb_true_iff in Hok. destruct Hok as [[?|?]|?]; b2p; [lia|by subst|by subst]. }
  assert (Hset : wp (when (0 <? ruid) (upd_cur (set_t_uid (u16 ruid)))) (λ _ s',
    ∃ uid', s' = with_cur (with_ids c uid' (t_euid c)) s ∧ uid' ∈ [u; e]) s).
  { unfold when. destruct (0 <? ruid) eqn:E; b2p.
    - eapply wp_upd_cur; [done|]. exists (u16 ruid). rewrite Hrange by auto. split; [|by auto]. by destruct c.
    - apply wp_ret. exists (t_uid c). split; [|done].
      assert (with_ids c (t_uid c) (t_euid c) = c) as -> by (by destruct c). by rewrite with_cur_id. }
  apply wp_bind. eapply wp_mono; [exact Hset|]. intros [] s' (uid' & -> & Huid').
  destruct (0 <? euid) eqn:E; cbn [negb]; b2p.
  2:{ apply wp_ret. split; [by left|]. exists uid', (t_euid c). split; [done|]. done. }
  destruct ((t_uid c =? euid) || (t_euid c =? euid)) eqn:Hok2.
  - assert (Heuid : euid ∈ [u; e]).
    { rewrite orb_true_iff in Hok2. destruct Hok2; b2p; by subst. }
    apply wp_bind. eapply wp_upd_cur; [by eapply is_cur_with|]. apply wp_ret. split; [by left|].
    exists uid', euid. rewrite with_cur_twice, Hrange by done. split; [done|]. split; [cbn; lia|done].
  - apply wp_bind. eapply wp_upd_cur; [by eapply is_cur_with|]. apply wp_ret. split; [by right|].
    exists (t_uid c), (t_euid c). rewrite with_cur_twice. split; [done|]. done.
Qed.

(** C28. A task without privilege gains nothing by changing its user ids: after
    any sequence of [setreuid] (and so [setuid]) calls, with any arguments, it
    is still without privilege, its real and effective user ids are among the
    two it had, and nothing else has changed. *)
Theorem setreuid_confined (l : list (Z * Z)) s c :
  is_cur s c → t_euid c ≠ 0 → 0 ≤ t_uid c < 2 ^ 16 → 0 ≤ t_euid c < 2 ^ 16 →
  wp (setreuid_calls l) (λ _ s', ∃ uid' euid', s' = with_cur (with_ids c uid' euid') s ∧
    confined (t_uid c) (t_euid c) (with_ids c uid' euid')) s.
Proof.
  intros Hc Hnz Hu He. unfold setreuid_calls.
  apply (wp_for_each _ (λ _ s', ∃ uid' euid', s' = with_cur (with_ids c uid' euid') s ∧
    confined (t_uid c) (t_euid c) (with_ids c uid' euid'))).
  - exists (t_uid c), (t_euid c). assert (with_ids c (t_uid c) (t_euid c) = c) as -> by (by destruct c).
    rewrite with_cur_id by done. split; [done|]. unfold confined. set_solver.
  - intros [ruid euid] l' s' (uid1 & euid1 & -> & Hconf). apply wp_bind.
    eapply wp_mono; [by eapply setreuid_step; [by eapply is_cur_with|..]|].
    intros r s' (_ & uid2 & euid2 & -> & Hconf'). apply wp_ret. exists uid2, euid2. rewrite with_cur_twice. done.
  - intros s' Hs'. done.
Qed.

(** a user who may become the other of two, and tries for the superuser *)
Definition demo_user : sched :=
  mk_sched [Some (set_t_euid 7 (set_t_uid 5 (demo_task 0 0)))] 0 0 0 0.

Lemma setreuid_confined_witness :
  wp (setreuid_calls [(7, 5); (0, 0); (3, 3); (-1, 7)]) (λ _ s', ∃ uid' euid',
    s' = with_cur (with_ids (set_t_euid 7 (set_t_uid 5 (demo_task 0 0))) uid' euid') demo_user ∧
    confined 5 7 (with_ids (set_t_euid 7 (set_t_uid 5 (demo_task 0 0))) uid' euid')) demo_user.
Proof.
  apply (setreuid_confined _ demo_user (set_t_euid 7 (set_t_uid 5 (demo_task 0 0)))).
  - reflexivity.
  - discriminate.
  - cbn. lia.
  - cbn. lia.
Defined.
