(* ===== verification/Signal.v ===== *)
(** * Signals

    Models the system calls of [linux-0.11/kernel/signal.c] and the sending of
    signals of [kernel/exit.c].  ([do_signal], which may end the task, is in
    the file Exit.)

    A [struct sigaction] in user memory is its 16 bytes. *)

From S2P Require Import Prelude Blk Task Sched Sys.

Definition SA_NOMASK : Z := 0x40000000.
(** 0x80000000 as an [int] *)
Definition SA_ONESHOT : Z := - 0x80000000.

(** [1<<(sig-1)] *)
Definition sigbit (sig : Z) : Z := s32 (Z.shiftl 1 (sig - 1)).

(** ** Actions *)
Definition encode_sigaction (a : sigaction) : bytes :=
  le32 (sa_handler a) ++ le32 (sa_mask a) ++ le32 (sa_flags a) ++ le32 (sa_restorer a).
Definition decode_sigaction (d : bytes) : sigaction :=
  mk_sigaction (rd_le32 d 0) (rd_le32 d 4) (s32 (rd_le32 d 8)) (rd_le32 d 12).

Definition bad_signal (signum : Z) : bool := (signum <? 1) || (32 <? signum) || (signum =? SIGKILL).

Definition upd_action (signum : Z) (f : sigaction → sigaction) : M sched unit :=
  upd_cur (λ c, set_t_sigaction (alter f (Z.to_nat (signum - 1)) (t_sigaction c)) c).
Definition the_action (signum : Z) : M sched sigaction :=
  c ← cur;
  of_opt (t_sigaction c !! Z.to_nat (signum - 1)).

Definition sys_sgetmask : M sched Z := c ← cur; mret (t_blocked c).

Definition sys_ssetmask (newmask : Z) : M sched Z :=
  c ← cur;
  upd_cur (set_t_blocked (Z.land newmask (Z.lnot (sigbit SIGKILL)))) ;;
  mret (t_blocked c).

Definition sys_signal (signum handler restorer : Z) : M sched Z :=
  if bad_signal signum then mret (-1)
  else
    old ← the_action signum;
    upd_action signum (λ _, mk_sigaction (u32 handler) 0 (Z.lor SA_ONESHOT SA_NOMASK) (u32 restorer)) ;;
    mret (s32 (sa_handler old)).

(** [action] is the 16 bytes of the new action; the bytes of the old one are
    written when [oldaction] is not NULL *)
Definition sys_sigaction (signum : Z) (action : bytes) (oldaction : bool) : M sched (Z * bytes) :=
  if bad_signal signum then mret (-1, [])
  else
    tmp ← the_action signum;
    upd_action signum (λ _, decode_sigaction action) ;;
    new ← the_action signum;
    upd_action signum (λ a, mk_sigaction (sa_handler a)
      (if negb (Z.land (sa_flags a) SA_NOMASK =? 0) then 0 else Z.lor (sa_mask a) (u32 (sigbit signum)))
      (sa_flags a) (sa_restorer a)) ;;
    mret (0, if oldaction then encode_sigaction tmp else []).

(** ** Sending *)

(** [p] is a task, or NULL *)
Definition send_sig (sig : Z) (p : ptr) (priv : bool) : M sched Z :=
  match p with
  | None => mret (- EINVAL)
  | Some i =>
    if (sig <? 1) || (32 <? sig) then mret (- EINVAL)
    else
      c ← cur;
      t ← the_task i;
      if priv || (t_euid c =? t_euid t) || suser c then
        upd_task i (λ t, set_t_signal (Z.lor (t_signal t) (sigbit sig)) t) ;; mret 0
      else mret (- EPERM)
  end.

(** the contents of slot [i] of the task table *)
Definition slot (i : nat) : M sched ptr :=
  gets (λ s, match task s !! i with Some (Some _) => Some i | _ => None end).

(** the slots from the last down to 1, as [while (--p > &FIRST_TASK)] visits
    them *)
Definition slots : list nat := reverse (seq 1 (NR_TASKS - 1)).

Definition kill_session : M sched unit :=
  for_each (λ i,
    c ← cur;
    p ← slot i;
    match p with
    | None => mret tt
    | Some i =>
      t ← the_task i;
      when (t_session t =? t_session c) (upd_task i (λ t, set_t_signal (Z.lor (t_signal t) (sigbit SIGHUP)) t))
    end) slots.

(** signalling the tasks of [l] that satisfy [sel] *)
Fixpoint kill_selected (sel : task_struct → bool) (sig : Z) (priv : bool) (l : list nat) (retval : Z) : M sched Z :=
  match l with
  | [] => mret retval
  | i :: l' =>
    p ← slot i;
    match p with
    | None => kill_selected sel sig priv l' retval
    | Some _ =>
      t ← the_task i;
      if sel t then
        err ← send_sig sig p priv;
        kill_selected sel sig priv l' (if err =? 0 then retval else err)
      else kill_selected sel sig priv l' retval
    end
  end.

(** [pid == -1].  The [else] that was meant for the other negative pids belongs
    to the [if (err = ...)] before it: after the first signal that is delivered
    the rest of the loop is the loop for the process group [-pid]. *)
Fixpoint kill_all (pid sig : Z) (l : list nat) (retval : Z) : M sched Z :=
  match l with
  | [] => mret retval
  | i :: l' =>
    p ← slot i;
    err ← send_sig sig p false;
    if negb (err =? 0) then kill_all pid sig l' err
    else kill_selected (λ t, t_pgrp t =? - pid) sig false l' retval
  end.

Definition sys_kill (pid sig : Z) : M sched Z :=
  c ← cur;
  if pid =? 0 then kill_selected (λ t, t_pgrp t =? t_pid c) sig true slots 0
  else if 0 <? pid then kill_selected (λ t, t_pid t =? pid) sig false slots 0
  else if pid =? -1 then kill_all pid sig slots 0
  else mret 0.

(** ** Proofs *)

(** may a task whose effective user is [e] signal [t]? *)
Definition may_signal (priv : bool) (e : Z) (t : task_struct) : bool := priv || (e =? t_euid t) || (e =? 0).
Definition signalled (sig : Z) (t : task_struct) : task_struct := set_t_signal (Z.lor (t_signal t) (sigbit sig)) t.
Definition deliver (sel : task_struct → bool) (priv : bool) (e sig : Z) (t : task_struct) : task_struct :=
  if sel t && may_signal priv e t then signalled sig t else t.
(** is there a task in the slots [l] that is selected but may not be signalled? *)
Definition denied (sel : task_struct → bool) (priv : bool) (e : Z) (tasks : list (option task_struct)) (l : list nat) : bool :=
  existsb (λ i, match tasks !! i with Some (Some t) => sel t && negb (may_signal priv e t) | _ => false end) l.

Lemma existsb_ext_in {A} (f g : A → bool) l : (∀ x, x ∈ l → f x = g x) → existsb f l = existsb g l.
Proof.
  induction l as [|x l IH]; [done|]. intros Hx. cbn. rewrite Hx by set_solver. f_equal. apply IH. set_solver.
Qed.

Lemma send_sig_run sig i priv t c s : 1 ≤ sig ≤ 32 → is_cur s c → task s !! i = Some (Some t) →
  wp (send_sig sig (Some i) priv) (λ r s',
    r = (if may_signal priv (t_euid c) t then 0 else - EPERM) ∧
    s' = set_task (<[i := Some (if may_signal priv (t_euid c) t then signalled sig t else t)]> (task s)) s) s.
Proof.
  intros Hsig Hc Ht. unfold send_sig.
  rewrite (proj2 (Z.ltb_ge sig 1)), (proj2 (Z.ltb_ge 32 sig)) by lia. cbn [orb].
  apply wp_bind. eapply wp_cur; [done|]. apply wp_bind. eapply wp_the_task; [done|].
  unfold suser. change (priv || (t_euid c =? t_euid t) || (t_euid c =? 0)) with (may_signal priv (t_euid c) t).
  destruct (may_signal priv (t_euid c) t).
  - apply wp_bind. eapply wp_upd_task; [done|]. apply wp_ret. done.
  - apply wp_ret. split; [done|]. rewrite list_insert_id by done. by destruct s.
Qed.

Lemma kill_selected_run sel sig priv e l : (∀ x t, sel (set_t_signal x t) = sel t) → 1 ≤ sig ≤ 32 → NoDup l →
  ∀ retval s, (∃ c, is_cur s c ∧ t_euid c = e) →
  wp (kill_selected sel sig priv l retval) (λ r s',
    r = (if denied sel priv e (task s) l then - EPERM else retval) ∧ s' = set_task (task s') s ∧
    ∀ i, task s' !! i = if decide (i ∈ l) then (fmap (deliver sel priv e sig)) <$> task s !! i else task s !! i) s.
Proof.
  intros Hsel Hsig Hnd. induction Hnd as [|i l Hi Hnd IH]; intros retval s (c & Hc & He).
  { apply wp_ret. split; [done|]. split; [by destruct s|]. intros j. by rewrite decide_False by set_solver. }
  cbn [kill_selected denied existsb]. apply wp_bind. unfold slot. apply wp_gets.
  assert (Hskip : ∀ s1 ret1, current s1 = current s → s1 = set_task (task s1) s → (∃ c, is_cur s1 c ∧ t_euid c = e) →
    (∀ j, j ≠ i → task s1 !! j = task s !! j) → task s1 !! i = (fmap (deliver sel priv e sig)) <$> task s !! i →
    wp (kill_selected sel sig priv l ret1) (λ r s',
      r = (if denied sel priv e (task s) l then - EPERM else ret1) ∧ s' = set_task (task s') s ∧
      ∀ j, task s' !! j = if decide (j ∈ i :: l) then (fmap (deliver sel priv e sig)) <$> task s !! j else task s !! j) s1).
  { intros s1 ret1 Hcur Hs1 Hc1 Hother Hsame. eapply wp_mono; [by apply IH|].
    intros r s' (-> & Hs' & Hl). split; [|split].
    - replace (denied sel priv e (task s1) l) with (denied sel priv e (task s) l); [done|].
      apply existsb_ext_in. intros j Hj. rewrite Hother by set_solver. done.
    - rewrite Hs', Hs1. done.
    - intros j. rewrite Hl. destruct (decide (j = i)) as [->|Hji].
      + rewrite decide_False by done. rewrite decide_True by set_solver. done.
      + rewrite Hother by done. repeat case_decide; set_solver. }
  destruct (task s !! i) as [[t|]|] eqn:Ht; cbn [orb].
  2,3: apply Hskip; [done|by destruct s|eauto|done|by rewrite Ht].
  apply wp_bind. eapply wp_the_task; [done|]. destruct (sel t) eqn:Hst; cbn [andb orb].
  2:{ apply Hskip; [done|by destruct s|eauto|done|]. rewrite Ht. cbn. unfold deliver. by rewrite Hst. }
  apply wp_bind. eapply wp_mono; [by apply send_sig_run|]. rewrite He. intros r s1 [-> Hs1].
  set (ok := may_signal priv e t) in *.
  assert (Hret : (if (if ok then 0 else - EPERM) =? 0 then retval else if ok then 0 else - EPERM)
                 = if ok then retval else - EPERM) by (destruct ok; done).
  rewrite Hret. eapply wp_mono.
  - apply Hskip; rewrite Hs1; cbn [set_task task current]; try done.
    + destruct (decide (current s = i)) as [Heq|Hne].
      * exists (if ok then signalled sig t else t). unfold is_cur in *. cbn. rewrite Heq in *.
        split; [apply list_lookup_insert_eq; by eapply lookup_lt_Some|].
        assert (c = t) as -> by congruence. by destruct ok.
      * exists c. split; [|done]. unfold is_cur in *. cbn. by rewrite list_lookup_insert_ne by done.
    + intros j Hj. by rewrite list_lookup_insert_ne by done.
    + rewrite list_lookup_insert_eq by (by eapply lookup_lt_Some). cbn. unfold deliver. by rewrite Hst.
  - intros r s' (-> & H2 & H3). split; [|done]. fold (denied sel priv e (task s) l).
    by destruct ok, (denied sel priv e (task s) l).
Qed.

Lemma slots_NoDup : NoDup slots.
Proof. unfold slots. rewrite reverse_Permutation. apply NoDup_seq. Qed.
Lemma elem_of_slots i : i ∈ slots ↔ (1 ≤ i < NR_TASKS)%nat.
Proof. unfold slots. rewrite elem_of_reverse, elem_of_seq. unfold NR_TASKS. lia. Qed.

Lemma kill_slots_run sel sig priv s c : (∀ x t, sel (set_t_signal x t) = sel t) → 1 ≤ sig ≤ 32 →
  is_cur s c → length (task s) = NR_TASKS →
  wp (kill_selected sel sig priv slots 0) (λ r s',
    r = (if denied sel priv (t_euid c) (task s) slots then - EPERM else 0) ∧
    s' = set_task (map_tasks (deliver sel priv (t_euid c) sig) (task s)) s) s.
Proof.
  intros Hsel Hsig Hc Hl. eapply wp_mono; [apply kill_selected_run; eauto using slots_NoDup|].
  intros r s' (-> & Hs' & Ht). split; [done|]. rewrite Hs'. f_equal. apply list_eq. intros i. rewrite Ht.
  destruct i as [|i]; [rewrite map_tasks_0, decide_False; [done|rewrite elem_of_slots; lia]|].
  rewrite map_tasks_lookup by lia. case_decide as Hi; [done|]. rewrite elem_of_slots in Hi.
  rewrite lookup_ge_None_2 by lia. done.
Qed.

(** whom [kill] means *)
Definition target (c : task_struct) (pid : Z) (t : task_struct) : bool :=
  if pid =? 0 then t_pgrp t =? t_pid c else t_pid t =? pid.

(** C26. [kill] with a valid signal: for a positive pid, the tasks with that pid
    get the signal if the sender is their effective user or the superuser, and
    the call fails with [-EPERM] exactly when one of them could not be
    signalled; for pid 0, every task whose group is the pid of the caller gets
    it without a check.  For the process groups [pid < -1] nothing is done at
    all, and the call succeeds. *)
Theorem sys_kill_delivers (pid sig : Z) s c :
  1 ≤ sig ≤ 32 → is_cur s c → length (task s) = NR_TASKS → pid ≠ -1 →
  wp (sys_kill pid sig) (λ r s',
    if pid <? 0 then r = 0 ∧ s' = s
    else
      r = (if denied (target c pid) (pid =? 0) (t_euid c) (task s) slots then - EPERM else 0) ∧
      s' = set_task (map_tasks (deliver (target c pid) (pid =? 0) (t_euid c) sig) (task s)) s) s.
Proof.
  intros Hsig Hc Hl Hpid. unfold sys_kill, target. apply wp_bind. eapply wp_cur; [done|].
  destruct (pid =? 0) eqn:E0; b2p.
  { subst pid. by apply (kill_slots_run (λ t, t_pgrp t =? t_pid c) sig true). }
  destruct (pid <? 0) eqn:E1, (0 <? pid) eqn:E2; b2p; try lia.
  - rewrite (proj2 (Z.eqb_neq pid (-1))) by done. by apply wp_ret.
  - by apply (kill_slots_run (λ t, t_pid t =? pid) sig false).
Qed.

(** user 5 signals its own process 3, and in vain process 4 of the superuser *)
Definition demo_kill : sched :=
  mk_sched ([Some (demo_task 0 0); Some (set_t_euid 5 (demo_task 0 0));
             Some (set_t_euid 5 (set_t_pid 3 (demo_task 1 0))); Some (set_t_pid 4 (demo_task 0 0))] ++ replicate 60 None) 1 0 0 0.

Lemma sys_kill_delivers_witness :
  wp (sys_kill 4 SIGKILL) (λ r s', if 4 <? 0 then r = 0 ∧ s' = demo_kill else
    r = (if denied (target (set_t_euid 5 (demo_task 0 0)) 4) (4 =? 0) 5 (task demo_kill) slots then - EPERM else 0) ∧
    s' = set_task (map_tasks (deliver (target (set_t_euid 5 (demo_task 0 0)) 4) (4 =? 0) 5 SIGKILL) (task demo_kill)) demo_kill) demo_kill ∧
  match sys_kill 4 SIGKILL demo_kill, sys_kill 3 SIGKILL demo_kill with
  | Ret r _, Ret r' s' => r = - EPERM ∧ r' = 0 ∧ (t_signal <$> mjoin (task s' !! 2%nat)) = Some 256
  | _, _ => False
  end.
Proof.
  split; [|vm_compute; repeat split].
  apply (sys_kill_delivers 4 SIGKILL demo_kill (set_t_euid 5 (demo_task 0 0))).
  - unfold SIGKILL. lia.
  - reflexivity.
  - reflexivity.
  - discriminate.
Defined.
