(* ===== verification/Console.v ===== *)
(** * The console

    Models [linux-0.11/kernel/chr_drv/console.c]: the VT102 emulation on the
    memory of a text-mode video card.  The static variables of the file are the
    record [con]; video memory is a map from the addresses of its 16-bit cells
    to their contents, and a store (or a load) outside the card's memory
    ([video_mem_start] to [video_mem_end]) or at an odd address is a [Fault].
    The 6845's registers are kept as last written ([crtc]).

    The loop of [con_write] over the terminal's queue is in Tty.v; this file
    has what it does with one character ([con_step]).  The theorem of the file
    is that no sequence of characters can make the console write outside the
    video memory. *)

From S2P Require Import Prelude Task.

Definition VIDEO_TYPE_MDA : Z := 0x10.
Definition VIDEO_TYPE_CGA : Z := 0x11.
Definition VIDEO_TYPE_EGAM : Z := 0x20.
Definition VIDEO_TYPE_EGAC : Z := 0x21.
Definition NPAR : nat := 16.

Record con := mk_con {
  video_type : Z;
  video_num_columns : Z;
  video_size_row : Z;
  video_num_lines : Z;
  video_page : Z;
  video_mem_start : Z;
  video_mem_end : Z;
  video_erase_char : Z;
  origin : Z;
  scr_end : Z;
  pos : Z;
  con_x : Z;
  con_y : Z;
  top : Z;
  bottom : Z;
  con_state : Z;
  npar : Z;
  par : list Z;
  ques : bool;
  attr : Z;
  saved_x : Z;
  saved_y : Z;
  beepcount : Z;
  crtc : Z → Z;
  vmem : Z → Z
}.

Definition set_video_type (v : Z) (x : con) : con :=
  mk_con v (video_num_columns x) (video_size_row x) (video_num_lines x) (video_page x) (video_mem_start x) (video_mem_end x) (video_erase_char x) (origin x) (scr_end x) (pos x) (con_x x) (con_y x) (top x) (bottom x) (con_state x) (npar x) (par x) (ques x) (attr x) (saved_x x) (saved_y x) (beepcount x) (crtc x) (vmem x).
Definition set_video_num_columns (v : Z) (x : con) : con :=
  mk_con (video_type x) v (video_size_row x) (video_num_lines x) (video_page x) (video_mem_start x) (video_mem_end x) (video_erase_char x) (origin x) (scr_end x) (pos x) (con_x x) (con_y x) (top x) (bottom x) (con_state x) (npar x) (par x) (ques x) (attr x) (saved_x x) (saved_y x) (beepcount x) (crtc x) (vmem x).
Definition set_video_size_row (v : Z) (x : con) : con :=
  mk_con (video_type x) (video_num_columns x) v (video_num_lines x) (video_page x) (video_mem_start x) (video_mem_end x) (video_erase_char x) (origin x) (scr_end x) (pos x) (con_x x) (con_y x) (top x) (bottom x) (con_state x) (npar x) (par x) (ques x) (attr x) (saved_x x) (saved_y x) (beepcount x) (crtc x) (vmem x).
Definition set_video_num_lines (v : Z) (x : con) : con :=
  mk_con (video_type x) (video_num_columns x) (video_size_row x) v (video_page x) (video_mem_start x) (video_mem_end x) (video_erase_char x) (origin x) (scr_end x) (pos x) (con_x x) (con_y x) (top x) (bottom x) (con_state x) (npar x) (par x) (ques x) (attr x) (saved_x x) (saved_y x) (beepcount x) (crtc x) (vmem x).
Definition set_video_page (v : Z) (x : con) : con :=
  mk_con (video_type x) (video_num_columns x) (video_size_row x) (video_num_lines x) v (video_mem_start x) (video_mem_end x) (video_erase_char x) (origin x) (scr_end x) (pos x) (con_x x) (con_y x) (top x) (bottom x) (con_state x) (npar x) (par x) (ques x) (attr x) (saved_x x) (saved_y x) (beepcount x) (crtc x) (vmem x).
Definition set_video_mem_start (v : Z) (x : con) : con :=
  mk_con (video_type x) (video_num_columns x) (video_size_row x) (video_num_lines x) (video_page x) v (video_mem_end x) (video_erase_char x) (origin x) (scr_end x) (pos x) (con_x x) (con_y x) (top x) (bottom x) (con_state x) (npar x) (par x) (ques x) (attr x) (saved_x x) (saved_y x) (beepcount x) (crtc x) (vmem x).
Definition set_video_mem_end (v : Z) (x : con) : con :=
  mk_con (video_type x) (video_num_columns x) (video_size_row x) (video_num_lines x) (video_page x) (video_mem_start x) v (video_erase_char x) (origin x) (scr_end x) (pos x) (con_x x) (con_y x) (top x) (bottom x) (con_state x) (npar x) (par x) (ques x) (attr x) (saved_x x) (saved_y x) (beepcount x) (crtc x) (vmem x).
Definition set_video_erase_char (v : Z) (x : con) : con :=
  mk_con (video_type x) (video_num_columns x) (video_size_row x) (video_num_lines x) (video_page x) (video_mem_start x) (video_mem_end x) v (origin x) (scr_end x) (pos x) (con_x x) (con_y x) (top x) (bottom x) (con_state x) (npar x) (par x) (ques x) (attr x) (saved_x x) (saved_y x) (beepcount x) (crtc x) (vmem x).
Definition set_origin_ (v : Z) (x : con) : con :=
  mk_con (video_type x) (video_num_columns x) (video_size_row x) (video_num_lines x) (video_page x) (video_mem_start x) (video_mem_end x) (video_erase_char x) v (scr_end x) (pos x) (con_x x) (con_y x) (top x) (bottom x) (con_state x) (npar x) (par x) (ques x) (attr x) (saved_x x) (saved_y x) (beepcount x) (crtc x) (vmem x).
Definition set_scr_end (v : Z) (x : con) : con :=
  mk_con (video_type x) (video_num_columns x) (video_size_row x) (video_num_lines x) (video_page x) (video_mem_start x) (video_mem_end x) (video_erase_char x) (origin x) v (pos x) (con_x x) (con_y x) (top x) (bottom x) (con_state x) (npar x) (par x) (ques x) (attr x) (saved_x x) (saved_y x) (beepcount x) (crtc x) (vmem x).
Definition set_pos (v : Z) (x : con) : con :=
  mk_con (video_type x) (video_num_columns x) (video_size_row x) (video_num_lines x) (video_page x) (video_mem_start x) (video_mem_end x) (video_erase_char x) (origin x) (scr_end x) v (con_x x) (con_y x) (top x) (bottom x) (con_state x) (npar x) (par x) (ques x) (attr x) (saved_x x) (saved_y x) (beepcount x) (crtc x) (vmem x).
Definition set_con_x (v : Z) (x : con) : con :=
  mk_con (video_type x) (video_num_columns x) (video_size_row x) (video_num_lines x) (video_page x) (video_mem_start x) (video_mem_end x) (video_erase_char x) (origin x) (scr_end x) (pos x) v (con_y x) (top x) (bottom x) (con_state x) (npar x) (par x) (ques x) (attr x) (saved_x x) (saved_y x) (beepcount x) (crtc x) (vmem x).
Definition set_con_y (v : Z) (x : con) : con :=
  mk_con (video_type x) (video_num_columns x) (video_size_row x) (video_num_lines x) (video_page x) (video_mem_start x) (video_mem_end x) (video_erase_char x) (origin x) (scr_end x) (pos x) (con_x x) v (top x) (bottom x) (con_state x) (npar x) (par x) (ques x) (attr x) (saved_x x) (saved_y x) (beepcount x) (crtc x) (vmem x).
Definition set_top (v : Z) (x : con) : con :=
  mk_con (video_type x) (video_num_columns x) (video_size_row x) (video_num_lines x) (video_page x) (video_mem_start x) (video_mem_end x) (video_erase_char x) (origin x) (scr_end x) (pos x) (con_x x) (con_y x) v (bottom x) (con_state x) (npar x) (par x) (ques x) (attr x) (saved_x x) (saved_y x) (beepcount x) (crtc x) (vmem x).
Definition set_bottom (v : Z) (x : con) : con :=
  mk_con (video_type x) (video_num_columns x) (video_size_row x) (video_num_lines x) (video_page x) (video_mem_start x) (video_mem_end x) (video_erase_char x) (origin x) (scr_end x) (pos x) (con_x x) (con_y x) (top x) v (con_state x) (npar x) (par x) (ques x) (attr x) (saved_x x) (saved_y x) (beepcount x) (crtc x) (vmem x).
Definition set_con_state (v : Z) (x : con) : con :=
  mk_con (video_type x) (video_num_columns x) (video_size_row x) (video_num_lines x) (video_page x) (video_mem_start x) (video_mem_end x) (video_erase_char x) (origin x) (scr_end x) (pos x) (con_x x) (con_y x) (top x) (bottom x) v (npar x) (par x) (ques x) (attr x) (saved_x x) (saved_y x) (beepcount x) (crtc x) (vmem x).
Definition set_npar (v : Z) (x : con) : con :=
  mk_con (video_type x) (video_num_columns x) (video_size_row x) (video_num_lines x) (video_page x) (video_mem_start x) (video_mem_end x) (video_erase_char x) (origin x) (scr_end x) (pos x) (con_x x) (con_y x) (top x) (bottom x) (con_state x) v (par x) (ques x) (attr x) (saved_x x) (saved_y x) (beepcount x) (crtc x) (vmem x).
Definition set_par (v : list Z) (x : con) : con :=
  mk_con (video_type x) (video_num_columns x) (video_size_row x) (video_num_lines x) (video_page x) (video_mem_start x) (video_mem_end x) (video_erase_char x) (origin x) (scr_end x) (pos x) (con_x x) (con_y x) (top x) (bottom x) (con_state x) (npar x) v (ques x) (attr x) (saved_x x) (saved_y x) (beepcount x) (crtc x) (vmem x).
Definition set_ques (v : bool) (x : con) : con :=
  mk_con (video_type x) (video_num_columns x) (video_size_row x) (video_num_lines x) (video_page x) (video_mem_start x) (video_mem_end x) (video_erase_char x) (origin x) (scr_end x) (pos x) (con_x x) (con_y x) (top x) (bottom x) (con_state x) (npar x) (par x) v (attr x) (saved_x x) (saved_y x) (beepcount x) (crtc x) (vmem x).
Definition set_attr (v : Z) (x : con) : con :=
  mk_con (video_type x) (video_num_columns x) (video_size_row x) (video_num_lines x) (video_page x) (video_mem_start x) (video_mem_end x) (video_erase_char x) (origin x) (scr_end x) (pos x) (con_x x) (con_y x) (top x) (bottom x) (con_state x) (npar x) (par x) (ques x) v (saved_x x) (saved_y x) (beepcount x) (crtc x) (vmem x).
Definition set_saved_x (v : Z) (x : con) : con :=
  mk_con (video_type x) (video_num_columns x) (video_size_row x) (video_num_lines x) (video_page x) (video_mem_start x) (video_mem_end x) (video_erase_char x) (origin x) (scr_end x) (pos x) (con_x x) (con_y x) (top x) (bottom x) (con_state x) (npar x) (par x) (ques x) (attr x) v (saved_y x) (beepcount x) (crtc x) (vmem x).
Definition set_saved_y (v : Z) (x : con) : con :=
  mk_con (video_type x) (video_num_columns x) (video_size_row x) (video_num_lines x) (video_page x) (video_mem_start x) (video_mem_end x) (video_erase_char x) (origin x) (scr_end x) (pos x) (con_x x) (con_y x) (top x) (bottom x) (con_state x) (npar x) (par x) (ques x) (attr x) (saved_x x) v (beepcount x) (crtc x) (vmem x).
Definition set_beepcount (v : Z) (x : con) : con :=
  mk_con (video_type x) (video_num_columns x) (video_size_row x) (video_num_lines x) (video_page x) (video_mem_start x) (video_mem_end x) (video_erase_char x) (origin x) (scr_end x) (pos x) (con_x x) (con_y x) (top x) (bottom x) (con_state x) (npar x) (par x) (ques x) (attr x) (saved_x x) (saved_y x) v (crtc x) (vmem x).
Definition set_crtc (v : Z → Z) (x : con) : con :=
  mk_con (video_type x) (video_num_columns x) (video_size_row x) (video_num_lines x) (video_page x) (video_mem_start x) (video_mem_end x) (video_erase_char x) (origin x) (scr_end x) (pos x) (con_x x) (con_y x) (top x) (bottom x) (con_state x) (npar x) (par x) (ques x) (attr x) (saved_x x) (saved_y x) (beepcount x) v (vmem x).
Definition set_vmem (v : Z → Z) (x : con) : con :=
  mk_con (video_type x) (video_num_columns x) (video_size_row x) (video_num_lines x) (video_page x) (video_mem_start x) (video_mem_end x) (video_erase_char x) (origin x) (scr_end x) (pos x) (con_x x) (con_y x) (top x) (bottom x) (con_state x) (npar x) (par x) (ques x) (attr x) (saved_x x) (saved_y x) (beepcount x) (crtc x) v.

(** ** Video memory *)
Definition in_video (s : con) (a : Z) : bool :=
  (video_mem_start s <=? a) && (a + 2 <=? video_mem_end s) && Z.even a.
Definition rd (a : Z) : M con Z := λ s,
  if in_video s a then Ret (vmem s a) s else Fault.
Definition wr (a v : Z) : M con unit := λ s,
  if in_video s a then Ret tt (set_vmem (λ b, if b =? a then v else vmem s b) s) else Fault.
Definition outb (reg v : Z) : M con unit :=
  modify (λ s, set_crtc (λ r, if r =? reg then v else crtc s r) s).

(** [rep movsl] and [rep stosw], upwards ([cld]) and downwards ([std]) *)
Fixpoint movsl (n : nat) (src dst : Z) : M con unit :=
  match n with
  | O => mret tt
  | S n' =>
    a ← rd src; b ← rd (src + 2);
    wr dst a ;; wr (dst + 2) b ;; movsl n' (src + 4) (dst + 4)
  end.
Fixpoint movsl_down (n : nat) (src dst : Z) : M con unit :=
  match n with
  | O => mret tt
  | S n' =>
    a ← rd src; b ← rd (src + 2);
    wr dst a ;; wr (dst + 2) b ;; movsl_down n' (src - 4) (dst - 4)
  end.
Fixpoint stosw (n : nat) (dst v : Z) : M con unit :=
  match n with O => mret tt | S n' => wr dst v ;; stosw n' (dst + 2) v end.
Fixpoint stosw_down (n : nat) (dst v : Z) : M con unit :=
  match n with O => mret tt | S n' => wr dst v ;; stosw_down n' (dst - 2) v end.

(** ** Moving the cursor and scrolling *)
Definition gotoxy (new_x new_y : Z) : M con unit := modify (λ s,
  let new_x := u32 new_x in let new_y := u32 new_y in
  if (video_num_columns s <? new_x) || (video_num_lines s <=? new_y) then s
  else set_pos (u32 (origin s + new_y * video_size_row s + 2 * new_x)) (set_con_y new_y (set_con_x new_x s))).

Definition set_origin : M con unit :=
  s ← get_st;
  outb 12 (Z.land 0xff (Z.shiftr (u32 (origin s - video_mem_start s)) 9)) ;;
  outb 13 (Z.land 0xff (Z.shiftr (u32 (origin s - video_mem_start s)) 1)).

Definition is_ega (s : con) : bool := (video_type s =? VIDEO_TYPE_EGAC) || (video_type s =? VIDEO_TYPE_EGAM).

(** the rows [top+1 .. bottom-1] move up by one, the last is cleared *)
Definition scroll_up : M con unit :=
  s ← get_st;
  let n := u32 (u32 (bottom s - top s - 1) * video_num_columns s) / 2 in
  let dst := u32 (origin s + video_size_row s * top s) in
  movsl (Z.to_nat n) (u32 (origin s + video_size_row s * (top s + 1))) dst ;;
  stosw (Z.to_nat (video_num_columns s)) (dst + 4 * n) (video_erase_char s).

Definition scrup : M con unit :=
  s ← get_st;
  if is_ega s then
    if (top s =? 0) && (bottom s =? video_num_lines s) then
      modify (λ s, set_scr_end (u32 (scr_end s + video_size_row s))
                     (set_pos (u32 (pos s + video_size_row s))
                       (set_origin_ (u32 (origin s + video_size_row s)) s))) ;;
      s ← get_st;
      (if video_mem_end s <? scr_end s then
         let n := u32 (u32 (video_num_lines s - 1) * video_num_columns s) / 2 in
         movsl (Z.to_nat n) (origin s) (video_mem_start s) ;;
         stosw (Z.to_nat (video_num_columns s)) (video_mem_start s + 4 * n) (video_erase_char s) ;;
         modify (λ s, set_origin_ (video_mem_start s)
                        (set_pos (u32 (pos s - (origin s - video_mem_start s)))
                          (set_scr_end (u32 (scr_end s - (origin s - video_mem_start s))) s)))
       else
         stosw (Z.to_nat (video_num_columns s)) (u32 (scr_end s - video_size_row s)) (video_erase_char s)) ;;
      set_origin
    else scroll_up
  else scroll_up.

Definition scrdown : M con unit :=
  s ← get_st;
  let n := u32 (u32 (bottom s - top s - 1) * video_num_columns s) / 2 in
  let dst := u32 (origin s + video_size_row s * bottom s - 4) in
  movsl_down (Z.to_nat n) (u32 (origin s + video_size_row s * (bottom s - 1) - 4)) dst ;;
  stosw_down (Z.to_nat (video_num_columns s)) (dst - 4 * n + 2) (video_erase_char s).

Definition lf : M con unit :=
  s ← get_st;
  if u32 (con_y s + 1) <? bottom s then
    modify (λ s, set_pos (u32 (pos s + video_size_row s)) (set_con_y (con_y s + 1) s))
  else scrup.

Definition ri : M con unit :=
  s ← get_st;
  if top s <? con_y s then
    modify (λ s, set_pos (u32 (pos s - video_size_row s)) (set_con_y (con_y s - 1) s))
  else scrdown.

Definition cr : M con unit :=
  modify (λ s, set_con_x 0 (set_pos (u32 (pos s - 2 * con_x s)) s)).

Definition del : M con unit :=
  s ← get_st;
  when (negb (con_x s =? 0))
    (modify (λ s, set_con_x (con_x s - 1) (set_pos (u32 (pos s - 2)) s)) ;;
     s ← get_st;
     wr (pos s) (video_erase_char s)).

(** ** Erasing, inserting and deleting *)
Definition csi_J (p : Z) : M con unit :=
  s ← get_st;
  let e := video_erase_char s in
  if p =? 0 then stosw (Z.to_nat (u32 (scr_end s - pos s) / 2)) (pos s) e
  else if p =? 1 then stosw (Z.to_nat (u32 (pos s - origin s) / 2)) (origin s) e
  else if p =? 2 then stosw (Z.to_nat (u32 (video_num_columns s * video_num_lines s))) (origin s) e
  else mret tt.

Definition csi_K (p : Z) : M con unit :=
  s ← get_st;
  let e := video_erase_char s in
  if p =? 0 then
    if video_num_columns s <=? con_x s then mret tt
    else stosw (Z.to_nat (video_num_columns s - con_x s)) (pos s) e
  else if p =? 1 then
    stosw (Z.to_nat (if con_x s <? video_num_columns s then con_x s else video_num_columns s))
      (u32 (pos s - 2 * con_x s)) e
  else if p =? 2 then stosw (Z.to_nat (video_num_columns s)) (u32 (pos s - 2 * con_x s)) e
  else mret tt.

Definition csi_m : M con unit :=
  s ← get_st;
  for_each (λ i,
    p ← of_opt (par s !! i);
    if p =? 0 then modify (set_attr 0x07)
    else if p =? 1 then modify (set_attr 0x0f)
    else if p =? 4 then modify (set_attr 0x0f)
    else if p =? 7 then modify (set_attr 0x70)
    else if p =? 27 then modify (set_attr 0x07)
    else mret tt) (seq 0 (S (Z.to_nat (npar s)))).

Definition set_cursor : M con unit :=
  s ← get_st;
  outb 14 (Z.land 0xff (Z.shiftr (u32 (pos s - video_mem_start s)) 9)) ;;
  outb 15 (Z.land 0xff (Z.shiftr (u32 (pos s - video_mem_start s)) 1)).

(** the loop of [insert_char]: [n] cells from [p] on move right by one *)
Fixpoint shift_right (n : nat) (p old : Z) : M con unit :=
  match n with
  | O => mret tt
  | S n' => tmp ← rd p; wr p old ;; shift_right n' (p + 2) tmp
  end.
Definition insert_char : M con unit :=
  s ← get_st;
  shift_right (Z.to_nat (video_num_columns s - con_x s)) (pos s) (video_erase_char s).

(** the loop of [delete_char]: it leaves [p] at the last cell *)
Fixpoint shift_left (n : nat) (p : Z) : M con Z :=
  match n with
  | O => mret p
  | S n' => v ← rd (p + 2); wr p v ;; shift_left n' (p + 2)
  end.
Definition delete_char : M con unit :=
  s ← get_st;
  if video_num_columns s <=? con_x s then mret tt
  else
    p ← shift_left (Z.to_nat (video_num_columns s - con_x s - 1)) (pos s);
    wr p (video_erase_char s).

(** running [m] with the scrolling region from the cursor's line to the end *)
Definition below_cursor (m : M con unit) : M con unit :=
  s ← get_st;
  modify (λ s, set_bottom (video_num_lines s) (set_top (con_y s) s)) ;;
  m ;;
  modify (set_bottom (bottom s) ∘ set_top (top s)).
Definition insert_line : M con unit := below_cursor scrdown.
Definition delete_line : M con unit := below_cursor scrup.

Fixpoint repeat_m (n : nat) (m : M con unit) : M con unit :=
  match n with O => mret tt | S n' => m ;; repeat_m n' m end.
(** [if (nr > max) nr = max; else if (!nr) nr = 1;] *)
Definition clamp (nr max : Z) : Z := if max <? nr then max else if nr =? 0 then 1 else nr.
Definition csi_at (nr : Z) : M con unit :=
  s ← get_st; repeat_m (Z.to_nat (clamp nr (video_num_columns s))) insert_char.
Definition csi_L (nr : Z) : M con unit :=
  s ← get_st; repeat_m (Z.to_nat (clamp nr (video_num_lines s))) insert_line.
Definition csi_P (nr : Z) : M con unit :=
  s ← get_st; repeat_m (Z.to_nat (clamp nr (video_num_columns s))) delete_char.
Definition csi_M (nr : Z) : M con unit :=
  s ← get_st; repeat_m (Z.to_nat (clamp nr (video_num_lines s))) delete_line.

Definition save_cur : M con unit := modify (λ s, set_saved_y (con_y s) (set_saved_x (con_x s) s)).
Definition restore_cur : M con unit := s ← get_st; gotoxy (saved_x s) (saved_y s).
Definition sysbeep : M con unit := modify (set_beepcount (Z.quot HZ 8)).

(** ** One character *)

(** a character in state 0; [erase] is [ERASE_CHAR(tty)] *)
Definition con_normal (erase c : Z) : M con unit :=
  s ← get_st;
  if (31 <? c) && (c <? 127) then
    when (video_num_columns s <=? con_x s)
      (modify (λ s, set_pos (u32 (pos s - video_size_row s))
                     (set_con_x (con_x s - video_num_columns s) s)) ;; lf) ;;
    s ← get_st;
    wr (pos s) (256 * attr s + c) ;;
    modify (λ s, set_con_x (con_x s + 1) (set_pos (u32 (pos s + 2)) s))
  else if c =? 27 then modify (set_con_state 1)
  else if (c =? 10) || (c =? 11) || (c =? 12) then lf
  else if c =? 13 then cr
  else if c =? erase then del
  else if c =? 8 then
    when (negb (con_x s =? 0))
      (modify (λ s, set_pos (u32 (pos s - 2)) (set_con_x (con_x s - 1) s)))
  else if c =? 9 then
    let c := 8 - Z.land (con_x s) 7 in
    modify (λ s, set_pos (u32 (pos s + 2 * c)) (set_con_x (con_x s + c) s)) ;;
    s ← get_st;
    when (video_num_columns s <? con_x s)
      (modify (λ s, set_pos (u32 (pos s - video_size_row s))
                     (set_con_x (con_x s - video_num_columns s) s)) ;; lf)
  else if c =? 7 then sysbeep
  else mret tt.

(** a character after ESC; the result tells whether to answer ESC-Z.  The
    tests for '7' and '8' are on the column [x], as in the source. *)
Definition con_escape (c : Z) : M con bool :=
  modify (set_con_state 0) ;;
  s ← get_st;
  if c =? 91 then modify (set_con_state 2) ;; mret false
  else if c =? 69 then gotoxy 0 (con_y s + 1) ;; mret false
  else if c =? 77 then ri ;; mret false
  else if c =? 68 then lf ;; mret false
  else if c =? 90 then mret true
  else if con_x s =? 55 then save_cur ;; mret false
  else if con_x s =? 56 then restore_cur ;; mret false
  else mret false.

Definition the_par (i : nat) : M con Z := s ← get_st; of_opt (par s !! i).
Definition put_par (i : nat) (v : Z) : M con unit := modify (λ s, set_par (<[i := u32 v]> (par s)) s).
(** [if (par[i]) par[i]--;] and [if (!par[i]) par[i]++;] *)
Definition dec_par (i : nat) : M con unit := p ← the_par i; when (negb (p =? 0)) (put_par i (p - 1)).
Definition inc_par (i : nat) : M con unit := p ← the_par i; when (p =? 0) (put_par i (p + 1)).

(** the final character of a control sequence *)
Definition con_final (c : Z) : M con unit :=
  modify (set_con_state 0) ;;
  if (c =? 71) || (c =? 96) then
    dec_par 0 ;; p ← the_par 0; s ← get_st; gotoxy p (con_y s)
  else if c =? 65 then
    inc_par 0 ;; p ← the_par 0; s ← get_st; gotoxy (con_x s) (con_y s - p)
  else if (c =? 66) || (c =? 101) then
    inc_par 0 ;; p ← the_par 0; s ← get_st; gotoxy (con_x s) (con_y s + p)
  else if (c =? 67) || (c =? 97) then
    inc_par 0 ;; p ← the_par 0; s ← get_st; gotoxy (con_x s + p) (con_y s)
  else if c =? 68 then
    inc_par 0 ;; p ← the_par 0; s ← get_st; gotoxy (con_x s - p) (con_y s)
  else if c =? 69 then
    inc_par 0 ;; p ← the_par 0; s ← get_st; gotoxy 0 (con_y s + p)
  else if c =? 70 then
    inc_par 0 ;; p ← the_par 0; s ← get_st; gotoxy 0 (con_y s - p)
  else if c =? 100 then
    dec_par 0 ;; p ← the_par 0; s ← get_st; gotoxy (con_x s) p
  else if (c =? 72) || (c =? 102) then
    dec_par 0 ;; dec_par 1 ;; p ← the_par 0; q ← the_par 1; gotoxy q p
  else if c =? 74 then p ← the_par 0; csi_J (s32 p)
  else if c =? 75 then p ← the_par 0; csi_K (s32 p)
  else if c =? 76 then p ← the_par 0; csi_L p
  else if c =? 77 then p ← the_par 0; csi_M p
  else if c =? 80 then p ← the_par 0; csi_P p
  else if c =? 64 then p ← the_par 0; csi_at p
  else if c =? 109 then csi_m
  else if c =? 114 then
    dec_par 0 ;;
    q ← the_par 1; s ← get_st;
    when (q =? 0) (put_par 1 (video_num_lines s)) ;;
    p ← the_par 0; q ← the_par 1;
    when ((p <? q) && (q <=? video_num_lines s))
      (modify (λ s, set_bottom q (set_top p s)))
  else if c =? 115 then save_cur
  else if c =? 117 then restore_cur
  else mret tt.

(** a character in state 3: a parameter, or the end of the sequence *)
Definition con_param (c : Z) : M con unit :=
  s ← get_st;
  if (c =? 59) && (npar s <? Z.of_nat NPAR - 1) then modify (set_npar (npar s + 1))
  else if (48 <=? c) && (c <=? 57) then
    p ← the_par (Z.to_nat (npar s));
    put_par (Z.to_nat (npar s)) (10 * p + c - 48)
  else con_final c.

(** the body of the loop of [con_write]; the result tells whether to answer *)
Definition con_step (erase c : Z) : M con bool :=
  s ← get_st;
  if con_state s =? 0 then con_normal erase c ;; mret false
  else if con_state s =? 1 then con_escape c
  else if con_state s =? 2 then
    modify (set_par (replicate NPAR 0)) ;;
    modify (set_npar 0) ;;
    modify (set_con_state 3) ;;
    modify (set_ques (c =? 63)) ;;
    if c =? 63 then mret false else con_param c ;; mret false
  else if con_state s =? 3 then con_param c ;; mret false
  else if con_state s =? 4 then con_final c ;; mret false
  else mret false.

(** ** Initialisation *)

(** what setup.s leaves at 0x90000 *)
Record boot_screen := mk_boot {
  ORIG_X : Z; ORIG_Y : Z; ORIG_VIDEO_PAGE : Z; orig_mode_cols : Z; ORIG_VIDEO_EGA_BX : Z
}.
Definition ORIG_VIDEO_MODE (b : boot_screen) : Z := Z.land (orig_mode_cols b) 0xff.
Definition ORIG_VIDEO_COLS (b : boot_screen) : Z := Z.shiftr (Z.land (orig_mode_cols b) 0xff00) 8.
Definition ORIG_VIDEO_LINES : Z := 25.

(** the type, the memory and the name of the card *)
Definition video_card (b : boot_screen) : Z * Z * Z * list Z :=
  if ORIG_VIDEO_MODE b =? 7 then
    if negb (Z.land (ORIG_VIDEO_EGA_BX b) 0xff =? 0x10)
    then (VIDEO_TYPE_EGAM, 0xb0000, 0xb8000, [69; 71; 65; 109])
    else (VIDEO_TYPE_MDA, 0xb0000, 0xb2000, [42; 77; 68; 65])
  else
    if negb (Z.land (ORIG_VIDEO_EGA_BX b) 0xff =? 0x10)
    then (VIDEO_TYPE_EGAC, 0xb8000, 0xbc000, [69; 71; 65; 99])
    else (VIDEO_TYPE_CGA, 0xb8000, 0xba000, [42; 67; 71; 65]).

(** writing the low bytes of consecutive cells *)
Fixpoint write_chars (l : list Z) (p : Z) : M con unit :=
  match l with
  | [] => mret tt
  | c :: l' => v ← rd p; wr p (256 * (v / 256) + c) ;; write_chars l' (p + 2)
  end.

Definition con_init (b : boot_screen) : M con unit :=
  modify (set_video_num_columns (ORIG_VIDEO_COLS b)) ;;
  modify (set_video_size_row (ORIG_VIDEO_COLS b * 2)) ;;
  modify (set_video_num_lines ORIG_VIDEO_LINES) ;;
  modify (set_video_page (u8 (ORIG_VIDEO_PAGE b))) ;;
  modify (set_video_erase_char 0x0720) ;;
  let '(ty, first, last, name) := video_card b in
  modify (set_video_mem_end last ∘ set_video_mem_start first ∘ set_video_type ty) ;;
  s ← get_st;
  write_chars name (video_mem_start s + video_size_row s - 8) ;;
  modify (λ s, set_scr_end (u32 (video_mem_start s + video_num_lines s * video_size_row s))
                 (set_origin_ (video_mem_start s) s)) ;;
  modify (λ s, set_bottom (video_num_lines s) (set_top 0 s)) ;;
  gotoxy (ORIG_X b) (ORIG_Y b).

(** ** The invariant *)

(** the card holds the screen; [con_x] may be one past the last column *)
Record con_ok (s : con) : Prop := {
  ok_cols : 8 ≤ video_num_columns s;
  ok_row : video_size_row s = 2 * video_num_columns s;
  ok_lines : 0 < video_num_lines s;
  ok_start : 0 ≤ video_mem_start s;
  ok_end : video_mem_end s ≤ 2 ^ 20;
  ok_even : Z.even (video_mem_start s) = true;
  ok_origin : video_mem_start s ≤ origin s;
  ok_origin_even : Z.even (origin s) = true;
  ok_scr_end : scr_end s = origin s + video_num_lines s * video_size_row s;
  ok_fits : scr_end s ≤ video_mem_end s;
  ok_x : 0 ≤ con_x s ≤ video_num_columns s;
  ok_y : 0 ≤ con_y s < video_num_lines s;
  ok_pos : pos s = origin s + con_y s * video_size_row s + 2 * con_x s;
  ok_region : 0 ≤ top s < bottom s;
  ok_bottom : bottom s ≤ video_num_lines s;
  ok_npar : 0 ≤ npar s < Z.of_nat NPAR;
  ok_par : length (par s) = NPAR;
  ok_par_pos : Forall (Z.le 0) (par s)
}.

(** a cell of the card's memory *)
Definition valid (s : con) (a : Z) : Prop :=
  video_mem_start s ≤ a ∧ a + 2 ≤ video_mem_end s ∧ Z.even a = true.

Lemma in_video_valid s a : in_video s a = true ↔ valid s a.
Proof. unfold in_video, valid. rewrite !andb_true_iff, !Z.leb_le. tauto. Qed.

Lemma wp_rd a (Q : Z → con → Prop) s : valid s a → Q (vmem s a) s → wp (rd a) Q s.
Proof. intros Ha%in_video_valid. unfold wp, rd. by rewrite Ha. Qed.

Lemma wp_wr a v (Q : unit → con → Prop) s :
  valid s a → Q tt (set_vmem (λ b, if b =? a then v else vmem s b) s) → wp (wr a v) Q s.
Proof. intros Ha%in_video_valid. unfold wp, wr. by rewrite Ha. Qed.

(** [n] cells from [a] upwards *)
Definition valid_range (s : con) (a n : Z) : Prop :=
  video_mem_start s ≤ a ∧ a + 2 * n ≤ video_mem_end s ∧ Z.even a = true.

Lemma even_shift a b : Z.even (b - a) = true → Z.even a = true → Z.even b = true.
Proof. intros H1 H2. replace b with ((b - a) + a) by lia. by rewrite Z.even_add, H1, H2. Qed.

Lemma valid_at s a n b :
  valid_range s a n → a ≤ b → b + 2 ≤ a + 2 * n → Z.even (b - a) = true → valid s b.
Proof. intros (H1 & H2 & H3) ???. split; [lia|]. split; [lia|]. by eapply even_shift. Qed.

(** two memories equal at all addresses *)
Lemma set_vmem_vmem m s : vmem (set_vmem m s) = m.
Proof. done. Qed.
Lemma set_vmem_twice m m' s : set_vmem m (set_vmem m' s) = set_vmem m s.
Proof. done. Qed.

(** [stosw] fills a range *)
Lemma stosw_run n dst v s :
  valid_range s dst (Z.of_nat n) →
  wp (stosw n dst v) (λ _ s', ∃ m, s' = set_vmem m s ∧
    ∀ a, Z.even (a - dst) = true →
      m a = if (dst <=? a) && (a <? dst + 2 * Z.of_nat n) then v else vmem s a) s.
Proof.
  revert dst s. induction n as [|n IH]; intros dst s Hv.
  - apply wp_ret. exists (vmem s). split; [by destruct s|]. intros a _.
    destruct (dst <=? a) eqn:E1, (a <? dst + 2 * Z.of_nat 0) eqn:E2; cbn; try done; blia.
  - cbn [stosw]. apply wp_bind, wp_wr.
    { apply (valid_at s dst (Z.of_nat (S n))); try done; try lia. by rewrite Z.sub_diag. }
    eapply wp_mono; [apply IH|].
    + destruct Hv as (?&?&?). split; [cbn; lia|]. split; [cbn; lia|].
      apply (even_shift dst); [|done]. by replace (dst + 2 - dst) with 2 by lia.
    + intros _ s' (m & -> & Hm). exists m. split; [done|]. intros a Ha. rewrite Hm; cbn [set_vmem vmem].
      * destruct (a =? dst) eqn:E0, (dst <=? a) eqn:E1, (a <? dst + 2 * Z.of_nat (S n)) eqn:E2,
          (dst + 2 <=? a) eqn:E3, (a <? dst + 2 + 2 * Z.of_nat n) eqn:E4; cbn; try done; try blia.
        assert (a = dst + 1) as -> by blia. replace (dst + 1 - dst) with 1 in Ha by lia. done.
      * replace (a - (dst + 2)) with ((a - dst) + -(2)) by lia. by rewrite Z.even_add, Ha.
Qed.

Lemma stosw_down_run n dst v s :
  valid_range s (dst - 2 * (Z.of_nat n - 1)) (Z.of_nat n) →
  wp (stosw_down n dst v) (λ _ s', ∃ m, s' = set_vmem m s ∧
    ∀ a, Z.even (a - dst) = true →
      m a = if (dst - 2 * Z.of_nat n <? a) && (a <=? dst) then v else vmem s a) s.
Proof.
  revert dst s. induction n as [|n IH]; intros dst s Hv.
  - apply wp_ret. exists (vmem s). split; [by destruct s|]. intros a _.
    destruct (dst - 2 * Z.of_nat 0 <? a) eqn:E1, (a <=? dst) eqn:E2; cbn; try done; blia.
  - cbn [stosw_down]. apply wp_bind, wp_wr.
    { eapply valid_at; [exact Hv|lia|lia|].
      replace (dst - (dst - 2 * (Z.of_nat (S n) - 1))) with (0 + 2 * (Z.of_nat (S n) - 1)) by lia.
      by rewrite Z.even_add_mul_2. }
    eapply wp_mono; [apply IH|].
    + destruct Hv as (?&?&?). split; [cbn [set_vmem video_mem_start]; lia|]. split; [cbn [set_vmem video_mem_end]; lia|].
      by replace (dst - 2 - 2 * (Z.of_nat n - 1)) with (dst - 2 * (Z.of_nat (S n) - 1)) by lia.
    + intros _ s' (m & -> & Hm). exists m. split; [done|]. intros a Ha. rewrite Hm; cbn [set_vmem vmem].
      * destruct (a =? dst) eqn:E0, (a <=? dst) eqn:E1, (dst - 2 * Z.of_nat (S n) <? a) eqn:E2,
          (a <=? dst - 2) eqn:E3, (dst - 2 - 2 * Z.of_nat n <? a) eqn:E4; cbn; try done; try blia.
        assert (a = dst - 1) as -> by blia. replace (dst - 1 - dst) with (-(1)) in Ha by lia. done.
      * replace (a - (dst - 2)) with ((a - dst) + 2) by lia. by rewrite Z.even_add, Ha.
Qed.

Lemma movsl_run n src dst s :
  valid_range s src (2 * Z.of_nat n) → valid_range s dst (2 * Z.of_nat n) → dst ≤ src →
  wp (movsl n src dst) (λ _ s', ∃ m, s' = set_vmem m s ∧
    ∀ a, Z.even (a - dst) = true →
      m a = if (dst <=? a) && (a <? dst + 4 * Z.of_nat n) then vmem s (a - dst + src) else vmem s a) s.
Proof.
  revert src dst s. induction n as [|n IH]; intros src dst s Hs Hd Hle.
  - apply wp_ret. exists (vmem s). split; [by destruct s|]. intros a _.
    destruct (dst <=? a) eqn:E1, (a <? dst + 4 * Z.of_nat 0) eqn:E2; cbn; try done; blia.
  - assert (Heven : Z.even (src - dst) = true).
    { destruct Hs as (_&_&E1), Hd as (_&_&E2). by rewrite Z.even_sub, E1, E2. }
    cbn [movsl].
    apply wp_bind, wp_rd; [eapply valid_at; [exact Hs|lia|lia|by rewrite Z.sub_diag]|].
    apply wp_bind, wp_rd; [eapply valid_at; [exact Hs|lia|lia|by replace (src + 2 - src) with 2 by lia]|].
    apply wp_bind, wp_wr; [eapply valid_at; [exact Hd|lia|lia|by rewrite Z.sub_diag]|].
    apply wp_bind, wp_wr; [eapply (valid_at s); [exact Hd|lia|lia|by replace (dst + 2 - dst) with 2 by lia]|].
    eapply wp_mono; [apply IH|].
    + destruct Hs as (?&?&?). split; [cbn [set_vmem video_mem_start]; lia|]. split; [cbn [set_vmem video_mem_end]; lia|].
      apply (even_shift src); [|done]. by replace (src + 4 - src) with 4 by lia.
    + destruct Hd as (?&?&?). split; [cbn [set_vmem video_mem_start]; lia|]. split; [cbn [set_vmem video_mem_end]; lia|].
      apply (even_shift dst); [|done]. by replace (dst + 4 - dst) with 4 by lia.
    + lia.
    + intros _ s' (m & -> & Hm). exists m. split; [done|]. intros a Ha. rewrite Hm; cbn [set_vmem vmem].
      2:{ replace (a - (dst + 4)) with ((a - dst) + -(4)) by lia. by rewrite Z.even_add, Ha. }
      replace (a - (dst + 4) + (src + 4)) with (a - dst + src) by lia.
      destruct (dst + 4 <=? a) eqn:E1, (a <? dst + 4 + 4 * Z.of_nat n) eqn:E2, (dst <=? a) eqn:E3,
        (a <? dst + 4 * Z.of_nat (S n)) eqn:E4; cbn [andb]; try blia.
      * rewrite (proj2 (Z.eqb_neq _ (dst + 2))), (proj2 (Z.eqb_neq _ dst)); [done|blia|blia].
      * b2p; by rewrite (proj2 (Z.eqb_neq _ (dst + 2))), (proj2 (Z.eqb_neq _ dst)) by lia.
      * destruct (a =? dst + 2) eqn:E5; [f_equal; blia|].
        destruct (a =? dst) eqn:E6; [f_equal; blia|].
        assert (a = dst + 1 ∨ a = dst + 3) as [->| ->] by blia.
        -- by replace (dst + 1 - dst) with 1 in Ha by lia.
        -- by replace (dst + 3 - dst) with 3 in Ha by lia.
      * b2p; by rewrite (proj2 (Z.eqb_neq _ (dst + 2))), (proj2 (Z.eqb_neq _ dst)) by lia.
Qed.

Lemma movsl_down_run n src dst s :
  valid_range s (src - 4 * (Z.of_nat n - 1)) (2 * Z.of_nat n) →
  valid_range s (dst - 4 * (Z.of_nat n - 1)) (2 * Z.of_nat n) → src ≤ dst →
  wp (movsl_down n src dst) (λ _ s', ∃ m, s' = set_vmem m s ∧
    ∀ a, Z.even (a - dst) = true →
      m a = if (dst + 4 - 4 * Z.of_nat n <=? a) && (a <? dst + 4) then vmem s (a - dst + src) else vmem s a) s.
Proof.
  revert src dst s. induction n as [|n IH]; intros src dst s Hs Hd Hle.
  - apply wp_ret. exists (vmem s). split; [by destruct s|]. intros a _.
    destruct (dst + 4 - 4 * Z.of_nat 0 <=? a) eqn:E1, (a <? dst + 4) eqn:E2; cbn; try done; blia.
  - assert (Hev : ∀ p q : Z, Z.even p = true → (∃ k, q = p + 2 * k) → Z.even q = true).
    { intros p q Hp [k ->]. by rewrite Z.even_add_mul_2. }
    assert (Hs0 : Z.even src = true) by (destruct Hs as (_&_&E1); eapply Hev; [exact E1|exists (2 * (Z.of_nat (S n) - 1)); lia]).
    assert (Hd0 : Z.even dst = true) by (destruct Hd as (_&_&E1); eapply Hev; [exact E1|exists (2 * (Z.of_nat (S n) - 1)); lia]).
    destruct Hs as (Hs1&Hs2&Hs3), Hd as (Hd1&Hd2&Hd3).
    cbn [movsl_down].
    apply wp_bind, wp_rd; [split; [lia|]; split; [lia|done]|].
    apply wp_bind, wp_rd; [split; [lia|]; split; [lia|eapply Hev; [exact Hs0|exists 1; lia]]|].
    apply wp_bind, wp_wr; [split; [lia|]; split; [lia|done]|].
    apply wp_bind, wp_wr; [split; [cbn [set_vmem video_mem_start]; lia|]; split; [cbn [set_vmem video_mem_end]; lia|eapply Hev; [exact Hd0|exists 1; lia]]|].
    eapply wp_mono; [apply IH|].
    + split; [cbn [set_vmem video_mem_start]; lia|]. split; [cbn [set_vmem video_mem_end]; lia|].
      eapply Hev; [exact Hs3|exists 0; lia].
    + split; [cbn [set_vmem video_mem_start]; lia|]. split; [cbn [set_vmem video_mem_end]; lia|].
      eapply Hev; [exact Hd3|exists 0; lia].
    + lia.
    + intros _ s' (m & -> & Hm). exists m. split; [done|]. intros a Ha. rewrite Hm; cbn [set_vmem vmem].
      2:{ replace (a - (dst - 4)) with ((a - dst) + 4) by lia. by rewrite Z.even_add, Ha. }
      replace (a - (dst - 4) + (src - 4)) with (a - dst + src) by lia.
      destruct (dst - 4 + 4 - 4 * Z.of_nat n <=? a) eqn:E1, (a <? dst - 4 + 4) eqn:E2,
        (dst + 4 - 4 * Z.of_nat (S n) <=? a) eqn:E3, (a <? dst + 4) eqn:E4; cbn [andb]; try blia.
      * b2p; by rewrite (proj2 (Z.eqb_neq _ (dst + 2))), (proj2 (Z.eqb_neq _ dst)) by lia.
      * destruct (a =? dst + 2) eqn:E5; [f_equal; blia|].
        destruct (a =? dst) eqn:E6; [f_equal; blia|].
        assert (a = dst + 1 ∨ a = dst + 3) as [->| ->] by blia.
        -- by replace (dst + 1 - dst) with 1 in Ha by lia.
        -- by replace (dst + 3 - dst) with 3 in Ha by lia.
      * b2p; by rewrite (proj2 (Z.eqb_neq _ (dst + 2))), (proj2 (Z.eqb_neq _ dst)) by lia.
      * b2p; by rewrite (proj2 (Z.eqb_neq _ (dst + 2))), (proj2 (Z.eqb_neq _ dst)) by lia.
Qed.

(** ** What the operations keep *)

(** the registers other than the memory, the position of the screen in it and
    the CRTC are unchanged *)
Record same_regs (s s' : con) : Prop := {
  sr_type : video_type s' = video_type s;
  sr_cols : video_num_columns s' = video_num_columns s;
  sr_row : video_size_row s' = video_size_row s;
  sr_lines : video_num_lines s' = video_num_lines s;
  sr_start : video_mem_start s' = video_mem_start s;
  sr_end : video_mem_end s' = video_mem_end s;
  sr_erase : video_erase_char s' = video_erase_char s;
  sr_x : con_x s' = con_x s;
  sr_y : con_y s' = con_y s;
  sr_top : top s' = top s;
  sr_bottom : bottom s' = bottom s;
  sr_state : con_state s' = con_state s;
  sr_npar : npar s' = npar s;
  sr_par : par s' = par s;
  sr_attr : attr s' = attr s
}.

#[global] Instance same_regs_pre : PreOrder same_regs.
Proof.
  split; [by intros s; constructor|].
  intros s1 s2 s3 [] []. constructor; congruence.
Qed.

(** the cell of the screen in row [r] and column [c] *)
Definition cell (s : con) (r c : Z) : Z := vmem s (origin s + r * video_size_row s + 2 * c).

(** what scrolling the region up does to the screen *)
Definition scrolled_up (s s' : con) : Prop := ∀ r c,
  0 ≤ r < video_num_lines s → 0 ≤ c < video_num_columns s →
  cell s' r c =
    if (top s <=? r) && (r <? bottom s - 1) then cell s (r + 1) c
    else if r =? bottom s - 1 then video_erase_char s
    else cell s r c.

Definition scrolled_down (s s' : con) : Prop := ∀ r c,
  0 ≤ r < video_num_lines s → 0 ≤ c < video_num_columns s →
  cell s' r c =
    if (top s <? r) && (r <? bottom s) then cell s (r - 1) c
    else if r =? top s then video_erase_char s
    else cell s r c.

Lemma con_ok_vmem m s : con_ok s → con_ok (set_vmem m s).
Proof. intros []. by constructor. Qed.
Lemma con_ok_crtc m s : con_ok s → con_ok (set_crtc m s).
Proof. intros []. by constructor. Qed.

Section geometry.
Context (s : con) (Hok : con_ok s).

(** a position of the screen as an address *)
Lemma screen_range r c n :
  0 ≤ r → 0 ≤ c → 0 ≤ n → r * video_size_row s + 2 * c + 2 * n ≤ video_num_lines s * video_size_row s →
  valid_range s (origin s + r * video_size_row s + 2 * c) n.
Proof.
  intros Hr Hc Hn Hle. destruct Hok. split; [nia|]. split; [lia|].
  rewrite ok_row0. replace (origin s + r * (2 * video_num_columns s) + 2 * c) with (origin s + 2 * (r * video_num_columns s + c)) by lia.
  by rewrite Z.even_add_mul_2.
Qed.

Lemma small_geometry :
  0 ≤ origin s ∧ scr_end s < 2 ^ 20 + 1 ∧ video_num_columns s < 2 ^ 20 ∧ video_num_lines s < 2 ^ 20 ∧ 0 < video_size_row s.
Proof. destruct Hok. split_and!; try lia; nia. Qed.

Lemma even_cells r c k : Z.even (origin s + r * video_size_row s + 2 * c - (origin s + k * video_size_row s)) = true.
Proof.
  rewrite (ok_row s) by done.
  replace (_ - _) with (0 + 2 * (r * video_num_columns s - k * video_num_columns s + c)) by lia.
  by rewrite Z.even_add_mul_2.
Qed.
End geometry.

Lemma half_words b t n : 0 ≤ b - t - 1 → 0 ≤ n → (b - t - 1) * n < 2 ^ 32 → b - t - 1 < 2 ^ 32 →
  u32 (u32 (b - t - 1) * n) / 2 = (b - t - 1) * n / 2.
Proof. intros. rewrite (u32_id (b - t - 1)) by lia. rewrite u32_id by nia. done. Qed.

Lemma double_half k n : Z.even n = true → 2 * (k * n / 2) = k * n.
Proof.
  intros [m ->]%Z.even_spec. replace (k * (2 * m)) with ((k * m) * 2) by lia. rewrite Z.div_mul by lia. lia.
Qed.

(** The slow way: moving the rows. *)
Lemma scroll_up_run s :
  con_ok s →
  wp scroll_up (λ _ s', ∃ m, s' = set_vmem m s ∧
    (Z.even (video_num_columns s) = true → scrolled_up s s')) s.
Proof.
  intros Hok. pose proof (small_geometry s Hok) as (G1 & G2 & G3 & G4 & G5).
  pose proof Hok as [? Hrow ????? _ Hse Hfit ? ? ? Hreg Hbot _ _ _]. rewrite Hrow in *.
  unfold scroll_up. apply wp_bind, wp_get. cbn zeta. set (W := video_num_columns s) in *. set (b := bottom s) in *. set (t := top s) in *.
  assert (Hbt : 0 ≤ (b - t - 1) * W) by (apply Z.mul_nonneg_nonneg; lia).
  assert (HbL : b * W ≤ video_num_lines s * W) by (apply Z.mul_le_mono_nonneg_r; lia).
  assert (HtW : 0 ≤ t * W) by (apply Z.mul_nonneg_nonneg; lia).
  assert (HbW : (b - t - 1) * W < 2 ^ 32) by lia.
  rewrite half_words by lia.
  set (n := (b - t - 1) * W / 2).
  assert (Hn : 0 ≤ n ∧ 2 * n ≤ (b - t - 1) * W) by (unfold n; pose proof (Z.mul_div_le ((b - t - 1) * W) 2); split; [apply Z.div_pos; lia|lia]).
  rewrite Hrow. fold W. rewrite !u32_id by lia.
  assert (Hsrc : valid_range s (origin s + 2 * W * (t + 1)) (2 * Z.of_nat (Z.to_nat n))).
  { rewrite Z2Nat.id by lia. replace (origin s + 2 * W * (t + 1)) with (origin s + (t + 1) * video_size_row s + 2 * 0) by lia. apply screen_range; try done; lia. }
  assert (Hdst : valid_range s (origin s + 2 * W * t) (2 * Z.of_nat (Z.to_nat n))).
  { rewrite Z2Nat.id by lia. replace (origin s + 2 * W * t) with (origin s + t * video_size_row s + 2 * 0) by lia. apply screen_range; try done; lia. }
  apply wp_bind. eapply wp_mono; [apply movsl_run; [exact Hsrc|exact Hdst|lia]|].
  intros _ s1 (m & -> & Hm). cbn beta. rewrite Z2Nat.id in Hm by lia.
  eapply wp_mono; [apply stosw_run|].
  { destruct Hdst as (D1 & D2 & D3). split; [cbn; lia|]. split; [cbn; rewrite Z2Nat.id by lia; lia|].
    replace (origin s + 2 * W * t + 4 * n) with (origin s + 2 * W * t + 2 * (2 * n)) by lia.
    by rewrite Z.even_add_mul_2. }
  intros _ s' (m' & -> & Hm'). rewrite Z2Nat.id in Hm' by lia. exists m'. split; [done|].
  intros Hev r c Hr Hc. fold W in Hc. unfold cell. cbn [set_vmem vmem origin video_size_row].
  assert (Hn2 : 2 * n = (b - t - 1) * W) by (apply double_half, Hev).
  pose proof (even_cells s Hok r c t) as Het.
  assert (He2 : Z.even (origin s + r * video_size_row s + 2 * c - (origin s + 2 * W * t + 4 * n)) = true).
  { replace (_ - _) with (origin s + r * video_size_row s + 2 * c - (origin s + t * video_size_row s) + 2 * (-(2 * n))) by lia.
    by rewrite Z.even_add_mul_2. }
  rewrite Hm' by exact He2. cbn [set_vmem vmem]. rewrite Hm.
  2:{ by replace (_ - _) with (origin s + r * video_size_row s + 2 * c - (origin s + t * video_size_row s)) by lia. }
  fold b t. rewrite Hrow. fold W. clear Het He2 Hm Hm'.
  assert (H4n : 4 * n = (b - 1) * (2 * W) - t * (2 * W)) by lia.
  replace (origin s + 2 * W * t + 4 * n) with (origin s + (b - 1) * (2 * W)) by lia.
  destruct (r =? b - 1) eqn:E1.
  - b2p. subst r. rewrite (proj2 (Z.leb_le _ _)), (proj2 (Z.ltb_lt _ _)) by lia. cbn [andb].
    rewrite (proj2 (Z.ltb_ge (b - 1) (b - 1))) by lia. by rewrite andb_false_r.
  - b2p. replace ((_ <=? _) && (_ <? origin s + (b - 1) * (2 * W) + 2 * W)) with false.
    2:{ symmetry. apply andb_false_iff. rewrite Z.leb_gt, Z.ltb_ge. assert (r + 1 ≤ b - 1 ∨ b ≤ r) as [?%(Z.mul_le_mono_nonneg_r _ _ W)|?%(Z.mul_le_mono_nonneg_r _ _ W)] by lia; lia. }
    destruct ((t <=? r) && (r <? b - 1)) eqn:E2; b2p.
    + assert (t * W ≤ r * W ∧ (r + 1) * W ≤ (b - 1) * W) as [? ?] by (split; apply Z.mul_le_mono_nonneg_r; lia).
      rewrite (proj2 (Z.leb_le _ _)), (proj2 (Z.ltb_lt _ _)) by lia. cbn [andb]. f_equal. lia.
    + replace ((_ <=? _) && (_ <? origin s + (b - 1) * (2 * W))) with false; [done|].
      symmetry. apply andb_false_iff. rewrite Z.leb_gt, Z.ltb_ge.
      apply andb_false_iff in E2. rewrite Z.leb_gt, Z.ltb_ge in E2. destruct E2 as [E2|E2]; [left|right].
      * assert ((r + 1) * W ≤ t * W) by (apply Z.mul_le_mono_nonneg_r; lia). lia.
      * assert ((b - 1) * W ≤ r * W) by (apply Z.mul_le_mono_nonneg_r; lia). lia.
Qed.

Section scroll_down.
Context (s : con) (Hok : con_ok s).
Abbreviation W := (video_num_columns s).
Abbreviation t := (top s).
Abbreviation b := (bottom s).
Abbreviation n := ((b - t - 1) * W / 2).
Abbreviation dst := (origin s + 2 * W * b - 4).

Lemma down_sizes : (0 ≤ n ∧ 2 * n ≤ (b - t - 1) * W) ∧ 0 ≤ t * W ∧ b * W ≤ video_num_lines s * W ∧ 0 ≤ (b - t - 1) * W.
Proof.
  destruct Hok. assert (0 ≤ (b - t - 1) * W) by (apply Z.mul_nonneg_nonneg; lia).
  split_and!; [apply Z.div_pos; lia|pose proof (Z.mul_div_le ((b - t - 1) * W) 2); lia|apply Z.mul_nonneg_nonneg; lia|apply Z.mul_le_mono_nonneg_r; lia|done].
Qed.

Lemma down_even k : Z.even (dst + 2 * k) = true.
Proof.
  replace (dst + 2 * k) with (origin s + 2 * (W * b - 2 + k)) by lia. rewrite Z.even_add_mul_2. by destruct Hok.
Qed.

(** the copy of the rows, from the last down *)
Lemma down_copy :
  wp (movsl_down (Z.to_nat n) (u32 (origin s + 2 * W * (b - 1) - 4)) dst) (λ _ s', ∃ m, s' = set_vmem m s ∧
    ∀ a, Z.even (a - dst) = true →
      m a = if (dst + 4 - 4 * n <=? a) && (a <? dst + 4) then vmem s (a - 2 * W) else vmem s a) s.
Proof.
  pose proof (small_geometry s Hok) as (G1 & G2 & G3 & G4 & G5). pose proof down_sizes as (Hn & S1 & S2 & S3).
  pose proof Hok as [? Hrow ????? Hoe Hse Hfit ? ? ? Hreg Hbot _ _ _]. rewrite Hrow in *.
  destruct (Z.to_nat n) as [|n'] eqn:En.
  { assert (n = 0) as -> by lia. apply wp_ret. exists (vmem s). split; [by destruct s|]. intros a _.
    destruct ((dst + 4 - 4 * 0 <=? a) && (a <? dst + 4)) eqn:E; [blia|done]. }
  rewrite <- En. assert (u32 (origin s + 2 * W * (b - 1) - 4) = dst - 2 * W) as -> by (rewrite u32_id; lia).
  eapply wp_mono; [apply movsl_down_run; rewrite ?Z2Nat.id by lia|].
  - split; [lia|]. split; [lia|]. replace (_ - 4 * (n - 1)) with (dst + 2 * (- W - 2 * (n - 1))) by lia. apply down_even.
  - split; [lia|]. split; [lia|]. replace (_ - 4 * (n - 1)) with (dst + 2 * (- 2 * (n - 1))) by lia. apply down_even.
  - lia.
  - intros _ s' (m & -> & Hm). exists m. split; [done|]. intros a Ha. rewrite Hm by done. rewrite Z2Nat.id by lia.
    by replace (a - dst + (dst - 2 * W)) with (a - 2 * W) by lia.
Qed.

(** the cells after that, and after the erasing of the first row *)
Lemma down_cells m m' : Z.even W = true →
  (∀ a, Z.even (a - dst) = true → m a = if (dst + 4 - 4 * n <=? a) && (a <? dst + 4) then vmem s (a - 2 * W) else vmem s a) →
  (∀ a, Z.even (a - (dst - 4 * n + 2)) = true →
     m' a = if (dst - 4 * n + 2 - 2 * W <? a) && (a <=? dst - 4 * n + 2) then video_erase_char s else m a) →
  scrolled_down s (set_vmem m' s).
Proof.
  intros Hev Hm Hm' r c Hr Hc. destruct Hok. unfold cell. cbn [set_vmem vmem origin video_size_row]. rewrite ok_row0.
  assert (Hn2 : 2 * n = (b - t - 1) * W) by (apply double_half, Hev).
  assert (Hpar : ∀ k, Z.even (origin s + r * (2 * W) + 2 * c - (dst + 2 * k)) = true).
  { intros k. replace (_ - (dst + 2 * k)) with (0 + 2 * (r * W + c - W * b + 2 - k)) by lia. by rewrite Z.even_add_mul_2. }
  rewrite Hm' by (replace (dst - 4 * n + 2) with (dst + 2 * (1 - 2 * n)) by lia; apply Hpar).
  rewrite Hm by (replace dst with (dst + 2 * 0) by lia; apply Hpar). clear Hm Hm' Hpar Hev.
  replace (dst - 4 * n + 2) with (origin s + (t + 1) * (2 * W) - 2) by lia.
  replace (dst + 4 - 4 * n) with (origin s + (t + 1) * (2 * W)) by lia.
  replace (dst + 4) with (origin s + b * (2 * W)) by lia.
  destruct (r =? t) eqn:E1; b2p.
  { subst r. rewrite (proj2 (Z.ltb_ge t t)) by lia. cbn [andb].
    rewrite (proj2 (Z.ltb_lt _ _)), (proj2 (Z.leb_le _ _)) by lia. done. }
  replace ((_ <? _) && (_ <=? origin s + (t + 1) * (2 * W) - 2)) with false.
  2:{ symmetry. apply andb_false_iff. rewrite Z.leb_gt, Z.ltb_ge.
      assert (r + 1 ≤ t ∨ t + 1 ≤ r) as [?%(Z.mul_le_mono_nonneg_r _ _ W)|?%(Z.mul_le_mono_nonneg_r _ _ W)] by lia; lia. }
  destruct ((t <? r) && (r <? b)) eqn:E2; b2p.
  - assert ((t + 1) * W ≤ r * W ∧ (r + 1) * W ≤ b * W) as [? ?] by (split; apply Z.mul_le_mono_nonneg_r; lia).
    rewrite (proj2 (Z.leb_le _ _)), (proj2 (Z.ltb_lt _ _)) by lia. cbn [andb]. f_equal. lia.
  - replace ((_ <=? _) && (_ <? origin s + b * (2 * W))) with false; [done|].
    symmetry. apply andb_false_iff. rewrite Z.leb_gt, Z.ltb_ge.
    apply andb_false_iff in E2. rewrite !Z.ltb_ge in E2. destruct E2 as [E2|E2]; [left|right].
    + assert ((r + 1) * W ≤ (t + 1) * W) by (apply Z.mul_le_mono_nonneg_r; lia). lia.
    + assert (b * W ≤ r * W) by (apply Z.mul_le_mono_nonneg_r; lia). lia.
Qed.

Lemma scrdown_run :
  wp scrdown (λ _ s', ∃ m, s' = set_vmem m s ∧ (Z.even W = true → scrolled_down s s')) s.
Proof.
  pose proof (small_geometry s Hok) as (G1 & G2 & G3 & G4 & G5). pose proof down_sizes as (Hn & S1 & S2 & S3).
  pose proof Hok as [? Hrow ????? Hoe Hse Hfit ? ? ? Hreg Hbot _ _ _]. rewrite Hrow in *.
  unfold scrdown. apply wp_bind, wp_get. cbn zeta. rewrite Hrow, half_words, (u32_id dst) by lia.
  apply wp_bind. eapply wp_mono; [exact down_copy|]. intros _ s1 (m & -> & Hm). cbn beta.
  eapply wp_mono; [apply stosw_down_run; rewrite ?Z2Nat.id by lia|].
  { split; [cbn; lia|]. split; [cbn; lia|].
    replace (_ - 2 * (W - 1)) with (dst + 2 * (- 2 * n + 2 - W)) by lia. apply down_even. }
  intros _ s' (m' & -> & Hm'). rewrite Z2Nat.id in Hm' by lia. exists m'. split; [done|]. intros Hev. by apply (down_cells m).
Qed.
End scroll_down.

(** Scrolling up, the fast way included: on an EGA card a scroll of the whole
    screen moves the origin instead of the rows. *)
(** The fast scroll of an EGA card: the screen moves down by a row in video
    memory ([shifted]), or back to its start when there is no more room. *)
Definition shifted (s : con) : con :=
  set_scr_end (u32 (scr_end s + video_size_row s))
    (set_pos (u32 (pos s + video_size_row s)) (set_origin_ (u32 (origin s + video_size_row s)) s)).

Section whole_screen.
Context (s : con) (Hok : con_ok s) (Htop : top s = 0) (Hbottom : bottom s = video_num_lines s).
Abbreviation W := (video_num_columns s).
Abbreviation L := (video_num_lines s).

Lemma screen_sizes : 0 ≤ (L - 1) * W ∧ L * (2 * W) = 2 * ((L - 1) * W) + 2 * W ∧
  0 ≤ con_y s * W ∧ (con_y s + 1) * W ≤ L * W.
Proof.
  destruct Hok. split_and!; [apply Z.mul_nonneg_nonneg; lia|lia|apply Z.mul_nonneg_nonneg; lia|apply Z.mul_le_mono_nonneg_r; lia].
Qed.

Lemma shifted_fields :
  origin (shifted s) = origin s + 2 * W ∧ pos (shifted s) = pos s + 2 * W ∧ scr_end (shifted s) = scr_end s + 2 * W.
Proof.
  pose proof (small_geometry s Hok) as (G1 & G2 & G3 & G4 & G5). pose proof screen_sizes as (S1 & S2 & S3 & S4).
  destruct Hok. unfold shifted. cbn. rewrite ok_row0 in *. split_and!; apply u32_id; lia.
Qed.

(** the cells of the new screen, given where each of its rows has come from *)
Lemma scrolled_up_rows s' : video_size_row s' = 2 * W →
  (∀ r c, 0 ≤ r < L → 0 ≤ c < W →
     vmem s' (origin s' + r * (2 * W) + 2 * c) =
       if r =? L - 1 then video_erase_char s else vmem s (origin s + (r + 1) * (2 * W) + 2 * c)) →
  scrolled_up s s'.
Proof.
  intros Hrow' Hcells r c Hr Hc. unfold cell. rewrite Hrow', Htop, Hbottom, (ok_row s Hok), Hcells by done.
  destruct (r =? L - 1) eqn:E1; b2p.
  - subst r. rewrite (proj2 (Z.ltb_ge (L - 1) (L - 1))) by lia. by rewrite andb_false_r.
  - rewrite (proj2 (Z.leb_le 0 r)), (proj2 (Z.ltb_lt r _)) by lia. done.
Qed.

Definition scrolls (s' : con) : Prop :=
  con_ok s' ∧ same_regs s s' ∧ (Z.even W = true → scrolled_up s s').

Lemma scrup_next_row : scr_end s + 2 * W ≤ video_mem_end s →
  wp (stosw (Z.to_nat W) (scr_end s) (video_erase_char s)) (λ _, scrolls) (shifted s).
Proof.
  intros Hend. pose proof (small_geometry s Hok) as (G1 & G2 & G3 & G4 & G5).
  pose proof screen_sizes as (S1 & S2 & S3 & S4). pose proof shifted_fields as (F1 & F2 & F3).
  pose proof Hok as [Hc8 Hrow Hl ? Hme Hmse Hor Hoe Hse Hfit Hx Hy Hpos Hreg Hbot Hnp Hpar Hpp].
  rewrite Hrow in *. set (s1 := shifted s) in *.
  eapply wp_mono; [apply stosw_run; rewrite ?Z2Nat.id by lia|].
  { split; [change (video_mem_start s1) with (video_mem_start s); lia|]. split; [change (video_mem_end s1) with (video_mem_end s); lia|].
    rewrite Hse. replace (origin s + L * (2 * W)) with (origin s + 2 * (L * W)) by lia. by rewrite Z.even_add_mul_2. }
  rewrite Z2Nat.id by lia. intros _ s4 (m & -> & Hm). split; [|split; [done|]].
  - apply con_ok_vmem. constructor; try done; change (video_mem_start s1) with (video_mem_start s); change (video_mem_end s1) with (video_mem_end s);
      change (video_num_lines s1) with L; change (video_size_row s1) with (video_size_row s);
      change (con_x s1) with (con_x s); change (con_y s1) with (con_y s); rewrite ?F1, ?F2, ?F3, ?Hrow; try done; try lia.
    by rewrite Z.even_add_mul_2.
  - intros _. apply scrolled_up_rows; [exact Hrow|]. intros r c Hr Hc. cbn [set_vmem vmem origin]. rewrite F1, Hm.
    2:{ rewrite Hse. replace (_ - _) with (0 + 2 * (W + r * W + c - L * W)) by lia. by rewrite Z.even_add_mul_2. }
    change (vmem s1) with (vmem s). clear Hm. assert (0 ≤ r * W) by (apply Z.mul_nonneg_nonneg; lia).
    destruct (r =? L - 1) eqn:E1; b2p.
    + subst r. by rewrite (proj2 (Z.leb_le _ _)), (proj2 (Z.ltb_lt _ _)) by lia.
    + assert ((r + 1) * W ≤ (L - 1) * W) by (apply Z.mul_le_mono_nonneg_r; lia).
      rewrite (proj2 (Z.leb_gt _ _)) by lia. cbn [andb]. f_equal. lia.
Qed.
(** The cells after the copy of the rows but the first to the start of the
    memory, and the erasing of the last row there. *)
Lemma wrapped_cells m m' n (st := video_mem_start s) : 2 * n = (L - 1) * W →
  (∀ a, Z.even (a - st) = true →
     m a = if (st <=? a) && (a <? st + 4 * n) then vmem s (a - st + (origin s + 2 * W)) else vmem s a) →
  (∀ a, Z.even (a - (st + 4 * n)) = true →
     m' a = if (st + 4 * n <=? a) && (a <? st + 4 * n + 2 * W) then video_erase_char s else m a) →
  ∀ r c, 0 ≤ r < L → 0 ≤ c < W →
    m' (st + r * (2 * W) + 2 * c) =
      if r =? L - 1 then video_erase_char s else vmem s (origin s + (r + 1) * (2 * W) + 2 * c).
Proof.
  intros Hn2 Hm Hm' r c Hr Hc.
  assert (He : ∀ k, Z.even (st + r * (2 * W) + 2 * c - (st + 2 * k)) = true).
  { intros k. replace (_ - _) with (0 + 2 * (r * W + c - k)) by lia. by rewrite Z.even_add_mul_2. }
  rewrite Hm' by (replace (4 * n) with (2 * (2 * n)) by lia; apply He).
  rewrite Hm by (replace st with (st + 2 * 0) at 2 by lia; apply He).
  replace (4 * n) with ((L - 1) * (2 * W)) by lia. clear He Hm Hm'.
  assert (0 ≤ r * W) by (apply Z.mul_nonneg_nonneg; lia). destruct (r =? L - 1) eqn:E1; b2p.
  - subst r. by rewrite (proj2 (Z.leb_le _ _)), (proj2 (Z.ltb_lt _ (_ + _ + _))) by lia.
  - assert ((r + 1) * W ≤ (L - 1) * W) by (apply Z.mul_le_mono_nonneg_r; lia).
    rewrite (proj2 (Z.leb_gt _ _)) by lia. cbn [andb].
    rewrite (proj2 (Z.leb_le _ _)), (proj2 (Z.ltb_lt _ (st + _))) by lia. cbn [andb]. f_equal. lia.
Qed.

Lemma scrup_wrap (n := (L - 1) * W / 2) : 
  wp (movsl (Z.to_nat n) (origin s + 2 * W) (video_mem_start s);;
      stosw (Z.to_nat W) (video_mem_start s + 4 * n) (video_erase_char s);;
      modify (λ s, set_origin_ (video_mem_start s)
                     (set_pos (u32 (pos s - (origin s - video_mem_start s)))
                       (set_scr_end (u32 (scr_end s - (origin s - video_mem_start s))) s))))
    (λ _, scrolls) (shifted s).
Proof.
  pose proof (small_geometry s Hok) as (G1 & G2 & G3 & G4 & G5).
  pose proof screen_sizes as (S1 & S2 & S3 & S4). pose proof shifted_fields as (F1 & F2 & F3).
  pose proof Hok as [Hc8 Hrow Hl ? Hme Hmse Hor Hoe Hse Hfit Hx Hy Hpos Hreg Hbot Hnp Hpar Hpp].
  rewrite Hrow in *. set (s1 := shifted s) in *.
  assert (Hn : 0 ≤ n ∧ 2 * n ≤ (L - 1) * W) by (unfold n; pose proof (Z.mul_div_le ((L - 1) * W) 2); split; [apply Z.div_pos; lia|lia]).
  apply wp_bind. eapply wp_mono; [apply movsl_run; rewrite ?Z2Nat.id by lia|].
  - split; [change (video_mem_start s1) with (video_mem_start s); lia|]. split; [change (video_mem_end s1) with (video_mem_end s); lia|].
    by rewrite Z.even_add_mul_2.
  - split; [change (video_mem_start s1) with (video_mem_start s); lia|]. split; [change (video_mem_end s1) with (video_mem_end s); lia|done].
  - lia.
  - rewrite Z2Nat.id by lia. intros _ s2 (m & -> & Hm). cbn beta. apply wp_bind.
    eapply wp_mono; [apply stosw_run; rewrite ?Z2Nat.id by lia|].
    { split; [cbn; lia|]. split; [cbn; lia|]. replace (4 * n) with (2 * (2 * n)) by lia. by rewrite Z.even_add_mul_2. }
    rewrite Z2Nat.id by lia. intros _ s3 (m' & -> & Hm'). apply wp_modify. set (s4 := set_origin_ _ _).
    change (vmem (set_vmem m s1)) with m in Hm'.
    assert (Hpos4 : pos s4 = pos s - (origin s - video_mem_start s)).
    { change (pos s4) with (u32 (pos s1 - (origin s1 - video_mem_start s))). rewrite u32_id; lia. }
    assert (Hse4 : scr_end s4 = scr_end s - (origin s - video_mem_start s)).
    { change (scr_end s4) with (u32 (scr_end s1 - (origin s1 - video_mem_start s))). rewrite u32_id; lia. }
    split; [|split; [done|]].
    + constructor; try done; change (origin s4) with (video_mem_start s); change (video_mem_start s4) with (video_mem_start s); change (video_mem_end s4) with (video_mem_end s);
        change (video_num_lines s4) with L; change (video_size_row s4) with (video_size_row s);
        change (con_x s4) with (con_x s); change (con_y s4) with (con_y s); rewrite ?Hpos4, ?Hse4, ?Hrow; try done; lia.
    + intros Hev. apply scrolled_up_rows; [exact Hrow|]. cbn. apply (wrapped_cells m m' n); [apply double_half, Hev|exact Hm|exact Hm'].
Qed.
End whole_screen.

Lemma scrup_run s :
  con_ok s → wp scrup (λ _, scrolls s) s.
Proof.
  intros Hok. assert (Hslow : wp scroll_up (λ _, scrolls s) s).
  { eapply wp_mono; [by apply scroll_up_run|]. intros _ s' (m & -> & Hm). by split; [apply con_ok_vmem|]. }
  unfold scrup. apply wp_bind, wp_get. destruct (is_ega s); [|exact Hslow].
  destruct ((top s =? 0) && (bottom s =? video_num_lines s)) eqn:Etb; [|exact Hslow]. clear Hslow. b2p.
  pose proof (small_geometry s Hok) as (G1 & G2 & G3 & G4 & G5).
  pose proof (screen_sizes s Hok) as (S1 & S2 & S3 & S4). pose proof (shifted_fields s Hok) as (F1 & F2 & F3).
  apply wp_bind, wp_modify. fold (shifted s). apply wp_bind, wp_get. apply wp_bind. apply wp_mono with (P := λ _, scrolls s).
  2:{ intros _ s' (Hok' & Hreg' & Hup). unfold set_origin, outb. wp_steps.
      split; [by repeat apply con_ok_crtc|]. split; [by destruct Hreg'; constructor|exact Hup]. }
  rewrite F1, F3. cbn. rewrite (ok_row s Hok). destruct Hok.
  destruct (video_mem_end s <? scr_end s + 2 * video_num_columns s) eqn:Ewrap; b2p.
  - rewrite (u32_id (video_num_lines s - 1)), u32_id by lia. by apply scrup_wrap.
  - rewrite u32_id by lia. replace (scr_end s + _ - _) with (scr_end s) by lia. by apply scrup_next_row.
Qed.

(** ** Every operation keeps the invariant *)

Record same_card (s s' : con) : Prop := {
  sc_type : video_type s' = video_type s;
  sc_cols : video_num_columns s' = video_num_columns s;
  sc_lines : video_num_lines s' = video_num_lines s;
  sc_start : video_mem_start s' = video_mem_start s;
  sc_end : video_mem_end s' = video_mem_end s
}.
#[global] Instance same_card_pre : PreOrder same_card.
Proof. split; [by intros s; constructor|]. intros s1 s2 s3 [] []. constructor; congruence. Qed.

Lemma same_regs_card s s' : same_regs s s' → same_card s s'.
Proof. intros []. by constructor. Qed.

Definition keeps (m : M con unit) : Prop :=
  ∀ s, con_ok s → wp m (λ _ s', con_ok s' ∧ same_card s s') s.

Lemma keeps_ret : keeps (mret tt).
Proof. intros s Hs. apply wp_ret. by split. Qed.

Lemma keeps_bind m k : keeps m → keeps k → keeps (m ;; k).
Proof.
  intros Hm Hk s Hs. apply wp_bind. eapply wp_mono; [by apply Hm|].
  intros _ s1 [H1 Hc1]. eapply wp_mono; [by apply Hk|]. intros _ s2 [H2 Hc2]. split; [done|]. by etrans.
Qed.

Lemma keeps_repeat n m : keeps m → keeps (repeat_m n m).
Proof. intros Hm. induction n; cbn; [apply keeps_ret|by apply keeps_bind]. Qed.

(** reading a state known to be the current one *)
Lemma keeps_get k : (∀ s, con_ok s → wp (k s) (λ _ s', con_ok s' ∧ same_card s s') s) → keeps (s ← get_st; k s).
Proof. intros Hk s Hs. apply wp_bind, wp_get. by apply Hk. Qed.

Lemma keeps_vmem s m : con_ok s → con_ok (set_vmem m s) ∧ same_card s (set_vmem m s).
Proof. intros Hs. split; [by apply con_ok_vmem|by constructor]. Qed.

Lemma keeps_stosw s n a v : con_ok s → valid_range s a (Z.of_nat n) →
  wp (stosw n a v) (λ _ s', con_ok s' ∧ same_card s s') s.
Proof. intros Hs Ha. eapply wp_mono; [by apply stosw_run|]. intros _ s' (m & -> & _). by apply keeps_vmem. Qed.

(** modifications of fields the invariant does not mention *)
Ltac con_done := (split; [match goal with H : con_ok _ |- _ => by destruct H; constructor end|by constructor]).

Lemma gotoxy_keeps nx ny : keeps (gotoxy nx ny).
Proof.
  intros s Hs. apply wp_modify. cbn zeta.
  pose proof (small_geometry s Hs) as (G1 & G2 & G3 & G4 & G5).
  pose proof (u32_bound nx). pose proof (u32_bound ny).
  destruct (_ || _) eqn:E; [by split|]. b2p.
  assert (Hp : u32 ny * video_size_row s + 2 * u32 nx ≤ video_num_lines s * video_size_row s).
  { rewrite (ok_row s) by done. assert ((u32 ny + 1) * video_num_columns s ≤ video_num_lines s * video_num_columns s) by (apply Z.mul_le_mono_nonneg_r; lia). lia. }
  assert (0 ≤ u32 ny * video_size_row s) by (apply Z.mul_nonneg_nonneg; lia).
  split; [|by constructor]. destruct Hs. constructor; try done; cbn -[u32]; try lia. rewrite (u32_id (_ + _)); lia.
Qed.

(** a vertical move that keeps the column *)
Lemma move_row s dy :
  con_ok s → 0 ≤ con_y s + dy < video_num_lines s →
  con_ok (set_pos (u32 (pos s + dy * video_size_row s)) (set_con_y (con_y s + dy) s)).
Proof.
  intros Hs Hy. pose proof (small_geometry s Hs) as (G1 & G2 & G3 & G4 & G5).
  assert (Hp : 0 ≤ (con_y s + dy) * video_size_row s ∧ (con_y s + dy) * video_size_row s + video_size_row s ≤ video_num_lines s * video_size_row s).
  { split; [apply Z.mul_nonneg_nonneg; lia|].
    assert ((con_y s + dy + 1) * video_size_row s ≤ video_num_lines s * video_size_row s) by (apply Z.mul_le_mono_nonneg_r; lia). lia. }
  destruct Hs. constructor; try done; cbn -[u32]; try lia. rewrite u32_id; lia.
Qed.

(** a horizontal move *)
Lemma move_col s dx :
  con_ok s → 0 ≤ con_x s + dx ≤ video_num_columns s →
  con_ok (set_pos (u32 (pos s + 2 * dx)) (set_con_x (con_x s + dx) s)).
Proof.
  intros Hs Hx. pose proof (small_geometry s Hs) as (G1 & G2 & G3 & G4 & G5).
  assert (Hp : 0 ≤ con_y s * video_size_row s ∧ con_y s * video_size_row s + video_size_row s ≤ video_num_lines s * video_size_row s).
  { pose proof (ok_y s Hs). split; [apply Z.mul_nonneg_nonneg; lia|].
    assert ((con_y s + 1) * video_size_row s ≤ video_num_lines s * video_size_row s) by (apply Z.mul_le_mono_nonneg_r; lia). lia. }
  destruct Hs. constructor; try done; cbn -[u32]; try lia. rewrite u32_id; lia.
Qed.

(** the end of the line: back one line and down by [lf] *)
Lemma lf_run s : con_ok s → wp lf (λ _ s', con_ok s' ∧ same_card s s' ∧ con_x s' = con_x s) s.
Proof.
  intros Hs. unfold lf. apply wp_bind, wp_get.
  pose proof (small_geometry s Hs) as (G1 & G2 & G3 & G4 & G5). pose proof (ok_y s Hs). pose proof (ok_bottom s Hs).
  rewrite u32_id by lia. destruct (con_y s + 1 <? bottom s) eqn:E; b2p.
  - apply wp_modify. pose proof (move_row s 1 Hs ltac:(lia)) as Hm.
    replace (1 * video_size_row s) with (video_size_row s) in Hm by lia. split; [exact Hm|]. by split; [constructor|].
  - eapply wp_mono; [by apply scrup_run|]. intros _ s' (Hs' & Hr & _). split; [done|]. split; [by apply same_regs_card|apply Hr].
Qed.
Lemma lf_keeps : keeps lf.
Proof. intros s Hs. eapply wp_mono; [by apply lf_run|]. by intros _ s' (? & ? & _). Qed.

Lemma scrup_keeps : keeps scrup.
Proof. intros s Hs. eapply wp_mono; [by apply scrup_run|]. intros _ s' (? & ? & _). split; [done|by apply same_regs_card]. Qed.
Lemma scrdown_keeps : keeps scrdown.
Proof. intros s Hs. eapply wp_mono; [by apply scrdown_run|]. intros _ s' (m & -> & _). by apply keeps_vmem. Qed.

Lemma ri_keeps : keeps ri.
Proof.
  unfold ri. apply keeps_get. intros s Hs. destruct (top s <? con_y s) eqn:E; b2p; [|by apply scrdown_keeps].
  apply wp_modify. pose proof (ok_region s Hs). pose proof (ok_y s Hs).
  pose proof (move_row s (-1) Hs ltac:(lia)) as Hm.
  replace (pos s + -1 * video_size_row s) with (pos s - video_size_row s) in Hm by lia. split; [exact Hm|by constructor].
Qed.

Lemma cr_keeps : keeps cr.
Proof.
  intros s Hs. apply wp_modify. pose proof (ok_x s Hs). pose proof (ok_cols s Hs).
  pose proof (move_col s (- con_x s) Hs ltac:(lia)) as Hm. rewrite Z.add_opp_diag_r in Hm.
  replace (pos s + 2 * - con_x s) with (pos s - 2 * con_x s) in Hm by lia. split; [exact Hm|by constructor].
Qed.

(** the cursor's cell is on the screen unless it is past the last column *)
Lemma cursor_valid s : con_ok s → con_x s < video_num_columns s → valid s (pos s).
Proof.
  intros Hs Hx. pose proof (ok_y s Hs). pose proof (ok_x s Hs).
  assert ((con_y s + 1) * video_num_columns s ≤ video_num_lines s * video_num_columns s)
    by (pose proof (ok_cols s Hs); apply Z.mul_le_mono_nonneg_r; lia).
  destruct (screen_range s Hs (con_y s) (con_x s) 1) as (V1 & V2 & V3); try lia; [rewrite (ok_row s) by done; lia|].
  rewrite <- (ok_pos s) in V1, V2, V3 by done. split; [lia|]. split; [lia|done].
Qed.

Lemma wr_pos_keeps s v : con_ok s → con_x s < video_num_columns s →
  wp (wr (pos s) v) (λ _ s', con_ok s' ∧ same_card s s') s.
Proof. intros Hs Hx. apply wp_wr; [by apply cursor_valid|]. by apply keeps_vmem. Qed.

Lemma back_keeps s : con_ok s → con_x s ≠ 0 →
  con_ok (set_con_x (con_x s - 1) (set_pos (u32 (pos s - 2)) s)).
Proof.
  intros Hs Hx. pose proof (ok_x s Hs). pose proof (move_col s (-1) Hs ltac:(lia)) as Hm.
  by replace (pos s + 2 * -1) with (pos s - 2) in Hm by lia.
Qed.

Lemma del_keeps : keeps del.
Proof.
  unfold del. apply keeps_get. intros s Hs. destruct (con_x s =? 0) eqn:E; b2p; [by apply wp_ret|].
  apply wp_bind, wp_modify, wp_bind, wp_get. pose proof (ok_x s Hs).
  eapply wp_mono; [apply wr_pos_keeps; [by apply back_keeps|cbn; lia]|].
  intros _ s' [? ?]. split; [done|]. etrans; [|done]. by constructor.
Qed.

Lemma cells_left s : con_ok s →
  u32 (scr_end s - pos s) / 2 = (video_num_lines s - con_y s) * video_num_columns s - con_x s ∧
  u32 (pos s - origin s) / 2 = con_y s * video_num_columns s + con_x s ∧
  0 ≤ con_y s * video_num_columns s ∧
  (con_y s + 1) * video_num_columns s ≤ video_num_lines s * video_num_columns s ∧
  pos s = origin s + 2 * (con_y s * video_num_columns s + con_x s).
Proof.
  intros Hs. pose proof (small_geometry s Hs) as (G1 & G2 & G3 & G4 & G5). destruct Hs. rewrite ok_row0 in *.
  assert (0 ≤ con_y s * video_num_columns s) by (apply Z.mul_nonneg_nonneg; lia).
  assert ((con_y s + 1) * video_num_columns s ≤ video_num_lines s * video_num_columns s) by (apply Z.mul_le_mono_nonneg_r; lia).
  split; [|split; [|split_and!; lia]].
  - rewrite u32_id by lia. replace (_ - pos s) with (((video_num_lines s - con_y s) * video_num_columns s - con_x s) * 2) by lia. by rewrite Z.div_mul.
  - rewrite u32_id by lia. replace (_ - origin s) with ((con_y s * video_num_columns s + con_x s) * 2) by lia. by rewrite Z.div_mul.
Qed.

(** a range of cells of the screen, counted from its first *)
Lemma screen_cells s k n : con_ok s → 0 ≤ k → 0 ≤ n → k + n ≤ video_num_lines s * video_num_columns s →
  valid_range s (origin s + 2 * k) n.
Proof.
  intros Hs Hk Hn Hle. pose proof (screen_range s Hs 0 k n) as Hr. rewrite (ok_row s) in Hr by done.
  replace (origin s + 2 * k) with (origin s + 0 * (2 * video_num_columns s) + 2 * k) by lia. apply Hr; lia.
Qed.

Lemma csi_J_keeps p : keeps (csi_J p).
Proof.
  unfold csi_J. apply keeps_get. intros s Hs. cbn zeta.
  destruct (cells_left s Hs) as (E1 & E2 & E3 & E4 & E5). pose proof (ok_x s Hs). pose proof (ok_cols s Hs).
  pose proof (small_geometry s Hs) as (G1 & G2 & G3 & G4 & G5). pose proof (ok_fits s Hs) as Hf. rewrite (ok_scr_end s), (ok_row s) in Hf by done.
  pose proof (ok_end s Hs).
  repeat case_match; try (by apply wp_ret); apply keeps_stosw; try done.
  - rewrite E1, E5. apply screen_cells; try done; lia.
  - rewrite E2. replace (origin s) with (origin s + 2 * 0) by lia. apply screen_cells; try done; lia.
  - rewrite u32_id by lia. replace (origin s) with (origin s + 2 * 0) by lia. apply screen_cells; try done; lia.
Qed.

Lemma csi_K_keeps p : keeps (csi_K p).
Proof.
  unfold csi_K. apply keeps_get. intros s Hs. cbn zeta.
  destruct (cells_left s Hs) as (_ & _ & E3 & E4 & E5). pose proof (ok_x s Hs). pose proof (ok_cols s Hs).
  pose proof (small_geometry s Hs) as (G1 & G2 & G3 & G4 & G5). pose proof (ok_fits s Hs) as Hf. rewrite (ok_scr_end s), (ok_row s) in Hf by done.
  pose proof (ok_end s Hs).
  assert (Hst : u32 (pos s - 2 * con_x s) = origin s + 2 * (con_y s * video_num_columns s)) by (rewrite u32_id; lia).
  destruct (p =? 0); [|destruct (p =? 1); [|destruct (p =? 2); [|by apply wp_ret]]].
  - destruct (_ <=? _) eqn:E; b2p; [by apply wp_ret|]. apply keeps_stosw; try done. rewrite E5. apply screen_cells; try done; lia.
  - rewrite Hst. apply keeps_stosw; try done. apply screen_cells; try done; try lia.
    destruct (con_x s <? video_num_columns s) eqn:E; b2p; lia.
  - rewrite Hst. apply keeps_stosw; try done. apply screen_cells; try done; lia.
Qed.

Lemma modify_keeps f : (∀ s, con_ok s → con_ok (f s) ∧ same_card s (f s)) → keeps (modify f).
Proof. intros Hf s Hs. apply wp_modify. by apply Hf. Qed.

Ltac frame_keeps := apply modify_keeps; intros s Hs; split; [by destruct Hs; constructor|by constructor].

Lemma set_state_keeps v : keeps (modify (set_con_state v)).
Proof. frame_keeps. Qed.
Lemma set_attr_keeps v : keeps (modify (set_attr v)).
Proof. frame_keeps. Qed.
Lemma set_ques_keeps v : keeps (modify (set_ques v)).
Proof. frame_keeps. Qed.
Lemma save_cur_keeps : keeps save_cur.
Proof. frame_keeps. Qed.
Lemma sysbeep_keeps : keeps sysbeep.
Proof. frame_keeps. Qed.
Lemma restore_cur_keeps : keeps restore_cur.
Proof. unfold restore_cur. apply keeps_get. intros s Hs. by apply gotoxy_keeps. Qed.
Lemma set_cursor_keeps : keeps set_cursor.
Proof.
  unfold set_cursor, outb. apply keeps_get. intros s Hs. wp_steps. split; [by repeat apply con_ok_crtc|by constructor].
Qed.

Lemma for_each_keeps {A} (f : A → M con unit) l : (∀ x, x ∈ l → keeps (f x)) → keeps (for_each f l).
Proof.
  induction l as [|x l IH]; intros Hf; [apply keeps_ret|]. cbn [for_each].
  apply keeps_bind; [apply Hf; set_solver|apply IH; set_solver].
Qed.

Lemma csi_m_keeps : keeps csi_m.
Proof.
  unfold csi_m. apply keeps_get. intros s0 Hs0. pose proof (ok_npar s0 Hs0) as Hn.
  apply for_each_keeps; [|exact Hs0]. intros i Hi%elem_of_seq s Hs. pose proof (ok_par s0 Hs0) as Hl.
  assert (is_Some (par s0 !! i)) as [p Hp] by (apply lookup_lt_is_Some; rewrite Hl; unfold NPAR in *; lia).
  apply wp_bind. eapply wp_of_opt; [exact Hp|].
  repeat case_match; by apply set_attr_keeps || by apply keeps_ret.
Qed.

Lemma shift_right_run n p old s :
  con_ok s → valid_range s p (Z.of_nat n) →
  wp (shift_right n p old) (λ _ s', con_ok s' ∧ same_card s s') s.
Proof.
  revert p old s. induction n as [|n IH]; intros p old s Hs Hp; [by apply wp_ret|].
  cbn [shift_right]. assert (Hv : valid s p) by (eapply valid_at; [exact Hp|lia|lia|by rewrite Z.sub_diag]).
  apply wp_bind, wp_rd; [done|]. apply wp_bind, wp_wr; [done|].
  eapply wp_mono; [apply IH; [by apply con_ok_vmem|]|].
  - destruct Hp as (V1 & V2 & V3). split; [cbn; lia|]. split; [cbn; lia|].
    apply (even_shift p); [|done]. by replace (p + 2 - p) with 2 by lia.
  - intros _ s' [? ?]. split; [done|]. etrans; [|done]. by constructor.
Qed.

Lemma shift_left_run n p s :
  con_ok s → valid_range s p (Z.of_nat n + 1) →
  wp (shift_left n p) (λ q s', q = p + 2 * Z.of_nat n ∧ con_ok s' ∧ same_card s s') s.
Proof.
  revert p s. induction n as [|n IH]; intros p s Hs Hp; [apply wp_ret; split; [lia|done]|].
  cbn [shift_left].
  apply wp_bind, wp_rd; [eapply valid_at; [exact Hp|lia|lia|by replace (p + 2 - p) with 2 by lia]|].
  apply wp_bind, wp_wr; [eapply valid_at; [exact Hp|lia|lia|by rewrite Z.sub_diag]|].
  eapply wp_mono; [apply IH; [by apply con_ok_vmem|]|].
  - destruct Hp as (V1 & V2 & V3). split; [cbn; lia|]. split; [cbn; lia|].
    apply (even_shift p); [|done]. by replace (p + 2 - p) with 2 by lia.
  - intros q s' (-> & ? & ?). split; [lia|]. split; [done|]. etrans; [|done]. by constructor.
Qed.

(** the rest of the cursor's line *)
Lemma rest_of_line s n : con_ok s → 0 ≤ n ≤ video_num_columns s - con_x s → valid_range s (pos s) n.
Proof.
  intros Hs Hn. destruct (cells_left s Hs) as (_ & _ & E3 & E4 & E5). pose proof (ok_x s Hs).
  rewrite E5. apply screen_cells; try done; lia.
Qed.

Lemma insert_char_keeps : keeps insert_char.
Proof.
  unfold insert_char. apply keeps_get. intros s Hs. pose proof (ok_x s Hs). apply shift_right_run; [done|].
  apply rest_of_line; [done|]. lia.
Qed.

Lemma delete_char_keeps : keeps delete_char.
Proof.
  unfold delete_char. apply keeps_get. intros s Hs. pose proof (ok_x s Hs).
  destruct (_ <=? _) eqn:E; b2p; [by apply wp_ret|].
  apply wp_bind. eapply wp_mono; [apply shift_left_run; [done|apply rest_of_line; [done|lia]]|].
  intros q s' (-> & Hs' & Hc). rewrite Z2Nat.id by lia.
  apply wp_wr.
  - destruct (rest_of_line s (video_num_columns s - con_x s) Hs ltac:(lia)) as (V1 & V2 & V3).
    split; [rewrite (sc_start _ _ Hc); lia|]. split; [rewrite (sc_end _ _ Hc); lia|]. by rewrite Z.even_add_mul_2.
  - split; [by apply con_ok_vmem|]. etrans; [done|]. by constructor.
Qed.

(** [insert_line] and [delete_line] put the scrolling region back *)
Lemma below_cursor_keeps m : keeps m → keeps (below_cursor m).
Proof.
  intros Hm. unfold below_cursor. apply keeps_get. intros s Hs. apply wp_bind, wp_modify, wp_bind.
  eapply wp_mono; [apply Hm|].
  - destruct Hs. constructor; try done; cbn; lia.
  - intros _ s' [Hs' Hc]. apply wp_modify. split.
    + pose proof (ok_region s Hs). pose proof (ok_bottom s Hs). pose proof (sc_lines _ _ Hc) as Hl. cbn in Hl.
      destruct Hs'. constructor; try done; cbn; lia.
    + etrans; [|etrans; [exact Hc|]]; by constructor.
Qed.

Lemma csi_lines_keeps nr m : keeps m →
  keeps (s ← get_st; repeat_m (Z.to_nat (clamp nr (video_num_lines s))) m) ∧
  keeps (s ← get_st; repeat_m (Z.to_nat (clamp nr (video_num_columns s))) m).
Proof. intros Hm. split; apply keeps_get; intros s Hs; by apply keeps_repeat. Qed.

Lemma csi_at_keeps nr : keeps (csi_at nr).
Proof. apply csi_lines_keeps, insert_char_keeps. Qed.
Lemma csi_L_keeps nr : keeps (csi_L nr).
Proof. apply csi_lines_keeps, below_cursor_keeps, scrdown_keeps. Qed.
Lemma csi_P_keeps nr : keeps (csi_P nr).
Proof. apply csi_lines_keeps, delete_char_keeps. Qed.
Lemma csi_M_keeps nr : keeps (csi_M nr).
Proof. apply csi_lines_keeps, below_cursor_keeps, scrup_keeps. Qed.

(** wrapping to the next line *)
Lemma wrap_run s : con_ok s →
  wp (modify (λ s, set_pos (u32 (pos s - video_size_row s)) (set_con_x (con_x s - video_num_columns s) s)) ;; lf)
    (λ _ s', con_ok s' ∧ same_card s s' ∧ con_x s' = 0) s ∨ con_x s ≠ video_num_columns s.
Proof.
  intros Hs. destruct (decide (con_x s = video_num_columns s)) as [Hx|]; [left|by right].
  pose proof (ok_cols s Hs). pose proof (move_col s (- video_num_columns s) Hs ltac:(lia)) as Hm.
  apply wp_bind, wp_modify. rewrite (ok_row s) by done.
  replace (pos s + 2 * - video_num_columns s) with (pos s - 2 * video_num_columns s) in Hm by lia.
  eapply wp_mono; [apply lf_run, Hm|]. intros _ s' (Hs' & Hc & Hx'). split; [done|]. split.
  - etrans; [|exact Hc]. by constructor.
  - rewrite Hx'. cbn. lia.
Qed.

(** a tab may run past the last column: then the position is that of the next
    line, one row back *)
Lemma tab_keeps s : con_ok s →
  wp (let c := 8 - Z.land (con_x s) 7 in
      modify (λ s, set_pos (u32 (pos s + 2 * c)) (set_con_x (con_x s + c) s)) ;;
      s ← get_st;
      when (video_num_columns s <? con_x s)
        (modify (λ s, set_pos (u32 (pos s - video_size_row s))
                       (set_con_x (con_x s - video_num_columns s) s)) ;; lf))
    (λ _ s', con_ok s' ∧ same_card s s') s.
Proof.
  intros Hs. set (c := 8 - Z.land (con_x s) 7).
  assert (Hc : 1 ≤ c ≤ 8) by (unfold c; rewrite (Z.land_ones _ 3) by lia; pose proof (Z.mod_pos_bound (con_x s) 8); change (2 ^ 3) with 8; lia).
  cbn zeta. apply wp_bind, wp_modify, wp_bind, wp_get. cbn [set_pos set_con_x video_num_columns con_x].
  pose proof (ok_x s Hs). pose proof (ok_cols s Hs).
  destruct (cells_left s Hs) as (_ & _ & E3 & E4 & E5). pose proof (small_geometry s Hs) as (G1 & G2 & G3 & G4 & G5).
  pose proof (ok_scr_end s Hs) as Hse. rewrite (ok_row s) in Hse by done.
  destruct (_ <? _) eqn:E; b2p; unfold when.
  - pose proof (move_col s (c - video_num_columns s) Hs ltac:(lia)) as Hm.
    apply wp_bind, wp_modify. cbn [set_pos set_con_x video_num_columns con_x pos video_size_row].
    eapply wp_mono; [apply lf_keeps|].
    + replace (u32 (u32 (pos s + 2 * c) - video_size_row s)) with (u32 (pos s + 2 * (c - video_num_columns s))).
      * replace (con_x s + c - video_num_columns s) with (con_x s + (c - video_num_columns s)) by lia. exact Hm.
      * rewrite (u32_id (pos s + 2 * c)) by lia. f_equal. rewrite (ok_row s) by done. lia.
    + intros _ s' [Hs' Hc']. split; [done|]. etrans; [|exact Hc']. by constructor.
  - apply wp_ret. split; [apply move_col; [done|lia]|by constructor].
Qed.

Lemma con_normal_keeps erase c : keeps (con_normal erase c).
Proof.
  unfold con_normal. apply keeps_get. intros s Hs. pose proof (ok_x s Hs). pose proof (ok_cols s Hs).
  destruct ((31 <? c) && (c <? 127)).
  { assert (Hpre : wp (when (video_num_columns s <=? con_x s)
      (modify (λ s, set_pos (u32 (pos s - video_size_row s)) (set_con_x (con_x s - video_num_columns s) s)) ;; lf))
      (λ _ s', con_ok s' ∧ same_card s s' ∧ con_x s' < video_num_columns s') s).
    { destruct (_ <=? _) eqn:E; b2p; unfold when; [|by apply wp_ret].
      destruct (wrap_run s Hs) as [Hw|Hw]; [|lia]. eapply wp_mono; [exact Hw|]. intros _ s' (? & Hc & ->).
      split; [done|]. split; [done|]. rewrite (sc_cols _ _ Hc). lia. }
    apply wp_bind. eapply wp_mono; [exact Hpre|]. intros _ s1 (Hs1 & Hc1 & Hx1).
    apply wp_bind, wp_get, wp_bind. pose proof (ok_x s1 Hs1).
    apply wp_wr; [by apply cursor_valid|]. apply wp_modify. split.
    - apply (move_col (set_vmem _ s1) 1); [by apply con_ok_vmem|cbn; lia].
    - etrans; [exact Hc1|]. by constructor. }
  destruct (c =? 27); [by apply set_state_keeps|].
  destruct ((c =? 10) || (c =? 11) || (c =? 12)); [by apply lf_keeps|].
  destruct (c =? 13); [by apply cr_keeps|]. destruct (c =? erase); [by apply del_keeps|].
  destruct (c =? 8).
  { destruct (con_x s =? 0) eqn:E; b2p; unfold when; cbn [negb]; [by apply wp_ret|]. apply wp_modify.
    split; [|by constructor]. by apply (back_keeps s). }
  destruct (c =? 9); [by apply tab_keeps|].
  destruct (c =? 7); [by apply sysbeep_keeps|by apply wp_ret].
Qed.

(** reading and changing the parameters *)
Lemma the_par_run i s : con_ok s → (i < NPAR)%nat → wp (the_par i) (λ p s', s' = s ∧ par s !! i = Some p ∧ 0 ≤ p) s.
Proof.
  intros Hs Hi. unfold the_par. apply wp_bind, wp_get.
  destruct (par s !! i) as [p|] eqn:E.
  - eapply wp_of_opt; [done|]. split; [done|]. split; [done|]. by eapply Forall_lookup_1 in E; [|apply (ok_par_pos s Hs)].
  - apply lookup_ge_None in E. rewrite (ok_par s Hs) in E. lia.
Qed.
Lemma keeps_the_par i k : (i < NPAR)%nat → (∀ p, keeps (k p)) → keeps (p ← the_par i; k p).
Proof.
  intros Hi Hk s Hs. apply wp_bind. eapply wp_mono; [by apply the_par_run|]. intros p _ (-> & _). by apply Hk.
Qed.
Lemma put_par_keeps i v : keeps (put_par i v).
Proof.
  apply modify_keeps. intros s Hs. split; [|by constructor]. destruct Hs. constructor; try done; cbn -[u32].
  - by rewrite length_insert.
  - apply Forall_insert; [done|]. apply u32_bound.
Qed.
Lemma when_keeps b m : keeps m → keeps (when b m).
Proof. intros Hm. destruct b; [done|apply keeps_ret]. Qed.
Lemma dec_par_keeps i : (i < NPAR)%nat → keeps (dec_par i).
Proof. intros Hi. unfold dec_par. apply keeps_the_par; [done|]. intros p. apply when_keeps, put_par_keeps. Qed.
Lemma inc_par_keeps i : (i < NPAR)%nat → keeps (inc_par i).
Proof. intros Hi. unfold inc_par. apply keeps_the_par; [done|]. intros p. apply when_keeps, put_par_keeps. Qed.

Lemma par_0 : (0 < NPAR)%nat.
Proof. unfold NPAR. lia. Qed.
Lemma par_1 : (1 < NPAR)%nat.
Proof. unfold NPAR. lia. Qed.

Create HintDb keeps.
#[local] Hint Resolve keeps_ret keeps_bind keeps_the_par when_keeps gotoxy_keeps lf_keeps ri_keeps cr_keeps set_state_keeps
  set_attr_keeps save_cur_keeps restore_cur_keeps csi_J_keeps csi_K_keeps csi_L_keeps csi_M_keeps csi_P_keeps
  csi_at_keeps csi_m_keeps dec_par_keeps inc_par_keeps put_par_keeps set_ques_keeps par_0 par_1 : keeps.

(** the cursor movements: change a parameter, then go *)
Lemma move_keeps m i x y : keeps m → (i < NPAR)%nat →
  keeps (m ;; p ← the_par i; s ← get_st; gotoxy (x p s) (y p s)).
Proof.
  intros Hm Hi. apply keeps_bind; [done|]. apply keeps_the_par; [done|]. intros p. apply keeps_get. intros s Hs. by apply gotoxy_keeps.
Qed.

(** setting the scrolling region *)
Lemma region_keeps : keeps (
    dec_par 0 ;;
    q ← the_par 1; s ← get_st;
    when (q =? 0) (put_par 1 (video_num_lines s)) ;;
    p ← the_par 0; q ← the_par 1;
    when ((p <? q) && (q <=? video_num_lines s))
      (modify (λ s, set_bottom q (set_top p s)))).
Proof.
  apply keeps_bind; [auto with keeps|]. apply keeps_the_par; [apply par_1|]. intros q. apply keeps_get. intros s Hs.
  apply wp_bind. eapply wp_mono; [apply when_keeps; [apply put_par_keeps|exact Hs]|]. intros _ s1 [Hs1 Hc1].
  apply wp_bind. eapply wp_mono; [apply the_par_run; [done|apply par_0]|]. intros p _ (-> & _ & Hp).
  apply wp_bind. eapply wp_mono; [apply the_par_run; [done|apply par_1]|]. intros q' _ (-> & _ & Hq).
  destruct ((p <? q') && (q' <=? video_num_lines s)) eqn:E; unfold when; [|by apply wp_ret].
  b2p. apply wp_modify. pose proof (sc_lines _ _ Hc1). split; [destruct Hs1; constructor; try done; cbn; lia|].
  etrans; [exact Hc1|by constructor].
Qed.

Lemma con_final_keeps c : keeps (con_final c).
Proof.
  unfold con_final. apply keeps_bind; [auto with keeps|].
  repeat match goal with |- keeps (if ?b then _ else _) => destruct b end;
    try (apply move_keeps; auto with keeps; fail);
    try (apply region_keeps);
    auto with keeps.
Qed.

Lemma con_param_keeps c : keeps (con_param c).
Proof.
  unfold con_param. apply keeps_get. intros s Hs. pose proof (ok_npar s Hs) as Hn.
  destruct ((c =? 59) && (npar s <? Z.of_nat NPAR - 1)) eqn:E1.
  { b2p. apply wp_modify. split; [|by constructor]. destruct Hs. constructor; try done. cbn. lia. }
  destruct ((48 <=? c) && (c <=? 57)); [|by apply con_final_keeps].
  apply keeps_the_par; [lia| |done]. intros p. apply put_par_keeps.
Qed.

Lemma con_escape_keeps c : keeps (con_escape c ;; mret tt).
Proof.
  intros s Hs. apply wp_bind. unfold con_escape. apply wp_bind.
  eapply wp_mono; [by apply set_state_keeps|]. intros _ s1 [Hs1 Hc1]. apply wp_bind, wp_get.
  assert (Hk : ∀ m (b : bool), keeps m →
    wp (m ;; mret b) (λ _, wp (mret tt : M con unit) (λ _ s', con_ok s' ∧ same_card s s')) s1).
  { intros m b Hm. apply wp_bind. eapply wp_mono; [by apply Hm|]. intros _ s2 [? ?]. apply wp_ret, wp_ret.
    split; [done|]. by etrans. }
  repeat match goal with |- wp (if ?b then _ else _) _ _ => destruct b end;
    try (apply Hk; auto with keeps); by apply wp_ret, wp_ret.
Qed.

Lemma con_step_keeps erase c : keeps (con_step erase c ;; mret tt).
Proof.
  assert (Hk : ∀ m (b : bool), keeps m → keeps ((m ;; mret b) ;; mret tt)).
  { intros m b Hm s Hs. apply wp_bind, wp_bind. eapply wp_mono; [by apply Hm|]. intros ? s2 ?. by apply wp_ret, wp_ret. }
  intros s Hs. apply wp_bind. unfold con_step. apply wp_bind, wp_get, wp_bind_inv.
  destruct (con_state s =? 0); [by apply Hk; [apply con_normal_keeps|]|].
  destruct (con_state s =? 1); [by apply con_escape_keeps|].
  destruct (con_state s =? 2).
  { apply wp_bind, wp_bind, wp_modify, wp_bind, wp_modify, wp_bind, wp_modify, wp_bind, wp_modify. set (s1 := set_ques _ _).
    assert (Hs1 : con_ok s1).
    { destruct Hs. constructor; try done. apply Forall_replicate. lia. }
    apply wp_bind_inv. apply (wp_mono _ (λ _ s', con_ok s' ∧ same_card s1 s')).
    - destruct (c =? 63); [by apply wp_bind, wp_ret, wp_ret|]. by apply Hk; [apply con_param_keeps|].
    - intros _ s' [? Hc]. split; [done|]. etrans; [|exact Hc]. by constructor. }
  destruct (con_state s =? 3); [by apply Hk; [apply con_param_keeps|]|].
  destruct (con_state s =? 4); [by apply Hk; [apply con_final_keeps|]|].
  by apply wp_bind, wp_ret, wp_ret.
Qed.

(** the variables of the file before [con_init] *)
Definition con_static : con :=
  mk_con 0 0 0 0 0 0 0 0 0 0 0 0 0 0 0 0 0 (replicate NPAR 0) false 0x07 0 0 0 (λ _, 0) (λ _, 0).

Lemma write_chars_run l p s : valid_range s p (Z.of_nat (length l)) →
  wp (write_chars l p) (λ _ s', ∃ m, s' = set_vmem m s) s.
Proof.
  revert p s. induction l as [|c l IH]; intros p s Hp; [apply wp_ret; exists (vmem s); by destruct s|].
  assert (Hv : valid s p) by (eapply valid_at; [exact Hp|lia|cbn [length]; lia|by rewrite Z.sub_diag]).
  cbn [write_chars]. apply wp_bind, wp_rd; [done|]. apply wp_bind, wp_wr; [done|].
  eapply wp_mono; [apply IH|].
  - destruct Hp as (V1 & V2 & V3). cbn [length] in V2. split; [cbn; lia|]. split; [cbn; lia|].
    apply (even_shift p); [|done]. by replace (p + 2 - p) with 2 by lia.
  - intros _ s' [m ->]. by exists m.
Qed.

(** a screen setup.s may report: the card can hold it and the cursor is on it *)
Definition boot_ok (b : boot_screen) : Prop :=
  8 ≤ ORIG_VIDEO_COLS b ≤ 160 ∧ 0 ≤ ORIG_X b ≤ ORIG_VIDEO_COLS b ∧ 0 ≤ ORIG_Y b < ORIG_VIDEO_LINES.

Lemma con_init_run b : boot_ok b → wp (con_init b) (λ _ s', con_ok s') con_static.
Proof.
  intros (Hc & Hx & Hy). unfold con_init. do 5 apply wp_bind, wp_modify.
  assert (∃ ty a k name, video_card b = (ty, 2 * a, 2 * a + k, name) ∧ 0 < a ∧ 0x2000 ≤ k ∧ 2 * a + k ≤ 2 ^ 20 ∧ length name = 4%nat)
    as (ty & a & k & name & -> & Ha & Hk & Hak & Hname).
  { unfold video_card. repeat case_match; eexists _, _, _, _; split.
    - change 0xb0000 with (2 * 0x58000). change 0xb8000 with (2 * 0x58000 + 0x8000). reflexivity.
    - done.
    - change 0xb0000 with (2 * 0x58000). change 0xb2000 with (2 * 0x58000 + 0x2000). reflexivity.
    - done.
    - change 0xb8000 with (2 * 0x5c000). change 0xbc000 with (2 * 0x5c000 + 0x4000). reflexivity.
    - done.
    - change 0xb8000 with (2 * 0x5c000). change 0xba000 with (2 * 0x5c000 + 0x2000). reflexivity.
    - done. }
  set (C := ORIG_VIDEO_COLS b) in *. apply wp_bind, wp_modify, wp_bind, wp_get, wp_bind.
  cbn [compose set_video_mem_end set_video_mem_start set_video_type set_video_erase_char set_video_page set_video_num_lines
    set_video_size_row set_video_num_columns video_mem_start video_size_row].
  eapply wp_mono; [apply write_chars_run|].
  { rewrite Hname. split; [cbn; lia|]. split; [cbn; lia|].
    replace (2 * a + C * 2 - 8) with (0 + 2 * (a + C - 4)) by lia. by rewrite Z.even_add_mul_2. }
  intros _ s1 [m ->]. apply wp_bind, wp_modify, wp_bind, wp_modify, wp_modify.
  cbn -[u32 C ORIG_X ORIG_Y Z.mul Z.add Z.sub Z.ltb Z.leb]. change ORIG_VIDEO_LINES with 25 in *.
  rewrite (u32_id (ORIG_X b)), (u32_id (ORIG_Y b)) by lia.
  rewrite (proj2 (Z.ltb_ge C (ORIG_X b))), (proj2 (Z.leb_gt 25 (ORIG_Y b))) by lia. cbn [orb].
  assert (0 ≤ ORIG_Y b * (C * 2) ≤ 25 * (C * 2)) by nia.
  rewrite !u32_id by lia.
  constructor; cbn -[C ORIG_X ORIG_Y Z.mul Z.add Z.sub NPAR]; try lia; try done; unfold NPAR; try lia.
  - by rewrite Z.even_mul.
  - by rewrite Z.even_mul.
  - apply Forall_replicate. lia.
Qed.

(** C19. Whatever characters are written to the console, it never writes (or
    reads) outside the memory of the video card: started by [con_init] on a
    screen the card can hold, no sequence of characters - control sequences
    with any parameters included - faults, and the cursor, the scrolling
    region and the screen stay within their bounds. *)
Theorem console_memory_safe b erase cs :
  boot_ok b →
  wp (con_init b ;; for_each (λ c, con_step erase c ;; mret tt) cs ;; set_cursor)
    (λ _ s, con_ok s) con_static.
Proof.
  intros Hb. apply wp_bind. eapply wp_mono; [by apply con_init_run|]. intros [] s Hs.
  apply (wp_mono _ (λ _ s', con_ok s' ∧ same_card s s')); [|by intros ? ? [? _]]. revert s Hs.
  apply keeps_bind; [|apply set_cursor_keeps]. apply for_each_keeps. intros c _. apply con_step_keeps.
Qed.

Lemma console_memory_safe_witness :
  wp (con_init (mk_boot 0 24 0 0x5003 0) ;; for_each (λ c, con_step 127 c ;; mret tt) [65; 10; 27; 91; 55; 76] ;; set_cursor)
    (λ _ s, con_ok s) con_static.
Proof. apply console_memory_safe. unfold boot_ok. vm_compute. repeat split; discriminate. Defined.

(** C20. Scrolling moves every row of the scrolling region up by one, clears the
    last and leaves the rest of the screen and the cursor alone - on every card,
    the EGA's way of moving the origin through the video memory (and of wrapping
    to its start) included. *)
Theorem scrup_moves_rows s :
  con_ok s → Z.even (video_num_columns s) = true →
  wp scrup (λ _ s', scrolled_up s s' ∧ con_x s' = con_x s ∧ con_y s' = con_y s ∧ con_ok s') s.
Proof.
  intros Hs He. eapply wp_mono; [by apply scrup_run|]. intros [] s' (Hok & Hr & Hup).
  split; [by apply Hup|]. by destruct Hr.
Qed.

(** an EGA screen whose next scroll wraps to the start of the video memory *)
Definition demo_con : con :=
  mk_con VIDEO_TYPE_EGAC 80 160 25 0 0xb8000 0xbc000 0x0720 (0xbc000 - 4000) 0xbc000 (0xbc000 - 4000 + 24 * 160 + 6)
    3 24 0 25 0 0 (replicate NPAR 0) false 0x07 0 0 0 (λ _, 0) (λ a, a mod 256).

Lemma scrup_moves_rows_witness :
  wp scrup (λ _ s', scrolled_up demo_con s' ∧ con_x s' = 3 ∧ con_y s' = 24 ∧ con_ok s') demo_con.
Proof.
  apply (scrup_moves_rows demo_con); [|reflexivity].
  constructor; cbn; try lia; try done. repeat constructor; lia.
Defined.
