(* ===== verification/Tty.v ===== *)
(** * Terminals

    Models [linux-0.11/kernel/chr_drv/tty_io.c], [tty_ioctl.c], [rs_write] and
    [rs_init] of [serial.c], and the loop of [con_write] (console.c), with the
    character classes of [lib/ctype.c].

    The state [ttys] has the table of terminals, the console, the log of the
    port writes ([outb]) and the tasks, which the terminal's signals reach.
    A queue's [proc_list] is left out: waiting is the outcome [Sleep].

    [con_write] may answer ESC-Z by calling [copy_to_cooked], which echoes by
    calling [con_write]: the recursion is bounded by [DEPTH].  What the other
    tasks do while this one gives up the processor ([schedule] in [tty_write])
    is the parameter [others]. *)

From S2P Require Import Prelude Blk Task Console.

(** ** lib/ctype.c *)
Definition _U : Z := 0x01.
Definition _L : Z := 0x02.
Definition _D : Z := 0x04.
Definition _C : Z := 0x08.
Definition _P : Z := 0x10.
Definition _S : Z := 0x20.
Definition _X : Z := 0x40.
Definition _SP : Z := 0x80.
(** [_ctype]: the entry of the character [c] is at [c + 1] *)
Definition _ctype : list Z :=
  [0] ++ replicate 9 _C ++ replicate 5 (_C + _S) ++ replicate 18 _C ++
  [_S + _SP] ++ replicate 15 _P ++ replicate 10 _D ++ replicate 7 _P ++
  replicate 6 (_U + _X) ++ replicate 20 _U ++ replicate 6 _P ++
  replicate 6 (_L + _X) ++ replicate 20 _L ++ replicate 4 _P ++ [_C] ++ replicate 128 0.
(** the class of a [char]; below -1 it is outside the table *)
Definition ctype (c : Z) : option Z := if c <? -1 then None else _ctype !! Z.to_nat (c + 1).
Definition has (mask k : Z) : bool := negb (Z.land k mask =? 0).
Definition isdigit (c : Z) : option bool := has _D <$> ctype c.
Definition isupper (c : Z) : option bool := has _U <$> ctype c.
Definition islower (c : Z) : option bool := has _L <$> ctype c.
Definition isxdigit (c : Z) : option bool := has (_D + _X) <$> ctype c.
Definition tolower (c : Z) : option Z := (λ b : bool, if b then c + 32 else c) <$> isupper c.
Definition toupper (c : Z) : option Z := (λ b : bool, if b then c - 32 else c) <$> islower c.

(** ** Queues *)
Definition TTY_BUF_SIZE : Z := 1024.

(** [struct tty_queue] *)
Record tty_queue := mk_queue {
  q_data : Z;
  q_head : Z;
  q_tail : Z;
  q_buf : list Z
}.

Definition set_q_data (v : Z) (x : tty_queue) : tty_queue :=
  mk_queue v (q_head x) (q_tail x) (q_buf x).
Definition set_q_head (v : Z) (x : tty_queue) : tty_queue :=
  mk_queue (q_data x) v (q_tail x) (q_buf x).
Definition set_q_tail (v : Z) (x : tty_queue) : tty_queue :=
  mk_queue (q_data x) (q_head x) v (q_buf x).
Definition set_q_buf (v : list Z) (x : tty_queue) : tty_queue :=
  mk_queue (q_data x) (q_head x) (q_tail x) v.

Definition idx (a : Z) : Z := Z.land a (TTY_BUF_SIZE - 1).
Definition EMPTY (q : tty_queue) : bool := q_head q =? q_tail q.
Definition LEFT (q : tty_queue) : Z := idx (q_tail q - q_head q - 1).
Definition FULL (q : tty_queue) : bool := LEFT q =? 0.
Definition CHARS (q : tty_queue) : Z := idx (q_head q - q_tail q).
(** [buf] is an array of [char]: reading gives a signed value *)
Definition LAST (q : tty_queue) : Z := s8 (q_buf q !!! Z.to_nat (idx (q_head q - 1))).
Definition DEC_head (q : tty_queue) : tty_queue := set_q_head (idx (q_head q - 1)) q.
Definition GETCH (q : tty_queue) : Z * tty_queue :=
  (s8 (q_buf q !!! Z.to_nat (q_tail q)), set_q_tail (idx (q_tail q + 1)) q).
Definition PUTCH (c : Z) (q : tty_queue) : tty_queue :=
  set_q_head (idx (q_head q + 1)) (set_q_buf (<[Z.to_nat (q_head q) := u8 c]> (q_buf q)) q).

(** ** include/termios.h *)
(** [struct termios] *)
Record termios := mk_termios {
  c_iflag : Z;
  c_oflag : Z;
  c_cflag : Z;
  c_lflag : Z;
  c_line : Z;
  c_cc : list Z
}.

Definition set_c_iflag (v : Z) (x : termios) : termios :=
  mk_termios v (c_oflag x) (c_cflag x) (c_lflag x) (c_line x) (c_cc x).
Definition set_c_oflag (v : Z) (x : termios) : termios :=
  mk_termios (c_iflag x) v (c_cflag x) (c_lflag x) (c_line x) (c_cc x).
Definition set_c_cflag (v : Z) (x : termios) : termios :=
  mk_termios (c_iflag x) (c_oflag x) v (c_lflag x) (c_line x) (c_cc x).
Definition set_c_lflag (v : Z) (x : termios) : termios :=
  mk_termios (c_iflag x) (c_oflag x) (c_cflag x) v (c_line x) (c_cc x).
Definition set_c_line (v : Z) (x : termios) : termios :=
  mk_termios (c_iflag x) (c_oflag x) (c_cflag x) (c_lflag x) v (c_cc x).
Definition set_c_cc (v : list Z) (x : termios) : termios :=
  mk_termios (c_iflag x) (c_oflag x) (c_cflag x) (c_lflag x) (c_line x) v.

Definition VINTR : nat := 0.
Definition VQUIT : nat := 1.
Definition VERASE : nat := 2.
Definition VKILL : nat := 3.
Definition VEOF : nat := 4.
Definition VTIME : nat := 5.
Definition VMIN : nat := 6.
Definition VSTART : nat := 8.
Definition VSTOP : nat := 9.
Definition INLCR : Z := 0x40.
Definition IGNCR : Z := 0x80.
Definition ICRNL : Z := 0x100.
Definition IUCLC : Z := 0x200.
Definition OPOST : Z := 1.
Definition OLCUC : Z := 2.
Definition ONLCR : Z := 4.
Definition OCRNL : Z := 8.
Definition ONLRET : Z := 0x20.
Definition CBAUD : Z := 15.
Definition ISIG : Z := 1.
Definition ICANON : Z := 2.
Definition ECHO : Z := 8.
Definition ECHOCTL : Z := 0x200.
Definition ECHOKE : Z := 0x800.

(** ** Terminals *)
Inductive writer := con_writer | rs_writer.

(** [struct tty_struct] *)
Record tty_struct := mk_tty {
  tty_termios : termios;
  tty_pgrp : Z;
  stopped : bool;
  write : writer;
  read_q : tty_queue;
  write_q : tty_queue;
  secondary : tty_queue
}.

Definition set_tty_termios (v : termios) (x : tty_struct) : tty_struct :=
  mk_tty v (tty_pgrp x) (stopped x) (write x) (read_q x) (write_q x) (secondary x).
Definition set_tty_pgrp (v : Z) (x : tty_struct) : tty_struct :=
  mk_tty (tty_termios x) v (stopped x) (write x) (read_q x) (write_q x) (secondary x).
Definition set_stopped (v : bool) (x : tty_struct) : tty_struct :=
  mk_tty (tty_termios x) (tty_pgrp x) v (write x) (read_q x) (write_q x) (secondary x).
Definition set_write (v : writer) (x : tty_struct) : tty_struct :=
  mk_tty (tty_termios x) (tty_pgrp x) (stopped x) v (read_q x) (write_q x) (secondary x).
Definition set_read_q (v : tty_queue) (x : tty_struct) : tty_struct :=
  mk_tty (tty_termios x) (tty_pgrp x) (stopped x) (write x) v (write_q x) (secondary x).
Definition set_write_q (v : tty_queue) (x : tty_struct) : tty_struct :=
  mk_tty (tty_termios x) (tty_pgrp x) (stopped x) (write x) (read_q x) v (secondary x).
Definition set_secondary (v : tty_queue) (x : tty_struct) : tty_struct :=
  mk_tty (tty_termios x) (tty_pgrp x) (stopped x) (write x) (read_q x) (write_q x) v.

(** the state of the terminals *)
Record ttys := mk_ttys {
  tty_table : list tty_struct;
  cr_flag : bool;
  tty_con : con;
  tty_ports : list (Z * Z);
  tty_sched : sched
}.

Definition set_tty_table (v : list tty_struct) (x : ttys) : ttys :=
  mk_ttys v (cr_flag x) (tty_con x) (tty_ports x) (tty_sched x).
Definition set_cr_flag (v : bool) (x : ttys) : ttys :=
  mk_ttys (tty_table x) v (tty_con x) (tty_ports x) (tty_sched x).
Definition set_tty_con (v : con) (x : ttys) : ttys :=
  mk_ttys (tty_table x) (cr_flag x) v (tty_ports x) (tty_sched x).
Definition set_tty_ports (v : list (Z * Z)) (x : ttys) : ttys :=
  mk_ttys (tty_table x) (cr_flag x) (tty_con x) v (tty_sched x).
Definition set_tty_sched (v : sched) (x : ttys) : ttys :=
  mk_ttys (tty_table x) (cr_flag x) (tty_con x) (tty_ports x) v.

(** the flags and the special characters *)
Definition flag (w f : Z) : bool := negb (Z.land w f =? 0).
Definition L_FLAG (f : Z) (t : tty_struct) : bool := flag (c_lflag (tty_termios t)) f.
Definition I_FLAG (f : Z) (t : tty_struct) : bool := flag (c_iflag (tty_termios t)) f.
Definition O_FLAG (f : Z) (t : tty_struct) : bool := flag (c_oflag (tty_termios t)) f.
Definition L_CANON : tty_struct → bool := L_FLAG ICANON.
Definition L_ISIG : tty_struct → bool := L_FLAG ISIG.
Definition L_ECHO : tty_struct → bool := L_FLAG ECHO.
Definition L_ECHOCTL : tty_struct → bool := L_FLAG ECHOCTL.
Definition I_UCLC : tty_struct → bool := I_FLAG IUCLC.
Definition I_NLCR : tty_struct → bool := I_FLAG INLCR.
Definition I_CRNL : tty_struct → bool := I_FLAG ICRNL.
Definition I_NOCR : tty_struct → bool := I_FLAG IGNCR.
Definition O_POST : tty_struct → bool := O_FLAG OPOST.
Definition O_NLCR : tty_struct → bool := O_FLAG ONLCR.
Definition O_CRNL : tty_struct → bool := O_FLAG OCRNL.
Definition O_NLRET : tty_struct → bool := O_FLAG ONLRET.
Definition O_LCUC : tty_struct → bool := O_FLAG OLCUC.
Definition cc (i : nat) (t : tty_struct) : Z := c_cc (tty_termios t) !!! i.
Definition INTR_CHAR : tty_struct → Z := cc VINTR.
Definition QUIT_CHAR : tty_struct → Z := cc VQUIT.
Definition ERASE_CHAR : tty_struct → Z := cc VERASE.
Definition KILL_CHAR : tty_struct → Z := cc VKILL.
Definition EOF_CHAR : tty_struct → Z := cc VEOF.
Definition START_CHAR : tty_struct → Z := cc VSTART.
Definition STOP_CHAR : tty_struct → Z := cc VSTOP.

Definition INTMASK : Z := 2.
Definition QUITMASK : Z := 4.
Definition ALRMMASK : Z := 8192.

(** ** Access *)
Definition the_tty (i : nat) : M ttys tty_struct := λ s, of_opt (tty_table s !! i) s.
Definition upd_tty (i : nat) (f : tty_struct → tty_struct) : M ttys unit := λ s,
  match tty_table s !! i with
  | Some t => Ret tt (set_tty_table (<[i := f t]> (tty_table s)) s)
  | None => Fault
  end.
Definition upd_read_q (i : nat) (f : tty_queue → tty_queue) : M ttys unit :=
  upd_tty i (λ t, set_read_q (f (read_q t)) t).
Definition upd_write_q (i : nat) (f : tty_queue → tty_queue) : M ttys unit :=
  upd_tty i (λ t, set_write_q (f (write_q t)) t).
Definition upd_secondary (i : nat) (f : tty_queue → tty_queue) : M ttys unit :=
  upd_tty i (λ t, set_secondary (f (secondary t)) t).

Definition tty_cur : M ttys task_struct := λ s,
  match cur (tty_sched s) with Ret t _ => Ret t s | _ => Fault end.
Definition upd_tty_cur (f : task_struct → task_struct) : M ttys unit := λ s,
  match upd_cur f (tty_sched s) with Ret _ x => Ret tt (set_tty_sched x s) | _ => Fault end.

(** running an operation of the console *)
Definition on_con {A} (m : M con A) : M ttys A := λ s,
  match m (tty_con s) with
  | Ret a x => Ret a (set_tty_con x s)
  | Panic w => Panic w
  | Sleep x => Sleep (set_tty_con x s)
  | Exit c x => Exit c (set_tty_con x s)
  | Fault => Fault
  | NoFuel => NoFuel
  end.
Definition port_out (port v : Z) : M ttys unit :=
  modify (λ s, set_tty_ports (tty_ports s ++ [(port, v)]) s).

(** ** Signals, and waiting for a queue *)
Definition tty_intr (i : nat) (mask : Z) : M ttys unit :=
  t ← the_tty i;
  if tty_pgrp t <=? 0 then mret tt
  else
    modify (λ s, set_tty_sched (set_task
      ((λ p, match p with
             | Some x => Some (if t_pgrp x =? tty_pgrp t then set_t_signal (Z.lor (t_signal x) mask) x else x)
             | None => None
             end) <$> task (tty_sched s)) (tty_sched s)) s).

Definition sleep_if_empty (get : tty_struct → tty_queue) (i : nat) : M ttys unit :=
  c ← tty_cur;
  t ← the_tty i;
  if (t_signal c =? 0) && EMPTY (get t) then blocked else mret tt.
Definition sleep_if_full (get : tty_struct → tty_queue) (i : nat) : M ttys unit :=
  t ← the_tty i;
  if negb (FULL (get t)) then mret tt
  else
    c ← tty_cur;
    if (t_signal c =? 0) && (LEFT (get t) <? 128) then blocked else mret tt.
Definition wait_for_keypress : M ttys unit := sleep_if_empty secondary 0.

(** ** Writing *)

(** the log has the bit that is or'ed into the interrupt-enable register *)
Definition rs_write (i : nat) : M ttys unit :=
  t ← the_tty i;
  when (negb (EMPTY (write_q t))) (port_out (q_data (write_q t) + 1) 2).

(** bounds on the loops, and on the nesting of [con_write] in itself *)
Definition TTY_FUEL : nat := 4096.
Definition DEPTH : nat := 8.

(** the answer to ESC-Z: ESC [ ? 1 ; 2 c *)
Definition RESPONSE : list Z := [27; 91; 63; 49; 59; 50; 99].
Definition respond (copy : nat → M ttys unit) (i : nat) : M ttys unit :=
  for_each (λ c, upd_read_q i (PUTCH c)) RESPONSE ;;
  copy i.

Fixpoint con_write_loop (copy : nat → M ttys unit) (nr : nat) (i : nat) : M ttys unit :=
  match nr with
  | O => mret tt
  | S nr' =>
    t ← the_tty i;
    let '(c, q) := GETCH (write_q t) in
    upd_write_q i (λ _, q) ;;
    t ← the_tty i;
    answer ← on_con (con_step (ERASE_CHAR t) c);
    when answer (respond copy i) ;;
    con_write_loop copy nr' i
  end.
Definition con_write (copy : nat → M ttys unit) (i : nat) : M ttys unit :=
  t ← the_tty i;
  con_write_loop copy (Z.to_nat (CHARS (write_q t))) i ;;
  on_con set_cursor.

(** [tty->write(tty)] *)
Definition call_write (copy : nat → M ttys unit) (i : nat) : M ttys unit :=
  t ← the_tty i;
  match write t with con_writer => con_write copy i | rs_writer => rs_write i end.

(** ** The line discipline *)
Section cooked.
Context (wr : nat → M ttys unit).

(** echoing the removal of the character [c] *)
Definition echo_erase (i : nat) (c : Z) : M ttys unit :=
  t ← the_tty i;
  when (L_ECHO t)
    (when (c <? 32) (upd_write_q i (PUTCH 127)) ;;
     upd_write_q i (PUTCH 127) ;;
     wr i).

(** [EMPTY || (c=LAST)==10 || c==EOF_CHAR] *)
Definition at_line_start (t : tty_struct) : bool :=
  EMPTY (secondary t) || (LAST (secondary t) =? 10) || (LAST (secondary t) =? EOF_CHAR t).

Fixpoint kill_line (fuel : nat) (i : nat) : M ttys unit :=
  match fuel with
  | O => nofuel
  | S fuel' =>
    t ← the_tty i;
    if at_line_start t then mret tt
    else
      echo_erase i (LAST (secondary t)) ;;
      upd_secondary i DEC_head ;;
      kill_line fuel' i
  end.

Definition erase_char (i : nat) : M ttys unit :=
  t ← the_tty i;
  if at_line_start t then mret tt
  else
    echo_erase i (LAST (secondary t)) ;;
    upd_secondary i DEC_head.

(** echoing the character [c], and appending it to the line *)
Definition echo_char (i : nat) (c : Z) : M ttys unit :=
  t ← the_tty i;
  when (L_ECHO t)
    ((if c =? 10 then upd_write_q i (PUTCH 13 ∘ PUTCH 10)
      else if c <? 32 then when (L_ECHOCTL t) (upd_write_q i (PUTCH (c + 64) ∘ PUTCH 94))
      else upd_write_q i (PUTCH c)) ;;
     wr i).
Definition add_char (i : nat) (c : Z) : M ttys unit :=
  t ← the_tty i;
  when ((c =? 10) || (c =? EOF_CHAR t)) (upd_secondary i (λ q, set_q_data (u32 (q_data q + 1)) q)) ;;
  echo_char i c ;;
  upd_secondary i (PUTCH c).

(** the translation of CR, NL and of upper case; [None]: the character is
    ignored *)
Definition input_char (t : tty_struct) (c : Z) : M ttys (option Z) :=
  if (c =? 13) && negb (I_CRNL t) && I_NOCR t then mret None
  else
    let c := if c =? 13 then if I_CRNL t then 10 else c
             else if (c =? 10) && I_NLCR t then 13 else c in
    if I_UCLC t then c ← of_opt (tolower c); mret (Some (s8 c)) else mret (Some c).

(** the body of the loop for a translated character *)
Definition cook_char (i : nat) (c : Z) : M ttys unit :=
  t ← the_tty i;
  if L_CANON t && (c =? KILL_CHAR t) then kill_line TTY_FUEL i
  else if L_CANON t && (c =? ERASE_CHAR t) then erase_char i
  else if L_CANON t && (c =? STOP_CHAR t) then upd_tty i (set_stopped true)
  else if L_CANON t && (c =? START_CHAR t) then upd_tty i (set_stopped false)
  else if L_ISIG t && (c =? INTR_CHAR t) then tty_intr i INTMASK
  else if L_ISIG t && (c =? QUIT_CHAR t) then tty_intr i QUITMASK
  else add_char i c.

Fixpoint cook_loop (fuel : nat) (i : nat) : M ttys unit :=
  match fuel with
  | O => nofuel
  | S fuel' =>
    t ← the_tty i;
    if EMPTY (read_q t) || FULL (secondary t) then mret tt
    else
      let '(c, q) := GETCH (read_q t) in
      upd_read_q i (λ _, q) ;;
      r ← input_char t c;
      match r with Some c => cook_char i c | None => mret tt end ;;
      cook_loop fuel' i
  end.
End cooked.

Fixpoint cooked_at (depth : nat) (i : nat) : M ttys unit :=
  match depth with
  | O => nofuel
  | S d => cook_loop (call_write (cooked_at d)) TTY_FUEL i
  end.
Definition copy_to_cooked (i : nat) : M ttys unit := cooked_at DEPTH i.
Definition tty_out (i : nat) : M ttys unit := call_write copy_to_cooked i.
Definition do_tty_interrupt (tty : nat) : M ttys unit := copy_to_cooked tty.

(** ** Reading *)

(** the inner loop of [tty_read]: the characters taken so far are [acc]; the
    result tells whether to return at once (end of file) *)
Fixpoint take_chars (i : nat) (nr : nat) (acc : bytes) : M ttys (bool * nat * bytes) :=
  match nr with
  | O => mret (false, O, acc)
  | S nr' =>
    t ← the_tty i;
    let '(c, q) := GETCH (secondary t) in
    upd_secondary i (λ _, q) ;;
    when ((c =? EOF_CHAR t) || (c =? 10)) (upd_secondary i (λ q, set_q_data (u32 (q_data q - 1)) q)) ;;
    if (c =? EOF_CHAR t) && L_CANON t then mret (true, nr, acc)
    else
      t ← the_tty i;
      if (nr' =? 0)%nat || EMPTY (secondary t) then mret (false, nr', acc ++ [u8 c])
      else take_chars i nr' (acc ++ [u8 c])
  end.

(** the end of [tty_read] *)
Definition read_done (oldalarm : Z) (acc : bytes) : M ttys (Z * bytes) :=
  upd_tty_cur (set_t_alarm oldalarm) ;;
  c ← tty_cur;
  mret (if negb (t_signal c =? 0) && (length acc =? 0)%nat then - EINTR else Z.of_nat (length acc), acc).

(** the outer loop; [time] and [minimum] as computed before it.  With a line
    begun but not ended the source goes around the loop without sleeping; here
    that runs out of fuel. *)
Fixpoint read_loop (fuel : nat) (i : nat) (time minimum oldalarm : Z) (alrm : bool) (nr : nat) (acc : bytes)
  : M ttys (Z * bytes) :=
  match fuel with
  | O => nofuel
  | S fuel' =>
    c ← tty_cur;
    if (nr =? 0)%nat then read_done oldalarm acc
    else if alrm && flag (t_signal c) ALRMMASK then
      upd_tty_cur (λ c, set_t_signal (Z.land (t_signal c) (Z.lnot ALRMMASK)) c) ;;
      read_done oldalarm acc
    else if negb (t_signal c =? 0) then read_done oldalarm acc
    else
      t ← the_tty i;
      if EMPTY (secondary t) ||
         (L_CANON t && (q_data (secondary t) =? 0) && (20 <? LEFT (secondary t))) then
        sleep_if_empty secondary i ;; read_loop fuel' i time minimum oldalarm alrm nr acc
      else
        r ← take_chars i nr acc;
        let '(eof, nr, acc) := r in
        if (eof : bool) then mret (Z.of_nat (length acc), acc)
        else
          s ← get_st;
          let sooner := (oldalarm =? 0) || (time + jiffies (tty_sched s) <? oldalarm) in
          let timed := negb (time =? 0) && negb (L_CANON t) in
          when timed (upd_tty_cur (set_t_alarm (if sooner then time + jiffies (tty_sched s) else oldalarm))) ;;
          let alrm := if timed then sooner else alrm in
          if L_CANON t then
            if (length acc =? 0)%nat then read_loop fuel' i time minimum oldalarm alrm nr acc
            else read_done oldalarm acc
          else if minimum <=? Z.of_nat (length acc) then read_done oldalarm acc
          else read_loop fuel' i time minimum oldalarm alrm nr acc
  end.

(** the result, and the bytes put into the caller's buffer *)
Definition tty_read (channel : Z) (nr : Z) : M ttys (Z * bytes) :=
  if (2 <? u32 channel) || (nr <? 0) then mret (-1, [])
  else
    let i := Z.to_nat channel in
    t ← the_tty i;
    c ← tty_cur;
    s ← get_st;
    let oldalarm := t_alarm c in
    let time := 10 * cc VTIME t in
    let minimum := cc VMIN t in
    let timed := negb (time =? 0) && (minimum =? 0) in
    let alrm := timed && ((oldalarm =? 0) || (time + jiffies (tty_sched s) <? oldalarm)) in
    when alrm (upd_tty_cur (set_t_alarm (time + jiffies (tty_sched s)))) ;;
    let minimum := if timed then 1 else minimum in
    let minimum := if nr <? minimum then nr else minimum in
    read_loop (S (Z.to_nat nr)) i time minimum oldalarm alrm (Z.to_nat nr) [].

(** ** Writing *)

(** the output translation of one character of [buf]: what to put into the
    queue, and whether the character has been consumed *)
Definition output_char (t : tty_struct) (cr : bool) (c : Z) : M ttys (Z * bool * bool) :=
  if O_POST t then
    let c := if (c =? 13) && O_CRNL t then 10
             else if (c =? 10) && O_NLRET t then 13 else c in
    if (c =? 10) && negb cr && O_NLCR t then mret (13, true, false)
    else if O_LCUC t then c ← of_opt (toupper c); mret (c, false, true)
    else mret (c, false, true)
  else mret (c, false, true).

(** the inner loop; the result is what is left of [buf] *)
Fixpoint fill_queue (fuel : nat) (i : nat) (buf : bytes) : M ttys bytes :=
  match fuel with
  | O => nofuel
  | S fuel' =>
    t ← the_tty i;
    match buf with
    | [] => mret []
    | b :: buf' =>
      if FULL (write_q t) then mret buf
      else
        s ← get_st;
        r ← output_char t (cr_flag s) (s8 b);
        let '(c, cr, consumed) := r in
        modify (set_cr_flag cr) ;;
        upd_write_q i (PUTCH c) ;;
        fill_queue fuel' i (if (consumed : bool) then buf' else buf)
    end
  end.

Section writing.
Context (others : M ttys unit).

Fixpoint write_loop (fuel : nat) (i : nat) (buf : bytes) : M ttys bytes :=
  match fuel with
  | O => nofuel
  | S fuel' =>
    match buf with
    | [] => mret []
    | _ =>
      sleep_if_full write_q i ;;
      c ← tty_cur;
      if negb (t_signal c =? 0) then mret buf
      else
        rest ← fill_queue (S (2 * length buf)) i buf;
        tty_out i ;;
        (match rest with [] => mret tt | _ => others end) ;;
        write_loop fuel' i rest
    end
  end.

Definition tty_write (channel : Z) (buf : bytes) : M ttys Z :=
  if 2 <? u32 channel then mret (-1)
  else
    rest ← write_loop (S (length buf)) (Z.to_nat channel) buf;
    mret (Z.of_nat (length buf) - Z.of_nat (length rest)).
End writing.

(** ** tty_ioctl.c *)
Definition quotient : list Z :=
  [0; 2304; 1536; 1047; 857; 768; 576; 384; 192; 96; 64; 48; 24; 12; 6; 3].

Definition change_speed (i : nat) : M ttys unit :=
  t ← the_tty i;
  let port := u16 (q_data (read_q t)) in
  if port =? 0 then mret tt
  else
    let quot := quotient !!! Z.to_nat (Z.land (c_cflag (tty_termios t)) CBAUD) in
    port_out (port + 3) 0x80 ;;
    port_out port (Z.land quot 0xff) ;;
    port_out (port + 1) (Z.shiftr quot 8) ;;
    port_out (port + 3) 0x03.

Definition flush (q : tty_queue) : tty_queue := set_q_head (q_tail q) q.

(** [struct termio], and what an ioctl reads from or writes to user memory *)
Record termio := mk_termio { io_iflag : Z; io_oflag : Z; io_cflag : Z; io_lflag : Z; io_line : Z; io_cc : list Z }.
Inductive user_data := U_none | U_termios (t : termios) | U_termio (t : termio) | U_long (v : Z).

Definition get_termios (i : nat) : M ttys (Z * user_data) :=
  t ← the_tty i; mret (0, U_termios (tty_termios t)).
Definition set_termios (i : nat) (u : user_data) : M ttys (Z * user_data) :=
  match u with
  | U_termios v => upd_tty i (set_tty_termios v) ;; change_speed i ;; mret (0, U_none)
  | _ => fault
  end.
Definition NCC : nat := 8.
Definition get_termio (i : nat) : M ttys (Z * user_data) :=
  t ← the_tty i;
  let v := tty_termios t in
  mret (0, U_termio (mk_termio (u16 (c_iflag v)) (u16 (c_oflag v)) (u16 (c_cflag v)) (u16 (c_lflag v)) (c_line v)
                       (take NCC (c_cc v)))).
(** storing the low half of a 32-bit word *)
Definition low16 (old v : Z) : Z := Z.lor (Z.land old 0xffff0000) v.
Definition set_termio (i : nat) (u : user_data) : M ttys (Z * user_data) :=
  match u with
  | U_termio v =>
    upd_tty i (λ t,
      let o := tty_termios t in
      set_tty_termios (mk_termios (low16 (c_iflag o) (io_iflag v)) (low16 (c_oflag o) (io_oflag v))
        (low16 (c_cflag o) (io_cflag v)) (low16 (c_lflag o) (io_lflag v)) (io_line v)
        (io_cc v ++ drop NCC (c_cc o))) t) ;;
    change_speed i ;; mret (0, U_none)
  | _ => fault
  end.

(** [arg] is the argument itself, [u] what user memory holds at it *)
Definition tty_ioctl (dev cmd arg : Z) (u : user_data) : M ttys (Z * user_data) :=
  dev ← (if MAJOR dev =? 5 then
           c ← tty_cur;
           if t_tty c <? 0 then panic "tty_ioctl: dev<0" else mret (t_tty c)
         else mret (MINOR dev));
  let i := Z.to_nat dev in
  t ← the_tty i;
  if cmd =? 0x5401 then get_termios i
  else if cmd =? 0x5404 then upd_read_q i flush ;; set_termios i u
  else if (cmd =? 0x5403) || (cmd =? 0x5402) then set_termios i u
  else if cmd =? 0x5405 then get_termio i
  else if cmd =? 0x5408 then upd_read_q i flush ;; set_termio i u
  else if (cmd =? 0x5407) || (cmd =? 0x5406) then set_termio i u
  else if cmd =? 0x5409 then mret (0, U_none)
  else if cmd =? 0x540B then
    if arg =? 0 then upd_read_q i flush ;; mret (0, U_none)
    else if arg =? 1 then upd_write_q i flush ;; mret (0, U_none)
    else if arg =? 2 then upd_read_q i flush ;; upd_write_q i flush ;; mret (0, U_none)
    else mret (- EINVAL, U_none)
  else if cmd =? 0x540F then mret (0, U_long (tty_pgrp t))
  else if cmd =? 0x5410 then
    match u with U_long v => upd_tty i (set_tty_pgrp (s32 v)) ;; mret (0, U_none) | _ => fault end
  else if cmd =? 0x5411 then mret (0, U_long (CHARS (write_q t)))
  else if cmd =? 0x541B then mret (0, U_long (CHARS (secondary t)))
  else mret (- EINVAL, U_none).

(** ** The initial state *)
Definition INIT_C_CC : list Z := [3; 28; 127; 21; 4; 0; 1; 0; 17; 19; 26; 0; 18; 15; 23; 22; 0].
Definition empty_queue (data : Z) : tty_queue := mk_queue data 0 0 (replicate 1024 0).
Definition init_tty_table : list tty_struct :=
  [ mk_tty (mk_termios ICRNL (OPOST + ONLCR) 0 (ISIG + ICANON + ECHO + ECHOCTL + ECHOKE) 0 INIT_C_CC)
      0 false con_writer (empty_queue 0) (empty_queue 0) (empty_queue 0);
    mk_tty (mk_termios 0 0 (0xb + 0x30) 0 0 INIT_C_CC)
      0 false rs_writer (empty_queue 0x3f8) (empty_queue 0x3f8) (empty_queue 0);
    mk_tty (mk_termios 0 0 (0xb + 0x30) 0 0 INIT_C_CC)
      0 false rs_writer (empty_queue 0x2f8) (empty_queue 0x2f8) (empty_queue 0) ].

(** [init] of serial.c; reading the data port has no effect in the model *)
Definition rs_port_init (port : Z) : M ttys unit :=
  for_each (λ '(r, v), port_out (port + r) v)
    [(3, 0x80); (0, 0x30); (1, 0x00); (3, 0x03); (4, 0x0b); (1, 0x0d)].
Definition rs_init : M ttys unit :=
  t1 ← the_tty 1; rs_port_init (q_data (read_q t1)) ;;
  t2 ← the_tty 2; rs_port_init (q_data (read_q t2)).
Definition tty_init (b : boot_screen) : M ttys unit := rs_init ;; on_con (con_init b).

(** ** Queues as lists *)

(** the characters of a queue are signed; the indices are below the size *)
Record queue_ok (q : tty_queue) : Prop := {
  qo_len : length (q_buf q) = 1024%nat;
  qo_head : 0 ≤ q_head q < 1024;
  qo_tail : 0 ≤ q_tail q < 1024
}.

Definition contents (q : tty_queue) : list Z :=
  (λ k, s8 (q_buf q !!! Z.to_nat ((q_tail q + Z.of_nat k) mod 1024))) <$> seq 0 (Z.to_nat (CHARS q)).

Lemma idx_mod a : idx a = a mod 1024.
Proof. unfold idx. by rewrite (Z.land_ones _ 10). Qed.
Lemma idx_bound a : 0 ≤ idx a < 1024.
Proof. rewrite idx_mod. by apply Z.mod_pos_bound. Qed.

Lemma CHARS_eq q : queue_ok q → CHARS q = if q_tail q <=? q_head q then q_head q - q_tail q else q_head q - q_tail q + 1024.
Proof.
  intros [_ Hh Ht]. unfold CHARS. rewrite idx_mod. case_match; b2p.
  - apply Z.mod_small. lia.
  - rewrite <- (Z.mod_add _ 1) by lia. apply Z.mod_small. lia.
Qed.

Lemma length_contents q : length (contents q) = Z.to_nat (CHARS q).
Proof. unfold contents. by rewrite length_fmap, length_seq. Qed.

Lemma EMPTY_contents q : queue_ok q → EMPTY q = true ↔ contents q = [].
Proof.
  intros Hq. rewrite <- length_zero_iff_nil, length_contents, CHARS_eq by done. destruct Hq. unfold EMPTY.
  rewrite Z.eqb_eq. case_match; b2p; lia.
Qed.

Lemma FULL_contents q : queue_ok q → FULL q = true ↔ length (contents q) = 1023%nat.
Proof.
  intros Hq. rewrite length_contents, CHARS_eq by done. destruct Hq. unfold FULL, LEFT. rewrite idx_mod, Z.eqb_eq.
  destruct (q_tail q <=? q_head q) eqn:E; b2p.
  - destruct (decide (q_tail q - q_head q - 1 = -1024)) as [E2|]; [rewrite E2; change (-1024 mod 1024) with 0; lia|].
    rewrite <- (Z.mod_add _ 1), Z.mod_small by lia. lia.
  - rewrite Z.mod_small by lia. lia.
Qed.

Lemma length_contents_le q : queue_ok q → (length (contents q) ≤ 1023)%nat.
Proof. intros Hq. rewrite length_contents, CHARS_eq by done. destruct Hq. case_match; b2p; lia. Qed.

Lemma contents_lookup q k : (k < length (contents q))%nat →
  contents q !! k = Some (s8 (q_buf q !!! Z.to_nat ((q_tail q + Z.of_nat k) mod 1024))).
Proof.
  intros Hk. rewrite length_contents in Hk. unfold contents. by rewrite list_lookup_fmap, lookup_seq_lt by done.
Qed.

(** [PUTCH] appends, unless the queue is full *)
Lemma PUTCH_ok c q : queue_ok q → queue_ok (PUTCH c q).
Proof. intros []. constructor; cbn -[u8]; rewrite ?length_insert; try done. apply idx_bound. Qed.

Lemma s8_id z : - 128 ≤ z < 128 → s8 z = z.
Proof. intros. unfold s8. rewrite Z.mod_small; lia. Qed.
Lemma s8_bound z : - 128 ≤ s8 z < 128.
Proof. unfold s8. pose proof (Z.mod_pos_bound (z + 2 ^ 7) (2 ^ 8)). lia. Qed.
Lemma s8_u8 z : s8 (u8 z) = s8 z.
Proof. unfold s8, u8. f_equal. by rewrite Zplus_mod_idemp_l. Qed.

Lemma CHARS_PUTCH c q : queue_ok q → FULL q = false → CHARS (PUTCH c q) = CHARS q + 1.
Proof.
  intros Hq Hf. assert (Hlen : length (contents q) ≠ 1023%nat) by (rewrite <- FULL_contents by done; congruence).
  rewrite length_contents in Hlen. rewrite (CHARS_eq q) in * by done.
  rewrite CHARS_eq by (by apply PUTCH_ok). cbn -[u8]. rewrite idx_mod. destruct Hq.
  destruct (decide (q_head q = 1023)) as [E|].
  - rewrite E. replace ((1023 + 1) mod 1024) with 0 by done. repeat case_match; b2p; lia.
  - rewrite Z.mod_small by lia. repeat case_match; b2p; lia.
Qed.

Lemma head_tail q : queue_ok q → q_head q = (q_tail q + CHARS q) mod 1024.
Proof.
  intros Hq. rewrite CHARS_eq by done. destruct Hq. case_match; b2p.
  - replace (q_tail q + (q_head q - q_tail q)) with (q_head q) by lia. by rewrite Z.mod_small.
  - replace (q_tail q + (q_head q - q_tail q + 1024)) with (q_head q + 1 * 1024) by lia. by rewrite Z.mod_add, Z.mod_small.
Qed.

Lemma offset_inj t j k : 0 ≤ j < 1024 → 0 ≤ k < 1024 → (t + j) mod 1024 = (t + k) mod 1024 → j = k.
Proof.
  intros Hj Hk He. destruct (decide (j ≤ k)).
  - assert ((k - j) mod 1024 = 0) as Hm.
    { replace (k - j) with ((t + k) - (t + j)) by lia. by rewrite Zminus_mod, He, Z.sub_diag. }
    rewrite Z.mod_small in Hm by lia. lia.
  - assert ((j - k) mod 1024 = 0) as Hm.
    { replace (j - k) with ((t + j) - (t + k)) by lia. by rewrite Zminus_mod, He, Z.sub_diag. }
    rewrite Z.mod_small in Hm by lia. lia.
Qed.

Lemma CHARS_bound q : 0 ≤ CHARS q < 1024.
Proof. apply idx_bound. Qed.

Lemma contents_PUTCH c q : queue_ok q → FULL q = false → contents (PUTCH c q) = contents q ++ [s8 c].
Proof.
  intros Hq Hf. pose proof (CHARS_PUTCH c q Hq Hf) as Hc.
  pose proof (CHARS_bound q) as H0. pose proof (head_tail q Hq) as Hh.
  unfold contents at 1. rewrite Hc. replace (Z.to_nat (CHARS q + 1)) with (Z.to_nat (CHARS q) + 1)%nat by lia.
  rewrite seq_app, fmap_app. cbn [seq fmap list_fmap Nat.add]. f_equal; [|f_equal].
  - unfold contents. apply list_fmap_ext. intros k x [-> Hk]%lookup_seq. cbn [PUTCH set_q_head set_q_buf q_tail q_buf].
    rewrite list_lookup_total_insert_ne; [done|]. intros E. destruct Hq.
    pose proof (Z.mod_pos_bound (q_tail q + Z.of_nat (0 + k)) 1024 ltac:(done)) as Hb.
    apply Z2Nat.inj in E; [|lia|lia]. rewrite Hh in E. apply offset_inj in E; lia.
  - cbn [PUTCH set_q_head set_q_buf q_tail q_buf]. destruct Hq. rewrite Z2Nat.id by lia.
    rewrite <- Hh. rewrite list_lookup_total_insert_eq by lia. apply s8_u8.
Qed.

(** [GETCH] takes the first *)
Lemma contents_cons q : queue_ok q → EMPTY q = false →
  contents q = (GETCH q).1 :: contents (GETCH q).2 ∧ queue_ok (GETCH q).2.
Proof.
  intros Hq He. pose proof (CHARS_bound q) as H0.
  assert (Hpos : 0 < CHARS q).
  { destruct (decide (CHARS q = 0)) as [E|]; [|lia]. exfalso.
    assert (contents q = []) as Hn by (apply length_zero_iff_nil; rewrite length_contents, E; done).
    apply EMPTY_contents in Hn; [congruence|done]. }
  assert (Hq' : queue_ok (GETCH q).2) by (destruct Hq; constructor; cbn; try done; apply idx_bound).
  assert (Hc : CHARS (GETCH q).2 = CHARS q - 1).
  { unfold CHARS. cbn. rewrite !idx_mod. rewrite Zminus_mod_idemp_r.
    replace (q_head q - (q_tail q + 1)) with ((q_head q - q_tail q) - 1) by lia.
    rewrite <- Zminus_mod_idemp_l. apply Z.mod_small. unfold CHARS in *. rewrite idx_mod in *. lia. }
  split; [|done]. unfold contents. rewrite Hc.
  replace (Z.to_nat (CHARS q)) with (S (Z.to_nat (CHARS q - 1))) by lia. cbn [seq fmap list_fmap].
  f_equal.
  - cbn. rewrite Z.add_0_r, Z.mod_small by apply Hq. done.
  - rewrite <- fmap_S_seq, <- list_fmap_compose. apply list_fmap_ext. intros k x [-> Hk]%lookup_seq. cbn -[Z.modulo Z.of_nat].
    rewrite idx_mod, Zplus_mod_idemp_l. do 4 f_equal. lia.
Qed.

(** decrementing [head] drops the last *)
Lemma contents_DEC q : queue_ok q → EMPTY q = false →
  contents q = contents (DEC_head q) ++ [LAST q] ∧ queue_ok (DEC_head q).
Proof.
  intros Hq He. pose proof (CHARS_bound q) as H0. pose proof (head_tail q Hq) as Hh.
  assert (Hpos : 0 < CHARS q).
  { destruct (decide (CHARS q = 0)) as [E|]; [|lia]. exfalso.
    assert (contents q = []) as Hn by (apply length_zero_iff_nil; rewrite length_contents, E; done).
    apply EMPTY_contents in Hn; [congruence|done]. }
  assert (Hq' : queue_ok (DEC_head q)) by (destruct Hq; constructor; cbn; try done; apply idx_bound).
  assert (Hc : CHARS (DEC_head q) = CHARS q - 1).
  { unfold CHARS. cbn. rewrite !idx_mod. rewrite Zminus_mod_idemp_l.
    replace (q_head q - 1 - q_tail q) with ((q_head q - q_tail q) - 1) by lia.
    rewrite <- Zminus_mod_idemp_l. apply Z.mod_small. unfold CHARS in *. rewrite idx_mod in *. lia. }
  split; [|done]. unfold contents. rewrite Hc.
  replace (Z.to_nat (CHARS q)) with (Z.to_nat (CHARS q - 1) + 1)%nat by lia.
  rewrite seq_app, fmap_app. f_equal. cbn [seq fmap list_fmap Nat.add]. f_equal. unfold LAST. do 3 f_equal.
  rewrite idx_mod, Hh at 1. rewrite Zminus_mod_idemp_l. rewrite Z2Nat.id by lia. f_equal. lia.
Qed.

(** ** The line discipline on lists *)

Definition line_end (t : tty_struct) (c : Z) : bool := (c =? 10) || (c =? EOF_CHAR t).

(** CR and NL on input; [None]: ignored *)
Definition translate (t : tty_struct) (c : Z) : option Z :=
  if (c =? 13) && negb (I_CRNL t) && I_NOCR t then None
  else Some (if c =? 13 then if I_CRNL t then 10 else c
             else if (c =? 10) && I_NLCR t then 13 else c).

(** a line, last character first, without its last line *)
Fixpoint drop_line (t : tty_struct) (r : list Z) : list Z :=
  match r with [] => [] | c :: r' => if line_end t c then r else drop_line t r' end.

(** what one typed character does to the pending input and to the count of
    lines in it *)
Definition edit (t : tty_struct) (st : list Z * Z) (c : Z) : list Z * Z :=
  let '(l, n) := st in
  match translate t c with
  | None => (l, n)
  | Some c =>
    if L_CANON t && (c =? KILL_CHAR t) then (reverse (drop_line t (reverse l)), n)
    else if L_CANON t && (c =? ERASE_CHAR t) then
      (match reverse l with c' :: r => if line_end t c' then l else reverse r | [] => l end, n)
    else if L_CANON t && ((c =? STOP_CHAR t) || (c =? START_CHAR t)) then (l, n)
    else if L_ISIG t && ((c =? INTR_CHAR t) || (c =? QUIT_CHAR t)) then (l, n)
    else (l ++ [c], if line_end t c then u32 (n + 1) else n)
  end.

Lemma wp_the_tty i t (Q : tty_struct → ttys → Prop) s : tty_table s !! i = Some t → Q t s → wp (the_tty i) Q s.
Proof. intros Ht HQ. unfold wp, the_tty, of_opt. by rewrite Ht. Qed.
Lemma wp_upd_tty i f t (Q : unit → ttys → Prop) s :
  tty_table s !! i = Some t → Q tt (set_tty_table (<[i := f t]> (tty_table s)) s) → wp (upd_tty i f) Q s.
Proof. intros Ht HQ. unfold wp, upd_tty. by rewrite Ht. Qed.
Lemma lookup_upd i f t s : tty_table s !! i = Some t →
  tty_table (set_tty_table (<[i := f t]> (tty_table s)) s) !! i = Some (f t).
Proof. intros Ht. cbn. apply list_lookup_insert_eq. by apply lookup_lt_Some in Ht. Qed.

(** the terminal as the line discipline sees it: everything but the output
    queue and the [stopped] flag *)
Record same_input (t t' : tty_struct) : Prop := {
  si_termios : tty_termios t' = tty_termios t;
  si_write : write t' = write t;
  si_read : read_q t' = read_q t;
  si_secondary : secondary t' = secondary t
}.
#[global] Instance same_input_pre : PreOrder same_input.
Proof. split; [by intros t; constructor|]. intros t1 t2 t3 [] []. constructor; congruence. Qed.

Lemma edit_ext t t' st c : tty_termios t' = tty_termios t → edit t' st c = edit t st c.
Proof.
  intros Ht. assert (Hd : ∀ r, drop_line t' r = drop_line t r).
  { induction r as [|x r IH]; [done|]. cbn. unfold line_end, EOF_CHAR, cc. by rewrite Ht, IH. }
  unfold edit, translate, I_CRNL, I_NOCR, I_NLCR, L_CANON, L_ISIG, I_FLAG, L_FLAG, line_end, EOF_CHAR, KILL_CHAR, ERASE_CHAR,
    STOP_CHAR, START_CHAR, INTR_CHAR, QUIT_CHAR, cc. rewrite Ht. destruct st as [l n]. by rewrite (Hd (reverse l)).
Qed.

Lemma foldl_edit_ext t t' st cs : tty_termios t' = tty_termios t → foldl (edit t') st cs = foldl (edit t) st cs.
Proof. intros Ht. revert st. induction cs as [|c cs IH]; intros st; [done|]. cbn [foldl]. by rewrite IH, (edit_ext t t'). Qed.

Section discipline.
Context (wr : nat → M ttys unit) (i : nat).
(** echoing does not disturb the input queues *)
Definition quiet_writer (t : tty_struct) : Prop :=
  L_ECHO t = true → ∀ s t', tty_table s !! i = Some t' → same_input t t' →
    wp (wr i) (λ _ s', ∃ t'', tty_table s' !! i = Some t'' ∧ same_input t' t'') s.

(** running [m] leaves terminal [t] as it is for the line discipline *)
Definition input_kept (m : M ttys unit) (t : tty_struct) : Prop :=
  ∀ s t', tty_table s !! i = Some t' → same_input t t' →
    wp m (λ _ s', ∃ t'', tty_table s' !! i = Some t'' ∧ same_input t' t'') s.

Lemma input_kept_ret t : input_kept (mret tt) t.
Proof. intros s t' Ht _. apply wp_ret. by exists t'. Qed.
Lemma input_kept_bind m k t : input_kept m t → input_kept k t → input_kept (m ;; k) t.
Proof.
  intros Hm Hk s t' Ht Hs. apply wp_bind. eapply wp_mono; [by apply Hm|]. intros [] s1 (t1 & Ht1 & Hs1).
  eapply wp_mono; [apply Hk; [done|by etrans]|]. intros [] s2 (t2 & Ht2 & Hs2). exists t2. split; [done|by etrans].
Qed.
Lemma input_kept_when b m t : input_kept m t → input_kept (when b m) t.
Proof. intros Hm. destruct b; [done|apply input_kept_ret]. Qed.
Lemma input_kept_write_q f t : input_kept (upd_write_q i f) t.
Proof.
  intros s t' Ht _. eapply wp_upd_tty; [done|]. eexists. split; [by apply lookup_upd|]. by constructor.
Qed.
Lemma input_kept_stopped b t : input_kept (upd_tty i (set_stopped b)) t.
Proof. intros s t' Ht _. eapply wp_upd_tty; [done|]. eexists. split; [by apply lookup_upd|]. by constructor. Qed.
Lemma input_kept_intr mask t : input_kept (tty_intr i mask) t.
Proof.
  intros s t' Ht _. unfold tty_intr. apply wp_bind. eapply wp_the_tty; [done|]. case_match.
  - apply wp_ret. by exists t'.
  - apply wp_modify. by exists t'.
Qed.

Lemma wp_echo (m : M ttys unit) t : (L_ECHO t = true → input_kept m t) →
  input_kept (t0 ← the_tty i; when (L_ECHO t0) m) t.
Proof.
  intros Hm s t' Ht Hs. apply wp_bind. eapply wp_the_tty; [done|].
  assert (L_ECHO t' = L_ECHO t) as -> by (unfold L_ECHO, L_FLAG; by rewrite (si_termios _ _ Hs)).
  destruct (L_ECHO t); unfold when; [by apply Hm|]. apply wp_ret. by exists t'.
Qed.

Context (t0 : tty_struct) (Hquiet : quiet_writer t0).

Lemma input_kept_wr : L_ECHO t0 = true → input_kept (wr i) t0.
Proof. intros He s t' Ht Hs. by apply Hquiet. Qed.

Lemma input_kept_echo_erase c : input_kept (echo_erase wr i c) t0.
Proof.
  apply wp_echo. intros He. repeat apply input_kept_bind; try apply input_kept_when; try apply input_kept_write_q.
  by apply input_kept_wr.
Qed.
Lemma input_kept_echo_char c : input_kept (echo_char wr i c) t0.
Proof.
  intros s t' Ht Hs. unfold echo_char. apply wp_bind. eapply wp_the_tty; [done|].
  assert (L_ECHO t' = L_ECHO t0) as -> by (unfold L_ECHO, L_FLAG; by rewrite (si_termios _ _ Hs)).
  destruct (L_ECHO t0) eqn:He; unfold when at 1; [|apply wp_ret; by exists t'].
  eapply input_kept_bind; try done; [|by apply input_kept_wr].
  repeat case_match; try apply input_kept_when; apply input_kept_write_q.
Qed.

(** terminal [i] has the settings of [t0], unread input [cs] and pending input
    [l] with [n] lines in it *)
Definition line_state (cs l : list Z) (n : Z) (s : ttys) : Prop :=
  ∃ t, tty_table s !! i = Some t ∧ tty_termios t = tty_termios t0 ∧ write t = write t0 ∧
    queue_ok (read_q t) ∧ queue_ok (secondary t) ∧
    contents (read_q t) = cs ∧ contents (secondary t) = l ∧ q_data (secondary t) = n.

Lemma line_state_kept m cs l n s :
  (∀ t, tty_termios t = tty_termios t0 → write t = write t0 → input_kept m t) →
  line_state cs l n s → wp m (λ _ s', line_state cs l n s') s.
Proof.
  intros Hm (t & Ht & Htm & Hw & Hr & Hs & E1 & E2 & E3).
  eapply wp_mono; [apply (Hm t); done|]. intros [] s' (t' & Ht' & []). exists t'. split; [done|].
  split; [congruence|]. split; [congruence|]. rewrite si_read0, si_secondary0. done.
Qed.
End discipline.

Lemma quiet_ext wr i t t' : tty_termios t' = tty_termios t → write t' = write t →
  (L_ECHO t = true → ∀ s t1, tty_table s !! i = Some t1 → write t1 = write t →
    wp (wr i) (λ _ s', ∃ t2, tty_table s' !! i = Some t2 ∧ same_input t1 t2) s) → quiet_writer wr i t'.
Proof.
  intros Htm Hw Hq He s t1 Ht1 Hs. apply Hq; [|done|].
  - revert He. unfold L_ECHO, L_FLAG. by rewrite Htm.
  - by rewrite (si_write _ _ Hs).
Qed.

Lemma TTY_FUEL_enough : (1024 < TTY_FUEL)%nat.
Proof. unfold TTY_FUEL. lia. Qed.
#[local] Opaque TTY_FUEL.

Lemma at_line_start_eq t : queue_ok (secondary t) →
  at_line_start t = match reverse (contents (secondary t)) with [] => true | c :: _ => line_end t c end.
Proof.
  intros Hq. unfold at_line_start. destruct (EMPTY (secondary t)) eqn:E.
  - apply EMPTY_contents in E; [|done]. by rewrite E.
  - destruct (contents_DEC _ Hq E) as [-> _]. by rewrite reverse_snoc.
Qed.

Section editing.
Context (wr : nat → M ttys unit) (i : nat) (t0 : tty_struct).
Context (Hwr : L_ECHO t0 = true → ∀ s t1, tty_table s !! i = Some t1 → write t1 = write t0 →
  wp (wr i) (λ _ s', ∃ t2, tty_table s' !! i = Some t2 ∧ same_input t1 t2) s).
Abbreviation line_state := (line_state i t0).

Lemma line_state_wp {A} cs l n (m : tty_struct → M ttys A) Q s :
  line_state cs l n s →
  (∀ t, tty_termios t = tty_termios t0 → write t = write t0 → tty_table s !! i = Some t →
     queue_ok (read_q t) → queue_ok (secondary t) → contents (read_q t) = cs → contents (secondary t) = l →
     q_data (secondary t) = n → wp (m t) Q s) →
  wp (t ← the_tty i; m t) Q s.
Proof.
  intros (t & Ht & Htm & Hw & Hr & Hs & E1 & E2 & E3) Hm. apply wp_bind. eapply wp_the_tty; [done|]. by apply Hm.
Qed.

Lemma drop_last_run cs l c n s :
  line_state cs (l ++ [c]) n s → wp (upd_secondary i DEC_head) (λ _ s', line_state cs l n s') s.
Proof.
  intros (t & Ht & Htm & Hw & Hr & Hs & E1 & E2 & E3). eapply wp_upd_tty; [done|].
  assert (He : EMPTY (secondary t) = false).
  { destruct (EMPTY (secondary t)) eqn:E; [|done]. apply EMPTY_contents in E; [|done]. rewrite E2 in E. by destruct l. }
  destruct (contents_DEC _ Hs He) as [Hc Hok]. rewrite E2 in Hc. apply app_inj_tail in Hc as [Hc _].
  eexists. split; [by apply lookup_upd|]. by split_and!.
Qed.

Lemma echo_erase_run cs l c n s :
  line_state cs l n s → wp (echo_erase wr i c) (λ _ s', line_state cs l n s') s.
Proof.
  intros Hs. apply (line_state_kept i t0); [|exact Hs].
  intros t Htm Hw. apply input_kept_echo_erase. by eapply quiet_ext.
Qed.

Lemma line_end_ext t c : tty_termios t = tty_termios t0 → line_end t c = line_end t0 c.
Proof. intros Ht. unfold line_end, EOF_CHAR, cc. by rewrite Ht. Qed.

Lemma last_contents t : queue_ok (secondary t) → ∀ l c, contents (secondary t) = l ++ [c] → LAST (secondary t) = c.
Proof.
  intros Hq l c E. assert (He : EMPTY (secondary t) = false).
  { destruct (EMPTY (secondary t)) eqn:He; [|done]. apply EMPTY_contents in He; [|done]. rewrite E in He. by destruct l. }
  destruct (contents_DEC _ Hq He) as [Hc _]. rewrite E in Hc. by apply app_inj_tail in Hc as [_ ->].
Qed.

Lemma kill_line_run fuel cs r n s :
  (length r < fuel)%nat → line_state cs (reverse r) n s →
  wp (kill_line wr fuel i) (λ _ s', line_state cs (reverse (drop_line t0 r)) n s') s.
Proof.
  revert fuel s. induction r as [|c r IH]; intros [|fuel] s Hf Hs; cbn [length] in Hf; try lia; cbn [kill_line].
  - eapply line_state_wp; [exact Hs|]. intros t _ _ _ _ Hq _ E2 _. rewrite at_line_start_eq, E2 by done. by apply wp_ret.
  - eapply line_state_wp; [exact Hs|]. intros t Htm _ _ _ Hq _ E2 _. rewrite at_line_start_eq, E2, reverse_involutive by done.
    rewrite line_end_ext by done. cbn [drop_line]. destruct (line_end t0 c); [by apply wp_ret|].
    rewrite reverse_cons in Hs, E2. rewrite (last_contents t Hq _ _ E2).
    apply wp_bind. eapply wp_mono; [eapply echo_erase_run, Hs|]. intros [] s1 Hs1.
    apply wp_bind. eapply wp_mono; [eapply drop_last_run, Hs1|]. intros [] s2 Hs2. apply IH; [lia|done].
Qed.

Lemma erase_char_run cs r n s :
  line_state cs (reverse r) n s →
  wp (erase_char wr i) (λ _ s', line_state cs
    (match r with c' :: r' => if line_end t0 c' then reverse r else reverse r' | [] => reverse r end) n s') s.
Proof.
  intros Hs. unfold erase_char. eapply line_state_wp; [exact Hs|]. intros t Htm _ _ _ Hq _ E2 _.
  rewrite at_line_start_eq, E2, reverse_involutive by done. destruct r as [|c r]; [by apply wp_ret|].
  rewrite line_end_ext by done. destruct (line_end t0 c); [by apply wp_ret|].
  rewrite reverse_cons in Hs, E2. rewrite (last_contents t Hq _ _ E2).
  apply wp_bind. eapply wp_mono; [eapply echo_erase_run, Hs|]. intros [] s1 Hs1. by eapply drop_last_run.
Qed.

Lemma add_char_run cs l c n s :
  - 128 ≤ c < 128 → (length l < 1023)%nat → line_state cs l n s →
  wp (add_char wr i c) (λ _ s', line_state cs (l ++ [c]) (if line_end t0 c then u32 (n + 1) else n) s') s.
Proof.
  intros Hc Hl Hs. unfold add_char. eapply line_state_wp; [exact Hs|]. intros t Htm Hw Ht Hr Hq E1 E2 E3.
  change ((c =? 10) || (c =? EOF_CHAR t)) with (line_end t c). rewrite (line_end_ext t) by done.
  set (n' := if line_end t0 c then _ else _).
  apply wp_bind. apply (wp_mono _ (λ _ s', line_state cs l n' s')).
  { unfold n'. destruct (line_end t0 c); unfold when; [|by apply wp_ret].
    eapply wp_upd_tty; [done|]. eexists. split; [by apply lookup_upd|]. split_and!; try done; cbn -[u32].
    - by destruct Hq.
    - by rewrite <- E3. }
  intros [] s1 Hs1. apply wp_bind. eapply wp_mono.
  { apply (line_state_kept i t0); [|exact Hs1]. intros t' Htm' Hw'. apply input_kept_echo_char. by eapply quiet_ext. }
  intros [] s2 (t2 & Ht2 & Htm2 & Hw2 & Hr2 & Hq2 & F1 & F2 & F3). eapply wp_upd_tty; [done|].
  eexists. split; [by apply lookup_upd|]. split_and!; try done.
  - by apply PUTCH_ok.
  - cbn [set_secondary secondary]. rewrite contents_PUTCH, F2, s8_id; try done.
    apply not_true_is_false. rewrite FULL_contents, F2 by done. lia.
Qed.

Lemma cook_char_run cs l n c s :
  - 128 ≤ c < 128 → (length l < 1023)%nat → line_state cs l n s →
  wp (cook_char wr i c) (λ _ s', let '(l', n') :=
      if L_CANON t0 && (c =? KILL_CHAR t0) then (reverse (drop_line t0 (reverse l)), n)
      else if L_CANON t0 && (c =? ERASE_CHAR t0) then
        (match reverse l with c' :: r => if line_end t0 c' then l else reverse r | [] => l end, n)
      else if L_CANON t0 && ((c =? STOP_CHAR t0) || (c =? START_CHAR t0)) then (l, n)
      else if L_ISIG t0 && ((c =? INTR_CHAR t0) || (c =? QUIT_CHAR t0)) then (l, n)
      else (l ++ [c], if line_end t0 c then u32 (n + 1) else n) in
    line_state cs l' n' s') s.
Proof.
  intros Hc Hl Hs. unfold cook_char. eapply line_state_wp; [exact Hs|]. intros t Htm Hw Ht Hr Hq E1 E2 E3.
  unfold L_CANON, L_ISIG, L_FLAG, KILL_CHAR, ERASE_CHAR, STOP_CHAR, START_CHAR, INTR_CHAR, QUIT_CHAR, cc. rewrite Htm.
  destruct (flag (c_lflag (tty_termios t0)) ICANON && (c =? c_cc (tty_termios t0) !!! VKILL)).
  { apply kill_line_run; rewrite ?reverse_involutive; [|done]. rewrite length_reverse. pose proof TTY_FUEL_enough. lia. }
  destruct (flag (c_lflag (tty_termios t0)) ICANON && (c =? c_cc (tty_termios t0) !!! VERASE)).
  { eapply wp_mono; [apply (erase_char_run cs (reverse l)); by rewrite reverse_involutive|]. intros [] s'.
    rewrite reverse_involutive. by destruct (reverse l). }
  assert (Hstop : ∀ b, wp (upd_tty i (set_stopped b)) (λ _ s', line_state cs l n s') s).
  { intros b. apply (line_state_kept i t0); [|exact Hs]. intros ? _ _. apply input_kept_stopped. }
  assert (Hintr : ∀ mask, wp (tty_intr i mask) (λ _ s', line_state cs l n s') s).
  { intros b. apply (line_state_kept i t0); [|exact Hs]. intros ? _ _. apply input_kept_intr. }
  destruct (flag (c_lflag (tty_termios t0)) ICANON), (c =? c_cc (tty_termios t0) !!! VSTOP), (c =? c_cc (tty_termios t0) !!! VSTART);
    cbn [andb orb]; try apply Hstop;
  destruct (flag (c_lflag (tty_termios t0)) ISIG), (c =? c_cc (tty_termios t0) !!! VINTR), (c =? c_cc (tty_termios t0) !!! VQUIT);
    cbn [andb orb]; try apply Hintr; by apply add_char_run.
Qed.

Context (Huclc : I_UCLC t0 = false).

Lemma input_char_run t c (Q : option Z → ttys → Prop) s : tty_termios t = tty_termios t0 →
  Q (translate t0 c) s → wp (input_char t c) Q s.
Proof.
  intros Ht HQ. unfold input_char. unfold translate in HQ. revert HQ. revert Huclc.
  unfold I_UCLC, I_CRNL, I_NOCR, I_NLCR, I_FLAG. rewrite Ht. intros -> HQ. by case_match; apply wp_ret.
Qed.

Lemma translate_bound c c' : - 128 ≤ c < 128 → translate t0 c = Some c' → - 128 ≤ c' < 128.
Proof. intros Hc. unfold translate. repeat case_match; intros [= <-]; lia. Qed.

Lemma length_edit l n c : (length (edit t0 (l, n) c).1 ≤ S (length l))%nat.
Proof.
  assert (Hd : ∀ r, (length (drop_line t0 r) ≤ length r)%nat).
  { induction r as [|x r IH]; cbn; [lia|]. case_match; cbn [length]; lia. }
  assert (Hk : (length (reverse (drop_line t0 (reverse l))) ≤ length l)%nat).
  { rewrite length_reverse. etrans; [apply Hd|]. by rewrite length_reverse. }
  assert (He : (length (match reverse l with c' :: r => if line_end t0 c' then l else reverse r | [] => l end) ≤ length l)%nat).
  { pose proof (length_reverse l) as Hl. destruct (reverse l) as [|c' r]; [lia|].
    destruct (line_end t0 c'); [lia|]. rewrite length_reverse. cbn [length] in Hl. lia. }
  unfold edit. destruct (translate t0 c) as [c'|]; [|cbn; lia].
  repeat match goal with |- context [if (?a && ?b) then _ else _] => destruct (a && b) end; cbn [fst]; rewrite ?length_app; cbn [length]; lia.
Qed.

Lemma contents_bound q : Forall (λ c, - 128 ≤ c < 128) (contents q).
Proof. apply Forall_fmap, Forall_forall. intros k _. apply s8_bound. Qed.

Lemma cook_loop_run fuel cs l n s :
  (length cs < fuel)%nat → (length l + length cs ≤ 1023)%nat → line_state cs l n s →
  wp (cook_loop wr fuel i) (λ _ s', line_state []
    (foldl (edit t0) (l, n) cs).1 (foldl (edit t0) (l, n) cs).2 s') s.
Proof.
  revert fuel l n s. induction cs as [|c cs IH]; intros [|fuel] l n s Hf Hl Hs; cbn [length] in Hf; try lia; cbn [cook_loop].
  - eapply line_state_wp; [exact Hs|]. intros t Htm Hw Ht Hr Hq E1 E2 E3.
    rewrite (proj2 (EMPTY_contents _ Hr)) by done. by apply wp_ret.
  - eapply line_state_wp; [exact Hs|]. intros t Htm Hw Ht Hr Hq E1 E2 E3.
    assert (He : EMPTY (read_q t) = false).
    { apply not_true_is_false. rewrite EMPTY_contents, E1 by done. done. }
    assert (Hfull : FULL (secondary t) = false).
    { apply not_true_is_false. rewrite FULL_contents, E2 by done. cbn [length] in Hl. lia. }
    rewrite He, Hfull. cbn [orb]. destruct (contents_cons _ Hr He) as [Hcons Hok]. rewrite E1 in Hcons.
    destruct (GETCH (read_q t)) as [c1 q1]. cbn [fst snd] in Hcons, Hok. injection Hcons as <- Hcs.
    assert (Hc : - 128 ≤ c < 128) by (pose proof (contents_bound (read_q t)) as Hb; rewrite E1 in Hb; by apply Forall_cons in Hb as [? _]).
    apply wp_bind. eapply wp_upd_tty; [done|]. apply wp_bind. apply input_char_run; [done|].
    apply wp_bind. apply (wp_mono _ (λ _ s', line_state cs (edit t0 (l, n) c).1 (edit t0 (l, n) c).2 s')).
    + assert (Hs1 : line_state cs l n (set_tty_table (<[i := set_read_q q1 t]> (tty_table s)) s)).
      { eexists. split; [by apply lookup_upd|]. by split_and!. }
      unfold edit. destruct (translate t0 c) as [c'|] eqn:Etr; [|by apply wp_ret].
      eapply wp_mono; [apply (cook_char_run cs l n); [by eapply translate_bound|cbn [length] in Hl; lia|exact Hs1]|].
      intros [] s'. by repeat case_match.
    + intros [] s' Hs'. cbn [foldl]. pose proof (length_edit l n c) as Hle. cbn [length] in Hl.
      destruct (edit t0 (l, n) c) as [l' n'] eqn:Ee. cbn [fst snd] in Hs', Hle. apply IH; [lia|lia|done].
Qed.
End editing.


(** ** The output translation *)

(** what one character becomes *)
Definition output1 (t : tty_struct) (c : Z) : list Z :=
  if O_POST t then
    let c := if (c =? 13) && O_CRNL t then 10
             else if (c =? 10) && O_NLRET t then 13 else c in
    if (c =? 10) && O_NLCR t then [13; 10] else [c]
  else [c].
Definition output (t : tty_struct) (buf : bytes) : list Z := flat_map (λ b, output1 t (s8 b)) buf.

Lemma output1_bound t c : - 128 ≤ c < 128 → Forall (λ x, s8 x = x) (output1 t c).
Proof.
  intros Hc. unfold output1. repeat case_match; repeat constructor; apply s8_id; lia.
Qed.

Section filling.
Context (i : nat) (t0 : tty_struct) (Hlcuc : O_LCUC t0 = false).

(** the settings of [t0], and [l] in the output queue *)
Definition out_state (l : list Z) (cr : bool) (s : ttys) : Prop :=
  cr_flag s = cr ∧
  ∃ t, tty_table s !! i = Some t ∧ tty_termios t = tty_termios t0 ∧ queue_ok (write_q t) ∧ contents (write_q t) = l.

Lemma put_out l cr cr' c s : (length l < 1023)%nat → out_state l cr s →
  wp (modify (set_cr_flag cr') ;; upd_write_q i (PUTCH c)) (λ _ s', out_state (l ++ [s8 c]) cr' s') s.
Proof.
  intros Hl (_ & t & Ht & Htm & Hq & E). apply wp_bind, wp_modify. eapply wp_upd_tty; [done|].
  split; [done|]. eexists. split; [by apply lookup_upd|]. split_and!; [done|by apply PUTCH_ok|].
  cbn [set_write_q write_q]. rewrite contents_PUTCH, E; try done.
  apply not_true_is_false. rewrite FULL_contents, E by done. lia.
Qed.

Lemma fill_queue_run buf l s fuel :
  (2 * length buf < fuel)%nat → (length l + length (output t0 buf) ≤ 1023)%nat → out_state l false s →
  wp (fill_queue fuel i buf) (λ rest s', rest = [] ∧ out_state (l ++ output t0 buf) false s') s.
Proof.
  revert l s fuel. induction buf as [|b buf IH]; intros l s [|fuel] Hf Hl Hs; cbn [length] in Hf; try lia; cbn [fill_queue].
  { pose proof Hs as (_ & t & Ht & _). apply wp_bind. eapply wp_the_tty; [done|]. apply wp_ret. split; [done|].
    cbn. by rewrite app_nil_r. }
  pose proof (s8_bound b) as Hb.
  change (output t0 (b :: buf)) with (output1 t0 (s8 b) ++ output t0 buf) in *. rewrite length_app in Hl.
  assert (Hout : output1 t0 (s8 b) ≠ []) by (unfold output1; repeat case_match; done).
  assert (Hpos : (0 < length (output1 t0 (s8 b)))%nat) by (destruct (output1 t0 (s8 b)); [done|cbn; lia]).
  pose proof Hs as (Hcr & t & Ht & Htm & Hq & E). apply wp_bind. eapply wp_the_tty; [done|].
  assert (FULL (write_q t) = false) as ->.
  { apply not_true_is_false. rewrite FULL_contents, E by done. lia. }
  apply wp_bind, wp_get. rewrite Hcr.
  pose proof (output1_bound t0 (s8 b) Hb) as Hsb.
  assert (Hone : ∀ l c cr s, out_state l cr s → (length l < 1023)%nat → (length l + 1 + length (output t0 buf) ≤ 1023)%nat →
    s8 c = c → wp (modify (set_cr_flag false) ;; upd_write_q i (PUTCH c) ;; fill_queue fuel i buf)
      (λ rest s', rest = [] ∧ out_state (l ++ [c] ++ output t0 buf) false s') s).
  { intros l1 c cr s1 Hs1 Hl1 Hl2 Hc. apply wp_bind. eapply wp_mono; [apply (wp_bind_inv _ (λ _, upd_write_q i (PUTCH c))), (put_out l1 cr false c s1); done|].
    intros [] s2 Hp. apply wp_bind. eapply wp_mono; [exact Hp|]. intros [] s3 Hs3. rewrite Hc in Hs3.
    rewrite app_assoc. apply IH; [lia| |done]. rewrite length_app. cbn [length]. lia. }
  assert (Hflags : O_POST t = O_POST t0 ∧ O_CRNL t = O_CRNL t0 ∧ O_NLRET t = O_NLRET t0 ∧ O_NLCR t = O_NLCR t0 ∧ O_LCUC t = false).
  { rewrite <- Hlcuc. unfold O_POST, O_CRNL, O_NLRET, O_NLCR, O_LCUC, O_FLAG. by rewrite Htm. }
  destruct Hflags as (F1 & F2 & F3 & F4 & F5).
  apply wp_bind. unfold output_char. rewrite F1, F2, F3, F4, F5.
  assert (Hsimple : output1 t0 (s8 b) = [s8 b] ∨ True) by auto. clear Hsimple.
  revert Hl Hout Hpos Hsb. unfold output1. destruct (O_POST t0) eqn:Epost.
  2:{ intros Hl _ _ Hsb. apply wp_ret. eapply Hone; [done|cbn in Hl; lia|cbn in Hl; lia|by apply Forall_cons in Hsb as [? _]]. }
  set (c := if (s8 b =? 13) && O_CRNL t0 then 10 else if (s8 b =? 10) && O_NLRET t0 then 13 else s8 b).
  cbn zeta. cbn [negb]. rewrite andb_true_r.
  destruct ((c =? 10) && O_NLCR t0) eqn:Enl.
  2:{ intros Hl _ _ Hsb. apply wp_ret. eapply Hone; [done|cbn in Hl; lia|cbn in Hl; lia|by apply Forall_cons in Hsb as [? _]]. }
  intros Hl _ _ Hsb. cbn [length] in Hl. apply wp_ret.
  (* first the CR, then the same character again *)
  apply wp_bind. eapply wp_mono; [apply (wp_bind_inv _ (λ _, upd_write_q i (PUTCH 13))), (put_out l false true 13 s); [lia|done]|].
  intros [] s2 Hp. apply wp_bind. eapply wp_mono; [exact Hp|]. intros [] s3 Hs3.
  destruct fuel as [|fuel]; [lia|]. cbn [fill_queue].
  pose proof Hs3 as (Hcr3 & t3 & Ht3 & Htm3 & Hq3 & E3). apply wp_bind. eapply wp_the_tty; [done|].
  assert (FULL (write_q t3) = false) as ->.
  { apply not_true_is_false. rewrite FULL_contents, E3 by done. rewrite length_app. cbn [length]. lia. }
  apply wp_bind, wp_get. rewrite Hcr3. apply wp_bind. unfold output_char.
  assert (O_POST t3 = true ∧ O_CRNL t3 = O_CRNL t0 ∧ O_NLRET t3 = O_NLRET t0 ∧ O_LCUC t3 = false) as (-> & -> & -> & ->).
  { rewrite <- Hlcuc, <- Epost. unfold O_POST, O_CRNL, O_NLRET, O_LCUC, O_FLAG. by rewrite Htm3. }
  fold c. cbn zeta. cbn [negb]. rewrite andb_false_r. cbn [andb]. apply wp_ret.
  assert (c = 10) as Hc10 by (apply andb_true_iff in Enl as [?%Z.eqb_eq _]; done). rewrite Hc10.
  change (s8 13) with 13 in Hs3.
  apply wp_bind. eapply wp_mono; [apply (wp_bind_inv _ (λ _, upd_write_q i (PUTCH 10))), (put_out (l ++ [13]) true false 10 s3); [rewrite length_app; cbn [length]; lia|done]|].
  intros [] s4 Hp4. apply wp_bind. eapply wp_mono; [exact Hp4|]. intros [] s5 Hs5. change (s8 10) with 10 in Hs5.
  replace (l ++ [13; 10] ++ output t0 buf) with (((l ++ [13]) ++ [10]) ++ output t0 buf) by (by rewrite <- !app_assoc).
  apply IH; [lia| |done]. rewrite !length_app. cbn [length]. lia.
Qed.
End filling.


(** typing "lx", erase, "s", CR at the console with its echo off *)
Definition demo_ttys (typed : list Z) : ttys :=
  mk_ttys ((λ t, set_read_q (foldl (λ q c, PUTCH c q) (read_q t) typed)
                  (set_tty_termios (set_c_lflag (ISIG + ICANON) (tty_termios t)) t)) <$> init_tty_table)
    false con_static [] (mk_sched [] 0 0 0 0).


