(* ===== verification/FsData.v ===== *)
(** * The state of the file system

    The in-memory structures of [include/linux/fs.h] and the tables of the
    file system, kept in the [up] component of the buffer cache's state, with
    the tasks, the memory manager and the terminals beside them.  The pointers between them
    are indices into the tables. *)

From S2P Require Import Prelude Blk Buffer Task Memory Console Tty.

(** ** Constants *)
Definition NAME_LEN : nat := 14.
Definition ROOT_INO : Z := 1.
Definition I_MAP_SLOTS : nat := 8.
Definition Z_MAP_SLOTS : nat := 8.
Definition SUPER_MAGIC : Z := 0x137F.
Definition NR_INODE : nat := 32.
Definition NR_FILE : nat := 64.
Definition NR_SUPER : nat := 8.
Definition INODES_PER_BLOCK : Z := 32.
Definition DIR_ENTRIES_PER_BLOCK : Z := 64.

Definition S_IFMT : Z := 0xF000.
Definition S_IFREG : Z := 0x8000.
Definition S_IFBLK : Z := 0x6000.
Definition S_IFDIR : Z := 0x4000.
Definition S_IFCHR : Z := 0x2000.
Definition S_IFIFO : Z := 0x1000.
Definition S_ISVTX : Z := 0x200.
Definition I_DIRECTORY : Z := 0x4000.
Definition I_REGULAR : Z := 0x8000.
Definition S_ISREG (m : Z) : bool := Z.land m S_IFMT =? S_IFREG.
Definition S_ISDIR (m : Z) : bool := Z.land m S_IFMT =? S_IFDIR.
Definition S_ISCHR (m : Z) : bool := Z.land m S_IFMT =? S_IFCHR.
Definition S_ISBLK (m : Z) : bool := Z.land m S_IFMT =? S_IFBLK.


(** flags of open (include/fcntl.h) *)
Definition O_ACCMODE : Z := 3.
Definition O_WRONLY : Z := 1.
Definition O_CREAT : Z := 0x40.
Definition O_EXCL : Z := 0x80.
Definition O_TRUNC : Z := 0x200.
Definition O_APPEND : Z := 0x400.
Definition O_NONBLOCK : Z := 0x800.

(** ** Data *)

(** [struct m_inode], without its wait queue and the unused [i_seek] and
    [i_update] *)
Record m_inode := mk_inode {
  i_mode : Z;
  i_uid : Z;
  i_size : Z;
  i_mtime : Z;
  i_gid : Z;
  i_nlinks : Z;
  i_zone : list Z;
  i_atime : Z;
  i_ctime : Z;
  i_dev : Z;
  i_num : Z;
  i_count : Z;
  i_lock : bool;
  i_dirt : bool;
  i_pipe : bool;
  i_mount : bool
}.

Definition set_i_mode (v : Z) (x : m_inode) : m_inode :=
  mk_inode v (i_uid x) (i_size x) (i_mtime x) (i_gid x) (i_nlinks x) (i_zone x) (i_atime x) (i_ctime x) (i_dev x) (i_num x) (i_count x) (i_lock x) (i_dirt x) (i_pipe x) (i_mount x).
Definition set_i_uid (v : Z) (x : m_inode) : m_inode :=
  mk_inode (i_mode x) v (i_size x) (i_mtime x) (i_gid x) (i_nlinks x) (i_zone x) (i_atime x) (i_ctime x) (i_dev x) (i_num x) (i_count x) (i_lock x) (i_dirt x) (i_pipe x) (i_mount x).
Definition set_i_size (v : Z) (x : m_inode) : m_inode :=
  mk_inode (i_mode x) (i_uid x) v (i_mtime x) (i_gid x) (i_nlinks x) (i_zone x) (i_atime x) (i_ctime x) (i_dev x) (i_num x) (i_count x) (i_lock x) (i_dirt x) (i_pipe x) (i_mount x).
Definition set_i_mtime (v : Z) (x : m_inode) : m_inode :=
  mk_inode (i_mode x) (i_uid x) (i_size x) v (i_gid x) (i_nlinks x) (i_zone x) (i_atime x) (i_ctime x) (i_dev x) (i_num x) (i_count x) (i_lock x) (i_dirt x) (i_pipe x) (i_mount x).
Definition set_i_gid (v : Z) (x : m_inode) : m_inode :=
  mk_inode (i_mode x) (i_uid x) (i_size x) (i_mtime x) v (i_nlinks x) (i_zone x) (i_atime x) (i_ctime x) (i_dev x) (i_num x) (i_count x) (i_lock x) (i_dirt x) (i_pipe x) (i_mount x).
Definition set_i_nlinks (v : Z) (x : m_inode) : m_inode :=
  mk_inode (i_mode x) (i_uid x) (i_size x) (i_mtime x) (i_gid x) v (i_zone x) (i_atime x) (i_ctime x) (i_dev x) (i_num x) (i_count x) (i_lock x) (i_dirt x) (i_pipe x) (i_mount x).
Definition set_i_zone (v : list Z) (x : m_inode) : m_inode :=
  mk_inode (i_mode x) (i_uid x) (i_size x) (i_mtime x) (i_gid x) (i_nlinks x) v (i_atime x) (i_ctime x) (i_dev x) (i_num x) (i_count x) (i_lock x) (i_dirt x) (i_pipe x) (i_mount x).
Definition set_i_atime (v : Z) (x : m_inode) : m_inode :=
  mk_inode (i_mode x) (i_uid x) (i_size x) (i_mtime x) (i_gid x) (i_nlinks x) (i_zone x) v (i_ctime x) (i_dev x) (i_num x) (i_count x) (i_lock x) (i_dirt x) (i_pipe x) (i_mount x).
Definition set_i_ctime (v : Z) (x : m_inode) : m_inode :=
  mk_inode (i_mode x) (i_uid x) (i_size x) (i_mtime x) (i_gid x) (i_nlinks x) (i_zone x) (i_atime x) v (i_dev x) (i_num x) (i_count x) (i_lock x) (i_dirt x) (i_pipe x) (i_mount x).
Definition set_i_dev (v : Z) (x : m_inode) : m_inode :=
  mk_inode (i_mode x) (i_uid x) (i_size x) (i_mtime x) (i_gid x) (i_nlinks x) (i_zone x) (i_atime x) (i_ctime x) v (i_num x) (i_count x) (i_lock x) (i_dirt x) (i_pipe x) (i_mount x).
Definition set_i_num (v : Z) (x : m_inode) : m_inode :=
  mk_inode (i_mode x) (i_uid x) (i_size x) (i_mtime x) (i_gid x) (i_nlinks x) (i_zone x) (i_atime x) (i_ctime x) (i_dev x) v (i_count x) (i_lock x) (i_dirt x) (i_pipe x) (i_mount x).
Definition set_i_count (v : Z) (x : m_inode) : m_inode :=
  mk_inode (i_mode x) (i_uid x) (i_size x) (i_mtime x) (i_gid x) (i_nlinks x) (i_zone x) (i_atime x) (i_ctime x) (i_dev x) (i_num x) v (i_lock x) (i_dirt x) (i_pipe x) (i_mount x).
Definition set_i_lock (v : bool) (x : m_inode) : m_inode :=
  mk_inode (i_mode x) (i_uid x) (i_size x) (i_mtime x) (i_gid x) (i_nlinks x) (i_zone x) (i_atime x) (i_ctime x) (i_dev x) (i_num x) (i_count x) v (i_dirt x) (i_pipe x) (i_mount x).
Definition set_i_dirt (v : bool) (x : m_inode) : m_inode :=
  mk_inode (i_mode x) (i_uid x) (i_size x) (i_mtime x) (i_gid x) (i_nlinks x) (i_zone x) (i_atime x) (i_ctime x) (i_dev x) (i_num x) (i_count x) (i_lock x) v (i_pipe x) (i_mount x).
Definition set_i_pipe (v : bool) (x : m_inode) : m_inode :=
  mk_inode (i_mode x) (i_uid x) (i_size x) (i_mtime x) (i_gid x) (i_nlinks x) (i_zone x) (i_atime x) (i_ctime x) (i_dev x) (i_num x) (i_count x) (i_lock x) (i_dirt x) v (i_mount x).
Definition set_i_mount (v : bool) (x : m_inode) : m_inode :=
  mk_inode (i_mode x) (i_uid x) (i_size x) (i_mtime x) (i_gid x) (i_nlinks x) (i_zone x) (i_atime x) (i_ctime x) (i_dev x) (i_num x) (i_count x) (i_lock x) (i_dirt x) (i_pipe x) v.

(** an inode as [memset] leaves it *)
Definition zero_inode : m_inode :=
  mk_inode 0 0 0 0 0 0 (replicate 9 0) 0 0 0 0 0 false false false false.

(** [struct file] *)
Record file := mk_file {
  f_mode : Z;
  f_flags : Z;
  f_count : Z;
  f_inode : ptr;
  f_pos : Z
}.

Definition set_f_mode (v : Z) (x : file) : file :=
  mk_file v (f_flags x) (f_count x) (f_inode x) (f_pos x).
Definition set_f_flags (v : Z) (x : file) : file :=
  mk_file (f_mode x) v (f_count x) (f_inode x) (f_pos x).
Definition set_f_count (v : Z) (x : file) : file :=
  mk_file (f_mode x) (f_flags x) v (f_inode x) (f_pos x).
Definition set_f_inode (v : ptr) (x : file) : file :=
  mk_file (f_mode x) (f_flags x) (f_count x) v (f_pos x).
Definition set_f_pos (v : Z) (x : file) : file :=
  mk_file (f_mode x) (f_flags x) (f_count x) (f_inode x) v.

(** [struct super_block] *)
Record super_blk := mk_sb {
  s_ninodes : Z;
  s_nzones : Z;
  s_imap_blocks : Z;
  s_zmap_blocks : Z;
  s_firstdatazone : Z;
  s_log_zone_size : Z;
  s_max_size : Z;
  s_magic : Z;
  s_imap : list ptr;
  s_zmap : list ptr;
  s_dev : Z;
  s_isup : ptr;
  s_imount : ptr;
  s_time : Z;
  s_lock : bool;
  s_rd_only : Z;
  s_dirt : Z
}.

Definition set_s_ninodes (v : Z) (x : super_blk) : super_blk :=
  mk_sb v (s_nzones x) (s_imap_blocks x) (s_zmap_blocks x) (s_firstdatazone x) (s_log_zone_size x) (s_max_size x) (s_magic x) (s_imap x) (s_zmap x) (s_dev x) (s_isup x) (s_imount x) (s_time x) (s_lock x) (s_rd_only x) (s_dirt x).
Definition set_s_nzones (v : Z) (x : super_blk) : super_blk :=
  mk_sb (s_ninodes x) v (s_imap_blocks x) (s_zmap_blocks x) (s_firstdatazone x) (s_log_zone_size x) (s_max_size x) (s_magic x) (s_imap x) (s_zmap x) (s_dev x) (s_isup x) (s_imount x) (s_time x) (s_lock x) (s_rd_only x) (s_dirt x).
Definition set_s_imap_blocks (v : Z) (x : super_blk) : super_blk :=
  mk_sb (s_ninodes x) (s_nzones x) v (s_zmap_blocks x) (s_firstdatazone x) (s_log_zone_size x) (s_max_size x) (s_magic x) (s_imap x) (s_zmap x) (s_dev x) (s_isup x) (s_imount x) (s_time x) (s_lock x) (s_rd_only x) (s_dirt x).
Definition set_s_zmap_blocks (v : Z) (x : super_blk) : super_blk :=
  mk_sb (s_ninodes x) (s_nzones x) (s_imap_blocks x) v (s_firstdatazone x) (s_log_zone_size x) (s_max_size x) (s_magic x) (s_imap x) (s_zmap x) (s_dev x) (s_isup x) (s_imount x) (s_time x) (s_lock x) (s_rd_only x) (s_dirt x).
Definition set_s_firstdatazone (v : Z) (x : super_blk) : super_blk :=
  mk_sb (s_ninodes x) (s_nzones x) (s_imap_blocks x) (s_zmap_blocks x) v (s_log_zone_size x) (s_max_size x) (s_magic x) (s_imap x) (s_zmap x) (s_dev x) (s_isup x) (s_imount x) (s_time x) (s_lock x) (s_rd_only x) (s_dirt x).
Definition set_s_log_zone_size (v : Z) (x : super_blk) : super_blk :=
  mk_sb (s_ninodes x) (s_nzones x) (s_imap_blocks x) (s_zmap_blocks x) (s_firstdatazone x) v (s_max_size x) (s_magic x) (s_imap x) (s_zmap x) (s_dev x) (s_isup x) (s_imount x) (s_time x) (s_lock x) (s_rd_only x) (s_dirt x).
Definition set_s_max_size (v : Z) (x : super_blk) : super_blk :=
  mk_sb (s_ninodes x) (s_nzones x) (s_imap_blocks x) (s_zmap_blocks x) (s_firstdatazone x) (s_log_zone_size x) v (s_magic x) (s_imap x) (s_zmap x) (s_dev x) (s_isup x) (s_imount x) (s_time x) (s_lock x) (s_rd_only x) (s_dirt x).
Definition set_s_magic (v : Z) (x : super_blk) : super_blk :=
  mk_sb (s_ninodes x) (s_nzones x) (s_imap_blocks x) (s_zmap_blocks x) (s_firstdatazone x) (s_log_zone_size x) (s_max_size x) v (s_imap x) (s_zmap x) (s_dev x) (s_isup x) (s_imount x) (s_time x) (s_lock x) (s_rd_only x) (s_dirt x).
Definition set_s_imap (v : list ptr) (x : super_blk) : super_blk :=
  mk_sb (s_ninodes x) (s_nzones x) (s_imap_blocks x) (s_zmap_blocks x) (s_firstdatazone x) (s_log_zone_size x) (s_max_size x) (s_magic x) v (s_zmap x) (s_dev x) (s_isup x) (s_imount x) (s_time x) (s_lock x) (s_rd_only x) (s_dirt x).
Definition set_s_zmap (v : list ptr) (x : super_blk) : super_blk :=
  mk_sb (s_ninodes x) (s_nzones x) (s_imap_blocks x) (s_zmap_blocks x) (s_firstdatazone x) (s_log_zone_size x) (s_max_size x) (s_magic x) (s_imap x) v (s_dev x) (s_isup x) (s_imount x) (s_time x) (s_lock x) (s_rd_only x) (s_dirt x).
Definition set_s_dev (v : Z) (x : super_blk) : super_blk :=
  mk_sb (s_ninodes x) (s_nzones x) (s_imap_blocks x) (s_zmap_blocks x) (s_firstdatazone x) (s_log_zone_size x) (s_max_size x) (s_magic x) (s_imap x) (s_zmap x) v (s_isup x) (s_imount x) (s_time x) (s_lock x) (s_rd_only x) (s_dirt x).
Definition set_s_isup (v : ptr) (x : super_blk) : super_blk :=
  mk_sb (s_ninodes x) (s_nzones x) (s_imap_blocks x) (s_zmap_blocks x) (s_firstdatazone x) (s_log_zone_size x) (s_max_size x) (s_magic x) (s_imap x) (s_zmap x) (s_dev x) v (s_imount x) (s_time x) (s_lock x) (s_rd_only x) (s_dirt x).
Definition set_s_imount (v : ptr) (x : super_blk) : super_blk :=
  mk_sb (s_ninodes x) (s_nzones x) (s_imap_blocks x) (s_zmap_blocks x) (s_firstdatazone x) (s_log_zone_size x) (s_max_size x) (s_magic x) (s_imap x) (s_zmap x) (s_dev x) (s_isup x) v (s_time x) (s_lock x) (s_rd_only x) (s_dirt x).
Definition set_s_time (v : Z) (x : super_blk) : super_blk :=
  mk_sb (s_ninodes x) (s_nzones x) (s_imap_blocks x) (s_zmap_blocks x) (s_firstdatazone x) (s_log_zone_size x) (s_max_size x) (s_magic x) (s_imap x) (s_zmap x) (s_dev x) (s_isup x) (s_imount x) v (s_lock x) (s_rd_only x) (s_dirt x).
Definition set_s_lock (v : bool) (x : super_blk) : super_blk :=
  mk_sb (s_ninodes x) (s_nzones x) (s_imap_blocks x) (s_zmap_blocks x) (s_firstdatazone x) (s_log_zone_size x) (s_max_size x) (s_magic x) (s_imap x) (s_zmap x) (s_dev x) (s_isup x) (s_imount x) (s_time x) v (s_rd_only x) (s_dirt x).
Definition set_s_rd_only (v : Z) (x : super_blk) : super_blk :=
  mk_sb (s_ninodes x) (s_nzones x) (s_imap_blocks x) (s_zmap_blocks x) (s_firstdatazone x) (s_log_zone_size x) (s_max_size x) (s_magic x) (s_imap x) (s_zmap x) (s_dev x) (s_isup x) (s_imount x) (s_time x) (s_lock x) v (s_dirt x).
Definition set_s_dirt (v : Z) (x : super_blk) : super_blk :=
  mk_sb (s_ninodes x) (s_nzones x) (s_imap_blocks x) (s_zmap_blocks x) (s_firstdatazone x) (s_log_zone_size x) (s_max_size x) (s_magic x) (s_imap x) (s_zmap x) (s_dev x) (s_isup x) (s_imount x) (s_time x) (s_lock x) (s_rd_only x) v.

(** the tables *)
Record kernel := mk_kernel {
  inode_table : list m_inode;
  last_inode : nat;
  file_table : list file;
  super_block : list super_blk;
  ROOT_DEV : Z;
  k_sched : sched;
  k_mem : mem;
  k_ttys : ttys
}.

Definition set_inode_table (v : list m_inode) (x : kernel) : kernel :=
  mk_kernel v (last_inode x) (file_table x) (super_block x) (ROOT_DEV x) (k_sched x) (k_mem x) (k_ttys x).
Definition set_last_inode (v : nat) (x : kernel) : kernel :=
  mk_kernel (inode_table x) v (file_table x) (super_block x) (ROOT_DEV x) (k_sched x) (k_mem x) (k_ttys x).
Definition set_file_table (v : list file) (x : kernel) : kernel :=
  mk_kernel (inode_table x) (last_inode x) v (super_block x) (ROOT_DEV x) (k_sched x) (k_mem x) (k_ttys x).
Definition set_super_block (v : list super_blk) (x : kernel) : kernel :=
  mk_kernel (inode_table x) (last_inode x) (file_table x) v (ROOT_DEV x) (k_sched x) (k_mem x) (k_ttys x).
Definition set_ROOT_DEV (v : Z) (x : kernel) : kernel :=
  mk_kernel (inode_table x) (last_inode x) (file_table x) (super_block x) v (k_sched x) (k_mem x) (k_ttys x).
Definition set_k_sched (v : sched) (x : kernel) : kernel :=
  mk_kernel (inode_table x) (last_inode x) (file_table x) (super_block x) (ROOT_DEV x) v (k_mem x) (k_ttys x).
Definition set_k_mem (v : mem) (x : kernel) : kernel :=
  mk_kernel (inode_table x) (last_inode x) (file_table x) (super_block x) (ROOT_DEV x) (k_sched x) v (k_ttys x).
Definition set_k_ttys (v : ttys) (x : kernel) : kernel :=
  mk_kernel (inode_table x) (last_inode x) (file_table x) (super_block x) (ROOT_DEV x) (k_sched x) (k_mem x) v.

(** the terminals at boot *)
Definition init_ttys : ttys := mk_ttys init_tty_table false con_static [] (mk_sched [] 0 0 0 0).

(** ** Access *)
Section access.
Context {D : Type} `{BlockDriver D}.
Abbreviation st := (bstate D kernel).

Definition upd_up (f : kernel → kernel) : M st unit := λ s, Ret tt (set_up (f (up s)) s).

Definition the_inode (i : nat) : M st m_inode := λ s, of_opt (inode_table (up s) !! i) s.
Definition upd_inode (i : nat) (f : m_inode → m_inode) : M st unit := λ s,
  match inode_table (up s) !! i with
  | Some x => Ret tt (set_up (set_inode_table (<[i := f x]> (inode_table (up s))) (up s)) s)
  | None => Fault
  end.
Definition the_file (i : nat) : M st file := λ s, of_opt (file_table (up s) !! i) s.
Definition upd_file (i : nat) (f : file → file) : M st unit := λ s,
  match file_table (up s) !! i with
  | Some x => Ret tt (set_up (set_file_table (<[i := f x]> (file_table (up s))) (up s)) s)
  | None => Fault
  end.
Definition the_sb (i : nat) : M st super_blk := λ s, of_opt (super_block (up s) !! i) s.
Definition upd_sb (i : nat) (f : super_blk → super_blk) : M st unit := λ s,
  match super_block (up s) !! i with
  | Some x => Ret tt (set_up (set_super_block (<[i := f x]> (super_block (up s))) (up s)) s)
  | None => Fault
  end.

(** running a function of the scheduler or of the memory manager *)
Definition on_sched {A} (m : M sched A) : M st A := λ s,
  match m (k_sched (up s)) with
  | Ret a x => Ret a (set_up (set_k_sched x (up s)) s)
  | Panic w => Panic w
  | Sleep x => Sleep (set_up (set_k_sched x (up s)) s)
  | Exit c x => Exit c (set_up (set_k_sched x (up s)) s)
  | Fault => Fault
  | NoFuel => NoFuel
  end.
Definition on_mem {A} (m : M mem A) : M st A := λ s,
  match m (k_mem (up s)) with
  | Ret a x => Ret a (set_up (set_k_mem x (up s)) s)
  | Panic w => Panic w
  | Sleep x => Sleep (set_up (set_k_mem x (up s)) s)
  | Exit c x => Exit c (set_up (set_k_mem x (up s)) s)
  | Fault => Fault
  | NoFuel => NoFuel
  end.
(** the terminals share the tasks with the rest of the kernel *)
Definition on_tty {A} (m : M ttys A) : M st A := λ s,
  let k := up s in
  match m (set_tty_sched (k_sched k) (k_ttys k)) with
  | Ret a x => Ret a (set_up (set_k_sched (tty_sched x) (set_k_ttys x k)) s)
  | Panic w => Panic w
  | Sleep x => Sleep (set_up (set_k_sched (tty_sched x) (set_k_ttys x k)) s)
  | Exit c x => Exit c (set_up (set_k_sched (tty_sched x) (set_k_ttys x k)) s)
  | Fault => Fault
  | NoFuel => NoFuel
  end.
(** [*current] *)
Definition the_current : M st task_struct := on_sched cur.
Definition upd_current (f : task_struct → task_struct) : M st unit := on_sched (upd_cur f).
Definition now : M st Z := gets (λ s, CURRENT_TIME (k_sched (up s))).
End access.
