(* ===== verification/KernelRules.v ===== *)
(** * Proof rules for the tables of the kernel

    One rule per access to the inode table, the file table and the current
    task, in the style of the rules of the prelude. *)
From S2P Require Import Prelude Blk Buffer Task FsData.

Section kernel_rules.
Context {D : Type} `{BlockDriver D}.
Abbreviation st := (bstate D kernel).
Implicit Types (s : st).

Lemma wp_the_inode s i x (Q : m_inode → st → Prop) :
  inode_table (up s) !! i = Some x → Q x s → wp (the_inode i) Q s.
Proof. intros Hi HQ. unfold wp, the_inode. by rewrite Hi. Qed.
Lemma wp_upd_inode s i x g (Q : unit → st → Prop) :
  inode_table (up s) !! i = Some x →
  Q tt (set_up (set_inode_table (<[i := g x]> (inode_table (up s))) (up s)) s) → wp (upd_inode i g) Q s.
Proof. intros Hi HQ. unfold wp, upd_inode. by rewrite Hi. Qed.

Lemma wp_the_file s i f (Q : file → st → Prop) :
  file_table (up s) !! i = Some f → Q f s → wp (the_file i) Q s.
Proof. intros Hi HQ. unfold wp, the_file. by rewrite Hi. Qed.
Lemma wp_upd_file s i f g (Q : unit → st → Prop) :
  file_table (up s) !! i = Some f →
  Q tt (set_up (set_file_table (<[i := g f]> (file_table (up s))) (up s)) s) → wp (upd_file i g) Q s.
Proof. intros Hi HQ. unfold wp, upd_file. by rewrite Hi. Qed.

(** the state with the current task replaced *)
Definition with_current (c : task_struct) s : st := set_up (set_k_sched (with_cur c (k_sched (up s))) (up s)) s.

Lemma wp_the_current s c (Q : task_struct → st → Prop) :
  is_cur (k_sched (up s)) c → Q c s → wp the_current Q s.
Proof.
  intros Hc HQ. pose proof (wp_cur c (λ t k, t = c ∧ k = k_sched (up s)) _ Hc (conj eq_refl eq_refl)) as Hr.
  apply wp_exists in Hr as (t & k & Hr & -> & ->). unfold wp, the_current, on_sched. rewrite Hr.
  by destruct s as [? ? ? ? []].
Qed.
Lemma wp_upd_current s c f (Q : unit → st → Prop) :
  is_cur (k_sched (up s)) c → Q tt (with_current (f c) s) → wp (upd_current f) Q s.
Proof.
  intros Hc HQ. pose proof (wp_upd_cur c f (λ _ k, k = with_cur (f c) (k_sched (up s))) _ Hc eq_refl) as Hr.
  apply wp_exists in Hr as ([] & k & Hr & ->). unfold wp, upd_current, on_sched. by rewrite Hr.
Qed.

Lemma with_current_twice c c' s : with_current c' (with_current c s) = with_current c' s.
Proof. unfold with_current. cbn. by rewrite with_cur_twice. Qed.
Lemma with_current_cur c c' s : is_cur (k_sched (up s)) c → is_cur (k_sched (up (with_current c' s))) c'.
Proof. apply is_cur_with. Qed.
End kernel_rules.

#[export] Hint Resolve with_current_cur : kernel.
