(* ===== verification/Bitmap.v ===== *)
(** * Inode and block bitmaps

    Models [linux-0.11/fs/bitmap.c] without [new_inode], which is in [Inode.v],
    and the lookup of a superblock, [get_super] of [fs/super.c]. *)

From S2P Require Import Prelude Blk Buffer BufferQueues BufferCache Memory Task FsData.

(** ** Bits of a block *)

(** bit [nr] of the memory at [addr], as [btsl] and [btrl] find it *)
Definition bit_at (d : bytes) (nr : Z) : bool := Z.testbit (byte_at d (nr / 8)) (nr mod 8).
(** [set_bit] and [clear_bit] without their results: the bit's old value, and
    whether it was clear already *)
Definition set_bit (nr : Z) (d : bytes) : bytes :=
  set_byte d (nr / 8) (Z.lor (byte_at d (nr / 8)) (Z.shiftl 1 (nr mod 8))).
Definition clear_bit (nr : Z) (d : bytes) : bytes :=
  set_byte d (nr / 8) (Z.land (byte_at d (nr / 8)) (Z.lnot (Z.shiftl 1 (nr mod 8)))).

(** [lodsl]: the 32-bit word number [i] *)
Definition word_at (d : bytes) (i : Z) : Z :=
  byte_at d (4 * i) + 2 ^ 8 * byte_at d (4 * i + 1) + 2 ^ 16 * byte_at d (4 * i + 2)
  + 2 ^ 24 * byte_at d (4 * i + 3).
(** [bsfl]: the number of the lowest bit set, nothing when the word is 0 *)
Definition bsf (w : Z) : option nat := find_idx (λ k, Z.testbit w (Z.of_nat k)) (seq 0 32).

(** the loop of [find_first_zero], with [n] words left *)
Fixpoint find_first_zero_loop (n : nat) (i : Z) (d : bytes) : Z :=
  match n with
  | O => 32 * i
  | S n' =>
    match bsf (u32 (Z.lnot (word_at d i))) with
    | Some k => 32 * i + Z.of_nat k
    | None => find_first_zero_loop n' (i + 1) d
    end
  end.
Definition find_first_zero (d : bytes) : Z := find_first_zero_loop 256 0 d.

Section bitmap.
Context {D : Type} `{BlockDriver D}.
Abbreviation st := (bstate D kernel).
Context (sync_inodes : M st unit).

(** ** super.c: finding a superblock *)
Definition wait_on_super (sb : nat) : M st unit :=
  s ← the_sb sb;
  if s_lock s then blocked else mret tt.

(** [get_super]: a task that slept in it starts the search again, so without
    sleeping the loop runs once through the table *)
Fixpoint get_super_from (n sb : nat) (dev : Z) : M st ptr :=
  match n with
  | O => mret None
  | S n' =>
    s ← the_sb sb;
    if s_dev s =? dev then
      wait_on_super sb ;;
      s ← the_sb sb;
      if s_dev s =? dev then mret (Some sb) else nofuel
    else get_super_from n' (S sb) dev
  end.
Definition get_super (dev : Z) : M st ptr :=
  if dev =? 0 then mret None else get_super_from NR_SUPER 0 dev.

(** ** bitmap.c *)

(** the buffer of a bitmap: [sb->s_zmap[i]] as a pointer that is followed *)
Definition map_buffer (l : list ptr) (i : Z) : M st nat :=
  if i <? 0 then fault else p ← of_opt (l !! Z.to_nat i); of_opt p.

Definition free_block (dev block : Z) : M st unit :=
  sbp ← get_super dev;
  match sbp with
  | None => panic "trying to free block on nonexistent device"
  | Some sb =>
    s ← the_sb sb;
    if (block <? s_firstdatazone s) || (s_nzones s <=? block)
    then panic "trying to free block not in datazone"
    else
      p ← get_hash_table dev block;
      go ← match p with
           | None => mret true
           | Some bh =>
             b ← the_buf bh;
             if negb (b_count b =? 1) then mret false
             else
               upd_buf bh (set_b_dirt false) ;;
               upd_buf bh (set_b_uptodate false) ;;
               brelse (Some bh) ;;
               mret true
           end;
      if negb (go : bool) then mret tt
      else
        let block := block - (s_firstdatazone s - 1) in
        zm ← map_buffer (s_zmap s) (Z.quot block 8192);
        z ← the_buf zm;
        let nr := Z.land block 8191 in
        upd_buf zm (set_b_data (clear_bit nr (b_data z))) ;;
        (if negb (bit_at (b_data z) nr) then panic "free_block: bit already cleared" else mret tt) ;;
        upd_buf zm (set_b_dirt true)
  end.

(** the search of [new_block] and [new_inode]: the first bitmap from number
    [i] on, of the [n] left, with a bit that is clear *)
Fixpoint find_map (n i : nat) (l : list ptr) : M st (option (nat * nat * Z)) :=
  match n with
  | O => mret None
  | S n' =>
    p ← of_opt (l !! i);
    match p with
    | None => find_map n' (S i) l
    | Some bh =>
      b ← the_buf bh;
      let j := find_first_zero (b_data b) in
      if j <? 8192 then mret (Some (i, bh, j)) else find_map n' (S i) l
    end
  end.

Definition new_block (dev : Z) : M st Z :=
  sbp ← get_super dev;
  match sbp with
  | None => panic "trying to get new block from nonexistant device"
  | Some sb =>
    s ← the_sb sb;
    r ← find_map Z_MAP_SLOTS 0 (s_zmap s);
    match r with
    | None => mret 0
    | Some (i, bh, j) =>
      b ← the_buf bh;
      upd_buf bh (set_b_data (set_bit j (b_data b))) ;;
      (if bit_at (b_data b) j then panic "new_block: bit already set" else mret tt) ;;
      upd_buf bh (set_b_dirt true) ;;
      let j := j + Z.of_nat i * 8192 + s_firstdatazone s - 1 in
      if s_nzones s <=? j then mret 0
      else
        bh ← getblk sync_inodes dev j;
        b ← the_buf bh;
        if negb (b_count b =? 1) then panic "new block: count is != 1"
        else
          upd_buf bh (set_b_data (replicate 1024 0)) ;;
          upd_buf bh (set_b_uptodate true) ;;
          upd_buf bh (set_b_dirt true) ;;
          brelse (Some bh) ;;
          mret j
    end
  end.

Definition free_inode (inode : ptr) : M st unit :=
  match inode with
  | None => mret tt
  | Some ino =>
    x ← the_inode ino;
    if i_dev x =? 0 then upd_inode ino (λ _, zero_inode)
    else if 1 <? i_count x then panic "free_inode"
    else if negb (i_nlinks x =? 0) then panic "trying to free inode with links"
    else
      sbp ← get_super (i_dev x);
      match sbp with
      | None => panic "trying to free inode on nonexistent device"
      | Some sb =>
        s ← the_sb sb;
        if (i_num x <? 1) || (s_ninodes s <? i_num x)
        then panic "trying to free inode 0 or nonexistant inode"
        else
          p ← of_opt (s_imap s !! Z.to_nat (Z.shiftr (i_num x) 13));
          match p with
          | None => panic "nonexistent imap in superblock"
          | Some bh =>
            b ← the_buf bh;
            upd_buf bh (set_b_data (clear_bit (Z.land (i_num x) 8191) (b_data b))) ;;
            upd_buf bh (set_b_dirt true) ;;
            upd_inode ino (λ _, zero_inode)
          end
      end
  end.
End bitmap.

(** ** Bits and words *)

Lemma bit_index_lt (d : bytes) nr : 0 ≤ nr < 8192 → length d = 1024%nat → 0 ≤ nr / 8 < Z.of_nat (length d).
Proof.
  intros Hn ->. split; [apply Z.div_pos; lia|]. apply Z.div_lt_upper_bound; lia.
Qed.

Lemma bit_decomp a b : a / 8 = b / 8 → a mod 8 = b mod 8 → a = b.
Proof. intros H1 H2. rewrite (Z.div_mod a 8), (Z.div_mod b 8), H1, H2 by done. done. Qed.

Lemma bit_at_set (d : bytes) nr k :
  length d = 1024%nat → 0 ≤ nr < 8192 → 0 ≤ k →
  bit_at (set_bit nr d) k = (nr =? k) || bit_at d k.
Proof.
  intros Hd Hn Hk. unfold bit_at, set_bit.
  pose proof (Z.mod_pos_bound k 8 ltac:(done)). pose proof (Z.mod_pos_bound nr 8 ltac:(done)).
  rewrite byte_at_set by (by apply bit_index_lt || (apply Z.div_pos; lia)).
  destruct (decide (nr / 8 = k / 8)) as [He|He].
  - rewrite Z.lor_spec, Z.shiftl_spec by lia. rewrite He, orb_comm. f_equal.
    destruct (Z.eqb_spec nr k) as [->|Hne].
    + by replace (k mod 8 - k mod 8) with 0 by lia.
    + assert (nr mod 8 ≠ k mod 8) by (intros Hm; apply Hne; by apply bit_decomp).
      destruct (Z.ltb_spec (k mod 8 - nr mod 8) 0); [by apply Z.testbit_neg_r|].
      change 1 with (2 ^ 0). by rewrite Z.pow2_bits_false by lia.
  - destruct (Z.eqb_spec nr k) as [->|]; done.
Qed.

Lemma bit_at_clear (d : bytes) nr k :
  length d = 1024%nat → 0 ≤ nr < 8192 → 0 ≤ k →
  bit_at (clear_bit nr d) k = negb (nr =? k) && bit_at d k.
Proof.
  intros Hd Hn Hk. unfold bit_at, clear_bit.
  pose proof (Z.mod_pos_bound k 8 ltac:(done)). pose proof (Z.mod_pos_bound nr 8 ltac:(done)).
  rewrite byte_at_set by (by apply bit_index_lt || (apply Z.div_pos; lia)).
  destruct (decide (nr / 8 = k / 8)) as [He|He].
  - rewrite Z.land_spec, Z.lnot_spec, Z.shiftl_spec by lia. rewrite He, andb_comm. do 2 f_equal.
    destruct (Z.eqb_spec nr k) as [->|Hne].
    + by replace (k mod 8 - k mod 8) with 0 by lia.
    + assert (nr mod 8 ≠ k mod 8) by (intros Hm; apply Hne; by apply bit_decomp).
      destruct (Z.ltb_spec (k mod 8 - nr mod 8) 0); [by apply Z.testbit_neg_r|].
      change 1 with (2 ^ 0). by rewrite Z.pow2_bits_false by lia.
  - destruct (Z.eqb_spec nr k) as [->|]; done.
Qed.

Lemma length_set_bit nr d : length (set_bit nr d) = length d.
Proof. apply length_set_byte. Qed.
Lemma length_clear_bit nr d : length (clear_bit nr d) = length d.
Proof. apply length_set_byte. Qed.

Lemma byte_ok_bits b k : byte_ok b → 8 ≤ k → Z.testbit b k = false.
Proof.
  intros Hb Hk. unfold byte_ok in Hb. destruct (decide (b = 0)) as [->|]; [apply Z.bits_0|].
  apply Z.bits_above_log2; [lia|]. apply Z.log2_lt_pow2; [lia|].
  apply Z.lt_le_trans with (2 ^ 8); [lia|by apply Z.pow_le_mono_r; lia].
Qed.

(** two bytes side by side *)
Lemma testbit_two b h n k :
  0 ≤ b < 2 ^ n → 0 ≤ n → 0 ≤ k →
  Z.testbit (b + 2 ^ n * h) k = if k <? n then Z.testbit b k else Z.testbit h (k - n).
Proof.
  intros Hb Hn Hk. assert (b + 2 ^ n * h = Z.lor b (Z.shiftl h n)) as ->.
  { rewrite Z.shiftl_mul_pow2 by lia. rewrite (Z.mul_comm h).
    replace (2 ^ n * h) with (Z.shiftl h n) by (rewrite Z.shiftl_mul_pow2; lia).
    rewrite <- Z.lxor_lor; [rewrite <- Z.add_nocarry_lxor; [done|]|].
    all: apply Z.bits_inj'; intros i Hi; rewrite Z.land_spec, Z.shiftl_spec, Z.bits_0 by lia.
    all: destruct (Z.ltb_spec i n); [rewrite (Z.testbit_neg_r h) by lia; apply andb_false_r|].
    all: destruct (decide (b = 0)) as [->|]; [by rewrite Z.bits_0|].
    all: rewrite (Z.bits_above_log2 b); [done|lia|].
    all: apply Z.log2_lt_pow2; [lia|]; apply Z.lt_le_trans with (2 ^ n); [lia|by apply Z.pow_le_mono_r; lia]. }
  rewrite Z.lor_spec, Z.shiftl_spec by lia. destruct (Z.ltb_spec k n).
  - rewrite (Z.testbit_neg_r h) by lia. apply orb_false_r.
  - destruct (decide (b = 0)) as [->|]; [by rewrite Z.bits_0|].
    rewrite (Z.bits_above_log2 b); [done|lia|].
    apply Z.log2_lt_pow2; [lia|]. apply Z.lt_le_trans with (2 ^ n); [lia|by apply Z.pow_le_mono_r; lia].
Qed.

(** the bits of a word are the bits of its bytes, in order *)
Lemma word_at_bit d i k :
  Forall byte_ok d → 0 ≤ i → 0 ≤ k < 32 →
  Z.testbit (word_at d i) k = bit_at d (32 * i + k).
Proof.
  intros Hd Hi Hk. unfold word_at.
  set (b j := byte_at d (4 * i + j)). pose proof (λ j, byte_at_ok d j Hd) as Hb. unfold byte_ok in Hb.
  replace (byte_at d (4 * i)) with (b 0) by (unfold b; f_equal; lia).
  fold (b 1) (b 2) (b 3).
  assert (B : ∀ j, 0 ≤ b j < 256) by (intros; apply Hb).
  pose proof (B 0). pose proof (B 1). pose proof (B 2). pose proof (B 3).
  replace (b 0 + 2 ^ 8 * b 1 + 2 ^ 16 * b 2 + 2 ^ 24 * b 3)
    with (b 0 + 2 ^ 8 * (b 1 + 2 ^ 8 * (b 2 + 2 ^ 8 * b 3))) by lia.
  assert (Hbit : bit_at d (32 * i + k) = Z.testbit (b (k / 8)) (k mod 8)).
  { unfold bit_at, b. f_equal; [f_equal|].
    - replace (32 * i + k) with (4 * i * 8 + k) by lia. by rewrite Z.div_add_l by lia.
    - replace (32 * i + k) with (k + 4 * i * 8) by lia. by rewrite Z.mod_add by lia. }
  rewrite Hbit. rewrite testbit_two by lia.
  pose proof (Z.div_mod k 8 ltac:(done)) as Hkd. pose proof (Z.mod_pos_bound k 8 ltac:(done)) as Hkm.
  destruct (Z.ltb_spec k 8); [|rewrite testbit_two by lia; destruct (Z.ltb_spec (k - 8) 8);
    [|rewrite testbit_two by lia; destruct (Z.ltb_spec (k - 8 - 8) 8)]].
  - assert (Hq : k / 8 = 0) by ((apply Z.div_small; lia)). rewrite Hq. f_equal. lia.
  - assert (Hq : k / 8 = 1) by (lia). rewrite Hq. f_equal. lia.
  - assert (Hq : k / 8 = 2) by (lia). rewrite Hq. f_equal. lia.
  - assert (Hq : k / 8 = 3) by (lia). rewrite Hq. f_equal. lia.
Qed.

Lemma bsf_spec w : 0 ≤ w < 2 ^ 32 →
  match bsf w with
  | Some k => (k < 32)%nat ∧ Z.testbit w (Z.of_nat k) = true ∧
              ∀ j, 0 ≤ j < Z.of_nat k → Z.testbit w j = false
  | None => w = 0
  end.
Proof.
  intros Hw. unfold bsf. destruct (find_idx _ _) as [k|] eqn:Ek.
  - apply find_idx_Some in Ek as (x & Hx & Hbit & Hmin). apply lookup_seq in Hx as [-> Hk].
    split; [done|]. split; [done|]. intros j Hj.
    rewrite <- (Z2Nat.id j) by lia. apply (Hmin (Z.to_nat j) (Z.to_nat j)); [lia|].
    rewrite lookup_seq_lt by lia. done.
  - rewrite find_idx_None in Ek. apply Z.bits_inj'. intros j Hj. rewrite Z.bits_0.
    destruct (Z.ltb_spec j 32).
    + rewrite <- (Z2Nat.id j) by lia. apply Ek. apply elem_of_seq. lia.
    + destruct (decide (w = 0)) as [->|]; [apply Z.bits_0|].
      apply Z.bits_above_log2; [lia|]. apply Z.log2_lt_pow2; [lia|].
      apply Z.lt_le_trans with (2 ^ 32); [lia|by apply Z.pow_le_mono_r; lia].
Qed.

Lemma find_first_zero_loop_spec n : ∀ i d,
  Forall byte_ok d → 0 ≤ i →
  let r := find_first_zero_loop n i d in
  32 * i ≤ r ≤ 32 * (i + Z.of_nat n) ∧ (∀ k, 32 * i ≤ k < r → bit_at d k = true) ∧
  (r < 32 * (i + Z.of_nat n) → bit_at d r = false).
Proof.
  induction n as [|n IH]; intros i d Hd Hi; cbn [find_first_zero_loop]; cbn zeta.
  { split; [lia|]. split; intros; lia. }
  assert (Hnot : ∀ k, 0 ≤ k < 32 → Z.testbit (u32 (Z.lnot (word_at d i))) k = negb (bit_at d (32 * i + k))).
  { intros k Hk. unfold u32. rewrite Z.mod_pow2_bits_low by lia. rewrite Z.lnot_spec by lia.
    by rewrite word_at_bit. }
  pose proof (bsf_spec _ (u32_bound (Z.lnot (word_at d i)))) as Hbsf.
  destruct (bsf _) as [k|].
  - destruct Hbsf as (Hk & Hb & Hmin). rewrite Hnot in Hb by lia. split; [lia|]. split.
    + intros j Hj. specialize (Hmin (j - 32 * i) ltac:(lia)). rewrite Hnot in Hmin by lia.
      apply negb_false_iff in Hmin. by replace (32 * i + (j - 32 * i)) with j in Hmin by lia.
    + intros _. by apply negb_true_iff in Hb.
  - destruct (IH (i + 1) d Hd ltac:(lia)) as (Hr & Hall & Hz). cbn zeta in Hr, Hall, Hz.
    split; [lia|]. split.
    + intros j Hj. destruct (Z.ltb_spec j (32 * (i + 1))); [|apply Hall; lia].
      specialize (Hnot (j - 32 * i) ltac:(lia)). rewrite Hbsf, Z.bits_0 in Hnot.
      symmetry in Hnot. apply negb_false_iff in Hnot. by replace (32 * i + (j - 32 * i)) with j in Hnot by lia.
    + intros Hlt. apply Hz. lia.
Qed.

Lemma find_first_zero_spec d :
  Forall byte_ok d →
  let r := find_first_zero d in
  0 ≤ r ≤ 8192 ∧ (∀ k, 0 ≤ k < r → bit_at d k = true) ∧ (r < 8192 → bit_at d r = false).
Proof. intros Hd. apply (find_first_zero_loop_spec 256 0 d Hd). lia. Qed.

(** ** Properties *)

(** C18. [find_first_zero] returns the number of the lowest bit that is clear
    among the 8192 of a block, and 8192 when they are all set. *)
Theorem find_first_zero_least (d : bytes) :
  Forall byte_ok d →
  (∃ k, 0 ≤ k < 8192 ∧ bit_at d k = false) ∧ 0 ≤ find_first_zero d < 8192 ∧
    bit_at d (find_first_zero d) = false ∧ (∀ k, 0 ≤ k < find_first_zero d → bit_at d k = true) ∨
  (∀ k, 0 ≤ k < 8192 → bit_at d k = true) ∧ find_first_zero d = 8192.
Proof.
  intros Hd. destruct (find_first_zero_spec d Hd) as (Hr & Hall & Hz). cbn zeta in Hr, Hall, Hz.
  destruct (Z.ltb_spec (find_first_zero d) 8192); [left|right].
  - split; [|split; [lia|split; [by apply Hz|done]]]. exists (find_first_zero d). split; [lia|by apply Hz].
  - assert (find_first_zero d = 8192) as Heq by lia. split; [|done]. rewrite <- Heq. done.
Qed.

Lemma find_first_zero_least_witness :
  let d := set_bit 1 (set_bit 0 (replicate 1024 0)) in
  find_first_zero d = 2 ∧
  ((∃ k, 0 ≤ k < 8192 ∧ bit_at d k = false) ∧ 0 ≤ find_first_zero d < 8192 ∧
    bit_at d (find_first_zero d) = false ∧ (∀ k, 0 ≤ k < find_first_zero d → bit_at d k = true) ∨
  (∀ k, 0 ≤ k < 8192 → bit_at d k = true) ∧ find_first_zero d = 8192).
Proof.
  cbn zeta. split; [vm_compute; reflexivity|]. apply find_first_zero_least.
  unfold set_bit, set_byte. repeat apply Forall_insert; [apply Forall_replicate|..]; unfold byte_ok; [lia|vm_compute; split; congruence..].
Defined.

Section proofs.
Context {D : Type} `{BlockDriverOk D}.
Abbreviation st := (bstate D kernel).
Implicit Types (s : st) (x : super_blk).

(** [sb] is the superblock the kernel finds for device [dev] *)
Record super_at s (dev : Z) (sb : nat) x : Prop := {
  sa_dev : dev ≠ 0;
  sa_sb : super_block (up s) !! sb = Some x;
  sa_is : s_dev x = dev;
  sa_free : s_lock x = false;
  sa_lt : (sb < NR_SUPER)%nat;
  sa_first j y : (j < sb)%nat → super_block (up s) !! j = Some y → s_dev y ≠ dev;
  sa_len : length (super_block (up s)) = NR_SUPER
}.

Lemma wp_the_sb s sb x Q : super_block (up s) !! sb = Some x → Q x s → wp (the_sb sb) Q s.
Proof. unfold wp, the_sb. by intros ->. Qed.

Lemma get_super_run s dev sb x : super_at s dev sb x → get_super dev s = Ret (Some sb) s.
Proof.
  intros [Hdev Hsb His Hfree Hlt Hfirst Hlen]. unfold get_super. rewrite (proj2 (Z.eqb_neq _ _)) by done.
  enough (∀ n k, (k ≤ sb)%nat → (sb < k + n)%nat → wp (get_super_from n k dev) (λ r s', r = Some sb ∧ s' = s) s) as Hgo.
  { specialize (Hgo NR_SUPER 0%nat ltac:(lia) ltac:(lia)). apply wp_exists in Hgo as (r & s' & -> & -> & ->). done. }
  induction n as [|n IH]; [lia|]. intros k Hk Hkn. cbn [get_super_from].
  destruct (decide (k = sb)) as [->|Hne].
  - apply wp_bind. eapply wp_the_sb; [exact Hsb|]. rewrite His, Z.eqb_refl.
    apply wp_bind. unfold wait_on_super. apply wp_bind. eapply wp_the_sb; [exact Hsb|]. rewrite Hfree. apply wp_ret.
    apply wp_bind. eapply wp_the_sb; [exact Hsb|]. rewrite His, Z.eqb_refl. by apply wp_ret.
  - destruct (lookup_lt_is_Some_2 (super_block (up s)) k) as [y Hy]; [rewrite Hlen; lia|].
    apply wp_bind. eapply wp_the_sb; [exact Hy|].
    rewrite (proj2 (Z.eqb_neq _ _)) by (apply (Hfirst k); [lia|done]). apply IH; lia.
Qed.

(** the bitmaps [l] of a superblock are in the cache, held and up to date *)
Record maps_ok (cs : list core) (l : list ptr) : Prop := {
  mp_len : length l = 8%nat;
  mp_buf i bh : l !! i = Some (Some bh) → ∃ c, cs !! bh = Some c ∧ c_dev c ≠ 0 ∧
    c_uptodate c = true ∧ 0 < c_count c ∧ Forall byte_ok (c_data c);
  mp_inj i j bh : l !! i = Some (Some bh) → l !! j = Some (Some bh) → i = j
}.

(** bit [k] of the bitmap, [None] beyond the bitmaps that exist *)
Definition map_bit (cs : list core) (l : list ptr) (k : Z) : option bool :=
  if k <? 0 then None else
  match l !! Z.to_nat (k / 8192) with
  | Some (Some bh) => match cs !! bh with Some c => Some (bit_at (c_data c) (k mod 8192)) | None => None end
  | _ => None
  end.

Lemma map_bit_at cs l i bh c j :
  l !! i = Some (Some bh) → cs !! bh = Some c → 0 ≤ j < 8192 →
  map_bit cs l (Z.of_nat i * 8192 + j) = Some (bit_at (c_data c) j).
Proof.
  intros Hl Hc Hj. unfold map_bit. rewrite (proj2 (Z.ltb_ge _ _)) by lia.
  rewrite Z.div_add_l, (Z.div_small j), Z.add_0_r, Nat2Z.id by lia. rewrite Hl, Hc.
  by rewrite Z.add_comm, Z.mod_add, Z.mod_small by lia.
Qed.

Lemma find_map_run s l n : ∀ i, maps_ok (cores s) l → (i + n ≤ 8)%nat →
  wp (find_map n i l) (λ r s', s' = s ∧
    match r with
    | Some (k, bh, j) => (i ≤ k < i + n)%nat ∧ l !! k = Some (Some bh) ∧ 0 ≤ j < 8192 ∧
        map_bit (cores s) l (Z.of_nat k * 8192 + j) = Some false ∧
        ∀ b, Z.of_nat i * 8192 ≤ b < Z.of_nat k * 8192 + j → map_bit (cores s) l b ≠ Some false
    | None => ∀ b, Z.of_nat i * 8192 ≤ b < Z.of_nat (i + n) * 8192 → map_bit (cores s) l b ≠ Some false
    end) s.
Proof.
  induction n as [|n IH]; intros i Hok Hin; cbn [find_map].
  { apply wp_ret. split; [done|]. intros b Hb. lia. }
  destruct (lookup_lt_is_Some_2 l i) as [p Hp]; [rewrite (mp_len _ _ Hok); lia|].
  apply wp_bind. eapply wp_of_opt; [exact Hp|]. cbn beta.
  assert (Hnone : ∀ (P : Z → Prop), (∀ b, Z.of_nat i * 8192 ≤ b < Z.of_nat (S i) * 8192 → map_bit (cores s) l b ≠ Some false) →
    wp (find_map n (S i) l) (λ r s', s' = s ∧
    match r with
    | Some (k, bh, j) => (i ≤ k < i + S n)%nat ∧ l !! k = Some (Some bh) ∧ 0 ≤ j < 8192 ∧
        map_bit (cores s) l (Z.of_nat k * 8192 + j) = Some false ∧
        ∀ b, Z.of_nat i * 8192 ≤ b < Z.of_nat k * 8192 + j → map_bit (cores s) l b ≠ Some false
    | None => ∀ b, Z.of_nat i * 8192 ≤ b < Z.of_nat (i + S n) * 8192 → map_bit (cores s) l b ≠ Some false
    end) s).
  { intros _ Hfirst. eapply wp_mono; [apply (IH (S i)); [done|lia]|]. intros r s' [-> Hr]. split; [done|].
    destruct r as [[[k bh] j]|].
    - destruct Hr as (Hk & Hl & Hj & Hb & Hall). split_and!; try done; try lia.
      intros b Hb'. destruct (Z.ltb_spec b (Z.of_nat (S i) * 8192)); [apply Hfirst; lia|apply Hall; lia].
    - intros b Hb'. destruct (Z.ltb_spec b (Z.of_nat (S i) * 8192)); [apply Hfirst; lia|apply Hr; lia]. }
  destruct p as [bh|].
  - destruct (mp_buf _ _ Hok i bh Hp) as (c & Hc & _ & _ & _ & Hbytes).
    destruct (lookup_cores _ _ _ Hc) as (b & Hb & Hbc).
    apply wp_bind. eapply wp_the_buf; [done|]. cbn zeta.
    replace (b_data b) with (c_data c) by (by rewrite <- Hbc).
    destruct (find_first_zero_spec _ Hbytes) as (Hr & Hall & Hz). cbn zeta in Hr, Hall, Hz.
    set (j := find_first_zero (c_data c)) in *.
    destruct (Z.ltb_spec j 8192) as [Hj|Hj].
    + apply wp_ret. split; [done|]. split_and!; try done; try lia.
      * rewrite (map_bit_at _ _ i bh c) by (done || lia). by rewrite Hz.
      * intros q Hq. replace q with (Z.of_nat i * 8192 + (q - Z.of_nat i * 8192)) by lia.
        rewrite (map_bit_at _ _ i bh c) by (done || lia). by rewrite Hall by lia.
    + apply (Hnone (λ _, True)). intros q Hq. replace q with (Z.of_nat i * 8192 + (q - Z.of_nat i * 8192)) by lia.
      rewrite (map_bit_at _ _ i bh c) by (done || lia). by rewrite Hall by lia.
  - apply (Hnone (λ _, True)). intros q Hq. unfold map_bit. rewrite (proj2 (Z.ltb_ge _ _)) by lia.
    assert (q / 8192 = Z.of_nat i) as ->.
    { symmetry. apply (Z.div_unique _ _ _ (q - Z.of_nat i * 8192)); lia. }
    by rewrite Nat2Z.id, Hp.
Qed.

(** a block that holds one of the bitmaps *)
Definition map_block (cs : list core) (l : list ptr) (dev n : Z) : Prop :=
  ∃ i bh c, l !! i = Some (Some bh) ∧ cs !! bh = Some c ∧ c_dev c = dev ∧ c_blocknr c = n.

Definition c_write (d : bytes) (c : core) : core :=
  mk_core d (c_blocknr c) (c_dev c) true true (c_count c) (c_lock c).

(** storing into a buffer that is up to date or entirely overwritten, and
    marking it dirty *)
Lemma write_step s i c d :
  cache_inv s → cores s !! i = Some c → length d = 1024%nat →
  let s' := put_bufs (alter (set_b_dirt true ∘ (set_b_uptodate true ∘ set_b_data d)) i (bufs s)) s in
  cache_inv s' ∧ up s' = up s ∧ dv_disk (drv s') = dv_disk (drv s) ∧
    cores s' = alter (c_write d) i (cores s) ∧ cores s' !! i = Some (c_write d c) ∧
    (∀ j, j ≠ i → cores s' !! j = cores s !! j) ∧
    ∀ dev n, dev ≠ 0 → view s' dev n =
      if decide (dev = c_dev c ∧ n = c_blocknr c) then Some d else view s dev n.
Proof.
  intros Hinv Hc Hd. pose proof (co_buf _ (ci_cores _ Hinv) _ _ Hc) as [].
  apply (step_put s i _ (c_write d) c); try done.
Qed.

(** one bit of the buffer [bh] is changed *)
Lemma map_bit_put cs l i bh c j d' v b :
  maps_ok cs l → l !! i = Some (Some bh) → cs !! bh = Some c → 0 ≤ j < 8192 →
  (∀ k, 0 ≤ k → bit_at d' k = if j =? k then v else bit_at (c_data c) k) →
  map_bit (alter (c_write d') bh cs) l b = if decide (b = Z.of_nat i * 8192 + j) then Some v else map_bit cs l b.
Proof.
  intros Hok Hl Hc Hj Hd'. unfold map_bit.
  destruct (Z.ltb_spec b 0) as [Hb|Hb]; [by rewrite decide_False by lia|].
  pose proof (Z.div_mod b 8192 ltac:(done)) as Hdm. pose proof (Z.mod_pos_bound b 8192 ltac:(done)) as Hm.
  pose proof (Z.div_pos b 8192 ltac:(lia) ltac:(lia)) as Hq.
  assert (Hat : b = Z.of_nat i * 8192 + j → l !! Z.to_nat (b / 8192) = Some (Some bh)).
  { intros ->. by rewrite Z.div_add_l, (Z.div_small j), Z.add_0_r, Nat2Z.id by lia. }
  destruct (l !! Z.to_nat (b / 8192)) as [[bh'|]|] eqn:El; [|rewrite decide_False; [done|intros E; by specialize (Hat E)]..].
  destruct (decide (bh' = bh)) as [->|Hne].
  - rewrite list_lookup_alter, decide_True, Hc by done. cbn.
    pose proof (mp_inj _ _ Hok _ _ _ El Hl) as Hi. rewrite Hd' by lia.
    destruct (Z.eqb_spec j (b mod 8192)) as [Hjm|Hjm]; [by rewrite decide_True by lia|by rewrite decide_False by lia].
  - rewrite list_lookup_alter_ne by congruence. rewrite decide_False; [done|]. intros E. specialize (Hat E). congruence.
Qed.
Lemma map_bit_write cs l i bh c j b :
  maps_ok cs l → l !! i = Some (Some bh) → cs !! bh = Some c → length (c_data c) = 1024%nat → 0 ≤ j < 8192 →
  map_bit (alter (c_write (set_bit j (c_data c))) bh cs) l b =
    if decide (b = Z.of_nat i * 8192 + j) then Some true else map_bit cs l b.
Proof. intros Hok Hl Hc Hlen Hj. apply (map_bit_put cs l i bh c); [done..|]. intros k Hk. rewrite bit_at_set by lia. by destruct (_ =? k). Qed.

Lemma map_bit_ext cs cs' l b :
  (∀ i bh, l !! i = Some (Some bh) → cs' !! bh = cs !! bh) → map_bit cs' l b = map_bit cs l b.
Proof.
  intros Hext. unfold map_bit. destruct (b <? 0); [done|].
  destruct (l !! _) as [[bh|]|] eqn:El; [|done..]. by rewrite (Hext _ _ El).
Qed.

(** of the buffers only [k] has changed, which nobody uses before or after *)
Record only_idle (k : nat) s s' : Prop := {
  oi_others j : j ≠ k → cores s' !! j = cores s !! j;
  oi_before : ∃ c, cores s !! k = Some c ∧ c_count c = 0;
  oi_after : ∃ c, cores s' !! k = Some c ∧ c_count c = 0
}.
Lemma only_idle_held k s s' j c : only_idle k s s' → cores s !! j = Some c → 0 < c_count c → cores s' !! j = Some c.
Proof.
  intros [Hoth (c0 & Hc0 & Hz) _] Hc Hpos. rewrite Hoth; [done|]. intros ->. rewrite Hc in Hc0. injection Hc0 as ->. lia.
Qed.

(** the second half of [new_block]: a cleared buffer for the new block *)
Lemma fresh_block_run sync s dev n :
  cache_inv s → block_range dev n → room (cores s) →
  (∀ i c, cores s !! i = Some c → c_dev c = dev → c_blocknr c = n → c_count c = 0) →
  wp (bh ← getblk sync dev n;
      b ← the_buf bh;
      if negb (b_count b =? 1) then panic "new block: count is != 1"
      else
        upd_buf bh (set_b_data (replicate 1024 0)) ;;
        upd_buf bh (set_b_uptodate true) ;;
        upd_buf bh (set_b_dirt true) ;;
        brelse (Some bh) ;;
        mret n)
    (λ r s', r = n ∧ cache_inv s' ∧ up s' = up s ∧
      (∃ k, only_idle k s s') ∧
      ∀ dev' n', dev' ≠ 0 → view s' dev' n' =
        if decide (dev' = dev ∧ n' = n) then Some (replicate 1024 0) else view s dev' n') s.
Proof.
  intros Hinv Hr Hroom Hfree. apply wp_bind. eapply wp_mono; [apply getblk_contract; [done|done|]|].
  { destruct (key_dec (cores s) dev n) as [[i (c & Hc & Hd & Hn)]|Hno]; [left|by right].
    exists i, c. split_and!; try done. rewrite (Hfree i c) by done. lia. }
  intros bh s1 ([Hinv1 Hup1 Hdisk1 Hoth1 Hview1] & c & c1 & Hc & Hc1 & Hout & Hcase).
  assert (Hcnt : c_count c1 = 1 ∧ c_count c = 0 ∧ c_dev c1 = dev ∧ c_blocknr c1 = n).
  { destruct Hcase as [(Hd & Hn & ->)|(Hcl & _ & ->)].
    - cbn. rewrite (Hfree bh c Hc Hd Hn). done.
    - apply lookup_clean in Hcl as (c0 & Hc0 & ? & _). rewrite Hc in Hc0. injection Hc0 as <-. done. }
  destruct Hcnt as (Hcnt & Hcnt0 & Hd1 & Hn1).
  destruct (lookup_cores _ _ _ Hc1) as (b1 & Hb1 & Hbc1).
  assert (Hlt : (bh < length (bufs s1))%nat) by (by eapply lookup_lt_Some).
  apply wp_bind. eapply wp_the_buf; [done|].
  replace (b_count b1) with (c_count c1) by (by rewrite <- Hbc1). rewrite Hcnt. cbn [Z.eqb Pos.eqb negb].
  apply wp_bind, wp_upd_buf; [done|].
  apply wp_bind, wp_upd_buf; rewrite bufs_put, ?length_alter, ?put_put; [done|].
  apply wp_bind, wp_upd_buf; rewrite bufs_put, ?length_alter, ?put_put; [done|].
  rewrite !alter_alter.
  destruct (write_step s1 bh c1 (replicate 1024 0) Hinv1 Hc1 (length_replicate _ _))
    as (Hinv2 & Hup2 & Hdisk2 & Hcs2 & Hc2 & Hoth2 & Hview2).
  set (s2 := put_bufs _ s1) in *.
  apply wp_bind. eapply wp_mono; [eapply (brelse_contract s2 bh _ Hinv2 Hc2); cbn; lia|].
  intros [] s3 [[Hinv3 Hup3 Hdisk3 Hoth3 Hview3] Hc3]. apply wp_ret.
  split; [done|]. split; [done|]. split; [congruence|]. split.
  - exists bh. constructor; [|by exists c|].
    + intros j Hj. by rewrite Hoth3, Hoth2, Hoth1.
    + eexists. split; [exact Hc3|]. cbn. by rewrite Hcnt.
  - intros dev' n' Hdev. rewrite Hview3, Hview2, Hd1, Hn1 by done. case_decide; [done|]. by apply Hview1.
Qed.

(** the bit [b], bit [j] of the bitmap block in buffer [bh], has been set *)
Record marked (x : super_blk) (b : Z) (bh : nat) (c : core) (d' : bytes) s s1 : Prop := {
  md_inv : cache_inv s1;
  md_up : up s1 = up s;
  md_core : cores s1 !! bh = Some (c_write d' c);
  md_others k : k ≠ bh → cores s1 !! k = cores s !! k;
  md_bits b' : map_bit (cores s1) (s_zmap x) b' = if decide (b' = b) then Some true else map_bit (cores s) (s_zmap x) b';
  md_view dev n : dev ≠ 0 → ¬ map_block (cores s) (s_zmap x) dev n → view s1 dev n = view s dev n
}.

Lemma wp_mark_bit {A} s x i bh j (k : M st A) (Q : A → st → Prop) c :
  cache_inv s → maps_ok (cores s) (s_zmap x) → s_zmap x !! i = Some (Some bh) → cores s !! bh = Some c → 0 ≤ j < 8192 →
  map_bit (cores s) (s_zmap x) (Z.of_nat i * 8192 + j) = Some false →
  (∀ s1, marked x (Z.of_nat i * 8192 + j) bh c (set_bit j (c_data c)) s s1 → wp k Q s1) →
  wp (b ← the_buf bh;
      upd_buf bh (set_b_data (set_bit j (b_data b))) ;;
      (if bit_at (b_data b) j then panic "new_block: bit already set" else mret tt) ;;
      upd_buf bh (set_b_dirt true) ;;
      k) Q s.
Proof.
  intros Hinv Hmaps Hl Hc Hj Hbit Hk.
  destruct (mp_buf _ _ Hmaps _ _ Hl) as (c' & Hc' & Hcd & Hup & Hcnt & Hbytes).
  assert (c' = c) as -> by congruence. clear Hc'.
  pose proof (co_buf _ (ci_cores _ Hinv) _ _ Hc) as Hbo.
  destruct (lookup_cores _ _ _ Hc) as (b0 & Hb0 & Hbc0).
  assert (Hlt : (bh < length (bufs s))%nat) by (by eapply lookup_lt_Some).
  pose proof (map_bit_at _ _ i bh c j Hl Hc Hj) as Hbj. rewrite Hbit in Hbj. injection Hbj as Hbj.
  apply wp_bind. eapply wp_the_buf; [done|].
  replace (b_data b0) with (c_data c) by (by rewrite <- Hbc0). rewrite <- Hbj.
  apply wp_bind, wp_upd_buf; [done|]. apply wp_bind, wp_ret.
  apply wp_bind, wp_upd_buf; rewrite bufs_put, ?length_alter, ?put_put; [done|]. rewrite alter_alter.
  set (d' := set_bit j (c_data c)) in *. assert (Hd' : length d' = 1024%nat) by (unfold d'; rewrite length_set_bit; apply Hbo).
  destruct (write_step s bh c d' Hinv Hc Hd') as (Hinv1 & Hup1 & Hdisk1 & Hcs1 & Hc1 & Hoth1 & Hview1).
  assert (Hsame : put_bufs (alter (set_b_dirt true ∘ set_b_data d') bh (bufs s)) s =
                  put_bufs (alter (set_b_dirt true ∘ (set_b_uptodate true ∘ set_b_data d')) bh (bufs s)) s).
  { f_equal. apply list_eq. intros y. rewrite !list_lookup_alter. case_decide as E0; [subst y|done].
    rewrite Hb0. cbn. f_equal. rewrite <- Hbc0 in Hup. destruct b0. cbn in *. by subst. }
  rewrite Hsame. apply Hk. constructor; try done.
  - intros b'. rewrite Hcs1. apply map_bit_write; try done. apply Hbo.
  - intros dev' n' Hd0 Hnm. rewrite Hview1 by done. rewrite decide_False; [done|].
    intros [-> ->]. apply Hnm. by exists i, bh, c.
Qed.

(** the buffers after [new_block]: a bitmap has been written, and one buffer
    that nobody uses has been taken over *)
Definition bufs_taken (l : list ptr) s s' : Prop := ∃ k, ∀ j,
  cores s' !! j = cores s !! j ∨
  (∃ i, l !! i = Some (Some j)) ∧ (∃ c d, cores s !! j = Some c ∧ cores s' !! j = Some (c_write d c) ∧ Forall byte_ok d) ∨
  j = k ∧ (∃ c, cores s !! j = Some c ∧ c_count c = 0) ∧ (∃ c, cores s' !! j = Some c ∧ c_count c = 0).

Lemma set_bit_ok j d : Forall byte_ok d → Forall byte_ok (set_bit j d).
Proof.
  intros Hd. unfold set_bit, set_byte. apply Forall_insert; [done|].
  pose proof (byte_at_ok d (j / 8) Hd) as Hb. pose proof (Z.mod_pos_bound j 8 ltac:(done)). unfold byte_ok in *.
  assert (0 ≤ Z.shiftl 1 (j mod 8)) by (apply Z.shiftl_nonneg; lia).
  assert (0 ≤ Z.lor (byte_at d (j / 8)) (Z.shiftl 1 (j mod 8))) by (apply Z.lor_nonneg; lia). split; [done|].
  apply Z.log2_lt_cancel. eapply Z.le_lt_trans with 7; [|done].
  rewrite Z.log2_lor by lia. apply Z.max_lub.
  - destruct (decide (byte_at d (j / 8) = 0)) as [->|]; [done|]. apply Z.lt_succ_r. apply Z.log2_lt_pow2; lia.
  - rewrite Z.shiftl_mul_pow2, Z.mul_1_l, Z.log2_pow2 by lia. lia.
Qed.

Lemma clear_bit_ok j d : Forall byte_ok d → Forall byte_ok (clear_bit j d).
Proof.
  intros Hd. unfold clear_bit, set_byte. apply Forall_insert; [done|].
  pose proof (byte_at_ok d (j / 8) Hd) as Hb. unfold byte_ok in *. set (a := byte_at d (j / 8)) in *.
  assert (a = Z.land a (Z.ones 8)) as -> by (rewrite Z.land_ones by lia; rewrite Z.mod_small by lia; done).
  rewrite <- Z.land_assoc, (Z.land_comm (Z.ones 8)), Z.land_assoc, Z.land_ones by lia. apply Z.mod_pos_bound. lia.
Qed.

Lemma new_block_run (sync : M st unit) s (dev : Z) (sb : nat) x :
  cache_inv s → super_at s dev sb x → maps_ok (cores s) (s_zmap x) →
  0 < dev < 65536 → 1 ≤ s_firstdatazone x → s_nzones x ≤ 65536 → room (cores s) →
  (* nobody uses a block that the bitmap says is free *)
  (∀ n i c, map_bit (cores s) (s_zmap x) (n - s_firstdatazone x + 1) = Some false →
     cores s !! i = Some c → c_dev c = dev → c_blocknr c = n → c_count c = 0) →
  wp (new_block sync dev) (λ r s',
    (r = 0 ∧ s' = s ∧ ∀ b, 0 ≤ b < 65536 → map_bit (cores s) (s_zmap x) b ≠ Some false) ∨
    (∃ b, map_bit (cores s) (s_zmap x) b = Some false ∧
      (∀ b', 0 ≤ b' < b → map_bit (cores s) (s_zmap x) b' ≠ Some false) ∧
      (∀ b', map_bit (cores s') (s_zmap x) b' = if decide (b' = b) then Some true
                                                else map_bit (cores s) (s_zmap x) b') ∧
      cache_inv s' ∧ up s' = up s ∧
      bufs_taken (s_zmap x) s s' ∧
      let n := b + s_firstdatazone x - 1 in
      if s_nzones x <=? n
      then r = 0 ∧ ∀ dev' n', dev' ≠ 0 → ¬ map_block (cores s) (s_zmap x) dev' n' →
             view s' dev' n' = view s dev' n'
      else r = n ∧ view s' dev n = Some (replicate 1024 0) ∧
           ∀ dev' n', dev' ≠ 0 → ¬ map_block (cores s) (s_zmap x) dev' n' → ¬ (dev' = dev ∧ n' = n) →
             view s' dev' n' = view s dev' n')) s.
Proof.
  intros Hinv Hsb Hmaps Hdev Hfirst Hnz Hroom Hfree. unfold new_block.
  apply wp_bind. eapply wp_eq; [by eapply get_super_run|].
  apply wp_bind. eapply wp_the_sb; [apply (sa_sb _ _ _ _ Hsb)|].
  apply wp_bind. eapply wp_mono; [apply (find_map_run s (s_zmap x) 8 0); [done|lia]|].
  intros r s0 [-> Hr]. destruct r as [[[i bh] j]|]; [|apply wp_ret; left; split_and!; try done; intros b Hb; apply Hr; lia].
  destruct Hr as (Hi & Hl & Hj & Hbit & Hleast).
  destruct (mp_buf _ _ Hmaps _ _ Hl) as (c & Hc & _ & _ & Hcnt & Hbytes).
  set (b := Z.of_nat i * 8192 + j) in *. apply (wp_mark_bit s x i bh j _ _ c); try done.
  fold b. intros s1 [Hinv1 Hup1 Hc1 Hoth1 Hmb1 Hmv].
  replace (j + Z.of_nat i * 8192 + s_firstdatazone x - 1) with (b + s_firstdatazone x - 1) by (unfold b; lia).
  destruct (s_nzones x <=? b + s_firstdatazone x - 1) eqn:Enz.
  { apply wp_ret. right. exists b. split; [done|].
    split; [intros b' Hb'; apply Hleast; lia|]. split; [done|]. split; [done|]. split; [done|].
    split; [|cbn zeta; rewrite Enz; by split]. exists (length (cores s)). intros y.
    destruct (decide (y = bh)) as [->|Hne]; [|left; by apply Hoth1]. right; left. split; [by exists i|].
    exists c, (set_bit j (c_data c)). split_and!; [done..|]. apply set_bit_ok. done. }
  assert (Hroom1 : room (cores s1)).
  { destruct Hroom as [v Hv]. exists v. unfold clean_at in *. rewrite Hoth1; [done|].
    intros ->. rewrite Hc in Hv. unfold is_clean in Hv. lia. }
  eapply wp_mono; [apply (fresh_block_run sync s1 dev (b + s_firstdatazone x - 1)); try done|].
  - unfold block_range, dev_range. unfold b in *. lia.
  - intros k ck Hck Hdk Hnk. destruct (decide (k = bh)) as [->|Hk].
    + rewrite Hc1 in Hck. injection Hck as <-. cbn in Hdk, Hnk.
      pose proof (Hfree (b + s_firstdatazone x - 1) bh c) as Hf.
      replace (b + s_firstdatazone x - 1 - s_firstdatazone x + 1) with b in Hf by lia.
      specialize (Hf Hbit Hc Hdk Hnk). lia.
    + rewrite Hoth1 in Hck by done. apply (Hfree (b + s_firstdatazone x - 1) k ck); try done.
      by replace (b + s_firstdatazone x - 1 - s_firstdatazone x + 1) with b by lia.
  - intros r s' (-> & Hinv' & Hup' & [v Hidle] & Hview'). right. exists b. split; [done|].
    split; [intros b' Hb'; apply Hleast; lia|]. split; [|split; [done|split; [congruence|split]]].
    + intros b'. rewrite <- Hmb1. apply map_bit_ext. intros k bk Hk.
      destruct (mp_buf _ _ Hmaps _ _ Hk) as (ck & Hck & _ & _ & Hpos & _).
      assert (∃ c', cores s1 !! bk = Some c' ∧ 0 < c_count c') as (c' & Hc' & Hpos').
      { destruct (decide (bk = bh)) as [->|Hne]; [exists (c_write (set_bit j (c_data c)) c); split; [done|by cbn]|].
        exists ck. by rewrite Hoth1. }
      rewrite Hc'. by apply (only_idle_held v s1).
    + exists v. intros y. pose proof Hidle as [Hoth2 (c1 & Hv1 & Hz1) (c2 & Hv2 & Hz2)]. destruct (decide (y = bh)) as [->|Hne].
      * right; left. split; [by exists i|]. exists c, (set_bit j (c_data c)). split; [done|].
        split; [by apply (only_idle_held v s1)|by apply set_bit_ok].
      * destruct (decide (y = v)) as [->|Hnv]; [|left; by rewrite Hoth2, Hoth1]. right; right.
        split; [done|]. split; [exists c1; by rewrite <- Hoth1|by exists c2].
    + cbn zeta. rewrite Enz. split; [done|]. split; [rewrite Hview' by lia; by rewrite decide_True|].
      intros dev' n' Hd0 Hnm Hne. rewrite Hview', decide_False by done. by apply Hmv.
Qed.

(** C17. [new_block] takes the lowest clear bit of the zone bitmaps: the bit is
    set, no other bit changes, and the block it stands for is returned, its
    contents zeroed, every other block keeping its contents.  When all bits
    are set it returns 0 and changes nothing.  When the bit lies beyond the
    last zone of the device it returns 0 too, but the bit stays set. *)
Theorem new_block_correct (sync : M st unit) s (dev : Z) (sb : nat) x :
  cache_inv s → super_at s dev sb x → maps_ok (cores s) (s_zmap x) →
  0 < dev < 65536 → 1 ≤ s_firstdatazone x → s_nzones x ≤ 65536 → room (cores s) →
  (* nobody uses a block that the bitmap says is free *)
  (∀ n i c, map_bit (cores s) (s_zmap x) (n - s_firstdatazone x + 1) = Some false →
     cores s !! i = Some c → c_dev c = dev → c_blocknr c = n → c_count c = 0) →
  wp (new_block sync dev) (λ r s',
    (r = 0 ∧ s' = s ∧ ∀ b, 0 ≤ b < 65536 → map_bit (cores s) (s_zmap x) b ≠ Some false) ∨
    (∃ b, map_bit (cores s) (s_zmap x) b = Some false ∧
      (∀ b', 0 ≤ b' < b → map_bit (cores s) (s_zmap x) b' ≠ Some false) ∧
      (∀ b', map_bit (cores s') (s_zmap x) b' = if decide (b' = b) then Some true
                                                else map_bit (cores s) (s_zmap x) b') ∧
      cache_inv s' ∧ up s' = up s ∧
      let n := b + s_firstdatazone x - 1 in
      if s_nzones x <=? n
      then r = 0 ∧ ∀ dev' n', dev' ≠ 0 → ¬ map_block (cores s) (s_zmap x) dev' n' →
             view s' dev' n' = view s dev' n'
      else r = n ∧ view s' dev n = Some (replicate 1024 0) ∧
           ∀ dev' n', dev' ≠ 0 → ¬ map_block (cores s) (s_zmap x) dev' n' → ¬ (dev' = dev ∧ n' = n) →
             view s' dev' n' = view s dev' n')) s.
Proof.
  intros. eapply wp_mono; [by eapply new_block_run|]. intros r s' [?|(b & ? & ? & ? & ? & ? & _ & ?)]; [by left|right].
  by exists b.
Qed.
End proofs.

(** ** A small file system: the demo disk with its zone bitmap, block 3, cached *)
Definition demo_sb : super_blk :=
  mk_sb 32 8 1 1 5 0 1000 SUPER_MAGIC (replicate 8 None) (Some 0%nat :: replicate 7 None)
    0x101 None None 0 false 0 0.
Definition no_sb : super_blk :=
  mk_sb 0 0 0 0 0 0 0 0 (replicate 8 None) (replicate 8 None) 0 None None 0 false 0 0.
Definition demo_kernel : kernel :=
  mk_kernel (replicate NR_INODE zero_inode) 0 (replicate NR_FILE (mk_file 0 0 0 None 0))
    (demo_sb :: replicate 7 no_sb) 0x101 (mk_sched [] 0 0 0 0) (mk_mem [] 0 (λ _, 0)) init_ttys.
#[local] Opaque demo_cache.

Lemma demo_fs_read :
  match bread (mret tt) 0x101 3 (demo_cache demo_kernel) with Ret (Some 0%nat) _ => True | _ => False end.
Proof. vm_compute. exact I. Qed.

(** the state after [bread]; what is known of it is stated here, so that it
    need not be computed again *)
Lemma demo_fs_sig : { s : bstate blk kernel |
  cache_inv s ∧ up s = demo_kernel ∧
  cores s !! 0%nat = Some (mk_core (replicate 1024 7) 3 0x101 true false 1 false) ∧
  (∀ j, j ≠ 0%nat → cores s !! j = cores (demo_cache demo_kernel) !! j) ∧
  (∀ i c, cores s !! i = Some c → c_dev c = 0x101 → i = 0%nat) ∧
  (∀ n, view s 0x101 n = rd_disk demo_disk 0x101 n) }.
Proof.
  exists (match bread (mret tt) 0x101 3 (demo_cache demo_kernel) with Ret _ s => s | _ => demo_cache demo_kernel end).
  destruct (demo_cache_ok demo_kernel) as (Hinv & Hlen & Hcl & Hno & Hd & Hup).
  pose proof demo_fs_read as Hr.
  assert (Hdisk : ∀ n, view (demo_cache demo_kernel) 0x101 n = rd_disk demo_disk 0x101 n).
  { intros n. rewrite view_miss by (intros i; by apply Hno). change (rd_disk (drv (demo_cache demo_kernel)) 0x101 n = rd_disk demo_disk 0x101 n).
    by rewrite Hd. }
  assert (Hview : view (demo_cache demo_kernel) 0x101 3 = Some (replicate 1024 7)) by (rewrite Hdisk; vm_compute; reflexivity).
  destruct (proj1 (wp_exists _ _ _) (bread_contract (mret tt) (demo_cache demo_kernel) 0x101 3 Hinv demo_range
     (demo_available demo_kernel))) as (r & s & Hs & i & [Hinv' Hup' _ Hoth Hsame] & Hres).
  rewrite Hview in Hres. rewrite Hs in Hr |- *. destruct Hres as (-> & c & c' & Hc & Hc' & Hcv & Hout).
  assert (i = 0%nat) as -> by (destruct i; [reflexivity|destruct Hr]). clear Hs Hr.
  assert (Hcases : c_count c' = 1 ∧ c_dirt c' = false).
  { destruct Hout as [(Hdc & Hnc & _)|(_ & _ & ? & ?)]; [|done]. destruct (Hno 0x101 3 0%nat ltac:(done)). by exists c. }
  destruct Hcases as [Hc1 Hc2]. rewrite Hc1, Hc2 in Hcv. subst c'.
  split; [exact Hinv'|]. split; [rewrite Hup'; exact Hup|]. split; [exact Hc'|]. split; [exact Hoth|]. split.
  - intros j cj Hcj Hdj. destruct (decide (j = 0%nat)); [done|]. rewrite Hoth in Hcj by done.
    destruct (Hno 0x101 (c_blocknr cj) j ltac:(done)). by exists cj.
  - intros n. rewrite Hsame by done. apply Hdisk.
Qed.

Definition demo_fs : bstate blk kernel := proj1_sig demo_fs_sig.
Lemma demo_fs_ok :
  cache_inv demo_fs ∧ up demo_fs = demo_kernel ∧
  cores demo_fs !! 0%nat = Some (mk_core (replicate 1024 7) 3 0x101 true false 1 false) ∧
  (∀ j, j ≠ 0%nat → cores demo_fs !! j = cores (demo_cache demo_kernel) !! j) ∧
  (∀ i c, cores demo_fs !! i = Some c → c_dev c = 0x101 → i = 0%nat) ∧
  (∀ n, view demo_fs 0x101 n = rd_disk demo_disk 0x101 n).
Proof. exact (proj2_sig demo_fs_sig). Qed.

Lemma demo_fs_clean j : (0 < j < 13)%nat → clean_at (cores demo_fs) j = true.
Proof. intros Hj. unfold clean_at. rewrite (proj1 (proj2 (proj2 (proj2 demo_fs_ok)))) by lia. apply demo_cache_ok. lia. Qed.
Lemma demo_fs_room : room (cores demo_fs).
Proof. exists 1%nat. apply demo_fs_clean. lia. Qed.

Lemma demo_super_at : super_at demo_fs 0x101 0 demo_sb.
Proof. destruct demo_fs_ok as (_ & Hup & _). constructor; rewrite ?Hup; try done; [unfold NR_SUPER; lia|]. intros j y Hj. lia. Qed.

Lemma demo_maps_ok : maps_ok (cores demo_fs) (s_zmap demo_sb).
Proof.
  destruct demo_fs_ok as (_ & _ & Hc & _). constructor; [done| |].
  - intros i bh Hi. destruct i as [|i]; cbn in Hi.
    + injection Hi as <-. eexists. split; [exact Hc|]. cbn [c_data c_dev c_uptodate c_count].
      split; [lia|]. split; [reflexivity|]. split; [lia|]. apply Forall_replicate. unfold byte_ok. lia.
    + do 7 (destruct i as [|i]; [done|]). done.
  - intros i j bh Hi Hj.
    assert (∀ k, s_zmap demo_sb !! k = Some (Some bh) → k = 0%nat) as Hz.
    { intros k Hk. destruct k as [|k]; [done|]. cbn in Hk. do 7 (destruct k as [|k]; [done|]). done. }
    by rewrite (Hz _ Hi), (Hz _ Hj).
Qed.

Lemma demo_fs_unused n i c :
  map_bit (cores demo_fs) (s_zmap demo_sb) (n - s_firstdatazone demo_sb + 1) = Some false →
  cores demo_fs !! i = Some c → c_dev c = 0x101 → c_blocknr c = n → c_count c = 0.
Proof.
  intros Hb Hc Hd Hn. destruct demo_fs_ok as (_ & _ & Hc0 & _ & Hk & _).
  rewrite (Hk _ _ Hc Hd), Hc0 in Hc. injection Hc as <-. cbn [c_blocknr] in Hn. subst n. discriminate Hb.
Qed.

Lemma new_block_correct_witness :
  let s := demo_fs in let zm := s_zmap demo_sb in
  wp (new_block (mret tt) 0x101) (λ r s',
    (r = 0 ∧ s' = s ∧ ∀ b, 0 ≤ b < 65536 → map_bit (cores s) zm b ≠ Some false) ∨
    (∃ b, map_bit (cores s) zm b = Some false ∧
      (∀ b', 0 ≤ b' < b → map_bit (cores s) zm b' ≠ Some false) ∧
      (∀ b', map_bit (cores s') zm b' = if decide (b' = b) then Some true else map_bit (cores s) zm b') ∧
      cache_inv s' ∧ up s' = up s ∧
      let n := b + 5 - 1 in
      if 8 <=? n
      then r = 0 ∧ ∀ dev' n', dev' ≠ 0 → ¬ map_block (cores s) zm dev' n' →
             view s' dev' n' = view s dev' n'
      else r = n ∧ view s' 0x101 n = Some (replicate 1024 0) ∧
           ∀ dev' n', dev' ≠ 0 → ¬ map_block (cores s) zm dev' n' → ¬ (dev' = 0x101 ∧ n' = n) →
             view s' dev' n' = view s dev' n')) s.
Proof.
  intros s zm.
  apply (new_block_correct (mret tt) demo_fs 0x101 0 demo_sb).
  - apply demo_fs_ok.
  - exact demo_super_at.
  - exact demo_maps_ok.
  - lia.
  - cbn; lia.
  - cbn; lia.
  - exact demo_fs_room.
  - exact demo_fs_unused.
Defined.
