(* ===== verification/Inode.v ===== *)
(** * Inodes

    Models [linux-0.11/fs/inode.c], [fs/truncate.c] and [new_inode] of
    [fs/bitmap.c]: the table of inodes in memory, the map from a file's blocks
    to the disk's, and the freeing of a file's blocks.

    [sync_inodes] is called by the buffer cache below and defined here; the
    argument of the section is the one the cache is given, [sync_inodes] the
    one this file defines over it. *)

From S2P Require Import Prelude Blk Buffer Memory Task FsData Bitmap.

(** [inode->i_zone[i] = v] *)
Definition set_zone (i : nat) (v : Z) (x : m_inode) : m_inode := set_i_zone (<[i := u16 v]> (i_zone x)) x.
Definition get_zone (i : nat) (x : m_inode) : Z := i_zone x !!! i.

(** ** [struct d_inode]: an inode on the disk is 32 bytes *)
Definition encode_inode (x : m_inode) : bytes :=
  le16 (i_mode x) ++ le16 (i_uid x) ++ le32 (i_size x) ++ le32 (i_mtime x) ++
  [i_gid x; i_nlinks x] ++ mjoin (le16 <$> i_zone x).

Definition decode_inode (d : bytes) (x : m_inode) : m_inode :=
  mk_inode (rd16 d 0) (rd16 d 2) (rd_le32 d 4) (rd_le32 d 8) (d !!! 12%nat) (d !!! 13%nat)
    ((λ k, rd16 d (14 + 2 * k)) <$> seq 0 9)
    (i_atime x) (i_ctime x) (i_dev x) (i_num x) (i_count x) (i_lock x) (i_dirt x) (i_pipe x) (i_mount x).

Section inode.
Context {D : Type} `{BlockDriver D}.
Abbreviation st := (bstate D kernel).
Context (sync_below : M st unit).

(** ** truncate.c *)

(** the loop over the 512 block numbers in the buffer [bh] *)
Definition for_each_entry (bh : nat) (f : Z → M st unit) : M st unit :=
  for_each (λ i,
    b ← the_buf bh;
    let p := get16 (b_data b) (Z.of_nat i) in
    when (negb (p =? 0)) (f p)) (seq 0 512).

Definition free_ind (dev block : Z) : M st unit :=
  if block =? 0 then mret tt
  else
    p ← bread sync_below dev block;
    match p with
    | Some bh => for_each_entry bh (free_block dev) ;; brelse (Some bh)
    | None => mret tt
    end ;;
    free_block dev block.

Definition free_dind (dev block : Z) : M st unit :=
  if block =? 0 then mret tt
  else
    p ← bread sync_below dev block;
    match p with
    | Some bh => for_each_entry bh (free_ind dev) ;; brelse (Some bh)
    | None => mret tt
    end ;;
    free_block dev block.

Definition truncate (inode : nat) : M st unit :=
  x ← the_inode inode;
  if negb (S_ISREG (i_mode x) || S_ISDIR (i_mode x)) then mret tt
  else
    for_each (λ i,
      x ← the_inode inode;
      when (negb (get_zone i x =? 0))
        (free_block (i_dev x) (get_zone i x) ;; upd_inode inode (set_zone i 0))) (seq 0 7) ;;
    x ← the_inode inode;
    free_ind (i_dev x) (get_zone 7 x) ;;
    x ← the_inode inode;
    free_dind (i_dev x) (get_zone 8 x) ;;
    upd_inode inode (λ x, set_zone 7 0 (set_zone 8 0 x)) ;;
    upd_inode inode (set_i_size 0) ;;
    upd_inode inode (set_i_dirt true) ;;
    t ← now;
    upd_inode inode (λ x, set_i_mtime (u32 t) (set_i_ctime (u32 t) x)).

(** ** inode.c: locks *)
Definition wait_on_inode (inode : nat) : M st unit :=
  x ← the_inode inode;
  if i_lock x then blocked else mret tt.
Definition lock_inode (inode : nat) : M st unit :=
  wait_on_inode inode ;; upd_inode inode (set_i_lock true).
Definition unlock_inode (inode : nat) : M st unit := upd_inode inode (set_i_lock false).

(** ** Reading and writing inodes *)

(** the block and the slot in it of inode number [i_num] *)
Definition inode_block (s : super_blk) (num : Z) : Z :=
  s32 (2 + s_imap_blocks s + s_zmap_blocks s + u32 (num - 1) / INODES_PER_BLOCK).
Definition inode_slot (num : Z) : nat := Z.to_nat (32 * (u32 (num - 1) mod INODES_PER_BLOCK)).

Definition read_inode (inode : nat) : M st unit :=
  lock_inode inode ;;
  x ← the_inode inode;
  sbp ← get_super (i_dev x);
  match sbp with
  | None => panic "trying to read inode without dev"
  | Some sb =>
    s ← the_sb sb;
    p ← bread sync_below (i_dev x) (inode_block s (i_num x));
    match p with
    | None => panic "unable to read i-node block"
    | Some bh =>
      b ← the_buf bh;
      upd_inode inode (decode_inode (slice (inode_slot (i_num x)) 32 (b_data b))) ;;
      brelse (Some bh) ;;
      unlock_inode inode
    end
  end.

Definition write_inode (inode : nat) : M st unit :=
  lock_inode inode ;;
  x ← the_inode inode;
  if negb (i_dirt x) || (i_dev x =? 0) then unlock_inode inode
  else
    sbp ← get_super (i_dev x);
    match sbp with
    | None => panic "trying to write inode without device"
    | Some sb =>
      s ← the_sb sb;
      p ← bread sync_below (i_dev x) (inode_block s (i_num x));
      match p with
      | None => panic "unable to read i-node block"
      | Some bh =>
        x ← the_inode inode;
        upd_buf bh (λ b, set_b_data (splice (inode_slot (i_num x)) (encode_inode x) (b_data b)) b) ;;
        upd_buf bh (set_b_dirt true) ;;
        upd_inode inode (set_i_dirt false) ;;
        brelse (Some bh) ;;
        unlock_inode inode
      end
    end.

Definition invalidate_inodes (dev : Z) : M st unit :=
  for_each (λ inode,
    wait_on_inode inode ;;
    x ← the_inode inode;
    when (i_dev x =? dev) (upd_inode inode (λ x, set_i_dev 0 (set_i_dirt false x))))
    (seq 0 NR_INODE).

Definition sync_inodes : M st unit :=
  for_each (λ inode,
    wait_on_inode inode ;;
    x ← the_inode inode;
    when (i_dirt x && negb (i_pipe x)) (write_inode inode)) (seq 0 NR_INODE).

(** ** The blocks of a file *)

(** [if (create && !inode->i_zone[i]) if (inode->i_zone[i]=new_block(..)) ..] *)
Definition create_zone (inode i : nat) (create : bool) : M st unit :=
  x ← the_inode inode;
  when (create && (get_zone i x =? 0))
    (n ← new_block sync_below (i_dev x);
     upd_inode inode (set_zone i n) ;;
     when (negb (u16 n =? 0))
       (t ← now; upd_inode inode (λ x, set_i_dirt true (set_i_ctime (u32 t) x)))).

(** reading, and creating when asked to, entry [k] of the indirect block [n] *)
Definition entry_of (dev n k : Z) (create : bool) : M st Z :=
  p ← bread sync_below dev n;
  match p with
  | None => mret 0
  | Some bh =>
    b ← the_buf bh;
    let i := get16 (b_data b) k in
    i ← (if create && (i =? 0) then
           i ← new_block sync_below dev;
           when (negb (i =? 0))
             (upd_buf bh (λ b, set_b_data (set16 (b_data b) k i) b) ;; upd_buf bh (set_b_dirt true)) ;;
           mret i
         else mret i);
    brelse (Some bh) ;;
    mret i
  end.

Definition _bmap (inode : nat) (block : Z) (create : bool) : M st Z :=
  if block <? 0 then panic "_bmap: block<0"
  else if 7 + 512 + 512 * 512 <=? block then panic "_bmap: block>big"
  else if block <? 7 then
    create_zone inode (Z.to_nat block) create ;;
    x ← the_inode inode;
    mret (get_zone (Z.to_nat block) x)
  else
    let block := block - 7 in
    if block <? 512 then
      create_zone inode 7 create ;;
      x ← the_inode inode;
      if get_zone 7 x =? 0 then mret 0
      else entry_of (i_dev x) (get_zone 7 x) block create
    else
      let block := block - 512 in
      create_zone inode 8 create ;;
      x ← the_inode inode;
      if get_zone 8 x =? 0 then mret 0
      else
        i ← entry_of (i_dev x) (get_zone 8 x) (Z.shiftr block 9) create;
        if i =? 0 then mret 0
        else x ← the_inode inode; entry_of (i_dev x) i (Z.land block 511) create.

Definition bmap (inode : nat) (block : Z) : M st Z := _bmap inode block false.
Definition create_block (inode : nat) (block : Z) : M st Z := _bmap inode block true.

(** ** The inode table *)

(** the end of [iput], from its label [repeat] on; writing the inode makes it
    clean, so the second round is the last *)
Fixpoint iput_loop (fuel : nat) (inode : nat) : M st unit :=
  match fuel with
  | O => nofuel
  | S fuel' =>
    x ← the_inode inode;
    if 1 <? i_count x then upd_inode inode (λ x, set_i_count (i_count x - 1) x)
    else if i_nlinks x =? 0 then truncate inode ;; free_inode (Some inode)
    else if i_dirt x then
      write_inode inode ;; wait_on_inode inode ;; iput_loop fuel' inode
    else upd_inode inode (λ x, set_i_count (u16 (i_count x - 1)) x)
  end.

Definition iput (p : ptr) : M st unit :=
  match p with
  | None => mret tt
  | Some inode =>
    wait_on_inode inode ;;
    x ← the_inode inode;
    if i_count x =? 0 then panic "iput: trying to free free inode"
    else if i_pipe x then
      upd_inode inode (λ x, set_i_count (i_count x - 1) x) ;;
      if negb (i_count x - 1 =? 0) then mret tt
      else
        on_mem (free_page (i_size x)) ;;
        upd_inode inode (λ x, set_i_pipe false (set_i_dirt false (set_i_count 0 x)))
    else if i_dev x =? 0 then upd_inode inode (λ x, set_i_count (i_count x - 1) x)
    else
      when (S_ISBLK (i_mode x))
        (sync_dev sync_below (get_zone 0 x) ;; wait_on_inode inode) ;;
      iput_loop RETRIES inode
  end.

(** one turn around the table from [last_inode]; [best] is the last free inode
    met *)
Fixpoint scan_inodes (n : nat) (best : ptr) : M st ptr :=
  match n with
  | O => mret best
  | S n' =>
    upd_up (λ k, set_last_inode (if (NR_INODE <=? S (last_inode k))%nat then 0%nat else S (last_inode k)) k) ;;
    l ← gets (λ s, last_inode (up s));
    x ← the_inode l;
    if negb (i_count x =? 0) then scan_inodes n' best
    else if negb (i_dirt x) && negb (i_lock x) then mret (Some l)
    else scan_inodes n' (Some l)
  end.

(** [while (inode->i_dirt)] *)
Fixpoint clean_inode (fuel : nat) (inode : nat) : M st unit :=
  match fuel with
  | O => nofuel
  | S fuel' =>
    x ← the_inode inode;
    if i_dirt x then write_inode inode ;; wait_on_inode inode ;; clean_inode fuel' inode
    else mret tt
  end.

Fixpoint get_empty_inode_loop (fuel : nat) : M st nat :=
  match fuel with
  | O => nofuel
  | S fuel' =>
    p ← scan_inodes NR_INODE None;
    match p with
    | None => panic "No free inodes in mem"
    | Some inode =>
      wait_on_inode inode ;;
      clean_inode RETRIES inode ;;
      x ← the_inode inode;
      if negb (i_count x =? 0) then get_empty_inode_loop fuel'
      else upd_inode inode (λ _, set_i_count 1 zero_inode) ;; mret inode
    end
  end.
Definition get_empty_inode : M st nat := get_empty_inode_loop RETRIES.

Definition get_pipe_inode : M st ptr :=
  inode ← get_empty_inode;
  a ← on_mem get_free_page;
  upd_inode inode (set_i_size a) ;;
  if a =? 0 then upd_inode inode (set_i_count 0) ;; mret None
  else
    upd_inode inode (λ x, set_i_pipe true (set_zone 0 0 (set_zone 1 0 (set_i_count 2 x)))) ;;
    mret (Some inode).

(** the loop of [iget]; each turn that continues has crossed a mount point *)
Fixpoint iget_loop (fuel : nat) (dev nr : Z) (empty : nat) : M st nat :=
  match fuel with
  | O => nofuel
  | S fuel' =>
    p ← gets (λ s, find_idx (λ x, (i_dev x =? dev) && (i_num x =? nr)) (inode_table (up s)));
    match p with
    | None =>
      upd_inode empty (λ x, set_i_num (u16 nr) (set_i_dev (u16 dev) x)) ;;
      read_inode empty ;;
      mret empty
    | Some inode =>
      wait_on_inode inode ;;
      upd_inode inode (λ x, set_i_count (u16 (i_count x + 1)) x) ;;
      x ← the_inode inode;
      if i_mount x then
        q ← gets (λ s, find_idx (λ sb, bool_decide (s_imount sb = Some inode)) (super_block (up s)));
        match q with
        | None => iput (Some empty) ;; mret inode
        | Some i =>
          iput (Some inode) ;;
          s ← the_sb i;
          iget_loop fuel' (s_dev s) ROOT_INO empty
        end
      else iput (Some empty) ;; mret inode
    end
  end.

Definition iget (dev nr : Z) : M st nat :=
  if dev =? 0 then panic "iget with dev==0"
  else empty ← get_empty_inode; iget_loop (S NR_SUPER) dev nr empty.

(** ** bitmap.c: [new_inode] *)
Definition new_inode (dev : Z) : M st ptr :=
  inode ← get_empty_inode;
  sbp ← get_super dev;
  match sbp with
  | None => panic "new_inode with unknown device"
  | Some sb =>
    s ← the_sb sb;
    r ← find_map I_MAP_SLOTS 0 (s_imap s);
    match r with
    | None => iput (Some inode) ;; mret None
    | Some (i, bh, j) =>
      if s_ninodes s <? j + Z.of_nat i * 8192 then iput (Some inode) ;; mret None
      else
        b ← the_buf bh;
        upd_buf bh (set_b_data (set_bit j (b_data b))) ;;
        (if bit_at (b_data b) j then panic "new_inode: bit already set" else mret tt) ;;
        upd_buf bh (set_b_dirt true) ;;
        c ← the_current;
        t ← now;
        upd_inode inode (λ x,
          set_i_mtime (u32 t) (set_i_atime (u32 t) (set_i_ctime (u32 t)
            (set_i_num (u16 (j + Z.of_nat i * 8192)) (set_i_dirt true
              (set_i_gid (u8 (t_egid c)) (set_i_uid (t_euid c)
                (set_i_dev (u16 dev) (set_i_nlinks 1 (set_i_count 1 x)))))))))) ;;
        mret (Some inode)
    end
  end.
End inode.

(** ** Inodes on the disk *)

(** the fields of an inode have the widths of the C types *)
Record inode_ok (x : m_inode) : Prop := {
  ok_mode : 0 ≤ i_mode x < 2 ^ 16; ok_uid : 0 ≤ i_uid x < 2 ^ 16;
  ok_size : 0 ≤ i_size x < 2 ^ 32; ok_mtime : 0 ≤ i_mtime x < 2 ^ 32;
  ok_gid : 0 ≤ i_gid x < 2 ^ 8; ok_nlinks : 0 ≤ i_nlinks x < 2 ^ 8;
  ok_zones : length (i_zone x) = 9%nat ∧ Forall (λ z, 0 ≤ z < 2 ^ 16) (i_zone x)
}.

(** [y] with the fields that are on the disk taken from [x] *)
Definition disk_fields (x y : m_inode) : m_inode :=
  mk_inode (i_mode x) (i_uid x) (i_size x) (i_mtime x) (i_gid x) (i_nlinks x) (i_zone x)
    (i_atime y) (i_ctime y) (i_dev y) (i_num y) (i_count y) (i_lock y) (i_dirt y) (i_pipe y) (i_mount y).

Lemma rd16_at pre v post n : 0 ≤ v < 2 ^ 16 → n = length pre → rd16 (pre ++ le16 v ++ post) n = v.
Proof. intros Hv ->. by apply rd16_le16. Qed.
Lemma rd_le32_at pre v post n : 0 ≤ v < 2 ^ 32 → n = length pre → rd_le32 (pre ++ le32 v ++ post) n = v.
Proof. intros Hv ->. by apply rd_le32_le32. Qed.

Lemma length_zones l : length (mjoin (le16 <$> l)) = (2 * length l)%nat.
Proof.
  induction l as [|z l IH]; [done|]. rewrite fmap_cons.
  change (mjoin (le16 z :: (le16 <$> l))) with (le16 z ++ mjoin (le16 <$> l)).
  rewrite length_app, IH. change (length (le16 z)) with 2%nat. cbn [length]. lia.
Qed.

Lemma length_encode_inode x : length (i_zone x) = 9%nat → length (encode_inode x) = 32%nat.
Proof.
  intros Hz. unfold encode_inode. rewrite !length_app, length_zones, Hz. done.
Qed.

Lemma decode_encode x y : inode_ok x → decode_inode (encode_inode x) y = disk_fields x y.
Proof.
  intros [Hm Hu Hs Ht Hg Hn [Hlen Hz]]. unfold decode_inode, disk_fields, encode_inode.
  f_equal.
  - by apply (rd16_at []).
  - by apply (rd16_at (le16 (i_mode x))).
  - rewrite app_assoc. by apply (rd_le32_at (le16 (i_mode x) ++ le16 (i_uid x))).
  - rewrite !app_assoc, <- (app_assoc _ (le32 (i_mtime x))).
    by apply (rd_le32_at ((le16 (i_mode x) ++ le16 (i_uid x)) ++ le32 (i_size x))).
  - set (hd := le16 (i_mode x) ++ le16 (i_uid x) ++ le32 (i_size x) ++ le32 (i_mtime x) ++ [i_gid x; i_nlinks x]).
    replace (le16 (i_mode x) ++ _) with (hd ++ mjoin (le16 <$> i_zone x)) by (unfold hd; by rewrite <- !app_assoc).
    apply list_eq. intros k. rewrite list_lookup_fmap. destruct (decide (k < 9)%nat) as [Hk|Hk].
    2:{ rewrite lookup_seq_ge, lookup_ge_None_2 by lia. done. }
    rewrite lookup_seq_lt by lia. destruct (lookup_lt_is_Some_2 (i_zone x) k) as [z Ez]; [lia|]. rewrite Ez. cbn [fmap option_fmap option_map].
    f_equal. rewrite Nat.add_0_l. pose proof (take_drop_middle _ _ _ Ez) as Hsplit.
    rewrite <- Hsplit at 1. rewrite fmap_app, fmap_cons, join_app. cbn [mjoin list_join].
    rewrite app_assoc. apply rd16_at.
    + rewrite Forall_lookup in Hz. by eapply Hz.
    + rewrite length_app. replace (length hd) with 14%nat by done. rewrite length_zones, length_take. lia.
Qed.


Definition demo_inode : m_inode :=
  mk_inode 0x81a4 5 70000 1000 3 1 [10; 11; 12; 13; 14; 15; 16; 17; 0] 0 0 0x301 3 1 false false false false.


Lemma list_of_32 (d : bytes) : length d = 32%nat → d = (λ i, d !!! i) <$> seq 0 32.
Proof.
  intros Hd. apply list_eq. intros i. rewrite list_lookup_fmap. destruct (decide (i < 32)%nat) as [Hi|Hi].
  - rewrite lookup_seq_lt by done. rewrite list_lookup_lookup_total_lt by lia. done.
  - by rewrite lookup_seq_ge, lookup_ge_None_2 by lia.
Qed.


