(* ===== verification/Namei.v ===== *)
(** * Names

    Models [linux-0.11/fs/namei.c]: permissions, directories, the resolution
    of path names, and the system calls that make and remove directory
    entries.

    A path name is the list of its bytes up to the NUL that ends it in user
    memory; reading at or after its end gives 0.  A directory entry is 16
    bytes of a directory block: a pointer to one is the buffer and the number
    of the entry in it. *)

From S2P Require Import Prelude Blk Buffer Memory Task FsData Bitmap Inode.

Definition MAY_EXEC : Z := 1.
Definition MAY_WRITE : Z := 2.
Definition MAY_READ : Z := 4.
(** the string "\004\002\006\377" of (signed) characters *)
Definition ACC_MODE (x : Z) : Z :=
  let k := Z.land x O_ACCMODE in
  if k =? 0 then 4 else if k =? 1 then 2 else if k =? 2 then 6 else -1.

Definition get_fs_byte (p : bytes) (i : nat) : Z := default 0 (p !! i).
(** the characters of names *)
Definition SLASH : Z := 47.
Definition DOT : Z := 46.

(** ** Directory entries *)
Definition de_inode (d : bytes) (k : Z) : Z := get16 d (8 * k).
Definition de_name (d : bytes) (k : Z) : bytes := slice (Z.to_nat (16 * k + 2)) NAME_LEN d.
Definition set_de_inode (k v : Z) (d : bytes) : bytes := set16 d (8 * k) (u16 v).
Definition set_de_name (k : Z) (name d : bytes) : bytes := splice (Z.to_nat (16 * k + 2)) name d.

(** [match]: does entry [k] of the block [d] have the first [len] bytes of
    [name] as its name? *)
Definition match_name (len : nat) (name : bytes) (d : bytes) (k : Z) : bool :=
  if (de_inode d k =? 0) || (NAME_LEN <? len)%nat then false
  else if (len <? NAME_LEN)%nat && negb (get_fs_byte (de_name d k) len =? 0) then false
  else forallb (λ i, get_fs_byte name i =? get_fs_byte (de_name d k) i) (seq 0 len).

(** the name [add_entry] stores: cut or padded to 14 bytes *)
Definition padded_name (name : bytes) (namelen : nat) : bytes :=
  (λ i, if (i <? namelen)%nat then get_fs_byte name i else 0) <$> seq 0 NAME_LEN.

(** the part of a path after its last slash *)
Fixpoint basename_from (p base : bytes) : bytes :=
  match p with
  | [] => base
  | c :: p' => if c =? SLASH then basename_from p' p' else basename_from p' base
  end.

Section namei.
Context {D : Type} `{BlockDriver D}.
Abbreviation st := (bstate D kernel).
Context (sync_below : M st unit).
Abbreviation iput := (Inode.iput sync_below).
Abbreviation iget := (Inode.iget sync_below).
Abbreviation bmap := (Inode.bmap sync_below).
Abbreviation create_block := (Inode.create_block sync_below).
Abbreviation new_inode := (Inode.new_inode sync_below).
Abbreviation new_block := (Bitmap.new_block sync_below).
Abbreviation truncate := (Inode.truncate sync_below).
Abbreviation bread := (Buffer.bread sync_below).

Definition permission (inode : nat) (mask : Z) : M st bool :=
  x ← the_inode inode;
  c ← the_current;
  if negb (i_dev x =? 0) && (i_nlinks x =? 0) then mret false
  else
    let mode :=
      if t_euid c =? i_uid x then Z.shiftr (i_mode x) 6
      else if t_egid c =? i_gid x then Z.shiftr (i_mode x) 3
      else i_mode x in
    mret ((Z.land (Z.land mode mask) 7 =? mask) || suser c).

(** reading and writing the entry [de] *)
Definition get_de (de : nat * Z) : M st Z := b ← the_buf de.1; mret (de_inode (b_data b) de.2).
Definition put_de (de : nat * Z) (v : Z) : M st unit :=
  upd_buf de.1 (λ b, set_b_data (set_de_inode de.2 v (b_data b)) b).
Definition put_name (de : nat * Z) (name : bytes) : M st unit :=
  upd_buf de.1 (λ b, set_b_data (set_de_name de.2 name (b_data b)) b).

(** ** find_entry *)

(** the loop: [i] entries have been passed, the next is entry [k] of [bh].
    After a block that cannot be read [bh] is NULL, and the source then reads
    [bh->b_data]. *)
Fixpoint find_entry_loop (fuel : nat) (dir : nat) (name : bytes) (namelen : nat) (entries i : Z) (bh : ptr) (k : Z)
  : M st (option (nat * Z)) :=
  match fuel with
  | O => nofuel
  | S fuel' =>
    if entries <=? i then brelse bh ;; mret None
    else
      match bh with
      | None => fault
      | Some b =>
        p ← (if DIR_ENTRIES_PER_BLOCK <=? k then
               brelse (Some b) ;;
               block ← bmap dir (i / DIR_ENTRIES_PER_BLOCK);
               if block =? 0 then mret None
               else
                 x ← the_inode dir;
                 p ← bread (i_dev x) block;
                 mret ((λ b', (b', 0)) <$> p)
             else mret (Some (b, k)));
        match p with
        | None => find_entry_loop fuel' dir name namelen entries (i + DIR_ENTRIES_PER_BLOCK) None k
        | Some (b, k) =>
          d ← the_buf b;
          if match_name namelen name (b_data d) k then mret (Some (b, k))
          else find_entry_loop fuel' dir name namelen entries (i + 1) (Some b) (k + 1)
        end
      end
  end.

(** '..' in the task's root is '.', and over a mount point it leads to the
    directory mounted on *)
Definition dotdot (dir : nat) (namelen : nat) : M st (nat * nat) :=
  c ← the_current;
  x ← the_inode dir;
  if bool_decide (t_root c = Some dir) then mret (dir, 1%nat)
  else if i_num x =? ROOT_INO then
    sbp ← get_super (i_dev x);
    match sbp with
    | None => fault
    | Some sb =>
      s ← the_sb sb;
      match s_imount s with
      | None => mret (dir, namelen)
      | Some _ =>
        iput (Some dir) ;;
        s ← the_sb sb;
        match s_imount s with
        | None => fault
        | Some m => upd_inode m (λ y, set_i_count (u16 (i_count y + 1)) y) ;; mret (m, namelen)
        end
      end
    end
  else mret (dir, namelen).

(** the directory (which ".." may exchange) and the entry found *)
Definition find_entry (dir : nat) (name : bytes) (namelen : nat) : M st (nat * option (nat * Z)) :=
  let namelen := if (NAME_LEN <? namelen)%nat then NAME_LEN else namelen in
  x ← the_inode dir;
  let entries := i_size x / 16 in
  if (namelen =? 0)%nat then mret (dir, None)
  else
    q ← (if (namelen =? 2)%nat && (get_fs_byte name 0 =? DOT) && (get_fs_byte name 1 =? DOT)
         then dotdot dir namelen else mret (dir, namelen));
    let '(dir, namelen) := q in
    x ← the_inode dir;
    if get_zone 0 x =? 0 then mret (dir, None)
    else
      p ← bread (i_dev x) (get_zone 0 x);
      match p with
      | None => mret (dir, None)
      | Some bh =>
        r ← find_entry_loop (S (Z.to_nat entries)) dir name namelen entries 0 (Some bh) 0;
        mret (dir, r)
      end.

(** ** add_entry *)
Fixpoint add_entry_loop (fuel : nat) (dir : nat) (name : bytes) (namelen : nat) (i : Z) (bh : ptr) (k : Z)
  : M st (option (nat * Z)) :=
  match fuel with
  | O => nofuel
  | S fuel' =>
    match bh with
    | None => fault
    | Some b =>
      p ← (if DIR_ENTRIES_PER_BLOCK <=? k then
             brelse (Some b) ;;
             block ← create_block dir (i / DIR_ENTRIES_PER_BLOCK);
             if block =? 0 then mret None
             else
               x ← the_inode dir;
               p ← bread (i_dev x) block;
               mret (Some ((λ b', (b', 0)) <$> p))
           else mret (Some (Some (b, k))));
      match p with
      | None => mret None
      | Some None => add_entry_loop fuel' dir name namelen (i + DIR_ENTRIES_PER_BLOCK) None k
      | Some (Some (b, k)) =>
        x ← the_inode dir;
        t ← now;
        when (i_size x <=? i * 16)
          (put_de (b, k) 0 ;;
           upd_inode dir (λ x, set_i_ctime (u32 t) (set_i_dirt true (set_i_size ((i + 1) * 16) x)))) ;;
        v ← get_de (b, k);
        if v =? 0 then
          upd_inode dir (set_i_mtime (u32 t)) ;;
          put_name (b, k) (padded_name name namelen) ;;
          upd_buf b (set_b_dirt true) ;;
          mret (Some (b, k))
        else add_entry_loop fuel' dir name namelen (i + 1) (Some b) (k + 1)
      end
    end
  end.

Definition add_entry (dir : nat) (name : bytes) (namelen : nat) : M st (option (nat * Z)) :=
  let namelen := if (NAME_LEN <? namelen)%nat then NAME_LEN else namelen in
  if (namelen =? 0)%nat then mret None
  else
    x ← the_inode dir;
    if get_zone 0 x =? 0 then mret None
    else
      p ← bread (i_dev x) (get_zone 0 x);
      match p with
      | None => mret None
      | Some bh => add_entry_loop (Z.to_nat (i_size x / 16) + 2) dir name namelen 0 (Some bh) 0
      end.

(** ** Path names *)
Fixpoint get_dir_loop (fuel : nat) (inode : nat) (pathname : bytes) : M st ptr :=
  match fuel with
  | O => nofuel
  | S fuel' =>
    x ← the_inode inode;
    ok ← (if S_ISDIR (i_mode x) then permission inode MAY_EXEC else mret false);
    if negb ok then iput (Some inode) ;; mret None
    else
      match find_idx (λ c, c =? SLASH) pathname with
      | None => mret (Some inode)
      | Some namelen =>
        r ← find_entry inode pathname namelen;
        match r with
        | (inode, None) => iput (Some inode) ;; mret None
        | (inode, Some de) =>
          inr ← get_de de;
          x ← the_inode inode;
          brelse (Some de.1) ;;
          iput (Some inode) ;;
          inode ← iget (i_dev x) inr;
          get_dir_loop fuel' inode (drop (S namelen) pathname)
        end
      end
  end.

(** [!p || !p->i_count] *)
Definition unused_inode (p : ptr) : M st bool :=
  match p with
  | None => mret true
  | Some i => x ← the_inode i; mret (i_count x =? 0)
  end.

Definition get_dir (pathname : bytes) : M st ptr :=
  c ← the_current;
  noroot ← unused_inode (t_root c);
  if (noroot : bool) then panic "No root inode"
  else
    nocwd ← unused_inode (t_pwd c);
    if (nocwd : bool) then panic "No cwd inode"
    else
      match pathname with
      | [] => mret None
      | ch :: rest =>
        inode ← of_opt (if ch =? SLASH then t_root c else t_pwd c);
        upd_inode inode (λ x, set_i_count (u16 (i_count x + 1)) x) ;;
        get_dir_loop (S (length pathname)) inode (if ch =? SLASH then rest else pathname)
      end.

(** the directory of a path, and the name in it *)
Definition dir_namei (pathname : bytes) : M st (option (nat * bytes)) :=
  p ← get_dir pathname;
  match p with
  | None => mret None
  | Some dir => mret (Some (dir, basename_from pathname pathname))
  end.

Definition namei (pathname : bytes) : M st ptr :=
  r ← dir_namei pathname;
  match r with
  | None => mret None
  | Some (dir, basename) =>
    if (length basename =? 0)%nat then mret (Some dir)
    else
      r ← find_entry dir basename (length basename);
      match r with
      | (dir, None) => iput (Some dir) ;; mret None
      | (dir, Some de) =>
        inr ← get_de de;
        x ← the_inode dir;
        brelse (Some de.1) ;;
        iput (Some dir) ;;
        inode ← iget (i_dev x) inr;
        t ← now;
        upd_inode inode (λ x, set_i_dirt true (set_i_atime (u32 t) x)) ;;
        mret (Some inode)
      end
  end.

(** ** open_namei *)

(** the part of [open_namei] that creates the file *)
Definition open_create (dir : nat) (basename : bytes) (flag mode : Z) : M st (Z * ptr) :=
  if Z.land flag O_CREAT =? 0 then iput (Some dir) ;; mret (- ENOENT, None)
  else
    ok ← permission dir MAY_WRITE;
    if negb ok then iput (Some dir) ;; mret (- EACCES, None)
    else
      x ← the_inode dir;
      p ← new_inode (i_dev x);
      match p with
      | None => iput (Some dir) ;; mret (- ENOSPC, None)
      | Some inode =>
        c ← the_current;
        upd_inode inode (λ x, set_i_dirt true (set_i_mode (u16 mode) (set_i_uid (t_euid c) x))) ;;
        r ← add_entry dir basename (length basename);
        match r with
        | None =>
          upd_inode inode (λ x, set_i_nlinks (u8 (i_nlinks x - 1)) x) ;;
          iput (Some inode) ;; iput (Some dir) ;; mret (- ENOSPC, None)
        | Some de =>
          x ← the_inode inode;
          put_de de (i_num x) ;;
          upd_buf de.1 (set_b_dirt true) ;;
          brelse (Some de.1) ;;
          iput (Some dir) ;;
          mret (0, Some inode)
        end
      end.

Definition open_namei (pathname : bytes) (flag mode : Z) : M st (Z * ptr) :=
  let flag := if negb (Z.land flag O_TRUNC =? 0) && (Z.land flag O_ACCMODE =? 0)
              then Z.lor flag O_WRONLY else flag in
  c ← the_current;
  let mode := Z.lor (Z.land mode (Z.land 0x1ff (Z.lnot (t_umask c)))) I_REGULAR in
  r ← dir_namei pathname;
  match r with
  | None => mret (- ENOENT, None)
  | Some (dir, basename) =>
    if (length basename =? 0)%nat then
      if Z.land flag (Z.lor O_ACCMODE (Z.lor O_CREAT O_TRUNC)) =? 0 then mret (0, Some dir)
      else iput (Some dir) ;; mret (- EISDIR, None)
    else
      r ← find_entry dir basename (length basename);
      match r with
      | (dir, None) => open_create dir basename flag mode
      | (dir, Some de) =>
        inr ← get_de de;
        x ← the_inode dir;
        brelse (Some de.1) ;;
        iput (Some dir) ;;
        if negb (Z.land flag O_EXCL =? 0) then mret (- EEXIST, None)
        else
          inode ← iget (i_dev x) inr;
          x ← the_inode inode;
          ok ← (if S_ISDIR (i_mode x) && negb (Z.land flag O_ACCMODE =? 0) then mret false
                else permission inode (ACC_MODE flag));
          if negb ok then iput (Some inode) ;; mret (- EPERM, None)
          else
            t ← now;
            upd_inode inode (set_i_atime (u32 t)) ;;
            when (negb (Z.land flag O_TRUNC =? 0)) (truncate inode) ;;
            mret (0, Some inode)
      end
  end.

(** ** Making entries *)

(** the beginning of [sys_mknod] and [sys_mkdir]: the directory in which a new
    entry may be made, or the error *)
Definition new_name (pathname : bytes) : M st (Z + nat * bytes) :=
  r ← dir_namei pathname;
  match r with
  | None => mret (inl (- ENOENT))
  | Some (dir, basename) =>
    if (length basename =? 0)%nat then iput (Some dir) ;; mret (inl (- ENOENT))
    else
      ok ← permission dir MAY_WRITE;
      if negb ok then iput (Some dir) ;; mret (inl (- EPERM))
      else
        r ← find_entry dir basename (length basename);
        match r with
        | (dir, Some de) => brelse (Some de.1) ;; iput (Some dir) ;; mret (inl (- EEXIST))
        | (dir, None) => mret (inr (dir, basename))
        end
  end.

Definition sys_mknod (filename : bytes) (mode dev : Z) : M st Z :=
  c ← the_current;
  if negb (suser c) then mret (- EPERM)
  else
    r ← new_name filename;
    match r with
    | inl e => mret e
    | inr (dir, basename) =>
      x ← the_inode dir;
      p ← new_inode (i_dev x);
      match p with
      | None => iput (Some dir) ;; mret (- ENOSPC)
      | Some inode =>
        t ← now;
        upd_inode inode (set_i_mode (u16 mode)) ;;
        when (S_ISBLK mode || S_ISCHR mode) (upd_inode inode (set_zone 0 dev)) ;;
        upd_inode inode (λ x, set_i_dirt true (set_i_mtime (u32 t) (set_i_atime (u32 t) x))) ;;
        r ← add_entry dir basename (length basename);
        match r with
        | None =>
          iput (Some dir) ;;
          upd_inode inode (set_i_nlinks 0) ;;
          iput (Some inode) ;;
          mret (- ENOSPC)
        | Some de =>
          x ← the_inode inode;
          put_de de (i_num x) ;;
          upd_buf de.1 (set_b_dirt true) ;;
          iput (Some dir) ;; iput (Some inode) ;; brelse (Some de.1) ;;
          mret 0
        end
      end
    end.

(** the entries "." and ".." of a new directory *)
Definition init_dir_block (bh : nat) (self parent : Z) : M st unit :=
  put_de (bh, 0) self ;;
  put_name (bh, 0) [DOT; 0] ;;
  put_de (bh, 1) parent ;;
  put_name (bh, 1) [DOT; DOT; 0].

Definition sys_mkdir (pathname : bytes) (mode : Z) : M st Z :=
  c ← the_current;
  if negb (suser c) then mret (- EPERM)
  else
    r ← new_name pathname;
    match r with
    | inl e => mret e
    | inr (dir, basename) =>
      x ← the_inode dir;
      p ← new_inode (i_dev x);
      match p with
      | None => iput (Some dir) ;; mret (- ENOSPC)
      | Some inode =>
        t ← now;
        upd_inode inode (λ x, set_i_mtime (u32 t) (set_i_atime (u32 t) (set_i_dirt true (set_i_size 32 x)))) ;;
        x ← the_inode inode;
        n ← new_block (i_dev x);
        upd_inode inode (set_zone 0 n) ;;
        if u16 n =? 0 then
          iput (Some dir) ;;
          upd_inode inode (λ x, set_i_nlinks (u8 (i_nlinks x - 1)) x) ;;
          iput (Some inode) ;;
          mret (- ENOSPC)
        else
          upd_inode inode (set_i_dirt true) ;;
          x ← the_inode inode;
          p ← bread (i_dev x) (get_zone 0 x);
          match p with
          | None =>
            iput (Some dir) ;;
            x ← the_inode inode;
            free_block (i_dev x) (get_zone 0 x) ;;
            upd_inode inode (λ x, set_i_nlinks (u8 (i_nlinks x - 1)) x) ;;
            iput (Some inode) ;;
            mret (- ERROR)
          | Some dir_block =>
            x ← the_inode inode;
            y ← the_inode dir;
            init_dir_block dir_block (i_num x) (i_num y) ;;
            upd_inode inode (set_i_nlinks 2) ;;
            upd_buf dir_block (set_b_dirt true) ;;
            brelse (Some dir_block) ;;
            upd_inode inode (λ x, set_i_dirt true (set_i_mode
              (u16 (Z.lor I_DIRECTORY (Z.land mode (Z.land 0x1ff (Z.lnot (t_umask c)))))) x)) ;;
            r ← add_entry dir basename (length basename);
            match r with
            | None =>
              iput (Some dir) ;;
              x ← the_inode inode;
              free_block (i_dev x) (get_zone 0 x) ;;
              upd_inode inode (set_i_nlinks 0) ;;
              iput (Some inode) ;;
              mret (- ENOSPC)
            | Some de =>
              x ← the_inode inode;
              put_de de (i_num x) ;;
              upd_buf de.1 (set_b_dirt true) ;;
              upd_inode dir (λ x, set_i_dirt true (set_i_nlinks (u8 (i_nlinks x + 1)) x)) ;;
              iput (Some dir) ;; iput (Some inode) ;; brelse (Some de.1) ;;
              mret 0
            end
          end
      end
    end.

(** ** Removing entries *)

(** [strcmp(s, name) == 0] for the name of an entry *)
Definition name_is (s name : bytes) : bool := bool_decide (take (S (length s)) name = s ++ [0]).

(** the loop of [empty_dir]; after a block that is not there, the source goes
    on with the buffer it has released *)
Fixpoint empty_dir_loop (fuel : nat) (inode : nat) (len nr : Z) (bh : nat) (k : Z) : M st bool :=
  match fuel with
  | O => nofuel
  | S fuel' =>
    if len <=? nr then brelse (Some bh) ;; mret true
    else
      p ← (if DIR_ENTRIES_PER_BLOCK <=? k then
             brelse (Some bh) ;;
             block ← bmap inode (nr / DIR_ENTRIES_PER_BLOCK);
             if block =? 0 then mret None
             else
               x ← the_inode inode;
               p ← bread (i_dev x) block;
               mret (Some ((λ b', (b', 0)) <$> p))
           else mret (Some (Some (bh, k))));
      match p with
      | None => empty_dir_loop fuel' inode len (nr + DIR_ENTRIES_PER_BLOCK) bh k
      | Some None => mret false
      | Some (Some (b, k)) =>
        v ← get_de (b, k);
        if negb (v =? 0) then brelse (Some b) ;; mret false
        else empty_dir_loop fuel' inode len (nr + 1) b (k + 1)
      end
  end.

Definition empty_dir (inode : nat) : M st bool :=
  x ← the_inode inode;
  let len := i_size x / 16 in
  if (len <? 2) || (get_zone 0 x =? 0) then mret false
  else
    p ← bread (i_dev x) (get_zone 0 x);
    match p with
    | None => mret false
    | Some bh =>
      b ← the_buf bh;
      let d := b_data b in
      if negb (de_inode d 0 =? i_num x) || (de_inode d 1 =? 0) ||
         negb (name_is [DOT] (de_name d 0)) || negb (name_is [DOT; DOT] (de_name d 1))
      then mret false
      else empty_dir_loop (S (Z.to_nat len)) inode len 2 bh 2
    end.

(** the beginning of [sys_rmdir] and [sys_unlink]: the directory and the entry
    to remove, or the error *)
Definition old_name (pathname : bytes) : M st (Z + nat * (nat * Z)) :=
  r ← dir_namei pathname;
  match r with
  | None => mret (inl (- ENOENT))
  | Some (dir, basename) =>
    if (length basename =? 0)%nat then iput (Some dir) ;; mret (inl (- ENOENT))
    else
      ok ← permission dir MAY_WRITE;
      if negb ok then iput (Some dir) ;; mret (inl (- EPERM))
      else
        r ← find_entry dir basename (length basename);
        match r with
        | (dir, None) => iput (Some dir) ;; mret (inl (- ENOENT))
        | (dir, Some de) => mret (inr (dir, de))
        end
  end.

Definition sys_rmdir (name : bytes) : M st Z :=
  c ← the_current;
  if negb (suser c) then mret (- EPERM)
  else
    r ← old_name name;
    match r with
    | inl e => mret e
    | inr (dir, de) =>
      x ← the_inode dir;
      inr ← get_de de;
      inode ← iget (i_dev x) inr;
      x ← the_inode dir;
      y ← the_inode inode;
      if negb (Z.land (i_mode x) S_ISVTX =? 0) && negb (t_euid c =? 0) && negb (i_uid y =? t_euid c) then
        iput (Some dir) ;; iput (Some inode) ;; brelse (Some de.1) ;; mret (- EPERM)
      else if negb (i_dev y =? i_dev x) || (1 <? i_count y) then
        iput (Some dir) ;; iput (Some inode) ;; brelse (Some de.1) ;; mret (- EPERM)
      else if (inode =? dir)%nat then
        iput (Some inode) ;; iput (Some dir) ;; brelse (Some de.1) ;; mret (- EPERM)
      else if negb (S_ISDIR (i_mode y)) then
        iput (Some inode) ;; iput (Some dir) ;; brelse (Some de.1) ;; mret (- ENOTDIR)
      else
        empty ← empty_dir inode;
        if negb empty then
          iput (Some inode) ;; iput (Some dir) ;; brelse (Some de.1) ;; mret (- ENOTEMPTY)
        else
          put_de de 0 ;;
          upd_buf de.1 (set_b_dirt true) ;;
          brelse (Some de.1) ;;
          upd_inode inode (λ y, set_i_dirt true (set_i_nlinks 0 y)) ;;
          t ← now;
          upd_inode dir (λ x, set_i_dirt true (set_i_ctime (u32 t) (set_i_mtime (u32 t)
            (set_i_nlinks (u8 (i_nlinks x - 1)) x)))) ;;
          iput (Some dir) ;; iput (Some inode) ;;
          mret 0
    end.

Definition sys_unlink (name : bytes) : M st Z :=
  c ← the_current;
  r ← old_name name;
  match r with
  | inl e => mret e
  | inr (dir, de) =>
    x ← the_inode dir;
    inr ← get_de de;
    inode ← iget (i_dev x) inr;
    x ← the_inode dir;
    y ← the_inode inode;
    if negb (Z.land (i_mode x) S_ISVTX =? 0) && negb (suser c) &&
       negb (t_euid c =? i_uid y) && negb (t_euid c =? i_uid x) then
      iput (Some dir) ;; iput (Some inode) ;; brelse (Some de.1) ;; mret (- EPERM)
    else if S_ISDIR (i_mode y) then
      iput (Some inode) ;; iput (Some dir) ;; brelse (Some de.1) ;; mret (- EPERM)
    else
      when (i_nlinks y =? 0) (upd_inode inode (set_i_nlinks 1)) ;;
      put_de de 0 ;;
      upd_buf de.1 (set_b_dirt true) ;;
      brelse (Some de.1) ;;
      t ← now;
      upd_inode inode (λ y, set_i_ctime (u32 t) (set_i_dirt true (set_i_nlinks (u8 (i_nlinks y - 1)) y))) ;;
      iput (Some inode) ;; iput (Some dir) ;;
      mret 0
  end.

Definition sys_link (oldname newname : bytes) : M st Z :=
  p ← namei oldname;
  match p with
  | None => mret (- ENOENT)
  | Some oldinode =>
    x ← the_inode oldinode;
    if S_ISDIR (i_mode x) then iput (Some oldinode) ;; mret (- EPERM)
    else
      r ← dir_namei newname;
      match r with
      | None => iput (Some oldinode) ;; mret (- EACCES)
      | Some (dir, basename) =>
        if (length basename =? 0)%nat then
          iput (Some oldinode) ;; iput (Some dir) ;; mret (- EPERM)
        else
          y ← the_inode dir;
          x ← the_inode oldinode;
          if negb (i_dev y =? i_dev x) then
            iput (Some dir) ;; iput (Some oldinode) ;; mret (- EXDEV)
          else
            ok ← permission dir MAY_WRITE;
            if negb ok then iput (Some dir) ;; iput (Some oldinode) ;; mret (- EACCES)
            else
              r ← find_entry dir basename (length basename);
              match r with
              | (dir, Some de) =>
                brelse (Some de.1) ;; iput (Some dir) ;; iput (Some oldinode) ;; mret (- EEXIST)
              | (dir, None) =>
                r ← add_entry dir basename (length basename);
                match r with
                | None => iput (Some dir) ;; iput (Some oldinode) ;; mret (- ENOSPC)
                | Some de =>
                  x ← the_inode oldinode;
                  put_de de (i_num x) ;;
                  upd_buf de.1 (set_b_dirt true) ;;
                  brelse (Some de.1) ;;
                  iput (Some dir) ;;
                  t ← now;
                  upd_inode oldinode (λ x, set_i_dirt true (set_i_ctime (u32 t)
                    (set_i_nlinks (u8 (i_nlinks x + 1)) x))) ;;
                  iput (Some oldinode) ;;
                  mret 0
                end
              end
      end
  end.
End namei.
