(* ===== verification/Super.v ===== *)
(** * Super blocks

    Models [linux-0.11/fs/super.c] and [check_disk_change] of [fs/buffer.c]:
    reading and releasing super blocks, mounting and unmounting.

    Whether the disk in a floppy drive has been changed is the parameter
    [floppy_change] (the floppy driver asks the hardware). *)

From S2P Require Import Prelude Blk Buffer Memory Task FsData Bitmap Inode Namei Tty.

(** [struct d_super_block], the first bytes of block 1 *)
Definition decode_super (d : bytes) (s : super_blk) : super_blk :=
  mk_sb (rd16 d 0) (rd16 d 2) (rd16 d 4) (rd16 d 6) (rd16 d 8) (rd16 d 10) (rd_le32 d 12) (rd16 d 16)
    (s_imap s) (s_zmap s) (s_dev s) (s_isup s) (s_imount s) (s_time s) (s_lock s) (s_rd_only s) (s_dirt s).

Section super.
Context {D : Type} `{BlockDriver D}.
Abbreviation st := (bstate D kernel).
Context (sync_below : M st unit) (floppy_change : Z → M st bool).
Abbreviation iput := (Inode.iput sync_below).
Abbreviation iget := (Inode.iget sync_below).
Abbreviation bread := (Buffer.bread sync_below).
Abbreviation namei := (Namei.namei sync_below).

Definition lock_super (sb : nat) : M st unit :=
  s ← the_sb sb;
  if s_lock s then blocked else upd_sb sb (set_s_lock true).
Definition free_super (sb : nat) : M st unit := upd_sb sb (set_s_lock false).

(** releasing the buffers of a map *)
Definition brelse_all (l : list ptr) : M st unit := for_each brelse l.

Definition put_super (dev : Z) : M st unit :=
  root ← gets (λ s, ROOT_DEV (up s));
  if dev =? root then mret tt
  else
    p ← get_super dev;
    match p with
    | None => mret tt
    | Some sb =>
      s ← the_sb sb;
      match s_imount s with
      | Some _ => mret tt
      | None =>
        lock_super sb ;;
        upd_sb sb (set_s_dev 0) ;;
        s ← the_sb sb;
        brelse_all (s_imap s) ;;
        brelse_all (s_zmap s) ;;
        free_super sb
      end
    end.

(** [check_disk_change] of buffer.c *)
Definition check_disk_change (dev : Z) : M st unit :=
  if negb (MAJOR dev =? 2) then mret tt
  else
    changed ← floppy_change (Z.land dev 3);
    if negb changed then mret tt
    else
      for_each (λ i, s ← the_sb i; when (s_dev s =? dev) (put_super (s_dev s))) (seq 0 NR_SUPER) ;;
      invalidate_inodes dev ;;
      invalidate_buffers dev.

(** reading [n] map blocks from [block] on, slot [i] first; the result is the
    next block.  The source has room for 8 in each map. *)
Fixpoint read_map (put : list ptr → super_blk → super_blk) (get : super_blk → list ptr)
  (n i sb : nat) (dev block : Z) : M st Z :=
  match n with
  | O => mret block
  | S n' =>
    p ← bread dev block;
    s ← the_sb sb;
    if (i <? length (get s))%nat then
      upd_sb sb (λ s, put (<[i := p]> (get s)) s) ;;
      match p with
      | Some _ => read_map put get n' (S i) sb dev (block + 1)
      | None => mret block
      end
    else fault
  end.

(** [s->s_imap[0]->b_data[0] |= 1] *)
Definition reserve_first (l : list ptr) : M st unit :=
  match l !! 0%nat with
  | Some (Some bh) => upd_buf bh (λ b, set_b_data (set_byte (b_data b) 0 (Z.lor (byte_at (b_data b) 0) 1)) b)
  | _ => fault
  end.

Definition fail_super (sb : nat) : M st ptr := upd_sb sb (set_s_dev 0) ;; free_super sb ;; mret None.

Definition read_super (dev : Z) : M st ptr :=
  if dev =? 0 then mret None
  else
    check_disk_change dev ;;
    p ← get_super dev;
    match p with
    | Some sb => mret (Some sb)
    | None =>
      q ← gets (λ s, find_idx (λ x, s_dev x =? 0) (super_block (up s)));
      match q with
      | None => mret None
      | Some sb =>
        upd_sb sb (λ s, set_s_dirt 0 (set_s_rd_only 0 (set_s_time 0 (set_s_imount None (set_s_isup None
          (set_s_dev (u16 dev) s)))))) ;;
        lock_super sb ;;
        p ← bread dev 1;
        match p with
        | None => fail_super sb
        | Some bh =>
          b ← the_buf bh;
          upd_sb sb (decode_super (b_data b)) ;;
          brelse (Some bh) ;;
          s ← the_sb sb;
          if negb (s_magic s =? SUPER_MAGIC) then fail_super sb
          else
            upd_sb sb (λ s, set_s_zmap (replicate Z_MAP_SLOTS None) (set_s_imap (replicate I_MAP_SLOTS None) s)) ;;
            block ← read_map set_s_imap s_imap (Z.to_nat (s_imap_blocks s)) 0 sb dev 2;
            block ← read_map set_s_zmap s_zmap (Z.to_nat (s_zmap_blocks s)) 0 sb dev block;
            s ← the_sb sb;
            if negb (block =? 2 + s_imap_blocks s + s_zmap_blocks s) then
              brelse_all (s_imap s) ;; brelse_all (s_zmap s) ;; fail_super sb
            else
              reserve_first (s_imap s) ;;
              reserve_first (s_zmap s) ;;
              free_super sb ;;
              mret (Some sb)
        end
      end
    end.

(** ** Mounting *)
Definition sys_umount (dev_name : bytes) : M st Z :=
  p ← namei dev_name;
  match p with
  | None => mret (- ENOENT)
  | Some inode =>
    x ← the_inode inode;
    let dev := get_zone 0 x in
    if negb (S_ISBLK (i_mode x)) then iput (Some inode) ;; mret (- ENOTBLK)
    else
      iput (Some inode) ;;
      root ← gets (λ s, ROOT_DEV (up s));
      if dev =? root then mret (- EBUSY)
      else
        p ← get_super dev;
        match p with
        | None => mret (- ENOENT)
        | Some sb =>
          s ← the_sb sb;
          match s_imount s with
          | None => mret (- ENOENT)
          | Some m =>
            busy ← gets (λ s, existsb (λ x, (i_dev x =? dev) && negb (i_count x =? 0)) (inode_table (up s)));
            if (busy : bool) then mret (- EBUSY)
            else
              upd_inode m (set_i_mount false) ;;
              iput (Some m) ;;
              upd_sb sb (set_s_imount None) ;;
              s ← the_sb sb;
              iput (s_isup s) ;;
              upd_sb sb (set_s_isup None) ;;
              put_super dev ;;
              sync_dev sync_below dev ;;
              mret 0
          end
        end
  end.

Definition sys_mount (dev_name dir_name : bytes) : M st Z :=
  p ← namei dev_name;
  match p with
  | None => mret (- ENOENT)
  | Some dev_i =>
    x ← the_inode dev_i;
    let dev := get_zone 0 x in
    if negb (S_ISBLK (i_mode x)) then iput (Some dev_i) ;; mret (- EPERM)
    else
      iput (Some dev_i) ;;
      p ← namei dir_name;
      match p with
      | None => mret (- ENOENT)
      | Some dir_i =>
        x ← the_inode dir_i;
        if negb (i_count x =? 1) || (i_num x =? ROOT_INO) then iput (Some dir_i) ;; mret (- EBUSY)
        else if negb (S_ISDIR (i_mode x)) then iput (Some dir_i) ;; mret (- EPERM)
        else
          p ← read_super dev;
          match p with
          | None => iput (Some dir_i) ;; mret (- EBUSY)
          | Some sb =>
            s ← the_sb sb;
            x ← the_inode dir_i;
            match s_imount s with
            | Some _ => iput (Some dir_i) ;; mret (- EBUSY)
            | None =>
              if i_mount x then iput (Some dir_i) ;; mret (- EPERM)
              else
                upd_sb sb (set_s_imount (Some dir_i)) ;;
                upd_inode dir_i (λ x, set_i_dirt true (set_i_mount true x)) ;;
                mret 0
            end
          end
      end
  end.

(** the number of clear bits below [n] of a map *)
Fixpoint count_clear (n : nat) (l : list ptr) : M st Z :=
  match n with
  | O => mret 0
  | S i =>
    bh ← map_buffer l (Z.of_nat i / 8192);
    b ← the_buf bh;
    r ← count_clear i l;
    mret (if bit_at (b_data b) (Z.of_nat i mod 8192) then r else r + 1)
  end.

(** the result is what it prints: the free blocks and the free inodes *)
Definition mount_root : M st (Z * Z) :=
  for_each (λ i, upd_file i (set_f_count 0)) (seq 0 NR_FILE) ;;
  root ← gets (λ s, ROOT_DEV (up s));
  when (MAJOR root =? 2) (on_tty wait_for_keypress) ;;
  for_each (λ i, upd_sb i (λ s, set_s_lock false (set_s_dev 0 s))) (seq 0 NR_SUPER) ;;
  p ← read_super root;
  match p with
  | None => panic "Unable to mount root"
  | Some sb =>
    mi ← iget root ROOT_INO;
    upd_inode mi (λ x, set_i_count (u16 (i_count x + 3)) x) ;;
    upd_sb sb (λ s, set_s_imount (Some mi) (set_s_isup (Some mi) s)) ;;
    upd_current (λ c, set_t_root (Some mi) (set_t_pwd (Some mi) c)) ;;
    s ← the_sb sb;
    blocks ← count_clear (Z.to_nat (s_nzones s)) (s_zmap s);
    inodes ← count_clear (Z.to_nat (s_ninodes s + 1)) (s_imap s);
    mret (blocks, inodes)
  end.
End super.
