(* ===== verification/Fork.v ===== *)
(** * Making processes

    Models [linux-0.11/kernel/fork.c].  The task descriptors that
    [copy_process] enters into the global descriptor table, and the saving of
    the floating-point registers, are left out. *)

From S2P Require Import Prelude Blk Buffer Memory Task Sched Tty FsData.

(** ** find_empty_process *)
Definition pid_used (pid : Z) (l : list (option task_struct)) : bool :=
  existsb (λ o, match o with Some t => t_pid t =? pid | None => false end) l.

Definition next_pid (pid : Z) : Z := if s32 (pid + 1) <? 0 then 1 else s32 (pid + 1).

(** the [repeat] loop: there are 64 tasks, so at most 65 pids are tried *)
Fixpoint free_pid_loop (fuel : nat) : M sched unit :=
  match fuel with
  | O => nofuel
  | S fuel' =>
    modify (λ s, set_last_pid (next_pid (last_pid s)) s) ;;
    s ← get_st;
    if pid_used (last_pid s) (task s) then free_pid_loop fuel' else mret tt
  end.

(** the slot, or the error *)
Definition find_empty_process : M sched Z :=
  free_pid_loop (S NR_TASKS) ;;
  i ← gets (λ s, find_idx (λ o, match o with None => true | Some _ => false end) (drop 1 (task s)));
  mret (match i with Some i => Z.of_nat i + 1 | None => - EAGAIN end).

(** ** Segments *)
Definition get_base (i : nat) (c : task_struct) : Z := match t_ldt c !! i with Some d => d_base d | None => 0 end.
Definition get_limit (i : nat) (c : task_struct) : Z := match t_ldt c !! i with Some d => d_limit d | None => 0 end.
Definition set_base (i : nat) (base : Z) (c : task_struct) : task_struct :=
  set_t_ldt (alter (λ d, mk_desc base (d_limit d)) i (t_ldt c)) c.
Definition _LDT (n : Z) : Z := Z.shiftl n 4 + Z.shiftl 5 3.

Section fork.
Context {D : Type} `{BlockDriver D}.
Abbreviation st := (bstate D kernel).

(** [n] pages from [start] on *)
Fixpoint verify_pages (n : nat) (start : Z) : M mem unit :=
  match n with
  | O => mret tt
  | S n' => write_verify start ;; verify_pages n' (u32 (start + 4096))
  end.

Definition verify_area (addr size : Z) : M st unit :=
  c ← the_current;
  let size := size + Z.land addr 0xfff in
  let start := u32 (Z.land addr 0xfffff000 + get_base 2 c) in
  on_mem (verify_pages (Z.to_nat ((size + 4095) / 4096)) start).

Definition copy_mem (nr : nat) : M st Z :=
  c ← the_current;
  let code_limit := get_limit 1 c in
  let data_limit := get_limit 2 c in
  let old_code_base := get_base 1 c in
  let old_data_base := get_base 2 c in
  if negb (old_data_base =? old_code_base) then panic "We don't support separate I&D"
  else if data_limit <? code_limit then panic "Bad data_limit"
  else
    let new_data_base := u32 (Z.of_nat nr * 0x4000000) in
    on_sched (upd_task nr (λ p, set_base 2 new_data_base (set_base 1 new_data_base (set_t_start_code new_data_base p)))) ;;
    r ← on_mem (copy_page_tables old_data_base new_data_base data_limit);
    if negb (r =? 0) then
      on_mem (free_page_tables new_data_base data_limit) ;;
      mret (- ENOMEM)
    else mret 0.

(** one more user of each of the things that the child shares *)
Definition share_file (p : ptr) : M st unit :=
  match p with Some f => upd_file f (λ x, set_f_count (u16 (f_count x + 1)) x) | None => mret tt end.
Definition share_inode (p : ptr) : M st unit :=
  match p with Some i => upd_inode i (λ x, set_i_count (u16 (i_count x + 1)) x) | None => mret tt end.

Definition child_tss (nr : nat) (p : Z) (ebp edi esi gs ebx ecx edx fs es ds eip cs eflags esp ss : Z) : tss :=
  mk_tss 0 (PAGE_SIZE + p) 0x10 eip eflags 0 ecx edx ebx esp ebp esi edi
    (u16 es) (u16 cs) (u16 ss) (u16 ds) (u16 fs) (u16 gs) (_LDT (Z.of_nat nr)) (- 0x80000000).

(** the child as a copy of its parent [c] *)
Definition child_of (c : task_struct) (pid jiffies p : Z) (regs : tss) : task_struct :=
  let t := set_t_page p c in
  let t := set_t_state TASK_UNINTERRUPTIBLE t in
  let t := set_t_pid pid t in
  let t := set_t_father (t_pid c) t in
  let t := set_t_counter (t_priority t) t in
  let t := set_t_signal 0 t in
  let t := set_t_alarm 0 t in
  let t := set_t_leader 0 t in
  let t := set_t_stime 0 (set_t_utime 0 t) in
  let t := set_t_cstime 0 (set_t_cutime 0 t) in
  let t := set_t_start_time jiffies t in
  set_t_tss regs t.

Definition put_task (nr : nat) (o : option task_struct) : M st unit :=
  on_sched (modify (λ s, set_task (<[nr := o]> (task s)) s)).

Definition copy_process (nr : nat) (ebp edi esi gs none ebx ecx edx fs es ds eip cs eflags esp ss : Z) : M st Z :=
  p ← on_mem get_free_page;
  if p =? 0 then mret (- EAGAIN)
  else
    c ← the_current;
    s ← on_sched get_st;
    put_task nr (Some (child_of c (last_pid s) (jiffies s) p
      (child_tss nr p ebp edi esi gs ebx ecx edx fs es ds eip cs eflags esp ss))) ;;
    r ← copy_mem nr;
    if negb (r =? 0) then
      put_task nr None ;;
      on_mem (free_page p) ;;
      mret (- EAGAIN)
    else
      child ← on_sched (the_task nr);
      for_each share_file (t_filp child) ;;
      c ← the_current;
      share_inode (t_pwd c) ;;
      share_inode (t_root c) ;;
      share_inode (t_executable c) ;;
      on_sched (upd_task nr (set_t_state TASK_RUNNING)) ;;
      on_sched (gets last_pid).
End fork.

(** ** Proofs *)

Lemma next_pid_eq p : 0 ≤ p < 2 ^ 31 → next_pid p = if decide (p = 2 ^ 31 - 1) then 1 else p + 1.
Proof.
  intros Hp. unfold next_pid. case_decide as E.
  - subst. reflexivity.
  - rewrite s32_id by lia. by rewrite (proj2 (Z.ltb_ge _ _)) by lia.
Qed.

(** the pids tried, one after the other *)
Definition pid_at (p : Z) (j : nat) : Z :=
  if decide (p + Z.of_nat j < 2 ^ 31) then p + Z.of_nat j else p + Z.of_nat j - 2 ^ 31 + 1.

Lemma next_pid_at p j : 0 ≤ p < 2 ^ 31 → Z.of_nat j ≤ 100 → next_pid (pid_at p j) = pid_at p (S j).
Proof.
  intros Hp Hj. unfold pid_at. rewrite next_pid_eq by (case_decide; lia).
  repeat case_decide; lia.
Qed.

Lemma pid_used_spec pid l : pid_used pid l = true ↔ ∃ t, Some t ∈ l ∧ t_pid t = pid.
Proof.
  unfold pid_used. rewrite existsb_exists. split.
  - intros ([t|] & Hin & Ht); [|done]. b2p. exists t. by rewrite list_elem_of_In.
  - intros (t & Hin & Ht). exists (Some t). rewrite <- list_elem_of_In, Z.eqb_eq. done.
Qed.

(** one of 65 successive pids is free *)
Lemma free_pid_exists p l : 0 ≤ p < 2 ^ 31 → (length l ≤ NR_TASKS)%nat →
  ∃ j, (j ≤ NR_TASKS)%nat ∧ pid_used (pid_at p (S j)) l = false.
Proof.
  intros Hp Hl. destruct (decide (Exists (λ j, pid_used (pid_at p (S j)) l = false) (seq 0 (S NR_TASKS)))) as [(j & Hj & Hf)%Exists_exists|Hno].
  { exists j. split; [|done]. apply elem_of_seq in Hj. lia. }
  exfalso. set (pids := (λ j, pid_at p (S j)) <$> seq 0 (S NR_TASKS)).
  assert (Hnd : NoDup pids).
  { apply NoDup_fmap_2_strong; [|apply NoDup_seq]. intros i j Hi Hj. rewrite elem_of_seq in Hi, Hj.
    unfold pid_at, NR_TASKS in *. repeat case_decide; lia. }
  assert (Hsub : pids ⊆+ (λ o, from_option t_pid 0 o) <$> l).
  { apply NoDup_submseteq; [done|]. intros x (j & -> & Hj)%list_elem_of_fmap.
    destruct (pid_used (pid_at p (S j)) l) eqn:E; [|exfalso; apply Hno, Exists_exists; eauto].
    apply pid_used_spec in E as (t & Ht & <-). apply list_elem_of_fmap. by exists (Some t). }
  apply submseteq_length in Hsub. unfold pids in Hsub. rewrite !length_fmap, length_seq in Hsub. lia.
Qed.

Lemma free_pid_run p s fuel j k : 0 ≤ p < 2 ^ 31 → last_pid s = pid_at p j → (j + k ≤ 70)%nat →
  pid_used (pid_at p (S (j + k))) (task s) = false → (k < fuel)%nat →
  wp (free_pid_loop fuel) (λ _ s', pid_used (last_pid s') (task s) = false ∧
    s' = set_last_pid (last_pid s') s ∧ ∃ i, last_pid s' = pid_at p (S i) ∧ (i ≤ j + k)%nat) s.
Proof.
  intros Hp. revert s j k. induction fuel as [|fuel IH]; intros s j k Hlast Hjk Hfree Hfuel; [lia|].
  cbn [free_pid_loop]. wp_steps; cbn [set_last_pid last_pid task] in *; rewrite Hlast, next_pid_at in * by lia.
  - destruct k as [|k]; [rewrite Nat.add_0_r in Hfree; congruence|].
    eapply wp_mono; [apply (IH _ (S j) k); cbn; try done; [lia|by rewrite Nat.add_succ_r in Hfree|lia]|].
    intros [] s' (H1 & H2 & i & Hi & Hle). split; [done|]. split; [by rewrite H2 at 1|]. exists i. split; [done|lia].
  - split; [done|]. split; [done|]. exists j. split; [done|lia].
Qed.

(** C27. [find_empty_process] always comes to an end - whatever the pids in use,
    and also when the counter wraps around - with a pid that no task has, and
    the first free slot of the task table but slot 0, or [-EAGAIN] when there
    is none.  Nothing but [last_pid] is changed. *)
Theorem find_empty_process_fresh s :
  0 ≤ last_pid s < 2 ^ 31 → length (task s) = NR_TASKS →
  wp find_empty_process (λ r s',
    s' = set_last_pid (last_pid s') s ∧ 0 < last_pid s' < 2 ^ 31 ∧
    (∀ t, Some t ∈ task s → t_pid t ≠ last_pid s') ∧
    (r = - EAGAIN ∧ (∀ i, (1 ≤ i < NR_TASKS)%nat → ∃ t, task s !! i = Some (Some t)) ∨
     ∃ i, r = Z.of_nat i ∧ (1 ≤ i)%nat ∧ task s !! i = Some None ∧
       ∀ k, (1 ≤ k < i)%nat → ∃ t, task s !! k = Some (Some t))) s.
Proof.
  intros Hp Hl. destruct (free_pid_exists (last_pid s) (task s) Hp ltac:(lia)) as (j & Hj & Hfree).
  unfold find_empty_process. apply wp_bind.
  eapply wp_mono.
  { apply (free_pid_run (last_pid s) s _ 0 j); try done; [|unfold NR_TASKS in *; lia|lia].
    unfold pid_at. rewrite decide_True; lia. }
  intros [] s' (Hnot & Hs' & i & Hi & Hle). wp_steps.
  assert (Htask : task s' = task s) by (by rewrite Hs'). rewrite Htask.
  split; [done|]. split.
  { rewrite Hi. unfold pid_at, NR_TASKS in *. case_decide; lia. }
  split.
  { intros t Ht Heq. apply not_true_iff_false in Hnot. apply Hnot, pid_used_spec. eauto. }
  destruct (find_idx _ _) as [k|] eqn:Ek.
  - right. apply find_idx_Some in Ek as (o & Ho & Hnone & Hmin). rewrite lookup_drop in Ho.
    exists (S k). destruct o; [done|]. split; [lia|]. split; [lia|]. split; [done|].
    intros m Hm. destruct (lookup_lt_is_Some_2 (task s) m) as [o Hm'].
    { apply lookup_lt_Some in Ho. lia. }
    specialize (Hmin (m - 1)%nat o ltac:(lia)). rewrite lookup_drop in Hmin.
    replace (1 + (m - 1))%nat with m in Hmin by lia. specialize (Hmin Hm'). destruct o; [eauto|done].
  - left. split; [done|]. rewrite find_idx_None in Ek. intros m Hm.
    destruct (lookup_lt_is_Some_2 (task s) m) as [o Hm']; [lia|]. destruct o as [t|]; [eauto|].
    specialize (Ek None). discriminate Ek. apply list_elem_of_lookup. exists (m - 1)%nat. rewrite lookup_drop.
    by replace (1 + (m - 1))%nat with m by lia.
Qed.

(** the counter at its last value, and pid 1 in use: the next pid is 2 *)
Definition full_tasks : sched :=
  mk_sched (Some (set_t_pid 0 (demo_task 0 0)) :: Some (set_t_pid 1 (demo_task 0 0)) :: replicate 62 None) 0 0 0 (2 ^ 31 - 1).

Lemma find_empty_process_fresh_witness :
  wp find_empty_process (λ r s',
    s' = set_last_pid (last_pid s') full_tasks ∧ 0 < last_pid s' < 2 ^ 31 ∧
    (∀ t, Some t ∈ task full_tasks → t_pid t ≠ last_pid s') ∧
    (r = - EAGAIN ∧ (∀ i, (1 ≤ i < NR_TASKS)%nat → ∃ t, task full_tasks !! i = Some (Some t)) ∨
     ∃ i, r = Z.of_nat i ∧ (1 ≤ i)%nat ∧ task full_tasks !! i = Some None ∧
       ∀ k, (1 ≤ k < i)%nat → ∃ t, task full_tasks !! k = Some (Some t))) full_tasks ∧
  match find_empty_process full_tasks with Ret r s' => r = 2 ∧ last_pid s' = 2 | _ => False end.
Proof.
  split; [|vm_compute; split; reflexivity].
  apply (find_empty_process_fresh full_tasks); [|reflexivity].
  cbn [full_tasks last_pid]. lia.
Defined.
