(* ===== verification/FileIO.v ===== *)
(** * Reading and writing files and block devices

    Models [linux-0.11/fs/file_dev.c] and [fs/block_dev.c].  What is written to
    user memory is part of the result, and what is read from it is a list of
    bytes: its length is the [count] of the source. *)

From S2P Require Import Prelude Blk Buffer Task FsData Bitmap Inode.

Section file_io.
Context {D : Type} `{BlockDriver D}.
Abbreviation st := (bstate D kernel).
Context (sync_below : M st unit).
Abbreviation bmap := (Inode.bmap sync_below).
Abbreviation create_block := (Inode.create_block sync_below).
Abbreviation bread := (Buffer.bread sync_below).
Abbreviation breada := (Buffer.breada sync_below).
Abbreviation getblk := (Buffer.getblk sync_below).

(** ** file_dev.c *)

(** the block [nr] of a file: its buffer, nothing for a hole ([None]), or an
    error *)
Definition file_block (inode : nat) (nr : Z) : M st (option ptr) :=
  if nr =? 0 then mret (Some None)
  else
    x ← the_inode inode;
    p ← bread (i_dev x) nr;
    mret (match p with Some bh => Some (Some bh) | None => None end).

(** the bytes handed out: [chars] bytes of the buffer from [nr] on, or zeros *)
Definition block_bytes (bh : ptr) (nr chars : Z) : M st bytes :=
  match bh with
  | Some bh =>
    b ← the_buf bh;
    brelse (Some bh) ;;
    mret (slice (Z.to_nat nr) (Z.to_nat chars) (b_data b))
  | None => mret (replicate (Z.to_nat chars) 0)
  end.

Fixpoint file_read_loop (fuel : nat) (inode filp : nat) (left : Z) (acc : bytes) : M st (Z * bytes) :=
  match fuel with
  | O => nofuel
  | S fuel' =>
    if left =? 0 then mret (left, acc)
    else
      f ← the_file filp;
      nr ← bmap inode (Z.quot (f_pos f) BLOCK_SIZE);
      p ← file_block inode nr;
      match p with
      | None => mret (left, acc)
      | Some bh =>
        f ← the_file filp;
        let nr := Z.rem (f_pos f) BLOCK_SIZE in
        let chars := Z.min (BLOCK_SIZE - nr) left in
        upd_file filp (λ f, set_f_pos (s32 (f_pos f + chars)) f) ;;
        d ← block_bytes bh nr chars;
        file_read_loop fuel' inode filp (left - chars) (acc ++ d)
      end
  end.

(** the result of the call, and the bytes stored in the user's buffer *)
Definition file_read (inode filp : nat) (count : Z) : M st (Z * bytes) :=
  if count <=? 0 then mret (0, [])
  else
    r ← file_read_loop (Z.to_nat (count / BLOCK_SIZE) + 3) inode filp count [];
    t ← now;
    upd_inode inode (set_i_atime (u32 t)) ;;
    mret (if count - r.1 =? 0 then - ERROR else count - r.1, r.2).

(** [buf] has still to be written, from position [pos]; the result is what is
    left of it, and the position reached *)
Fixpoint file_write_loop (fuel : nat) (inode : nat) (pos : Z) (buf : bytes) : M st (Z * bytes) :=
  match fuel with
  | O => nofuel
  | S fuel' =>
    match buf with
    | [] => mret (pos, [])
    | _ =>
      block ← create_block inode (Z.quot pos BLOCK_SIZE);
      if block =? 0 then mret (pos, buf)
      else
        x ← the_inode inode;
        p ← bread (i_dev x) block;
        match p with
        | None => mret (pos, buf)
        | Some bh =>
          let off := Z.rem pos BLOCK_SIZE in
          upd_buf bh (set_b_dirt true) ;;
          let c := Z.min (BLOCK_SIZE - off) (Z.of_nat (length buf)) in
          let pos := s32 (pos + c) in
          x ← the_inode inode;
          when (i_size x <? u32 pos) (upd_inode inode (λ x, set_i_dirt true (set_i_size (u32 pos) x))) ;;
          upd_buf bh (λ b, set_b_data (splice (Z.to_nat off) (take (Z.to_nat c) buf) (b_data b)) b) ;;
          brelse (Some bh) ;;
          file_write_loop fuel' inode pos (drop (Z.to_nat c) buf)
        end
    end
  end.

Definition file_write (inode filp : nat) (buf : bytes) : M st Z :=
  f ← the_file filp;
  x ← the_inode inode;
  let append := negb (Z.land (f_flags f) O_APPEND =? 0) in
  let pos := if append then s32 (i_size x) else f_pos f in
  r ← file_write_loop (length buf / 1024 + 3) inode pos buf;
  let i := Z.of_nat (length buf) - Z.of_nat (length r.2) in
  t ← now;
  upd_inode inode (set_i_mtime (u32 t)) ;;
  when (negb append)
    (upd_file filp (set_f_pos r.1) ;;
     upd_inode inode (set_i_ctime (u32 t))) ;;
  mret (if i =? 0 then -1 else i).

(** ** block_dev.c *)

(** [pos] is the position in the device; the result is what is left of [buf],
    the position reached, and whether a block could not be had *)
Fixpoint block_write_loop (fuel : nat) (dev pos block offset : Z) (buf : bytes) : M st (bytes * Z * bool) :=
  match fuel with
  | O => nofuel
  | S fuel' =>
    match buf with
    | [] => mret ([], pos, false)
    | _ =>
      let chars := Z.min (BLOCK_SIZE - offset) (Z.of_nat (length buf)) in
      p ← (if chars =? BLOCK_SIZE then bh ← getblk dev block; mret (Some bh)
           else breada dev block [block + 1; block + 2; -1]);
      match p with
      | None => mret (buf, pos, true)
      | Some bh =>
        upd_buf bh (λ b, set_b_dirt true
          (set_b_data (splice (Z.to_nat offset) (take (Z.to_nat chars) buf) (b_data b)) b)) ;;
        brelse (Some bh) ;;
        block_write_loop fuel' dev (s32 (pos + chars)) (block + 1) 0 (drop (Z.to_nat chars) buf)
      end
    end
  end.

(** the result, and the new position *)
Definition block_write (dev pos : Z) (buf : bytes) : M st (Z * Z) :=
  r ← block_write_loop (length buf / 1024 + 3) dev pos (Z.shiftr pos BLOCK_SIZE_BITS) (Z.land pos (BLOCK_SIZE - 1)) buf;
  let '(rest, pos, failed) := r in
  let written := Z.of_nat (length buf) - Z.of_nat (length rest) in
  mret (if (failed : bool) && (written =? 0) then - EIO else written, pos).

Fixpoint block_read_loop (fuel : nat) (dev pos block offset count : Z) (acc : bytes) : M st (bytes * Z * bool) :=
  match fuel with
  | O => nofuel
  | S fuel' =>
    if count <=? 0 then mret (acc, pos, false)
    else
      let chars := Z.min (BLOCK_SIZE - offset) count in
      p ← breada dev block [block + 1; block + 2; -1];
      match p with
      | None => mret (acc, pos, true)
      | Some bh =>
        b ← the_buf bh;
        brelse (Some bh) ;;
        block_read_loop fuel' dev (u32 (pos + chars)) (block + 1) 0 (count - chars)
          (acc ++ slice (Z.to_nat offset) (Z.to_nat chars) (b_data b))
      end
  end.

(** the result, the new position, and the bytes read; [pos] is declared
    unsigned here *)
Definition block_read (dev pos count : Z) : M st (Z * Z * bytes) :=
  r ← block_read_loop (Z.to_nat (count / BLOCK_SIZE) + 3) dev (u32 pos)
        (Z.shiftr (u32 pos) BLOCK_SIZE_BITS) (Z.land (u32 pos) (BLOCK_SIZE - 1)) count [];
  let '(acc, pos, failed) := r in
  let read := Z.of_nat (length acc) in
  mret (if (failed : bool) && (read =? 0) then - EIO else read, s32 pos, acc).
End file_io.
