(* ===== verification/BlockStore.v ===== *)
(** * Reading, writing and allocating blocks of a mounted device

    The cache of [BufferCache] as those see it who write: each operation says
    how the contents of the blocks and the zone bitmap change, and how many
    buffers it may use up.  The writing of files is proved against this. *)

From S2P Require Import Prelude Blk DList Buffer BufferQueues BufferCache CacheView Task FsData KernelRules Bitmap.

Section block_store.
Context {D : Type} `{BlockDriverOk D}.
Abbreviation st := (bstate D kernel).
Context (sync : M st unit) (dev : Z) (sb : nat) (x : super_blk).
Implicit Types (s : st).

(** the bit of zone [z] in the bitmaps: set if the zone is in use *)
Definition zone_bit s (z : Z) : option bool := map_bit (cores s) (s_zmap x) (z - s_firstdatazone x + 1).
(** no zone of the device is left *)
Definition full s : Prop := ∀ z, s_firstdatazone x ≤ z < s_nzones x → zone_bit s z ≠ Some false.

(** at least [k] buffers can be taken over *)
Definition supply (k : nat) s : Prop := ∃ l, NoDup l ∧ length l = k ∧ ∀ v, v ∈ l → clean_at (cores s) v = true.

(** Device [dev] is mounted with its zone bitmaps in the cache, which has [k]
    buffers to give; but buffer [o] may be used to its limit. *)
Record fs_at (o : option nat) (k : nat) s : Prop := {
  fa_inv : cache_inv s;
  fa_supply : supply k s;
  fa_count j c : o ≠ Some j → cores s !! j = Some c → c_count c < 255;
  fa_super : super_at s dev sb x;
  fa_maps : maps_ok (cores s) (s_zmap x);
  fa_used i c : cores s !! i = Some c → 0 < c_count c → c_dev c = dev → zone_bit s (c_blocknr c) ≠ Some false;
  fa_bit0 : map_bit (cores s) (s_zmap x) 0 = Some true;
  fa_layout n : map_block (cores s) (s_zmap x) dev n → n < s_firstdatazone x;
  fa_range : 0 < dev < 65536 ∧ 1 ≤ s_firstdatazone x ∧ s_nzones x ≤ 65536
}.

(** a block that holds a zone bitmap *)
Definition bitmap_block s (n : Z) : Prop := map_block (cores s) (s_zmap x) dev n.

Lemma supply_weaken k k' s : (k' ≤ k)%nat → supply k s → supply k' s.
Proof.
  intros Hle (l & Hn & Hl & Hc). exists (take k' l). split_and!.
  - eapply sublist_NoDup; [exact Hn|apply sublist_take].
  - rewrite length_take. lia.
  - intros v Hv. apply Hc. apply elem_of_take in Hv as (i & Hi & _). by eapply list_elem_of_lookup_2.
Qed.
Lemma supply_room k s : supply (S k) s → room (cores s).
Proof. intros (l & _ & Hl & Hc). destruct l as [|v l]; [done|]. exists v. apply Hc. left. Qed.

(** when one buffer changes, at most one fewer is left *)
Lemma supply_but k i s s' : supply (S k) s → (∀ j, j ≠ i → clean_at (cores s) j = true → clean_at (cores s') j = true) →
  supply k s'.
Proof.
  intros (l & Hn & Hl & Hc) Hs. destruct (decide (i ∈ l)) as [Hi|Hi].
  - apply list_elem_of_split in Hi as (l1 & l2 & ->). exists (l1 ++ l2). apply NoDup_app in Hn as (N1 & N2 & N3).
    apply NoDup_cons in N3 as [N3 N4]. rewrite length_app in Hl. cbn in Hl. split_and!.
    + apply NoDup_app. split_and!; try done. intros v Hv Hin. apply (N2 v Hv). by right.
    + rewrite length_app. lia.
    + intros v Hv. apply Hs; [|apply Hc; apply elem_of_app in Hv as [?|?]; apply elem_of_app; [by left|right; by right]].
      intros ->. apply elem_of_app in Hv as [Hv|Hv]; [|done]. apply (N2 i Hv). left.
  - destruct l as [|v l]; [done|]. apply (supply_weaken (S k)); [lia|]. exists (v :: l). split_and!; try done.
    intros w Hw. apply Hs; [by intros ->|by apply Hc].
Qed.

Lemma map_bit_same s s' b : (∀ i bh, s_zmap x !! i = Some (Some bh) → cores s' !! bh = cores s !! bh) →
  map_bit (cores s') (s_zmap x) b = map_bit (cores s) (s_zmap x) b.
Proof. apply map_bit_ext. Qed.

Lemma map_held s i bh : maps_ok (cores s) (s_zmap x) → s_zmap x !! i = Some (Some bh) →
  ∃ c, cores s !! bh = Some c ∧ 0 < c_count c.
Proof. intros Hm Hi. destruct (mp_buf _ _ Hm _ _ Hi) as (c & ? & _ & _ & ? & _). by exists c. Qed.

Lemma maps_ok_same s s' : (∀ i bh, s_zmap x !! i = Some (Some bh) → cores s' !! bh = cores s !! bh) →
  maps_ok (cores s) (s_zmap x) → maps_ok (cores s') (s_zmap x).
Proof.
  intros Hs [Hl Hb Hi]. constructor; try done. intros i bh Hz. rewrite (Hs _ _ Hz). by eapply Hb.
Qed.
Lemma map_block_same s s' d n : (∀ i bh, s_zmap x !! i = Some (Some bh) → cores s' !! bh = cores s !! bh) →
  map_block (cores s') (s_zmap x) d n ↔ map_block (cores s) (s_zmap x) d n.
Proof.
  intros Hs. split; intros (i & bh & c & Hz & Hc & Hk); exists i, bh, c; [rewrite (Hs _ _ Hz) in Hc|rewrite (Hs _ _ Hz)]; done.
Qed.

(** *** One buffer changes *)

(** only buffer [i], which holds no bitmap, has changed *)
Record one_changed (i : nat) s s' : Prop := {
  oc_inv : cache_inv s';
  oc_super : super_block (up s') = super_block (up s);
  oc_others j : j ≠ i → cores s' !! j = cores s !! j;
  oc_map k : s_zmap x !! k ≠ Some (Some i)
}.
Lemma one_changed_map i s s' : one_changed i s s' →
  ∀ k bh, s_zmap x !! k = Some (Some bh) → cores s' !! bh = cores s !! bh.
Proof. intros [_ _ Ho Hm] k bh Hk. apply Ho. intros ->. by eapply Hm. Qed.

Lemma super_at_same s s' : super_block (up s') = super_block (up s) → super_at s dev sb x → super_at s' dev sb x.
Proof. intros E [? ? ? ? ? ? ?]. constructor; rewrite ?E; done. Qed.

Lemma one_changed_fs o o' k k' i s s' c' : one_changed i s s' → fs_at o k s → supply k' s' → cores s' !! i = Some c' →
  (∀ j, o' ≠ Some j → j ≠ i → o ≠ Some j) → (o' ≠ Some i → c_count c' < 255) →
  (0 < c_count c' → c_dev c' = dev → zone_bit s (c_blocknr c') ≠ Some false) →
  fs_at o' k' s'.
Proof.
  intros Hoc [Hinv _ Hcnt Hsup Hmaps Hused Hb0 Hlay Hr] Hsupply Hc' Ho' Hc255 Hc'used.
  pose proof (one_changed_map _ _ _ Hoc) as Hmap.
  constructor; [apply Hoc|done| |by eapply super_at_same; [apply Hoc|]|by eapply maps_ok_same| | | |done].
  - intros j c Hoj Hc. destruct (decide (j = i)) as [->|Hne]; [rewrite Hc' in Hc; injection Hc as <-; by apply Hc255|].
    rewrite (oc_others _ _ _ Hoc) in Hc by done. eapply Hcnt; [by apply Ho'|done].
  - intros j c Hc Hpos Hd. unfold zone_bit. rewrite (map_bit_same _ _ _ Hmap).
    destruct (decide (j = i)) as [->|Hne]; [rewrite Hc' in Hc; injection Hc as <-; by apply Hc'used|].
    rewrite (oc_others _ _ _ Hoc) in Hc by done. by eapply Hused.
  - by rewrite (map_bit_same _ _ _ Hmap).
  - intros n Hn%(map_block_same _ _ _ _ Hmap). by apply Hlay.
Qed.

(** Nothing that can be seen from above has changed. *)
Record unmoved s s' : Prop := {
  um_up : up s' = up s;
  um_view : same_view s s';
  um_bit b : map_bit (cores s') (s_zmap x) b = map_bit (cores s) (s_zmap x) b;
  um_map d n : map_block (cores s') (s_zmap x) d n ↔ map_block (cores s) (s_zmap x) d n
}.
Lemma unmoved_refl s : unmoved s s.
Proof. by constructor. Qed.
Lemma unmoved_trans s1 s2 s3 : unmoved s1 s2 → unmoved s2 s3 → unmoved s1 s3.
Proof.
  intros [U1 V1 B1 M1] [U2 V2 B2 M2]. constructor; [congruence|by etransitivity| |].
  - intros b. by rewrite B2, B1.
  - intros d n. by rewrite M2, M1.
Qed.

(** Buffer [bh] holds block [n] of the device, which is no bitmap, with contents
    [d]; it is marked dirty if [dt]. *)
Record holds (bh : nat) (n : Z) (d : bytes) (dt : bool) (k : nat) s : Prop := {
  ho_fs : fs_at (Some bh) k s;
  ho_map i : s_zmap x !! i ≠ Some (Some bh);
  ho_core : ∃ c, cores s !! bh = Some c ∧ c_dev c = dev ∧ c_blocknr c = n ∧ c_data c = d ∧ c_uptodate c = true ∧
    1 ≤ c_count c ≤ 255 ∧ (dt = true → c_dirt c = true)
}.

Lemma one_changed_unmoved i s s' : one_changed i s s' → up s' = up s → same_view s s' → unmoved s s'.
Proof.
  intros Hoc Hup Hv. pose proof (one_changed_map _ _ _ Hoc) as Hmap. constructor; [done|done| |].
  - intros b. by apply map_bit_same.
  - intros d n. by apply map_block_same.
Qed.

Lemma bread_fs k s n d : fs_at None (S k) s → block_range dev n → view s dev n = Some d →
  ¬ bitmap_block s n → zone_bit s n ≠ Some false →
  wp (bread sync dev n) (λ p s', ∃ bh, p = Some bh ∧ holds bh n d false k s' ∧ unmoved s s') s.
Proof.
  intros Hfs Hr Hv Hnm Hnf. pose proof (fa_inv _ _ _ Hfs) as Hinv.
  eapply wp_mono; [apply bread_contract; [done|done|]|].
  { destruct (key_dec (cores s) dev n) as [[i (c & Hc & Hd & Hn)]|Hno].
    - left. exists i, c. split_and!; try done. by eapply (fa_count _ _ _ Hfs).
    - right. split; [done|]. eapply supply_room. apply (fa_supply _ _ _ Hfs). }
  intros p s' (i & [Hinv' Hup _ Hoth Hview] & Hres). rewrite Hv in Hres. destruct Hres as (-> & c & c' & Hc & Hc' & Hcv & Hout).
  assert (Hcnt : 1 ≤ c_count c' ≤ 255).
  { pose proof (bo_count _ (co_buf _ (ci_cores _ Hinv) _ _ Hc)). destruct Hout as [(_ & _ & ? & ? & _)|(_ & _ & ? & _)]; lia. }
  assert (Hmap : ∀ j, s_zmap x !! j ≠ Some (Some i)).
  { intros j Hj. destruct (map_held _ _ _ (fa_maps _ _ _ Hfs) Hj) as (c0 & Hc0 & Hpos). rewrite Hc in Hc0. injection Hc0 as <-.
    destruct Hout as [(Hd & Hn & _)|(Hcl & _)].
    - apply Hnm. by exists j, i, c.
    - apply lookup_clean in Hcl as (c0 & Hc0 & ? & _). rewrite Hc in Hc0. injection Hc0 as <-. lia. }
  assert (Hoc : one_changed i s s') by (constructor; [done|by rewrite Hup|done|done]).
  exists i. split; [done|]. split; [|by eapply one_changed_unmoved].
  rewrite Hcv in Hc'. constructor; [|done|].
  - eapply (one_changed_fs None _ (S k) _ i); [done|done| |exact Hc'| |done|by cbn].
    + eapply supply_but; [apply (fa_supply _ _ _ Hfs)|]. intros j Hj. unfold clean_at. by rewrite Hoth.
    + done.
  - eexists. split; [exact Hc'|]. cbn. split_and!; try done; lia.
Qed.

Lemma brelse_fs bh n d dt k s : holds bh n d dt k s →
  wp (brelse (Some bh)) (λ _ s', fs_at None k s' ∧ unmoved s s') s.
Proof.
  intros [Hfs Hmap (c & Hc & Hd & Hn & Hcd & Hu & Hcnt & _)].
  eapply wp_mono; [by eapply (brelse_contract _ _ _ (fa_inv _ _ _ Hfs) Hc); lia|].
  intros [] s' [[Hinv' Hup _ Hoth Hview] Hc'].
  assert (Hoc : one_changed bh s s') by (constructor; [done|by rewrite Hup|done|done]).
  split; [|by eapply one_changed_unmoved].
  eapply (one_changed_fs (Some bh) None k k bh); [done|done| |exact Hc'| | |].
  - destruct (fa_supply _ _ _ Hfs) as (l & Hnd & Hl & Hcl). exists l. split_and!; try done. intros v Hv.
    specialize (Hcl v Hv). unfold clean_at in *. destruct (decide (v = bh)) as [->|Hne]; [|by rewrite Hoth].
    rewrite Hc in Hcl. unfold is_clean in Hcl. lia.
  - intros j _ Hj [= <-]. done.
  - intros _. cbn. rewrite u8_id by lia. lia.
  - intros Hpos Hd'. cbn in *. eapply (fa_used _ _ _ Hfs); [exact Hc|lia|done].
Qed.

(** Changing the contents of a buffer that is held. *)
Record changed (n : Z) (d : bytes) s s' : Prop := {
  ch_up : up s' = up s;
  ch_view dev' n' : dev' ≠ 0 → view s' dev' n' = if decide (dev' = dev ∧ n' = n) then Some d else view s dev' n';
  ch_bit b : map_bit (cores s') (s_zmap x) b = map_bit (cores s) (s_zmap x) b;
  ch_map d n : map_block (cores s') (s_zmap x) d n ↔ map_block (cores s) (s_zmap x) d n
}.

Lemma put_held bh n d dt k s d' f : holds bh n d dt k s → length d' = 1024%nat →
  (∀ b, bufs s !! bh = Some b → f b = set_b_dirt true (set_b_data d' b)) →
  let s' := put_bufs (alter f bh (bufs s)) s in holds bh n d' true k s' ∧ changed n d' s s'.
Proof.
  intros [Hfs Hmap (c & Hc & Hd & Hn & Hcd & Hu & Hcnt & _)] Hlen Hf.
  destruct (write_step s bh c d' (fa_inv _ _ _ Hfs) Hc Hlen) as (Hinv' & Hup' & _ & Hcs & Hc' & Hoth & Hview).
  destruct (lookup_cores _ _ _ Hc) as (b0 & Hb0 & Hbc0).
  assert (Hsame : put_bufs (alter (set_b_dirt true ∘ (set_b_uptodate true ∘ set_b_data d')) bh (bufs s)) s =
                  put_bufs (alter f bh (bufs s)) s).
  { f_equal. apply list_eq. intros y. rewrite !list_lookup_alter. case_decide as E0; [subst y|done].
    rewrite Hb0. cbn. f_equal. rewrite (Hf _ Hb0). rewrite <- Hbc0 in Hu. destruct b0. cbn in *. by subst. }
  rewrite Hsame in *. set (s' := put_bufs _ s) in *. cbn zeta.
  assert (Hoc : one_changed bh s s') by (constructor; [done|by rewrite Hup'|done|done]).
  pose proof (one_changed_map _ _ _ Hoc) as Hm. split.
  - constructor; [|done|].
    + eapply (one_changed_fs (Some bh) (Some bh) k k bh); [done|done| |exact Hc'|by intros j ? _|done|].
      * destruct (fa_supply _ _ _ Hfs) as (l & Hnd & Hl & Hcl). exists l. split_and!; try done. intros v Hv.
        specialize (Hcl v Hv). unfold clean_at in *. destruct (decide (v = bh)) as [->|Hne]; [|by rewrite Hoth].
        rewrite Hc in Hcl. unfold is_clean in Hcl. lia.
      * intros Hpos Hd'. cbn in *. eapply (fa_used _ _ _ Hfs); [exact Hc|lia|done].
    + eexists. split; [exact Hc'|]. by cbn.
  - constructor; [done| | |].
    + intros dev' n' Hd0. rewrite Hview by done. by rewrite Hd, Hn.
    + intros b. by apply map_bit_same.
    + intros ? ?. by apply map_block_same.
Qed.

Lemma held_data bh n d dt k s b : holds bh n d dt k s → bufs s !! bh = Some b → b_data b = d ∧ (dt = true → b_dirt b = true).
Proof.
  intros [_ _ (c & Hc & _ & _ & Hcd & _ & _ & Hdt)] Hb. apply cores_lookup in Hb. rewrite Hc in Hb. injection Hb as ->. done.
Qed.
Lemma held_lt bh n d dt k s : holds bh n d dt k s → (bh < length (bufs s))%nat.
Proof. intros [_ _ (c & Hc & _)]. apply lookup_lt_Some in Hc. by rewrite length_cores in Hc. Qed.

Lemma wp_held_buf bh n d dt k s (Q : buffer_head → st → Prop) : holds bh n d dt k s →
  (∀ b, b_data b = d → Q b s) → wp (the_buf bh) Q s.
Proof.
  intros Hh HQ. destruct (lookup_lt_is_Some_2 _ _ (held_lt _ _ _ _ _ _ Hh)) as [b Hb].
  eapply wp_the_buf; [exact Hb|]. apply HQ. by eapply held_data.
Qed.
Lemma wp_held_dirt bh n d dt k s (Q : unit → st → Prop) : holds bh n d dt k s → length d = 1024%nat →
  (∀ s', holds bh n d true k s' → changed n d s s' → Q tt s') → wp (upd_buf bh (set_b_dirt true)) Q s.
Proof.
  intros Hh Hd HQ. apply wp_upd_buf; [by eapply held_lt|].
  destruct (put_held bh n d dt k s d (set_b_dirt true) Hh Hd) as [H1 H2]; [|by apply HQ].
  intros b Hb. destruct (held_data _ _ _ _ _ _ _ Hh Hb) as [<- _]. by destruct b.
Qed.
Lemma wp_held_write bh n d k s d' f (Q : unit → st → Prop) : holds bh n d true k s → length d' = 1024%nat →
  (∀ b, b_data b = d → f b = set_b_data d' b) →
  (∀ s', holds bh n d' true k s' → changed n d' s s' → Q tt s') → wp (upd_buf bh f) Q s.
Proof.
  intros Hh Hd Hf HQ. apply wp_upd_buf; [by eapply held_lt|].
  destruct (put_held bh n d true k s d' f Hh Hd) as [H1 H2]; [|by apply HQ].
  intros b Hb. destruct (held_data _ _ _ _ _ _ _ Hh Hb) as [Hbd Hdt]. rewrite (Hf b Hbd).
  specialize (Hdt eq_refl). destruct b. cbn in *. by subst.
Qed.
Lemma wp_held_both bh n d dt k s d' f (Q : unit → st → Prop) : holds bh n d dt k s → length d' = 1024%nat →
  (∀ b, b_data b = d → f b = set_b_data d' b) →
  (∀ s', holds bh n d' true k s' → changed n d' s s' → Q tt s') →
  wp (upd_buf bh f ;; upd_buf bh (set_b_dirt true)) Q s.
Proof.
  intros Hh Hd Hf HQ. apply wp_bind, wp_upd_buf; [by eapply held_lt|].
  apply wp_upd_buf; rewrite bufs_put, ?length_alter, ?put_put; [by eapply held_lt|]. rewrite alter_alter.
  destruct (put_held bh n d dt k s d' (set_b_dirt true ∘ f) Hh Hd) as [H1 H2]; [|by apply HQ].
  intros b Hb. destruct (held_data _ _ _ _ _ _ _ Hh Hb) as [Hbd _]. cbn. by rewrite (Hf b Hbd).
Qed.

(** ** A new block *)

(** what [new_block] has done, having returned [r] *)
Record alloc (r : Z) s s' : Prop := {
  al_up : up s' = up s;
  al_bit z : zone_bit s z ≠ Some false → zone_bit s' z = zone_bit s z;
  al_zone : r ≠ 0 → s_firstdatazone x ≤ r < s_nzones x ∧ zone_bit s r = Some false ∧ zone_bit s' r = Some true;
  al_view dev' n' : dev' ≠ 0 → ¬ map_block (cores s) (s_zmap x) dev' n' →
    view s' dev' n' = if decide (r ≠ 0 ∧ dev' = dev ∧ n' = r) then Some (replicate 1024 0) else view s dev' n';
  al_map d n : map_block (cores s') (s_zmap x) d n ↔ map_block (cores s) (s_zmap x) d n;
  al_held j c : cores s !! j = Some c → 0 < c_count c → (∀ i, s_zmap x !! i ≠ Some (Some j)) → cores s' !! j = Some c
}.

Lemma taken_map s s' : maps_ok (cores s) (s_zmap x) → bufs_taken (s_zmap x) s s' → ∀ i bh, s_zmap x !! i = Some (Some bh) →
  ∃ c c', cores s !! bh = Some c ∧ cores s' !! bh = Some c' ∧ c_dev c' = c_dev c ∧ c_blocknr c' = c_blocknr c ∧
    c_count c' = c_count c ∧ c_uptodate c' = true ∧ Forall byte_ok (c_data c').
Proof.
  intros Hm [k Hk] i bh Hi. destruct (mp_buf _ _ Hm _ _ Hi) as (c & Hc & Hd & Hu & Hpos & Hb).
  destruct (Hk bh) as [E|[(_ & c0 & d & Hc0 & Hc' & Hd')|(_ & (c0 & Hc0 & Hz) & _)]].
  - exists c, c. rewrite E. by split_and!.
  - rewrite Hc in Hc0. injection Hc0 as <-. exists c, (c_write d c). by split_and!.
  - rewrite Hc in Hc0. injection Hc0 as <-. lia.
Qed.

Lemma taken_map_block s s' d n : maps_ok (cores s) (s_zmap x) → bufs_taken (s_zmap x) s s' →
  map_block (cores s') (s_zmap x) d n ↔ map_block (cores s) (s_zmap x) d n.
Proof.
  intros Hmaps Htaken. split; intros (i & bh & c & Hz & Hc & Hk1 & Hk2);
    destruct (taken_map s s' Hmaps Htaken i bh Hz) as (c1 & c2 & E1 & E2 & Ed & En & _).
  - rewrite E2 in Hc. injection Hc as <-. exists i, bh, c1. split_and!; congruence.
  - rewrite E1 in Hc. injection Hc as <-. exists i, bh, c2. split_and!; congruence.
Qed.

Lemma taken_fs o k k' s s' : fs_at o k s → cache_inv s' → up s' = up s → bufs_taken (s_zmap x) s s' → supply k' s' →
  map_bit (cores s') (s_zmap x) 0 = Some true →
  (∀ j c, cores s !! j = Some c → 0 < c_count c → c_dev c = dev → zone_bit s' (c_blocknr c) ≠ Some false) →
  fs_at o k' s'.
Proof.
  intros Hfs Hinv Hup Htaken Hsup' Hb0' Hused'. pose proof (taken_map s s' (fa_maps _ _ _ Hfs) Htaken) as Hmap.
  pose proof Hfs as [_ _ Hcnt Hsuper Hmaps _ _ Hlay Hr]. pose proof Htaken as [v Hv].
  constructor; [done|done| |by eapply super_at_same; [by rewrite Hup|]| | |done| |done].
  - intros j c' Hoj Hc'. destruct (Hv j) as [E|[(_ & c & d & Hc & E & _)|(_ & _ & c & E & Hz)]]; rewrite E in Hc'.
    + by eapply Hcnt.
    + injection Hc' as <-. cbn. by eapply Hcnt.
    + injection Hc' as <-. lia.
  - destruct Hmaps as [Hl Hb Hi]. constructor; try done. intros i bh Hz.
    destruct (Hmap i bh Hz) as (c & c' & Hc & Hc' & Ed & En & Ec & Hu & Hbytes).
    destruct (Hb i bh Hz) as (c0 & Hc0 & Hd0 & _ & Hpos & _). rewrite Hc in Hc0. injection Hc0 as <-.
    exists c'. split_and!; [done|congruence|done|lia|done].
  - intros j c' Hc' Hpos Hd. assert (∃ c, cores s !! j = Some c ∧ 0 < c_count c ∧ c_dev c = dev ∧ c_blocknr c = c_blocknr c') as (c & Hc & Hp & Hdc & <-).
    { destruct (Hv j) as [E|[(_ & c & d & Hc & E & _)|(_ & _ & c & E & Hz)]]; rewrite E in Hc'.
      - by exists c'.
      - injection Hc' as <-. by exists c.
      - injection Hc' as <-. lia. }
    by apply (Hused' j).
  - intros n Hn%(taken_map_block _ _ _ _ (fa_maps _ _ _ Hfs) Htaken). by apply Hlay.
Qed.

(** a block is taken: no bit is cleared, and one buffer fewer is left *)
Lemma alloc_fs o k s s' : fs_at o (S k) s → cache_inv s' → up s' = up s → bufs_taken (s_zmap x) s s' →
  (∀ b, map_bit (cores s) (s_zmap x) b ≠ Some false → map_bit (cores s') (s_zmap x) b = map_bit (cores s) (s_zmap x) b) →
  fs_at o k s'.
Proof.
  intros Hfs Hinv Hup Htaken Hbit. pose proof Htaken as [v Hv]. eapply taken_fs; [exact Hfs|done..| | |].
  - apply (supply_but k v s); [apply Hfs|]. intros j Hj Hcl.
    destruct (Hv j) as [E|[([i Hi] & _)|(? & _)]]; [unfold clean_at; by rewrite E| |done].
    destruct (map_held _ _ _ (fa_maps _ _ _ Hfs) Hi) as (c0 & Hc0 & Hpos). apply lookup_clean in Hcl as (c1 & Hc1 & Hz & _).
    rewrite Hc0 in Hc1. injection Hc1 as <-. lia.
  - pose proof (fa_bit0 _ _ _ Hfs) as Hb0. by rewrite Hbit by (rewrite Hb0; done).
  - intros j c Hc Hpos Hd. pose proof (fa_used _ _ _ Hfs j c Hc Hpos Hd) as Hu. unfold zone_bit in *. by rewrite Hbit.
Qed.

Lemma new_block_fs o k s : fs_at o (S k) s →
  wp (new_block sync dev) (λ r s', fs_at o k s' ∧ alloc r s s' ∧ (r = 0 → full s')) s.
Proof.
  intros Hfs. pose proof Hfs as [Hinv Hsup Hcnt Hsuper Hmaps Hused Hb0 Hlay (Hdev & Hfirst & Hnz)].
  eapply wp_mono; [apply (new_block_run sync s dev sb x); try done; [by eapply supply_room|]|].
  { intros n i c Hb Hc Hd Hn. destruct (decide (c_count c = 0)) as [|Hne]; [done|].
    pose proof (bo_count _ (co_buf _ (ci_cores _ Hinv) _ _ Hc)). exfalso. eapply Hused; [exact Hc|lia|done|]. by rewrite Hn. }
  intros r s' [(-> & -> & Hno)|(b & Hb & Hleast & Hbits & Hinv' & Hup & Htaken & Hcase)].
  - split; [|split].
    + constructor; try done. by eapply (supply_weaken (S k)); [lia|].
    + by constructor.
    + intros _ z Hz. unfold zone_bit. apply Hno. lia.
  - assert (Hb1 : 0 ≤ b).
    { destruct (decide (0 ≤ b)) as [|Hneg]; [done|]. unfold map_bit in Hb. rewrite (proj2 (Z.ltb_lt b 0)) in Hb by lia. done. }
    assert (b ≠ 0) by (intros ->; congruence).
    assert (Hbz : ∀ z, zone_bit s' z = if decide (z - s_firstdatazone x + 1 = b) then Some true else zone_bit s z) by (intros z; apply Hbits).
    assert (Hfs' : fs_at o k s').
    { eapply alloc_fs; try done. intros b' Hb'. rewrite Hbits. by rewrite decide_False by (intros ->; done). }
    assert (Hmb := λ d n, taken_map_block s s' d n Hmaps Htaken).
    assert (Hheld : ∀ j c, cores s !! j = Some c → 0 < c_count c → (∀ i, s_zmap x !! i ≠ Some (Some j)) → cores s' !! j = Some c).
    { intros j c Hc Hpos Hnm. destruct Htaken as [v Hv]. destruct (Hv j) as [E|[([i Hi] & _)|(_ & (c0 & Hc0 & Hz) & _)]].
      - by rewrite E.
      - by destruct (Hnm i).
      - rewrite Hc in Hc0. injection Hc0 as <-. lia. }
    split; [done|]. cbn zeta in Hcase. destruct (Z.leb_spec (s_nzones x) (b + s_firstdatazone x - 1)) as [Hle|Hlt].
    + destruct Hcase as [-> Hview]. split.
      * constructor; try done.
        intros z Hz. rewrite Hbz. rewrite decide_False; [done|]. intros E. apply Hz. unfold zone_bit. by rewrite E.
      * intros _ z Hz. rewrite Hbz. case_decide; [done|]. unfold zone_bit. apply Hleast. lia.
    + destruct Hcase as (-> & Hzero & Hview). split; [|lia]. constructor; try done.
      * intros z Hz. rewrite Hbz. rewrite decide_False; [done|]. intros E. apply Hz. unfold zone_bit. by rewrite E.
      * intros _. split; [lia|]. split.
        -- unfold zone_bit. by replace (b + _ - 1 - _ + 1) with b by lia.
        -- rewrite Hbz. by rewrite decide_True by lia.
      * intros dev' n' Hd0 Hn. case_decide as Hk; [by destruct Hk as (_ & -> & ->)|]. apply Hview; [done..|].
        intros [-> ->]. apply Hk. split_and!; [lia|done|done].
Qed.
End block_store.
