(* ===== verification/BlockFree.v ===== *)
(** * Giving blocks back to a mounted device

    [free_block] and reads of blocks nobody else uses, in the terms of
    [BlockStore]: what they do to the zone bitmap, to the contents of the other
    blocks and to the buffers others hold.  The truncation of files is proved
    against this. *)

From S2P Require Import Prelude Blk DList Buffer BufferQueues BufferCache CacheView Task FsData KernelRules Bitmap BlockStore.

Section free_block.
Context {D : Type} `{BlockDriverOk D}.
Abbreviation st := (bstate D kernel).
Context (dev : Z) (sb : nat) (x : super_blk).
Implicit Types (s : st).

(** nobody uses the buffer of block [n], if it has one *)
Definition idle (n : Z) s : Prop := ∀ j c, cores s !! j = Some c → c_dev c = dev → c_blocknr c = n → c_count c = 0.

(** an unused buffer whose contents are thrown away *)
Definition c_emptied (c : core) : core := mk_core (c_data c) (c_blocknr c) (c_dev c) false false (c_count c) (c_lock c).

Lemma get_hash_table_contract s n : cache_inv s → block_range dev n → idle n s →
  wp (get_hash_table dev n) (λ r s',
    match r with
    | Some i => stepped s s' i ∧ ∃ c, cores s !! i = Some c ∧ c_dev c = dev ∧ c_blocknr c = n ∧ c_count c = 0 ∧
        cores s' !! i = Some (c_inc c)
    | None => s' = s
    end) s.
Proof.
  intros [Hok [fl Hq] Hco Hcoh] Hr Hidle. eapply wp_mono; [by eapply get_hash_table_spec|].
  intros [i|] s'; [|by intros [-> _]]. intros ((c & Hc & Hd & Hn) & Hcs & Hok' & Hq' & Hco' & He).
  assert (Hc' : cores s' !! i = Some (c_inc c)) by (by rewrite Hcs, list_lookup_alter, decide_True, Hc).
  assert (Hoth : ∀ j, j ≠ i → cores s' !! j = cores s !! j) by (intros; by rewrite Hcs, list_lookup_alter_ne).
  pose proof (same_env_disk _ _ He) as Hdisk. split.
  - constructor; [|by destruct He|done|done|].
    + constructor; [done|by exists fl|done|]. intros j cj Hcj. rewrite Hdisk. destruct (decide (j = i)) as [->|Hj].
      * rewrite Hc' in Hcj. injection Hcj as <-. exact (Hcoh i c Hc).
      * rewrite Hoth in Hcj by done. by apply (Hcoh j).
    + intros dev' n' Hd0. rewrite (view_alter s s' i c (c_inc c)) by done. case_decide as Hk; [|done]. destruct Hk as [-> ->].
      by rewrite (view_hit s _ _ i c) by done.
  - exists c. split_and!; try done. by eapply Hidle.
Qed.

(** what is left after block [n], which nobody uses, is thrown out of the cache *)
Record emptied (n : Z) s s' : Prop := {
  em_inv : cache_inv s';
  em_up : up s' = up s;
  em_bufs : ∃ i, (∀ j, j ≠ i → cores s' !! j = cores s !! j) ∧ (cores s' !! i = cores s !! i ∨
    ∃ c, cores s !! i = Some c ∧ c_dev c = dev ∧ c_blocknr c = n ∧ c_count c = 0 ∧ cores s' !! i = Some (c_emptied c));
  em_view dev' n' : dev' ≠ 0 → ¬ (dev' = dev ∧ n' = n) → view s' dev' n' = view s dev' n'
}.

Lemma empty_run s n (k : M st unit) Q : cache_inv s → block_range dev n → idle n s →
  (∀ s', emptied n s s' → wp k Q s') →
  wp (p ← get_hash_table dev n;
      go ← match p with
           | None => mret true
           | Some bh =>
             b ← the_buf bh;
             if negb (b_count b =? 1) then mret false
             else
               upd_buf bh (set_b_dirt false) ;;
               upd_buf bh (set_b_uptodate false) ;;
               brelse (Some bh) ;;
               mret true
           end;
      if negb (go : bool) then mret tt else k) Q s.
Proof.
  intros Hinv Hr Hidle HQ. apply wp_bind. eapply wp_mono; [by apply get_hash_table_contract|].
  intros [i|] s1; cycle 1.
  { intros ->. apply wp_bind, wp_ret. apply HQ. constructor; try done. exists 0%nat. by split; [|left]. }
  intros ([Hinv1 Hup1 Hd1 Hoth1 Hview1] & c & Hc & Hd & Hn & Hz & Hc1).
  destruct (lookup_cores _ _ _ Hc1) as (b & Hb & Hbc).
  assert (Hb1 : b_count b = 1) by (change (b_count b) with (c_count (core_of b)); rewrite Hbc; cbn; by rewrite Hz).
  apply wp_bind, wp_bind. eapply wp_the_buf; [exact Hb|]. rewrite Hb1. cbn [Z.eqb negb Pos.eqb].
  assert (Hlt : (i < length (bufs s1))%nat) by (by eapply lookup_lt_Some).
  apply wp_bind, wp_upd_buf; [done|]. apply wp_bind, wp_upd_buf; rewrite bufs_put, ?length_alter, ?put_put; [done|]. rewrite alter_alter.
  destruct (step_put s1 i (set_b_uptodate false ∘ set_b_dirt false) (λ c, c_emptied c) (c_inc c)) as (Hinv2 & Hup2 & Hdisk2 & _ & Hc2 & Hoth2 & Hview2); try done.
  { destruct (co_buf _ (ci_cores _ Hinv1) _ _ Hc1). by constructor. }
  set (s2 := put_bufs _ s1) in *.
  apply wp_bind. eapply wp_mono; [apply (brelse_contract s2 i); [done|exact Hc2|cbn; by rewrite Hz]|].
  intros _ s3 [[Hinv3 Hup3 Hdisk3 Hoth3 Hview3] Hc3]. apply wp_ret. apply HQ. constructor; [done|congruence| |].
  - exists i. split; [intros j Hj; by rewrite Hoth3, Hoth2, Hoth1|]. right. exists c. split_and!; try done.
    rewrite Hc3. destruct c. cbn in *. subst. done.
  - intros dev' n' Hd0 Hne. rewrite Hview3, Hview2 by done. cbn [c_dev c_blocknr c_inc c_set_count].
    rewrite decide_False; [by apply Hview1|]. by rewrite Hd, Hn.
Qed.


(** the bitmap of bit [b], in buffer [bh], is written *)
Lemma clear_run s b : cache_inv s → maps_ok (cores s) (s_zmap x) → map_bit (cores s) (s_zmap x) b = Some true →
  wp (zm ← map_buffer (s_zmap x) (Z.quot b 8192);
      z ← the_buf zm;
      upd_buf zm (set_b_data (clear_bit (Z.land b 8191) (b_data z))) ;;
      (if negb (bit_at (b_data z) (Z.land b 8191)) then panic "free_block: bit already cleared" else mret tt) ;;
      upd_buf zm (set_b_dirt true))
  (λ _ s', cache_inv s' ∧ up s' = up s ∧
    (∃ i bh c d, s_zmap x !! i = Some (Some bh) ∧ cores s !! bh = Some c ∧ Forall byte_ok d ∧ cores s' = alter (c_write d) bh (cores s)) ∧
    (∀ b', map_bit (cores s') (s_zmap x) b' = if decide (b' = b) then Some false else map_bit (cores s) (s_zmap x) b') ∧
    ∀ dev n, dev ≠ 0 → ¬ map_block (cores s) (s_zmap x) dev n → view s' dev n = view s dev n) s.
Proof.
  intros Hinv Hmaps Hbit. pose proof Hbit as Hb0. unfold map_bit in Hb0. destruct (Z.ltb_spec b 0) as [|Hb]; [done|].
  destruct (s_zmap x !! Z.to_nat (b / 8192)) as [[bh|]|] eqn:El; [|done..].
  destruct (mp_buf _ _ Hmaps _ _ El) as (c & Hc & _ & Hup & Hcnt & Hbytes). rewrite Hc in Hb0. injection Hb0 as Hb0.
  pose proof (co_buf _ (ci_cores _ Hinv) _ _ Hc) as Hbo. destruct (lookup_cores _ _ _ Hc) as (b0 & Hbuf & Hbc0).
  assert (Hlt : (bh < length (bufs s))%nat) by (by eapply lookup_lt_Some).
  assert (Z.land b 8191 = b mod 8192) as -> by (change 8191 with (Z.ones 13); by rewrite Z.land_ones by lia).
  rewrite Z.quot_div_nonneg by lia. pose proof (Z.div_pos b 8192 ltac:(lia) ltac:(lia)) as Hq.
  pose proof (Z.mod_pos_bound b 8192 ltac:(done)) as Hm. pose proof (Z.div_mod b 8192 ltac:(done)) as Hdm.
  apply wp_bind. unfold map_buffer. rewrite (proj2 (Z.ltb_ge _ 0)) by lia. apply wp_bind. eapply wp_of_opt; [exact El|]. eapply wp_of_opt; [done|].
  apply wp_bind. eapply wp_the_buf; [exact Hbuf|]. replace (b_data b0) with (c_data c) by (by rewrite <- Hbc0). rewrite Hb0. cbn [negb].
  apply wp_bind, wp_upd_buf; [done|]. apply wp_bind, wp_ret.
  apply wp_upd_buf; rewrite bufs_put, ?length_alter, ?put_put; [done|]. rewrite alter_alter.
  set (d' := clear_bit (b mod 8192) (c_data c)) in *. assert (Hd' : length d' = 1024%nat) by (unfold d'; rewrite length_clear_bit; apply Hbo).
  destruct (write_step s bh c d' Hinv Hc Hd') as (Hinv1 & Hup1 & Hdisk1 & Hcs1 & Hc1 & Hoth1 & Hview1).
  assert (Hsame : put_bufs (alter (set_b_dirt true ∘ set_b_data d') bh (bufs s)) s =
                  put_bufs (alter (set_b_dirt true ∘ (set_b_uptodate true ∘ set_b_data d')) bh (bufs s)) s).
  { f_equal. apply list_eq. intros y. rewrite !list_lookup_alter. case_decide as E0; [subst y|done].
    rewrite Hbuf. cbn. f_equal. rewrite <- Hbc0 in Hup. destruct b0. cbn in *. by subst. }
  rewrite Hsame. split; [done|]. split; [done|]. split; [|split].
  - exists (Z.to_nat (b / 8192)), bh, c, d'. split_and!; try done. by apply clear_bit_ok.
  - intros b'. rewrite Hcs1, (map_bit_put _ _ (Z.to_nat (b / 8192)) bh c (b mod 8192) d' false b' Hmaps El Hc); [|lia|].
    + destruct (decide (b' = b)); [by rewrite decide_True by lia|by rewrite decide_False by lia].
    + intros k Hk. unfold d'. rewrite bit_at_clear by (apply Hbo || lia). by destruct (_ =? k).
  - intros dev' n' Hd0 Hnm. rewrite Hview1 by done. rewrite decide_False; [done|].
    intros [-> ->]. apply Hnm. by exists (Z.to_nat (b / 8192)), bh, c.
Qed.


(** buffers in use that are no bitmaps stay as they are *)
Definition kept s s' : Prop := ∀ j c, cores s !! j = Some c → 0 < c_count c → (∀ i, s_zmap x !! i ≠ Some (Some j)) →
  cores s' !! j = Some c.

(** block [z] has been given back *)
Record freed_block (z : Z) s s' : Prop := {
  fb_up : up s' = up s;
  fb_bit z' : zone_bit x s' z' = if decide (z' = z) then Some false else zone_bit x s z';
  fb_map d n : map_block (cores s') (s_zmap x) d n ↔ map_block (cores s) (s_zmap x) d n;
  fb_view dev' n' : dev' ≠ 0 → ¬ map_block (cores s) (s_zmap x) dev' n' → ¬ (dev' = dev ∧ n' = z) → view s' dev' n' = view s dev' n';
  fb_kept : kept s s';
  fb_idle n : idle n s → idle n s'
}.

(** how the buffers change: one that nobody uses is emptied, one bitmap is written *)
Lemma freed_bufs z s s1 s2 i bh c d : maps_ok (cores s) (s_zmap x) → emptied z s s1 → s_zmap x !! i = Some (Some bh) → cores s1 !! bh = Some c →
  Forall byte_ok d → cores s2 = alter (c_write d) bh (cores s1) →
  ∃ v, ∀ j, cores s2 !! j = cores s !! j ∨
    (∃ i, s_zmap x !! i = Some (Some j)) ∧ (∃ c d, cores s !! j = Some c ∧ cores s2 !! j = Some (c_write d c) ∧ Forall byte_ok d) ∨
    j = v ∧ ∃ c, cores s !! j = Some c ∧ c_count c = 0 ∧ cores s2 !! j = Some (c_emptied c).
Proof.
  intros Hmaps [_ _ (v & Hoth & Hv) _] Hi Hc Hd Hcs. exists v. intros j.
  destruct (mp_buf _ _ Hmaps _ _ Hi) as (cb & Hcb & _ & _ & Hpos & _).
  assert (Hcc : cores s1 !! bh = cores s !! bh).
  { destruct (decide (bh = v)) as [->|Hne]; [|by apply Hoth]. destruct Hv as [E|(c0 & Hc0 & _ & _ & Hz & _)]; [done|].
    rewrite Hcb in Hc0. injection Hc0 as <-. lia. }
  rewrite Hcs, list_lookup_alter. destruct (decide (bh = j)) as [<-|Hne].
  - right; left. split; [by exists i|]. rewrite Hc in Hcc |- *. by exists c, d.
  - destruct (decide (j = v)) as [->|Hjv]; [|left; by apply Hoth]. destruct Hv as [E|(c0 & Hc0 & _ & _ & Hz & E)]; [by left|].
    right; right. split; [done|]. by exists c0.
Qed.

Lemma free_block_fs k s z : fs_at dev sb x None k s → s_firstdatazone x ≤ z < s_nzones x → zone_bit x s z = Some true → idle z s →
  wp (free_block dev z) (λ _ s', fs_at dev sb x None k s' ∧ freed_block z s s') s.
Proof.
  intros Hfs Hz Hbit Hidle. pose proof Hfs as [Hinv Hsup Hcnt Hsuper Hmaps Hused Hb0 Hlay (Hdev & Hfirst & Hnz)].
  unfold free_block. apply wp_bind. eapply wp_eq; [by eapply get_super_run|].
  apply wp_bind. eapply wp_the_sb; [apply (sa_sb _ _ _ _ Hsuper)|].
  rewrite (proj2 (Z.ltb_ge _ _)), (proj2 (Z.leb_gt _ _)) by lia. cbn [orb].
  assert (Hr : block_range dev z) by (unfold block_range, dev_range; lia).
  apply (empty_run s z); try done. intros s1 Hem. pose proof Hem as [Hinv1 Hup1 (v & Hoth1 & Hv1) Hview1].
  assert (Hm1 : ∀ i bh, s_zmap x !! i = Some (Some bh) → cores s1 !! bh = cores s !! bh).
  { intros i bh Hi. destruct (mp_buf _ _ Hmaps _ _ Hi) as (cb & Hcb & _ & _ & Hpos & _).
    destruct (decide (bh = v)) as [->|Hne]; [|by apply Hoth1]. destruct Hv1 as [E|(c0 & Hc0 & _ & _ & Hzz & _)]; [done|].
    rewrite Hcb in Hc0. injection Hc0 as <-. lia. }
  replace (z - (s_firstdatazone x - 1)) with (z - s_firstdatazone x + 1) by lia.
  eapply wp_mono; [apply clear_run; [done|by eapply maps_ok_same|by rewrite (map_bit_same x s s1)]|].
  intros _ s2 (Hinv2 & Hup2 & (i & bh & c & d & Hi & Hc & Hd & Hcs) & Hbits & Hview2).
  destruct (freed_bufs z s s1 s2 i bh c d Hmaps Hem Hi Hc Hd Hcs) as [w Hw].
  assert (Htaken : bufs_taken (s_zmap x) s s2).
  { exists w. intros j. destruct (Hw j) as [?|[?|(-> & c0 & Hc0 & Hz0 & Hc0')]]; [by left|by right; left|right; right].
    split; [done|]. split; [by exists c0|]. by exists (c_emptied c0). }
  assert (Hbit2 : ∀ z', zone_bit x s2 z' = if decide (z' = z) then Some false else zone_bit x s z').
  { intros z'. unfold zone_bit. rewrite Hbits, (map_bit_same x s s1) by done.
    destruct (decide (z' = z)) as [->|Hne]; [by rewrite decide_True|by rewrite decide_False by lia]. }
  assert (Hmb := λ d n, taken_map_block x s s2 d n Hmaps Htaken).
  assert (Hkept : kept s s2).
  { intros j cj Hcj Hpos Hnm. destruct (Hw j) as [E|[([i' Hi'] & _)|(_ & c0 & Hc0 & Hz0 & _)]]; [by rewrite E|by destruct (Hnm i')|].
    rewrite Hcj in Hc0. injection Hc0 as <-. lia. }
  assert (Hidle2 : ∀ n, idle n s → idle n s2).
  { intros n Hn j cj Hcj Hdj Hnj. destruct (Hw j) as [E|[(_ & c0 & d0 & Hc0 & E & _)|(_ & c0 & Hc0 & Hz0 & E)]]; rewrite E in Hcj.
    - by apply (Hn j).
    - injection Hcj as <-. by apply (Hn j c0).
    - injection Hcj as <-. done. }
  split.
  - eapply taken_fs; [exact Hfs|done|congruence|done| | |].
    + destruct Hsup as (l & Hnd & Hl & Hcl). exists l. split_and!; try done. intros j Hj. specialize (Hcl j Hj). unfold clean_at in *.
      destruct (Hw j) as [E|[([i' Hi'] & _)|(_ & c0 & Hc0 & Hz0 & E)]]; rewrite ?E; [done| |].
      * destruct (mp_buf _ _ Hmaps _ _ Hi') as (cb & Hcb & _ & _ & Hpos & _). rewrite Hcb in Hcl. unfold is_clean in Hcl. blia.
      * rewrite Hc0 in Hcl. unfold is_clean in *. cbn. by destruct (c_dirt c0), (c_lock c0), (c_count c0 =? 0).
    + rewrite Hbits, decide_False by lia. by rewrite (map_bit_same x s s1).
    + intros j cj Hcj Hpos Hdj. rewrite Hbit2. rewrite decide_False; [by apply (Hused j)|]. intros E. specialize (Hidle j cj Hcj Hdj E). lia.
  - constructor; try done; [congruence|]. intros dev' n' Hd0 Hnm Hne. rewrite Hview2, Hview1; [done..|]. intros Hmm. apply Hnm.
    by apply (map_block_same x s s1) in Hmm.
Qed.
End free_block.

(** ** Blocks that are read on the way *)
Section idle_reads.
Context {D : Type} `{BlockDriverOk D}.
Abbreviation st := (bstate D kernel).
Context (sync : M st unit) (dev : Z) (sb : nat) (x : super_blk).
Implicit Types (s : st).
Abbreviation fs_at := (fs_at dev sb x).
Abbreviation kept := (kept x).
Abbreviation idle := (idle dev).

Lemma kept_trans s1 s2 s3 : kept s1 s2 → kept s2 s3 → kept s1 s3.
Proof. intros K1 K2 j c Hc Hp Hn. apply K2; [by apply K1|done..]. Qed.

(** buffer [bh] is on loan for block [n], and nobody else has it *)
Definition lent (bh : nat) (n : Z) (d : bytes) (dt : bool) s : Prop :=
  cores s !! bh = Some (mk_core d n dev true dt 1 false) ∧ ∀ i, s_zmap x !! i ≠ Some (Some bh).
Lemma lent_kept bh n d dt s s' : lent bh n d dt s → kept s s' → lent bh n d dt s'.
Proof. intros [Hc Hm] Hk. split; [|done]. by apply Hk. Qed.
Lemma wp_lent_buf bh n d dt s (Q : buffer_head → st → Prop) : lent bh n d dt s → (∀ b, b_data b = d → Q b s) → wp (the_buf bh) Q s.
Proof.
  intros [Hc _] HQ. destruct (lookup_cores _ _ _ Hc) as (b & Hb & Hbc). eapply wp_the_buf; [exact Hb|]. apply HQ.
  change (b_data b) with (c_data (core_of b)). by rewrite Hbc.
Qed.

(** the buffers that can be taken over when [bh] has been lent with [k] left:
    it will be one of them again if it is clean *)
Definition left_over (k k' : nat) (dt : bool) : Prop := k' = S k ∨ k' = k ∧ dt = false.

Lemma fs_at_limit bh k k' s : fs_at (Some bh) k s → supply k' s → (∀ c, cores s !! bh = Some c → c_count c < 255) → fs_at None k' s.
Proof.
  intros [? ? Hc ? ? ? ? ? ?] Hs Hb. constructor; try done. intros j c _ Hj. destruct (decide (j = bh)) as [->|Hne]; [by apply Hb|].
  apply (Hc j); [by intros [= E]|done].
Qed.

Lemma bread_idle k s n d : fs_at None (S k) s → block_range dev n → view s dev n = Some d →
  ¬ bitmap_block dev x s n → zone_bit x s n ≠ Some false → idle n s →
  wp (bread sync dev n) (λ r s', ∃ bh dt k', r = Some bh ∧ lent bh n d dt s' ∧ unmoved x s s' ∧ fs_at None k' s' ∧ left_over k k' dt ∧
    (∀ j, j ≠ bh → cores s' !! j = cores s !! j) ∧ ∃ c, cores s !! bh = Some c ∧ c_count c = 0) s.
Proof.
  intros Hfs Hr Hv Hnm Hnf Hidle. pose proof (fa_inv _ _ _ _ _ _ Hfs) as Hinv.
  eapply wp_mono; [apply wp_conj; [by apply (bread_fs sync dev sb x k s n d)|apply (bread_contract sync s dev n); [done|done|]]|].
  { destruct (key_dec (cores s) dev n) as [[i (c & Hc & Hd & Hn)]|Hno].
    - left. exists i, c. split_and!; try done. by eapply (fa_count _ _ _ _ _ _ Hfs).
    - right. split; [done|]. eapply supply_room. apply (fa_supply _ _ _ _ _ _ Hfs). }
  intros r s' [(bh & -> & Hh & Hu) (i & [_ _ _ Hoth _] & Hres)]. rewrite Hv in Hres.
  destruct Hres as ([= <-] & c & c' & Hc & Hc' & Hcv & Hout).
  assert (Hz : c_count c = 0 ∧ c_count c' = 1 ∧ (c_dirt c' = c_dirt c ∨ c_dirt c' = false)).
  { destruct Hout as [(Hd & Hn & _ & Hcc & Hdd)|(Hcl & _ & Hcc & Hdd)].
    - pose proof (Hidle bh c Hc Hd Hn) as Hz. split; [done|]. split; [lia|by left].
    - apply lookup_clean in Hcl as (c0 & Hc0 & Hz & _). rewrite Hc in Hc0. injection Hc0 as <-. split; [done|]. split; [done|by right]. }
  destruct Hz as (Hz & Hc1 & Hdt). rewrite Hcv, Hc1 in Hc'.
  assert (Hcnt : ∀ c0, cores s' !! bh = Some c0 → c_count c0 < 255) by (intros c0 Hc0; rewrite Hc' in Hc0; by injection Hc0 as <-).
  pose proof Hh as [Hfsb Hnb _]. exists bh, (c_dirt c').
  destruct (c_dirt c') eqn:Ed; [exists (S k)|exists k]; split_and!; try done; try (by exists c).
  - eapply fs_at_limit; [exact Hfsb| |done]. destruct (fa_supply _ _ _ _ _ _ Hfs) as (l & Hnd & Hl & Hcl).
    exists l. split_and!; try done. intros v Hvl. unfold clean_at. rewrite Hoth; [by apply Hcl|]. intros ->.
    apply Hcl, lookup_clean in Hvl as (c0 & Hc0 & _ & Hd0). rewrite Hc in Hc0. injection Hc0 as <-. destruct Hdt; congruence.
  - by left.
  - eapply fs_at_limit; [exact Hfsb|apply Hfsb|done].
  - by right.
Qed.

Lemma brelse_lent k k' bh n d dt s : fs_at None k' s → lent bh n d dt s → left_over k k' dt → zone_bit x s n ≠ Some false →
  wp (brelse (Some bh)) (λ _ s', fs_at None (S k) s' ∧ unmoved x s s' ∧ (∀ j, j ≠ bh → cores s' !! j = cores s !! j) ∧
    cores s' !! bh = Some (mk_core d n dev true dt 0 false)) s.
Proof.
  intros Hfs [Hc Hm] Hleft Hnf. pose proof (fa_inv _ _ _ _ _ _ Hfs) as Hinv.
  assert (Hh : holds dev sb x bh n d false k' s).
  { constructor; [|done|]. - destruct Hfs. constructor; try done. intros j c _ Hj. by eapply fa_count. - eexists. split; [exact Hc|]. cbn. split_and!; done || lia. }
  eapply wp_mono; [apply wp_conj; [by eapply brelse_fs|eapply brelse_contract; [done|exact Hc|cbn; lia]]|].
  intros _ s' [[Hfs' Hu] [[_ _ _ Hoth _] Hc']]. change (c_dec _) with (mk_core d n dev true dt 0 false) in Hc'. split_and!; try done.
  destruct Hleft as [->|[-> ->]]; [done|]. destruct (fa_supply _ _ _ _ _ _ Hfs) as (l & Hnd & Hl & Hcl).
  destruct Hfs' as [? _ ? ? ? ? ? ? ?]. constructor; try done. exists (bh :: l). split_and!; [|cbn; lia|].
  - apply NoDup_cons. split; [|done]. intros Hin. apply Hcl in Hin. unfold clean_at in Hin. by rewrite Hc in Hin.
  - intros v [->|Hv]%elem_of_cons; unfold clean_at; [by rewrite Hc'|]. destruct (decide (v = bh)) as [->|Hne]; [by rewrite Hc'|].
    rewrite Hoth by done. by apply Hcl.
Qed.
End idle_reads.
