(* ===== verification/FileView.v ===== *)
(** * What files hold

    The contents of a file as a function of what the buffer cache shows: the
    zone of each of its blocks ([zone_at], the reference for [bmap]), the
    contents of the block, the byte at a position.  [file_read] is proved to
    hand out these bytes. *)
From S2P Require Import Prelude Blk DList Buffer BufferQueues BufferCache CacheView Task FsData KernelRules Bitmap Inode FileIO.

Section file_view.
Context {D : Type} `{BlockDriverOk D}.
Abbreviation st := (bstate D kernel).
Context (sync : M st unit).
Implicit Types (s : st).

(** entry [k] of the indirect block [n]; a block that cannot be read has none *)
Definition entry_at s (dev n k : Z) : Z :=
  match view s dev n with Some d => get16 d k | None => 0 end.

(** the zone that holds block [block] of the file [x], or 0 *)
Definition zone_at s (x : m_inode) (block : Z) : Z :=
  if block <? 7 then get_zone (Z.to_nat block) x
  else if block <? 7 + 512 then
    if get_zone 7 x =? 0 then 0 else entry_at s (i_dev x) (get_zone 7 x) (block - 7)
  else if get_zone 8 x =? 0 then 0
  else
    let i := entry_at s (i_dev x) (get_zone 8 x) ((block - (7 + 512)) / 512) in
    if i =? 0 then 0 else entry_at s (i_dev x) i ((block - (7 + 512)) mod 512).

(** the contents of that block: zeros for a hole, nothing if it cannot be
    read *)
Definition block_at s (x : m_inode) (block : Z) : option bytes :=
  if zone_at s x block =? 0 then Some (replicate 1024 0) else view s (i_dev x) (zone_at s x block).

(** the byte at position [pos] of the file *)
Definition file_byte s (x : m_inode) (pos : Z) : option Z :=
  d ← block_at s x (pos / BLOCK_SIZE); d !! Z.to_nat (pos mod BLOCK_SIZE).

(** the largest file *)
Definition MAX_BLOCKS : Z := 7 + 512 + 512 * 512.

(** the zone numbers of the file [x], in the inode and in its indirect blocks,
    are 16-bit words *)
Record zones_ok s (x : m_inode) : Prop := {
  zo_dev : 0 < i_dev x < 2 ^ 16;
  zo_zone k : 0 ≤ get_zone k x < 2 ^ 16;
  zo_bytes n d : view s (i_dev x) n = Some d → Forall byte_ok d
}.

Lemma zones_range s x z : zones_ok s x → 0 ≤ z < 2 ^ 16 → block_range (i_dev x) z.
Proof. intros [Hd _ _] Hz. unfold block_range, dev_range. lia. Qed.

Lemma entry_at_range s x n k : zones_ok s x → 0 ≤ entry_at s (i_dev x) n k < 2 ^ 16.
Proof.
  intros [_ _ Hb]. unfold entry_at. destruct (view s (i_dev x) n) as [d|] eqn:E; [|lia].
  apply get16_bound. by eapply Hb.
Qed.

Lemma zone_at_range s x block : zones_ok s x → 0 ≤ zone_at s x block < 2 ^ 16.
Proof.
  intros Hz. unfold zone_at. repeat case_match; try lia; try by apply entry_at_range. apply Hz.
Qed.

(** all of this only depends on what the cache shows *)
Lemma entry_at_view s s' dev n k : dev ≠ 0 → same_view s s' → entry_at s' dev n k = entry_at s dev n k.
Proof. intros Hd Hv. unfold entry_at. by rewrite Hv. Qed.
Lemma zone_at_view s s' x block : i_dev x ≠ 0 → same_view s s' → zone_at s' x block = zone_at s x block.
Proof. intros Hd Hv. unfold zone_at. by rewrite !(entry_at_view s s'). Qed.
Lemma block_at_view s s' x block : i_dev x ≠ 0 → same_view s s' → block_at s' x block = block_at s x block.
Proof. intros Hd Hv. unfold block_at. rewrite (zone_at_view s s') by done. by rewrite Hv. Qed.
Lemma zones_ok_view s s' x : same_view s s' → zones_ok s x → zones_ok s' x.
Proof. intros Hv [Hd Hz Hb]. constructor; [done|done|]. intros n d. rewrite Hv by lia. apply Hb. Qed.

Lemma entry_of_run s dev n k : calm s → block_range dev n →
  wp (entry_of sync dev n k false) (λ r s', r = entry_at s dev n k ∧ quiet s s') s.
Proof.
  intros Hc Hr. unfold entry_of, entry_at. apply wp_bread; [done|done|..].
  - intros s' -> Hq. by apply wp_ret.
  - intros s' bh d -> Hh Hup Hv. apply wp_bind. eapply wp_the_held; [done|]. intros b <-. cbn [andb].
    apply wp_bind, wp_ret, wp_bind. eapply wp_brelse; [done..|]. intros s2 Hq. by apply wp_ret.
Qed.

(** [bmap] finds the zone of a block, without changing anything *)
Lemma bmap_run s inode x block :
  calm s → inode_table (up s) !! inode = Some x → zones_ok s x → 0 ≤ block < MAX_BLOCKS →
  wp (bmap sync inode block) (λ r s', r = zone_at s x block ∧ quiet s s') s.
Proof.
  intros Hc Hx Hz Hb. unfold bmap, _bmap, zone_at. unfold MAX_BLOCKS in Hb.
  rewrite (proj2 (Z.ltb_ge block 0)), (proj2 (Z.leb_gt _ block)) by lia.
  assert (Hcz : ∀ k (m : M st Z) Q, wp m Q s → wp (create_zone sync inode k false ;; m) Q s).
  { intros k m Q Hm. unfold create_zone. apply wp_bind, wp_bind. eapply wp_the_inode; [done|]. by apply wp_ret. }
  destruct (Z.ltb_spec block 7).
  { apply Hcz, wp_bind. eapply wp_the_inode; [done|]. apply wp_ret. split; [done|by apply quiet_refl]. }
  replace (block - 7 <? 512) with (block <? 7 + 512) by (apply eq_true_iff_eq; rewrite !Z.ltb_lt; lia).
  assert (Hdr : ∀ z, 0 ≤ z < 2 ^ 16 → block_range (i_dev x) z) by (intros z; by eapply zones_range).
  destruct (Z.ltb_spec block (7 + 512)).
  { apply Hcz, wp_bind. eapply wp_the_inode; [done|].
    destruct (get_zone 7 x =? 0); [apply wp_ret; split; [done|by apply quiet_refl]|].
    apply entry_of_run; [done|]. apply Hdr, Hz. }
  apply Hcz, wp_bind. eapply wp_the_inode; [done|].
  destruct (get_zone 8 x =? 0); [apply wp_ret; split; [done|by apply quiet_refl]|].
  rewrite Z.shiftr_div_pow2 by lia. change 511 with (Z.ones 9). rewrite Z.land_ones by lia.
  replace (block - 7 - 512) with (block - (7 + 512)) by lia. change (2 ^ 9) with 512.
  apply wp_bind. eapply wp_mono; [apply entry_of_run; [done|]; apply Hdr, Hz|].
  intros i s1 [-> Hq1]. pose proof Hq1 as [Hc1 Hup1 Hv1].
  destruct (_ =? 0); [by apply wp_ret|]. apply wp_bind. eapply wp_the_inode; [by rewrite Hup1|].
  eapply wp_mono; [apply entry_of_run; [done|]; by apply Hdr, entry_at_range|].
  intros r s2 [-> Hq2]. split; [|by eapply quiet_trans]. apply entry_at_view; [|done].
  pose proof (zo_dev _ _ Hz). lia.
Qed.

(** ** Reading a file *)

(** [d] is what the file [x] holds from [pos] on; it is short of [count] bytes
    only if the block that follows cannot be read *)
Record bytes_from s (x : m_inode) (pos count : Z) (d : bytes) : Prop := {
  bf_bytes k b : d !! k = Some b → file_byte s x (pos + Z.of_nat k) = Some b;
  bf_le : Z.of_nat (length d) ≤ count;
  bf_short : Z.of_nat (length d) < count → block_at s x ((pos + Z.of_nat (length d)) / BLOCK_SIZE) = None
}.

Lemma bytes_from_app s x pos count d1 d2 :
  bytes_from s x (pos + Z.of_nat (length d1)) (count - Z.of_nat (length d1)) d2 →
  (∀ k b, d1 !! k = Some b → file_byte s x (pos + Z.of_nat k) = Some b) →
  bytes_from s x pos count (d1 ++ d2).
Proof.
  intros [Hb Hle Hs] H1. constructor.
  - intros k b. rewrite lookup_app. destruct (d1 !! k) as [b1|] eqn:E; [intros [= <-]; by apply H1|].
    apply lookup_ge_None in E. intros Hk. apply Hb in Hk. by replace (pos + Z.of_nat k) with (pos + Z.of_nat (length d1) + Z.of_nat (k - length d1)) by lia.
  - rewrite length_app. lia.
  - rewrite length_app. intros Hlt. rewrite Nat2Z.inj_add, Z.add_assoc. apply Hs. lia.
Qed.

Lemma file_byte_view s s' x pos : i_dev x ≠ 0 → same_view s s' → file_byte s' x pos = file_byte s x pos.
Proof. intros Hd Hv. unfold file_byte. by rewrite (block_at_view s s'). Qed.

Lemma bytes_from_view s s' x pos count d :
  i_dev x ≠ 0 → same_view s s' → bytes_from s' x pos count d → bytes_from s x pos count d.
Proof.
  intros Hd Hv [Hb Hle Hs]. constructor; [|done|].
  - intros k b Hk. rewrite <- (file_byte_view s s') by done. by apply Hb.
  - intros Hlt. rewrite <- (block_at_view s s') by done. by apply Hs.
Qed.

(** the bytes of one block *)
Lemma file_byte_block s x pos chars d k b :
  block_at s x (pos / BLOCK_SIZE) = Some d → 0 ≤ pos → chars ≤ BLOCK_SIZE - pos mod BLOCK_SIZE →
  slice (Z.to_nat (pos mod BLOCK_SIZE)) (Z.to_nat chars) d !! k = Some b →
  file_byte s x (pos + Z.of_nat k) = Some b.
Proof.
  unfold BLOCK_SIZE. intros Hd Hp Hch Hk. unfold slice in Hk.
  apply lookup_take_Some in Hk as [Hk Hlt]. rewrite lookup_drop in Hk.
  pose proof (Z.mod_pos_bound pos 1024 ltac:(lia)).
  assert ((pos + Z.of_nat k) / 1024 = pos / 1024 ∧ (pos + Z.of_nat k) mod 1024 = pos mod 1024 + Z.of_nat k) as [E1 E2].
  { pose proof (Z.div_mod pos 1024 ltac:(lia)).
    destruct (Z.div_mod_unique 1024 ((pos + Z.of_nat k) / 1024) (pos / 1024) ((pos + Z.of_nat k) mod 1024) (pos mod 1024 + Z.of_nat k)) as [-> ->]; [left; apply Z.mod_pos_bound; lia|left; lia| |done].
    rewrite <- Z.div_mod by lia. lia. }
  unfold file_byte, BLOCK_SIZE. rewrite E1, E2, Hd. cbn. rewrite <- Hk. f_equal. lia.
Qed.

(** the file descriptor [filp] moved to [pos] *)
Definition moved (filp : nat) (pos : Z) (f : file) (k : kernel) : kernel :=
  set_file_table (<[filp := set_f_pos pos f]> (file_table k)) k.

Lemma moved_moved filp p q f k :
  moved filp p (set_f_pos q f) (moved filp q f k) = moved filp p f k.
Proof. unfold moved, set_file_table. cbn. by rewrite list_insert_insert_eq. Qed.

Lemma file_block_run s inode x nr :
  calm s → inode_table (up s) !! inode = Some x → zones_ok s x → 0 ≤ nr < 2 ^ 16 →
  wp (file_block sync inode nr) (λ p s', up s' = up s ∧ same_view s s' ∧
    match p with
    | None => nr ≠ 0 ∧ view s (i_dev x) nr = None ∧ calm s'
    | Some None => nr = 0 ∧ calm s'
    | Some (Some bh) => nr ≠ 0 ∧ ∃ d, view s (i_dev x) nr = Some d ∧ held s' bh (i_dev x) nr d
    end) s.
Proof.
  intros Hc Hx Hz Hnr. unfold file_block. destruct (Z.eqb_spec nr 0) as [->|Hne].
  { apply wp_ret. done. }
  apply wp_bind. eapply wp_the_inode; [done|]. apply wp_bread; [done|by eapply zones_range|..].
  - intros s' Hv [Hc' Hup' Hv']. by apply wp_ret.
  - intros s' bh d Hv Hh Hup' Hv'. apply wp_ret. split; [done|]. split; [done|]. split; [done|]. by exists d.
Qed.

(** the end of the turn of the loop: what is in the buffer, or zeros *)
Lemma block_bytes_run s1 s inode x nr pos chars p :
  up s = up s1 → same_view s1 s → zones_ok s1 x → nr = zone_at s1 x (pos / BLOCK_SIZE) → calm s1 →
  match p with
  | None => nr = 0 ∧ calm s
  | Some bh => nr ≠ 0 ∧ ∃ d, view s1 (i_dev x) nr = Some d ∧ held s bh (i_dev x) nr d
  end →
  0 ≤ pos → 0 ≤ chars ≤ BLOCK_SIZE - pos mod BLOCK_SIZE → inode_table (up s1) !! inode = Some x →
  ∀ k, wp (block_bytes p (pos mod BLOCK_SIZE) chars) (λ d s', calm s' ∧ up s' = k ∧ same_view s1 s' ∧
    Z.of_nat (length d) = chars ∧ ∀ i b, d !! i = Some b → file_byte s1 x (pos + Z.of_nat i) = Some b)
    (set_up k s).
Proof.
  intros Hup Hv Hz Hnr Hc Hp Hpos Hch Hx k. pose proof (Z.mod_pos_bound pos BLOCK_SIZE ltac:(done)) as Hm.
  assert (Hb : ∀ d, length d = 1024%nat → block_at s1 x (pos / BLOCK_SIZE) = Some d →
    let e := slice (Z.to_nat (pos mod BLOCK_SIZE)) (Z.to_nat chars) d in
    Z.of_nat (length e) = chars ∧ ∀ i b, e !! i = Some b → file_byte s1 x (pos + Z.of_nat i) = Some b).
  { intros d Hd Hat e. unfold BLOCK_SIZE in *. split; [unfold e; rewrite length_slice; lia|].
    intros i b. apply file_byte_block; [done|done|unfold BLOCK_SIZE; lia]. }
  unfold block_bytes, block_at in *. rewrite <- Hnr in Hb. destruct p as [bh|].
  - destruct Hp as (Hne & d & Hd & Hh). rewrite (proj2 (Z.eqb_neq _ _) Hne) in Hb.
    apply wp_bind. eapply wp_the_held; [by apply held_up|]. intros b Hbd. apply wp_bind.
    eapply (wp_brelse (set_up k s)); [by apply held_up|done|done|]. intros s' [Hc' Hup' Hv'].
    apply wp_ret. rewrite Hbd. split; [done|]. split; [done|]. split; [|apply Hb; [exact (view_length _ _ _ _ Hc Hd)|done]].
    etransitivity; [done|]. etransitivity; [by apply (same_view_up k)|done].
  - destruct Hp as [-> Hcs]. apply wp_ret. split; [by apply calm_up|]. split; [done|]. split; [done|].
    destruct (Hb _ (length_replicate _ _) eq_refl) as [_ Hb']. split; [rewrite length_replicate; lia|].
    intros i b Hi. apply Hb'. apply lookup_replicate in Hi as [-> Hi]. unfold slice, BLOCK_SIZE in *.
    rewrite drop_replicate, take_replicate. apply lookup_replicate. lia.
Qed.

Lemma file_read_loop_run fuel inode filp x left acc s f :
  calm s → inode_table (up s) !! inode = Some x → file_table (up s) !! filp = Some f → zones_ok s x →
  0 ≤ f_pos f → 0 ≤ left → f_pos f + left ≤ MAX_BLOCKS * BLOCK_SIZE →
  left = 0 ∧ (1 ≤ fuel)%nat ∨ left + f_pos f mod BLOCK_SIZE ≤ (Z.of_nat fuel - 1) * BLOCK_SIZE →
  wp (file_read_loop sync fuel inode filp left acc) (λ r s', ∃ d,
    r = (left - Z.of_nat (length d), acc ++ d) ∧ bytes_from s x (f_pos f) left d ∧
    calm s' ∧ same_view s s' ∧ up s' = moved filp (f_pos f + Z.of_nat (length d)) f (up s)) s.
Proof.
  revert left acc s f. induction fuel as [|fuel IH]; intros left acc s f Hc Hx Hf Hz Hp Hl Hmax Hfuel.
  { pose proof (Z.mod_pos_bound (f_pos f) BLOCK_SIZE ltac:(done)). unfold BLOCK_SIZE in *. lia. }
  assert (Hsame : ∀ s', quiet s s' → up s' = moved filp (f_pos f + 0) f (up s)).
  { intros s' [_ -> _]. rewrite Z.add_0_r. unfold moved. destruct f. cbn. rewrite list_insert_id by done. by destruct (up s). }
  cbn [file_read_loop]. destruct (Z.eqb_spec left 0) as [->|Hnz].
  { apply wp_ret. exists []. rewrite app_nil_r. split; [done|]. split; [by constructor|]. split; [done|].
    split; [done|]. apply Hsame. by apply quiet_refl. }
  apply wp_bind. eapply wp_the_file; [done|]. rewrite Z.quot_div_nonneg by done.
  pose proof (Z.mod_pos_bound (f_pos f) BLOCK_SIZE ltac:(done)) as Hm.
  apply wp_bind. eapply wp_mono; [eapply bmap_run; try done|].
  { unfold MAX_BLOCKS, BLOCK_SIZE in *. split; [apply Z.div_pos; lia|apply Z.div_lt_upper_bound; lia]. }
  intros nr s1 [-> Hq1]. pose proof Hq1 as [Hc1 Hup1 Hv1].
  assert (Hz1 : zones_ok s1 x) by (by eapply zones_ok_view).
  assert (Hd0 : i_dev x ≠ 0) by (pose proof (zo_dev _ _ Hz); lia).
  apply wp_bind. eapply wp_mono; [eapply file_block_run; [done|by rewrite Hup1|done|by apply zone_at_range]|].
  intros p s2 (Hup2 & Hv2 & Hp2). destruct p as [p|].
  2:{ destruct Hp2 as (Hne & Hno & Hc2). apply wp_ret. exists []. rewrite app_nil_r, Z.sub_0_r. split; [done|].
      assert (Hq2 : quiet s s2) by (constructor; [done|congruence|by etransitivity]).
      split; [|split; [done|split; [by apply Hq2|by apply Hsame]]]. constructor; [done|done|]. intros _. cbn. rewrite Z.add_0_r.
      unfold block_at. rewrite (proj2 (Z.eqb_neq _ _) Hne). rewrite <- Hno. symmetry. by apply Hv1. }
  apply wp_bind. eapply wp_the_file; [by rewrite Hup2, Hup1|]. rewrite Z.rem_mod_nonneg by done.
  set (chars := Z.min _ left).
  assert (Hch : 0 < chars ≤ BLOCK_SIZE - f_pos f mod BLOCK_SIZE ∧ chars ≤ left) by (unfold chars, BLOCK_SIZE in *; lia).
  assert (Hpos' : s32 (f_pos f + chars) = f_pos f + chars) by (apply s32_id; unfold MAX_BLOCKS, BLOCK_SIZE in *; lia).
  apply wp_bind. eapply wp_upd_file; [by rewrite Hup2, Hup1|]. rewrite Hpos', Hup2, Hup1.
  change (set_file_table _ (up s)) with (moved filp (f_pos f + chars) f (up s)).
  apply wp_bind. eapply wp_mono.
  { eapply (block_bytes_run s1 s2 inode x (zone_at s x (f_pos f / BLOCK_SIZE))); try done; [symmetry; by apply zone_at_view|lia|by rewrite Hup1]. }
  intros d s4 (Hc4 & Hup4 & Hv4 & Hlen & Hbd).
  assert (Hv04 : same_view s s4) by (by etransitivity).
  eapply wp_mono; [apply (IH (left - chars) (acc ++ d) s4 (set_f_pos (f_pos f + chars) f)); try done|].
  - by rewrite Hup4.
  - rewrite Hup4. cbn. rewrite list_lookup_insert_eq; [done|]. by eapply lookup_lt_Some.
  - by eapply zones_ok_view.
  - cbn. lia.
  - lia.
  - cbn. lia.
  - cbn. destruct (decide (chars = left)) as [->|Hlt]; [left; unfold BLOCK_SIZE in *; lia|right].
    assert (chars = BLOCK_SIZE - f_pos f mod BLOCK_SIZE) as -> by lia.
    replace (f_pos f + _) with ((f_pos f / BLOCK_SIZE + 1) * BLOCK_SIZE)
      by (rewrite (Z.div_mod (f_pos f) BLOCK_SIZE) at 2 by done; lia).
    rewrite Z.mod_mul by done. unfold BLOCK_SIZE in *. lia.
  - intros r s5 (d2 & -> & Hd2 & Hc5 & Hv5 & Hup5). exists (d ++ d2). rewrite length_app, app_assoc.
    split; [f_equal; lia|]. split; [|split; [done|split; [by etransitivity|]]].
    + apply bytes_from_app.
      * cbn in Hd2. rewrite Hlen. by eapply bytes_from_view.
      * intros k b Hk. rewrite <- (Hbd _ _ Hk). symmetry. by apply file_byte_view.
    + rewrite Hup5, Hup4, moved_moved. cbn. f_equal. lia.
Qed.

Lemma file_read_run s (inode filp : nat) (x : m_inode) (f : file) (count : Z) :
  calm s → inode_table (up s) !! inode = Some x → file_table (up s) !! filp = Some f → zones_ok s x →
  0 ≤ f_pos f → 0 < count → f_pos f + count ≤ MAX_BLOCKS * BLOCK_SIZE →
  wp (file_read sync inode filp count) (λ r s', ∃ d, bytes_from s x (f_pos f) count d ∧
    r = (if decide (d = []) then - ERROR else Z.of_nat (length d), d) ∧
    calm s' ∧ same_view s s' ∧
    up s' = set_inode_table (<[inode := set_i_atime (u32 (CURRENT_TIME (k_sched (up s)))) x]> (inode_table (up s)))
              (moved filp (f_pos f + Z.of_nat (length d)) f (up s))) s.
Proof.
  intros Hc Hx Hf Hz Hp Hcnt Hmax. unfold file_read. rewrite (proj2 (Z.leb_gt count 0)) by done.
  apply wp_bind. eapply wp_mono; [eapply (file_read_loop_run _ _ _ x); try done; [lia|right]|].
  { pose proof (Z.mod_pos_bound (f_pos f) BLOCK_SIZE ltac:(done)).
    pose proof (Z.mod_pos_bound count BLOCK_SIZE ltac:(done)). pose proof (Z.div_mod count BLOCK_SIZE ltac:(done)).
    pose proof (Z.div_pos count BLOCK_SIZE). unfold BLOCK_SIZE in *. lia. }
  intros r s1 (d & -> & Hd & Hc1 & Hv1 & Hup1). apply wp_bind. unfold now. apply wp_gets, wp_bind.
  eapply wp_upd_inode; [by rewrite Hup1|]. apply wp_ret. exists d. split; [done|]. cbn [fst snd app].
  split.
  - f_equal. replace (count - (count - _)) with (Z.of_nat (length d)) by lia.
    destruct d; [done|]. cbn [length]. by rewrite decide_False, (proj2 (Z.eqb_neq _ _)) by (done || lia).
  - rewrite Hup1. split; [by apply calm_up|]. split; [|done]. etransitivity; [done|by apply same_view_up].
Qed.

(** C9. [file_read] hands out the bytes of the file from the file's position
    on: the bytes of its direct, indirect and doubly indirect blocks, and
    zeros for its holes.  It stops early only before a block the disk cannot
    read, and fails only if that is the first.  The position moves by the
    number of bytes read, the access time of the inode is the time of the
    call, no block and nothing else in the kernel changes, and the call
    returns. *)
Theorem file_read_correct s (inode filp : nat) (x : m_inode) (f : file) (count : Z) :
  calm s → inode_table (up s) !! inode = Some x → file_table (up s) !! filp = Some f → zones_ok s x →
  0 ≤ f_pos f → 0 < count → f_pos f + count ≤ MAX_BLOCKS * BLOCK_SIZE →
  wp (file_read sync inode filp count) (λ r s', ∃ d, bytes_from s x (f_pos f) count d ∧
    r = (if decide (d = []) then - ERROR else Z.of_nat (length d), d) ∧
    calm s' ∧ same_view s s' ∧
    up s' = set_inode_table (<[inode := set_i_atime (u32 (CURRENT_TIME (k_sched (up s)))) x]> (inode_table (up s)))
              (moved filp (f_pos f + Z.of_nat (length d)) f (up s))) s.
Proof. apply file_read_run. Qed.
End file_view.

(** ** Concrete input: a file of one block, a hole and another block on the RAM
    disk *)
Definition demo_file : m_inode :=
  mk_inode 0x81a4 0 3072 0 0 1 [3; 0; 5; 0; 0; 0; 0; 0; 0] 0 0 0x101 7 1 false false false false.
Definition demo_files : kernel :=
  set_inode_table [demo_file] (set_file_table [mk_file 0 0 1 (Some 0%nat) 1000] demo_kernel).

Lemma demo_calm (e : kernel) : calm (demo_cache e).
Proof.
  destruct (demo_cache_ok e) as (Hinv & Hlen & Hcl & _). constructor; [done|exact (demo_room e)|].
  intros i c Hc. assert (i < 13)%nat as Hi by (rewrite <- Hlen, <- length_cores; by eapply lookup_lt_Some).
  destruct (lookup_clean _ _ (Hcl i Hi)) as (c' & Hc' & Hz & _). rewrite Hc in Hc'. injection Hc' as <-. lia.
Qed.

Lemma demo_view (e : kernel) dev n : dev ≠ 0 → view (demo_cache e) dev n = rd_disk demo_disk dev n.
Proof.
  intros Hdev. destruct (demo_cache_ok e) as (_ & _ & _ & Hno & Hd & _).
  rewrite view_miss by (intros i; by apply Hno). change (rd_disk (drv (demo_cache e)) dev n = rd_disk demo_disk dev n).
  by rewrite Hd.
Qed.

Lemma demo_mem_ok : Forall byte_ok (rd_mem demo_disk).
Proof.
  assert (Hall : forallb (λ b, (0 <=? b) && (b <? 256)) (rd_mem demo_disk) = true) by (vm_compute; reflexivity).
  rewrite forallb_forall in Hall. apply Forall_forall. intros b Hb. apply list_elem_of_In, Hall in Hb.
  unfold byte_ok. blia.
Qed.
Lemma demo_bytes_ok dev n d : rd_disk demo_disk dev n = Some d → Forall byte_ok d.
Proof.
  intros Hd. assert (d = slice (Z.to_nat (n * 1024)) 1024 (rd_mem demo_disk)) as ->.
  { revert Hd. unfold rd_disk. destruct (_ && _); congruence. }
  apply Forall_take, Forall_drop, demo_mem_ok.
Qed.

Lemma demo_zones (e : kernel) : zones_ok (demo_cache e) demo_file.
Proof.
  constructor; [cbn; lia| |].
  - intros k. unfold get_zone, demo_file, i_zone. do 9 (destruct k as [|k]; [cbn; lia|]).
    rewrite list_lookup_total_alt, lookup_ge_None_2 by (cbn; lia). cbn. lia.
  - intros n d. rewrite demo_view by done. apply demo_bytes_ok.
Qed.

Lemma file_read_correct_witness :
  wp (file_read (mret tt) 0 0 2000) (λ r s', ∃ d, bytes_from (demo_cache demo_files) demo_file 1000 2000 d ∧
    r = (if decide (d = []) then - ERROR else Z.of_nat (length d), d) ∧
    calm s' ∧ same_view (demo_cache demo_files) s' ∧
    up s' = set_inode_table (<[0%nat := set_i_atime (u32 (CURRENT_TIME (k_sched (up (demo_cache demo_files))))) demo_file]>
                (inode_table (up (demo_cache demo_files))))
              (moved 0 (1000 + Z.of_nat (length d)) (mk_file 0 0 1 (Some 0%nat) 1000) (up (demo_cache demo_files))))
    (demo_cache demo_files).
Proof.
  pose proof (proj2 (proj2 (proj2 (proj2 (proj2 (demo_cache_ok demo_files)))))) as Hup.
  apply (file_read_correct (mret tt) (demo_cache demo_files) 0 0 demo_file (mk_file 0 0 1 (Some 0%nat) 1000) 2000).
  - exact (demo_calm demo_files).
  - rewrite Hup. reflexivity.
  - rewrite Hup. reflexivity.
  - exact (demo_zones demo_files).
  - cbn. lia.
  - lia.
  - unfold MAX_BLOCKS, BLOCK_SIZE. cbn. lia.
Defined.
