(* ===== verification/FileTree.v ===== *)
(** * The zones of a file as a tree, and how it grows

    [node] is the zone at a place of the tree of a file's zones; [tree_ok] says
    that the tree is one.  [grown] is what may happen to a file when zones are
    added to it: those it had stay, with their contents, new ones are cleared,
    and no other block changes. *)

From S2P Require Import Prelude Blk DList Buffer BufferQueues BufferCache CacheView Task FsData KernelRules Bitmap Inode FileIO FileView BlockStore.

Section file_tree.
Context {D : Type} `{BlockDriverOk D}.
Abbreviation st := (bstate D kernel).
Context (sync : M st unit) (dev : Z) (sb : nat) (x : super_blk).
Implicit Types (s : st) (ino : m_inode).
Abbreviation zone_bit := (zone_bit x).

(** ** The zones of a file, as a tree

    A path is a slot of the inode and the entries to take in the indirect
    blocks from there; slot 7 has one level of them and slot 8 two. *)
Definition path : Type := nat * list Z.
Definition valid (p : path) : Prop :=
  (p.1 < 9)%nat ∧ Forall (λ j, 0 ≤ j < 512) p.2 ∧ (length p.2 ≤ p.1 - 6)%nat.
Definition leaf (p : path) : Prop := length p.2 = (p.1 - 6)%nat.

Definition sub s (z j : Z) : Z := if z =? 0 then 0 else entry_at s dev z j.
Definition node s ino (p : path) : Z := fold_left (sub s) p.2 (get_zone p.1 ino).

(** the path of block [block] of a file *)
Definition path_of (block : Z) : path :=
  if block <? 7 then (Z.to_nat block, [])
  else if block <? 7 + 512 then (7%nat, [block - 7])
  else (8%nat, [(block - (7 + 512)) / 512; (block - (7 + 512)) mod 512]).

(** The zones of the file are marked as used and can be read, none is a bitmap,
    and none serves twice. *)
Record tree_ok s ino : Prop := {
  tr_len : length (i_zone ino) = 9%nat;
  tr_dev : i_dev ino = dev;
  tr_zones : zones_ok s ino;
  tr_used p : valid p → node s ino p ≠ 0 → zone_bit s (node s ino p) = Some true ∧
    ¬ bitmap_block dev x s (node s ino p) ∧ ∃ d, view s dev (node s ino p) = Some d;
  tr_inj p q : valid p → valid q → node s ino p ≠ 0 → node s ino p = node s ino q → p = q
}.

Lemma node_snoc s ino k l j : node s ino (k, l ++ [j]) = sub s (node s ino (k, l)) j.
Proof. unfold node. cbn. by rewrite fold_left_app. Qed.

Lemma valid_snoc k l j : valid (k, l ++ [j]) → valid (k, l) ∧ 0 ≤ j < 512 ∧ ¬ leaf (k, l).
Proof.
  intros (Hk & Hl & Hn). cbn in *. apply Forall_app in Hl as [Hl Hj]. apply Forall_cons in Hj as [Hj _].
  rewrite length_app in Hn. cbn in Hn. unfold valid, leaf. cbn. split_and!; done || lia.
Qed.

Lemma path_of_ok block : 0 ≤ block < MAX_BLOCKS → valid (path_of block) ∧ leaf (path_of block).
Proof.
  unfold MAX_BLOCKS, path_of. intros Hb. destruct (Z.ltb_spec block 7); [|destruct (Z.ltb_spec block (7 + 512))].
  - unfold valid, leaf. cbn. split_and!; [lia|done|lia|lia].
  - unfold valid, leaf. cbn. split_and!; [lia|repeat constructor; lia|lia|done].
  - pose proof (Z.mod_pos_bound (block - (7 + 512)) 512 ltac:(done)).
    assert (0 ≤ (block - (7 + 512)) / 512 < 512) by (split; [apply Z.div_pos; lia|apply Z.div_lt_upper_bound; lia]).
    unfold valid, leaf. cbn -[Z.div Z.modulo]. split_and!; [lia|repeat constructor; lia|lia|done].
Qed.

Definition block_of (p : path) : Z :=
  match p.2 with [] => Z.of_nat p.1 | [j] => j + 7 | i :: j :: _ => i * 512 + j + (7 + 512) end.
Lemma block_of_path b : 0 ≤ b → block_of (path_of b) = b.
Proof.
  intros Hb. unfold path_of. destruct (Z.ltb_spec b 7); [|destruct (Z.ltb_spec b (7 + 512))]; unfold block_of; cbn [fst snd]; [lia|lia|].
  pose proof (Z.div_mod (b - (7 + 512)) 512 ltac:(done)). lia.
Qed.
Lemma path_of_inj b b' : 0 ≤ b → 0 ≤ b' → path_of b = path_of b' → b = b'.
Proof. intros Hb Hb' E. by rewrite <- (block_of_path b), <- (block_of_path b'), E. Qed.

Lemma zone_at_node s ino block : i_dev ino = dev → 0 ≤ block < MAX_BLOCKS →
  zone_at s ino block = node s ino (path_of block).
Proof.
  intros Hd Hb. unfold zone_at, path_of, node, sub. rewrite Hd.
  destruct (block <? 7); [done|]. destruct (block <? 7 + 512); [done|]. cbn -[Z.div Z.modulo get_zone].
  by destruct (get_zone 8 ino =? 0).
Qed.

Lemma get16_zeros j : 0 ≤ j < 512 → get16 (replicate 1024 0) j = 0.
Proof.
  intros Hj. unfold get16, byte_at. rewrite !(list_lookup_total_correct _ _ 0); [done|apply lookup_replicate_2; lia..].
Qed.

Lemma child_dec (p : path) k l : (∃ j, p = (k, l ++ [j])) ∨ (∀ j, p ≠ (k, l ++ [j])).
Proof.
  destruct (last p.2) as [j|] eqn:E.
  - destruct (decide (p = (k, l ++ [j]))) as [->|Hne]; [left; by exists j|right]. intros j' ->. cbn in E.
    rewrite last_snoc in E. by injection E as ->.
  - right. intros j ->. cbn in E. by rewrite last_snoc in E.
Qed.

(** Filling in an empty place of the tree: zone [n], which is cleared and was
    not the file's, is put at [p], in the inode or in the indirect block above. *)
Lemma node_put s s' ino ino' p n :
  tree_ok s ino → valid p → node s ino p = 0 → 0 < n < 65536 →
  view s' dev n = Some (replicate 1024 0) →
  (∀ q, valid q → node s ino q ≠ 0 → (∀ j, p ≠ (q.1, q.2 ++ [j])) → view s' dev (node s ino q) = view s dev (node s ino q)) →
  (∀ k, (k < 9)%nat → get_zone k ino' = if decide (p = (k, [])) then n else get_zone k ino) →
  (∀ l j, p.2 = l ++ [j] → node s ino (p.1, l) ≠ 0 ∧ ∃ d, view s dev (node s ino (p.1, l)) = Some d ∧ length d = 1024%nat ∧
     view s' dev (node s ino (p.1, l)) = Some (set16 d j n)) →
  ∀ q, valid q → node s' ino' q = if decide (q = p) then n else node s ino q.
Proof.
  intros [Hlen Hdev Hzones Hused Hinj] Hp Hp0 Hn Hnew Hsame Hslot Hentry [k l]. induction l as [|j l IH] using rev_ind; intros Hq.
  { change (get_zone k ino' = if decide ((k, []) = p) then n else get_zone k ino). destruct Hq as (Hk & _). cbn in Hk.
    rewrite Hslot by done. repeat case_decide; congruence. }
  destruct (valid_snoc _ _ _ Hq) as (Hq' & Hj & _). rewrite !node_snoc, (IH Hq'). unfold sub.
  destruct (decide ((k, l) = p)) as [Ep|Ep].
  - rewrite !(decide_True (P := (k, l) = p)) by done. rewrite <- Ep in Hp0. rewrite Hp0, Z.eqb_refl, (proj2 (Z.eqb_neq n 0)) by lia.
    rewrite decide_False by (rewrite <- Ep; intros E; apply (f_equal (length ∘ snd)) in E; cbn in E; rewrite length_app in E; cbn in E; lia).
    unfold entry_at. rewrite Hnew. by apply get16_zeros.
  - rewrite !(decide_False (P := (k, l) = p)) by done. destruct (Z.eqb_spec (node s ino (k, l)) 0) as [Ez|Ez].
    { rewrite decide_False; [done|]. intros E. destruct (Hentry l j) as [Hne _]; [by rewrite <- E|]. by rewrite <- E in Hne. }
    unfold entry_at. destruct (child_dec p k l) as [[j0 E]|Hno].
    + destruct (Hentry l j0) as (_ & d & Hd & Hld & Hd'); [by rewrite E|]. rewrite E in Hd, Hd'. cbn [fst] in Hd, Hd'. rewrite Hd, Hd'.
      assert (Hj0 : 0 ≤ j0 < 512) by (rewrite E in Hp; by apply valid_snoc in Hp as (_ & ? & _)).
      destruct (decide (j0 = j)) as [->|Hjj].
      * rewrite decide_True by done. apply get16_set16_eq; lia.
      * rewrite decide_False by (intros E'; rewrite E in E'; injection E' as E'; by apply app_inj_tail in E' as [_ ?]).
        apply get16_set16_ne; lia.
    + rewrite (Hsame (k, l) Hq' Ez Hno). by rewrite decide_False by (intros E; by apply (Hno j)).
Qed.

(** ** How a file grows *)

(** inode [i] of the table is now [ino] *)
Definition with_inode (i : nat) ino (k : kernel) : kernel := set_inode_table (<[i := ino]> (inode_table k)) k.
(** the same file, its zones and what goes with them apart *)
Definition touched ino ino' : Prop := ∃ z c d, ino' = set_i_zone z (set_i_ctime c (set_i_dirt d ino)).

(** a block that has nothing to do with the file: no bitmap, not free, and
    none of its zones *)
Definition outside s ino (dev' n' : Z) : Prop :=
  dev' ≠ 0 ∧ ¬ map_block (cores s) (s_zmap x) dev' n' ∧
  (dev' = dev → zone_bit s n' ≠ Some false ∧ ∀ q, valid q → node s ino q ≠ 0 → node s ino q ≠ n').

Record grown (inode : nat) s s' ino ino' : Prop := {
  gw_up : up s' = with_inode inode ino' (up s);
  gw_same : touched ino ino';
  gw_tree : tree_ok s' ino';
  gw_node q : valid q → node s ino q ≠ 0 → node s' ino' q = node s ino q;
  gw_data q : valid q → leaf q → node s' ino' q ≠ 0 →
    view s' dev (node s' ino' q) = if decide (node s ino q = 0) then Some (replicate 1024 0) else view s dev (node s ino q);
  gw_frame dev' n' : outside s ino dev' n' → view s' dev' n' = view s dev' n' ∧ outside s' ino' dev' n'
}.

Lemma with_inode_same i ino k : inode_table k !! i = Some ino → with_inode i ino k = k.
Proof. intros Hi. unfold with_inode. rewrite list_insert_id by done. by destruct k. Qed.
Lemma with_inode_twice i ino ino' k : with_inode i ino' (with_inode i ino k) = with_inode i ino' k.
Proof. unfold with_inode, set_inode_table. cbn. by rewrite list_insert_insert_eq. Qed.
Lemma touched_trans a b c : touched a b → touched b c → touched a c.
Proof. intros (z & t & d & ->) (z' & t' & d' & ->). by exists z', t', d'. Qed.

Lemma grown_trans inode s1 s2 s3 a b c : grown inode s1 s2 a b → grown inode s2 s3 b c → grown inode s1 s3 a c.
Proof.
  intros [U1 T1 K1 N1 D1 F1] [U2 T2 K2 N2 D2 F2]. constructor; [|by eapply touched_trans|done| | |].
  - by rewrite U2, U1, with_inode_twice.
  - intros q Hq Hn. rewrite N2; [by apply N1|done|by rewrite N1].
  - intros q Hq Hl Hn. rewrite D2 by done. destruct (decide (node s2 b q = 0)) as [Ez|Ez].
    + rewrite decide_True; [done|]. destruct (decide (node s1 a q = 0)); [done|]. by rewrite N1 in Ez.
    + by apply D1.
  - intros d n Ho. destruct (F1 d n Ho) as [E1 Ho1]. destruct (F2 d n Ho1) as [E2 Ho2]. by rewrite E2, E1.
Qed.

Lemma node_view s s' ino q : dev ≠ 0 → (∀ q, valid q → node s ino q ≠ 0 → view s' dev (node s ino q) = view s dev (node s ino q)) →
  valid q → node s' ino q = node s ino q.
Proof.
  intros Hd Hv. destruct q as [k l]. induction l as [|j l IH] using rev_ind; [done|]. intros Hq.
  destruct (valid_snoc _ _ _ Hq) as (Hq' & _). rewrite !node_snoc, IH by done. unfold sub.
  destruct (Z.eqb_spec (node s ino (k, l)) 0) as [|Hne]; [done|]. unfold entry_at. by rewrite Hv.
Qed.

Lemma map_block_dec cs l d n : map_block cs l d n ∨ ¬ map_block cs l d n.
Proof.
  set (f := λ p : ptr, match p ≫= (λ bh, cs !! bh) with Some c => key_eqb d n c | None => false end).
  destruct (find_idx f l) as [i|] eqn:E.
  - left. apply find_idx_Some in E as (p & Hp & Hf & _). unfold f in Hf. destruct p as [bh|]; [|done]. cbn in Hf.
    destruct (cs !! bh) as [c|] eqn:Hc; [|done]. apply key_eqb_true in Hf as [? ?]. by exists i, bh, c.
  - right. intros (i & bh & c & Hl & Hc & Hd & Hn). pose proof (proj1 (find_idx_None f l) E (Some bh)) as Hf.
    unfold f in Hf. cbn in Hf. rewrite Hc, (proj2 (key_eqb_true d n c)) in Hf by done. discriminate Hf. by eapply list_elem_of_lookup_2.
Qed.

Lemma bitmap_bytes o k s m d : fs_at dev sb x o k s → map_block (cores s) (s_zmap x) dev m → view s dev m = Some d → Forall byte_ok d.
Proof.
  intros Hfs (i & bh & c & Hz & Hc & Hd & Hn) Hv. destruct (mp_buf _ _ (fa_maps _ _ _ _ _ _ Hfs) _ _ Hz) as (c' & Hc' & _ & Hu & _ & Hb).
  rewrite Hc in Hc'. injection Hc' as <-. rewrite (view_hit s dev m bh c) in Hv; try done.
  - rewrite Hu in Hv. by injection Hv as <-.
  - apply ci_cores. apply (fa_inv _ _ _ _ _ _ Hfs).
  - pose proof (fa_range _ _ _ _ _ _ Hfs). lia.
Qed.

Lemma quiet_node s s' ino q : dev ≠ 0 → tree_ok s ino →
  (∀ d n, d ≠ 0 → ¬ map_block (cores s) (s_zmap x) d n → view s' d n = view s d n) → valid q →
  node s' ino q = node s ino q.
Proof.
  intros Hd Ht Hv. apply node_view; [done|]. intros q' Hq Hq0. apply Hv; [done|]. by destruct (tr_used _ _ Ht q' Hq Hq0) as (_ & ? & _).
Qed.

(** nothing happens to the file when a bitmap changes, and no more blocks become free *)
Lemma untouched_grown inode o k s s' ino : inode_table (up s) !! inode = Some ino → tree_ok s ino → fs_at dev sb x o k s' →
  up s' = up s → (∀ z, zone_bit s z ≠ Some false → zone_bit s' z = zone_bit s z) →
  (∀ d n, map_block (cores s') (s_zmap x) d n ↔ map_block (cores s) (s_zmap x) d n) →
  (∀ d n, d ≠ 0 → ¬ map_block (cores s) (s_zmap x) d n → view s' d n = view s d n) →
  grown inode s s' ino ino.
Proof.
  intros Hi Ht Hfs Hup Hb Hm Hv. pose proof Ht as [Hl Hdev Hz Hused Hinj].
  pose proof (fa_range _ _ _ _ _ _ Hfs) as (Hd & _).
  assert (Hvn : ∀ q, valid q → node s ino q ≠ 0 → view s' dev (node s ino q) = view s dev (node s ino q)).
  { intros q Hq Hq0. apply Hv; [lia|]. by destruct (Hused q Hq Hq0) as (_ & ? & _). }
  assert (Hn : ∀ q, valid q → node s' ino q = node s ino q) by (intros q; apply quiet_node; [lia|done..]).
  constructor.
  - by rewrite with_inode_same.
  - exists (i_zone ino), (i_ctime ino), (i_dirt ino). by destruct ino.
  - constructor; try done.
    + destruct Hz as [H1 H2 H3]. constructor; try done. rewrite Hdev in *. intros n d Hnd.
      destruct (map_block_dec (cores s') (s_zmap x) dev n) as [Hmm|Hmm]; [by eapply bitmap_bytes|].
      rewrite Hv in Hnd; [by eapply H3|lia|by rewrite <- Hm].
    + intros p Hp. rewrite Hn by done. intros Hp0. destruct (Hused p Hp Hp0) as (H1 & H2 & H3). split_and!.
      * rewrite Hb; [done|]. by rewrite H1.
      * unfold bitmap_block. by rewrite Hm.
      * by rewrite Hvn.
    + intros p q Hp Hq. rewrite !Hn by done. by apply Hinj.
  - intros q Hq _. by apply Hn.
  - intros q Hq _. rewrite Hn by done. intros Hq0. rewrite decide_False by done. by apply Hvn.
  - intros d n (H1 & H2 & H3). split; [by apply Hv|]. split_and!; [done|by rewrite Hm|].
    intros Ed. destruct (H3 Ed) as [H4 H5]. split; [by rewrite Hb|]. intros q Hq. rewrite Hn by done. by apply H5.
Qed.
Lemma unmoved_grown inode o k s s' ino : inode_table (up s) !! inode = Some ino → tree_ok s ino → fs_at dev sb x o k s' →
  unmoved x s s' → grown inode s s' ino ino.
Proof.
  intros Hi Ht Hfs [Hup Hv Hb Hm]. eapply untouched_grown; try done.
  - intros z _. unfold BlockStore.zone_bit. by rewrite Hb.
  - intros d n Hd _. by apply Hv.
Qed.

(** ** A new zone

    Zone [n], which [new_block] has returned in state [s1], has been put at [p]:
    into the inode ([par] is [None]), or into the indirect block [z], which now
    holds [d] ([par] is [Some (z, d)]). *)
Section placed.
Context (inode : nat) (s s1 s2 : st) (ino ino2 : m_inode) (p : path) (n : Z) (o : option nat) (k : nat) (par : option (Z * bytes)).
Context (Ht : tree_ok s ino) (Hp : valid p) (Hp0 : node s ino p = 0) (Hal : alloc dev x n s s1) (Hn0 : n ≠ 0)
  (Hfs : fs_at dev sb x o k s2) (Hup : up s2 = with_inode inode ino2 (up s)) (Htou : touched ino ino2)
  (Hlen : length (i_zone ino2) = 9%nat)
  (Hslot : ∀ k, (k < 9)%nat → get_zone k ino2 = if decide (p = (k, [])) then n else get_zone k ino)
  (Hbit : ∀ b, map_bit (cores s2) (s_zmap x) b = map_bit (cores s1) (s_zmap x) b)
  (Hmap : ∀ d n, map_block (cores s2) (s_zmap x) d n ↔ map_block (cores s1) (s_zmap x) d n)
  (Hview : ∀ dev' n', dev' ≠ 0 → view s2 dev' n' = match par with
     | Some (z, d) => if decide (dev' = dev ∧ n' = z) then Some d else view s1 dev' n'
     | None => view s1 dev' n' end)
  (Hpar : match par with
    | Some (z, d) => ∃ l j d0, p.2 = l ++ [j] ∧ z = node s ino (p.1, l) ∧ z ≠ 0 ∧ view s dev z = Some d0 ∧ length d0 = 1024%nat ∧ d = set16 d0 j n
    | None => p.2 = []
    end).

Lemma placed_dev : dev ≠ 0.
Proof. pose proof (fa_range _ _ _ _ _ _ Hfs). lia. Qed.
Lemma placed_range : s_firstdatazone x ≤ n < s_nzones x ∧ 0 < n < 65536.
Proof. pose proof (fa_range _ _ _ _ _ _ Hfs). destruct (al_zone _ _ _ _ _ Hal Hn0) as (? & _). lia. Qed.
Lemma placed_bit z : zone_bit s2 z = zone_bit s1 z.
Proof. apply Hbit. Qed.
Lemma placed_map d m : map_block (cores s2) (s_zmap x) d m ↔ map_block (cores s) (s_zmap x) d m.
Proof. rewrite Hmap. apply (al_map _ _ _ _ _ Hal). Qed.

(** the zone was not the file's, and is no bitmap *)
Lemma placed_new q : valid q → node s ino q ≠ n.
Proof.
  intros Hq E. destruct (tr_used _ _ Ht q Hq) as (Hb & _); [by rewrite E|]. rewrite E in Hb.
  destruct (al_zone _ _ _ _ _ Hal Hn0) as (_ & Hfree & _). congruence.
Qed.
Lemma placed_no_bitmap : ¬ map_block (cores s2) (s_zmap x) dev n.
Proof. intros Hm. pose proof (fa_layout _ _ _ _ _ _ Hfs n Hm). pose proof placed_range. lia. Qed.

(** the indirect block that now has the zone is the one above [p] *)
Lemma placed_parent z d : par = Some (z, d) →
  z ≠ 0 ∧ ∃ l j, p = (p.1, l ++ [j]) ∧ valid (p.1, l) ∧ node s ino (p.1, l) = z.
Proof.
  intros ->. destruct Hpar as (l & j & d0 & E & -> & Hz0 & _). split; [done|].
  assert (Ep : p = (p.1, l ++ [j])) by (destruct p; cbn in *; by subst).
  exists l, j. split; [done|]. split; [|done]. pose proof Hp as Hp'. rewrite Ep in Hp'. by apply valid_snoc in Hp' as (? & _).
Qed.

(** what is where: no other block has changed *)
Lemma placed_other dev' n' : dev' ≠ 0 → ¬ map_block (cores s) (s_zmap x) dev' n' → ¬ (dev' = dev ∧ n' = n) →
  (∀ z d, par = Some (z, d) → ¬ (dev' = dev ∧ n' = z)) → view s2 dev' n' = view s dev' n'.
Proof.
  intros Hd0 Hnm Hnn Hnp. rewrite Hview by done.
  replace (match par with Some (z, d) => _ | None => _ end) with (view s1 dev' n').
  - rewrite (al_view _ _ _ _ _ Hal) by done. by rewrite decide_False by tauto.
  - destruct par as [[z d]|]; [|done]. rewrite decide_False; [done|]. by eapply Hnp.
Qed.
Lemma placed_zero : view s2 dev n = Some (replicate 1024 0).
Proof.
  pose proof placed_dev as Hd. rewrite Hview by done. assert (view s1 dev n = Some (replicate 1024 0)) as E.
  - rewrite (al_view _ _ _ _ _ Hal); [by rewrite decide_True|done|]. rewrite <- placed_map. apply placed_no_bitmap.
  - pose proof placed_parent as Hpp. destruct par as [[z d]|]; [|done]. rewrite decide_False; [done|]. intros [_ Ez].
    destruct (Hpp z d eq_refl) as (_ & l & j & _ & Hv & E'). apply (placed_new _ Hv). by rewrite E'.
Qed.
Lemma placed_same q : valid q → node s ino q ≠ 0 → (∀ j, p ≠ (q.1, q.2 ++ [j])) →
  view s2 dev (node s ino q) = view s dev (node s ino q).
Proof.
  intros Hq Hq0 Hnc. destruct (tr_used _ _ Ht q Hq Hq0) as (_ & Hnm & _). apply placed_other; [apply placed_dev|done| |].
  - intros [_ E]. by apply (placed_new q).
  - intros z d Ez [_ E]. destruct (placed_parent z d Ez) as (_ & l & j & Ep & Hv & En). rewrite <- E in En.
    apply (Hnc j). rewrite <- (tr_inj _ _ Ht (p.1, l) q Hv Hq); [done|by rewrite En|done].
Qed.

(** the tree has the new zone at [p], and is otherwise the same *)
Lemma placed_node q : valid q → node s2 ino2 q = if decide (q = p) then n else node s ino q.
Proof.
  apply node_put; try done; [apply placed_range|apply placed_zero|apply placed_same|].
  intros l j E. destruct par as [[z d]|]; [|rewrite Hpar in E; by destruct l].
  destruct Hpar as (l' & j' & d0 & E' & -> & Hz0 & Hv0 & Hld & ->). rewrite E in E'. apply app_inj_tail in E' as [<- <-].
  split; [done|]. exists d0. split_and!; [done|done|]. rewrite Hview by apply placed_dev. by rewrite decide_True.
Qed.

Lemma placed_bytes m d : view s2 dev m = Some d → Forall byte_ok d.
Proof.
  intros Hm. pose proof placed_dev as Hd.
  assert (Hok : ∀ m d, view s dev m = Some d → Forall byte_ok d).
  { rewrite <- (tr_dev _ _ Ht). apply (tr_zones _ _ Ht). }
  destruct (decide (m = n)) as [->|Hmn].
  { pose proof placed_zero. assert (d = replicate 1024 0) as -> by congruence. apply Forall_replicate. unfold byte_ok. lia. }
  destruct (map_block_dec (cores s2) (s_zmap x) dev m) as [Hmm|Hmm]; [by eapply bitmap_bytes|].
  assert (Hs1 : view s1 dev m = view s dev m).
  { rewrite (al_view _ _ _ _ _ Hal); [|done|by rewrite <- placed_map]. rewrite decide_False; [done|]. by intros (_ & _ & E). }
  rewrite Hview, Hs1 in Hm by done. destruct par as [[z d']|]; [|by eapply Hok].
  case_decide; [|by eapply Hok]. injection Hm as <-. destruct Hpar as (l & j & d0 & _ & _ & _ & Hv0 & _ & ->).
  apply set16_ok. by eapply Hok.
Qed.

Lemma placed_zones : zones_ok s2 ino2.
Proof.
  pose proof (tr_zones _ _ Ht) as [Hz1 Hz2 _]. assert (Hd2 : i_dev ino2 = i_dev ino) by (destruct Htou as (? & ? & ? & ->); done).
  constructor; [by rewrite Hd2| |].
  - intros k0. destruct (decide (k0 < 9)%nat) as [Hk|Hk].
    + rewrite Hslot by done. case_decide; [pose proof placed_range; lia|done].
    + unfold get_zone. rewrite list_lookup_total_alt, lookup_ge_None_2 by lia. cbn. lia.
  - rewrite Hd2, (tr_dev _ _ Ht). apply placed_bytes.
Qed.

(** a zone of the file can be read: the new one, one with a new entry, or one as before *)
Lemma placed_read q : valid q → node s ino q ≠ 0 → ∃ d, view s2 dev (node s ino q) = Some d.
Proof.
  intros Hq Hq0. destruct (tr_used _ _ Ht q Hq Hq0) as (_ & _ & dq & Hdq).
  destruct (child_dec p q.1 q.2) as [[j E]|Hnc]; [|exists dq; by rewrite placed_same].
  destruct par as [[z d]|]; [|rewrite E in Hpar; cbn in Hpar; by destruct q.2].
  exists d. rewrite Hview by apply placed_dev. rewrite decide_True; [done|]. split; [done|].
  destruct Hpar as (l & j' & d0 & E' & -> & _). rewrite E in E' |- *. cbn in E'. apply app_inj_tail in E' as [<- _]. by destruct q.
Qed.

Lemma placed_tree : tree_ok s2 ino2.
Proof.
  constructor; [done|destruct Htou as (? & ? & ? & ->); apply Ht|apply placed_zones| |].
  - intros q Hq. rewrite (placed_node q Hq). destruct (decide (q = p)) as [->|Hqp]; intros Hq0.
    + split_and!; [|apply placed_no_bitmap|exists (replicate 1024 0); apply placed_zero].
      rewrite placed_bit. apply (al_zone _ _ _ _ _ Hal Hn0).
    + destruct (tr_used _ _ Ht q Hq Hq0) as (Hb & Hnm & _). split_and!; [|unfold bitmap_block; by rewrite placed_map|by apply placed_read].
      rewrite placed_bit, (al_bit _ _ _ _ _ Hal); [done|]. by rewrite Hb.
  - intros p1 q1 Hp1 Hq1. rewrite (placed_node p1 Hp1), (placed_node q1 Hq1).
    destruct (decide (p1 = p)) as [->|Hp1p], (decide (q1 = p)) as [->|Hq1p]; intros Hne E.
    + done.
    + by destruct (placed_new q1 Hq1).
    + by destruct (placed_new p1 Hp1).
    + by apply (tr_inj _ _ Ht).
Qed.

Lemma placed_outside dev' n' : outside s ino dev' n' → view s2 dev' n' = view s dev' n' ∧ outside s2 ino2 dev' n'.
Proof.
  destruct (al_zone _ _ _ _ _ Hal Hn0) as (_ & Hfree & _). intros (Hd0 & Hnm & Hdv). split.
  - apply placed_other; [done|done| |].
    + intros [-> ->]. by destruct (Hdv eq_refl).
    + intros z d Ez [-> ->]. destruct (placed_parent z d Ez) as (Hz0 & l & j & _ & Hv & En). destruct (Hdv eq_refl) as [_ Hnn].
      apply (Hnn _ Hv); [by rewrite En|done].
  - split_and!; [done|by rewrite placed_map|]. intros Ed. destruct (Hdv Ed) as [Hb Hnn]. split.
    + by rewrite placed_bit, (al_bit _ _ _ _ _ Hal).
    + intros q Hq. rewrite (placed_node q Hq). destruct (decide (q = p)); [intros _ ->|by apply Hnn]. by rewrite Hfree in Hb.
Qed.

Lemma placed : grown inode s s2 ino ino2 ∧ node s2 ino2 p = n.
Proof.
  split; [|by rewrite (placed_node p Hp), decide_True]. constructor; [done|done|apply placed_tree| | |apply placed_outside].
  - intros q Hq Hq0. rewrite (placed_node q Hq), decide_False; [done|]. by intros ->.
  - intros q Hq Hlf. rewrite (placed_node q Hq). destruct (decide (q = p)) as [->|Hqp]; [rewrite decide_True by done; intros _; apply placed_zero|].
    intros Hq0. rewrite decide_False by done. apply placed_same; [done..|]. intros j E. rewrite E in Hp. apply valid_snoc in Hp as (_ & _ & Hnl). by destruct q.
Qed.
End placed.
End file_tree.
