(* ===== verification/FileGrow.v ===== *)
(** * Making zones for a file

    [create_block] and what it calls make a file [grown] (FileTree). *)

From S2P Require Import Prelude Blk DList Buffer BufferQueues BufferCache CacheView Task FsData KernelRules Bitmap Inode FileIO FileView BlockStore FileTree.

Section create.
Context {D : Type} `{BlockDriverOk D}.
Abbreviation st := (bstate D kernel).
Context (sync : M st unit) (dev : Z) (sb : nat) (x : super_blk) (inode : nat).
Implicit Types (s : st) (ino : m_inode).
Abbreviation fs_at := (fs_at dev sb x).
Abbreviation node := (node dev).
Abbreviation tree_ok := (tree_ok dev x).
Abbreviation grown := (grown dev x inode).

Lemma fs_at_weaken o k k' s : (k' ≤ k)%nat → fs_at o k s → fs_at o k' s.
Proof. intros Hle [? ? ? ? ? ? ? ? ?]. constructor; try done. by eapply supply_weaken. Qed.
Lemma fs_at_up o k s K : super_block K = super_block (up s) → fs_at o k s → fs_at o k (set_up K s).
Proof.
  intros E [? ? ? Hs ? ? ? ? ?]. constructor; try done; [by apply cache_inv_up|]. by eapply super_at_same.
Qed.

(** the inode of the file, and its tree, in state [s] *)
Definition file_at s ino : Prop := inode_table (up s) !! inode = Some ino ∧ tree_ok s ino.
Lemma grown_file s s' ino ino' : file_at s ino → grown s s' ino ino' → file_at s' ino'.
Proof.
  intros [Hi _] Hg. split; [|apply (gw_tree _ _ _ _ _ _ _ Hg)]. rewrite (gw_up _ _ _ _ _ _ _ Hg). cbn.
  apply list_lookup_insert_eq. by eapply lookup_lt_Some.
Qed.

Lemma create_zone_run k m s ino : fs_at None (S m) s → file_at s ino → (k < 9)%nat →
  wp (create_zone sync inode k true) (λ _ s', fs_at None m s' ∧ ∃ ino', grown s s' ino ino' ∧
    (node s' ino' (k, []) = 0 → full x s')) s.
Proof.
  intros Hfs [Hi Ht] Hk. unfold create_zone. apply wp_bind. eapply wp_the_inode; [exact Hi|]. cbn [andb].
  destruct (Z.eqb_spec (get_zone k ino) 0) as [Ez|Ez]; cbn [when].
  2:{ apply wp_ret. split; [by eapply fs_at_weaken; [|exact Hfs]; lia|]. exists ino. split; [|done].
      eapply unmoved_grown; [done|done|exact Hfs|apply unmoved_refl]. }
  rewrite (tr_dev _ _ _ _ Ht). apply wp_bind. eapply wp_mono; [by apply (new_block_fs sync dev sb x)|].
  intros r s1 (Hfs1 & Hal & Hfull). pose proof (al_up _ _ _ _ _ Hal) as Hup1.
  assert (Hi1 : inode_table (up s1) !! inode = Some ino) by (by rewrite Hup1).
  apply wp_bind. eapply wp_upd_inode; [exact Hi1|].
  destruct (decide (r = 0)) as [->|Hr].
  - assert (set_zone k 0 ino = ino) as ->.
    { unfold set_zone. rewrite list_insert_id; [by destruct ino|]. change (u16 0) with 0. rewrite <- Ez.
      apply list_lookup_lookup_total_lt. rewrite (tr_len _ _ _ _ Ht). lia. }
    fold (with_inode inode ino (up s1)). rewrite with_inode_same by done. cbn [when]. apply wp_ret.
    replace (set_up (up s1) s1) with s1 by (by destruct s1). split; [done|]. exists ino. split; [|intros _; by apply Hfull].
    eapply untouched_grown; [done|done|exact Hfs1|done|apply Hal|apply Hal|]. intros d n Hd Hn.
    rewrite (al_view _ _ _ _ _ Hal) by done. by rewrite decide_False by (by intros []).
  - destruct (al_zone _ _ _ _ _ Hal Hr) as (Hrange & _). pose proof (fa_range _ _ _ _ _ _ Hfs) as (Hd & Hf & Hn).
    rewrite u16_id by lia. rewrite (proj2 (Z.eqb_neq _ _) Hr). cbn [negb when].
    apply wp_bind. unfold now. apply wp_gets. eapply wp_upd_inode; [cbn; apply list_lookup_insert_eq; by eapply lookup_lt_Some|].
    cbn [up set_up]. fold (with_inode inode (set_zone k r ino) (up s1)). set (t := u32 _).
    match goal with |- context [set_up ?K _] => change K with (with_inode inode (set_i_dirt true (set_i_ctime t (set_zone k r ino))) (with_inode inode (set_zone k r ino) (up s1))) end.
    rewrite with_inode_twice. set (ino2 := set_i_dirt _ _).
    assert (Hfs2 : fs_at None m (set_up (with_inode inode ino2 (up s1)) s1)) by (by apply fs_at_up).
    split; [exact Hfs2|]. exists ino2.
    destruct (placed dev sb x inode s s1 (set_up (with_inode inode ino2 (up s1)) s1) ino ino2 (k, []) r None m None) as [Hg Hn2]; try done.
    + unfold valid. cbn. split_and!; [done|constructor|lia].
    + cbn. by rewrite Hup1.
    + by exists (<[k := u16 r]> (i_zone ino)), t, true.
    + cbn. rewrite length_insert. apply (tr_len _ _ _ _ Ht).
    + intros k' Hk'. unfold get_zone. cbn. rewrite u16_id by lia. case_decide as E.
      * injection E as ->. rewrite list_lookup_total_insert_eq; [done|]. rewrite (tr_len _ _ _ _ Ht). lia.
      * rewrite list_lookup_total_insert_ne; [done|]. intros ->. done.
    + split; [done|]. intros E. destruct Hr. rewrite <- Hn2. exact E.
Qed.

Lemma unmoved_full s s' : unmoved x s s' → full x s → full x s'.
Proof. intros Hu Hf z Hz. unfold zone_bit. rewrite (um_bit _ _ _ Hu). by apply Hf. Qed.

Lemma held_after bh n d k k' s s' r : holds dev sb x bh n d false k s → alloc dev x r s s' → fs_at (Some bh) k' s' →
  holds dev sb x bh n d false k' s'.
Proof.
  intros [_ Hm (c & Hc & Hrest)] Hal Hfs. constructor; [done|done|]. exists c. split; [|exact Hrest].
  apply (al_held _ _ _ _ _ Hal); [done|lia|done].
Qed.

Lemma zone_block_range o k s ino q : fs_at o k s → tree_ok s ino → valid q → block_range dev (node s ino q).
Proof.
  intros Hfs Ht Hq. pose proof (fa_range _ _ _ _ _ _ Hfs). pose proof (tr_zones _ _ _ _ Ht) as Hz.
  unfold block_range, dev_range. split; [lia|]. split; [lia|]. destruct q as [k0 l]. destruct l as [|j l] using rev_ind; [apply Hz|].
  rewrite node_snoc. unfold sub. destruct (_ =? 0); [lia|]. rewrite <- (tr_dev _ _ _ _ Ht). apply (entry_at_range s ino _ _ Hz).
Qed.

(** an entry of an indirect block of the file, with a zone made for it if it has none *)
Lemma entry_of_create k l j m s ino : fs_at None (S (S m)) s → file_at s ino → valid (k, l ++ [j]) → node s ino (k, l) ≠ 0 →
  wp (entry_of sync dev (node s ino (k, l)) j true) (λ r s', fs_at None m s' ∧ grown s s' ino ino ∧
    r = node s' ino (k, l ++ [j]) ∧ (r = 0 → full x s')) s.
Proof.
  intros Hfs [Hi Ht] Hp Hz0. destruct (valid_snoc _ _ _ Hp) as (Hq & Hj & _).
  destruct (tr_used _ _ _ _ Ht _ Hq Hz0) as (Hbit & Hnm & d & Hd). set (z := node s ino (k, l)) in *.
  assert (Hdz : dev ≠ 0) by (pose proof (fa_range _ _ _ _ _ _ Hfs); lia).
  unfold entry_of. apply wp_bind. eapply wp_mono.
  { apply (bread_fs sync dev sb x (S m) s z d); try done; [by eapply zone_block_range|]. by rewrite Hbit. }
  intros p s1 (bh & -> & Hh & Hu1).
  pose proof (unmoved_grown dev sb x inode _ _ _ _ _ Hi Ht (ho_fs _ _ _ _ _ _ _ _ _ Hh) Hu1) as Hg1.
  destruct (grown_file _ _ _ _ (conj Hi Ht) Hg1) as [Hi1 Ht1].
  apply wp_bind. eapply wp_held_buf; [exact Hh|]. intros b ->. cbn [andb].
  assert (Hld : length d = 1024%nat).
  { destruct Hh as [Hf _ (c & Hc & _ & _ & <- & _)]. apply (co_buf _ (ci_cores _ (fa_inv _ _ _ _ _ _ Hf)) _ _ Hc). }
  assert (Ei : node s1 ino (k, l ++ [j]) = get16 d j).
  { rewrite node_snoc. assert (node s1 ino (k, l) = z) as -> by (by apply (gw_node _ _ _ _ _ _ _ Hg1)).
    unfold sub. rewrite (proj2 (Z.eqb_neq _ _) Hz0). unfold entry_at. rewrite (um_view _ _ _ Hu1) by done. by rewrite Hd. }
  destruct (Z.eqb_spec (get16 d j) 0) as [E0|E0].
  2:{ apply wp_bind, wp_ret, wp_bind. eapply wp_mono; [by eapply brelse_fs|]. intros _ s2 [Hfs2 Hu2]. apply wp_ret.
      pose proof (unmoved_grown dev sb x inode _ _ _ _ _ Hi1 Ht1 Hfs2 Hu2) as Hg2.
      split; [by eapply fs_at_weaken; [|exact Hfs2]; lia|]. split; [by eapply grown_trans|]. split; [|done].
      rewrite <- Ei. symmetry. apply (gw_node _ _ _ _ _ _ _ Hg2); [done|]. by rewrite Ei. }
  apply wp_bind, wp_bind. eapply wp_mono; [apply (new_block_fs sync dev sb x (Some bh) m), Hh|].
  intros r s2 (Hfs2 & Hal & Hfull). pose proof (held_after _ _ _ _ _ _ _ _ Hh Hal Hfs2) as Hh2.
  destruct (Z.eqb_spec r 0) as [->|Hr]; cbn [negb when].
  - apply wp_bind, wp_ret, wp_ret, wp_bind. eapply wp_mono; [by eapply brelse_fs|]. intros _ s3 [Hfs3 Hu3]. apply wp_ret.
    assert (Hv2 : ∀ d' n, d' ≠ 0 → ¬ map_block (cores s1) (s_zmap x) d' n → view s2 d' n = view s1 d' n).
    { intros d' n Hd' Hn. rewrite (al_view _ _ _ _ _ Hal) by done. by rewrite decide_False by (by intros []). }
    assert (Hg2 : grown s1 s2 ino ino) by (by eapply untouched_grown; [done|done|exact Hfs2|apply Hal..|]).
    destruct (grown_file _ _ _ _ (conj Hi1 Ht1) Hg2) as [Hi2 Ht2].
    pose proof (unmoved_grown dev sb x inode _ _ _ _ _ Hi2 Ht2 Hfs3 Hu3) as Hg3. split; [done|].
    split; [by eapply grown_trans; [|eapply grown_trans]|]. split.
    + rewrite (quiet_node dev x s2 s3 ino) by (done || (intros; by apply (um_view _ _ _ Hu3))).
      rewrite (quiet_node dev x s1 s2 ino) by done. by rewrite Ei.
    + intros _. eapply unmoved_full; [exact Hu3|by apply Hfull].
  - apply wp_bind, (wp_held_both dev sb x bh z d false m s2 (set16 d j r)); [exact Hh2|by rewrite length_set16|by intros ? ->|].
    intros s3 Hh3 Hch. apply wp_ret, wp_bind. eapply wp_mono; [by eapply brelse_fs|]. intros _ s4 [Hfs4 Hu4]. apply wp_ret.
    destruct (placed dev sb x inode s1 s2 s3 ino ino (k, l ++ [j]) r (Some bh) m (Some (z, set16 d j r))) as [Hg3 Hn3]; try done.
    + by rewrite Ei.
    + apply Hh3.
    + rewrite with_inode_same by done. rewrite (ch_up _ _ _ _ _ _ Hch). apply (al_up _ _ _ _ _ Hal).
    + exists (i_zone ino), (i_ctime ino), (i_dirt ino). by destruct ino.
    + apply Ht.
    + intros k0 _. rewrite decide_False; [done|]. intros E. apply (f_equal (length ∘ snd)) in E. cbn in E. rewrite length_app in E. cbn in E. lia.
    + apply Hch.
    + apply Hch.
    + apply Hch.
    + exists l, j, d. split; [done|]. split; [symmetry; by apply (gw_node _ _ _ _ _ _ _ Hg1)|]. split; [done|].
      split; [|done]. by rewrite (um_view _ _ _ Hu1).
    + destruct (grown_file _ _ _ _ (conj Hi1 Ht1) Hg3) as [Hi3 Ht3].
      pose proof (unmoved_grown dev sb x inode _ _ _ _ _ Hi3 Ht3 Hfs4 Hu4) as Hg4. split; [done|].
      split; [by eapply grown_trans; [|eapply grown_trans]|]. split; [|done].
      rewrite <- Hn3. symmetry. apply (gw_node _ _ _ _ _ _ _ Hg4); [done|]. by rewrite Hn3.
Qed.

(** a zone is made in the inode, and then the rest is done *)
Lemma create_zone_then k (rest : M st Z) m m' (P : Z → st → m_inode → Prop) s ino :
  (k < 9)%nat → fs_at None (S m') s → file_at s ino →
  (∀ s1 ino1, fs_at None m' s1 → file_at s1 ino1 → (node s1 ino1 (k, []) = 0 → full x s1) →
     wp rest (λ r s', fs_at None m s' ∧ ∃ ino', grown s1 s' ino1 ino' ∧ P r s' ino') s1) →
  wp (create_zone sync inode k true ;; rest) (λ r s', fs_at None m s' ∧ ∃ ino', grown s s' ino ino' ∧ P r s' ino') s.
Proof.
  intros Hk Hfs Hf Hrest. apply wp_bind. eapply wp_mono; [by apply (create_zone_run k m')|].
  intros _ s1 (Hfs1 & ino1 & Hg1 & Hfull1). eapply wp_mono; [apply (Hrest s1 ino1); [done|by eapply grown_file|done]|].
  intros r s' (Hfs2 & ino2 & Hg2 & HP). split; [done|]. exists ino2. split; [by eapply grown_trans|done].
Qed.

(** nothing more is done *)
Lemma grown_here m m' s ino (P : m_inode → Prop) : (m ≤ m')%nat → fs_at None m' s → file_at s ino → P ino →
  fs_at None m s ∧ ∃ ino', grown s s ino ino' ∧ P ino'.
Proof.
  intros Hm Hfs [Hi Ht] HP. split; [by eapply fs_at_weaken|]. exists ino. split; [|done].
  eapply unmoved_grown; [done|done|exact Hfs|apply unmoved_refl].
Qed.

(** an entry is made in an indirect block of the file, and then the rest is done *)
Lemma entry_of_then {A} k l j (rest : Z → M st A) m m' (P : A → st → m_inode → Prop) s ino :
  fs_at None (2 + m') s → file_at s ino → valid (k, l ++ [j]) → node s ino (k, l) ≠ 0 →
  (∀ s1, fs_at None m' s1 → file_at s1 ino → (node s1 ino (k, l ++ [j]) = 0 → full x s1) →
     wp (rest (node s1 ino (k, l ++ [j]))) (λ r s', fs_at None m s' ∧ ∃ ino', grown s1 s' ino ino' ∧ P r s' ino') s1) →
  wp (entry_of sync dev (node s ino (k, l)) j true ≫= rest) (λ r s', fs_at None m s' ∧ ∃ ino', grown s s' ino ino' ∧ P r s' ino') s.
Proof.
  intros Hfs Hf Hv Hz Hrest. apply wp_bind. eapply wp_mono; [by apply (entry_of_create k l j m')|].
  intros r s1 (Hfs1 & Hg1 & -> & Hfull1). eapply wp_mono; [apply (Hrest s1); [done|by eapply grown_file|done]|].
  intros r s' (Hfs2 & ino2 & Hg2 & HP). split; [done|]. exists ino2. split; [by eapply grown_trans|done].
Qed.

(** what [create_block] is to do for the block at [p] *)
Definition made (p : path) (r : Z) s' ino' : Prop := r = node s' ino' p ∧ (r = 0 → full x s').

Lemma create_direct k m s ino : fs_at None (1 + m) s → file_at s ino → (k < 7)%nat →
  wp (create_zone sync inode k true ;; i ← the_inode inode; mret (get_zone k i))
    (λ r s', fs_at None m s' ∧ ∃ ino', grown s s' ino ino' ∧ made (k, []) r s' ino') s.
Proof.
  intros Hfs Hf Hk. apply (create_zone_then k _ m m (made (k, []))); [lia|done|done|].
  intros s1 ino1 Hfs1 Hf1 Hfull. apply wp_bind. eapply wp_the_inode; [apply Hf1|]. apply wp_ret.
  by apply (grown_here m m).
Qed.

Lemma create_single j m s ino : fs_at None (3 + m) s → file_at s ino → 0 ≤ j < 512 →
  wp (create_zone sync inode 7 true ;; i ← the_inode inode;
      if get_zone 7 i =? 0 then mret 0 else entry_of sync (i_dev i) (get_zone 7 i) j true)
    (λ r s', fs_at None m s' ∧ ∃ ino', grown s s' ino ino' ∧ made (7%nat, [j]) r s' ino') s.
Proof.
  intros Hfs Hf Hj. apply (create_zone_then 7 _ m (2 + m) (made (7%nat, [j]))); [lia|done|done|].
  intros s1 ino1 Hfs1 Hf1 Hfull. apply wp_bind. eapply wp_the_inode; [apply Hf1|].
  change (get_zone 7 ino1) with (node s1 ino1 (7%nat, [])). destruct (Z.eqb_spec (node s1 ino1 (7%nat, [])) 0) as [Ez|Ez].
  - apply wp_ret, (grown_here m (2 + m)); [lia|done|done|]. split; [|intros _; by apply Hfull].
    change (7%nat, [j]) with (7%nat, [] ++ [j]). by rewrite node_snoc, Ez.
  - rewrite (tr_dev _ _ _ _ (proj2 Hf1)). eapply wp_mono.
    { apply (entry_of_create 7 [] j m s1 ino1); [done|done| |exact Ez]. unfold valid. cbn. split_and!; [lia|repeat constructor; lia|lia]. }
    intros r s2 (Hfs2 & Hg2 & Hr). split; [done|]. by exists ino1.
Qed.

Lemma create_double i j m s ino : fs_at None (5 + m) s → file_at s ino → 0 ≤ i < 512 → 0 ≤ j < 512 →
  wp (create_zone sync inode 8 true ;; v ← the_inode inode;
      if get_zone 8 v =? 0 then mret 0
      else
        z ← entry_of sync (i_dev v) (get_zone 8 v) i true;
        if z =? 0 then mret 0 else v ← the_inode inode; entry_of sync (i_dev v) z j true)
    (λ r s', fs_at None m s' ∧ ∃ ino', grown s s' ino ino' ∧ made (8%nat, [i; j]) r s' ino') s.
Proof.
  intros Hfs Hf Hi Hj. apply (create_zone_then 8 _ m (4 + m) (made (8%nat, [i; j]))); [lia|done|done|].
  intros s1 ino1 Hfs1 Hf1 Hfull. apply wp_bind. eapply wp_the_inode; [apply Hf1|].
  assert (Hv : valid (8%nat, [i] ++ [j])) by (unfold valid; cbn; split_and!; [lia|repeat constructor; lia|lia]).
  destruct (valid_snoc _ _ _ Hv) as [Hv1 _]. change (8%nat, [i]) with (8%nat, [] ++ [i]) in Hv1.
  change (get_zone 8 ino1) with (node s1 ino1 (8%nat, [])). destruct (Z.eqb_spec (node s1 ino1 (8%nat, [])) 0) as [Ez|Ez].
  - apply wp_ret, (grown_here m (4 + m)); [lia|done|done|]. split; [|intros _; by apply Hfull].
    change (8%nat, [i; j]) with (8%nat, [i] ++ [j]). rewrite node_snoc. change [i] with ([] ++ [i]). by rewrite node_snoc, Ez.
  - rewrite (tr_dev _ _ _ _ (proj2 Hf1)). eapply entry_of_then; [exact Hfs1|exact Hf1|exact Hv1|exact Ez|].
    intros s2 Hfs2 Hf2 Hfull2. cbn [app] in *. destruct (Z.eqb_spec (node s2 ino1 (8%nat, [i])) 0) as [Ez2|Ez2].
    + apply wp_ret, (grown_here m (2 + m)); [lia|done|done|]. split; [|intros _; by apply Hfull2].
      change (8%nat, [i; j]) with (8%nat, [i] ++ [j]). by rewrite node_snoc, Ez2.
    + apply wp_bind. eapply wp_the_inode; [apply Hf2|]. rewrite (tr_dev _ _ _ _ (proj2 Hf2)). eapply wp_mono.
      { by apply (entry_of_create 8 [i] j m s2 ino1). }
      intros r s3 (Hfs3 & Hg3 & Hr). split; [done|]. by exists ino1.
Qed.

(** [create_block] makes sure block [block] has a zone, and returns it; or
    returns 0, when the device is full *)
Lemma create_block_run block m s ino : fs_at None (5 + m) s → file_at s ino → 0 ≤ block < MAX_BLOCKS →
  wp (create_block sync inode block) (λ r s', fs_at None m s' ∧ ∃ ino', grown s s' ino ino' ∧ made (path_of block) r s' ino') s.
Proof.
  intros Hfs Hf Hb. unfold create_block, _bmap, path_of, MAX_BLOCKS in *.
  rewrite (proj2 (Z.ltb_ge block 0)), (proj2 (Z.leb_gt _ block)) by lia.
  destruct (Z.ltb_spec block 7); [apply create_direct; [by eapply fs_at_weaken; [|exact Hfs]; lia|done|lia]|].
  replace (block - 7 <? 512) with (block <? 7 + 512) by (apply eq_true_iff_eq; rewrite !Z.ltb_lt; lia).
  destruct (Z.ltb_spec block (7 + 512)); [apply create_single; [by eapply fs_at_weaken; [|exact Hfs]; lia|done|lia]|].
  rewrite Z.shiftr_div_pow2 by lia. change 511 with (Z.ones 9). rewrite Z.land_ones by lia. change (2 ^ 9) with 512.
  replace (block - 7 - 512) with (block - (7 + 512)) by lia. apply create_double; [done|done| |by apply Z.mod_pos_bound].
  split; [apply Z.div_pos; lia|apply Z.div_lt_upper_bound; lia].
Qed.
End create.
