(* ===== verification/FileWrite.v ===== *)
(** * Writing files

    [file_write] against the contents of files of [FileView]: what it does to
    the bytes of the file, to its inode and to the other blocks, block by
    block over the trees of [FileTree], with [create_block] as in [FileGrow]; and that
    [file_read] reads back what it wrote. *)

From S2P Require Import Prelude Blk DList Buffer BufferQueues BufferCache CacheView Task FsData KernelRules Bitmap Inode FileIO FileView BlockStore FileTree FileGrow.

Section write.
Context {D : Type} `{BlockDriverOk D}.
Abbreviation st := (bstate D kernel).
Context (sync : M st unit) (dev : Z) (sb : nat) (x : super_blk) (inode : nat).
Implicit Types (s : st) (ino : m_inode).
Abbreviation fs_at := (fs_at dev sb x).
Abbreviation node := (node dev).
Abbreviation tree_ok := (tree_ok dev x).
Abbreviation grown := (grown dev x inode).
Abbreviation file_at := (file_at dev x inode).
Abbreviation outside := (outside dev x).

(** ** The bytes of a file, by the tree of its zones *)
Lemma block_at_node s ino b : i_dev ino = dev → 0 ≤ b < MAX_BLOCKS →
  block_at s ino b = if decide (node s ino (path_of b) = 0) then Some (replicate 1024 0) else view s dev (node s ino (path_of b)).
Proof.
  intros Hd Hb. unfold block_at. rewrite (zone_at_node dev) by done. rewrite Hd.
  destruct (Z.eqb_spec (node s ino (path_of b)) 0); case_decide; done.
Qed.

Definition in_file (q : Z) : Prop := 0 ≤ q < MAX_BLOCKS * BLOCK_SIZE.
Lemma in_file_block q : in_file q → 0 ≤ q / BLOCK_SIZE < MAX_BLOCKS.
Proof. unfold in_file, BLOCK_SIZE, MAX_BLOCKS. intros Hq. split; [apply Z.div_pos; lia|apply Z.div_lt_upper_bound; lia]. Qed.

(** growing changes no block: a hole reads as zeros, and so does a new zone *)
Lemma grown_block s s' ino ino' b : tree_ok s ino → grown s s' ino ino' → 0 ≤ b < MAX_BLOCKS → block_at s' ino' b = block_at s ino b.
Proof.
  intros Ht Hg Hb. destruct (path_of_ok _ Hb) as [Hv Hl].
  rewrite !block_at_node; [|apply Ht|done|apply (gw_tree _ _ _ _ _ _ _ Hg)|done].
  set (p := path_of _) in *. destruct (decide (node s' ino' p = 0)) as [E|E].
  - destruct (decide (node s ino p = 0)) as [E'|E']; [done|]. by rewrite (gw_node _ _ _ _ _ _ _ Hg) in E.
  - rewrite (gw_data _ _ _ _ _ _ _ Hg) by done. by repeat case_decide.
Qed.
Lemma grown_byte s s' ino ino' q : tree_ok s ino → grown s s' ino ino' → in_file q → file_byte s' ino' q = file_byte s ino q.
Proof. intros Ht Hg Hq. unfold file_byte. by rewrite (grown_block s s' ino ino') by (done || by apply in_file_block). Qed.

(** ** A block of the file is written *)

(** block [n] now holds [d]; no other has changed *)
Record revised (n : Z) (d : bytes) s s' : Prop := {
  rv_view dev' n' : dev' ≠ 0 → view s' dev' n' = if decide (dev' = dev ∧ n' = n) then Some d else view s dev' n';
  rv_bit b : map_bit (cores s') (s_zmap x) b = map_bit (cores s) (s_zmap x) b;
  rv_map d n : map_block (cores s') (s_zmap x) d n ↔ map_block (cores s) (s_zmap x) d n
}.

(** the same zones *)
Definition same_zones ino ino' : Prop := i_zone ino' = i_zone ino ∧ i_dev ino' = i_dev ino.

Lemma revised_node s s' ino ino' p d q : dev ≠ 0 → tree_ok s ino → same_zones ino ino' → valid p → leaf p → node s ino p ≠ 0 →
  revised (node s ino p) d s s' → valid q → node s' ino' q = node s ino q.
Proof.
  intros Hd Ht [Ez Ed] Hp Hlp Hp0 Hr. destruct q as [k l].
  induction l as [|j l IH] using rev_ind; [intros _; unfold FileTree.node, get_zone; cbn; by rewrite Ez|]. intros Hq.
  destruct (valid_snoc _ _ _ Hq) as (Hq' & _ & Hnl). rewrite !node_snoc, IH by done. unfold sub.
  destruct (Z.eqb_spec (node s ino (k, l)) 0) as [|Hne]; [done|]. unfold entry_at.
  rewrite (rv_view _ _ _ _ Hr) by done. rewrite decide_False; [done|]. intros [_ E].
  destruct (tr_inj _ _ _ _ Ht (k, l) p Hq' Hp Hne E). done.
Qed.

Lemma revised_tree s s' ino ino' p d : dev ≠ 0 → tree_ok s ino → same_zones ino ino' → valid p → leaf p → node s ino p ≠ 0 →
  revised (node s ino p) d s s' → Forall byte_ok d → tree_ok s' ino'.
Proof.
  intros Hd Ht Hsz Hp Hlp Hp0 Hr Hb. pose proof (λ q, revised_node s s' ino ino' p d q Hd Ht Hsz Hp Hlp Hp0 Hr) as Hn.
  destruct Ht as [Hl Hdev Hz Hused Hinj]. destruct Hsz as [Ez Ed]. constructor.
  - by rewrite Ez.
  - by rewrite Ed.
  - destruct Hz as [H1 H2 H3]. constructor; [by rewrite Ed|intros k; unfold get_zone; rewrite Ez; apply H2|].
    rewrite Ed, Hdev in *. intros n d'. rewrite (rv_view _ _ _ _ Hr) by done. case_decide; [by intros [= <-]|apply H3].
  - intros q Hq. rewrite Hn by done. intros Hq0. destruct (Hused q Hq Hq0) as (H1 & H2 & e & H3). split_and!.
    + unfold BlockStore.zone_bit. by rewrite (rv_bit _ _ _ _ Hr).
    + unfold bitmap_block. by rewrite (rv_map _ _ _ _ Hr).
    + rewrite (rv_view _ _ _ _ Hr) by done. case_decide; [by exists d|by exists e].
  - intros a b Ha Hb'. rewrite !Hn by done. by apply Hinj.
Qed.

Lemma revised_block s s' ino ino' b d i : dev ≠ 0 → tree_ok s ino → same_zones ino ino' → 0 ≤ b < MAX_BLOCKS → node s ino (path_of b) ≠ 0 →
  revised (node s ino (path_of b)) d s s' → 0 ≤ i < MAX_BLOCKS →
  block_at s' ino' i = if decide (i = b) then Some d else block_at s ino i.
Proof.
  intros Hd Ht Hsz Hb Hp0 Hr Hi. destruct (path_of_ok _ Hb) as [Hv Hl]. destruct (path_of_ok _ Hi) as [Hiv _].
  rewrite !block_at_node; [|apply Ht|done|destruct Hsz as [_ ->]; apply Ht|done].
  rewrite (revised_node s s' ino ino' (path_of b) d) by done. rewrite (rv_view _ _ _ _ Hr) by done.
  destruct (decide (i = b)) as [->|Hne].
  - rewrite decide_False by done. by rewrite decide_True.
  - destruct (decide (node s ino (path_of i) = 0)) as [|Hq0]; [done|].
    rewrite decide_False; [done|]. intros [_ E]. apply Hne. apply path_of_inj; [lia..|]. by apply (tr_inj _ _ _ _ Ht).
Qed.
Lemma revised_byte s s' ino ino' b d q : dev ≠ 0 → tree_ok s ino → same_zones ino ino' → 0 ≤ b < MAX_BLOCKS → node s ino (path_of b) ≠ 0 →
  revised (node s ino (path_of b)) d s s' → in_file q →
  file_byte s' ino' q = if decide (q / BLOCK_SIZE = b) then d !! Z.to_nat (q mod BLOCK_SIZE) else file_byte s ino q.
Proof.
  intros Hd Ht Hsz Hb Hp0 Hr Hq. unfold file_byte. rewrite (revised_block s s' ino ino' b d) by (done || by apply in_file_block).
  by case_decide.
Qed.

Lemma revised_outside s s' ino ino' p d dev' n' : dev ≠ 0 → tree_ok s ino → same_zones ino ino' → valid p → leaf p → node s ino p ≠ 0 →
  revised (node s ino p) d s s' → outside s ino dev' n' → view s' dev' n' = view s dev' n' ∧ outside s' ino' dev' n'.
Proof.
  intros Hd Ht Hsz Hp Hlp Hp0 Hr (H1 & H2 & H3). split.
  - rewrite (rv_view _ _ _ _ Hr) by done. rewrite decide_False; [done|]. intros [-> ->]. by apply (proj2 (H3 eq_refl) p).
  - split_and!; [done|by rewrite (rv_map _ _ _ _ Hr)|]. intros Ed. destruct (H3 Ed) as [H4 H5]. split.
    + unfold BlockStore.zone_bit. by rewrite (rv_bit _ _ _ _ Hr).
    + intros q Hq. rewrite (revised_node s s' ino ino' p d) by done. by apply H5.
Qed.


(** ** A turn of the loop *)

(** the inode when the file reaches position [e] at least *)
Definition extend (e : Z) ino : m_inode := if i_size ino <? e then set_i_dirt true (set_i_size e ino) else ino.

Lemma extend_zones e ino : same_zones ino (extend e ino).
Proof. unfold extend. by destruct (_ <? _). Qed.
Lemma extend_size e ino : i_size (extend e ino) = Z.max (i_size ino) e.
Proof. unfold extend. destruct (Z.ltb_spec (i_size ino) e); cbn; lia. Qed.

Lemma holds_up bh n d dt m s K : super_block K = super_block (up s) → holds dev sb x bh n d dt m s → holds dev sb x bh n d dt m (set_up K s).
Proof. intros E [H1 H2 H3]. constructor; [by apply fs_at_up|done|done]. Qed.

Lemma holds_length bh n d dt m s : holds dev sb x bh n d dt m s → length d = 1024%nat.
Proof. intros [Hf _ (c & Hc & _ & _ & <- & _)]. apply (co_buf _ (ci_cores _ (fa_inv _ _ _ _ _ _ Hf)) _ _ Hc). Qed.

Lemma write_block {A} bh n d m s ino off chunk e (k : M st A) Q :
  holds dev sb x bh n d false m s → inode_table (up s) !! inode = Some ino → (off + length chunk ≤ 1024)%nat →
  (∀ s', fs_at None m s' → up s' = with_inode inode (extend e ino) (up s) → revised n (splice off chunk d) s s' → wp k Q s') →
  wp (upd_buf bh (set_b_dirt true) ;;
      i ← the_inode inode;
      when (i_size i <? e) (upd_inode inode (λ i, set_i_dirt true (set_i_size e i))) ;;
      upd_buf bh (λ b, set_b_data (splice off chunk (b_data b)) b) ;;
      brelse (Some bh) ;; k) Q s.
Proof.
  intros Hh Hi Hlen HQ. pose proof (holds_length _ _ _ _ _ _ Hh) as Hd.
  apply wp_bind. eapply wp_held_dirt; [exact Hh|done|]. intros s1 Hh1 Hc1.
  assert (Hi1 : inode_table (up s1) !! inode = Some ino) by (by rewrite (ch_up _ _ _ _ _ _ Hc1)).
  apply wp_bind. eapply wp_the_inode; [exact Hi1|].
  assert (Hrest : ∀ s2, s2 = set_up (with_inode inode (extend e ino) (up s1)) s1 →
    wp (upd_buf bh (λ b, set_b_data (splice off chunk (b_data b)) b) ;; brelse (Some bh) ;; k) Q s2).
  { intros s2 ->. apply wp_bind. eapply (wp_held_write dev sb x bh n d m _ (splice off chunk d));
      [by apply holds_up|by rewrite length_splice; rewrite ?Hd|by intros ? ->|].
    intros s3 Hh3 Hc3. apply wp_bind. eapply wp_mono; [by eapply brelse_fs|]. intros [] s4 [Hfs4 Hu4].
    apply HQ; [done| |].
    - rewrite (um_up _ _ _ Hu4), (ch_up _ _ _ _ _ _ Hc3). cbn. by rewrite (ch_up _ _ _ _ _ _ Hc1).
    - constructor.
      + intros d' n' Hd'. rewrite (um_view _ _ _ Hu4) by done. rewrite (ch_view _ _ _ _ _ _ Hc3) by done.
        case_decide as Hk; [done|]. etransitivity; [exact (ch_view _ _ _ _ _ _ Hc1 d' n' Hd')|]. by rewrite decide_False.
      + intros b. rewrite (um_bit _ _ _ Hu4), (ch_bit _ _ _ _ _ _ Hc3). apply (ch_bit _ _ _ _ _ _ Hc1).
      + intros d' n'. rewrite (um_map _ _ _ Hu4), (ch_map _ _ _ _ _ _ Hc3). apply (ch_map _ _ _ _ _ _ Hc1). }
  unfold extend in Hrest. apply wp_bind. destruct (i_size ino <? e); cbn [when].
  - eapply wp_upd_inode; [exact Hi1|]. by apply Hrest.
  - apply wp_ret, Hrest. rewrite with_inode_same by done. by destruct s1.
Qed.


(** ** A file is written *)

(** the size of the file when [data] has been written at [pos] *)
Definition size_after (pos : Z) (data : bytes) ino : Z :=
  if decide (data = []) then i_size ino else Z.max (i_size ino) (pos + Z.of_nat (length data)).

Lemma size_after_app pos d1 d2 a b : i_size b = size_after pos d1 a →
  size_after (pos + Z.of_nat (length d1)) d2 b = size_after pos (d1 ++ d2) a.
Proof.
  intros Hb. unfold size_after in *. rewrite Hb, length_app. clear Hb. destruct d1 as [|v1 d1]; [cbn [app length]; by rewrite Z.add_0_r|].
  cbn [app]. rewrite !(decide_False (P := _ :: _ = [])) by done. case_decide as E; [subst d2|]; cbn [length]; lia.
Qed.

(** the inode is the same but for its size, its times and its zones *)
Definition rewritten (size : Z) ino ino' : Prop :=
  ∃ z c m d, ino' = set_i_zone z (set_i_ctime c (set_i_mtime m (set_i_dirt d (set_i_size size ino)))).

Lemma rewritten_trans n1 n2 a b c : rewritten n1 a b → rewritten n2 b c → rewritten n2 a c.
Proof. intros (z1 & c1 & m1 & f1 & ->) (z2 & c2 & m2 & f2 & ->). by exists z2, c2, m2, f2. Qed.

(** Between the two states [data] has been written at [pos] of the file. *)
Record written (pos : Z) (data : bytes) s s' ino ino' : Prop := {
  wr_same : rewritten (size_after pos data ino) ino ino';
  wr_tree : tree_ok s' ino';
  wr_byte q : in_file q → file_byte s' ino' q =
    if decide (pos ≤ q < pos + Z.of_nat (length data)) then data !! Z.to_nat (q - pos) else file_byte s ino q;
  wr_frame dev' n' : outside s ino dev' n' → view s' dev' n' = view s dev' n' ∧ outside s' ino' dev' n'
}.

Lemma grown_written pos s s' ino ino' : tree_ok s ino → grown s s' ino ino' → written pos [] s s' ino ino'.
Proof.
  intros Ht Hg. constructor; [|apply Hg| |apply Hg].
  - destruct (gw_same _ _ _ _ _ _ _ Hg) as (z & c & d & ->). exists z, c, (i_mtime ino), d. by destruct ino.
  - intros q Hq. rewrite decide_False by (cbn; lia). by apply grown_byte.
Qed.

Lemma written_trans pos d1 d2 s1 s2 s3 a b c : written pos d1 s1 s2 a b → written (pos + Z.of_nat (length d1)) d2 s2 s3 b c →
  written pos (d1 ++ d2) s1 s3 a c.
Proof.
  intros [S1 T1 B1 F1] [S2 T2 B2 F2]. constructor; [|done| |].
  - rewrite (size_after_app pos d1 d2 a b) in S2; [by eapply rewritten_trans|]. destruct S1 as (? & ? & ? & ? & ->). done.
  - intros q Hq. rewrite B2, B1, length_app by done. repeat case_decide; try lia; try done.
    + rewrite lookup_app_r by lia. f_equal. lia.
    + rewrite lookup_app_l by lia. done.
  - intros d n Ho. destruct (F1 d n Ho) as [E1 Ho1]. destruct (F2 d n Ho1) as [E2 Ho2]. by rewrite E2, E1.
Qed.

Lemma revised_written pos chunk d s s' ino : dev ≠ 0 → tree_ok s ino → in_file pos → chunk ≠ [] →
  pos mod BLOCK_SIZE + Z.of_nat (length chunk) ≤ BLOCK_SIZE → length d = 1024%nat → Forall byte_ok chunk →
  node s ino (path_of (pos / BLOCK_SIZE)) ≠ 0 → view s dev (node s ino (path_of (pos / BLOCK_SIZE))) = Some d →
  revised (node s ino (path_of (pos / BLOCK_SIZE))) (splice (Z.to_nat (pos mod BLOCK_SIZE)) chunk d) s s' →
  written pos chunk s s' ino (extend (pos + Z.of_nat (length chunk)) ino).
Proof.
  intros Hd Ht Hpos Hne Hfit Hld Hok Hn Hv Hr. set (e := pos + _).
  pose proof (in_file_block pos Hpos) as Hb. destruct (path_of_ok _ Hb) as [Hvp Hlp]. pose proof (extend_zones e ino) as Hsz.
  pose proof (Z.mod_pos_bound pos BLOCK_SIZE ltac:(done)) as Hm.
  assert (Hfit' : (Z.to_nat (pos mod BLOCK_SIZE) + length chunk ≤ length d)%nat) by (rewrite Hld; unfold BLOCK_SIZE in *; lia).
  assert (Hdok : Forall byte_ok d) by (eapply (zo_bytes _ _ (tr_zones _ _ _ _ Ht)); by rewrite (tr_dev _ _ _ _ Ht)).
  constructor.
  - unfold rewritten, size_after. rewrite decide_False by done. fold e. unfold extend. exists (i_zone ino), (i_ctime ino), (i_mtime ino), (if i_size ino <? e then true else i_dirt ino).
    destruct (Z.ltb_spec (i_size ino) e); [rewrite Z.max_r by lia|rewrite Z.max_l by lia]; by destruct ino.
  - eapply revised_tree; [done|exact Ht|done|exact Hvp|exact Hlp|done|exact Hr|].
    unfold splice. apply Forall_app; split; [by apply Forall_take|apply Forall_app; split; [done|by apply Forall_drop]].
  - intros q Hq. rewrite (revised_byte s s' ino _ _ _ q Hd Ht Hsz Hb Hn Hr Hq).
    pose proof (Z.div_mod pos BLOCK_SIZE ltac:(done)) as E1. pose proof (Z.div_mod q BLOCK_SIZE ltac:(done)) as E2.
    pose proof (Z.mod_pos_bound q BLOCK_SIZE ltac:(done)) as Hmq. unfold BLOCK_SIZE in *.
    destruct (decide (q / 1024 = pos / 1024)) as [Eq|Eq].
    + rewrite lookup_splice by done. unfold file_byte, BLOCK_SIZE. rewrite block_at_node; [|apply Ht|rewrite Eq; done].
      rewrite Eq. rewrite (decide_False (P := _ = 0)) by done. rewrite Hv. cbn [option_bind mbind].
      repeat case_decide; try lia; [|done]. f_equal. lia.
    + rewrite decide_False; [done|]. nia.
  - intros d' n' Ho. eapply revised_outside; [done|exact Ht|done|exact Hvp|exact Hlp|done|exact Hr|done].
Qed.


(** the block at position [pos], which now has a zone, is read to be written *)
Lemma bread_zone m s ino p : fs_at None (S m) s → file_at s ino → valid p → node s ino p ≠ 0 →
  wp (bread sync dev (node s ino p)) (λ r s', ∃ bh d, r = Some bh ∧ view s dev (node s ino p) = Some d ∧
    holds dev sb x bh (node s ino p) d false m s' ∧ unmoved x s s') s.
Proof.
  intros Hfs [_ Ht] Hp Hn. destruct (tr_used _ _ _ _ Ht p Hp Hn) as (Hbit & Hnm & d & Hd).
  eapply wp_mono; [eapply (bread_fs sync dev sb x m s _ d); try done; [by eapply zone_block_range|by rewrite Hbit]|].
  intros r s' (bh & -> & Hh & Hu). by exists bh, d.
Qed.

(** how far a turn of the loop gets *)
Lemma turn_length pos (len : nat) n c : 0 ≤ pos → c = Z.min (BLOCK_SIZE - pos mod BLOCK_SIZE) (Z.of_nat len) →
  (0 < len)%nat → pos mod BLOCK_SIZE + Z.of_nat len ≤ Z.of_nat (S n) * BLOCK_SIZE →
  0 < c ≤ Z.of_nat len ∧ pos mod BLOCK_SIZE + c ≤ BLOCK_SIZE ∧
  (c < Z.of_nat len → (pos + c) mod BLOCK_SIZE + (Z.of_nat len - c) ≤ Z.of_nat n * BLOCK_SIZE).
Proof.
  intros Hpos -> Hlen Hn. pose proof (Z.mod_pos_bound pos BLOCK_SIZE ltac:(done)) as Hm.
  unfold BLOCK_SIZE in *. split_and!; [lia|lia|lia|]. intros Hlt. rewrite Z.min_l in * by lia.
  pose proof (Z.div_mod pos 1024 ltac:(done)). replace (pos + _) with ((pos / 1024 + 1) * 1024) by lia. rewrite Z.mod_mul by done. lia.
Qed.

(** the turn of the loop that writes [chunk], at [pos], in the block of the file that
    [create_block] has returned *)
Lemma write_turn {A} m pos chunk s ino off e (k0 k : M st A) Q :
  fs_at None (S m) s → file_at s ino → in_file pos → Forall byte_ok chunk → chunk ≠ [] →
  pos mod BLOCK_SIZE + Z.of_nat (length chunk) ≤ BLOCK_SIZE → node s ino (path_of (pos / BLOCK_SIZE)) ≠ 0 →
  off = Z.to_nat (pos mod BLOCK_SIZE) → e = pos + Z.of_nat (length chunk) →
  (∀ s' ino', fs_at None m s' → up s' = with_inode inode ino' (up s) → file_at s' ino' → written pos chunk s s' ino ino' → wp k Q s') →
  wp (p ← bread sync dev (node s ino (path_of (pos / BLOCK_SIZE)));
      match p with
      | None => k0
      | Some bh =>
          upd_buf bh (set_b_dirt true) ;;
          i ← the_inode inode;
          when (i_size i <? e) (upd_inode inode (λ i, set_i_dirt true (set_i_size e i))) ;;
          upd_buf bh (λ b, set_b_data (splice off chunk (b_data b)) b) ;;
          brelse (Some bh) ;; k
      end) Q s.
Proof.
  intros Hfs Hf Hin Hok Hne Hfit E0 -> -> HQ. destruct (path_of_ok _ (in_file_block pos Hin)) as [Hvp _].
  assert (Hdz : dev ≠ 0) by (pose proof (fa_range _ _ _ _ _ _ Hfs); lia).
  apply wp_bind. eapply wp_mono; [by apply (bread_zone m)|].
  intros r s2 (bh & d & -> & Hd & Hh & Hu).
  assert (Hg : grown s s2 ino ino) by (eapply unmoved_grown; [apply Hf|apply Hf|exact (ho_fs _ _ _ _ _ _ _ _ _ Hh)|exact Hu]).
  assert (Hf2 : file_at s2 ino) by (by eapply grown_file).
  pose proof (gw_node _ _ _ _ _ _ _ Hg _ Hvp E0) as En. rewrite <- En in Hd, Hh, E0.
  eapply write_block; [exact Hh|apply Hf2| |].
  { pose proof (Z.mod_pos_bound pos BLOCK_SIZE ltac:(done)). unfold BLOCK_SIZE in *. lia. }
  intros s3 Hfs3 Hup3 Hr.
  assert (Hw : written pos chunk s2 s3 ino (extend (pos + Z.of_nat (length chunk)) ino)).
  { eapply revised_written; try done; [apply Hf2|by eapply holds_length|]. by rewrite (um_view _ _ _ Hu). }
  apply (HQ s3 (extend (pos + Z.of_nat (length chunk)) ino) Hfs3); [rewrite Hup3; by rewrite (um_up _ _ _ Hu)| |].
  - split; [|apply Hw]. rewrite Hup3. cbn. apply list_lookup_insert_eq. eapply lookup_lt_Some. apply Hf2.
  - eapply (written_trans pos []); [eapply grown_written; [apply Hf|exact Hg]|]. by rewrite Z.add_0_r.
Qed.

Lemma file_write_loop_run m fuel n pos buf s ino :
  fs_at None (6 * n + m) s → file_at s ino → 0 ≤ pos → pos + Z.of_nat (length buf) ≤ MAX_BLOCKS * BLOCK_SIZE → Forall byte_ok buf →
  (1 ≤ fuel)%nat → (buf = [] ∨ (n < fuel)%nat ∧ pos mod BLOCK_SIZE + Z.of_nat (length buf) ≤ Z.of_nat n * BLOCK_SIZE) →
  wp (file_write_loop sync fuel inode pos buf) (λ r s', ∃ d rest ino', buf = d ++ rest ∧ r = (pos + Z.of_nat (length d), rest) ∧
    fs_at None m s' ∧ up s' = with_inode inode ino' (up s) ∧ written pos d s s' ino ino' ∧ (rest ≠ [] → full x s')) s.
Proof.
  revert n pos buf s ino. induction fuel as [|fuel IH]; intros n pos buf s ino Hfs Hf Hpos Hmax Hok Hfu Hn; [lia|]. clear Hfu.
  cbn [file_write_loop]. destruct buf as [|v buf0].
  { apply wp_ret. exists [], [], ino. rewrite Z.add_0_r. split; [done|]. split; [done|]. split; [by eapply fs_at_weaken; [|exact Hfs]; lia|].
    split; [symmetry; by apply with_inode_same, Hf|]. split; [|done]. eapply grown_written; [apply Hf|].
    eapply unmoved_grown; [apply Hf|apply Hf|exact Hfs|apply unmoved_refl]. }
  set (buf := v :: buf0) in *. destruct Hn as [|[Hn Hle]]; [done|].
  assert (Hlen : (0 < length buf)%nat) by (unfold buf; cbn; lia).
  destruct n as [|n]; [pose proof (Z.mod_pos_bound pos BLOCK_SIZE ltac:(done)); lia|].
  destruct (turn_length pos (length buf) n _ Hpos eq_refl Hlen Hle) as (Hc & Hfit & Hnext).
  assert (Hin : in_file pos) by (unfold in_file; lia).
  rewrite Z.quot_div_nonneg, Z.rem_mod_nonneg by done.
  apply wp_bind. eapply wp_mono; [apply (create_block_run sync dev sb x inode _ (S (6 * n + m))); [|exact Hf|by apply in_file_block]|].
  { by replace (5 + S (6 * n + m))%nat with (6 * S n + m)%nat by lia. }
  intros r s1 (Hfs1 & ino1 & Hg1 & -> & Hfull). assert (Hf1 : file_at s1 ino1) by (by eapply grown_file).
  assert (Hw1 : written pos [] s s1 ino ino1) by (eapply grown_written; [apply Hf|done]).
  destruct (Z.eqb_spec (node s1 ino1 (path_of (pos / BLOCK_SIZE))) 0) as [E0|E0].
  { apply wp_ret. exists [], buf, ino1. rewrite Z.add_0_r. split; [done|]. split; [done|]. split; [by eapply fs_at_weaken; [|exact Hfs1]; lia|].
    split; [apply Hg1|]. split; [done|]. intros _. by apply Hfull. }
  apply wp_bind. eapply wp_the_inode; [apply Hf1|]. rewrite (tr_dev _ _ _ _ (proj2 Hf1)).
  set (c := Z.min _ _) in *. set (chunk := take (Z.to_nat c) buf).
  assert (Hcl : Z.of_nat (length chunk) = c) by (unfold chunk; rewrite length_take; lia).
  assert (Hpos' : s32 (pos + c) = pos + c) by (apply s32_id; unfold MAX_BLOCKS, BLOCK_SIZE in *; lia).
  rewrite Hpos', u32_id by (unfold MAX_BLOCKS, BLOCK_SIZE in *; lia).
  eapply (write_turn (6 * n + m) pos chunk); [exact Hfs1|exact Hf1|exact Hin|by apply Forall_take| |by rewrite Hcl|exact E0|done|by rewrite Hcl|].
  { intros E. rewrite E in Hcl. cbn in Hcl. lia. }
  intros s2 ino2 Hfs2 Hup2 Hf2 Hw2. replace (pos + c) with (pos + Z.of_nat (length chunk)) by lia.
  assert (Hbuf : buf = chunk ++ drop (Z.to_nat c) buf) by (symmetry; apply take_drop).
  assert (Hdl : length (drop (Z.to_nat c) buf) = (length buf - Z.to_nat c)%nat) by apply length_drop.
  rewrite <- Hcl in Hfit, Hnext, Hc.
  eapply wp_mono; [apply (IH n); [exact Hfs2|exact Hf2|lia|rewrite Hdl; lia|by apply Forall_drop|lia|]|].
  { destruct (decide (Z.of_nat (length chunk) < Z.of_nat (length buf))) as [Hlt|]; [right|left].
    - split; [lia|]. specialize (Hnext Hlt). rewrite Hdl. lia.
    - apply nil_length_inv. lia. }
  intros r s3 (d & rest & ino3 & Ed & -> & Hfs3 & Hup3 & Hw3 & Hrest). exists (chunk ++ d), rest, ino3.
  split; [by rewrite <- app_assoc, <- Ed|]. split; [rewrite length_app; f_equal; lia|]. split; [done|]. split.
  - rewrite Hup3, Hup2, (gw_up _ _ _ _ _ _ _ Hg1). by rewrite !with_inode_twice.
  - split; [|done]. eapply (written_trans pos chunk); [|done]. eapply (written_trans pos []); [done|]. by rewrite Z.add_0_r.
Qed.


(** the times of the inode, and the rest of the kernel, do not matter to the file *)
Lemma tree_ok_up K s ino ino' : same_zones ino ino' → tree_ok s ino → tree_ok (set_up K s) ino'.
Proof.
  intros [Ez Ed] [Hl Hd Hz Hu Hi]. assert (En : ∀ q, node (set_up K s) ino' q = node s ino q).
  { intros q. unfold FileTree.node, get_zone. by rewrite Ez. }
  constructor; [by rewrite Ez|by rewrite Ed| | |].
  - destruct Hz as [H1 H2 H3]. constructor; [by rewrite Ed|intros k; unfold get_zone; rewrite Ez; apply H2|]. rewrite Ed. exact H3.
  - intros p. rewrite En. apply Hu.
  - intros p q. rewrite !En. apply Hi.
Qed.

Lemma written_up K pos d s s' ino ino1 ino2 : written pos d s s' ino ino1 → same_zones ino1 ino2 →
  rewritten (size_after pos d ino) ino ino2 → written pos d s (set_up K s') ino ino2.
Proof.
  intros [_ Ht Hb Hf] Hsz Hr. pose proof (tree_ok_up K _ _ _ Hsz Ht) as Ht2. destruct Hsz as [Ez Ed].
  assert (En : ∀ q, node (set_up K s') ino2 q = node s' ino1 q).
  { intros q. unfold FileTree.node, get_zone. by rewrite Ez. }
  constructor; [done|done| |].
  - intros q Hq. rewrite <- (Hb q Hq). pose proof (in_file_block q Hq). unfold file_byte.
    rewrite !block_at_node; [|apply Ht|done|apply Ht2|done]. by rewrite En.
  - intros dev' n' Ho. destruct (Hf _ _ Ho) as [Hv (H1 & H2 & H3)]. split; [exact Hv|]. split_and!; [done|done|].
    intros E. destruct (H3 E) as [H4 H5]. split; [done|]. intros q. rewrite En. apply H5.
Qed.

(** the number of blocks in which [len] bytes from [pos] on lie *)
Definition spanned (pos : Z) (len : nat) : nat := Z.to_nat ((pos mod BLOCK_SIZE + Z.of_nat len + (BLOCK_SIZE - 1)) / BLOCK_SIZE).

Lemma blocks_of_ok pos len : 0 ≤ pos → pos mod BLOCK_SIZE + Z.of_nat len ≤ Z.of_nat (spanned pos len) * BLOCK_SIZE ∧
  (spanned pos len < len / 1024 + 3)%nat.
Proof.
  intros Hp. unfold spanned, BLOCK_SIZE. pose proof (Z.mod_pos_bound pos 1024 ltac:(done)).
  set (a := pos mod 1024) in *. pose proof (Z.div_mod (a + Z.of_nat len + (1024 - 1)) 1024 ltac:(done)) as E.
  pose proof (Z.mod_pos_bound (a + Z.of_nat len + (1024 - 1)) 1024 ltac:(done)).
  pose proof (Z.div_pos (a + Z.of_nat len + (1024 - 1)) 1024 ltac:(lia) ltac:(done)).
  pose proof (Nat.div_mod len 1024 ltac:(done)). pose proof (Nat.mod_upper_bound len 1024 ltac:(done)). lia.
Qed.

(** all of a call, which leaves [m] of the buffers it may take over unused *)
Lemma file_write_run m s filp f ino buf :
  let append := negb (Z.land (f_flags f) O_APPEND =? 0) in
  let pos := if append then s32 (i_size ino) else f_pos f in
  fs_at None (6 * spanned pos (length buf) + m) s → file_at s ino → file_table (up s) !! filp = Some f →
  0 ≤ pos → pos + Z.of_nat (length buf) ≤ MAX_BLOCKS * BLOCK_SIZE → Forall byte_ok buf →
  wp (file_write sync inode filp buf) (λ r s', ∃ d rest ino', buf = d ++ rest ∧ (rest ≠ [] → full x s') ∧
    r = (if decide (d = []) then -1 else Z.of_nat (length d)) ∧ written pos d s s' ino ino' ∧ fs_at None m s' ∧
    i_mtime ino' = u32 (CURRENT_TIME (k_sched (up s))) ∧
    up s' = with_inode inode ino' (if append then up s else moved filp (pos + Z.of_nat (length d)) f (up s))) s.
Proof.
  intros append pos Hfs Hf Hfl Hpos Hmax Hok. unfold file_write.
  apply wp_bind. eapply wp_the_file; [exact Hfl|]. apply wp_bind. eapply wp_the_inode; [apply Hf|]. fold append. fold pos.
  destruct (blocks_of_ok pos (length buf) Hpos) as [Hle Hfu]. set (n := spanned _ _) in *.
  apply wp_bind. eapply wp_mono; [apply (file_write_loop_run m _ n); [exact Hfs|exact Hf|done|done|done|lia|by right]|].
  intros r s1 (d & rest & ino1 & -> & -> & Hfs1 & Hup1 & Hw & Hrest). cbn [fst snd].
  assert (Hi1 : inode_table (up s1) !! inode = Some ino1).
  { rewrite Hup1. cbn. apply list_lookup_insert_eq. eapply lookup_lt_Some, Hf. }
  set (t := u32 (CURRENT_TIME (k_sched (up s)))).
  assert (Hend : ∀ K ino2, K = with_inode inode ino2 (if append then up s else moved filp (pos + Z.of_nat (length d)) f (up s)) →
    (∃ c, ino2 = set_i_ctime c (set_i_mtime t ino1)) →
    wp (mret (if Z.of_nat (length (d ++ rest)) - Z.of_nat (length rest) =? 0 then -1 else Z.of_nat (length (d ++ rest)) - Z.of_nat (length rest)))
      (λ r s', ∃ d' rest' ino', d ++ rest = d' ++ rest' ∧ (rest' ≠ [] → full x s') ∧
        r = (if decide (d' = []) then -1 else Z.of_nat (length d')) ∧ written pos d' s s' ino ino' ∧ fs_at None m s' ∧
        i_mtime ino' = t ∧ up s' = with_inode inode ino' (if append then up s else moved filp (pos + Z.of_nat (length d')) f (up s)))
      (set_up K s1)).
  { intros K ino2 HK [c ->]. apply wp_ret. exists d, rest, (set_i_ctime c (set_i_mtime t ino1)). split; [done|]. split; [exact Hrest|]. split.
    - rewrite length_app, Nat2Z.inj_add, Z.add_simpl_r. destruct d; [done|]. by rewrite decide_False.
    - split; [|split; [|done]].
      + eapply written_up; [exact Hw|by split|]. destruct (wr_same _ _ _ _ _ _ Hw) as (z & c' & m' & fl & ->). by exists z, c, t, fl.
      + apply fs_at_up; [|done]. rewrite HK, Hup1. by destruct append. }
  apply wp_bind. unfold now. apply wp_gets. rewrite Hup1. cbn [k_sched with_inode set_inode_table]. fold t.
  apply wp_bind. eapply wp_upd_inode; [exact Hi1|]. rewrite Hup1. destruct append; cbn [negb when].
  - apply wp_bind, wp_ret. apply (Hend _ (set_i_mtime t ino1)); [by apply with_inode_twice|]. exists (i_ctime ino1). by destruct ino1.
  - apply wp_bind, wp_bind. eapply wp_upd_file; [exact Hfl|]. eapply wp_upd_inode; [cbn; apply list_lookup_insert_eq; rewrite length_insert; eapply lookup_lt_Some, Hf|].
    apply (Hend _ (set_i_ctime t (set_i_mtime t ino1))); [|by exists t].
    unfold with_inode, moved, set_inode_table, set_file_table. cbn. by rewrite !list_insert_insert_eq.
Qed.

Lemma fs_calm m s : fs_at None (S m) s → calm s.
Proof.
  intros Hfs. constructor; [apply Hfs|eapply supply_room, (fa_supply _ _ _ _ _ _ Hfs)|].
  intros i c Hc. by eapply (fa_count _ _ _ _ _ _ Hfs).
Qed.
(** a position that was written can be read *)
Lemma written_block_at s ino q b : file_byte s ino q = Some b → block_at s ino (q / BLOCK_SIZE) ≠ None.
Proof. unfold file_byte. by destruct (block_at s ino (q / BLOCK_SIZE)). Qed.

(** C6. What [file_write] has put into a file [file_read] reads back.  When the
    bytes written are read through another descriptor that stands where they
    begin, the number of bytes read is the number written, and they are the
    first bytes of the buffer; when none could be written nothing is read. *)
Theorem file_write_read s fw fr f g ino buf :
  let append := negb (Z.land (f_flags f) O_APPEND =? 0) in
  let pos := if append then s32 (i_size ino) else f_pos f in
  fs_at None (6 * spanned pos (length buf) + 1) s → file_at s ino →
  file_table (up s) !! fw = Some f → file_table (up s) !! fr = Some g → fw ≠ fr → f_pos g = pos →
  0 ≤ pos → pos + Z.of_nat (length buf) ≤ MAX_BLOCKS * BLOCK_SIZE → Forall byte_ok buf →
  wp (n ← file_write sync inode fw buf; r ← file_read sync inode fr n; mret (n, r))
    (λ r _, ∃ d rest, buf = d ++ rest ∧
       r = if decide (d = []) then (-1, (0, [])) else (Z.of_nat (length d), (Z.of_nat (length d), d))) s.
Proof.
  intros append pos Hfs Hf Hw Hr Hne Hg Hpos Hmax Hok. apply wp_bind.
  eapply wp_mono; [by apply (file_write_run 1)|]. intros r s1 (d & rest & ino1 & -> & _ & -> & Hwr & Hfs1 & _ & Hup).
  fold append pos in Hwr, Hup. clearbody pos append.
  destruct (decide (d = [])) as [->|Hd]; [apply wp_bind, wp_ret, wp_ret; by exists [], rest|].
  assert (Hlen : 0 < Z.of_nat (length d)) by (destruct d; [done|cbn; lia]). rewrite length_app in Hmax.
  pose proof (fs_calm _ _ Hfs1) as Hcalm.
  assert (Hi1 : inode_table (up s1) !! inode = Some ino1).
  { rewrite Hup. cbn. apply list_lookup_insert_eq. destruct append; eapply lookup_lt_Some, Hf. }
  assert (Hr1 : file_table (up s1) !! fr = Some g).
  { rewrite Hup. cbn. destruct append; [done|]. cbn. by rewrite list_lookup_insert_ne. }
  apply wp_bind. eapply wp_mono; [eapply (file_read_run sync s1 inode fr ino1 g); try done; [apply (tr_zones _ _ _ _ (wr_tree _ _ _ _ _ _ Hwr))|lia|lia]|].
  intros r s2 (d2 & [Hb Hle Hshort] & -> & _). apply wp_ret. exists d, rest. split; [done|].
  assert (Hbyte : ∀ k, (k < length d)%nat → file_byte s1 ino1 (pos + Z.of_nat k) = d !! k).
  { intros k Hk. rewrite (wr_byte _ _ _ _ _ _ Hwr) by (unfold in_file; lia). rewrite decide_True by lia. f_equal. lia. }
  subst pos. assert (Hl2 : length d2 = length d).
  { destruct (decide (Z.of_nat (length d2) < Z.of_nat (length d))) as [Hlt|]; [|lia]. exfalso.
    destruct (lookup_lt_is_Some_2 d (length d2) ltac:(lia)) as [b Hb']. rewrite <- Hbyte in Hb' by lia.
    by apply (written_block_at _ _ _ _ Hb'), Hshort. }
  assert (d2 = d) as ->.
  { apply list_eq_same_length with (length d); [done|done|]. intros k v w Hk Hv Hw'. apply Hb in Hv. rewrite Hbyte in Hv by done. congruence. }
  by rewrite !decide_False.
Qed.
End write.

(** ** Concrete input: a file of one block, written across its end, on the small
    file system of [Bitmap], which has one more free zone *)
Definition demo_short : m_inode :=
  mk_inode 0x81a4 0 1024 0 0 1 [5; 0; 0; 0; 0; 0; 0; 0; 0] 0 0 0x101 7 1 false false false false.
Definition demo_filp : file := mk_file 2 0 1 (Some 0%nat) 1000.
Definition demo_write : bstate blk kernel :=
  set_up (set_inode_table [demo_short] (set_file_table [demo_filp] demo_kernel)) demo_fs.
#[local] Opaque demo_fs.

Lemma demo_view_bytes n d : view demo_write 0x101 n = Some d → Forall byte_ok d.
Proof. change (view demo_fs 0x101 n = Some d → Forall byte_ok d). rewrite (proj2 (proj2 (proj2 (proj2 (proj2 demo_fs_ok))))). apply demo_bytes_ok. Qed.

Lemma demo_cores i c : cores demo_fs !! i = Some c → i = 0%nat ∨ (0 < i < 13)%nat ∧ c_count c = 0.
Proof.
  intros Hc. destruct (decide (i = 0%nat)) as [|Hi]; [by left|right].
  pose proof demo_fs_ok as (_ & _ & _ & Hoth & _). assert (i < 13)%nat as Hlt.
  { destruct (demo_cache_ok demo_kernel) as (_ & Hlen & _). rewrite <- Hlen, <- length_cores. rewrite Hoth in Hc by done. by eapply lookup_lt_Some. }
  split; [lia|]. destruct (lookup_clean _ _ (demo_fs_clean i ltac:(lia))) as (c' & Hc' & Hz & _). rewrite Hc in Hc'. by injection Hc' as <-.
Qed.

Lemma demo_fs_at : fs_at 0x101 0 demo_sb None 12 demo_write.
Proof.
  pose proof demo_fs_ok as (Hinv & Hup & Hc0 & Hoth & Hk & _).
  assert (Hfs : fs_at 0x101 0 demo_sb None 12 demo_fs).
  { constructor.
    - exact Hinv.
    - exists (seq 1 12). split; [apply NoDup_seq|]. split; [apply length_seq|]. intros v Hv. apply elem_of_seq in Hv. apply demo_fs_clean. lia.
    - intros j c _ Hc. destruct (demo_cores j c Hc) as [->|[_ ->]]; [|lia]. rewrite Hc0 in Hc. injection Hc as <-. cbn [c_count]. lia.
    - exact demo_super_at.
    - exact demo_maps_ok.
    - intros i c Hc Hpos Hd. destruct (demo_cores i c Hc) as [->|[_ Hz]]; [|lia]. rewrite Hc0 in Hc. injection Hc as <-. discriminate.
    - unfold map_bit. cbn [Z.ltb Z.compare s_zmap demo_sb]. change (Z.to_nat (0 / 8192)) with 0%nat. cbn [lookup list_lookup mbind option_bind].
      rewrite Hc0. reflexivity.
    - intros n (i & bh & c & Hi & Hc & Hd & Hn). assert (bh = 0%nat) as -> by (by eapply Hk). rewrite Hc0 in Hc. injection Hc as <-. cbn in *. lia.
    - cbn. lia. }
  apply fs_at_up; [by rewrite Hup|exact Hfs].
Qed.

Lemma node_hole {D} `{BlockDriver D} dev (s : bstate D kernel) ino k l : get_zone k ino = 0 → node dev s ino (k, l) = 0.
Proof.
  intros Hk. induction l as [|j l IH] using rev_ind; [exact Hk|]. rewrite node_snoc, IH. reflexivity.
Qed.

Lemma demo_node p : valid p → node 0x101 demo_write demo_short p ≠ 0 → p = (0%nat, []).
Proof.
  intros (Hk & _ & Hl) Hn. destruct p as [k l]. cbn [fst snd] in *. destruct k as [|k]; [by destruct l; [|cbn in Hl; lia]|].
  destruct Hn. apply node_hole. unfold get_zone. do 8 (destruct k as [|k]; [reflexivity|]). lia.
Qed.

Lemma demo_tree : tree_ok 0x101 demo_sb demo_write demo_short.
Proof.
  constructor; [reflexivity|reflexivity| | |].
  - constructor; [cbn; lia| |exact demo_view_bytes].
    intros k. unfold get_zone. do 9 (destruct k as [|k]; [cbn; lia|]).
    rewrite list_lookup_total_alt, lookup_ge_None_2 by (cbn; lia). cbn. lia.
  - intros p Hp Hn. rewrite (demo_node p Hp Hn). pose proof demo_fs_ok as (_ & _ & Hc0 & _ & Hk & Hv).
    change (node 0x101 demo_write demo_short (0%nat, [])) with 5. split_and!.
    + change (map_bit (cores demo_fs) (s_zmap demo_sb) 1 = Some true). unfold map_bit. cbn [Z.ltb Z.compare].
      change (s_zmap demo_sb !! Z.to_nat (1 / 8192)) with (Some (Some 0%nat)). cbn iota. rewrite Hc0. reflexivity.
    + intros (i & bh & c & Hi & Hc & Hd & Hn'). change (cores demo_fs !! bh = Some c) in Hc. assert (bh = 0%nat) as -> by (by eapply Hk).
      rewrite Hc0 in Hc. injection Hc as <-. discriminate Hn'.
    + exists (replicate 1024 7). change (view demo_fs 0x101 5 = Some (replicate 1024 7)). rewrite Hv. vm_compute. reflexivity.
  - intros p q Hp Hq Hn E. rewrite (demo_node p Hp Hn). rewrite E in Hn. by rewrite (demo_node q Hq Hn).
Qed.


Definition demo_reader : file := mk_file 1 0 1 (Some 0%nat) 1000.
Definition demo_two : bstate blk kernel := set_up (set_file_table [demo_filp; demo_reader] (up demo_write)) demo_write.

Lemma file_write_read_witness :
  wp (n ← file_write (mret tt) 0 0 (replicate 20 9); r ← file_read (mret tt) 0 1 n; mret (n, r))
    (λ r _, ∃ d rest, replicate 20 9 = d ++ rest ∧
       r = if decide (d = []) then (-1, (0, [])) else (Z.of_nat (length d), (Z.of_nat (length d), d))) demo_two.
Proof.
  apply (file_write_read (mret tt) 0x101 0 demo_sb 0 demo_two 0 1 demo_filp demo_reader demo_short (replicate 20 9)).
  - apply fs_at_weaken with 12%nat; [vm_compute; lia|]. apply fs_at_up; [done|exact demo_fs_at].
  - split; [reflexivity|]. apply tree_ok_up with demo_short; [done|exact demo_tree].
  - reflexivity.
  - reflexivity.
  - done.
  - reflexivity.
  - vm_compute. discriminate.
  - vm_compute. discriminate.
  - apply Forall_replicate. unfold byte_ok. lia.
Defined.
