(* ===== verification/Truncate.v ===== *)
(** * Truncating files

    [truncate] gives back every zone of a file's tree, level by level.  [freed]
    is the state on the way, between two blocks: which places of the tree of
    [FileTree] have been given back and which indirect blocks are being read. *)

From S2P Require Import Prelude Blk DList Buffer BufferQueues BufferCache CacheView Task FsData KernelRules Bitmap Inode FileIO FileView BlockStore BlockFree FileTree FileGrow FileWrite.

(** ** Zone by zone *)
Section freed.
Context {D : Type} `{BlockDriverOk D}.
Abbreviation st := (bstate D kernel).
Context (sync : M st unit) (dev : Z) (sb : nat) (x : super_blk) (s0 : st) (ino : m_inode).
Implicit Types (s : st) (P hs : list path).
Abbreviation kept := (kept x).
Abbreviation nd := (node dev s0 ino).
Context (Ht : tree_ok dev x s0 ino) (Hdev : dev ≠ 0) (Hrange : ∀ q, valid q → nd q ≠ 0 → s_firstdatazone x ≤ nd q < s_nzones x).

(** The zones at the paths [P] of the file have been given back since state
    [s0]; those at [hs] are being looked at. *)
Record freed (k : nat) hs P s : Prop := {
  fr_fs : fs_at dev sb x None k s;
  fr_gone q : q ∈ P → nd q ≠ 0 → zone_bit x s (nd q) = Some false;
  fr_bit z : (∀ q, q ∈ P → nd q ≠ 0 → nd q ≠ z) → zone_bit x s z = zone_bit x s0 z;
  fr_map d n : map_block (cores s) (s_zmap x) d n ↔ map_block (cores s0) (s_zmap x) d n;
  fr_view d n : d ≠ 0 → ¬ map_block (cores s0) (s_zmap x) d n → (d = dev → ∀ q, q ∈ P → nd q ≠ 0 → nd q ≠ n) → view s d n = view s0 d n;
  fr_idle q : valid q → nd q ≠ 0 → q ∉ hs → idle dev (nd q) s;
  fr_valid q : q ∈ P → valid q
}.

Lemma freed_iff k hs P P' s : (∀ q, q ∈ P ↔ q ∈ P') → freed k hs P s → freed k hs P' s.
Proof.
  intros Hpp [H1 H2 H3 H4 H5 H6 H7]. constructor; try done.
  - intros q Hq. by apply H2, Hpp.
  - intros z Hz. apply H3. intros q Hq. by apply Hz, Hpp.
  - intros d n Hd Hn Hz. apply H5; [done..|]. intros E q Hq. by apply Hz, Hpp.
  - intros q Hq. by apply H7, Hpp.
Qed.
(** where there is no zone there is nothing to do *)
Lemma freed_none k hs U P s : (∀ q, q ∈ U → valid q ∧ nd q = 0) → freed k hs P s → freed k hs (U ++ P) s.
Proof.
  intros HU [H1 H2 H3 H4 H5 H6 H7]. constructor; try done.
  - intros q [Hq|Hq]%elem_of_app Hn; [by destruct Hn; apply HU|by apply H2].
  - intros z Hz. apply H3. intros q Hq. apply Hz, elem_of_app. by right.
  - intros d n Hd Hn Hz. apply H5; [done..|]. intros E q Hq. apply Hz; [done|]. apply elem_of_app. by right.
  - intros q [Hq|Hq]%elem_of_app; [by apply HU|by apply H7].
Qed.

(** a zone of the file that has not been given back is as it was *)
Lemma freed_other k hs P s p : freed k hs P s → valid p → p ∉ P → nd p ≠ 0 →
  zone_bit x s (nd p) = Some true ∧ ¬ bitmap_block dev x s (nd p) ∧ ∃ d, view s0 dev (nd p) = Some d ∧ view s dev (nd p) = Some d.
Proof.
  intros [H1 H2 H3 H4 H5 H6 H7] Hp HpP Hn. destruct (tr_used _ _ _ _ Ht p Hp Hn) as (Hb & Hm & d & Hd).
  assert (Hne : ∀ q, q ∈ P → nd q ≠ 0 → nd q ≠ nd p).
  { intros q Hq Hqn E. apply HpP. by rewrite <- (tr_inj _ _ _ _ Ht q p (H7 q Hq) Hp Hqn E). }
  split_and!.
  - by rewrite H3.
  - unfold bitmap_block. by rewrite H4.
  - exists d. split; [done|]. rewrite <- Hd. by apply H5.
Qed.

Lemma freed_limits k hs P s : freed k hs P s → 0 < dev < 65536 ∧ 1 ≤ s_firstdatazone x ∧ s_nzones x ≤ 65536.
Proof. intros Hf. apply (fa_range _ _ _ _ _ _ (fr_fs _ _ _ _ Hf)). Qed.

(** the zone at [p] is given back *)
Lemma free_at k hs P s p : freed k hs P s → valid p → p ∉ P → p ∉ hs → nd p ≠ 0 →
  wp (free_block dev (nd p)) (λ _ s', freed k hs (p :: P) s' ∧ up s' = up s ∧ kept s s') s.
Proof.
  intros Hf Hp HpP Hph Hn. destruct (freed_other _ _ _ _ _ Hf Hp HpP Hn) as (Hb & Hm & d & Hd & Hv).
  pose proof Hf as [H1 H2 H3 H4 H5 H6 H7].
  eapply wp_mono; [apply (free_block_fs dev sb x k s (nd p)); try done; [by apply Hrange|by apply H6]|].
  intros _ s' [Hfs' [Hup Hbit Hmap Hview Hkept Hidle]]. split; [|done]. constructor.
  - done.
  - intros q Hq Hqn. rewrite Hbit. case_decide; [done|]. apply elem_of_cons in Hq as [->|Hq]; [done|by apply H2].
  - intros z Hz. rewrite Hbit. rewrite decide_False by (intros ->; apply (Hz p); [left|done..]). apply H3. intros q Hq. apply Hz. by right.
  - intros d' n. by rewrite Hmap.
  - intros d' n Hd0 Hnm Hz. rewrite Hview; [apply H5; [done..|]|done|by rewrite H4|].
    + intros E q Hq. apply Hz; [done|]. by right.
    + intros [-> ->]. apply (Hz eq_refl p); [left|done..].
  - intros q Hq Hqn Hqh. apply Hidle. by apply H6.
  - intros q [->|Hq]%elem_of_cons; [done|by apply H7].
Qed.

(** an indirect block of the file is read *)
Lemma read_at k hs P s p : freed (S k) hs P s → valid p → p ∉ P → p ∉ hs → nd p ≠ 0 →
  wp (bread sync dev (nd p)) (λ r s', ∃ bh d dt k', r = Some bh ∧ view s0 dev (nd p) = Some d ∧ lent dev x bh (nd p) d dt s' ∧
    left_over k k' dt ∧ freed k' (p :: hs) P s' ∧ up s' = up s ∧ kept s s' ∧ ∃ c, cores s !! bh = Some c ∧ c_count c = 0) s.
Proof.
  intros Hf Hp HpP Hph Hn. destruct (freed_other _ _ _ _ _ Hf Hp HpP Hn) as (Hb & Hm & d & Hd & Hv).
  pose proof Hf as [H1 H2 H3 H4 H5 H6 H7]. pose proof (freed_limits _ _ _ _ Hf) as (Hdr & Hfd & Hnz). pose proof (Hrange p Hp Hn) as Hr.
  eapply wp_mono; [apply (bread_idle sync dev sb x k s (nd p) d); try done; [unfold block_range, dev_range; lia|by rewrite Hb|by apply H6]|].
  intros r s' (bh & dt & k' & -> & Hlent & [Hup Hview Hbit Hmap] & Hfs' & Hleft & Hoth & c & Hc & Hz).
  exists bh, d, dt, k'. split_and!; try done; [| |by exists c].
  - constructor; [done| | | | | |done].
    + intros q Hq Hqn. unfold zone_bit. rewrite Hbit. by apply H2.
    + intros z Hzz. unfold zone_bit. rewrite Hbit. by apply H3.
    + intros d' n. by rewrite Hmap.
    + intros d' n Hd0 Hnm Hzz. rewrite Hview by done. by apply H5.
    + intros q Hq Hqn Hqh j cj Hcj Hdj Hnj. destruct (decide (j = bh)) as [->|Hne].
      * destruct Hlent as [Hc' _]. rewrite Hc' in Hcj. injection Hcj as <-. cbn in Hnj. destruct Hqh.
        rewrite (tr_inj _ _ _ _ Ht p q Hp Hq Hn Hnj). left.
      * rewrite Hoth in Hcj by done. eapply (H6 q); try done. intros Hin. apply Hqh. by right.
  - intros j cj Hcj Hpos Hnm. rewrite Hoth; [done|]. intros ->. rewrite Hc in Hcj. injection Hcj as <-. lia.
Qed.

(** and given up *)
Lemma release_at k k' hs P s p bh d dt : freed k' (p :: hs) P s → valid p → p ∉ P → nd p ≠ 0 → lent dev x bh (nd p) d dt s → left_over k k' dt →
  wp (brelse (Some bh)) (λ _ s', freed (S k) hs P s' ∧ up s' = up s ∧ ∀ j, j ≠ bh → cores s' !! j = cores s !! j) s.
Proof.
  intros Hf Hp HpP Hn Hlent Hleft. destruct (freed_other _ _ _ _ _ Hf Hp HpP Hn) as (Hb & _). pose proof Hf as [H1 H2 H3 H4 H5 H6 H7].
  eapply wp_mono; [eapply brelse_lent; [exact H1|exact Hlent|exact Hleft|by rewrite Hb]|].
  intros _ s' (Hfs' & [Hup Hview Hbit Hmap] & Hoth & Hc'). split; [|done]. constructor; [done| | | | | |done].
  - intros q Hq Hqn. unfold zone_bit. rewrite Hbit. by apply H2.
  - intros z Hzz. unfold zone_bit. rewrite Hbit. by apply H3.
  - intros d' n. by rewrite Hmap.
  - intros d' n Hd0 Hnm Hzz. rewrite Hview by done. by apply H5.
  - intros q Hq Hqn Hqh j cj Hcj Hdj Hnj. destruct (decide (j = bh)) as [->|Hne].
    + rewrite Hc' in Hcj. by injection Hcj as <-.
    + destruct (decide (q = p)) as [->|Hqp].
      * exfalso. destruct Hlent as [Hcl _]. rewrite Hoth in Hcj by done. apply Hne.
        eapply (co_uniq _ (ci_cores _ (fa_inv _ _ _ _ _ _ H1)) dev (nd p)); [done|by exists cj|by eexists].
      * rewrite Hoth in Hcj by done. apply (H6 q Hq Hqn) with j; try done. intros [->|Hin]%elem_of_cons; done.
Qed.
End freed.

Section truncate_tree.
Context {D : Type} `{BlockDriverOk D}.
Abbreviation st := (bstate D kernel).
Context (sync : M st unit) (dev : Z) (sb : nat) (x : super_blk) (s0 : st) (ino : m_inode).
Implicit Types (s : st) (P hs : list path).
Abbreviation kept := (kept x).
Abbreviation nd := (node dev s0 ino).
Abbreviation freed := (freed dev sb x s0 ino).
Context (Ht : tree_ok dev x s0 ino) (Hdev : dev ≠ 0) (Hrange : ∀ q, valid q → nd q ≠ 0 → s_firstdatazone x ≤ nd q < s_nzones x).

(** ** The paths below a path *)
Definition child (p : path) (i : nat) : path := (p.1, p.2 ++ [Z.of_nat i]).
Definition under (p q : path) : Prop := ∃ l, q = (p.1, p.2 ++ l).
(** none of [L] is [p] or below it *)
Definition fresh (p : path) (L : list path) : Prop := ∀ q, under p q → q ∉ L.

Lemma under_refl p : under p p.
Proof. exists []. rewrite app_nil_r. by destruct p. Qed.
Lemma under_child p i q : under (child p i) q → under p q.
Proof. intros [l ->]. exists (Z.of_nat i :: l). cbn. by rewrite <- app_assoc. Qed.
Lemma under_once p i j q : under (child p i) q → under (child p j) q → i = j.
Proof.
  intros [l ->] [l' E]. injection E as E. rewrite <- !app_assoc in E. apply app_inv_head in E. cbn in E.
  injection E as E _. lia.
Qed.
Lemma under_above p i : ¬ under (child p i) p.
Proof.
  intros [l E]. apply (f_equal (λ q : path, length q.2)) in E. cbn in E. rewrite !length_app in E. cbn in E. lia.
Qed.
Lemma under_zero p q : under p q → nd p = 0 → nd q = 0.
Proof.
  intros [l ->] Hz. induction l as [|j l IH] using rev_ind; [rewrite app_nil_r; by destruct p|].
  rewrite app_assoc, node_snoc, IH. reflexivity.
Qed.
Lemma child_valid p i : valid p → ¬ leaf p → (i < 512)%nat → valid (child p i).
Proof.
  unfold valid, leaf, child. cbn. rewrite length_app. cbn. intros (H1 & H2 & H3) Hl Hi. split_and!; [done| |lia].
  apply Forall_app. split; [done|]. constructor; [lia|done].
Qed.
Lemma child_entry p i d : nd p ≠ 0 → view s0 dev (nd p) = Some d → nd (child p i) = get16 d (Z.of_nat i).
Proof.
  intros Hn Hv. destruct p as [a l]. unfold child. cbn [fst snd]. rewrite node_snoc. unfold sub.
  destruct (Z.eqb_spec (nd (a, l)) 0); [done|]. unfold entry_at. by rewrite Hv.
Qed.

(** ** The entries of an indirect block *)

(** what [f] does for entry [i] of the block at [p] *)
Definition frees (f : Z → M st unit) (k : nat) hs (p : path) (U : nat → list path) : Prop := ∀ i P s, (i < 512)%nat →
  freed k (p :: hs) P s → fresh (child p i) P → nd (child p i) ≠ 0 →
  wp (f (nd (child p i))) (λ _ s', freed k (p :: hs) (U i ++ P) s' ∧ up s' = up s ∧ kept s s') s.

Lemma entries_run f k hs p U bh d dt L P s : frees f k hs p U → nd p ≠ 0 → view s0 dev (nd p) = Some d →
  (∀ i q, (i < 512)%nat → q ∈ U i → valid q ∧ under (child p i) q) →
  NoDup L → (∀ i, i ∈ L → (i < 512)%nat ∧ fresh (child p i) P) →
  freed k (p :: hs) P s → lent dev x bh (nd p) d dt s →
  wp (for_each (λ i, b ← the_buf bh; let e := get16 (b_data b) (Z.of_nat i) in when (negb (e =? 0)) (f e)) L)
    (λ _ s', freed k (p :: hs) ((L ≫= U) ++ P) s' ∧ up s' = up s ∧ kept s s') s.
Proof.
  intros Hf Hn Hv HU. revert P s. induction L as [|i L IH]; intros P s HL HP Hfr Hl; cbn [for_each].
  { apply wp_ret. split; [done|]. split; [done|]. by intros j c. }
  apply NoDup_cons in HL as [Hi HL]. destruct (HP i ltac:(left)) as [Hi5 Hfi].
  apply wp_bind. apply wp_mono with (P := λ _ s', freed k (p :: hs) (U i ++ P) s' ∧ up s' = up s ∧ kept s s').
  - apply wp_bind. eapply wp_lent_buf; [exact Hl|]. intros b ->. rewrite <- (child_entry p i d) by done.
    destruct (Z.eqb_spec (nd (child p i)) 0) as [Ez|Ez]; cbn [negb when]; [|by apply Hf].
    apply wp_ret. split; [|by split; [|intros j c]]. apply freed_none; [|done]. intros q Hq.
    destruct (HU i q Hi5 Hq) as [Hvq Hu]. split; [done|]. by eapply under_zero.
  - intros _ s1 (Hfr1 & Hup1 & Hk1). eapply wp_mono; [apply IH; [done| |exact Hfr1|by eapply lent_kept]|].
    + intros j Hj. destruct (HP j ltac:(by right)) as [Hj5 Hfj]. split; [done|]. intros q Hq [HqU|HqP]%elem_of_app; [|by apply (Hfj q)].
      destruct (HU i q Hi5 HqU) as [_ Hu]. rewrite (under_once p i j q) in Hi by done. done.
    + intros _ s2 (Hfr2 & Hup2 & Hk2). split; [|split; [congruence|by eapply kept_trans]].
      eapply freed_iff; [|exact Hfr2]. intros q. rewrite bind_cons, !elem_of_app. tauto.
Qed.

(** [free_ind] and [free_dind] differ in what they do with an entry *)
Definition free_level (f : Z → M st unit) (block : Z) : M st unit :=
  if block =? 0 then mret tt
  else
    p ← bread sync dev block;
    match p with
    | Some bh => for_each_entry bh f ;; brelse (Some bh)
    | None => mret tt
    end ;;
    free_block dev block.

Lemma free_level_run f k hs P s p U : frees f k hs p U → frees f (S k) hs p U → valid p → ¬ leaf p →
  (∀ i q, (i < 512)%nat → q ∈ U i → valid q ∧ under (child p i) q) →
  freed (S k) hs P s → fresh p P → fresh p hs →
  wp (free_level f (nd p)) (λ _ s', freed (S k) hs (p :: (seq 0 512 ≫= U) ++ P) s' ∧ up s' = up s ∧ kept s s') s.
Proof.
  intros Hf Hf' Hp Hlf HU Hfr HP Hhs. unfold free_level. set (L := seq 0 512) in *.
  assert (HL : ∀ i, i ∈ L → (i < 512)%nat) by (intros i Hi; apply elem_of_seq in Hi; lia).
  assert (Hbelow : ∀ q, q ∈ L ≫= U → valid q ∧ under p q ∧ q ≠ p).
  { intros q Hq. apply list_elem_of_bind in Hq as (i & Hq & Hi). destruct (HU i q (HL i Hi) Hq) as [Hvq Hu].
    split; [done|]. split; [by eapply under_child|]. intros ->. by apply under_above in Hu. }
  destruct (Z.eqb_spec (nd p) 0) as [Ez|Hn].
  { apply wp_ret. split; [|by split; [|intros j c]]. apply (freed_none _ _ _ _ _ _ _ (p :: (L ≫= U))); [|done].
    intros q [->|Hq]%elem_of_cons; [done|]. destruct (Hbelow q Hq) as (? & ? & _). split; [done|]. by eapply under_zero. }
  pose proof (under_refl p) as Hpp.
  apply wp_bind. eapply wp_mono; [apply (read_at sync dev sb x s0 ino Ht Hdev Hrange k hs P s p); by auto|].
  intros r s1 (bh & d & dt & k' & -> & Hv & Hl & Hleft & Hfr1 & Hup1 & Hk1 & c & Hc & Hz).
  apply wp_bind, wp_bind. unfold for_each_entry. eapply wp_mono; [apply (entries_run f k' hs p U bh d dt L P); try done|].
  { by destruct Hleft as [->|[-> _]]. }
  { apply NoDup_seq. }
  { intros i Hi. split; [by apply HL|]. intros q Hq. apply HP. by eapply under_child. }
  intros _ s2 (Hfr2 & Hup2 & Hk2).
  assert (HpP : p ∉ (L ≫= U) ++ P) by (intros [Hq|Hq]%elem_of_app; [by destruct (Hbelow p Hq) as (_ & _ & ?)|by apply (HP p)]).
  eapply wp_mono; [apply (release_at dev sb x s0 ino Ht Hdev k k' hs ((L ≫= U) ++ P) s2 p bh d dt); try done; by eapply lent_kept|].
  intros _ s3 (Hfr3 & Hup3 & Hoth3).
  assert (Hk3 : kept s s3).
  { intros j cj Hj Hpos Hnm. rewrite Hoth3; [apply Hk2; [by apply Hk1|done..]|]. intros ->. rewrite Hc in Hj. injection Hj as <-. lia. }
  eapply wp_mono; [apply (free_at dev sb x s0 ino Ht Hdev Hrange (S k) hs ((L ≫= U) ++ P) s3 p); by auto|].
  intros _ s4 (Hfr4 & Hup4 & Hk4). split; [done|]. split; [congruence|]. by eapply kept_trans.
Qed.

(** ** The three levels *)
#[local] Opaque seq.
Definition below1 (p : path) : list path := p :: (seq 0 512 ≫= λ i, [child p i]).
Definition below2 (p : path) : list path := p :: (seq 0 512 ≫= λ i, below1 (child p i)).
(** the first [n] slots of the inode *)
Definition first_slots (n : nat) : list path := (λ i, (i, [])) <$> seq 0 n.

Lemma elem_of_below1 p q : q ∈ below1 p ↔ q = p ∨ ∃ i, (i < 512)%nat ∧ q = child p i.
Proof.
  unfold below1. rewrite elem_of_cons, list_elem_of_bind. split; intros [Hq|(i & H1 & H2)]; [by left| |by left|]; right; exists i.
  - apply list_elem_of_singleton in H1. apply elem_of_seq in H2. split; [lia|done].
  - subst q. split; [by apply list_elem_of_singleton|]. apply elem_of_seq. lia.
Qed.
Lemma elem_of_below2 p q : q ∈ below2 p ↔ q = p ∨ ∃ i, (i < 512)%nat ∧ q ∈ below1 (child p i).
Proof.
  unfold below2. rewrite elem_of_cons, list_elem_of_bind. split; intros [Hq|(i & H1 & H2)]; [by left| |by left|]; right; exists i.
  - apply elem_of_seq in H2. split; [lia|done].
  - split; [done|]. apply elem_of_seq. lia.
Qed.
Lemma elem_of_first_slots n q : q ∈ first_slots n ↔ ∃ i, (i < n)%nat ∧ q = (i, []).
Proof.
  unfold first_slots. rewrite list_elem_of_fmap. split; intros (i & H1 & H2).
  - apply elem_of_seq in H2. exists i. split; [lia|done].
  - exists i. split; [done|]. apply elem_of_seq. lia.
Qed.

Lemma below1_ok p q : valid p → ¬ leaf p → q ∈ below1 p → valid q ∧ under p q.
Proof.
  intros Hp Hl [->|(i & Hi & ->)]%elem_of_below1; [split; [done|apply under_refl]|].
  split; [by apply child_valid|]. eapply under_child, under_refl.
Qed.

Lemma block_frees k hs p : valid p → ¬ leaf p → fresh p hs → frees (free_block dev) k hs p (λ i, [child p i]).
Proof.
  intros Hp Hl Hhs i P s Hi Hfr HP Hn. pose proof (under_refl (child p i)) as Hu.
  apply (free_at dev sb x s0 ino Ht Hdev Hrange); try done; [by apply child_valid|by apply HP|].
  intros [E|Hin]%elem_of_cons; [by apply (under_above p i); rewrite <- E at 2|]. apply (Hhs (child p i)); [by eapply under_child|done].
Qed.

Lemma free_ind_run k hs P s p : valid p → ¬ leaf p → freed (S k) hs P s → fresh p P → fresh p hs →
  wp (free_ind sync dev (nd p)) (λ _ s', freed (S k) hs (below1 p ++ P) s' ∧ up s' = up s ∧ kept s s') s.
Proof.
  intros Hp Hl Hfr HP Hhs. change (free_ind sync dev (nd p)) with (free_level (free_block dev) (nd p)).
  eapply wp_mono; [apply (free_level_run (free_block dev) k hs P s p (λ i, [child p i])); try done; [by apply block_frees..|]|intros ? s' Hs; exact Hs].
  intros i q Hi ->%list_elem_of_singleton. split; [by apply child_valid|apply under_refl].
Qed.

Definition ind : path := (7%nat, []).
Definition dind : path := (8%nat, []).
Lemma ind_valid : valid ind ∧ ¬ leaf ind.
Proof. unfold valid, leaf. cbn. split; [split_and!; [lia|done|lia]|lia]. Qed.
Lemma dind_valid : valid dind ∧ ¬ leaf dind.
Proof. unfold valid, leaf. cbn. split; [split_and!; [lia|done|lia]|lia]. Qed.
Lemma child_dind i : (i < 512)%nat → valid (child dind i) ∧ ¬ leaf (child dind i).
Proof. intros Hi. destruct dind_valid as [Hv Hl]. split; [by apply child_valid|]. unfold leaf. cbn. lia. Qed.

Lemma ind_frees k : frees (free_ind sync dev) (S k) [] dind (λ i, below1 (child dind i)).
Proof.
  intros i P s Hi Hfr HP Hn. destruct (child_dind i Hi). apply free_ind_run; try done.
  intros q Hq ->%list_elem_of_singleton. by apply under_above in Hq.
Qed.

Lemma free_dind_run k P s : freed (S (S k)) [] P s → fresh dind P →
  wp (free_dind sync dev (nd dind)) (λ _ s', freed (S (S k)) [] (below2 dind ++ P) s' ∧ up s' = up s ∧ kept s s') s.
Proof.
  intros Hfr HP. destruct dind_valid as [Hv Hl]. change (free_dind sync dev (nd dind)) with (free_level (free_ind sync dev) (nd dind)).
  eapply wp_mono; [apply (free_level_run (free_ind sync dev) (S k) [] P s dind (λ i, below1 (child dind i))); try done; [apply ind_frees..| |]|intros ? s' Hs; exact Hs].
  - intros i q Hi Hq. destruct (child_dind i Hi). by apply below1_ok.
  - intros q _ Hq. by apply elem_of_nil in Hq.
Qed.

(** every place of the tree is reached *)
Definition places : list path := below2 dind ++ below1 ind ++ first_slots 7.
Lemma places_all q : valid q → q ∈ places.
Proof.
  destruct q as [k l]. intros (Hk & Hl & Hn). cbn [fst snd] in *. unfold places. rewrite !elem_of_app.
  assert (Hj : ∀ j, 0 ≤ j < 512 → ∃ i, (i < 512)%nat ∧ j = Z.of_nat i) by (intros j Hj; exists (Z.to_nat j); lia).
  destruct (decide (k < 7)%nat) as [H7|H7].
  { right; right. apply elem_of_first_slots. exists k. split; [done|]. destruct l; [done|cbn in Hn; lia]. }
  destruct l as [|j l].
  { destruct (decide (k = 7%nat)) as [->|]; [right; left; by apply elem_of_below1; left|].
    assert (k = 8%nat) as -> by lia. left. apply elem_of_below2. by left. }
  apply Forall_cons in Hl as [Hj1 Hl]. destruct (Hj j Hj1) as (i & Hi & ->). cbn [length] in Hn. destruct l as [|j' l].
  - destruct (decide (k = 7%nat)) as [->|]; [right; left|assert (k = 8%nat) as -> by lia; left].
    + apply elem_of_below1. right. by exists i.
    + apply elem_of_below2. right. exists i. split; [done|]. apply elem_of_below1. by left.
  - assert (k = 8%nat) as -> by (cbn in Hn; lia). left. apply elem_of_below2. right. exists i. split; [done|].
    apply Forall_cons in Hl as [Hj2 _]. destruct (Hj j' Hj2) as (i' & Hi' & ->). apply elem_of_below1. right. exists i'. split; [done|].
    destruct l; [done|cbn in Hn; lia].
Qed.

Lemma freed_up k hs P s K : super_block K = super_block (up s) → freed k hs P s → freed k hs P (set_up K s).
Proof. intros E [H1 H2 H3 H4 H5 H6 H7]. constructor; try done. by apply fs_at_up. Qed.

(** ** The slots of the inode *)
Definition cleared (n : nat) : m_inode := set_i_zone (replicate n 0 ++ drop n (i_zone ino)) ino.

Lemma cleared_0 : cleared 0 = ino.
Proof. assert (Hs : ∀ i : m_inode, set_i_zone (i_zone i) i = i) by (by intros []). apply Hs. Qed.
Lemma cleared_zone n i : (n ≤ 9)%nat → (n ≤ i)%nat → get_zone i (cleared n) = get_zone i ino.
Proof.
  intros Hn Hi. unfold get_zone, cleared. cbn. rewrite lookup_total_app_r by (rewrite length_replicate; lia).
  rewrite length_replicate, lookup_total_drop. f_equal. lia.
Qed.
Lemma cleared_S n : (n < 9)%nat → set_zone n 0 (cleared n) = cleared (S n).
Proof.
  intros Hn. unfold set_zone, cleared, set_i_zone. cbn [i_zone i_mode i_uid i_size i_mtime i_gid i_nlinks i_atime i_ctime i_dev i_num i_count i_lock i_dirt i_pipe i_mount].
  f_equal. pose proof (tr_len _ _ _ _ Ht) as Hl.
  rewrite insert_app_r_alt by (rewrite length_replicate; lia). rewrite length_replicate, Nat.sub_diag.
  destruct (drop n (i_zone ino)) as [|z l] eqn:Ed; [apply (f_equal length) in Ed; rewrite length_drop, Hl in Ed; cbn in Ed; lia|].
  rewrite <- (Nat.add_1_r n), <- drop_drop, Ed, replicate_add, <- app_assoc. reflexivity.
Qed.
Lemma cleared_same n : (n < 9)%nat → get_zone n ino = 0 → cleared (S n) = cleared n.
Proof.
  intros Hn Hz. rewrite <- cleared_S by done. unfold set_zone. rewrite list_insert_id; [by destruct (cleared n)|].
  change (u16 0) with 0. rewrite list_lookup_lookup_total_lt; [f_equal; change (get_zone n (cleared n) = 0); by rewrite cleared_zone by lia|].
  unfold cleared. cbn [i_zone set_i_zone]. rewrite length_app, length_replicate, length_drop, (tr_len _ _ _ _ Ht). lia.
Qed.

Lemma cleared_both : set_zone 7 0 (set_zone 8 0 (cleared 7)) = set_i_zone (replicate 9 0) ino.
Proof.
  unfold set_zone, cleared. cbn [i_zone set_i_zone]. pose proof (tr_len _ _ _ _ Ht) as Hl.
  destruct (drop 7 (i_zone ino)) as [|a [|b [|]]] eqn:Ed; apply (f_equal length) in Ed; rewrite length_drop, Hl in Ed; cbn in Ed; try lia.
  reflexivity.
Qed.
#[local] Transparent seq.

(** what [truncate] leaves of the inode at time [t] *)
Definition emptied_inode (t : Z) (i : m_inode) : m_inode :=
  set_i_mtime (u32 t) (set_i_ctime (u32 t) (set_i_dirt true (set_i_size 0 (set_i_zone (replicate 9 0) i)))).

Lemma slots_run k inode : inode_table (up s0) !! inode = Some ino → freed k [] [] s0 →
  wp (for_each (λ i,
      x ← the_inode inode;
      when (negb (get_zone i x =? 0))
        (free_block (i_dev x) (get_zone i x) ;; upd_inode inode (set_zone i 0))) (seq 0 7))
    (λ _ s, freed k [] (first_slots 7) s ∧ up s = with_inode inode (cleared 7) (up s0)) s0.
Proof.
  intros Hi Hfr. apply (wp_for_each _ (λ l s, ∃ n, l = seq n (7 - n) ∧ (n ≤ 7)%nat ∧ freed k [] (first_slots n) s ∧ up s = with_inode inode (cleared n) (up s0))).
  - exists 0%nat. split; [done|]. split; [lia|]. split; [done|]. by rewrite cleared_0, with_inode_same.
  - intros i l s (n & Hl & Hn & Hfn & Hup). assert (Hn7 : (n < 7)%nat) by (destruct (7 - n)%nat eqn:E; [done|lia]).
    replace (7 - n)%nat with (S (7 - S n)) in Hl by lia. injection Hl as -> ->.
    assert (Hin : inode_table (up s) !! inode = Some (cleared n)).
    { rewrite Hup. cbn. apply list_lookup_insert_eq. by eapply lookup_lt_Some. }
    apply wp_bind. eapply wp_the_inode; [exact Hin|]. rewrite cleared_zone by lia.
    assert (Hv : valid (n, [])) by (unfold valid; cbn; split_and!; [lia|done|lia]).
    assert (Hslot : ∀ q, q ∈ (n, []) :: first_slots n ↔ q ∈ first_slots (S n)).
    { intros q. rewrite elem_of_cons, !elem_of_first_slots. split; [intros [->|(i & Hi' & ->)]; [exists n|exists i]; split; done || lia|].
      intros (i & Hi' & ->). destruct (decide (i = n)) as [->|]; [by left|right]. exists i. split; [lia|done]. }
    destruct (Z.eqb_spec (get_zone n ino) 0) as [Ez|Ez]; cbn [negb when].
    + apply wp_ret. exists (S n). split; [done|]. split; [lia|]. split; [|by rewrite cleared_same by lia].
      eapply freed_iff; [exact Hslot|]. apply (freed_none _ _ _ _ _ _ _ [(n, [])]); [|done].
      by intros q ->%list_elem_of_singleton.
    + replace (i_dev (cleared n)) with dev by (symmetry; apply (tr_dev _ _ _ _ Ht)). apply wp_bind.
      eapply wp_mono; [apply (free_at dev sb x s0 ino Ht Hdev Hrange k [] (first_slots n) s (n, [])); try done|].
      * intros (i & Hlt & E)%elem_of_first_slots. injection E as <-. lia.
      * by intros ?%elem_of_nil.
      * intros _ s1 (Hf1 & Hup1 & _). eapply wp_upd_inode; [by rewrite Hup1|]. exists (S n). split; [done|]. split; [lia|].
        split; [by eapply freed_up; [|eapply freed_iff; [exact Hslot|exact Hf1]]|]. cbn [up set_up]. rewrite cleared_S by lia.
        rewrite Hup1, Hup. apply with_inode_twice.
  - intros s (n & Hl & Hn & Hfn & Hup). assert (n = 7%nat) as -> by (destruct (7 - n)%nat eqn:E; [lia|done]). done.
Qed.

Lemma truncate_run k inode : inode_table (up s0) !! inode = Some ino → freed (S (S k)) [] [] s0 →
  wp (truncate sync inode) (λ _ s, if S_ISREG (i_mode ino) || S_ISDIR (i_mode ino)
     then freed (S (S k)) [] places s ∧ up s = with_inode inode (emptied_inode (CURRENT_TIME (k_sched (up s0))) ino) (up s0)
     else s = s0) s0.
Proof.
  intros Hi Hfr. unfold truncate. apply wp_bind. eapply wp_the_inode; [exact Hi|].
  destruct (S_ISREG _ || S_ISDIR _); cbn [negb]; [|by apply wp_ret].
  apply wp_bind. eapply wp_mono; [by apply slots_run|]. intros _ s1 [Hf1 Hup1].
  assert (Hlt : (inode < length (inode_table (up s0)))%nat) by (by eapply lookup_lt_Some).
  assert (Hin : inode_table (up s1) !! inode = Some (cleared 7)) by (rewrite Hup1; cbn; by apply list_lookup_insert_eq).
  assert (Hnew : ∀ p k l, (∃ j, p = (j, []) ∧ (7 ≤ j)%nat) → under p (k, l) → (k, l) ∉ first_slots 7).
  { intros p j l (j' & -> & Hj) [l' E] (i & Hlt' & E')%elem_of_first_slots. injection E as -> _. injection E' as -> _. lia. }
  apply wp_bind. eapply wp_the_inode; [exact Hin|]. rewrite cleared_zone by lia.
  replace (i_dev (cleared 7)) with dev by (symmetry; apply (tr_dev _ _ _ _ Ht)). destruct ind_valid as [Hiv Hil].
  apply wp_bind. eapply wp_mono; [apply (free_ind_run (S k) [] (first_slots 7) s1 ind); try done|].
  { intros [j l] Hu. eapply Hnew; [|exact Hu]. exists 7%nat. split; [done|lia]. }
  { by intros q _ ?%elem_of_nil. }
  intros _ s2 (Hf2 & Hup2 & _). apply wp_bind. eapply wp_the_inode; [by rewrite Hup2|]. rewrite cleared_zone by lia.
  replace (i_dev (cleared 7)) with dev by (symmetry; apply (tr_dev _ _ _ _ Ht)).
  apply wp_bind. eapply wp_mono; [apply (free_dind_run k (below1 ind ++ first_slots 7) s2); try done|].
  { intros [j l] Hu [Hq|Hq]%elem_of_app; [|by eapply (Hnew dind); [exists 8%nat; split; [done|lia]|exact Hu|exact Hq]].
    destruct (below1_ok ind _ Hiv Hil Hq) as [_ [l' E]]. destruct Hu as [l'' E']. injection E as -> _. injection E' as E' _. discriminate E'. }
  intros _ s3 (Hf3 & Hup3 & _). assert (Hup : up s3 = with_inode inode (cleared 7) (up s0)) by congruence.
  assert (Hin3 : inode_table (up s3) !! inode = Some (cleared 7)) by (by rewrite Hup3, Hup2).
  apply wp_bind. eapply wp_upd_inode; [exact Hin3|].
  apply wp_bind. eapply wp_upd_inode; [cbn; apply list_lookup_insert_eq; rewrite Hup; cbn; by rewrite length_insert|].
  apply wp_bind. eapply wp_upd_inode; [cbn; apply list_lookup_insert_eq; rewrite Hup; cbn; by rewrite !length_insert|].
  apply wp_bind. unfold now. apply wp_gets.
  eapply wp_upd_inode; [cbn; apply list_lookup_insert_eq; rewrite Hup; cbn; by rewrite !length_insert|].
  split; [by do 4 (apply freed_up; [done|])|]. cbn [up set_up inode_table k_sched set_inode_table]. rewrite cleared_both, Hup.
  unfold with_inode, set_inode_table. cbn. by rewrite !list_insert_insert_eq.
Qed.
End truncate_tree.

Section truncate.
Context {D : Type} `{BlockDriverOk D}.
Abbreviation st := (bstate D kernel).
Context (sync : M st unit) (dev : Z) (sb : nat) (x : super_blk) (inode : nat).
Implicit Types (s : st) (ino : m_inode).
Abbreviation node := (node dev).
Abbreviation zone_bit := (zone_bit x).

(** the zone [z] is none of the file's *)
Definition not_of s ino (z : Z) : Prop := ∀ q, valid q → node s ino q ≠ 0 → node s ino q ≠ z.

(** Between the two states the file has lost its zones, and nothing else happened. *)
Record truncated s s' ino : Prop := {
  tn_up : up s' = with_inode inode (emptied_inode (CURRENT_TIME (k_sched (up s))) ino) (up s);
  tn_free q : valid q → node s ino q ≠ 0 → zone_bit s' (node s ino q) = Some false;
  tn_bit z : not_of s ino z → zone_bit s' z = zone_bit s z;
  tn_view dev' n' : dev' ≠ 0 → ¬ map_block (cores s) (s_zmap x) dev' n' → (dev' = dev → not_of s ino n') → view s' dev' n' = view s dev' n'
}.

(** C4. [truncate] gives back every zone of a regular file or directory - those
    in the inode, those in the indirect blocks and the indirect blocks
    themselves - and leaves the inode with no zones and size 0, marked to be
    written, its times those of the call.  In the zone bitmap exactly the bits
    of the file's zones have been cleared, and each block that is no bitmap and
    not the file's reads as before; of the rest of the kernel nothing changes, and the cache,
    with all the buffers that could be taken over before, is consistent.  Any
    other inode is left alone.  The zones of the file are within the data of
    the device and nobody else is using them; two free buffers are enough. *)
Theorem truncate_frees k s ino :
  fs_at dev sb x None (S (S k)) s → file_at dev x inode s ino →
  (∀ q, valid q → node s ino q ≠ 0 → s_firstdatazone x ≤ node s ino q < s_nzones x ∧ idle dev (node s ino q) s) →
  wp (truncate sync inode) (λ _ s', fs_at dev sb x None (S (S k)) s' ∧
    if S_ISREG (i_mode ino) || S_ISDIR (i_mode ino) then truncated s s' ino else s' = s) s.
Proof.
  intros Hfs [Hi Ht] Hz. pose proof (fa_range _ _ _ _ _ _ Hfs) as (Hdr & _).
  eapply wp_mono; [apply (truncate_run sync dev sb x s ino Ht ltac:(lia) (λ q Hv Hn, proj1 (Hz q Hv Hn)) k inode Hi)|].
  - constructor; try done; [by intros q ?%elem_of_nil| |by intros q ?%elem_of_nil]. intros q Hv Hn _. by apply Hz.
  - intros ? s'. destruct (_ || _); [|by intros ->]. intros [[H1 H2 H3 H4 H5 H6 H7] Hup]. split; [done|]. constructor; [done| | |].
    + intros q Hv. by apply H2, places_all.
    + intros z Hnz. apply H3. intros q Hq. apply Hnz. by apply H7.
    + intros d n Hd Hm Hnz. apply H5; [done..|]. intros E q Hq. apply Hnz; [done|]. by apply H7.
Qed.
End truncate.

Lemma truncate_frees_witness :
  wp (truncate (mret tt) 0) (λ _ s', fs_at 0x101 0 demo_sb None 12 s' ∧
    if S_ISREG (i_mode demo_short) || S_ISDIR (i_mode demo_short) then truncated 0x101 demo_sb 0 demo_write s' demo_short else s' = demo_write) demo_write.
Proof.
  apply (truncate_frees (mret tt) 0x101 0 demo_sb 0 10 demo_write demo_short).
  - exact demo_fs_at.
  - split; [reflexivity|exact demo_tree].
  - intros q Hv Hn. rewrite (demo_node q Hv Hn). change (node 0x101 demo_write demo_short (0%nat, [])) with 5. split.
    + vm_compute. split; congruence.
    + intros j c Hc Hd Hn'. change (cores demo_fs !! j = Some c) in Hc. destruct (demo_cores j c Hc) as [->|[_ ?]]; [|done].
      pose proof demo_fs_ok as (_ & _ & Hc0 & _). rewrite Hc0 in Hc. injection Hc as <-. discriminate Hn'.
Defined.
