(* ===== verification/DirView.v ===== *)
(** * What directories hold

    [find_entry] searches the entries of a directory in order ([entry_matches]
    is the test at one of them, over the contents of the file), and an entry
    with the name that [add_entry] stores is found under it. *)
From S2P Require Import Prelude Blk DList Buffer BufferQueues BufferCache CacheView Task FsData KernelRules Bitmap Inode FileIO FileView Namei.

Section dir_view.
Context {D : Type} `{BlockDriverOk D}.
Abbreviation st := (bstate D kernel).
Context (sync : M st unit).
Implicit Types (s : st).

(** does entry [j] of the directory [x] have the given name? *)
Definition entry_matches s (x : m_inode) (name : bytes) (namelen : nat) (j : Z) : bool :=
  match block_at s x (j / DIR_ENTRIES_PER_BLOCK) with
  | Some d => match_name namelen name d (j mod DIR_ENTRIES_PER_BLOCK)
  | None => false
  end.

(** the blocks of the directory are there and can be read *)
Definition dir_readable s (x : m_inode) : Prop :=
  ∀ j, 0 ≤ j < i_size x / 16 →
    zone_at s x (j / DIR_ENTRIES_PER_BLOCK) ≠ 0 ∧
    is_Some (view s (i_dev x) (zone_at s x (j / DIR_ENTRIES_PER_BLOCK))).

(** what a search for the entries of [x] up to [entries] gives *)
Definition search_result s x name namelen entries (r : option (nat * Z)) s' : Prop :=
  up s' = up s ∧ same_view s s' ∧
  match r with
  | None => calm s' ∧ ∀ j, 0 ≤ j < entries → entry_matches s x name namelen j = false
  | Some (b, k) => ∃ j d, 0 ≤ j < entries ∧ k = j mod DIR_ENTRIES_PER_BLOCK ∧
      entry_matches s x name namelen j = true ∧
      (∀ j', 0 ≤ j' < j → entry_matches s x name namelen j' = false) ∧
      block_at s x (j / DIR_ENTRIES_PER_BLOCK) = Some d ∧
      held s' b (i_dev x) (zone_at s x (j / DIR_ENTRIES_PER_BLOCK)) d
  end.

Lemma block_at_zone s x b d :
  zone_at s x b ≠ 0 → view s (i_dev x) (zone_at s x b) = Some d → block_at s x b = Some d.
Proof. intros Hne Hd. unfold block_at. by rewrite (proj2 (Z.eqb_neq _ _) Hne). Qed.

(** where the loop stands: the entry [i] to be looked at is number [k] of the
    block in the buffer [b], or the first of the next block *)
Record at_entry s s1 x (i : Z) (b : nat) (k : Z) : Prop := {
  ae_up : up s1 = up s;
  ae_view : same_view s s1;
  ae_k : 0 ≤ k ≤ DIR_ENTRIES_PER_BLOCK;
  ae_i : i = (i - k) / DIR_ENTRIES_PER_BLOCK * DIR_ENTRIES_PER_BLOCK + k;
  ae_held : ∃ d, let blk := (i - k) / DIR_ENTRIES_PER_BLOCK in
    block_at s x blk = Some d ∧ held s1 b (i_dev x) (zone_at s x blk) d
}.

Lemma entry_place i k : 0 ≤ k < DIR_ENTRIES_PER_BLOCK →
  i = (i - k) / DIR_ENTRIES_PER_BLOCK * DIR_ENTRIES_PER_BLOCK + k →
  (i - k) / DIR_ENTRIES_PER_BLOCK = i / DIR_ENTRIES_PER_BLOCK ∧ k = i mod DIR_ENTRIES_PER_BLOCK.
Proof.
  unfold DIR_ENTRIES_PER_BLOCK. intros Hk Hi.
  apply (Z.div_mod_unique 64); [lia|left; by apply Z.mod_pos_bound|]. rewrite <- Z.div_mod by lia. lia.
Qed.

Lemma at_entry_next s s1 x i b k :
  0 ≤ k < DIR_ENTRIES_PER_BLOCK → at_entry s s1 x i b k → at_entry s s1 x (i + 1) b (k + 1).
Proof.
  intros Hk [? ? ? Hi Hd]. constructor; [done|done|lia| |]; replace (i + 1 - (k + 1)) with (i - k) by lia; [lia|done].
Qed.

(** stepping to the next block when the last entry of one has been passed *)
Lemma next_block s s1 dir x i b k Q (m : option (nat * Z) → M st (option (nat * Z))) :
  inode_table (up s) !! dir = Some x → zones_ok s x → i_size x ≤ MAX_BLOCKS * BLOCK_SIZE → dir_readable s x →
  0 ≤ i < i_size x / 16 → at_entry s s1 x i b k →
  (∀ s2 b k, 0 ≤ k < DIR_ENTRIES_PER_BLOCK → at_entry s s2 x i b k → wp (m (Some (b, k))) Q s2) →
  wp (p ← (if DIR_ENTRIES_PER_BLOCK <=? k then
               brelse (Some b) ;;
               block ← bmap sync dir (i / DIR_ENTRIES_PER_BLOCK);
               if block =? 0 then mret None
               else
                 x ← the_inode dir;
                 p ← bread sync (i_dev x) block;
                 mret ((λ b', (b', 0)) <$> p)
             else mret (Some (b, k)));
      m p) Q s1.
Proof.
  intros Hx Hz Hmax Hdir Hi Hat Hm. pose proof Hat as [Hup Hv Hk Hik (d & Hd & Hh)].
  destruct (Z.leb_spec DIR_ENTRIES_PER_BLOCK k); [|apply wp_bind, wp_ret, Hm; [lia|done]].
  assert (k = 64) as -> by (unfold DIR_ENTRIES_PER_BLOCK in *; lia).
  assert (Hi0 : i mod 64 = 0) by (rewrite Hik; unfold DIR_ENTRIES_PER_BLOCK; rewrite Z.add_mod, Z.mod_mul by lia; done).
  assert (Hd0 : i_dev x ≠ 0) by (pose proof (zo_dev _ _ Hz); lia).
  apply wp_bind, wp_bind. eapply (wp_brelse s); [done..|]. intros s2 Hq2. pose proof Hq2 as [Hc2 Hup2 Hv2].
  apply wp_bind. eapply wp_mono; [apply (bmap_run sync s2 dir x); [done|by rewrite Hup2|by eapply zones_ok_view|]|].
  { unfold DIR_ENTRIES_PER_BLOCK, MAX_BLOCKS, BLOCK_SIZE in *. split; [apply Z.div_pos; lia|].
    apply Z.div_lt_upper_bound; [lia|]. pose proof (Z.mul_div_le (i_size x) 16). lia. }
  intros z s3 [-> Hq3]. rewrite (zone_at_view s s2) by done. destruct (Hdir i Hi) as [Hne [e He]].
  rewrite (proj2 (Z.eqb_neq _ _) Hne). pose proof (quiet_trans _ _ _ Hq2 Hq3) as [Hc3 Hup3 Hv3].
  apply wp_bind. eapply wp_the_inode; [by rewrite Hup3|].
  apply wp_bread; [done|eapply zones_range; [done|by apply zone_at_range]|..].
  - intros s4 Hno. rewrite Hv3, He in Hno by done. done.
  - intros s4 b' e' He' Hh4 Hup4 Hv4. rewrite Hv3, He in He' by done. injection He' as <-. apply wp_ret. cbn.
    apply Hm; [done|]. constructor; [congruence|by etransitivity|done|..]; rewrite Z.sub_0_r.
    + pose proof (Z.div_mod i 64). unfold DIR_ENTRIES_PER_BLOCK. lia.
    + exists e. split; [by apply block_at_zone|done].
Qed.

Lemma find_entry_loop_run s dir x name namelen fuel i b k s1 :
  inode_table (up s) !! dir = Some x → zones_ok s x → i_size x ≤ MAX_BLOCKS * BLOCK_SIZE → dir_readable s x →
  0 ≤ i ≤ i_size x / 16 → i_size x / 16 - i < Z.of_nat fuel →
  at_entry s s1 x i b k → (∀ j, 0 ≤ j < i → entry_matches s x name namelen j = false) →
  wp (find_entry_loop sync fuel dir name namelen (i_size x / 16) i (Some b) k)
     (λ r s', search_result s x name namelen (i_size x / 16) r s') s1.
Proof.
  intros Hx Hz Hmax Hdir. revert i b k s1.
  induction fuel as [|fuel IH]; intros i b k s1 Hi Hfuel Hat Hno; [lia|]. cbn [find_entry_loop].
  destruct (Z.leb_spec (i_size x / 16) i).
  { destruct Hat as [Hup Hv _ _ (d & _ & Hh)]. apply wp_bind. eapply (wp_brelse s); [done..|].
    intros s2 [Hc2 Hup2 Hv2]. apply wp_ret. split; [done|]. split; [done|]. split; [done|].
    intros j Hj. apply Hno. lia. }
  eapply (next_block s s1 dir x i b k); try done; [lia|]. clear b k s1 Hat.
  intros s1 b k Hk Hat. pose proof Hat as [Hup Hv _ Hik (d & Hd & Hh)].
  destruct (entry_place i k Hk Hik) as [Hblk Hkm]. cbn zeta in Hd, Hh. rewrite Hblk in Hd, Hh.
  assert (Hmatch : entry_matches s x name namelen i = match_name namelen name d k).
  { unfold entry_matches. by rewrite Hd, Hkm. }
  apply wp_bind. eapply wp_the_held; [done|]. intros b0 ->. rewrite <- Hmatch.
  destruct (entry_matches s x name namelen i) eqn:Hm.
  - apply wp_ret. split; [done|]. split; [done|]. exists i, d. split; [lia|]. done.
  - apply IH; [lia|lia|by apply at_entry_next|]. intros j Hj. destruct (decide (j = i)) as [->|]; [done|].
    apply Hno. lia.
Qed.

Definition is_dotdot (name : bytes) (namelen : nat) : bool :=
  (namelen =? 2)%nat && (get_fs_byte name 0 =? DOT) && (get_fs_byte name 1 =? DOT).

Lemma find_entry_run s (dir : nat) (x : m_inode) (name : bytes) (namelen : nat) :
  calm s → inode_table (up s) !! dir = Some x → zones_ok s x →
  0 ≤ i_size x ≤ MAX_BLOCKS * BLOCK_SIZE → dir_readable s x →
  (0 < namelen)%nat → is_dotdot name namelen = false →
  wp (find_entry sync dir name namelen) (λ r s', r.1 = dir ∧
    search_result s x name (Nat.min namelen NAME_LEN) (i_size x / 16) r.2 s') s.
Proof.
  intros Hc Hx Hz Hmax Hdir Hlen Hdots. unfold find_entry.
  assert ((if (NAME_LEN <? namelen)%nat then NAME_LEN else namelen) = Nat.min namelen NAME_LEN) as ->.
  { destruct (Nat.ltb_spec NAME_LEN namelen); lia. }
  apply wp_bind. eapply wp_the_inode; [done|].
  rewrite (proj2 (Nat.eqb_neq (Nat.min namelen NAME_LEN) 0)) by (unfold NAME_LEN; lia).
  assert ((Nat.min namelen NAME_LEN =? 2)%nat = (namelen =? 2)%nat) as ->.
  { apply eq_true_iff_eq. rewrite !Nat.eqb_eq. unfold NAME_LEN. lia. }
  fold (is_dotdot name namelen). rewrite Hdots. apply wp_bind, wp_ret, wp_bind. eapply wp_the_inode; [done|].
  pose proof (Z.div_pos (i_size x) 16 (proj1 Hmax) ltac:(done)) as Hpos.
  assert (Hzone : zone_at s x 0 = get_zone 0 x) by done.
  assert (Hnone : ∀ s', quiet s s' → i_size x / 16 = 0 →
    search_result s x name (Nat.min namelen NAME_LEN) (i_size x / 16) None s').
  { intros s' [Hc' Hup' Hv'] E. split; [done|]. split; [done|]. split; [done|]. intros j Hj. lia. }
  assert (Hfirst : i_size x / 16 = 0 ∨ get_zone 0 x ≠ 0 ∧ is_Some (view s (i_dev x) (get_zone 0 x))).
  { destruct (decide (i_size x / 16 = 0)); [by left|right]. rewrite <- Hzone. apply (Hdir 0). lia. }
  destruct (Z.eqb_spec (get_zone 0 x) 0).
  { apply wp_ret. split; [done|]. apply Hnone; [by apply quiet_refl|tauto]. }
  apply wp_bread; [done|eapply zones_range; [done|apply Hz]|..].
  - intros s' Hno Hq. apply wp_ret. split; [done|]. apply Hnone; [done|].
    destruct Hfirst as [?|[_ [d Hd]]]; [done|congruence].
  - intros s' b d Hd Hh Hup Hv. apply wp_bind. eapply wp_mono.
    { apply (find_entry_loop_run s dir x); try done; [lia|lia| |intros; lia].
      constructor; [done|done|done|done|]. exists d. split; [|done]. by apply block_at_zone. }
    intros r s2 Hr. by apply wp_ret.
Qed.

(** C32. Searching a readable directory for a name (not "..", and cut to 14
    characters) finds the first entry in use that has the name, and hands out
    the buffer of its block; there is no such entry when nothing is found, and
    all buffers are released then.  The search comes to an end, and changes no
    block and nothing in the kernel. *)
Theorem find_entry_first s (dir : nat) (x : m_inode) (name : bytes) (namelen : nat) :
  calm s → inode_table (up s) !! dir = Some x → zones_ok s x →
  0 ≤ i_size x ≤ MAX_BLOCKS * BLOCK_SIZE → dir_readable s x →
  (0 < namelen)%nat → is_dotdot name namelen = false →
  wp (find_entry sync dir name namelen) (λ r s', r.1 = dir ∧
    search_result s x name (Nat.min namelen NAME_LEN) (i_size x / 16) r.2 s') s.
Proof. apply find_entry_run. Qed.
End dir_view.

(** ** The names of entries *)

(** the first 14 characters of a name are what counts *)
Definition cut_name (name : bytes) (namelen : nat) : bytes := take NAME_LEN (take namelen name).
(** a name of [namelen] characters, as user memory holds it *)
Definition name_ok (name : bytes) (namelen : nat) : Prop :=
  (0 < namelen ≤ length name)%nat ∧ ∀ i, (i < namelen)%nat → get_fs_byte name i ≠ 0.

Lemma cut_length name namelen : name_ok name namelen → length (cut_name name namelen) = Nat.min namelen NAME_LEN.
Proof. intros [Hl _]. unfold cut_name. rewrite !length_take. lia. Qed.
Lemma cut_lookup name namelen i :
  name_ok name namelen → (i < Nat.min namelen NAME_LEN)%nat → cut_name name namelen !! i = Some (get_fs_byte name i).
Proof.
  intros [Hl _] Hi. unfold cut_name, get_fs_byte. rewrite !lookup_take_lt by lia.
  by destruct (lookup_lt_is_Some_2 name i) as [b ->]; [lia|].
Qed.
Lemma length_padded name namelen : length (padded_name name namelen) = NAME_LEN.
Proof. unfold padded_name. by rewrite length_fmap, length_seq. Qed.
Lemma padded_byte name namelen i : (i < NAME_LEN)%nat →
  get_fs_byte (padded_name name namelen) i = if (i <? namelen)%nat then get_fs_byte name i else 0.
Proof.
  intros Hi. unfold padded_name, get_fs_byte at 1. rewrite list_lookup_fmap, lookup_seq_lt by done. done.
Qed.

Lemma padded_cut name namelen : padded_name name (Nat.min namelen NAME_LEN) = padded_name name namelen.
Proof.
  unfold padded_name. apply list_fmap_ext. intros i v Hi. apply lookup_seq in Hi as [-> Hi]. cbn [Nat.add] in *.
  replace (i <? Nat.min namelen NAME_LEN)%nat with (i <? namelen)%nat; [done|]. apply eq_true_iff_eq. rewrite !Nat.ltb_lt. lia.
Qed.
Lemma padded_ok name namelen : Forall byte_ok name → Forall byte_ok (padded_name name namelen).
Proof.
  intros Hn. apply Forall_forall. intros b Hb. unfold padded_name in Hb. apply list_elem_of_fmap in Hb as (i & -> & _).
  destruct (_ <? _)%nat; [|unfold byte_ok; lia]. unfold get_fs_byte. destruct (name !! i) as [b|] eqn:E; cbn; [|unfold byte_ok; lia].
  by eapply Forall_lookup_1.
Qed.

(** what [match] says of a padded name *)
Lemma padded_matches name namelen other olen : name_ok name namelen → name_ok other olen →
  let len := Nat.min olen NAME_LEN in
  ((len < NAME_LEN)%nat → get_fs_byte (padded_name name namelen) len = 0) ∧
  (∀ i, (i < len)%nat → get_fs_byte other i = get_fs_byte (padded_name name namelen) i) ↔
  cut_name other olen = cut_name name namelen.
Proof.
  intros Hn Ho len. set (nlen := Nat.min namelen NAME_LEN).
  assert (Hlt : ∀ i, (i < NAME_LEN)%nat → (i <? namelen)%nat = (i <? nlen)%nat).
  { intros i Hi. apply eq_true_iff_eq. rewrite !Nat.ltb_lt. lia. }
  split.
  - intros [Hend Hall]. assert (len = nlen) as Hlen.
    { apply Nat.le_antisymm.
      - destruct (decide (len ≤ nlen)%nat) as [|Hgt]; [done|]. specialize (Hall nlen ltac:(lia)).
        rewrite padded_byte, Hlt, Nat.ltb_irrefl in Hall by lia. destruct (proj2 Ho nlen); [lia|done].
      - destruct (decide (nlen ≤ len)%nat) as [|Hgt]; [done|]. specialize (Hend ltac:(lia)).
        rewrite padded_byte, Hlt, (proj2 (Nat.ltb_lt len nlen)) in Hend by lia. destruct (proj2 Hn len); [lia|done]. }
    apply list_eq. intros i. destruct (decide (i < len)%nat) as [Hi|Hi].
    + rewrite !cut_lookup by (done || lia). rewrite Hall, padded_byte, Hlt, (proj2 (Nat.ltb_lt i nlen)) by lia. done.
    + rewrite !lookup_ge_None_2 by (rewrite cut_length by done; lia). done.
  - intros E. assert (len = nlen) as Hlen.
    { pose proof (cut_length other olen Ho) as H1. rewrite E, (cut_length name namelen Hn) in H1. done. }
    split.
    + intros Hl. rewrite padded_byte, Hlt, (proj2 (Nat.ltb_ge len nlen)) by lia. done.
    + intros i Hi. rewrite padded_byte, Hlt, (proj2 (Nat.ltb_lt i nlen)) by lia.
      apply (f_equal (lookup i)) in E. rewrite !cut_lookup in E by (done || lia). congruence.
Qed.

Lemma match_name_spec len name d k :
  de_inode d k ≠ 0 → (len ≤ NAME_LEN)%nat →
  match_name len name d k = true ↔
    ((len < NAME_LEN)%nat → get_fs_byte (de_name d k) len = 0) ∧
    (∀ i, (i < len)%nat → get_fs_byte name i = get_fs_byte (de_name d k) i).
Proof.
  intros Hi Hlen. unfold match_name. rewrite (proj2 (Z.eqb_neq _ _) Hi), (proj2 (Nat.ltb_ge NAME_LEN len)) by done.
  cbn [orb]. assert (Hall : forallb (λ i, get_fs_byte name i =? get_fs_byte (de_name d k) i) (seq 0 len) = true ↔
    ∀ i, (i < len)%nat → get_fs_byte name i = get_fs_byte (de_name d k) i).
  { rewrite forallb_forall. split; intros Hf i Hi'; [apply Z.eqb_eq, Hf, in_seq; lia|apply Z.eqb_eq, Hf].
    apply in_seq in Hi'. lia. }
  destruct (Nat.ltb_spec len NAME_LEN); cbn [andb]; [|rewrite Hall; split; [intros ?; split; [lia|done]|by intros [_ ?]]].
  destruct (Z.eqb_spec (get_fs_byte (de_name d k) len) 0) as [E|E]; cbn [negb].
  - rewrite Hall. split; [by intros ?|by intros [_ ?]].
  - split; [done|]. intros [Hz _]. by rewrite Hz in E.
Qed.

Lemma slice_set_byte off len d i v :
  (Z.to_nat i < off ∨ off + len ≤ Z.to_nat i)%nat → slice off len (set_byte d i v) = slice off len d.
Proof.
  intros Hi. unfold slice, set_byte. apply list_eq. intros j. destruct (decide (j < len)%nat).
  - rewrite !lookup_take_lt, !lookup_drop by done. apply list_lookup_insert_ne. lia.
  - by rewrite !lookup_take_ge by lia.
Qed.

(** the two fields of an entry do not get in each other's way *)
Lemma length_set_de_inode k v d : length (set_de_inode k v d) = length d.
Proof. apply length_set16. Qed.
Lemma length_set_de_name k name d : 0 ≤ k → 16 * k + 16 ≤ Z.of_nat (length d) → length name = NAME_LEN → length (set_de_name k name d) = length d.
Proof. intros Hk Hd Hn. unfold set_de_name. apply length_splice. rewrite Hn. unfold NAME_LEN. lia. Qed.
Lemma de_inode_set_inode k v d j : 0 ≤ k → 16 * k + 16 ≤ Z.of_nat (length d) → 0 ≤ v < 2 ^ 16 → 0 ≤ j →
  de_inode (set_de_inode k v d) j = if decide (j = k) then v else de_inode d j.
Proof.
  intros Hk Hd Hv Hj. unfold de_inode, set_de_inode. rewrite u16_id by done. case_decide as E; [subst j; apply get16_set16_eq; lia|].
  apply get16_set16_ne; lia.
Qed.
Lemma de_name_set_inode k v d j : 0 ≤ k → 0 ≤ j → de_name (set_de_inode k v d) j = de_name d j.
Proof. intros Hk Hj. unfold de_name, set_de_inode, set16. rewrite !slice_set_byte; [done|unfold NAME_LEN; lia..]. Qed.
Lemma de_inode_set_name k name d j : 0 ≤ k → 16 * k + 16 ≤ Z.of_nat (length d) → length name = NAME_LEN → 0 ≤ j →
  de_inode (set_de_name k name d) j = de_inode d j.
Proof.
  intros Hk Hd Hn Hj. unfold de_inode, get16, byte_at, set_de_name.
  rewrite !list_lookup_total_alt, !lookup_splice by (rewrite Hn; unfold NAME_LEN; lia).
  rewrite Hn, !decide_False; [done|..]; unfold NAME_LEN; lia.
Qed.
Lemma de_name_set_name k name d j : 0 ≤ k → 16 * k + 16 ≤ Z.of_nat (length d) → length name = NAME_LEN → 0 ≤ j →
  de_name (set_de_name k name d) j = if decide (j = k) then name else de_name d j.
Proof.
  intros Hk Hd Hn Hj. unfold de_name, set_de_name. case_decide as E; [subst j; rewrite <- Hn at 1; apply slice_splice_eq|apply slice_splice_ne];
    rewrite ?Hn; unfold NAME_LEN; lia.
Qed.

Lemma set_de_inode_ok k v d : Forall byte_ok d → Forall byte_ok (set_de_inode k v d).
Proof. apply set16_ok. Qed.
Lemma set_de_name_ok k name d : Forall byte_ok name → Forall byte_ok d → Forall byte_ok (set_de_name k name d).
Proof. intros Hn Hd. unfold set_de_name, splice. apply Forall_app; split; [by apply Forall_take|apply Forall_app; split; [done|by apply Forall_drop]]. Qed.

(** an entry with a padded name is found under that name only *)
Lemma match_padded name namelen other olen d k : name_ok name namelen → name_ok other olen → de_inode d k ≠ 0 → de_name d k = padded_name name namelen →
  match_name (Nat.min olen NAME_LEN) other d k = true ↔ cut_name other olen = cut_name name namelen.
Proof.
  intros Hn Ho Hi Hd. rewrite match_name_spec by (done || unfold NAME_LEN; lia). rewrite Hd. by apply padded_matches.
Qed.

(** An entry stored by [add_entry] with an inode number is found under its
    name, and under another name exactly if the two names agree in their first
    14 characters; the entries beside it are not touched. *)
Theorem entry_found_by_name (d name other : bytes) (namelen olen : nat) (k ino : Z) :
  0 ≤ k → 16 * k + 16 ≤ Z.of_nat (length d) → 0 < ino < 2 ^ 16 →
  name_ok name namelen → name_ok other olen →
  let d' := set_de_name k (padded_name name namelen) (set_de_inode k ino d) in
  (match_name (Nat.min olen NAME_LEN) other d' k = true ↔ cut_name other olen = cut_name name namelen) ∧
  de_inode d' k = ino ∧
  ∀ j, 0 ≤ j → j ≠ k → de_inode d' j = de_inode d j ∧ de_name d' j = de_name d j.
Proof.
  intros Hk Hd Hino Hn Ho d'. assert (Hd' : 16 * k + 16 ≤ Z.of_nat (length (set_de_inode k ino d))) by (by rewrite length_set_de_inode).
  pose proof (length_padded name namelen) as Hp.
  assert (Hk' : de_inode d' k = ino) by (unfold d'; rewrite de_inode_set_name, de_inode_set_inode, decide_True by (done || lia); done).
  split; [|split; [done|]].
  - apply match_padded; [done|done|lia|]. unfold d'. by rewrite de_name_set_name, decide_True by (done || lia).
  - intros j Hj Hne. unfold d'. rewrite de_inode_set_name, de_inode_set_inode, de_name_set_name, de_name_set_inode by (done || lia).
    by rewrite !decide_False by done.
Qed.

Lemma entry_found_by_name_witness :
  let d' := set_de_name 2 (padded_name [97; 98] 2) (set_de_inode 2 9 (replicate 1024 7)) in
  (match_name (Nat.min 2 NAME_LEN) [97; 98] d' 2 = true ↔ cut_name [97; 98] 2 = cut_name [97; 98] 2) ∧
  de_inode d' 2 = 9 ∧
  ∀ j, 0 ≤ j → j ≠ 2 → de_inode d' j = de_inode (replicate 1024 7) j ∧ de_name d' j = de_name (replicate 1024 7) j.
Proof.
  assert (name_ok [97; 98] 2) as Hok.
  { split; [cbn; lia|]. intros i Hi. destruct i as [|[|i]]; [done|done|lia]. }
  apply (entry_found_by_name (replicate 1024 7) [97; 98] [97; 98] 2 2 2 9); try assumption; try lia.
  rewrite length_replicate. lia.
Defined.

(** ** Concrete input: looking for the name "\007\007" in a directory all of
    whose entries are 14 bytes 7 *)
Definition demo_dir : m_inode :=
  mk_inode 0x41ed 0 1040 0 0 2 [3; 5; 0; 0; 0; 0; 0; 0; 0] 0 0 0x101 7 1 false false false false.
Definition demo_dirs : kernel := set_inode_table [demo_dir] demo_kernel.

Lemma find_entry_first_witness :
  wp (find_entry (mret tt) 0 [7; 7] 2) (λ r s', r.1 = 0%nat ∧
    search_result (demo_cache demo_dirs) demo_dir [7; 7] 2 (i_size demo_dir / 16) r.2 s') (demo_cache demo_dirs).
Proof.
  pose proof (proj2 (proj2 (proj2 (proj2 (proj2 (demo_cache_ok demo_dirs)))))) as Hup.
  apply (find_entry_first (mret tt) (demo_cache demo_dirs) 0 demo_dir [7; 7] 2).
  - exact (demo_calm demo_dirs).
  - rewrite Hup. reflexivity.
  - constructor; [cbn; lia| |].
    + intros k. unfold get_zone, demo_dir, i_zone. do 9 (destruct k as [|k]; [cbn; lia|]).
      rewrite list_lookup_total_alt, lookup_ge_None_2 by (cbn; lia). cbn. lia.
    + intros n d. rewrite demo_view by done. apply demo_bytes_ok.
  - unfold MAX_BLOCKS, BLOCK_SIZE. cbn. lia.
  - intros j Hj. change (i_size demo_dir / 16) with 65 in Hj.
    assert (j / DIR_ENTRIES_PER_BLOCK = 0 ∨ j / DIR_ENTRIES_PER_BLOCK = 1) as [->| ->].
    { unfold DIR_ENTRIES_PER_BLOCK. assert (0 ≤ j / 64 < 2); [|lia].
      split; [apply Z.div_pos; lia|apply Z.div_lt_upper_bound; lia]. }
    + split; [done|]. rewrite demo_view by done. vm_compute. eexists. reflexivity.
    + split; [done|]. rewrite demo_view by done. vm_compute. eexists. reflexivity.
  - lia.
  - reflexivity.
Defined.
