(* ===== verification/DirAdd.v ===== *)
(** * Adding directory entries

    [add_entry] against the blocks of a directory: it takes the first entry
    that is free, or makes one at the end ([FileGrow]), and touches no other.
    With [find_entry] as in [DirView] a directory is a map from names to inode
    numbers, and a new entry extends it. *)

From S2P Require Import Prelude Blk DList Buffer BufferQueues BufferCache CacheView Task FsData KernelRules Bitmap Inode FileIO FileView BlockStore FileTree FileGrow FileWrite Namei DirView.

Lemma match_name_ext len name d k d' k' : de_inode d' k' = de_inode d k → de_name d' k' = de_name d k →
  match_name len name d' k' = match_name len name d k.
Proof. intros Hi Hn. unfold match_name. by rewrite Hi, Hn. Qed.

Lemma match_name_cut name namelen other olen d k : name_ok name namelen → name_ok other olen → cut_name other olen = cut_name name namelen →
  match_name (Nat.min olen NAME_LEN) other d k = match_name (Nat.min namelen NAME_LEN) name d k.
Proof.
  intros Hn Ho E. destruct (decide (de_inode d k = 0)) as [Ez|Ez]; [unfold match_name; by rewrite Ez|].
  pose proof (cut_length other olen Ho) as Hl. rewrite E, (cut_length name namelen Hn) in Hl. rewrite <- Hl.
  apply eq_true_iff_eq. rewrite !match_name_spec by (done || lia).
  assert (Hb : ∀ i, (i < Nat.min namelen NAME_LEN)%nat → get_fs_byte other i = get_fs_byte name i).
  { intros i Hi. apply (f_equal (lookup i)) in E. rewrite !cut_lookup in E by (done || lia). congruence. }
  split; intros [H1 H2]; (split; [done|]); intros i Hi; rewrite <- H2 by done; [symmetry|]; by apply Hb.
Qed.

#[local] Opaque padded_name.

(** ** The entries of a directory *)
Section entries.
Context {D : Type} `{BlockDriverOk D}.
Abbreviation st := (bstate D kernel).
Implicit Types (s : st) (ino : m_inode).

(** the inode number in entry [j] *)
Definition entry_ino s ino (j : Z) : Z :=
  match block_at s ino (j / DIR_ENTRIES_PER_BLOCK) with
  | Some d => de_inode d (j mod DIR_ENTRIES_PER_BLOCK)
  | None => 0
  end.

(** what the directory has under a name: the inode number of the first of its
    entries that has it *)
Definition dir_lookup s ino (name : bytes) (namelen : nat) : option Z :=
  entry_ino s ino <$> find (entry_matches s ino name (Nat.min namelen NAME_LEN)) (Z.of_nat <$> seq 0 (Z.to_nat (i_size ino / 16))).

Definition first_entry s ino name namelen (r : option Z) : Prop :=
  match r with
  | Some j => 0 ≤ j < i_size ino / 16 ∧ entry_matches s ino name (Nat.min namelen NAME_LEN) j = true ∧
      ∀ j', 0 ≤ j' < j → entry_matches s ino name (Nat.min namelen NAME_LEN) j' = false
  | None => ∀ j, 0 ≤ j < i_size ino / 16 → entry_matches s ino name (Nat.min namelen NAME_LEN) j = false
  end.

Lemma find_first (f : Z → bool) a n r :
  (match r with
   | Some j => Z.of_nat a ≤ j < Z.of_nat a + Z.of_nat n ∧ f j = true ∧ ∀ j', Z.of_nat a ≤ j' < j → f j' = false
   | None => ∀ j, Z.of_nat a ≤ j < Z.of_nat a + Z.of_nat n → f j = false
   end) → find f (Z.of_nat <$> seq a n) = r.
Proof.
  revert a. induction n as [|n IH]; intros a Hr; cbn; [destruct r; [lia|done]|].
  destruct (f (Z.of_nat a)) eqn:Ef.
  - destruct r as [j|]; [|by rewrite Hr in Ef by lia]. destruct Hr as (Hj & _ & Hno).
    destruct (decide (j = Z.of_nat a)) as [->|]; [done|]. by rewrite Hno in Ef by lia.
  - apply IH. destruct r as [j|]; [|intros j Hj; apply Hr; lia]. destruct Hr as (Hj & Hfj & Hno).
    assert (j ≠ Z.of_nat a) by congruence. split_and!; [lia|lia|done|]. intros j' Hj'. apply Hno. lia.
Qed.

Lemma first_entry_lookup s ino name namelen r : 0 ≤ i_size ino → first_entry s ino name namelen r →
  dir_lookup s ino name namelen = entry_ino s ino <$> r.
Proof.
  intros Hs Hr. unfold dir_lookup. f_equal. apply find_first. pose proof (Z.div_pos (i_size ino) 16 Hs ltac:(done)).
  destruct r as [j|]; unfold first_entry in Hr; rewrite Z2Nat.id by done; [|intros j Hj; apply Hr; lia].
  destruct Hr as (Hj & Hm & Hno). split_and!; [lia|lia|done|intros j' Hj'; apply Hno; lia].
Qed.
Lemma first_entry_of s ino name namelen : 0 ≤ i_size ino → ∃ r, first_entry s ino name namelen r.
Proof.
  intros Hs. set (f := entry_matches s ino name (Nat.min namelen NAME_LEN)).
  assert (Hall : ∀ n, 0 ≤ Z.of_nat n → (∃ j, 0 ≤ j < Z.of_nat n ∧ f j = true ∧ ∀ j', 0 ≤ j' < j → f j' = false) ∨ ∀ j, 0 ≤ j < Z.of_nat n → f j = false).
  { induction n as [|n IH]; intros _; [right; lia|]. destruct (IH ltac:(lia)) as [(j & Hj & ?)|Hno]; [left; exists j; split; [lia|done]|].
    destruct (f (Z.of_nat n)) eqn:Ef; [left; exists (Z.of_nat n); split_and!; [lia|lia|done|done]|right].
    intros j Hj. destruct (decide (j = Z.of_nat n)) as [->|]; [done|]. apply Hno. lia. }
  pose proof (Z.div_pos (i_size ino) 16 Hs ltac:(done)) as Hp. destruct (Hall (Z.to_nat (i_size ino / 16)) ltac:(lia)) as [(j & Hj)|Hno].
  - exists (Some j). rewrite Z2Nat.id in Hj by done. exact Hj.
  - exists None. rewrite Z2Nat.id in Hno by done. exact Hno.
Qed.

(** an entry: its inode number and its name *)
Definition entry s ino (j : Z) : option (Z * bytes) :=
  (λ d, (de_inode d (j mod DIR_ENTRIES_PER_BLOCK), de_name d (j mod DIR_ENTRIES_PER_BLOCK))) <$> block_at s ino (j / DIR_ENTRIES_PER_BLOCK).

Lemma entry_same s s' ino ino' j : entry s' ino' j = entry s ino j →
  entry_ino s' ino' j = entry_ino s ino j ∧ ∀ name len, entry_matches s' ino' name len j = entry_matches s ino name len j.
Proof.
  unfold entry, entry_ino, entry_matches. destruct (block_at s' ino' _), (block_at s ino _); try done. cbn. intros [= E1 E2].
  split; [done|]. intros name len. by apply match_name_ext.
Qed.
Lemma entry_stored s ino j num name namelen other olen : entry s ino j = Some (num, padded_name name namelen) → num ≠ 0 →
  name_ok name namelen → name_ok other olen →
  entry_ino s ino j = num ∧
  (entry_matches s ino other (Nat.min olen NAME_LEN) j = true ↔ cut_name other olen = cut_name name namelen).
Proof.
  unfold entry, entry_ino, entry_matches. destruct (block_at s ino _) as [d|]; [|done]. cbn [fmap option_fmap option_map]. intros E Hnum Hn Ho. injection E as E1 E2.
  split; [done|]. apply match_padded; [done|done|by rewrite E1|done].
Qed.
Lemma entry_matches_cut s ino j name namelen other olen : name_ok name namelen → name_ok other olen → cut_name other olen = cut_name name namelen →
  entry_matches s ino other (Nat.min olen NAME_LEN) j = entry_matches s ino name (Nat.min namelen NAME_LEN) j.
Proof. intros Hn Ho E. unfold entry_matches. destruct (block_at s ino _); [|done]. by apply match_name_cut. Qed.
Lemma entry_zero s ino j name len : entry_ino s ino j = 0 → entry_matches s ino name len j = false.
Proof. unfold entry_ino, entry_matches. destruct (block_at s ino _); [|done]. intros E. unfold match_name. by rewrite E. Qed.

(** a directory of [n] entries, one of which, [j], is new *)
Lemma dir_extended s s' ino ino' n j num name namelen other olen :
  i_size ino = 16 * n → 0 ≤ j ≤ n → i_size ino' = Z.max (16 * n) ((j + 1) * 16) →
  (∀ j', 0 ≤ j' ≤ n → entry s' ino' j' = if decide (j' = j) then Some (num, padded_name name namelen) else entry s ino j') →
  (j < n → entry_ino s ino j = 0) → num ≠ 0 → name_ok name namelen → name_ok other olen → dir_lookup s ino name namelen = None →
  dir_lookup s' ino' other olen = if decide (cut_name other olen = cut_name name namelen) then Some num else dir_lookup s ino other olen.
Proof.
  intros Hs Hj Hs' He Hfree Hnum Hn Ho Hnone. assert (Hsz : i_size ino / 16 = n) by (rewrite Hs, Z.mul_comm; by apply Z.div_mul).
  assert (Hsz' : i_size ino' / 16 = Z.max n (j + 1)).
  { rewrite Hs'. replace (Z.max _ _) with (Z.max n (j + 1) * 16) by lia. by apply Z.div_mul. }
  assert (Hnew : entry s' ino' j = Some (num, padded_name name namelen)) by (by rewrite He, decide_True by lia).
  destruct (entry_stored s' ino' j num name namelen other olen Hnew Hnum Hn Ho) as [Hj1 Hj2].
  assert (Hoth : ∀ j', 0 ≤ j' ≤ n → j' ≠ j → entry_ino s' ino' j' = entry_ino s ino j' ∧
    ∀ nm len, entry_matches s' ino' nm len j' = entry_matches s ino nm len j').
  { intros j' Hj' Hne. apply entry_same. by rewrite He, decide_False by done. }
  assert (Hs0 : 0 ≤ i_size ino) by lia. assert (Hs0' : 0 ≤ i_size ino') by lia.
  destruct (first_entry_of s ino name namelen Hs0) as [[r|] Hr].
  { rewrite (first_entry_lookup _ _ _ _ _ Hs0 Hr) in Hnone. done. }
  unfold first_entry in Hr. rewrite Hsz in Hr. case_decide as Ec.
  - rewrite (first_entry_lookup _ _ _ _ (Some j) Hs0'); [cbn; by rewrite Hj1|]. unfold first_entry. split; [lia|]. split; [by apply Hj2|].
    intros j' Hj'. rewrite (proj2 (Hoth j' ltac:(lia) ltac:(lia))), (entry_matches_cut s ino j' name namelen) by done. apply Hr. lia.
  - assert (Hnj : entry_matches s' ino' other (Nat.min olen NAME_LEN) j = false).
    { destruct (entry_matches s' ino' other _ j) eqn:E; [|done]. by destruct (Ec (proj1 Hj2 eq_refl)). }
    destruct (first_entry_of s ino other olen Hs0) as [[r|] Hro].
    + rewrite (first_entry_lookup s ino _ _ _ Hs0 Hro). unfold first_entry in Hro. rewrite Hsz in Hro. destruct Hro as (Hrr & Hm & Hno).
      assert (r ≠ j) by (intros ->; by rewrite entry_zero in Hm by (apply Hfree; lia)).
      rewrite (first_entry_lookup s' ino' _ _ (Some r) Hs0'); [cbn; by rewrite (proj1 (Hoth r ltac:(lia) ltac:(done)))|].
      unfold first_entry. split; [lia|]. split; [by rewrite (proj2 (Hoth r ltac:(lia) ltac:(done)))|]. intros j' Hj'.
      destruct (decide (j' = j)) as [->|]; [done|]. rewrite (proj2 (Hoth j' ltac:(lia) ltac:(done))). by apply Hno.
    + rewrite (first_entry_lookup s ino _ _ _ Hs0 Hro). unfold first_entry in Hro. rewrite Hsz in Hro.
      rewrite (first_entry_lookup s' ino' _ _ None Hs0'); [done|]. intros j' Hj'.
      destruct (decide (j' = j)) as [->|]; [done|]. rewrite (proj2 (Hoth j' ltac:(lia) ltac:(done))). apply Hro. lia.
Qed.
End entries.

(** ** The loop of [add_entry] *)
Section add.
Context {D : Type} `{BlockDriverOk D}.
Abbreviation st := (bstate D kernel).
Context (sync : M st unit) (dev : Z) (sb : nat) (x : super_blk) (dir : nat).
Implicit Types (s : st) (ino : m_inode).
Abbreviation fs_at := (fs_at dev sb x).
Abbreviation node := (node dev).
Abbreviation tree_ok := (tree_ok dev x).
Abbreviation grown := (grown dev x dir).
Abbreviation file_at := (file_at dev x dir).
Abbreviation revised := (revised dev x).
Abbreviation holds := (holds dev sb x).
Abbreviation EPB := DIR_ENTRIES_PER_BLOCK.

Definition entry_free s ino (j : Z) : bool :=
  match block_at s ino (j / EPB) with Some d => de_inode d (j mod EPB) =? 0 | None => false end.

(** the block [d] of the directory [ino] when its entry [i] has been taken *)
Definition with_name ino (i k : Z) (name : bytes) (namelen : nat) (d : bytes) : bytes :=
  set_de_name k (padded_name name namelen) (if i_size ino <=? i * 16 then set_de_inode k 0 d else d).

Lemma length_with_name ino i k name namelen d : 0 ≤ k < EPB → length d = 1024%nat → length (with_name ino i k name namelen d) = 1024%nat.
Proof.
  unfold EPB. intros Hk Hd. unfold with_name, set_de_name. assert (Hl : ∀ b : bool, length (if b then set_de_inode k 0 d else d) = 1024%nat).
  { intros []; [unfold set_de_inode; by rewrite length_set16|done]. }
  rewrite length_splice; [apply Hl|]. rewrite Hl, length_padded. unfold NAME_LEN. lia.
Qed.

(** the inode of a directory of [n] entries after entry [i] has been taken *)
Definition relisted (i : Z) ino ino' : Prop := same_zones ino ino' ∧ i_size ino' = Z.max (i_size ino) ((i + 1) * 16).

Lemma bufs_up K s : bufs (set_up K s) = bufs s.
Proof. done. Qed.
Lemma put_bufs_up (l : list buffer_head) K s : put_bufs l (set_up K s) = set_up K (put_bufs l s).
Proof. by destruct s. Qed.

Lemma store_entry b n d m s ino i k name namelen (rest : M st (option (nat * Z))) Q :
  holds b n d false m s → inode_table (up s) !! dir = Some ino → 0 ≤ k < EPB → (i + 1) * 16 ≤ i_size ino ∨ i_size ino = i * 16 →
  i_size ino ≤ i * 16 ∨ de_inode d k = 0 →
  (∀ s' ino', holds b n (with_name ino i k name namelen d) true m s' → up s' = with_inode dir ino' (up s) → relisted i ino ino' →
     revised n (with_name ino i k name namelen d) s s' → Q (Some (b, k)) s') →
  wp (y ← the_inode dir;
      t ← now;
      when (i_size y <=? i * 16)
        (put_de (b, k) 0 ;;
         upd_inode dir (λ y, set_i_ctime (u32 t) (set_i_dirt true (set_i_size ((i + 1) * 16) y)))) ;;
      v ← get_de (b, k);
      if v =? 0 then
        upd_inode dir (set_i_mtime (u32 t)) ;;
        put_name (b, k) (padded_name name namelen) ;;
        upd_buf b (set_b_dirt true) ;;
        mret (Some (b, k))
      else rest) Q s.
Proof.
  intros Hh Hi Hk Hsz Hfree HQ. pose proof (holds_length _ _ _ _ _ _ _ _ _ Hh) as Hd.
  pose proof (held_lt _ _ _ _ _ _ _ _ _ Hh) as Hlt. destruct (lookup_lt_is_Some_2 _ _ Hlt) as [b0 Hb0].
  destruct (held_data _ _ _ _ _ _ _ _ _ _ Hh Hb0) as [Hbd _].
  set (t := CURRENT_TIME (k_sched (up s))). set (d1 := with_name ino i k name namelen d) in *.
  assert (Hend : ∀ f ino' s', s' = set_up (with_inode dir ino' (up s)) (put_bufs (alter f b (bufs s)) s) →
    f b0 = set_b_dirt true (set_b_data d1 b0) → relisted i ino ino' → Q (Some (b, k)) s').
  { intros f ino' s' -> Hf Hr. destruct (put_held dev sb x b n d false m s d1 f Hh) as [Hh1 [Hup1 Hv1 Hbit1 Hmap1]].
    { by apply length_with_name. }
    { intros b' Hb'. rewrite Hb0 in Hb'. injection Hb' as <-. exact Hf. }
    apply (HQ _ ino'); [by apply holds_up|done|done|]. constructor; [exact Hv1|exact Hbit1|exact Hmap1]. }
  apply wp_bind. eapply wp_the_inode; [exact Hi|]. apply wp_bind. unfold now. apply wp_gets. fold t.
  unfold put_de, put_name, get_de. cbn [fst snd]. set (P := padded_name name namelen) in *. apply wp_bind. destruct (Z.leb_spec (i_size ino) (i * 16)) as [Hle|Hgt]; cbn [when].
  - assert (Hd1 : d1 = set_de_name k (padded_name name namelen) (set_de_inode k 0 d)) by (unfold d1, with_name; by rewrite (proj2 (Z.leb_le _ _))).
    assert (Hz : de_inode (set_de_inode k 0 d) k = 0).
    { unfold de_inode, set_de_inode. change (u16 0) with 0. apply get16_set16_eq; unfold EPB in *; lia. }
    apply wp_bind, wp_upd_buf; [done|]. eapply wp_upd_inode; [exact Hi|].
    apply wp_bind, wp_bind. eapply wp_the_buf; [change (bufs (set_up ?K ?S)) with (bufs S); rewrite bufs_put, list_lookup_alter, decide_True, Hb0 by done; done|].
    apply wp_ret. cbn [b_data set_b_data]. rewrite Hbd, Hz. cbn [Z.eqb]. apply wp_bind. eapply wp_upd_inode; [cbn; apply list_lookup_insert_eq; by eapply lookup_lt_Some|].
    apply wp_bind, wp_upd_buf; [by rewrite !bufs_up, bufs_put, length_alter|].
    apply wp_bind, wp_upd_buf; [by rewrite bufs_put, length_alter, !bufs_up, bufs_put, length_alter|].
    apply wp_ret. set (ino1 := set_i_ctime (u32 t) (set_i_dirt true (set_i_size ((i + 1) * 16) ino))).
    apply (Hend (set_b_dirt true ∘ ((λ b, set_b_data (set_de_name k P (b_data b)) b) ∘ λ b, set_b_data (set_de_inode k 0 (b_data b)) b)) (set_i_mtime (u32 t) ino1)).
    + rewrite bufs_put, put_put, !bufs_up, bufs_put, !put_bufs_up, put_put, !alter_alter. rewrite <- (with_inode_twice dir ino1). reflexivity.
    + cbn [compose b_data set_b_data]. rewrite Hbd, Hd1. reflexivity.
    + split; [done|]. cbn [ino1 i_size set_i_mtime set_i_ctime set_i_dirt set_i_size]. lia.
  - assert (Hd1 : d1 = set_de_name k P d) by (unfold d1, with_name; by rewrite (proj2 (Z.leb_gt _ _))).
    destruct Hfree as [|Hfree]; [lia|]. destruct Hsz as [Hsz|]; [|lia].
    apply wp_ret, wp_bind, wp_bind. eapply wp_the_buf; [exact Hb0|]. apply wp_ret. rewrite Hbd, Hfree. cbn [Z.eqb].
    apply wp_bind. eapply wp_upd_inode; [exact Hi|].
    apply wp_bind, wp_upd_buf; [done|]. apply wp_bind, wp_upd_buf; [by rewrite bufs_put, length_alter|].
    apply wp_ret. apply (Hend (set_b_dirt true ∘ (λ b, set_b_data (set_de_name k P (b_data b)) b)) (set_i_mtime (u32 t) ino)).
    + rewrite bufs_put, put_put, !bufs_up, !put_bufs_up, !alter_alter. reflexivity.
    + cbn [compose b_data set_b_data]. rewrite Hbd, Hd1. reflexivity.
    + split; [done|]. cbn [i_size set_i_mtime]. lia.
Qed.

(** What [add_entry] comes to when it looks at the entries from [i0] on of a
    directory of [n]: it takes the first that is free, or the one after the last. *)
Definition add_result (m : nat) (n i0 : Z) name namelen s ino (r : option (nat * Z)) s' : Prop :=
  match r with
  | None => fs_at None m s' ∧ full x s'
  | Some (b, k) => ∃ j s1 ino1 ino' d, let z := node s1 ino1 (path_of (j / EPB)) in
      i0 ≤ j ≤ n ∧ k = j mod EPB ∧ (j < n → entry_free s ino j = true) ∧ (∀ j', i0 ≤ j' < j → entry_free s ino j' = false) ∧
      (grown s s1 ino ino1 ∧ z ≠ 0 ∧ block_at s1 ino1 (j / EPB) = Some d ∧ length d = 1024%nat) ∧
      holds b z (with_name ino1 j k name namelen d) true m s' ∧ revised z (with_name ino1 j k name namelen d) s1 s' ∧
      up s' = with_inode dir ino' (up s1) ∧ relisted j ino1 ino'
  end.

Lemma entry_free_grown s s' ino ino' j : tree_ok s ino → grown s s' ino ino' → 0 ≤ j < EPB * MAX_BLOCKS → entry_free s' ino' j = entry_free s ino j.
Proof.
  intros Ht Hg Hj. unfold entry_free. rewrite (grown_block dev x dir s s' ino ino'); [done..|].
  split; [apply Z.div_pos; unfold EPB in *; lia|apply Z.div_lt_upper_bound; unfold EPB in *; lia].
Qed.

Lemma add_result_grown m n i name namelen s s' ino ino' r s2 : tree_ok s ino → grown s s' ino ino' → 0 ≤ i → n < EPB * MAX_BLOCKS →
  add_result m n i name namelen s' ino' r s2 → add_result m n i name namelen s ino r s2.
Proof.
  intros Ht Hg Hi Hn. destruct r as [[b k]|]; [|done]. cbn. intros (j & s1 & ino1 & ino2 & d & Hj & Hk & Hfree & Hno & (Hg1 & Hz & Hd & Hl) & Hrest).
  exists j, s1, ino1, ino2, d. split; [done|]. split; [done|]. split; [|split; [|split; [|done]]].
  - intros Hjn. rewrite <- (entry_free_grown s s' ino ino') by (done || lia). by apply Hfree.
  - intros j' Hj'. rewrite <- (entry_free_grown s s' ino ino') by (done || lia). by apply Hno.
  - split; [by eapply grown_trans|done].
Qed.

Lemma holds_weaken b n d dt m m' s : (m' ≤ m)%nat → holds b n d dt m s → holds b n d dt m' s.
Proof. intros Hle [H1 H2 H3]. constructor; [by eapply fs_at_weaken|done|done]. Qed.

Lemma entry_div blk k i : 0 ≤ k < EPB → i = blk * EPB + k → i / EPB = blk ∧ i mod EPB = k.
Proof. unfold EPB. intros Hk ->. split; [symmetry; apply (Z.div_unique _ 64 blk k); lia|symmetry; apply (Z.mod_unique _ 64 blk k); lia]. Qed.

(** one entry *)
Lemma add_entry_here n name namelen m m' blk b k d s ino i (rest : M st (option (nat * Z))) :
  holds b (node s ino (path_of blk)) d false m s → (m' ≤ m)%nat → file_at s ino → node s ino (path_of blk) ≠ 0 → block_at s ino blk = Some d →
  i_size ino = 16 * n → i ≤ n → 0 ≤ k < EPB → i = blk * EPB + k →
  (i < n → wp rest (add_result m' n (i + 1) name namelen s ino) s) →
  wp (y ← the_inode dir;
      t ← now;
      when (i_size y <=? i * 16)
        (put_de (b, k) 0 ;;
         upd_inode dir (λ y, set_i_ctime (u32 t) (set_i_dirt true (set_i_size ((i + 1) * 16) y)))) ;;
      v ← get_de (b, k);
      if v =? 0 then
        upd_inode dir (set_i_mtime (u32 t)) ;;
        put_name (b, k) (padded_name name namelen) ;;
        upd_buf b (set_b_dirt true) ;;
        mret (Some (b, k))
      else rest) (add_result m' n i name namelen s ino) s.
Proof.
  intros Hh Hm [Hi Ht] Hz Hd Hsz Hin Hk Hik Hrest. destruct (entry_div blk k i Hk Hik) as [Ed Em].
  assert (Hfree : entry_free s ino i = (de_inode d k =? 0)) by (unfold entry_free; by rewrite Ed, Em, Hd).
  destruct (decide (i_size ino ≤ i * 16 ∨ de_inode d k = 0)) as [Hyes|Hno].
  - eapply store_entry; [exact Hh|exact Hi|exact Hk|lia|exact Hyes|]. intros s' ino' Hh' Hup Hr Hrv.
    exists i, s, ino, ino', d. cbn zeta. rewrite Ed. split; [lia|]. split; [done|]. split; [|split; [intros j' Hj'; lia|]].
    { intros Hlt. rewrite Hfree. apply Z.eqb_eq. lia. }
    split; [|by split; [eapply holds_weaken|]]. split; [|split; [done|split; [done|by eapply holds_length]]]. eapply unmoved_grown; [done|done|exact (ho_fs _ _ _ _ _ _ _ _ _ Hh)|apply unmoved_refl].
  - assert (Hne : de_inode d k ≠ 0) by (intros E; apply Hno; by right).
    apply wp_bind. eapply wp_the_inode; [exact Hi|]. apply wp_bind. unfold now. apply wp_gets.
    rewrite (proj2 (Z.leb_gt _ _)) by lia. cbn [when]. apply wp_bind, wp_ret, wp_bind. unfold get_de. cbn [fst snd].
    apply wp_bind. eapply wp_held_buf; [exact Hh|]. intros b0 ->. apply wp_ret. rewrite (proj2 (Z.eqb_neq _ _)) by done.
    eapply wp_mono; [apply Hrest; lia|]. intros [[b' k']|] s'; [|done]. cbn.
    intros (j & s1 & ino1 & ino' & d' & Hj & Hkj & Hfj & Hnj & Hend). exists j, s1, ino1, ino', d'. split; [lia|]. split; [done|]. split; [done|].
    split; [|done]. intros j' Hj'. destruct (decide (j' = i)) as [->|]; [rewrite Hfree; by apply Z.eqb_neq|apply Hnj; lia].
Qed.

Lemma add_entry_loop_run n name namelen m fuel r blk b k d s ino i :
  holds b (node s ino (path_of blk)) d false (6 * r + m) s → file_at s ino → node s ino (path_of blk) ≠ 0 → block_at s ino blk = Some d →
  i_size ino = 16 * n → i ≤ n → 0 ≤ blk → 0 ≤ k ≤ EPB → i = blk * EPB + k → n < blk * EPB + EPB * (Z.of_nat r + 1) → n < EPB * MAX_BLOCKS →
  n - i < Z.of_nat fuel →
  wp (add_entry_loop sync fuel dir name namelen i (Some b) k) (add_result m n i name namelen s ino) s.
Proof.
  revert r blk b k d s ino i. induction fuel as [|fuel IH]; intros r blk b k d s ino i Hh Hf Hz Hd Hsz Hin Hblk Hk Hik Hr Hmax Hfu; [lia|].
  cbn [add_entry_loop]. destruct (Z.leb_spec EPB k) as [Hk64|Hk64].
  2:{ apply wp_bind, wp_ret. eapply (add_entry_here n name namelen (6 * r + m)); [exact Hh|lia|exact Hf|exact Hz|exact Hd|done|done|lia|done|].
      intros Hlt. eapply (IH r); try done; lia. }
  assert (k = EPB) as -> by (unfold EPB in *; lia). clear Hk Hk64. destruct r as [|r]; [unfold EPB in *; lia|].
  pose proof Hf as [Hi Ht]. apply wp_bind, wp_bind. eapply wp_mono; [by eapply brelse_fs|]. intros _ s1 [Hfs1 Hu1].
  assert (Hg1 : grown s s1 ino ino) by (eapply unmoved_grown; [done|done|exact Hfs1|done]).
  assert (Hf1 : file_at s1 ino) by (by eapply grown_file).
  assert (i / EPB = blk + 1) as -> by (subst i; unfold EPB; replace (blk * 64 + 64) with ((blk + 1) * 64) by lia; apply Z.div_mul; done).
  apply wp_bind. eapply wp_mono; [apply (create_block_run sync dev sb x dir _ (S (6 * r + m))); [|exact Hf1|]|].
  { by replace (5 + S (6 * r + m))%nat with (6 * S r + m)%nat by lia. }
  { unfold EPB in *. lia. }
  intros z s2 (Hfs2 & ino2 & Hg2 & -> & Hfull). assert (Hf2 : file_at s2 ino2) by (by eapply grown_file).
  destruct (Z.eqb_spec (node s2 ino2 (path_of (blk + 1))) 0) as [E0|E0].
  { apply wp_ret, wp_ret. split; [by eapply fs_at_weaken; [|exact Hfs2]; lia|by apply Hfull]. }
  apply wp_bind. eapply wp_the_inode; [apply Hf2|]. rewrite (tr_dev _ _ _ _ (proj2 Hf2)).
  assert (Hb1 : 0 ≤ blk + 1 < MAX_BLOCKS) by (unfold EPB in *; lia). destruct (path_of_ok _ Hb1) as [Hvp _].
  apply wp_bind. eapply wp_mono; [by apply (bread_zone sync dev sb x dir (6 * r + m))|]. intros p s3 (bh & e & -> & He & Hh3 & Hu3).
  assert (Hg3 : grown s2 s3 ino2 ino2) by (eapply unmoved_grown; [apply Hf2|apply Hf2|exact (ho_fs _ _ _ _ _ _ _ _ _ Hh3)|done]).
  assert (Hf3 : file_at s3 ino2) by (by eapply grown_file). assert (Hg : grown s s3 ino ino2) by (eapply grown_trans; [|exact Hg3]; by eapply grown_trans).
  pose proof (gw_node _ _ _ _ _ _ _ Hg3 _ Hvp E0) as En.
  assert (Hsz2 : i_size ino2 = 16 * n) by (destruct (gw_same _ _ _ _ _ _ _ Hg) as (? & ? & ? & ->); done).
  assert (He3 : block_at s3 ino2 (blk + 1) = Some e).
  { rewrite (block_at_node dev) by (apply (tr_dev _ _ _ _ (proj2 Hf3)) || done). rewrite decide_False by (by rewrite En).
    rewrite En, (um_view _ _ _ Hu3); [done|]. pose proof (fa_range _ _ _ _ _ _ Hfs1). lia. }
  apply wp_ret. eapply wp_mono; [|intros q s'; apply (add_result_grown m n i name namelen s s3 ino ino2); [done|done|unfold EPB in *; lia|done]].
  rewrite <- En in Hh3, E0. cbn [fmap option_fmap option_map].
  eapply (add_entry_here n name namelen (6 * r + m)); [exact Hh3|lia|exact Hf3|exact E0|exact He3|done|done|unfold EPB; lia|lia|].
  intros Hlt. eapply (IH r (blk + 1)); try done; unfold EPB in *; lia.
Qed.

(** ** The entry gets its inode number, and the buffer is released *)
Lemma revised_trans z d1 d2 s1 s2 s3 : revised z d1 s1 s2 → revised z d2 s2 s3 → revised z d2 s1 s3.
Proof.
  intros [V1 B1 M1] [V2 B2 M2]. constructor.
  - intros d n Hd. rewrite V2 by done. case_decide as E; [done|]. rewrite V1 by done. by rewrite decide_False.
  - intros b. by rewrite B2.
  - intros d n. by rewrite M2.
Qed.
Lemma changed_revised z d s s' : changed dev x z d s s' → revised z d s s'.
Proof. intros [_ Hv Hb Hm]. by constructor. Qed.
Lemma unmoved_revised z d s1 s2 s3 : revised z d s1 s2 → unmoved x s2 s3 → revised z d s1 s3.
Proof.
  intros [V1 B1 M1] [_ V2 B2 M2]. constructor.
  - intros d' n Hd. by rewrite V2, V1.
  - intros b. by rewrite B2.
  - intros d' n. by rewrite M2.
Qed.

Lemma enter_run {A} b k z d num m s (rest : M st A) Q : holds b z d true m s →
  (∀ s', fs_at None m s' → up s' = up s → revised z (set_de_inode k num d) s s' → wp rest Q s') →
  wp (put_de (b, k) num ;; upd_buf b (set_b_dirt true) ;; brelse (Some b) ;; rest) Q s.
Proof.
  intros Hh HQ. pose proof (holds_length _ _ _ _ _ _ _ _ _ Hh) as Hd. unfold put_de. cbn [fst snd].
  assert (Hd' : length (set_de_inode k num d) = 1024%nat) by (by rewrite length_set_de_inode).
  apply wp_bind. eapply (wp_held_write dev sb x b z d m s (set_de_inode k num d)); [exact Hh|done|by intros b' ->|].
  intros s1 Hh1 Hc1. apply wp_bind. eapply wp_held_dirt; [exact Hh1|done|]. intros s2 Hh2 Hc2.
  apply wp_bind. eapply wp_mono; [by eapply brelse_fs|]. intros _ s3 [Hfs3 Hu3]. apply HQ; [done| |].
  - rewrite (um_up _ _ _ Hu3), (ch_up _ _ _ _ _ _ Hc2). apply Hc1.
  - eapply unmoved_revised; [|exact Hu3]. eapply revised_trans; apply changed_revised; [exact Hc1|exact Hc2].
Qed.

(** the directory afterwards *)
Lemma entries_after s s1 s' ino ino1 ino' n j num name namelen d : dev ≠ 0 → file_at s ino → grown s s1 ino ino1 →
  let z := node s1 ino1 (path_of (j / EPB)) in
  z ≠ 0 → block_at s1 ino1 (j / EPB) = Some d → length d = 1024%nat → 0 ≤ j ≤ n → n < EPB * MAX_BLOCKS → 0 ≤ num < 2 ^ 16 →
  revised z (set_de_inode (j mod EPB) num (with_name ino1 j (j mod EPB) name namelen d)) s1 s' → same_zones ino1 ino' →
  ∀ j', 0 ≤ j' ≤ n → entry s' ino' j' = if decide (j' = j) then Some (num, padded_name name namelen) else entry s ino j'.
Proof.
  intros Hdev [_ Ht] Hg z Hz Hd Hl Hj Hn Hnum Hr Hsz j' Hj'. pose proof (gw_tree _ _ _ _ _ _ _ Hg) as Ht1.
  assert (Hblk : ∀ i, 0 ≤ i ≤ n → 0 ≤ i / EPB < MAX_BLOCKS).
  { intros i Hi. split; [apply Z.div_pos; unfold EPB in *; lia|apply Z.div_lt_upper_bound; unfold EPB in *; lia]. }
  assert (Hmod : ∀ i, 0 ≤ i mod EPB < 64) by (intros i; apply Z.mod_pos_bound; done).
  pose proof (Hmod j) as Hk. pose proof (Hmod j') as Hk'. pose proof (Hblk j Hj) as Hbj. pose proof (Hblk j' Hj') as Hbj'.
  pose proof (length_padded name namelen) as Hp. set (P := padded_name name namelen) in *. set (k := j mod EPB) in *. set (k' := j' mod EPB) in *.
  set (d0 := if i_size ino1 <=? j * 16 then set_de_inode k 0 d else d).
  assert (Hl0 : length d0 = 1024%nat) by (unfold d0; destruct (_ <=? _); by rewrite ?length_set_de_inode).
  assert (Hl1 : length (set_de_name k P d0) = 1024%nat) by (rewrite length_set_de_name by (done || lia); done).
  unfold entry. rewrite (revised_block dev x s1 s' ino1 ino' (j / EPB) (set_de_inode k num (set_de_name k P d0)) (j' / EPB)) by done.
  rewrite <- (grown_block dev x dir s s1 ino ino1 (j' / EPB)) by done. fold k k'. destruct (decide (j' / EPB = j / EPB)) as [Eb|Eb].
  - rewrite Eb, Hd. cbn [fmap option_fmap option_map].
    rewrite de_inode_set_inode, de_name_set_inode, de_inode_set_name, de_name_set_name by (done || lia).
    assert (Hkk : k' = k ↔ j' = j).
    { split; [|by intros ->]. intros E. rewrite (Z.div_mod j' EPB), (Z.div_mod j EPB) by done. fold k k'. lia. }
    destruct (decide (k' = k)) as [E|E]; [by rewrite decide_True by tauto|]. rewrite decide_False by tauto.
    unfold d0. destruct (_ <=? _); [|done]. by rewrite de_inode_set_inode, de_name_set_inode, decide_False by (done || lia).
  - rewrite decide_False; [done|]. by intros ->.
Qed.

Lemma add_entry_run n name namelen m r s ino : fs_at None (6 * r + S m) s → file_at s ino → get_zone 0 ino ≠ 0 →
  i_size ino = 16 * n → 0 ≤ n < EPB * MAX_BLOCKS → n < EPB * (Z.of_nat r + 1) → (0 < namelen)%nat →
  wp (add_entry sync dir name namelen) (add_result m n 0 name (Nat.min namelen NAME_LEN) s ino) s.
Proof.
  intros Hfs [Hi Ht] Hz Hsz Hn Hr Hlen. unfold add_entry.
  assert ((if (NAME_LEN <? namelen)%nat then NAME_LEN else namelen) = Nat.min namelen NAME_LEN) as ->.
  { destruct (Nat.ltb_spec NAME_LEN namelen); lia. }
  rewrite (proj2 (Nat.eqb_neq (Nat.min namelen NAME_LEN) 0)) by (unfold NAME_LEN; lia).
  apply wp_bind. eapply wp_the_inode; [exact Hi|]. rewrite (proj2 (Z.eqb_neq _ _) Hz), (tr_dev _ _ _ _ Ht).
  assert (Hb0 : 0 ≤ 0 < MAX_BLOCKS) by (unfold MAX_BLOCKS; lia). destruct (path_of_ok 0 Hb0) as [Hvp _].
  change (get_zone 0 ino) with (node s ino (path_of 0)) in *.
  apply wp_bind. eapply wp_mono; [apply (bread_zone sync dev sb x dir (6 * r + m)); [|done|done|done]|].
  { by rewrite <- Nat.add_succ_r. }
  intros p s1 (bh & d & -> & Hd & Hh & Hu).
  assert (Hg : grown s s1 ino ino) by (eapply unmoved_grown; [done|done|exact (ho_fs _ _ _ _ _ _ _ _ _ Hh)|done]).
  assert (Hf1 : file_at s1 ino) by (by eapply grown_file). pose proof (gw_node _ _ _ _ _ _ _ Hg _ Hvp Hz) as En.
  eapply wp_mono; [|intros q s'; apply (add_result_grown m n 0 name _ s s1 ino ino); [done|done|lia|lia]].
  assert (Hq : i_size ino / 16 = n) by (rewrite Hsz, Z.mul_comm; by apply Z.div_mul).
  eapply (add_entry_loop_run n name _ m _ r 0 bh 0 d s1 ino 0); try done; unfold EPB in *; rewrite ?En; try done; try lia.
  rewrite (block_at_node dev) by (apply (tr_dev _ _ _ _ Ht) || done). rewrite decide_False by (by rewrite En).
  rewrite En, (um_view _ _ _ Hu); [done|]. pose proof (fa_range _ _ _ _ _ _ Hfs). lia.
Qed.

Lemma with_name_ok ino i k name namelen d : Forall byte_ok name → Forall byte_ok d → Forall byte_ok (with_name ino i k name namelen d).
Proof.
  intros Hn Hd. unfold with_name. apply set_de_name_ok; [by apply padded_ok|]. destruct (_ <=? _); [by apply set_de_inode_ok|done].
Qed.

Lemma readable_after s s1 s' ino ino1 ino' n j d3 : dev ≠ 0 → file_at s ino → grown s s1 ino ino1 → dir_readable s ino → tree_ok s' ino' →
  let z := node s1 ino1 (path_of (j / EPB)) in
  z ≠ 0 → 0 ≤ j ≤ n → n < EPB * MAX_BLOCKS → i_size ino = 16 * n → i_size ino' = Z.max (16 * n) ((j + 1) * 16) →
  revised z d3 s1 s' → same_zones ino1 ino' → dir_readable s' ino'.
Proof.
  intros Hdev [_ Ht] Hg Hread Ht' z Hz Hj Hn Hs Hs' Hr Hsz j' Hj'. pose proof (gw_tree _ _ _ _ _ _ _ Hg) as Ht1.
  assert (Hblk : ∀ i, 0 ≤ i ≤ n → 0 ≤ i / EPB < MAX_BLOCKS).
  { intros i Hi. split; [apply Z.div_pos; unfold EPB in *; lia|apply Z.div_lt_upper_bound; unfold EPB in *; lia]. }
  assert (Hn' : i_size ino' / 16 = Z.max n (j + 1)).
  { rewrite Hs'. replace (Z.max _ _) with (Z.max n (j + 1) * 16) by lia. by apply Z.div_mul. }
  pose proof (Hblk j Hj) as Hbj. pose proof (Hblk j' ltac:(lia)) as Hbj'. destruct (path_of_ok _ Hbj) as [Hvj Hlj]. destruct (path_of_ok _ Hbj') as [Hvj' _].
  rewrite (zone_at_node dev) by (apply (tr_dev _ _ _ _ Ht') || done). rewrite (tr_dev _ _ _ _ Ht').
  assert (Hne : node s' ino' (path_of (j' / EPB)) ≠ 0); [|split; [done|]; destruct (tr_used _ _ _ _ Ht' _ Hvj' Hne) as (_ & _ & d & Hd); by exists d].
  rewrite (revised_node dev x s1 s' ino1 ino' (path_of (j / EPB)) d3) by done.
  destruct (decide (j' / EPB = j / EPB)) as [->|Eb]; [done|]. assert (j' ≠ j) by (by intros ->).
  destruct (Hread j') as [Hz' _]; [rewrite Hs, Z.mul_comm, Z.div_mul by done; lia|].
  rewrite (zone_at_node dev) in Hz' by (apply (tr_dev _ _ _ _ Ht) || done). by rewrite (gw_node _ _ _ _ _ _ _ Hg).
Qed.

(** the directory [ino], which had [n] entries, with entry [j] for a new name *)
Record entered (n j num : Z) name namelen s s' ino ino' : Prop := {
  en_file : file_at s' ino';
  en_size : i_size ino' = Z.max (16 * n) ((j + 1) * 16);
  en_readable : dir_readable s' ino';
  en_new : 0 ≤ j ≤ n ∧ (j < n → entry_ino s ino j = 0);
  en_entry j' : 0 ≤ j' ≤ n → entry s' ino' j' = if decide (j' = j) then Some (num, padded_name name namelen) else entry s ino j'
}.

Lemma entered_run {A} n num name namelen m s s1 ino de (rest : M st A) Q : 0 < dev < 65536 → file_at s ino → dir_readable s ino →
  i_size ino = 16 * n → 0 ≤ n < EPB * MAX_BLOCKS → Forall byte_ok name → 0 ≤ num < 2 ^ 16 →
  add_result m n 0 name (Nat.min namelen NAME_LEN) s ino (Some de) s1 →
  (∀ s' ino' j, fs_at None m s' → entered n j num name namelen s s' ino ino' → wp rest Q s') →
  wp (put_de de num ;; upd_buf de.1 (set_b_dirt true) ;; brelse (Some de.1) ;; rest) Q s1.
Proof.
  intros Hdr Hf Hread Hsz Hn Hbytes Hnum Hres HQ. assert (Hdev : dev ≠ 0) by lia.
  destruct de as [b k]. destruct Hres as (j & s2 & ino2 & ino' & d & Hj & -> & Hfree & _ & (Hg & Hz & Hd & Hl) & Hh & Hr & Hup & Hsame & Hsize).
  set (z := node s2 ino2 (path_of (j / EPB))) in *.
  replace (with_name ino2 j (j mod EPB) name (Nat.min namelen NAME_LEN) d) with (with_name ino2 j (j mod EPB) name namelen d) in * by (unfold with_name; by rewrite padded_cut).
  set (W := with_name _ _ _ _ _ _) in *. pose proof (gw_tree _ _ _ _ _ _ _ Hg) as Ht2.
  assert (Hs2 : i_size ino2 = i_size ino) by (destruct (gw_same _ _ _ _ _ _ _ Hg) as (? & ? & ? & ->); done).
  assert (Hbj : 0 ≤ j / EPB < MAX_BLOCKS).
  { split; [apply Z.div_pos; unfold EPB in *; lia|apply Z.div_lt_upper_bound; unfold EPB in *; lia]. }
  destruct (path_of_ok _ Hbj) as [Hvj Hlj].
  assert (Hdb : Forall byte_ok d).
  { rewrite (block_at_node dev) in Hd by (apply (tr_dev _ _ _ _ Ht2) || done). rewrite decide_False in Hd by done.
    eapply (zo_bytes _ _ (tr_zones _ _ _ _ Ht2)); by rewrite (tr_dev _ _ _ _ Ht2). }
  eapply enter_run; [exact Hh|]. intros s4 Hfs4 Hup4 Hr4. pose proof (revised_trans _ _ _ _ _ _ Hr Hr4) as Hrv.
  assert (Hf2 : file_at s2 ino2) by (by eapply grown_file).
  assert (Ht4 : tree_ok s4 ino') by (eapply (revised_tree dev x s2 s4 ino2 ino'); try done; by apply set_de_inode_ok, with_name_ok).
  assert (Hsize' : i_size ino' = Z.max (16 * n) ((j + 1) * 16)) by (rewrite Hsize, Hs2, <- Hsz; done).
  apply (HQ s4 ino' j Hfs4). constructor; [|done| | |].
  - split; [|done]. rewrite Hup4, Hup. cbn. apply list_lookup_insert_eq. eapply lookup_lt_Some, Hf2.
  - eapply (readable_after s s2 s4 ino ino2 ino' n j _ Hdev Hf Hg Hread Ht4 Hz); [lia|lia|done|done|exact Hrv|done].
  - split; [lia|]. intros Hlt. specialize (Hfree Hlt). unfold entry_free in Hfree. unfold entry_ino.
    destruct (block_at s ino _); [by apply Z.eqb_eq|done].
  - by apply (entries_after s s2 s4 ino ino2 ino' n j num name namelen d Hdev Hf Hg Hz Hd Hl); try lia.
Qed.

(** C7. A directory is a map from names to inode numbers, and entering a name
    extends it: after [add_entry] has found an entry for a name that was not in
    the directory, and the caller has put an inode number into it and released
    the buffer, as [sys_link] and the others do, [find_entry] finds that number
    under every name that agrees with it in the first 14 characters, and under
    every other name what it found before - whether the entry was free, the
    first after the last one, or in a block that had to be made.  [add_entry]
    fails only when no zone of the device is left.  Enough buffers must be
    free: six for every block of the directory. *)
Theorem new_name_found s ino name namelen other olen num :
  let n := i_size ino / 16 in
  fs_at None (6 * Z.to_nat (n / EPB) + 2) s → file_at s ino → dir_readable s ino → get_zone 0 ino ≠ 0 →
  i_size ino = 16 * n → 0 ≤ n < EPB * MAX_BLOCKS →
  name_ok name namelen → Forall byte_ok name → name_ok other olen → is_dotdot other olen = false → 0 < num < 2 ^ 16 →
  dir_lookup s ino name namelen = None →
  wp (r ← add_entry sync dir name namelen;
      match r with
      | None => mret None
      | Some de =>
        put_de de num ;;
        upd_buf de.1 (set_b_dirt true) ;;
        brelse (Some de.1) ;;
        f ← find_entry sync dir other olen;
        match f.2 with
        | None => mret (Some None)
        | Some de => v ← get_de de; mret (Some (Some v))
        end
      end)
    (λ r s', match r with
     | None => full x s'
     | Some v => v = if decide (cut_name other olen = cut_name name namelen) then Some num else dir_lookup s ino other olen
     end) s.
Proof.
  intros n Hfs Hf Hread Hz0 Hsz Hn Hname Hbytes Hother Hdots Hnum Hnone.
  pose proof (fa_range _ _ _ _ _ _ Hfs) as (Hdr & _).
  apply wp_bind. eapply wp_mono; [apply (add_entry_run n name namelen 1 (Z.to_nat (n / EPB)) s ino); try done|].
  { pose proof (Z.div_pos n EPB ltac:(lia) ltac:(done)). pose proof (Z.div_mod n EPB ltac:(done)). pose proof (Z.mod_pos_bound n EPB ltac:(done)).
    unfold EPB in *. lia. }
  { apply Hname. }
  intros [de|] s1 Hres; [|apply wp_ret; apply Hres].
  eapply (entered_run n num name namelen 1 s s1 ino); try done; [lia|]. intros s4 ino' j Hfs4 [[Hi4 Ht4] Hsize Hread4 [Hj Hfree] Hent].
  apply wp_bind. eapply wp_mono; [apply (find_entry_run sync s4 dir ino' other olen); try done|].
  { by eapply fs_calm. }
  { apply Ht4. }
  { unfold BLOCK_SIZE, EPB in *. lia. }
  { apply Hother. }
  rewrite <- (dir_extended s s4 ino ino' n j num name namelen other olen) by (done || lia). assert (Hs4 : 0 ≤ i_size ino') by lia.
  intros q s5 [_ (Hup5 & Hv5 & Hq)]. destruct (q.2) as [[b' k']|].
  - destruct Hq as (j' & d' & Hj' & -> & Hm & Hno & Hd' & Hheld). apply wp_bind. unfold get_de. cbn [fst snd].
    apply wp_bind. eapply wp_the_held; [exact Hheld|]. intros b0 ->. apply wp_ret, wp_ret.
    rewrite (first_entry_lookup s4 ino' other olen (Some j') Hs4) by done. cbn [fmap option_fmap option_map]. unfold entry_ino. by rewrite Hd'.
  - apply wp_ret. by rewrite (first_entry_lookup s4 ino' other olen None Hs4 (proj2 Hq)).
Qed.
End add.

(** ** Concrete input: a directory of 63 entries in block 5 of the small file
    system of [Bitmap], which are all in use, is given a last one *)
Definition demo_full_dir : m_inode :=
  mk_inode 0x41ed 0 1008 0 0 2 [5; 0; 0; 0; 0; 0; 0; 0; 0] 0 0 0x101 7 1 false false false false.
Definition demo_dir_st : bstate blk kernel := set_up (set_inode_table [demo_full_dir] (up demo_write)) demo_write.

Lemma new_name_found_witness :
  wp (r ← add_entry (mret tt) 0 [97; 98] 2;
      match r with
      | None => mret None
      | Some de =>
        put_de de 9 ;;
        upd_buf de.1 (set_b_dirt true) ;;
        brelse (Some de.1) ;;
        f ← find_entry (mret tt) 0 [97; 98] 2;
        match f.2 with
        | None => mret (Some None)
        | Some de => v ← get_de de; mret (Some (Some v))
        end
      end)
    (λ r s', match r with
     | None => full demo_sb s'
     | Some v => v = if decide (cut_name [97; 98] 2 = cut_name [97; 98] 2) then Some 9 else dir_lookup demo_dir_st demo_full_dir [97; 98] 2
     end) demo_dir_st.
Proof.
  assert (Hv : view demo_dir_st 0x101 5 = Some (replicate 1024 7)).
  { pose proof demo_fs_ok as (_ & _ & _ & _ & _ & Hv). change (view demo_fs 0x101 5 = Some (replicate 1024 7)). rewrite Hv. vm_compute. reflexivity. }
  assert (Hok : name_ok [97; 98] 2) by (split; [cbn; lia|intros [|[|i]] Hi; [done|done|lia]]).
  assert (Hj : ∀ j, 0 ≤ j < 63 → j / DIR_ENTRIES_PER_BLOCK = 0) by (intros j Hj; apply Z.div_small; unfold DIR_ENTRIES_PER_BLOCK; lia).
  apply (new_name_found (mret tt) 0x101 0 demo_sb 0 demo_dir_st demo_full_dir [97; 98] 2 [97; 98] 2 9).
  - apply fs_at_weaken with 12%nat; [vm_compute; lia|]. apply fs_at_up; [done|exact demo_fs_at].
  - split; [reflexivity|]. apply tree_ok_up with demo_short; [done|exact demo_tree].
  - intros j Hj'. change (i_size demo_full_dir / 16) with 63 in Hj'. rewrite Hj by done. split; [done|].
    exists (replicate 1024 7). exact Hv.
  - done.
  - reflexivity.
  - vm_compute. split; congruence.
  - exact Hok.
  - repeat constructor; unfold byte_ok; lia.
  - exact Hok.
  - reflexivity.
  - lia.
  - unfold dir_lookup. change (i_size demo_full_dir / 16) with 63.
    assert (Hb : block_at demo_dir_st demo_full_dir 0 = Some (replicate 1024 7)) by exact Hv.
    rewrite (find_first _ 0 (Z.to_nat 63) None); [done|]. intros j Hj'. unfold entry_matches. rewrite Hj, Hb by lia.
    rewrite Z.mod_small by (unfold DIR_ENTRIES_PER_BLOCK; lia).
    assert (Hall : forallb (λ i, negb (match_name 2 [97; 98] (replicate 1024 7) (Z.of_nat i))) (seq 0 63) = true) by (vm_compute; reflexivity).
    rewrite forallb_forall in Hall. specialize (Hall (Z.to_nat j)). rewrite Z2Nat.id in Hall by lia. apply negb_true_iff, Hall, in_seq. lia.
Defined.
