(* ===== verification/Pipe.v ===== *)
(** * Pipes

    Models [linux-0.11/fs/pipe.c].  A pipe is an inode whose [i_size] is the
    address of a page of memory, whose first zone is the offset at which to
    write and whose second is the offset at which to read.

    A task that has to wait sleeps while [others] - the other tasks - run. *)

From S2P Require Import Prelude Blk Buffer Memory Task Signal FsData Bitmap Inode.

Definition PIPE_HEAD (x : m_inode) : Z := get_zone 0 x.
Definition PIPE_TAIL (x : m_inode) : Z := get_zone 1 x.
Definition PIPE_SIZE (x : m_inode) : Z := Z.land (PIPE_HEAD x - PIPE_TAIL x) (PAGE_SIZE - 1).

Section pipe.
Context {D : Type} `{BlockDriver D}.
Abbreviation st := (bstate D kernel).
Context (sync_below others : M st unit).

Fixpoint read_pipe_loop (fuel : nat) (inode : nat) (count : Z) (acc : bytes) : M st bytes :=
  match fuel with
  | O => nofuel
  | S fuel' =>
    if count <=? 0 then mret acc
    else
      x ← the_inode inode;
      let size := PIPE_SIZE x in
      if size =? 0 then
        if negb (i_count x =? 2) then mret acc
        else others ;; read_pipe_loop fuel' inode count acc
      else
        let chars := Z.min (Z.min (PAGE_SIZE - PIPE_TAIL x) count) size in
        upd_inode inode (set_zone 1 (Z.land (u16 (PIPE_TAIL x + chars)) (PAGE_SIZE - 1))) ;;
        d ← on_mem (gets (λ s, mem_bytes (phys s) (i_size x + PIPE_TAIL x) (Z.to_nat chars)));
        read_pipe_loop fuel' inode (count - chars) (acc ++ d)
  end.

(** the bytes read; the source returns their number *)
Definition read_pipe (inode : nat) (count : Z) : M st bytes :=
  read_pipe_loop (Z.to_nat count + 4) inode count [].

(** what is left of [buf] *)
Fixpoint write_pipe_loop (fuel : nat) (inode : nat) (buf : bytes) : M st (bytes * bool) :=
  match fuel with
  | O => nofuel
  | S fuel' =>
    match buf with
    | [] => mret ([], false)
    | _ =>
      x ← the_inode inode;
      let size := PAGE_SIZE - 1 - PIPE_SIZE x in
      if size =? 0 then
        if negb (i_count x =? 2) then
          upd_current (λ c, set_t_signal (Z.lor (t_signal c) (sigbit SIGPIPE)) c) ;;
          mret (buf, true)
        else others ;; write_pipe_loop fuel' inode buf
      else
        let chars := Z.min (Z.min (PAGE_SIZE - PIPE_HEAD x) (Z.of_nat (length buf))) size in
        upd_inode inode (set_zone 0 (Z.land (u16 (PIPE_HEAD x + chars)) (PAGE_SIZE - 1))) ;;
        on_mem (modify (λ s, set_phys (mem_write (i_size x + PIPE_HEAD x) (take (Z.to_nat chars) buf) (phys s)) s)) ;;
        write_pipe_loop fuel' inode (drop (Z.to_nat chars) buf)
    end
  end.

Definition write_pipe (inode : nat) (buf : bytes) : M st Z :=
  r ← write_pipe_loop (length buf + 4) inode buf;
  let written := Z.of_nat (length buf) - Z.of_nat (length r.1) in
  mret (if (r.2 : bool) && (written =? 0) then -1 else written).

(** ** sys_pipe *)

(** the first two free elements of a table *)
Definition first_two {A} (free : A → bool) (l : list A) : list nat :=
  take 2 (filter (λ i, from_option free false (l !! i) = true) (seq 0 (length l))).

(** the two descriptors *)
Definition sys_pipe : M st (Z * list Z) :=
  f ← gets (λ s, first_two (λ x, f_count x =? 0) (file_table (up s)));
  match f with
  | [f0; f1] =>
    upd_file f0 (set_f_count 1) ;;
    upd_file f1 (set_f_count 1) ;;
    c ← the_current;
    let release := (upd_file f0 (set_f_count 0) ;; upd_file f1 (set_f_count 0) : M st unit) in
    match first_two (λ p : ptr, match p with None => true | Some _ => false end) (t_filp c) with
    | [fd0; fd1] =>
      upd_current (λ c, set_t_filp (<[fd1 := Some f1]> (<[fd0 := Some f0]> (t_filp c))) c) ;;
      p ← get_pipe_inode sync_below;
      match p with
      | None =>
        upd_current (λ c, set_t_filp (<[fd1 := None]> (<[fd0 := None]> (t_filp c))) c) ;;
        release ;;
        mret (-1, [])
      | Some inode =>
        upd_file f0 (λ x, set_f_mode 1 (set_f_pos 0 (set_f_inode (Some inode) x))) ;;
        upd_file f1 (λ x, set_f_mode 2 (set_f_pos 0 (set_f_inode (Some inode) x))) ;;
        mret (0, [Z.of_nat fd0; Z.of_nat fd1])
      end
    | _ => release ;; mret (-1, [])
    end
  | _ => mret (-1, [])
  end.
End pipe.
