(* ===== verification/PipeFifo.v ===== *)
(** * A pipe is a queue

    The bytes of a pipe as a list ([pipe_holds]: the page of the pipe read
    round its end, from the offset of the reader on), and the proof that
    [read_pipe] and [write_pipe] are the operations of a queue on that list. *)
From S2P Require Import Prelude Blk Buffer BufferCache Memory Task Sched Signal FsData KernelRules Bitmap Inode Pipe.

(** ** The page as a queue *)

(** [n] bytes of the page at [base], from offset [t] on and round its end *)
Definition ring (p : Z → Z) (base t : Z) (n : nat) : bytes :=
  (λ k, p (base + (t + Z.of_nat k) mod PAGE_SIZE)) <$> seq 0 n.

Lemma length_ring p base t n : length (ring p base t n) = n.
Proof. unfold ring. by rewrite length_fmap, length_seq. Qed.
Lemma length_mem_bytes p a n : length (mem_bytes p a n) = n.
Proof. unfold mem_bytes. by rewrite length_fmap, length_seq. Qed.

Lemma wrap_add t a b : ((t + a) mod PAGE_SIZE + b) mod PAGE_SIZE = (t + (a + b)) mod PAGE_SIZE.
Proof. unfold PAGE_SIZE. rewrite Z.add_mod_idemp_l by done. by rewrite Z.add_assoc. Qed.

Lemma ring_app p base t n m : ring p base t (n + m) = ring p base t n ++ ring p base ((t + Z.of_nat n) mod PAGE_SIZE) m.
Proof.
  unfold ring. rewrite seq_app, fmap_app. f_equal. cbn [Nat.add]. apply list_eq. intros i.
  rewrite !list_lookup_fmap. destruct (decide (i < m)%nat) as [Hi|Hi].
  - rewrite !lookup_seq_lt by done. cbn. rewrite wrap_add. do 4 f_equal. lia.
  - by rewrite !lookup_seq_ge by lia.
Qed.

Lemma ring_straight p base t n : 0 ≤ t → t + Z.of_nat n ≤ PAGE_SIZE → ring p base t n = mem_bytes p (base + t) n.
Proof.
  unfold PAGE_SIZE. intros Ht Hn. unfold ring, mem_bytes. apply list_eq. intros i. rewrite !list_lookup_fmap.
  destruct (decide (i < n)%nat) as [Hi|Hi]; [|by rewrite !lookup_seq_ge by lia].
  rewrite !lookup_seq_lt by done. cbn. unfold PAGE_SIZE. rewrite Z.mod_small by lia. do 2 f_equal. lia.
Qed.

Lemma mem_bytes_write a d p : mem_bytes (mem_write a d p) a (length d) = d.
Proof.
  unfold mem_bytes, mem_write. apply list_eq. intros i. rewrite list_lookup_fmap.
  destruct (decide (i < length d)%nat) as [Hi|Hi]; [|rewrite lookup_seq_ge, lookup_ge_None_2 by lia; done].
  rewrite lookup_seq_lt by done. cbn. rewrite (proj2 (Z.leb_le _ _)), (proj2 (Z.ltb_lt _ _)) by lia. cbn.
  replace (Z.to_nat _) with i by lia. symmetry. by apply list_lookup_lookup_total_lt.
Qed.

(** writing behind the [n] bytes in use does not touch them *)
Lemma ring_write_ne p base t n d h : 0 ≤ t < PAGE_SIZE → h = (t + Z.of_nat n) mod PAGE_SIZE →
  (n + length d < Z.to_nat PAGE_SIZE)%nat → h + Z.of_nat (length d) ≤ PAGE_SIZE →
  ring (mem_write (base + h) d p) base t n = ring p base t n.
Proof.
  unfold PAGE_SIZE. intros Ht -> Hn Hh. unfold ring, mem_write, PAGE_SIZE. apply list_eq. intros i.
  rewrite !list_lookup_fmap. destruct (decide (i < n)%nat) as [Hi|Hi]; [|by rewrite !lookup_seq_ge by lia].
  rewrite !lookup_seq_lt by done. cbn. f_equal.
  pose proof (Z.mod_pos_bound (t + Z.of_nat i) 4096 ltac:(done)). pose proof (Z.mod_pos_bound (t + Z.of_nat n) 4096 ltac:(done)).
  pose proof (Z.div_mod (t + Z.of_nat i) 4096 ltac:(done)). pose proof (Z.div_mod (t + Z.of_nat n) 4096 ltac:(done)).
  destruct (_ && _) eqn:E; [|done]. b2p. exfalso. lia.
Qed.

Lemma ring_write p base t n d h : 0 ≤ t < PAGE_SIZE → h = (t + Z.of_nat n) mod PAGE_SIZE →
  (n + length d < Z.to_nat PAGE_SIZE)%nat → h + Z.of_nat (length d) ≤ PAGE_SIZE →
  ring (mem_write (base + h) d p) base t (n + length d) = ring p base t n ++ d.
Proof.
  intros Ht Hh Hn Hend. rewrite ring_app. f_equal; [by apply ring_write_ne|]. rewrite <- Hh.
  rewrite ring_straight; [|subst h; by apply Z.mod_pos_bound|done]. apply mem_bytes_write.
Qed.

Lemma mem_write_frame a d p base n x :
  base ≤ a → a + Z.of_nat (length d) ≤ base + n → ¬ (base ≤ x < base + n) → mem_write a d p x = p x.
Proof. intros Ha Hn Hx. unfold mem_write. destruct (_ && _) eqn:E; [|done]. b2p. lia. Qed.

(** the inode [x] of a pipe with [n] bytes in it, to be read from offset [t]
    on *)
Definition pipe_inode (x : m_inode) (t : Z) (n : nat) : m_inode :=
  set_zone 1 t (set_zone 0 ((t + Z.of_nat n) mod PAGE_SIZE) x).
Definition in_page (t : Z) (n : nat) : Prop := 0 ≤ t < PAGE_SIZE ∧ Z.of_nat n < PAGE_SIZE.

Lemma page_u16 z : u16 (z mod PAGE_SIZE) = z mod PAGE_SIZE.
Proof. apply u16_id. pose proof (Z.mod_pos_bound z PAGE_SIZE ltac:(done)). unfold PAGE_SIZE in *. lia. Qed.

Lemma pipe_zones x t n : (2 ≤ length (i_zone x))%nat → in_page t n →
  PIPE_TAIL (pipe_inode x t n) = t ∧ PIPE_HEAD (pipe_inode x t n) = (t + Z.of_nat n) mod PAGE_SIZE ∧
  PIPE_SIZE (pipe_inode x t n) = Z.of_nat n.
Proof.
  intros Hz [Ht Hn].
  assert (PIPE_TAIL (pipe_inode x t n) = t) as Et.
  { unfold PIPE_TAIL, pipe_inode, get_zone, set_zone. cbn. rewrite list_lookup_total_insert_eq by (rewrite length_insert; lia).
    apply u16_id. unfold PAGE_SIZE in *. lia. }
  assert (PIPE_HEAD (pipe_inode x t n) = (t + Z.of_nat n) mod PAGE_SIZE) as Eh.
  { unfold PIPE_HEAD, pipe_inode, get_zone, set_zone. cbn. rewrite list_lookup_total_insert_ne by done.
    rewrite list_lookup_total_insert_eq by lia. apply page_u16. }
  split; [done|]. split; [done|]. unfold PIPE_SIZE. rewrite Et, Eh. unfold PAGE_SIZE in *.
  change (4096 - 1) with (Z.ones 12). rewrite Z.land_ones by lia. change (2 ^ 12) with 4096.
  rewrite Zminus_mod_idemp_l. replace (t + Z.of_nat n - t) with (Z.of_nat n) by lia. apply Z.mod_small. lia.
Qed.

Lemma pipe_read_zone x t n m : (m ≤ n)%nat →
  set_zone 1 (Z.land (u16 (t + Z.of_nat m)) (PAGE_SIZE - 1)) (pipe_inode x t n) =
  pipe_inode x ((t + Z.of_nat m) mod PAGE_SIZE) (n - m).
Proof.
  intros Hm. unfold pipe_inode. rewrite wrap_add, <- Nat2Z.inj_add. replace (m + (n - m))%nat with n by lia.
  unfold set_zone, set_i_zone. cbn. f_equal. rewrite list_insert_insert_eq. f_equal.
  change (PAGE_SIZE - 1) with (Z.ones 12). rewrite Z.land_ones by lia. unfold u16 at 2, PAGE_SIZE.
  change (2 ^ 12) with 4096. by rewrite (Z.mod_mod_divide _ (2 ^ 16) 4096) by (by exists 16).
Qed.

Lemma pipe_write_zone x t n m : (2 ≤ length (i_zone x))%nat →
  set_zone 0 (Z.land (u16 ((t + Z.of_nat n) mod PAGE_SIZE + Z.of_nat m)) (PAGE_SIZE - 1)) (pipe_inode x t n) =
  pipe_inode x t (n + m).
Proof.
  intros Hz. unfold pipe_inode, set_zone, set_i_zone. cbn. f_equal.
  rewrite (list_insert_insert_ne _ 0 1) by done. rewrite list_insert_insert_eq. do 2 f_equal.
  change (PAGE_SIZE - 1) with (Z.ones 12). rewrite Z.land_ones by lia. unfold u16 at 2, PAGE_SIZE.
  change (2 ^ 12) with 4096. rewrite (Z.mod_mod_divide _ (2 ^ 16) 4096) by (by exists 16).
  rewrite Z.add_mod_idemp_l by done. do 2 f_equal. lia.
Qed.

(** the turns of a loop that moves [m] bytes from or to offset [t] *)
Definition rounds (t : Z) (m : nat) : nat :=
  if decide (m = 0%nat) then 1 else if decide (t + Z.of_nat m ≤ PAGE_SIZE) then 2 else 3.

Section fifo.
Context {D : Type} `{BlockDriver D}.
Abbreviation st := (bstate D kernel).
Context (others : M st unit) (s0 : st) (inode : nat) (x : m_inode).
Hypothesis (Hin : (inode < length (inode_table (up s0)))%nat) (Hzones : (2 ≤ length (i_zone x))%nat).

(** the state [s0], but for a pipe in inode [inode] with [n] bytes from offset
    [t] on, and the bytes of memory [p] *)
Definition with_pipe (t : Z) (n : nat) (p : Z → Z) : st :=
  set_up (set_k_mem (set_phys p (k_mem (up s0)))
    (set_inode_table (<[inode := pipe_inode x t n]> (inode_table (up s0))) (up s0))) s0.

(** the current task has been sent SIGPIPE *)
Definition hung_up (c : task_struct) (s : st) : st :=
  with_current (set_t_signal (Z.lor (t_signal c) (sigbit SIGPIPE)) c) s.

Lemma wp_pipe_inode t n p (Q : m_inode → st → Prop) :
  Q (pipe_inode x t n) (with_pipe t n p) → wp (the_inode inode) Q (with_pipe t n p).
Proof. intros HQ. unfold wp, the_inode. cbn. by rewrite list_lookup_insert_eq. Qed.

Lemma wp_pipe_upd t n p t' n' g (Q : unit → st → Prop) :
  g (pipe_inode x t n) = pipe_inode x t' n' → Q tt (with_pipe t' n' p) → wp (upd_inode inode g) Q (with_pipe t n p).
Proof.
  intros Hg HQ. unfold wp, upd_inode. cbn. rewrite list_lookup_insert_eq by done. rewrite list_insert_insert_eq, Hg. exact HQ.
Qed.

Lemma read_pipe_run fuel count acc t n p : in_page t n → 0 ≤ count →
  count ≤ Z.of_nat n ∨ i_count x ≠ 2 →
  let m := Nat.min (Z.to_nat count) n in
  (rounds t m ≤ fuel)%nat →
  wp (read_pipe_loop others fuel inode count acc) (λ r s',
    r = acc ++ ring p (i_size x) t m ∧ s' = with_pipe ((t + Z.of_nat m) mod PAGE_SIZE) (n - m) p)
    (with_pipe t n p).
Proof.
  revert count acc t n. induction fuel as [|fuel IH]; intros count acc t n Hpg Hc Hwait m Hfuel.
  { unfold rounds in Hfuel. repeat case_decide; lia. }
  cbn [read_pipe_loop]. pose proof Hpg as [Ht Hn].
  assert (Hm : (m ≤ n)%nat ∧ Z.of_nat m ≤ count ∧ (Z.of_nat m = count ∨ m = n)) by (unfold m; lia).
  clearbody m.
  assert (Hstay : m = 0%nat → acc = acc ++ ring p (i_size x) t m ∧ with_pipe t n p = with_pipe ((t + Z.of_nat m) mod PAGE_SIZE) (n - m) p).
  { intros ->. rewrite app_nil_r, Z.add_0_r, Nat.sub_0_r, Z.mod_small by done. done. }
  destruct (Z.leb_spec count 0); [apply wp_ret, Hstay; lia|].
  destruct (pipe_zones x t n Hzones Hpg) as (Et & Eh & Es). apply wp_bind, wp_pipe_inode. rewrite Es, Et.
  destruct (Z.eqb_spec (Z.of_nat n) 0).
  { change (i_count (pipe_inode x t n)) with (i_count x).
    rewrite (proj2 (Z.eqb_neq (i_count x) 2)) by lia. apply wp_ret, Hstay. lia. }
  set (chars := Z.min _ (Z.of_nat n)).
  assert (Hc1 : 0 < chars ≤ Z.of_nat m ∧ chars ≤ PAGE_SIZE - t ∧ (chars = Z.of_nat m ∨ chars = PAGE_SIZE - t)) by lia.
  clearbody chars. set (k := Z.to_nat chars).
  assert (Hk : Z.of_nat k = chars ∧ (1 ≤ k ≤ m)%nat ∧ t + Z.of_nat k ≤ PAGE_SIZE ∧ (k = m ∨ t + Z.of_nat k = PAGE_SIZE)) by lia.
  clearbody k. destruct Hk as (Hkc & Hkm & Hend & Hcase). rewrite <- Hkc.
  apply wp_bind. eapply wp_pipe_upd; [apply pipe_read_zone; lia|].
  change (i_size (pipe_inode x t n)) with (i_size x).
  apply wp_bind. unfold on_mem, wp at 1. cbn.
  assert (Hmin : (Z.to_nat (count - Z.of_nat k) `min` (n - k) = m - k)%nat) by lia. clear chars Hkc Hc1.
  eapply wp_mono; [apply IH; [split; [by apply Z.mod_pos_bound|lia]|lia|lia|]|].
  - rewrite Hmin. revert Hfuel.
    destruct Hcase as [<-|Hpage]; [unfold rounds; repeat case_decide; lia|]. rewrite Hpage, Z_mod_same_full. unfold rounds, PAGE_SIZE in *.
    repeat case_decide; lia.
  - intros r s' [-> ->]. rewrite Hmin.
    rewrite wrap_add, <- Nat2Z.inj_add. replace (k + (m - k))%nat with m by lia.
    replace (n - k - (m - k))%nat with (n - m)%nat by lia. split; [|done].
    rewrite <- app_assoc. f_equal. replace m with (k + (m - k))%nat at 2 by lia. rewrite ring_app. f_equal.
    symmetry. apply ring_straight; lia.
Qed.

Lemma write_pipe_run fuel c buf t n p : in_page t n → is_cur (k_sched (up s0)) c →
  let free := (Z.to_nat PAGE_SIZE - 1 - n)%nat in
  let m := Nat.min (length buf) free in
  (length buf ≤ free)%nat ∨ i_count x ≠ 2 →
  (rounds ((t + Z.of_nat n) mod PAGE_SIZE) m ≤ fuel)%nat →
  wp (write_pipe_loop others fuel inode buf) (λ r s', ∃ p',
    ring p' (i_size x) t (n + m) = ring p (i_size x) t n ++ take m buf ∧
    (∀ a, ¬ (i_size x ≤ a < i_size x + PAGE_SIZE) → p' a = p a) ∧
    r = (drop m buf, bool_decide (m < length buf)%nat) ∧
    s' = (if decide (m < length buf)%nat then hung_up c (with_pipe t (n + m) p') else with_pipe t (n + m) p'))
    (with_pipe t n p).
Proof.
  revert buf n p. induction fuel as [|fuel IH]; intros buf n p Hpg Hcur free m Hwait Hfuel.
  { unfold rounds in Hfuel. repeat case_decide; lia. }
  cbn [write_pipe_loop]. pose proof Hpg as [Ht Hn].
  destruct buf as [|b0 buf].
  { apply wp_ret. exists p. unfold m. rewrite take_nil, drop_nil, app_nil_r. cbn. rewrite Nat.add_0_r. done. }
  destruct (pipe_zones x t n Hzones Hpg) as (Et & Eh & Es). apply wp_bind, wp_pipe_inode. rewrite Es, Eh.
  destruct (Z.eqb_spec (PAGE_SIZE - 1 - Z.of_nat n) 0).
  { change (i_count (pipe_inode x t n)) with (i_count x). assert (m = 0%nat) as Hm by (unfold m, free; lia).
    rewrite (proj2 (Z.eqb_neq (i_count x) 2)) by (unfold free in Hwait; cbn [length] in Hwait; lia).
    apply wp_bind. eapply wp_upd_current; [done|]. apply wp_ret. exists p.
    rewrite Hm, Nat.add_0_r, app_nil_r. rewrite bool_decide_true, decide_True by (cbn; lia). done. }
  set (h := (t + Z.of_nat n) mod PAGE_SIZE) in *. set (buf' := b0 :: buf) in *.
  assert (Hh : 0 ≤ h < PAGE_SIZE) by (by apply Z.mod_pos_bound).
  assert (Hlb : (1 ≤ length buf')%nat) by (cbn; lia).
  assert (Hfree : Z.of_nat free = PAGE_SIZE - 1 - Z.of_nat n) by lia.
  assert (Hm : (m ≤ length buf' ∧ m ≤ free)%nat ∧ (m = length buf' ∨ m = free)) by lia.
  assert (Hend' : (n + m < Z.to_nat PAGE_SIZE)%nat) by lia.
  set (chars := Z.min _ (PAGE_SIZE - 1 - Z.of_nat n)).
  assert (Hc1 : 0 < chars ≤ Z.of_nat m ∧ chars ≤ PAGE_SIZE - h ∧ (chars = Z.of_nat m ∨ chars = PAGE_SIZE - h)) by lia.
  assert (Hfree' : ∀ k, (Z.to_nat PAGE_SIZE - 1 - (n + k) = free - k)%nat) by (intros; unfold free; clear; lia).
  assert (Hh0 : h = (t + Z.of_nat n) mod PAGE_SIZE) by done. clearbody chars m free h. set (k := Z.to_nat chars).
  assert (Hk : Z.of_nat k = chars ∧ (1 ≤ k ≤ m)%nat ∧ h + Z.of_nat k ≤ PAGE_SIZE ∧ (k = m ∨ h + Z.of_nat k = PAGE_SIZE)) by lia.
  clearbody k. destruct Hk as (Hkc & Hkm & Hend & Hcase). rewrite <- Hkc. clear chars Hkc Hc1.
  apply wp_bind. eapply wp_pipe_upd; [rewrite Hh0; by apply pipe_write_zone|].
  change (i_size (pipe_inode x t n)) with (i_size x).
  assert (Htk : length (take k buf') = k) by (rewrite length_take; lia).
  apply wp_bind. unfold on_mem, wp at 1. cbn. rewrite ?Nat2Z.id. set (p1 := mem_write _ _ p).
  assert (Hring : ring p1 (i_size x) t (n + k) = ring p (i_size x) t n ++ take k buf').
  { unfold p1. replace (n + k)%nat with (n + length (take k buf'))%nat by lia. apply ring_write; [done|done|rewrite Htk; unfold PAGE_SIZE in *; lia|by rewrite Htk]. }
  assert (Hframe : ∀ a, ¬ (i_size x ≤ a < i_size x + PAGE_SIZE) → p1 a = p a).
  { intros a. unfold p1. apply mem_write_frame; [lia|rewrite Htk; lia]. }
  change (set_up _ _) with (with_pipe t (n + k) p1).
  assert (Hm' : (Nat.min (length (drop k buf')) (Z.to_nat PAGE_SIZE - 1 - (n + k)) = m - k)%nat).
  { rewrite length_drop, Hfree'. clear - Hm Hkm. lia. }
  eapply wp_mono; [apply (IH (drop k buf') (n + k)%nat p1); [split; [done|]|done| |]|].
  - clear - Hfree Hm Hkm. lia.
  - rewrite length_drop, Hfree'. destruct Hwait as [Hw|Hw]; [left; clear - Hw; lia|by right].
  - rewrite Hm', Nat2Z.inj_add, <- wrap_add, <- Hh0. revert Hfuel. unfold rounds.
    destruct Hcase as [<-|Hpage]; [clear - Hkm; repeat case_decide; lia|]. rewrite Hpage, Z_mod_same_full.
    clear - Hend' Hpage Hkm Hh. repeat case_decide; lia.
  - intros r s' (p' & Hr' & Hf' & -> & ->). exists p'. rewrite !Hm' in *. rewrite length_drop.
    replace (n + k + (m - k))%nat with (n + m)%nat in * by lia.
    change (S (length buf)) with (length buf') in *. split; [|split; [|split]].
    + rewrite Hr', Hring, <- app_assoc. f_equal. rewrite take_take_drop.
      f_equal. lia.
    + intros a Ha. by rewrite Hf', Hframe.
    + rewrite drop_drop. replace (k + (m - k))%nat with m by lia. f_equal. apply bool_decide_ext. lia.
    + repeat case_decide; try lia; done.
Qed.
End fifo.

(** ** A pipe is a queue of bytes *)

(** the pipe in inode [inode] holds the bytes [q] *)
Record pipe_holds {D} `{BlockDriver D} (s : bstate D kernel) (inode : nat) (x : m_inode) (q : bytes) : Prop := {
  ph_inode : inode_table (up s) !! inode = Some x;
  ph_zones : (2 ≤ length (i_zone x))%nat;
  ph_head : 0 ≤ PIPE_HEAD x < PAGE_SIZE;
  ph_tail : 0 ≤ PIPE_TAIL x < PAGE_SIZE;
  ph_bytes : q = ring (phys (k_mem (up s))) (i_size x) (PIPE_TAIL x) (Z.to_nat (PIPE_SIZE x))
}.

(** the queue *)
Inductive pipe_op := PWrite (d : bytes) | PRead (count : Z).
Definition fifo_step (q : bytes) (o : pipe_op) : (Z + bytes) * bytes :=
  match o with
  | PWrite d => (inl (Z.of_nat (length d)), q ++ d)
  | PRead count => (inr (take (Z.to_nat count) q), drop (Z.to_nat count) q)
  end.
Fixpoint fifo_run (q : bytes) (l : list pipe_op) : list (Z + bytes) * bytes :=
  match l with
  | [] => ([], q)
  | o :: l' =>
    let '(r, q) := fifo_step q o in
    let '(rs, q) := fifo_run q l' in (r :: rs, q)
  end.

(** there is room for what is written, and enough to be read *)
Definition fits (q : bytes) (o : pipe_op) : Prop :=
  match o with
  | PWrite d => Z.of_nat (length q) + Z.of_nat (length d) < PAGE_SIZE
  | PRead count => 0 ≤ count ≤ Z.of_nat (length q)
  end.
Fixpoint all_fit (q : bytes) (l : list pipe_op) : Prop :=
  match l with [] => True | o :: l' => fits q o ∧ all_fit (fifo_step q o).2 l' end.

Section pipe_fifo.
Context {D : Type} `{BlockDriver D}.
Abbreviation st := (bstate D kernel).
Context (others : M st unit).
Implicit Types (s : st).

Definition pipe_step (inode : nat) (o : pipe_op) : M st (Z + bytes) :=
  match o with
  | PWrite d => r ← write_pipe others inode d; mret (inl r)
  | PRead count => r ← read_pipe others inode count; mret (inr r)
  end.
Fixpoint pipe_run (inode : nat) (l : list pipe_op) : M st (list (Z + bytes)) :=
  match l with
  | [] => mret []
  | o :: l' => r ← pipe_step inode o; rs ← pipe_run inode l'; mret (r :: rs)
  end.

(** from [s] to [s'] nothing has changed but the bytes of the pipe's page and
    the two offsets in its inode, which is now [x'] *)
Definition only_pipe s s' (inode : nat) (x x' : m_inode) : Prop :=
  ∃ z p, x' = set_i_zone z x ∧ drop 2 z = drop 2 (i_zone x) ∧
    (∀ a, ¬ (i_size x ≤ a < i_size x + PAGE_SIZE) → p a = phys (k_mem (up s)) a) ∧
    s' = set_up (set_k_mem (set_phys p (k_mem (up s)))
           (set_inode_table (<[inode := x']> (inode_table (up s))) (up s))) s.

Lemma pipe_size_bound x : 0 ≤ PIPE_SIZE x < PAGE_SIZE.
Proof.
  unfold PIPE_SIZE, PAGE_SIZE. change (4096 - 1) with (Z.ones 12). rewrite Z.land_ones by lia. by apply Z.mod_pos_bound.
Qed.

Lemma pipe_holds_with s inode x q : pipe_holds s inode x q →
  (inode < length (inode_table (up s)))%nat ∧ in_page (PIPE_TAIL x) (length q) ∧
  s = with_pipe s inode x (PIPE_TAIL x) (length q) (phys (k_mem (up s))) ∧
  q = ring (phys (k_mem (up s))) (i_size x) (PIPE_TAIL x) (length q).
Proof.
  intros [Hi Hz Hh Ht Hq]. pose proof (pipe_size_bound x) as Hs.
  assert (Hlen : Z.of_nat (length q) = PIPE_SIZE x) by (rewrite Hq, length_ring; lia).
  split; [by eapply lookup_lt_Some|]. split; [split; [done|lia]|].
  assert (Hx : pipe_inode x (PIPE_TAIL x) (length q) = x).
  { unfold pipe_inode. rewrite Hlen. assert ((PIPE_TAIL x + PIPE_SIZE x) mod PAGE_SIZE = PIPE_HEAD x) as ->.
    { unfold PIPE_SIZE, PAGE_SIZE in *. change (4096 - 1) with (Z.ones 12). rewrite Z.land_ones by lia.
      change (2 ^ 12) with 4096. rewrite Z.add_mod_idemp_r by done.
      replace (PIPE_TAIL x + (PIPE_HEAD x - PIPE_TAIL x)) with (PIPE_HEAD x) by lia. by apply Z.mod_small. }
    unfold set_zone, set_i_zone. cbn. rewrite !u16_id by (unfold PAGE_SIZE in *; lia).
    rewrite (list_insert_id (i_zone x) 0) by (apply list_lookup_lookup_total_lt; lia).
    rewrite list_insert_id by (apply list_lookup_lookup_total_lt; lia). by destruct x. }
  split; [|assert (length q = Z.to_nat (PIPE_SIZE x)) as -> by lia; exact Hq].
  unfold with_pipe. rewrite Hx, list_insert_id by done. destruct s as [? ? ? ? k]. cbn.
  unfold set_up. cbn. f_equal. destruct k as [? ? ? ? ? ? m ?]. cbn. unfold set_k_mem, set_inode_table. cbn. f_equal. by destruct m.
Qed.

Lemma with_pipe_holds s inode x t n p : (inode < length (inode_table (up s)))%nat → (2 ≤ length (i_zone x))%nat → in_page t n →
  pipe_holds (with_pipe s inode x t n p) inode (pipe_inode x t n) (ring p (i_size x) t n).
Proof.
  intros Hin Hz Hpg. destruct (pipe_zones x t n Hz Hpg) as (Et & Eh & Es). constructor.
  - cbn. by rewrite list_lookup_insert_eq.
  - unfold pipe_inode, set_zone. cbn. by rewrite !length_insert.
  - rewrite Eh. by apply Z.mod_pos_bound.
  - rewrite Et. apply Hpg.
  - rewrite Et, Es, Nat2Z.id. done.
Qed.

Lemma with_pipe_only s inode x t n p :
  (∀ a, ¬ (i_size x ≤ a < i_size x + PAGE_SIZE) → p a = phys (k_mem (up s)) a) →
  only_pipe s (with_pipe s inode x t n p) inode x (pipe_inode x t n).
Proof.
  intros Hp. eexists _, p. split; [reflexivity|]. split; [|by split].
  cbn. by rewrite !drop_insert_lt by lia.
Qed.

Lemma only_pipe_refl s inode x : inode_table (up s) !! inode = Some x → only_pipe s s inode x x.
Proof.
  intros Hx. exists (i_zone x), (phys (k_mem (up s))). split; [by destruct x|]. split; [done|]. split; [done|].
  rewrite list_insert_id by done. destruct s as [? ? ? ? k]. unfold set_up. cbn. f_equal.
  destruct k as [? ? ? ? ? ? m ?]. unfold set_k_mem, set_inode_table. cbn. f_equal. by destruct m.
Qed.

Lemma only_pipe_trans s1 s2 s3 inode x1 x2 x3 :
  only_pipe s1 s2 inode x1 x2 → only_pipe s2 s3 inode x2 x3 → only_pipe s1 s3 inode x1 x3.
Proof.
  intros (z1 & p1 & -> & Hz1 & Hp1 & ->) (z2 & p2 & -> & Hz2 & Hp2 & ->).
  exists z2, p2. split; [done|]. split; [by rewrite Hz2|]. split.
  - intros a Ha. rewrite Hp2 by done. by apply Hp1.
  - cbn. unfold set_up, set_k_mem, set_inode_table. cbn. by rewrite list_insert_insert_eq.
Qed.

Lemma write_pipe_eq s inode x q d c : pipe_holds s inode x q → is_cur (k_sched (up s)) c →
  let m := Nat.min (length d) (Z.to_nat PAGE_SIZE - 1 - length q) in
  m = length d ∨ i_count x ≠ 2 →
  wp (write_pipe others inode d) (λ r s', ∃ s1 x',
    r = (if decide (m < length d ∧ m = 0)%nat then -1 else Z.of_nat m) ∧
    pipe_holds s1 inode x' (q ++ take m d) ∧ only_pipe s s1 inode x x' ∧
    s' = if decide (m < length d)%nat then hung_up c s1 else s1) s.
Proof.
  intros Hq Hc m Hm. destruct (pipe_holds_with _ _ _ _ Hq) as (Hin & Hpg & Hs & Hqr). pose proof Hq as [_ Hz _ _ _].
  unfold write_pipe. apply wp_bind. rewrite Hs at 1.
  eapply wp_mono; [apply (write_pipe_run others s inode x Hin Hz _ c); [done|done| |]|].
  - destruct Hm; [left; lia|by right].
  - unfold rounds. repeat case_decide; lia.
  - fold m. intros r s' (p' & Hring & Hf & -> & ->). cbn [fst snd]. apply wp_ret.
    exists (with_pipe s inode x (PIPE_TAIL x) (length q + m) p'), (pipe_inode x (PIPE_TAIL x) (length q + m)).
    split; [|split; [|split; [by apply with_pipe_only|done]]].
    + rewrite length_drop. case_decide as Hd; case_bool_decide as Hb; cbn [andb]; try lia.
      * rewrite (proj2 (Z.eqb_eq _ _)) by lia. done.
      * destruct (Z.eqb_spec (Z.of_nat (length d) - Z.of_nat (length d - m)) 0); lia.
    + rewrite <- Hqr in Hring. rewrite <- Hring. apply with_pipe_holds; [done|done|]. destruct Hpg. split; [done|].
      unfold m, PAGE_SIZE in *. lia.
Qed.

Lemma split_at {A} k (q a b : list A) :
  q = a ++ b → length a = Nat.min k (length q) → take k q = a ∧ drop k q = b.
Proof.
  intros -> Hl. rewrite length_app in Hl. destruct (decide (k ≤ length a)%nat).
  - rewrite take_app_length', drop_app_length' by lia. done.
  - assert (b = []) as -> by (apply nil_length_inv; lia). rewrite app_nil_r, take_ge, drop_ge by lia. done.
Qed.

Lemma read_pipe_eq s inode x q count : pipe_holds s inode x q → 0 ≤ count →
  count ≤ Z.of_nat (length q) ∨ i_count x ≠ 2 →
  wp (read_pipe others inode count) (λ r s', ∃ x', r = take (Z.to_nat count) q ∧
    pipe_holds s' inode x' (drop (Z.to_nat count) q) ∧ only_pipe s s' inode x x') s.
Proof.
  intros Hq Hc Hm. destruct (pipe_holds_with _ _ _ _ Hq) as (Hin & Hpg & Hs & Hqr). pose proof Hq as [_ Hz _ _ _].
  unfold read_pipe. rewrite Hs at 1. set (m := Nat.min (Z.to_nat count) (length q)).
  eapply wp_mono; [apply (read_pipe_run others s inode x Hin Hz); [done|done|done|]|].
  { unfold rounds. fold m. repeat case_decide; lia. }
  fold m. intros r s' [-> ->]. exists (pipe_inode x ((PIPE_TAIL x + Z.of_nat m) mod PAGE_SIZE) (length q - m)).
  assert (Hsplit : q = ring (phys (k_mem (up s))) (i_size x) (PIPE_TAIL x) m ++
    ring (phys (k_mem (up s))) (i_size x) ((PIPE_TAIL x + Z.of_nat m) mod PAGE_SIZE) (length q - m)).
  { rewrite <- ring_app. replace (m + (length q - m))%nat with (length q) by lia. done. }
  destruct (split_at (Z.to_nat count) q _ _ Hsplit) as [Htake Hdrop]; [by rewrite length_ring|].
  split; [|split; [|by apply with_pipe_only]].
  - by rewrite Htake.
  - rewrite Hdrop. apply with_pipe_holds; [done|done|]. destruct Hpg. split; [by apply Z.mod_pos_bound|lia].
Qed.

Lemma pipe_step_run s inode x q o c : pipe_holds s inode x q → is_cur (k_sched (up s)) c → fits q o →
  wp (pipe_step inode o) (λ r s', ∃ x', r = (fifo_step q o).1 ∧
    pipe_holds s' inode x' (fifo_step q o).2 ∧ only_pipe s s' inode x x') s.
Proof.
  intros Hq Hc Hfit. destruct o as [d|count]; cbn in Hfit |- *; apply wp_bind.
  - assert (Hm : Nat.min (length d) (Z.to_nat PAGE_SIZE - 1 - length q) = length d) by lia.
    eapply wp_mono; [apply (write_pipe_eq s inode x q d c); [done|done|by left]|].
    intros r s' (s1 & x' & -> & Hq' & Ho & ->). rewrite Hm, take_ge in Hq' by done. rewrite Hm.
    apply wp_ret. exists x'. rewrite !decide_False by lia. done.
  - eapply wp_mono; [apply (read_pipe_eq s inode x q count); [done|lia|left; lia]|].
    intros r s' (x' & -> & Hq' & Ho). apply wp_ret. by exists x'.
Qed.

(** C12. A pipe is a queue of bytes: whatever sequence of writes that fit and
    of reads of bytes that are there is made on it, each returns what it would
    on a queue - the bytes come out in the order they went in, across the end
    of the page -, none waits, and nothing but the pipe's page and the offsets
    in its inode changes. *)
Theorem pipe_is_fifo (l : list pipe_op) s (inode : nat) (x : m_inode) (q : bytes) (c : task_struct) :
  pipe_holds s inode x q → is_cur (k_sched (up s)) c → all_fit q l →
  wp (pipe_run inode l) (λ rs s', ∃ x', rs = (fifo_run q l).1 ∧
    pipe_holds s' inode x' (fifo_run q l).2 ∧ only_pipe s s' inode x x') s.
Proof.
  revert s x q. induction l as [|o l IH]; intros s x q Hq Hc Hfit.
  { apply wp_ret. exists x. split; [done|]. split; [done|]. by apply only_pipe_refl, Hq. }
  destruct Hfit as [Hfit Hrest]. cbn [pipe_run fifo_run]. apply wp_bind.
  eapply wp_mono; [by apply (pipe_step_run s inode x q o c)|]. intros r s1 (x1 & Hr & Hq1 & Ho1).
  destruct (fifo_step q o) as [r' q1]. cbn [fst snd] in *. subst r'.
  assert (Hc1 : is_cur (k_sched (up s1)) c) by (destruct Ho1 as (z & p & _ & _ & _ & ->); exact Hc).
  apply wp_bind. eapply wp_mono; [by apply (IH s1 x1 q1)|]. intros rs s2 (x2 & -> & Hq2 & Ho2).
  apply wp_ret. destruct (fifo_run q1 l) as [rs' q2]. exists x2. split; [done|]. split; [done|].
  by eapply only_pipe_trans.
Qed.

(** C33. Writing to a pipe that no one reads any more stores what fits and, if
    that is not all, sends the writer SIGPIPE: the result is the number of
    bytes stored, or -1 if there is room for none. *)
Theorem write_pipe_broken s (inode : nat) (x : m_inode) (q d : bytes) (c : task_struct) :
  pipe_holds s inode x q → is_cur (k_sched (up s)) c → i_count x ≠ 2 →
  let m := Nat.min (length d) (Z.to_nat PAGE_SIZE - 1 - length q) in
  wp (write_pipe others inode d) (λ r s', ∃ s1 x',
    r = (if decide (m < length d ∧ m = 0)%nat then -1 else Z.of_nat m) ∧
    pipe_holds s1 inode x' (q ++ take m d) ∧ only_pipe s s1 inode x x' ∧
    s' = if decide (m < length d)%nat then hung_up c s1 else s1) s.
Proof. intros Hq Hc Hx m. apply write_pipe_eq; [done|done|by right]. Qed.

(** Reading from a pipe that no one writes any more returns the bytes left
    in it, up to the number asked for, and nothing at all when it is empty: the
    end of the file. *)
Theorem read_pipe_ended s (inode : nat) (x : m_inode) (q : bytes) (count : Z) :
  pipe_holds s inode x q → 0 ≤ count → i_count x ≠ 2 →
  wp (read_pipe others inode count) (λ r s', ∃ x', r = take (Z.to_nat count) q ∧
    pipe_holds s' inode x' (drop (Z.to_nat count) q) ∧ only_pipe s s' inode x x') s.
Proof. intros Hq Hc Hx. apply read_pipe_eq; [done|done|by right]. Qed.
End pipe_fifo.

(** ** Concrete input: four bytes, close to the end of the page *)
Definition demo_pipe (count : Z) : m_inode :=
  mk_inode 0 0 0x9000 0 0 0 [4094; 4090; 0; 0; 0; 0; 0; 0; 0] 0 0 0 0 count false false true false.
Definition demo_piped (count : Z) : kernel :=
  set_inode_table [demo_pipe count] (set_k_sched (mk_sched [Some (demo_task 0 0)] 0 0 0 0)
    (set_k_mem (mk_mem [] 0 (λ a, a mod 256)) demo_kernel)).
Definition demo_pipe_st (count : Z) : bstate blk kernel := demo_start (demo_piped count).
Definition demo_queue : bytes := ring (λ a, a mod 256) 0x9000 4090 4.

Lemma demo_pipe_holds count : pipe_holds (demo_pipe_st count) 0 (demo_pipe count) demo_queue.
Proof. constructor; [reflexivity|cbn; lia|..|reflexivity]; by split; vm_compute. Qed.

Lemma pipe_is_fifo_witness :
  wp (pipe_run (mret tt) 0 [PWrite [1; 2; 3; 4; 5]; PRead 6; PWrite [6]; PRead 4])
    (λ rs s', ∃ x', rs = (fifo_run demo_queue [PWrite [1; 2; 3; 4; 5]; PRead 6; PWrite [6]; PRead 4]).1 ∧
      pipe_holds s' 0 x' (fifo_run demo_queue [PWrite [1; 2; 3; 4; 5]; PRead 6; PWrite [6]; PRead 4]).2 ∧
      only_pipe (demo_pipe_st 2) s' 0 (demo_pipe 2) x') (demo_pipe_st 2).
Proof.
  apply (pipe_is_fifo (mret tt) _ _ _ _ _ (demo_task 0 0)).
  - exact (demo_pipe_holds 2).
  - reflexivity.
  - vm_compute. repeat split; discriminate.
Defined.

Lemma write_pipe_broken_witness :
  wp (write_pipe (mret tt) 0 (replicate 4200 9)) (λ r s', ∃ s1 x',
    r = (if decide (4091 < length (replicate 4200 9) ∧ 4091 = 0)%nat then -1 else Z.of_nat 4091) ∧
    pipe_holds s1 0 x' (demo_queue ++ take 4091 (replicate 4200 9)) ∧ only_pipe (demo_pipe_st 1) s1 0 (demo_pipe 1) x' ∧
    s' = if decide (4091 < length (replicate 4200 9))%nat then hung_up (demo_task 0 0) s1 else s1) (demo_pipe_st 1).
Proof.
  apply (write_pipe_broken (mret tt) (demo_pipe_st 1) 0 (demo_pipe 1) demo_queue (replicate 4200 9) (demo_task 0 0)).
  - exact (demo_pipe_holds 1).
  - reflexivity.
  - discriminate.
Defined.

Lemma read_pipe_ended_witness :
  wp (read_pipe (mret tt) 0 100) (λ r s', ∃ x', r = take (Z.to_nat 100) demo_queue ∧
    pipe_holds s' 0 x' (drop (Z.to_nat 100) demo_queue) ∧ only_pipe (demo_pipe_st 1) s' 0 (demo_pipe 1) x') (demo_pipe_st 1).
Proof.
  apply (read_pipe_ended (mret tt) (demo_pipe_st 1) 0 (demo_pipe 1) demo_queue 100).
  - exact (demo_pipe_holds 1).
  - lia.
  - discriminate.
Defined.
