(* ===== verification/ReadWrite.v ===== *)
(** * read, write, lseek and ioctl

    Models [linux-0.11/fs/char_dev.c], [fs/read_write.c] and [fs/ioctl.c]: the
    calls on an open file, passed on to what it is: a pipe, a character or a
    block device, a directory or a regular file.

    A file descriptor is an [unsigned int].  The ports of the machine are the
    parameters [inb] and [outb]. *)

From S2P Require Import Prelude Blk Buffer Memory Task Tty FsData Bitmap Inode Fork FileIO Pipe.

Definition NRDEVS : Z := 8.
Definition IS_SEEKABLE (x : Z) : bool := (1 <=? x) && (x <=? 3).

(** what a character device or an open file is asked to do: [READ] a number of
    bytes, or [WRITE] some *)
Inductive rw := Read (count : Z) | Write (buf : bytes).
Definition rw_count (r : rw) : Z := match r with Read n => n | Write b => Z.of_nat (length b) end.

Section read_write.
Context {D : Type} `{BlockDriver D}.
Abbreviation st := (bstate D kernel).
Context (sync_below others : M st unit) (tty_others : M ttys unit).
Context (inb : Z → M st Z) (outb : Z → Z → M st unit).

(** ** char_dev.c: the result, and the bytes read *)
Definition rw_ttyx (r : rw) (minor : Z) : M st (Z * bytes) :=
  match r with
  | Read count => on_tty (tty_read minor count)
  | Write buf => n ← on_tty (tty_write tty_others minor buf); mret (n, [])
  end.

Definition rw_tty (r : rw) : M st (Z * bytes) :=
  c ← the_current;
  if t_tty c <? 0 then mret (- EPERM, []) else rw_ttyx r (t_tty c).

Definition rw_ram (r : rw) : M st (Z * bytes) := mret (- EIO, []).
Definition rw_mem (r : rw) : M st (Z * bytes) := mret (- EIO, []).
Definition rw_kmem (r : rw) : M st (Z * bytes) := mret (- EIO, []).

(** the loops of [rw_port]: the port reached *)
Fixpoint port_read (count : nat) (i : Z) (acc : bytes) : M st (Z * bytes) :=
  match count with
  | O => mret (i, acc)
  | S n => if i <? 65536 then c ← inb i; port_read n (i + 1) (acc ++ [c]) else mret (i, acc)
  end.
Fixpoint port_write (buf : bytes) (i : Z) : M st Z :=
  match buf with
  | [] => mret i
  | c :: buf' => if i <? 65536 then outb c i ;; port_write buf' (i + 1) else mret i
  end.

(** the result, the new position, and the bytes read *)
Definition rw_port (r : rw) (pos : Z) : M st (Z * Z * bytes) :=
  match r with
  | Read count => q ← port_read (Z.to_nat count) pos []; mret (q.1 - pos, q.1, q.2)
  | Write buf => i ← port_write buf pos; mret (i - pos, i, [])
  end.

Definition with_pos (pos : Z) (m : M st (Z * bytes)) : M st (Z * Z * bytes) :=
  q ← m; mret (q.1, pos, q.2).

Definition rw_memory (r : rw) (minor pos : Z) : M st (Z * Z * bytes) :=
  if minor =? 0 then with_pos pos (rw_ram r)
  else if minor =? 1 then with_pos pos (rw_mem r)
  else if minor =? 2 then with_pos pos (rw_kmem r)
  else if minor =? 3 then mret (match r with Read _ => 0 | Write b => Z.of_nat (length b) end, pos, [])
  else if minor =? 4 then rw_port r pos
  else mret (- EIO, pos, []).

Definition rw_char (r : rw) (dev pos : Z) : M st (Z * Z * bytes) :=
  let major := MAJOR dev in
  if NRDEVS <=? major then mret (- ENODEV, pos, [])
  else if major =? 1 then rw_memory r (MINOR dev) pos
  else if major =? 4 then with_pos pos (rw_ttyx r (MINOR dev))
  else if major =? 5 then with_pos pos (rw_tty r)
  else mret (- ENODEV, pos, []).

(** ** read_write.c *)

(** [current->filp[fd]] *)
Definition open_file (fd : Z) : M st ptr :=
  c ← the_current;
  mret (if Z.of_nat NR_OPEN <=? fd then None else match t_filp c !! Z.to_nat fd with Some p => p | None => None end).

Definition sys_lseek (fd offset origin : Z) : M st Z :=
  p ← open_file fd;
  match p with
  | None => mret (- EBADF)
  | Some filp =>
    f ← the_file filp;
    match f_inode f with
    | None => mret (- EBADF)
    | Some inode =>
      x ← the_inode inode;
      if negb (IS_SEEKABLE (MAJOR (i_dev x))) then mret (- EBADF)
      else if i_pipe x then mret (- ESPIPE)
      else
        let pos :=
          if origin =? 0 then offset
          else if origin =? 1 then s32 (f_pos f + offset)
          else if origin =? 2 then s32 (i_size x + offset)
          else -1 in
        if pos <? 0 then mret (- EINVAL)
        else upd_file filp (set_f_pos pos) ;; mret pos
    end
  end.

(** storing the new position of a device *)
Definition store_pos (filp : nat) (r : Z * Z * bytes) : M st (Z * bytes) :=
  upd_file filp (set_f_pos r.1.2) ;; mret (r.1.1, r.2).

(** [buf] is the address of the user's buffer, which is made writable *)
Definition sys_read (fd buf count : Z) : M st (Z * bytes) :=
  p ← open_file fd;
  match p with
  | None => mret (- EINVAL, [])
  | Some filp =>
    if count <? 0 then mret (- EINVAL, [])
    else if count =? 0 then mret (0, [])
    else
      verify_area buf count ;;
      f ← the_file filp;
      inode ← of_opt (f_inode f);
      x ← the_inode inode;
      if i_pipe x then
        if negb (Z.land (f_mode f) 1 =? 0) then
          d ← read_pipe others inode count; mret (Z.of_nat (length d), d)
        else mret (- EIO, [])
      else if S_ISCHR (i_mode x) then r ← rw_char (Read count) (get_zone 0 x) (f_pos f); store_pos filp r
      else if S_ISBLK (i_mode x) then r ← block_read sync_below (get_zone 0 x) (f_pos f) count; store_pos filp r
      else if S_ISDIR (i_mode x) || S_ISREG (i_mode x) then
        let count := if i_size x <? u32 (count + f_pos f) then s32 (i_size x - f_pos f) else count in
        if count <=? 0 then mret (0, [])
        else file_read sync_below inode filp count
      else mret (- EINVAL, [])
  end.

Definition sys_write (fd : Z) (buf : bytes) : M st Z :=
  p ← open_file fd;
  match p with
  | None => mret (- EINVAL)
  | Some filp =>
    if (length buf =? 0)%nat then mret 0
    else
      f ← the_file filp;
      inode ← of_opt (f_inode f);
      x ← the_inode inode;
      if i_pipe x then
        if negb (Z.land (f_mode f) 2 =? 0) then write_pipe others inode buf else mret (- EIO)
      else if S_ISCHR (i_mode x) then
        r ← rw_char (Write buf) (get_zone 0 x) (f_pos f);
        q ← store_pos filp r; mret q.1
      else if S_ISBLK (i_mode x) then
        r ← block_write sync_below (get_zone 0 x) (f_pos f) buf;
        upd_file filp (set_f_pos r.2) ;; mret r.1
      else if S_ISREG (i_mode x) then file_write sync_below inode filp buf
      else mret (- EINVAL)
  end.

(** ** ioctl.c *)
Definition sys_ioctl (fd cmd arg : Z) (u : user_data) : M st (Z * user_data) :=
  p ← open_file fd;
  match p with
  | None => mret (- EBADF, U_none)
  | Some filp =>
    f ← the_file filp;
    inode ← of_opt (f_inode f);
    x ← the_inode inode;
    if negb (S_ISCHR (i_mode x)) && negb (S_ISBLK (i_mode x)) then mret (- EINVAL, U_none)
    else
      let dev := get_zone 0 x in
      if NRDEVS <=? MAJOR dev then mret (- ENODEV, U_none)
      else if (MAJOR dev =? 4) || (MAJOR dev =? 5) then on_tty (tty_ioctl dev cmd arg u)
      else mret (- ENOTTY, U_none)
  end.
End read_write.
