(* ===== verification/Open.v ===== *)
(** * Opening, closing and duplicating files

    Models [linux-0.11/fs/open.c], [fs/fcntl.c] and [fs/stat.c]: the file
    descriptors of a task, the attributes of files, and the directories of a
    task. *)

From S2P Require Import Prelude Blk Buffer BufferCache Memory Task Sched Tty FsData KernelRules Bitmap Inode Namei Super ReadWrite Fork.

(** the bit of a descriptor in [close_on_exec], and clearing it *)
Definition fdbit (fd : Z) : Z := Z.shiftl 1 fd.
Definition clear_close (fd : Z) (c : task_struct) : task_struct :=
  set_t_close_on_exec (Z.land (t_close_on_exec c) (Z.lnot (fdbit fd))) c.
Definition put_filp (fd : nat) (p : ptr) (c : task_struct) : task_struct :=
  set_t_filp (<[fd := p]> (t_filp c)) c.
Definition no_file (p : ptr) : bool := match p with None => true | Some _ => false end.

(** [struct stat] *)
Record stat := mk_stat {
  st_dev : Z; st_ino : Z; st_mode : Z; st_nlink : Z; st_uid : Z; st_gid : Z; st_rdev : Z;
  st_size : Z; st_atime : Z; st_mtime : Z; st_ctime : Z
}.

Section open.
Context {D : Type} `{BlockDriver D}.
Abbreviation st := (bstate D kernel).
Context (sync_below : M st unit) (floppy_change : Z → M st bool).
Abbreviation iput := (Inode.iput sync_below).
Abbreviation namei := (Namei.namei sync_below).

(** ** Attributes *)
Definition sys_ustat : Z := - ENOSYS.

(** [times] is what [times] points to, if it is not NULL *)
Definition sys_utime (filename : bytes) (times : option (Z * Z)) : M st Z :=
  p ← namei filename;
  match p with
  | None => mret (- ENOENT)
  | Some inode =>
    t ← now;
    let '(actime, modtime) := match times with Some q => q | None => (t, t) end in
    upd_inode inode (λ x, set_i_dirt true (set_i_mtime (u32 modtime) (set_i_atime (u32 actime) x))) ;;
    iput (Some inode) ;;
    mret 0
  end.

(** the owner and the group of the inode are read after [iput] has released
    it *)
Definition sys_access (filename : bytes) (mode : Z) : M st Z :=
  let mode := Z.land mode 7 in
  p ← namei filename;
  match p with
  | None => mret (- EACCES)
  | Some inode =>
    x ← the_inode inode;
    let i_mode := Z.land (i_mode x) 0x1ff in
    iput (Some inode) ;;
    x ← the_inode inode;
    c ← the_current;
    let res := if t_uid c =? i_uid x then Z.shiftr i_mode 6
               else if t_gid c =? i_gid x then Z.shiftr i_mode 6 else i_mode in
    if Z.land (Z.land res 7) mode =? mode then mret 0
    else if (t_uid c =? 0) && ((Z.land mode 1 =? 0) || negb (Z.land i_mode 0x49 =? 0)) then mret 0
    else mret (- EACCES)
  end.

Definition change_dir (put : ptr → task_struct → task_struct) (get : task_struct → ptr) (filename : bytes) : M st Z :=
  p ← namei filename;
  match p with
  | None => mret (- ENOENT)
  | Some inode =>
    x ← the_inode inode;
    if negb (S_ISDIR (i_mode x)) then iput (Some inode) ;; mret (- ENOTDIR)
    else
      c ← the_current;
      iput (get c) ;;
      upd_current (put (Some inode)) ;;
      mret 0
  end.
Definition sys_chdir : bytes → M st Z := change_dir set_t_pwd t_pwd.
Definition sys_chroot : bytes → M st Z := change_dir set_t_root t_root.

Definition sys_chmod (filename : bytes) (mode : Z) : M st Z :=
  p ← namei filename;
  match p with
  | None => mret (- ENOENT)
  | Some inode =>
    x ← the_inode inode;
    c ← the_current;
    if negb (t_euid c =? i_uid x) && negb (suser c) then iput (Some inode) ;; mret (- EACCES)
    else
      upd_inode inode (λ x, set_i_dirt true
        (set_i_mode (u16 (Z.lor (Z.land mode 0xfff) (Z.land (i_mode x) (Z.lnot 0xfff)))) x)) ;;
      iput (Some inode) ;;
      mret 0
  end.

Definition sys_chown (filename : bytes) (uid gid : Z) : M st Z :=
  p ← namei filename;
  match p with
  | None => mret (- ENOENT)
  | Some inode =>
    c ← the_current;
    if negb (suser c) then iput (Some inode) ;; mret (- EACCES)
    else
      upd_inode inode (λ x, set_i_dirt true (set_i_gid (u8 gid) (set_i_uid (u16 uid) x))) ;;
      iput (Some inode) ;;
      mret 0
  end.

(** ** stat.c *)
Definition cp_stat (inode : nat) (statbuf : Z) : M st stat :=
  verify_area statbuf 32 ;;
  x ← the_inode inode;
  mret (mk_stat (i_dev x) (i_num x) (i_mode x) (i_nlinks x) (i_uid x) (i_gid x) (get_zone 0 x)
    (s32 (i_size x)) (s32 (i_atime x)) (s32 (i_mtime x)) (s32 (i_ctime x))).

Definition sys_stat (filename : bytes) (statbuf : Z) : M st (Z * option stat) :=
  p ← namei filename;
  match p with
  | None => mret (- ENOENT, None)
  | Some inode =>
    b ← cp_stat inode statbuf;
    iput (Some inode) ;;
    mret (0, Some b)
  end.

Definition sys_fstat (fd statbuf : Z) : M st (Z * option stat) :=
  p ← open_file fd;
  match p with
  | None => mret (- EBADF, None)
  | Some filp =>
    f ← the_file filp;
    match f_inode f with
    | None => mret (- EBADF, None)
    | Some inode => b ← cp_stat inode statbuf; mret (0, Some b)
    end
  end.

(** ** open and close *)

(** giving up the descriptor and the table entry *)
Definition undo_open (fd f : nat) (err : Z) : M st Z :=
  upd_current (put_filp fd None) ;; upd_file f (set_f_count 0) ;; mret err.

(** a terminal becomes the terminal of a session leader that has none; without
    a terminal, the device of one's own terminal cannot be opened *)
Definition open_tty (x : m_inode) : M st bool :=
  if negb (S_ISCHR (i_mode x)) then mret true
  else
    c ← the_current;
    if MAJOR (get_zone 0 x) =? 4 then
      when (negb (t_leader c =? 0) && (t_tty c <? 0))
        (let t := MINOR (get_zone 0 x) in
         upd_current (set_t_tty t) ;;
         on_tty (upd_tty (Z.to_nat t) (set_tty_pgrp (t_pgrp c)))) ;;
      mret true
    else if MAJOR (get_zone 0 x) =? 5 then mret (negb (t_tty c <? 0))
    else mret true.

Definition sys_open (filename : bytes) (flag mode : Z) : M st Z :=
  c ← the_current;
  let mode := Z.land mode (Z.land 0x1ff (Z.lnot (t_umask c))) in
  match find_idx no_file (t_filp c) with
  | None => mret (- EINVAL)
  | Some fd =>
    upd_current (clear_close (Z.of_nat fd)) ;;
    q ← gets (λ s, find_idx (λ f, f_count f =? 0) (file_table (up s)));
    match q with
    | None => mret (- EINVAL)
    | Some f =>
      upd_current (put_filp fd (Some f)) ;;
      upd_file f (set_f_count 1) ;;
      r ← open_namei sync_below filename flag mode;
      match r with
      | (i, Some inode) =>
        x ← the_inode inode;
        ok ← open_tty x;
        if negb ok then iput (Some inode) ;; undo_open fd f (- EPERM)
        else
          when (S_ISBLK (i_mode x)) (check_disk_change floppy_change (get_zone 0 x)) ;;
          x ← the_inode inode;
          upd_file f (λ _, mk_file (i_mode x) (u16 flag) 1 (Some inode) 0) ;;
          mret (Z.of_nat fd)
      | (i, None) => undo_open fd f i
      end
    end
  end.

Definition sys_creat (pathname : bytes) (mode : Z) : M st Z := sys_open pathname (Z.lor O_CREAT O_TRUNC) mode.

Definition sys_close (fd : Z) : M st Z :=
  if Z.of_nat NR_OPEN <=? fd then mret (- EINVAL)
  else
    upd_current (clear_close fd) ;;
    p ← open_file fd;
    match p with
    | None => mret (- EINVAL)
    | Some filp =>
      upd_current (put_filp (Z.to_nat fd) None) ;;
      f ← the_file filp;
      if f_count f =? 0 then panic "Close: file count is 0"
      else
        upd_file filp (λ f, set_f_count (u16 (f_count f - 1)) f) ;;
        f ← the_file filp;
        if negb (f_count f =? 0) then mret 0
        else iput (f_inode f) ;; mret 0
    end.

(** ** fcntl.c *)
Definition F_DUPFD : Z := 0.
Definition F_GETFD : Z := 1.
Definition F_SETFD : Z := 2.
Definition F_GETFL : Z := 3.
Definition F_SETFL : Z := 4.

Definition dupfd (fd arg : Z) : M st Z :=
  p ← open_file fd;
  match p with
  | None => mret (- EBADF)
  | Some filp =>
    if Z.of_nat NR_OPEN <=? arg then mret (- EINVAL)
    else
      c ← the_current;
      match find_idx no_file (drop (Z.to_nat arg) (t_filp c)) with
      | None => mret (- EMFILE)
      | Some k =>
        let new := (Z.to_nat arg + k)%nat in
        upd_current (clear_close (Z.of_nat new)) ;;
        upd_current (put_filp new (Some filp)) ;;
        upd_file filp (λ f, set_f_count (u16 (f_count f + 1)) f) ;;
        mret (Z.of_nat new)
      end
  end.

Definition sys_dup2 (oldfd newfd : Z) : M st Z := sys_close newfd ;; dupfd oldfd newfd.
Definition sys_dup (fildes : Z) : M st Z := dupfd fildes 0.

Definition sys_fcntl (fd cmd arg : Z) : M st Z :=
  p ← open_file fd;
  match p with
  | None => mret (- EBADF)
  | Some filp =>
    c ← the_current;
    if cmd =? F_DUPFD then dupfd fd arg
    else if cmd =? F_GETFD then mret (Z.land (Z.shiftr (t_close_on_exec c) fd) 1)
    else if cmd =? F_SETFD then
      upd_current (λ c, if negb (Z.land arg 1 =? 0)
        then set_t_close_on_exec (Z.lor (t_close_on_exec c) (fdbit fd)) c else clear_close fd c) ;;
      mret 0
    else if cmd =? F_GETFL then f ← the_file filp; mret (f_flags f)
    else if cmd =? F_SETFL then
      upd_file filp (λ f, set_f_flags (u16 (Z.lor (Z.land (f_flags f) (Z.lnot (Z.lor O_APPEND O_NONBLOCK)))
        (Z.land arg (Z.lor O_APPEND O_NONBLOCK)))) f) ;;
      mret 0
    else mret (-1)
  end.
End open.

(** ** Descriptors *)
Section descriptors.
Context {D : Type} `{BlockDriver D}.
Abbreviation st := (bstate D kernel).
Context (sync_below : M st unit) (floppy_change : Z → M st bool).
Implicit Types (s : st).

(** descriptor [fd] of the task [c] is open, on the entry [filp] of the file
    table *)
Record fd_open s (c : task_struct) (fd : Z) (filp : nat) (f : file) : Prop := {
  fo_cur : is_cur (k_sched (up s)) c;
  fo_fd : 0 ≤ fd < Z.of_nat NR_OPEN;
  fo_table : length (t_filp c) = NR_OPEN;
  fo_filp : t_filp c !! Z.to_nat fd = Some (Some filp);
  fo_file : file_table (up s) !! filp = Some f
}.

Definition fd_used (c : task_struct) (i : nat) : Prop := ∃ g, t_filp c !! i = Some (Some g).

(** [new] is the lowest free descriptor from [arg] on *)
Record lowest_free (c : task_struct) (arg new : nat) : Prop := {
  lf_range : (arg ≤ new < NR_OPEN)%nat;
  lf_free : t_filp c !! new = Some None;
  lf_least i : (arg ≤ i < new)%nat → fd_used c i
}.

Lemma wp_open_file s c fd filp f (Q : ptr → st → Prop) :
  fd_open s c fd filp f → Q (Some filp) s → wp (open_file fd) Q s.
Proof.
  intros [Hc Hfd _ Hp _] HQ. unfold open_file. apply wp_bind. eapply wp_the_current; [done|]. apply wp_ret.
  rewrite (proj2 (Z.leb_gt _ _)), Hp by lia. done.
Qed.

(** the search for a free descriptor *)
Lemma find_free c arg : length (t_filp c) = NR_OPEN → (arg ≤ NR_OPEN)%nat →
  match find_idx no_file (drop arg (t_filp c)) with
  | Some k => lowest_free c arg (arg + k)
  | None => ∀ i, (arg ≤ i < NR_OPEN)%nat → fd_used c i
  end.
Proof.
  intros Hlen Harg.
  assert (Hused : ∀ i p, t_filp c !! i = Some p → no_file p = false → fd_used c i).
  { intros i [g|] Hi Hno; [by exists g|done]. }
  destruct (find_idx no_file (drop arg (t_filp c))) as [k|] eqn:E.
  - apply find_idx_Some in E as (p & Hp & Hno & Hmin). rewrite lookup_drop in Hp.
    assert (p = None) as -> by (by destruct p). pose proof (lookup_lt_Some _ _ _ Hp). constructor; [lia|done|].
    intros i Hi. destruct (lookup_lt_is_Some_2 (t_filp c) i) as [p Hpi]; [lia|]. eapply Hused; [done|].
    apply (Hmin (i - arg)%nat); [lia|]. rewrite lookup_drop. by replace (arg + (i - arg))%nat with i by lia.
  - rewrite find_idx_None in E. intros i Hi. destruct (lookup_lt_is_Some_2 (t_filp c) i) as [p Hpi]; [lia|].
    eapply Hused; [done|]. apply E. apply list_elem_of_lookup. exists (i - arg)%nat. rewrite lookup_drop.
    by replace (arg + (i - arg))%nat with i by lia.
Qed.

(** the state in which descriptor [new] is open too *)
Definition duplicated s c (filp new : nat) (f : file) : st :=
  let s1 := with_current (put_filp new (Some filp) (clear_close (Z.of_nat new) c)) s in
  set_up (set_file_table (<[filp := set_f_count (u16 (f_count f + 1)) f]> (file_table (up s1))) (up s1)) s1.

Lemma dupfd_run s c fd filp f arg : fd_open s c fd filp f → 0 ≤ arg < Z.of_nat NR_OPEN →
  wp (dupfd fd arg) (λ r s',
    (r = - EMFILE ∧ s' = s ∧ ∀ i, (Z.to_nat arg ≤ i < NR_OPEN)%nat → fd_used c i) ∨
    ∃ new, r = Z.of_nat new ∧ lowest_free c (Z.to_nat arg) new ∧ s' = duplicated s c filp new f) s.
Proof.
  intros Hfd Harg. pose proof Hfd as [Hc _ Hlen _ Hf]. unfold dupfd. apply wp_bind. eapply wp_open_file; [done|].
  rewrite (proj2 (Z.leb_gt _ _)) by lia. apply wp_bind. eapply wp_the_current; [done|].
  pose proof (find_free c (Z.to_nat arg) Hlen ltac:(lia)) as Hfree.
  destruct (find_idx no_file _) as [k|]; [|apply wp_ret; left; done].
  apply wp_bind. eapply wp_upd_current; [done|]. apply wp_bind.
  eapply wp_upd_current; [by eapply with_current_cur|]. rewrite with_current_twice.
  apply wp_bind. eapply wp_upd_file; [done|]. apply wp_ret. right. by exists (Z.to_nat arg + k)%nat.
Qed.

(** C34. [dup] and [fcntl(F_DUPFD)] open the lowest free descriptor that is at
    least the one asked for, on the same entry of the file table, whose count
    goes up by one, and the new descriptor is kept over exec; with no such
    descriptor the call fails with [-EMFILE] and nothing changes. *)
Theorem dupfd_lowest s (c : task_struct) (fd : Z) (filp : nat) (f : file) (arg : Z) :
  fd_open s c fd filp f → 0 ≤ arg < Z.of_nat NR_OPEN →
  wp (dupfd fd arg) (λ r s',
    (r = - EMFILE ∧ s' = s ∧ ∀ i, (Z.to_nat arg ≤ i < NR_OPEN)%nat → fd_used c i) ∨
    ∃ new, r = Z.of_nat new ∧ lowest_free c (Z.to_nat arg) new ∧ s' = duplicated s c filp new f) s.
Proof. apply dupfd_run. Qed.

(** Closing the descriptor that [dup] has opened takes it back: the
    descriptors of the task and the file table are what they were (the inode
    stays in use), and the close succeeds. *)
Theorem dup_close_roundtrip s (c : task_struct) (fd : Z) (filp : nat) (f : file) (arg : Z) :
  fd_open s c fd filp f → 0 ≤ arg < Z.of_nat NR_OPEN → 1 ≤ f_count f < 65535 →
  (∃ i, (Z.to_nat arg ≤ i < NR_OPEN)%nat ∧ t_filp c !! i = Some None) →
  wp (r ← dupfd fd arg; sys_close sync_below r) (λ r s', r = 0 ∧ ∃ new,
    lowest_free c (Z.to_nat arg) new ∧ s' = with_current (clear_close (Z.of_nat new) c) s) s.
Proof.
  intros Hfd Harg Hcnt (i & Hi & Hfree). pose proof Hfd as [Hc Hr Hlen Hp Hf].
  apply wp_bind. eapply wp_mono; [by apply (dupfd_run s c fd filp f arg)|].
  intros r s1 [(_ & _ & Hall)|(new & -> & Hnew & ->)].
  { destruct (Hall i Hi) as [g Hg]. rewrite Hfree in Hg. discriminate. }
  pose proof Hnew as [Hrange Hnone _]. set (s1 := duplicated s c filp new f).
  set (c1 := put_filp new (Some filp) (clear_close (Z.of_nat new) c)).
  assert (Hc1 : is_cur (k_sched (up s1)) c1) by (by eapply with_current_cur).
  unfold sys_close. rewrite (proj2 (Z.leb_gt _ _)) by lia.
  apply wp_bind. eapply wp_upd_current; [done|]. set (c2 := clear_close (Z.of_nat new) c1). set (s2 := with_current c2 s1).
  assert (Hfd2 : fd_open s2 c2 (Z.of_nat new) filp (set_f_count (u16 (f_count f + 1)) f)).
  { constructor; [by eapply with_current_cur|lia| | |].
    - cbn. by rewrite length_insert.
    - cbn. rewrite Nat2Z.id, list_lookup_insert_eq; [done|lia].
    - cbn. rewrite list_lookup_insert_eq; [done|]. by eapply lookup_lt_Some. }
  apply wp_bind. eapply wp_open_file; [done|]. apply wp_bind. eapply wp_upd_current; [apply Hfd2|].
  apply wp_bind. eapply wp_the_file; [apply Hfd2|]. cbn [f_count set_f_count]. rewrite u16_id by lia.
  rewrite (proj2 (Z.eqb_neq _ _)) by lia. apply wp_bind. eapply wp_upd_file; [apply Hfd2|].
  apply wp_bind. eapply wp_the_file; [cbn; rewrite list_lookup_insert_eq; [done|]|].
  { rewrite length_insert. by eapply lookup_lt_Some. }
  cbn [f_count set_f_count]. rewrite (u16_id (f_count f + 1)), u16_id by lia.
  replace (f_count f + 1 - 1) with (f_count f) by lia. rewrite (proj2 (Z.eqb_neq _ _)) by lia. apply wp_ret.
  split; [done|]. exists new. split; [done|].
  unfold s2, s1, duplicated, with_current, set_up, set_k_sched, set_file_table. cbn.
  rewrite !with_cur_twice, list_insert_insert_eq. f_equal. f_equal.
  - rewrite list_insert_id; [done|]. rewrite Hf. by destruct f.
  - f_equal. unfold c2, c1, clear_close, put_filp, set_t_filp, set_t_close_on_exec. cbn. f_equal.
    + by rewrite <- Z.land_assoc, Z.land_diag.
    + by rewrite Nat2Z.id, list_insert_insert_eq, list_insert_id.
Qed.
End descriptors.

(** ** Concrete input: descriptor 0 open on an entry of the file table *)
Definition demo_opener : task_struct := set_t_filp (Some 5%nat :: replicate 19 None) (demo_task 0 0).
Definition demo_open_st : bstate blk kernel :=
  demo_start (set_k_sched (mk_sched [Some demo_opener] 0 0 0 0)
    (set_file_table (<[5%nat := mk_file 0 0 1 None 0]> (file_table demo_kernel)) demo_kernel)).

Lemma demo_fd_open : fd_open demo_open_st demo_opener 0 5 (mk_file 0 0 1 None 0).
Proof. constructor; [reflexivity|unfold NR_OPEN; lia|reflexivity..]. Qed.

Lemma dupfd_lowest_witness :
  wp (dupfd 0 0) (λ r s',
    (r = - EMFILE ∧ s' = demo_open_st ∧ ∀ i, (Z.to_nat 0 ≤ i < NR_OPEN)%nat → fd_used demo_opener i) ∨
    ∃ new, r = Z.of_nat new ∧ lowest_free demo_opener (Z.to_nat 0) new ∧
      s' = duplicated demo_open_st demo_opener 5 new (mk_file 0 0 1 None 0)) demo_open_st.
Proof. apply (dupfd_lowest _ _ _ _ _ _ demo_fd_open). unfold NR_OPEN. lia. Defined.

Lemma dup_close_roundtrip_witness :
  wp (r ← dupfd 0 3; sys_close (mret tt) r) (λ r s', r = 0 ∧ ∃ new,
    lowest_free demo_opener (Z.to_nat 3) new ∧
    s' = with_current (clear_close (Z.of_nat new) demo_opener) demo_open_st) demo_open_st.
Proof.
  apply (dup_close_roundtrip (mret tt) _ _ _ _ _ 3 demo_fd_open).
  - unfold NR_OPEN. lia.
  - cbn. lia.
  - exists 3%nat. split; [unfold NR_OPEN; lia|reflexivity].
Defined.
