(* ===== verification/PageFault.v ===== *)
(** * Page faults, and access to user memory

    Models [share_page] and [do_no_page] of [linux-0.11/mm/memory.c], and the
    functions of [include/asm/segment.h] that read and write user memory: an
    access to a page that is not there, or a write to one that is
    write-protected, faults, and is done again after the handler. *)

From S2P Require Import Prelude Blk Buffer Memory Task FsData Bitmap Inode Signal Fork.

Section page_fault.
Context {D : Type} `{BlockDriver D}.
Abbreviation st := (bstate D kernel).
Context (sync_below : M st unit).

(** the loop of [share_page] over the tasks [l] *)
Fixpoint share_with (l : list nat) (address : Z) : M st bool :=
  match l with
  | [] => mret false
  | i :: l' =>
    p ← on_sched (slot i);
    s ← on_sched get_st;
    match p with
    | None => share_with l' address
    | Some _ =>
      c ← the_current;
      t ← on_sched (the_task i);
      if (i =? current s)%nat then share_with l' address
      else if negb (bool_decide (t_executable t = t_executable c)) then share_with l' address
      else
        ok ← on_mem (try_to_share address (t_start_code t) (t_start_code c));
        if (ok : bool) then mret true else share_with l' address
    end
  end.

Definition share_page (address : Z) : M st bool :=
  c ← the_current;
  match t_executable c with
  | None => mret false
  | Some e =>
    x ← the_inode e;
    if i_count x <? 2 then mret false else share_with slots address
  end.

(** the zones of [n] blocks of a file from [block] on *)
Fixpoint blocks_of (n : nat) (inode : nat) (block : Z) : M st (list Z) :=
  match n with
  | O => mret []
  | S n' =>
    nr ← Inode.bmap sync_below inode block;
    rest ← blocks_of n' inode (block + 1);
    mret (nr :: rest)
  end.

(** the blocks read go into the quarters of the page at [a] *)
Fixpoint fill_page (a : Z) (l : list (option bytes)) : M mem unit :=
  match l with
  | [] => mret tt
  | q :: l' =>
    match q with Some d => modify (λ s, set_phys (mem_write a d (phys s)) s) | None => mret tt end ;;
    fill_page (a + BLOCK_SIZE) l'
  end.

Definition do_no_page (error_code address : Z) : M st unit :=
  let address := Z.land address 0xfffff000 in
  c ← the_current;
  let tmp := u32 (address - t_start_code c) in
  match t_executable c with
  | Some executable =>
    if t_end_data c <=? tmp then on_mem (get_empty_page address)
    else
      shared ← share_page tmp;
      if (shared : bool) then mret tt
      else
        page ← on_mem get_free_page;
        if page =? 0 then on_mem oom
        else
          nr ← blocks_of 4 executable (1 + tmp / BLOCK_SIZE);
          x ← the_inode executable;
          data ← bread_page sync_below (i_dev x) nr;
          on_mem (fill_page page data) ;;
          let i := Z.to_nat (s32 (tmp + 4096 - t_end_data c)) in
          on_mem (modify (λ s, set_phys (mem_write (page + 4096 - Z.of_nat i) (replicate i 0) (phys s)) s)) ;;
          r ← on_mem (put_page page address);
          if negb (r =? 0) then mret tt
          else on_mem (free_page page) ;; on_mem oom
  | None => on_mem (get_empty_page address)
  end.

(** ** User memory *)

(** may the page of a linear address be written? *)
Definition writable_page (p : Z → Z) (address : Z) : bool :=
  let d := rd32 p (Z.land (Z.shiftr address 20) 0xffc) in
  present d && Z.testbit (rd32 p (page_of d + 4 * Z.land (Z.shiftr address 12) 0x3ff)) 1.

(** the physical address of [a], an address of the running task, after the
    faults that an access to it causes *)
Definition user_page (write : bool) (a : Z) : M st Z :=
  c ← the_current;
  let lin := u32 (get_base 2 c + a) in
  s ← on_mem get_st;
  match translate (phys s) lin with
  | Some _ => mret tt
  | None => do_no_page (if write then 2 else 0) lin
  end ;;
  s ← on_mem get_st;
  when (write && negb (writable_page (phys s) lin)) (on_mem (do_wp_page 3 lin)) ;;
  s ← on_mem get_st;
  of_opt (translate (phys s) lin).

Definition get_fs_byte (a : Z) : M st Z :=
  p ← user_page false a;
  on_mem (gets (λ s, phys s p)).
Definition put_fs_byte (v a : Z) : M st unit :=
  p ← user_page true a;
  on_mem (modify (λ s, set_phys (mem_write p [u8 v] (phys s)) s)).
(** a long that does not cross the end of a page *)
Definition put_fs_long (v a : Z) : M st unit :=
  p ← user_page true a;
  on_mem (store p (u32 v)).
End page_fault.
