(* ===== verification/Exit.v ===== *)
(** * The end of processes

    Models [linux-0.11/kernel/exit.c], but for the sending of signals (the file
    Signal), and [do_signal] of [kernel/signal.c].

    [do_exit] does not return: its outcome is [Exit].  [others] is what the
    other tasks do between a call of [schedule] and the moment the caller runs
    again. *)

From S2P Require Import Prelude Blk Buffer Memory Task Sys Signal Tty FsData Bitmap Inode Open Fork.

Definition WNOHANG : Z := 1.
Definition WUNTRACED : Z := 2.

Section exit.
Context {D : Type} `{BlockDriver D}.
Abbreviation st := (bstate D kernel).
Context (sync_below others : M st unit).

(** [release] up to its call of [schedule] *)
Definition release (p : ptr) : M st unit :=
  match p with
  | None => mret tt
  | Some O => panic "trying to release non-existent task"
  | Some i =>
    t ← on_sched (the_task i);
    put_task i None ;;
    on_mem (free_page (t_page t))
  end.

Definition tell_father (pid : Z) : M st unit :=
  s ← on_sched get_st;
  match (if pid =? 0 then None else find_idx (has_pid pid) (task s)) with
  | Some i => on_sched (upd_task i (λ t, set_t_signal (Z.lor (t_signal t) (sigbit SIGCHLD)) t))
  | None => release (Some (current s))
  end.

(** the children of the task are given to init *)
Definition orphan (i : nat) : M st unit :=
  c ← the_current;
  p ← on_sched (slot i);
  match p with
  | None => mret tt
  | Some i =>
    t ← on_sched (the_task i);
    when (t_father t =? t_pid c)
      (on_sched (upd_task i (set_t_father 1)) ;;
       when (t_state t =? TASK_ZOMBIE)
         (init ← on_sched (slot 1);
          on_sched (send_sig SIGCHLD init true) ;; mret tt))
  end.

Definition close_fd (i : nat) : M st unit :=
  c ← the_current;
  match t_filp c !! i with
  | Some (Some _) => sys_close sync_below (Z.of_nat i) ;; mret tt
  | _ => mret tt
  end.

Definition put_inode (get : task_struct → ptr) (put : ptr → task_struct → task_struct) : M st unit :=
  c ← the_current;
  iput sync_below (get c) ;;
  upd_current (put None).

Definition do_exit {A} (code : Z) : M st A :=
  c ← the_current;
  on_mem (free_page_tables (get_base 1 c) (get_limit 1 c)) ;;
  on_mem (free_page_tables (get_base 2 c) (get_limit 2 c)) ;;
  for_each orphan (seq 0 NR_TASKS) ;;
  for_each close_fd (seq 0 NR_OPEN) ;;
  put_inode t_pwd set_t_pwd ;;
  put_inode t_root set_t_root ;;
  put_inode t_executable set_t_executable ;;
  c ← the_current;
  when (negb (t_leader c =? 0) && (0 <=? t_tty c)) (on_tty (upd_tty (Z.to_nat (t_tty c)) (set_tty_pgrp 0))) ;;
  when (negb (t_leader c =? 0)) (on_sched kill_session) ;;
  upd_current (λ c, set_t_exit_code code (set_t_state TASK_ZOMBIE c)) ;;
  tell_father (t_father c) ;;
  exit_task code.

Definition sys_exit {A} (error_code : Z) : M st A := do_exit (Z.shiftl (Z.land error_code 0xff) 8).

(** ** waitpid *)

(** is task [t] one that the task [c] waits for? *)
Definition waits_for (c t : task_struct) (pid : Z) : bool :=
  (t_father t =? t_pid c) &&
  (if 0 <? pid then t_pid t =? pid
   else if pid =? 0 then t_pgrp t =? t_pgrp c
   else if negb (pid =? -1) then t_pgrp t =? - pid
   else true).

(** the loop over the slots [l]: either a child has been found - its pid, and
    what is stored at [stat_addr] - or the flag *)
Fixpoint wait_scan (l : list nat) (pid options flag : Z) : M st (Z * list Z + Z) :=
  match l with
  | [] => mret (inr flag)
  | i :: l' =>
    p ← on_sched (slot i);
    s ← on_sched get_st;
    match p with
    | None => wait_scan l' pid options flag
    | Some _ =>
      c ← the_current;
      t ← on_sched (the_task i);
      if (i =? current s)%nat || negb (waits_for c t pid) then wait_scan l' pid options flag
      else if t_state t =? TASK_STOPPED then
        if Z.land options WUNTRACED =? 0 then wait_scan l' pid options flag
        else mret (inl (t_pid t, [0x7f]))
      else if t_state t =? TASK_ZOMBIE then
        upd_current (λ c, set_t_cstime (s32 (t_cstime c + t_stime t)) (set_t_cutime (s32 (t_cutime c + t_utime t)) c)) ;;
        release (Some i) ;;
        others ;;
        mret (inl (t_pid t, [t_exit_code t]))
      else wait_scan l' pid options 1
    end
  end.

(** [fuel] bounds the number of times the task is woken *)
Fixpoint waitpid_loop (fuel : nat) (pid options : Z) : M st (Z * list Z) :=
  match fuel with
  | O => nofuel
  | S fuel' =>
    r ← wait_scan slots pid options 0;
    match r with
    | inl q => mret q
    | inr flag =>
      if flag =? 0 then mret (- ECHILD, [])
      else if negb (Z.land options WNOHANG =? 0) then mret (0, [])
      else
        upd_current (set_t_state TASK_INTERRUPTIBLE) ;;
        others ;;
        upd_current (λ c, set_t_signal (Z.land (t_signal c) (Z.lnot (sigbit SIGCHLD))) c) ;;
        c ← the_current;
        if t_signal c =? 0 then waitpid_loop fuel' pid options else mret (- EINTR, [])
    end
  end.

Definition sys_waitpid (fuel : nat) (pid stat_addr options : Z) : M st (Z * list Z) :=
  verify_area stat_addr 4 ;;
  waitpid_loop fuel pid options.

(** ** do_signal *)

(** the registers saved when the kernel was entered *)
Record saved := mk_saved {
  v_eax : Z; v_ebx : Z; v_ecx : Z; v_edx : Z; v_eip : Z; v_eflags : Z; v_esp : Z
}.

(** the registers to return with, and the longs put on the user's stack at the
    new [esp] *)
Definition do_signal (signr : Z) (r : saved) : M st (saved * list Z) :=
  sa ← on_sched (the_action signr);
  if sa_handler sa =? 1 then mret (r, [])
  else if (sa_handler sa =? 0) && (signr =? SIGCHLD) then mret (r, [])
  else
    when (sa_handler sa =? 0) (do_exit (sigbit signr)) ;;
    when (negb (Z.land (sa_flags sa) SA_ONESHOT =? 0)) (on_sched (upd_action signr (set_sa_handler 0))) ;;
    let masked := Z.land (sa_flags sa) SA_NOMASK =? 0 in
    let longs := if masked then 8 else 7 in
    let esp := u32 (v_esp r - 4 * longs) in
    verify_area esp (longs * 4) ;;
    c ← the_current;
    upd_current (λ c, set_t_blocked (Z.lor (t_blocked c) (s32 (sa_mask sa))) c) ;;
    mret (mk_saved (v_eax r) (v_ebx r) (v_ecx r) (v_edx r) (sa_handler sa) (v_eflags r) esp,
          [sa_restorer sa; signr] ++ (if masked then [t_blocked c] else []) ++
          [v_eax r; v_ecx r; v_edx r; v_eflags r; v_eip r]).
End exit.
