(* ===== verification/Exec.v ===== *)
(** * execve

    Models [linux-0.11/fs/exec.c]: the checks on the file, the [#!] line of
    scripts, the arguments copied to the top of the new image, and the new
    image itself.  [argv] and [envp] are lists of strings, each the bytes
    before its NUL; the strings are fetched from user or kernel memory, a
    distinction ([from_kmem]) that the model does not make. *)

From S2P Require Import Prelude Blk Buffer Memory Task Sys FsData Bitmap Inode Namei Open Fork PageFault.

Definition MAX_ARG_PAGES : nat := 32.
Definition S_ISUID : Z := 0x800.
Definition S_ISGID : Z := 0x400.

(** ** [struct exec] *)
Record exec := mk_exec {
  a_magic : Z; a_text : Z; a_data : Z; a_bss : Z; a_syms : Z; a_entry : Z; a_trsize : Z; a_drsize : Z
}.
Definition decode_exec (d : bytes) : exec :=
  mk_exec (rd_le32 d 0) (rd_le32 d 4) (rd_le32 d 8) (rd_le32 d 12) (rd_le32 d 16) (rd_le32 d 20) (rd_le32 d 24) (rd_le32 d 28).
Definition ZMAGIC : Z := 267.
Definition N_TXTOFF (ex : exec) : Z := if a_magic ex =? ZMAGIC then 1024 else 32.

Definition bad_format (ex : exec) (size : Z) : bool :=
  negb (a_magic ex =? ZMAGIC) || negb (a_trsize ex =? 0) || negb (a_drsize ex =? 0) ||
  (0x3000000 <? u32 (a_text ex + a_data ex + a_bss ex)) ||
  (size <? u32 (a_text ex + a_data ex + a_syms ex + N_TXTOFF ex)).

(** ** The [#!] line *)

(** the bytes before the first one that satisfies [f] *)
Fixpoint before (f : Z → bool) (l : bytes) : bytes :=
  match l with
  | [] => []
  | c :: l' => if f c then [] else c :: before f l'
  end.
Definition is_blank (c : Z) : bool := (c =? 32) || (c =? 9).
Fixpoint skip_blanks (l : bytes) : bytes :=
  match l with
  | c :: l' => if is_blank c then skip_blanks l' else l
  | [] => []
  end.

(** the interpreter and its argument, from the data of the first block *)
Definition parse_interp (d : bytes) : option (bytes * option bytes) :=
  let buf := before (λ c, c =? 0) (slice 2 1022 d) in
  if existsb (λ c, c =? 10) buf then
    let line := skip_blanks (before (λ c, c =? 10) buf) in
    let interp := before is_blank line in
    match line with
    | [] => None
    | _ => Some (interp, match drop (length interp) line with [] => None | _ :: i_arg => Some i_arg end)
    end
  else None.

Section exec.
Context {D : Type} `{BlockDriver D}.
Abbreviation st := (bstate D kernel).
Context (sync_below : M st unit).
Abbreviation iput := (Inode.iput sync_below).
Abbreviation namei := (Namei.namei sync_below).

(** ** copy_strings *)

(** the argument pages, the place reached, and the page and the offset being
    filled *)
Record args := mk_args { ar_page : list Z; ar_p : Z; ar_pag : Z; ar_offset : Z }.

(** the bytes of a string from its end, each a step down; [None] when there is
    no memory *)
Fixpoint copy_bytes (rev_bytes : bytes) (a : args) : M st (list Z * option args) :=
  match rev_bytes with
  | [] => mret (ar_page a, Some a)
  | c :: rest =>
    let p := u32 (ar_p a - 1) in
    let offset := ar_offset a - 1 in
    a' ← (if offset <? 0 then
            let i := Z.to_nat (p / PAGE_SIZE) in
            pag ← of_opt (ar_page a !! i);
            pag ← (if pag =? 0 then on_mem get_free_page else mret pag);
            mret (mk_args (<[i := pag]> (ar_page a)) p pag (p mod PAGE_SIZE))
          else mret (mk_args (ar_page a) p (ar_pag a) offset));
    if ar_pag a' =? 0 then mret (ar_page a', None)
    else
      on_mem (modify (λ s, set_phys (mem_write (ar_pag a' + ar_offset a') [c] (phys s)) s)) ;;
      copy_bytes rest a'
  end.

Fixpoint copy_each (rev_strings : list bytes) (a : args) : M st (list Z * Z) :=
  match rev_strings with
  | [] => mret (ar_page a, ar_p a)
  | s :: rest =>
    r ← copy_bytes (0 :: reverse s) a;
    match r with
    | (_, Some a') => copy_each rest a'
    | (page, None) => mret (page, 0)
    end
  end.

(** the pages and the new [p], 0 when it failed *)
Definition copy_strings (argv : list bytes) (q : list Z * Z) : M st (list Z * Z) :=
  if q.2 =? 0 then mret q else copy_each (reverse argv) (mk_args q.1 q.2 0 0).

(** ** The new image *)

(** what [get_limit] gives for a limit set by [set_limit] *)
Definition limit_of (limit : Z) : Z := u32 (4096 * (Z.shiftr (u32 (limit - 1)) 12 + 1)).
Definition set_limit (i : nat) (limit : Z) (c : task_struct) : task_struct :=
  set_t_ldt (alter (λ d, mk_desc (d_base d) (limit_of limit)) i (t_ldt c)) c.

Fixpoint put_pages (l : list Z) (data_base : Z) : M st unit :=
  match l with
  | [] => mret tt
  | page :: l' =>
    let data_base := u32 (data_base - PAGE_SIZE) in
    when (negb (page =? 0)) (on_mem (put_page page data_base) ;; mret tt) ;;
    put_pages l' data_base
  end.

Definition change_ldt (text_size : Z) (page : list Z) : M st Z :=
  let code_limit := Z.land (u32 (text_size + PAGE_SIZE - 1)) 0xFFFFF000 in
  let data_limit := 0x4000000 in
  c ← the_current;
  let code_base := get_base 1 c in
  let data_base := code_base in
  upd_current (λ c, set_limit 2 data_limit (set_base 2 data_base (set_limit 1 code_limit (set_base 1 code_base c)))) ;;
  put_pages (reverse page) (u32 (data_base + data_limit)) ;;
  mret data_limit.

(** the address after the string at [p] *)
Fixpoint string_end (fuel : nat) (p : Z) : M st Z :=
  match fuel with
  | O => nofuel
  | S fuel' =>
    c ← get_fs_byte sync_below p;
    if c =? 0 then mret (p + 1) else string_end fuel' (p + 1)
  end.

(** a table of [n] pointers at [table] to the strings from [p] on *)
Fixpoint put_pointers (n : nat) (p table : Z) : M st Z :=
  match n with
  | O => put_fs_long sync_below 0 table ;; mret p
  | S n' =>
    put_fs_long sync_below p table ;;
    p ← string_end (MAX_ARG_PAGES * 4096) p;
    put_pointers n' p (table + 4)
  end.

Definition create_tables (p : Z) (argc envc : nat) : M st Z :=
  let sp := Z.land 0xfffffffc p in
  let envp := u32 (sp - 4 * (Z.of_nat envc + 1)) in
  let argv := u32 (envp - 4 * (Z.of_nat argc + 1)) in
  put_fs_long sync_below envp (argv - 4) ;;
  put_fs_long sync_below argv (argv - 8) ;;
  put_fs_long sync_below (Z.of_nat argc) (argv - 12) ;;
  p ← put_pointers argc p argv;
  put_pointers envc p envp ;;
  mret (u32 (argv - 12)).

(** ** do_execve *)

(** zeros from [i] to the end of its page *)
Fixpoint zero_page_end (fuel : nat) (i : Z) : M st unit :=
  match fuel with
  | O => nofuel
  | S fuel' =>
    if Z.land i 0xfff =? 0 then mret tt
    else put_fs_byte sync_below 0 i ;; zero_page_end fuel' (i + 1)
  end.

Definition exec_error1 (page : list Z) (retval : Z) : M st (Z * option (Z * Z)) :=
  on_mem (for_each free_page page) ;; mret (retval, None).
Definition exec_error2 (inode : nat) (page : list Z) (retval : Z) : M st (Z * option (Z * Z)) :=
  iput (Some inode) ;; exec_error1 page retval.

(** closing the descriptors marked in [close_on_exec] *)
Definition close_marked (i : nat) : M st unit :=
  c ← the_current;
  when (Z.testbit (t_close_on_exec c) (Z.of_nat i)) (sys_close sync_below (Z.of_nat i) ;; mret tt).

(** after the point of no return *)
Definition new_image (inode : nat) (ex : exec) (page : list Z) (p : Z) (argc envc : nat) (e_uid e_gid : Z)
  : M st (Z * option (Z * Z)) :=
  c ← the_current;
  iput (t_executable c) ;;
  upd_current (λ c, set_t_sigaction (set_sa_handler 0 <$> t_sigaction c) (set_t_executable (Some inode) c)) ;;
  for_each close_marked (seq 0 NR_OPEN) ;;
  upd_current (set_t_close_on_exec 0) ;;
  c ← the_current;
  on_mem (free_page_tables (get_base 1 c) (get_limit 1 c)) ;;
  on_mem (free_page_tables (get_base 2 c) (get_limit 2 c)) ;;
  upd_current (set_t_used_math 0) ;;
  limit ← change_ldt (a_text ex) page;
  p ← create_tables (u32 (p + limit - Z.of_nat MAX_ARG_PAGES * PAGE_SIZE)) argc envc;
  let end_code := a_text ex in
  let end_data := u32 (a_data ex + end_code) in
  upd_current (λ c,
    set_t_egid (u16 e_gid) (set_t_euid (u16 e_uid) (set_t_start_stack (Z.land p 0xfffff000)
      (set_t_brk (u32 (a_bss ex + end_data)) (set_t_end_data end_data (set_t_end_code end_code c)))))) ;;
  zero_page_end 4097 (u32 (a_text ex + a_data ex)) ;;
  mret (0, Some (a_entry ex, p)).

(** from [restart_interp] on; it is done at most twice.  [argc] strings have
    been, or will be, copied. *)
Fixpoint exec_loop (fuel : nat) (inode : nat) (filename : bytes) (argv envp : list bytes)
  (page : list Z) (p : Z) (argc : nat) (sh_bang : bool) : M st (Z * option (Z * Z)) :=
  match fuel with
  | O => nofuel
  | S fuel' =>
    x ← the_inode inode;
    c ← the_current;
    if negb (S_ISREG (i_mode x)) then exec_error2 inode page (- EACCES)
    else
      let e_uid := if negb (Z.land (i_mode x) S_ISUID =? 0) then i_uid x else t_euid c in
      let e_gid := if negb (Z.land (i_mode x) S_ISGID =? 0) then i_gid x else t_egid c in
      let i := if t_euid c =? i_uid x then Z.shiftr (i_mode x) 6
               else if t_egid c =? i_gid x then Z.shiftr (i_mode x) 3 else i_mode x in
      if (Z.land i 1 =? 0) && negb (negb (Z.land (i_mode x) 0x49 =? 0) && suser c)
      then exec_error2 inode page (- ENOEXEC)
      else
        q ← Buffer.bread sync_below (i_dev x) (get_zone 0 x);
        match q with
        | None => exec_error2 inode page (- EACCES)
        | Some bh =>
          b ← the_buf bh;
          let d := b_data b in
          let ex := decode_exec d in
          brelse (Some bh) ;;
          if (byte_at d 0 =? 35) && (byte_at d 1 =? 33) && negb sh_bang then
            iput (Some inode) ;;
            match parse_interp d with
            | None => exec_error1 page (- ENOEXEC)
            | Some (interp, i_arg) =>
              r ← copy_strings envp (page, p);
              r ← copy_strings (drop 1 argv) r;
              r ← copy_strings [filename] r;
              r ← match i_arg with Some a => copy_strings [a] r | None => mret r end;
              r ← copy_strings [basename_from interp interp] r;
              let argc := (argc + (if i_arg then 1 else 0) + 1)%nat in
              if r.2 =? 0 then exec_error1 r.1 (- ENOMEM)
              else
                n ← namei interp;
                match n with
                | None => exec_error1 r.1 (- ENOENT)
                | Some inode => exec_loop fuel' inode filename argv envp r.1 r.2 argc true
                end
            end
          else if bad_format ex (i_size x) then exec_error2 inode page (- ENOEXEC)
          else if negb (N_TXTOFF ex =? 1024) then exec_error2 inode page (- ENOEXEC)
          else
            r ← (if sh_bang then mret (page, p)
                 else r ← copy_strings envp (page, p); copy_strings argv r);
            if negb sh_bang && (r.2 =? 0) then exec_error2 inode r.1 (- ENOMEM)
            else new_image inode ex r.1 r.2 argc (length envp) e_uid e_gid
        end
  end.

(** [cs] is the code segment of the caller; the result is the value returned,
    and the new [eip] and [esp] *)
Definition do_execve (cs : Z) (filename : bytes) (argv envp : list bytes) : M st (Z * option (Z * Z)) :=
  if negb (Z.land 0xffff cs =? 0x000f) then panic "execve called from supervisor mode"
  else
    n ← namei filename;
    match n with
    | None => mret (- ENOENT, None)
    | Some inode =>
      exec_loop 2 inode filename argv envp (replicate MAX_ARG_PAGES 0)
        (PAGE_SIZE * Z.of_nat MAX_ARG_PAGES - 4) (length argv) false
    end.
End exec.
