(* ===== verification/Mktime.v ===== *)
(** * The time of day

    Models [linux-0.11/kernel/mktime.c]: seconds since 1970 from a date. *)

From S2P Require Import Prelude.

Definition MINUTE : Z := 60.
Definition HOUR : Z := 60 * MINUTE.
Definition DAY : Z := 24 * HOUR.
Definition YEAR : Z := 365 * DAY.

(** the seconds before each month of a leap year *)
Definition month : list Z :=
  [0; DAY * 31; DAY * (31 + 29); DAY * (31 + 29 + 31); DAY * (31 + 29 + 31 + 30);
   DAY * (31 + 29 + 31 + 30 + 31); DAY * (31 + 29 + 31 + 30 + 31 + 30);
   DAY * (31 + 29 + 31 + 30 + 31 + 30 + 31); DAY * (31 + 29 + 31 + 30 + 31 + 30 + 31 + 31);
   DAY * (31 + 29 + 31 + 30 + 31 + 30 + 31 + 31 + 30);
   DAY * (31 + 29 + 31 + 30 + 31 + 30 + 31 + 31 + 30 + 31);
   DAY * (31 + 29 + 31 + 30 + 31 + 30 + 31 + 31 + 30 + 31 + 30)].

(** the fields of [struct tm] that are used *)
Record tm := mk_tm { tm_sec : Z; tm_min : Z; tm_hour : Z; tm_mday : Z; tm_mon : Z; tm_year : Z }.

(** [None] for a month outside of the table *)
Definition kernel_mktime (t : tm) : option Z :=
  let year := tm_year t - 70 in
  m ← month !! Z.to_nat (tm_mon t);
  let res := YEAR * year + DAY * Z.quot (year + 1) 4 in
  let res := res + m in
  let res := if (1 <? tm_mon t) && negb (Z.rem (year + 2) 4 =? 0) then res - DAY else res in
  let res := res + DAY * (tm_mday t - 1) in
  let res := res + HOUR * tm_hour t in
  let res := res + MINUTE * tm_min t in
  let res := res + tm_sec t in
  Some (s32 res).

(** ** The calendar *)
Definition leap (y : Z) : bool := (y mod 4 =? 0) && (negb (y mod 100 =? 0) || (y mod 400 =? 0)).
Definition month_days (y : Z) : list Z :=
  [31; if leap y then 29 else 28; 31; 30; 31; 30; 31; 31; 30; 31; 30; 31].
(** the days from the first of January 1970 to the first of a month *)
Definition days_before (y : Z) (mon : nat) : Z :=
  foldr (λ k acc, (if leap (1970 + Z.of_nat k) then 366 else 365) + acc) 0 (seq 0 (Z.to_nat (y - 1970))) +
  foldr Z.add 0 (take mon (month_days y)).

Lemma first_of_month :
  forallb (λ y, forallb (λ m,
    YEAR * Z.of_nat y + DAY * Z.quot (Z.of_nat y + 1) 4 + default 0 (month !! m) -
      (if (1 <? Z.of_nat m) && negb (Z.rem (Z.of_nat y + 2) 4 =? 0) then DAY else 0)
    =? DAY * days_before (1970 + Z.of_nat y) m) (seq 0 12)) (seq 0 130) = true.
Proof. vm_compute. reflexivity. Qed.


