(* ===== verification/Boot.v ===== *)
(** * Starting up

    Models the parts of [linux-0.11/init/main.c] that compute something - the
    layout of memory and the time at start -, [sys_setup] of
    [kernel/blk_drv/hd.c] and [rd_load] of [kernel/blk_drv/ramdisk.c].

    The rest of [main] is a list of calls of the initialisers of the other
    components; the first process ([init]) is a user program. *)

From S2P Require Import Prelude Ports Blk Buffer Hd Memory Task FsData Bitmap Inode Super Mktime.

(** ** main: the layout of memory *)

(** from the kilobytes of extended memory, and those of the RAM disk (0 when
    the kernel is built without one): [memory_end], [buffer_memory_end] and
    [main_memory_start] *)
Definition memory_layout (EXT_MEM_K RAMDISK : Z) : Z * Z * Z :=
  let memory_end := Z.land (Z.shiftl 1 20 + Z.shiftl EXT_MEM_K 10) 0xfffff000 in
  let memory_end := if 16 * 1024 * 1024 <? memory_end then 16 * 1024 * 1024 else memory_end in
  let buffer_memory_end :=
    if 12 * 1024 * 1024 <? memory_end then 4 * 1024 * 1024
    else if 6 * 1024 * 1024 <? memory_end then 2 * 1024 * 1024
    else 1 * 1024 * 1024 in
  (memory_end, buffer_memory_end, buffer_memory_end + RAMDISK * 1024).

(** the call of [mem_init] in [main] *)
Definition main_mem_init (EXT_MEM_K RAMDISK : Z) : M mem unit :=
  let '(memory_end, _, main_memory_start) := memory_layout EXT_MEM_K RAMDISK in
  mem_init main_memory_start memory_end.

Section cmos.
Context {W : Type} `{Ports W}.

Definition CMOS_READ (addr : Z) : M W Z := λ w,
  let '(v, w) := port_inb 0x71 (port_outb 0x70 (Z.lor 0x80 addr) w) in Ret v w.

Definition BCD_TO_BIN (val : Z) : Z := Z.land val 15 + Z.shiftr val 4 * 10.

(** the clock is read until its second does not change meanwhile; [fuel]
    bounds the number of times *)
Fixpoint read_clock (fuel : nat) : M W tm :=
  match fuel with
  | O => nofuel
  | S fuel' =>
    sec ← CMOS_READ 0;
    min ← CMOS_READ 2;
    hour ← CMOS_READ 4;
    mday ← CMOS_READ 7;
    mon ← CMOS_READ 8;
    year ← CMOS_READ 9;
    sec' ← CMOS_READ 0;
    if sec =? sec' then mret (mk_tm sec min hour mday mon year) else read_clock fuel'
  end.

(** the new [startup_time] *)
Definition time_init (fuel : nat) : M W Z :=
  t ← read_clock fuel;
  let b := BCD_TO_BIN in
  of_opt (kernel_mktime (mk_tm (b (tm_sec t)) (b (tm_min t)) (b (tm_hour t)) (b (tm_mday t))
                           (b (tm_mon t) - 1) (b (tm_year t)))).
End cmos.

(** ** ramdisk.c: rd_load *)
Section rd_load.
Context {D : Type} `{BlockDriver D}.
Abbreviation st := (bstate D kernel).
(** the size of the RAM disk, and the copying of bytes to a place in it *)
Context (sync_below : M st unit) (rd_length : Z) (rd_copy : Z → bytes → M st unit).
Abbreviation bread := (Buffer.bread sync_below).
Abbreviation breada := (Buffer.breada sync_below).

(** [i] blocks have been copied, [nblocks] are left (a 32-bit count, which the
    source takes for a signed number in its test); was the whole image copied? *)
Fixpoint rd_load_loop (nblocks : nat) (dev block i : Z) : M st bool :=
  match nblocks with
  | O => mret true
  | S n' =>
    p ← (if 2 <? s32 (Z.of_nat nblocks) then breada dev block [block + 1; block + 2; -1] else bread dev block);
    match p with
    | None => mret false
    | Some bh =>
      b ← the_buf bh;
      rd_copy (i * BLOCK_SIZE) (b_data b) ;;
      brelse (Some bh) ;;
      rd_load_loop n' dev (block + 1) (i + 1)
    end
  end.

Definition rd_load : M st unit :=
  if rd_length =? 0 then mret tt
  else
    root ← gets (λ s, ROOT_DEV (up s));
    if negb (MAJOR root =? 2) then mret tt
    else
      let block := 256 in
      p ← breada root (block + 1) [block; block + 2; -1];
      match p with
      | None => mret tt
      | Some bh =>
        b ← the_buf bh;
        brelse (Some bh) ;;
        let s_nzones := rd16 (b_data b) 2 in
        let s_log_zone_size := rd16 (b_data b) 10 in
        let s_magic := rd16 (b_data b) 16 in
        if negb (s_magic =? SUPER_MAGIC) then mret tt
        else
          let nblocks := s32 (Z.shiftl s_nzones s_log_zone_size) in
          if Z.shiftr rd_length BLOCK_SIZE_BITS <? nblocks then mret tt
          else
            ok ← rd_load_loop (Z.to_nat (u32 nblocks)) root block 0;
            when ok (modify (λ s, set_up (set_ROOT_DEV 0x0101 (up s)) s))
      end.
End rd_load.

(** ** hd.c: sys_setup *)

(** the entry of a drive in the table of the BIOS, 16 bytes from [off] on *)
Definition bios_drive (BIOS : bytes) (off : nat) : hd_i_struct :=
  mk_hdi (BIOS !!! (off + 2)%nat) (BIOS !!! (off + 14)%nat) (rd16 BIOS off) (rd16 BIOS (off + 5))
    (rd16 BIOS (off + 12)) (BIOS !!! (off + 8)%nat).

(** [struct partition] number [i], from 1, in the first block of a drive *)
Definition partition (d : bytes) (i : nat) : hd_struct :=
  let off := (0x1BE + 16 * (i - 1))%nat in
  mk_hds (rd_le32 d (off + 8)) (rd_le32 d (off + 12)).

(** the state of the driver and that of the file system *)
Record setup (D W : Type) := mk_setup { su_hd : hd_state W; su_fs : bstate D kernel; callable : bool }.
Arguments mk_setup {D W}. Arguments su_hd {D W}. Arguments su_fs {D W}. Arguments callable {D W}.

Section sys_setup.
Context {D : Type} `{BlockDriver D} {W : Type} `{Ports W}.
Abbreviation fs := (bstate D kernel).
Abbreviation st := (setup D W).
Context (sync_below : M fs unit) (floppy_change : Z → M fs bool) (rd_length : Z) (rd_copy : Z → bytes → M fs unit).

Definition upd_hd (f : hd_state W → hd_state W) : M st unit :=
  modify (λ s, mk_setup (f (su_hd s)) (su_fs s) (callable s)).
Definition on_fs {A} (m : M fs A) : M st A := λ s,
  match m (su_fs s) with
  | Ret a x => Ret a (mk_setup (su_hd s) x (callable s))
  | Panic w => Panic w
  | Sleep x => Sleep (mk_setup (su_hd s) x (callable s))
  | Exit c x => Exit c (mk_setup (su_hd s) x (callable s))
  | Fault => Fault
  | NoFuel => NoFuel
  end.
Definition cmos (addr : Z) : M st Z := λ s,
  match CMOS_READ addr (hd_ports (su_hd s)) with
  | Ret v w => Ret v (mk_setup (set_hd_ports w (su_hd s)) (su_fs s) (callable s))
  | _ => Fault
  end.

Definition put_part (i : nat) (p : hd_struct) : M st unit := upd_hd (λ x, set_hd (<[i := p]> (hd x)) x).

(** reading the partition table of a drive *)
Definition read_partitions (drive : nat) : M st unit :=
  p ← on_fs (bread sync_below (0x300 + Z.of_nat drive * 5) 0);
  match p with
  | None => panic ""
  | Some bh =>
    b ← on_fs (the_buf bh);
    if negb (byte_at (b_data b) 510 =? 0x55) || negb (byte_at (b_data b) 511 =? 0xAA) then panic ""
    else
      for_each (λ i, put_part (i + 5 * drive) (partition (b_data b) i)) (seq 1 4) ;;
      on_fs (brelse (Some bh))
  end.

Definition sys_setup (BIOS : bytes) : M st Z :=
  s ← get_st;
  if negb (callable s) then mret (-1)
  else
    modify (λ s, mk_setup (su_hd s) (su_fs s) false) ;;
    let info := [bios_drive BIOS 0; bios_drive BIOS 16] in
    let nr := if negb (hd_cyl (bios_drive BIOS 16) =? 0) then 2%nat else 1%nat in
    upd_hd (set_hd_info info) ;;
    for_each (λ i,
      x ← of_opt (info !! i);
      put_part (i * 5) (mk_hds 0 (s32 (hd_head x * hd_sect x * hd_cyl x)))) (seq 0 nr) ;;
    cmos_disks ← cmos 0x12;
    let nr :=
      if negb (Z.land cmos_disks 0xf0 =? 0) then
        (if negb (Z.land cmos_disks 0x0f =? 0) then 2%nat else 1%nat)
      else 0%nat in
    upd_hd (set_NR_HD (Z.of_nat nr)) ;;
    for_each (λ i, put_part (i * 5) (mk_hds 0 0)) (seq nr (2 - nr)) ;;
    for_each read_partitions (seq 0 nr) ;;
    on_fs (rd_load sync_below rd_length rd_copy) ;;
    _ ← on_fs (mount_root sync_below floppy_change);
    mret 0.
End sys_setup.

(** ** The layout of memory *)
Lemma page_mask x : 0 ≤ x < 2 ^ 32 → Z.land x 0xfffff000 = 4096 * (x / 4096).
Proof.
  intros Hx. change 0xfffff000 with (Z.shiftl (Z.ones 20) 12).
  replace (4096 * (x / 4096)) with (Z.shiftl (Z.shiftr x 12) 12)
    by (rewrite Z.shiftl_mul_pow2, Z.shiftr_div_pow2 by lia; change (2 ^ 12) with 4096; lia).
  apply Z.bits_inj'. intros k Hk. rewrite Z.land_spec, !Z.shiftl_spec by lia.
  destruct (Z.ltb_spec k 12); [rewrite !(Z.testbit_neg_r _ (k - 12)) by lia; by rewrite andb_false_r|].
  rewrite Z.shiftr_spec by lia. replace (k - 12 + 12) with k by lia.
  destruct (Z.ltb_spec (k - 12) 20); [rewrite Z.ones_spec_low by lia; by rewrite andb_true_r|].
  rewrite Z.ones_spec_high by lia. rewrite andb_false_r. symmetry.
  destruct (decide (x = 0)) as [->|]; [apply Z.bits_0|].
  apply Z.bits_above_log2; [lia|]. apply Z.log2_lt_pow2; [lia|].
  apply Z.lt_le_trans with (2 ^ 32); [lia|]. apply Z.pow_le_mono_r; lia.
Qed.

(** C37. Whatever the size of the memory the set-up code found, the layout that
    [main] computes is one of whole pages in the range that the page map covers:
    one, two or four megabytes end with the buffers, below the end of memory,
    of which less than a page is wasted unless it is above sixteen megabytes.
    When the RAM disk, of whole pages, fits in as well, [main] leaves exactly
    the pages above the buffers and the RAM disk free. *)
Theorem memory_layout_fits (EXT_MEM_K RAMDISK memory_end buffer_memory_end main_memory_start : Z) (s : mem) :
  0 ≤ EXT_MEM_K < 2 ^ 16 → 0 ≤ RAMDISK → RAMDISK mod 4 = 0 →
  memory_layout EXT_MEM_K RAMDISK = (memory_end, buffer_memory_end, main_memory_start) →
  let size := (1024 + EXT_MEM_K) * 1024 in
  memory_end mod 4096 = 0 ∧ memory_end ≤ size ∧ (memory_end = 2 ^ 24 ∨ size < memory_end + 4096) ∧
  buffer_memory_end ∈ [2 ^ 20; 2 ^ 21; 2 ^ 22] ∧ buffer_memory_end ≤ memory_end ≤ LOW_MEM + PAGING_MEMORY ∧
  (main_memory_start ≤ memory_end →
    wp (main_mem_init EXT_MEM_K RAMDISK) (λ _ s', mem_ok s' ∧ HIGH_MEMORY s' = memory_end ∧
      ∀ i, mem_map s' !! i = Some 0 ↔ main_memory_start ≤ frame i < memory_end) s).
Proof.
  intros Hext Hrd Hrd4 Hlay size. unfold main_mem_init. rewrite Hlay. unfold memory_layout in Hlay.
  assert (Z.shiftl 1 20 + Z.shiftl EXT_MEM_K 10 = size) as Es
    by (rewrite !Z.shiftl_mul_pow2 by lia; unfold size; lia).
  rewrite Es, page_mask in Hlay by (unfold size; lia). clear Es.
  assert (LOW_MEM + PAGING_MEMORY = 2 ^ 24) as -> by done.
  pose proof (Z.div_mod size 4096 ltac:(done)) as Hdm. pose proof (Z.mod_pos_bound size 4096 ltac:(done)) as Hmb.
  assert (2 ^ 20 ≤ size) as Hsz by (unfold size; lia).
  assert (256 ≤ size / 4096) as Hq by (apply Z.div_le_lower_bound; lia).
  set (q := size / 4096) in *. clearbody q size.
  set (e := if 16 * 1024 * 1024 <? 4096 * q then 16 * 1024 * 1024 else 4096 * q) in Hlay.
  set (b := if 12 * 1024 * 1024 <? e then _ else _) in Hlay.
  assert (He : e mod 4096 = 0 ∧ e ≤ size ∧ (e = 2 ^ 24 ∨ size < e + 4096) ∧ 2 ^ 20 ≤ e ≤ 2 ^ 24).
  { unfold e. destruct (Z.ltb_spec (16 * 1024 * 1024) (4096 * q)); repeat split; try lia.
    rewrite Z.mul_comm. apply Z.mod_mul. done. }
  destruct He as (He1 & He2 & He3 & He4). clearbody e.
  assert (Hb : b ∈ [2 ^ 20; 2 ^ 21; 2 ^ 22] ∧ b ≤ e ∧ b mod 4096 = 0 ∧ 2 ^ 20 ≤ b).
  { unfold b. destruct (Z.ltb_spec (12 * 1024 * 1024) e) as [?|?]; [|destruct (Z.ltb_spec (6 * 1024 * 1024) e) as [?|?]];
      (split; [set_solver|]); repeat split; done || lia. }
  destruct Hb as (Hb1 & Hb2 & Hb3 & Hb4). clearbody b. injection Hlay as <- <- <-.
  repeat (split; [done || lia|]). intros Hm. apply mem_init_run; [unfold LOW_MEM; lia|change (LOW_MEM + PAGING_MEMORY) with (2 ^ 24); lia| |done].
  rewrite (Z.div_mod RAMDISK 4 ltac:(done)), Hrd4.
  replace (b + (4 * (RAMDISK / 4) + 0) * 1024) with (b + RAMDISK / 4 * 4096) by lia. by rewrite Z.mod_add.
Qed.

Lemma memory_layout_fits_witness :
  wp (main_mem_init 15360 512) (λ _ s', mem_ok s' ∧ HIGH_MEMORY s' = 2 ^ 24 ∧
    ∀ i, mem_map s' !! i = Some 0 ↔ 0x480000 ≤ frame i < 2 ^ 24) (mk_mem [] 0 (λ _, 0)).
Proof.
  assert (H1 : 0 ≤ 15360 < 2 ^ 16) by lia. assert (H2 : 0 ≤ 512) by lia.
  assert (H3 : 512 mod 4 = 0) by reflexivity.
  assert (H4 : memory_layout 15360 512 = (2 ^ 24, 0x400000, 0x480000)) by (vm_compute; reflexivity).
  destruct (memory_layout_fits _ _ _ _ _ (mk_mem [] 0 (λ _, 0)) H1 H2 H3 H4) as (_ & _ & _ & _ & _ & Hwp).
  apply Hwp. lia.
Defined.
