(* ===== verification/Vsprintf.v ===== *)
(** * Formatted output

    Models [linux-0.11/kernel/vsprintf.c].  Strings are lists of characters
    (unsigned bytes) without the NUL; arguments are a list of [int]s, strings,
    and pointers for [%n].  The result is [None] when the arguments do not fit
    the format. *)

From S2P Require Import Prelude.

Definition is_digit (c : Z) : bool := (48 <=? c) && (c <=? 57).

(** the number, and what follows it *)
Fixpoint skip_atoi_from (i : Z) (s : bytes) : Z * bytes :=
  match s with
  | c :: s' => if is_digit c then skip_atoi_from (s32 (i * 10 + c - 48)) s' else (i, s)
  | [] => (i, [])
  end.
Definition skip_atoi (s : bytes) : Z * bytes := skip_atoi_from 0 s.

Definition ZEROPAD : Z := 1.
Definition SIGN : Z := 2.
Definition PLUS : Z := 4.
Definition SPACE : Z := 8.
Definition LEFT : Z := 16.
Definition SPECIAL : Z := 32.
Definition SMALL : Z := 64.
Definition has (type f : Z) : bool := negb (Z.land type f =? 0).

(** the character of a digit *)
Definition digit (small : bool) (d : Z) : Z := if d <? 10 then 48 + d else (if small then 87 else 55) + d.

(** [while (num!=0) tmp[i++]=digits[do_div(num,base)];]: the least significant
    digit first; [num] is unsigned here, and has at most 32 digits *)
Fixpoint digits_of (fuel : nat) (small : bool) (num base : Z) : bytes :=
  match fuel with
  | O => []
  | S fuel' => if num =? 0 then [] else digit small (num mod base) :: digits_of fuel' small (num / base) base
  end.

Definition fill (c : Z) (n : Z) : bytes := replicate (Z.to_nat n) c.

(** [number]: what it appends; [None] is the NULL of an impossible base *)
Definition number (num base size precision type : Z) : option bytes :=
  let small := has type SMALL in
  let type := if has type LEFT then Z.land type (Z.lnot ZEROPAD) else type in
  if (base <? 2) || (36 <? base) then None
  else
    let c := if has type ZEROPAD then 48 else 32 in
    let neg := has type SIGN && (num <? 0) in
    let num := if neg then - num else num in
    let sign := if neg then 45 else if has type PLUS then 43 else if has type SPACE then 32 else 0 in
    let size := if sign =? 0 then size else size - 1 in
    let size := if has type SPECIAL then (if base =? 16 then size - 2 else if base =? 8 then size - 1 else size) else size in
    let tmp := if num =? 0 then [48] else digits_of 32 small (u32 num) base in
    let i := Z.of_nat (length tmp) in
    let precision := Z.max i precision in
    let size := size - precision in
    let right := negb (has type (ZEROPAD + LEFT)) in
    let zeros := negb right && negb (has type LEFT) in
    Some ((if right then fill 32 size else []) ++
          (if sign =? 0 then [] else [sign]) ++
          (if has type SPECIAL then (if base =? 8 then [48] else if base =? 16 then [48; digit small 33] else []) else []) ++
          (if zeros then fill c size else []) ++
          fill 48 (precision - i) ++
          reverse tmp ++
          (if right || zeros then [] else fill 32 size)).

(** ** vsprintf *)
Inductive arg := Int (v : Z) | Str (s : bytes) | Ptr (p : Z).

(** the flags after a '%' *)
Fixpoint get_flags (fmt : bytes) (flags : Z) : Z * bytes :=
  match fmt with
  | c :: fmt' =>
    if c =? 45 then get_flags fmt' (Z.lor flags LEFT)
    else if c =? 43 then get_flags fmt' (Z.lor flags PLUS)
    else if c =? 32 then get_flags fmt' (Z.lor flags SPACE)
    else if c =? 35 then get_flags fmt' (Z.lor flags SPECIAL)
    else if c =? 48 then get_flags fmt' (Z.lor flags ZEROPAD)
    else (flags, fmt)
  | [] => (flags, [])
  end.

Definition star (fmt : bytes) : bool := match fmt with c :: _ => c =? 42 | [] => false end.
Definition starts_digit (fmt : bytes) : bool := match fmt with c :: _ => is_digit c | [] => false end.

(** the field width: a number, or [*] for the next argument - which leaves
    [fmt] at the [*].  The result is the width, the flags, the format and the
    arguments left. *)
Definition get_width (fmt : bytes) (flags : Z) (args : list arg) : option (Z * Z * bytes * list arg) :=
  if starts_digit fmt then let '(w, fmt) := skip_atoi fmt in Some (w, flags, fmt, args)
  else if star fmt then
    match args with
    | Int w :: args => Some (if w <? 0 then (- w, Z.lor flags LEFT, fmt, args) else (w, flags, fmt, args))
    | _ => None
    end
  else Some (-1, flags, fmt, args).

Definition get_precision (fmt : bytes) (args : list arg) : option (Z * bytes * list arg) :=
  match fmt with
  | 46 :: fmt =>
    if starts_digit fmt then let '(p, fmt) := skip_atoi fmt in Some (Z.max 0 p, fmt, args)
    else if star fmt then match args with Int p :: args => Some (Z.max 0 p, fmt, args) | _ => None end
    else Some (0, fmt, args)
  | _ => Some (-1, fmt, args)
  end.

(** 'h', 'l' and 'L' are skipped *)
Definition skip_qualifier (fmt : bytes) : bytes :=
  match fmt with
  | c :: fmt' => if (c =? 104) || (c =? 108) || (c =? 76) then fmt' else fmt
  | [] => []
  end.

(** one conversion: what it appends, what [%n] stores (the pointer), and the
    arguments left *)
Definition conversion (c flags field_width precision : Z) (args : list arg) : option (bytes * option Z * list arg) :=
  let num (base flags w : Z) :=
    match args with
    | Int v :: args => s ← number (s32 v) base w precision flags; Some (s, None, args)
    | _ => None
    end in
  if c =? 99 then
    match args with
    | Int v :: args =>
      let pad := fill 32 (field_width - 1) in
      Some (if has flags LEFT then u8 v :: pad else pad ++ [u8 v], None, args)
    | _ => None
    end
  else if c =? 115 then
    match args with
    | Str s :: args =>
      let len := Z.of_nat (length s) in
      let len := if precision <? 0 then len else Z.min len precision in
      let pad := fill 32 (field_width - len) in
      let s := take (Z.to_nat len) s in
      Some (if has flags LEFT then s ++ pad else pad ++ s, None, args)
    | _ => None
    end
  else if c =? 111 then num 8 flags field_width
  else if c =? 112 then
    if field_width =? -1 then num 16 (Z.lor flags ZEROPAD) 8 else num 16 flags field_width
  else if c =? 120 then num 16 (Z.lor flags SMALL) field_width
  else if c =? 88 then num 16 flags field_width
  else if (c =? 100) || (c =? 105) then num 10 (Z.lor flags SIGN) field_width
  else if c =? 117 then num 10 flags field_width
  else if c =? 110 then
    match args with Ptr p :: args => Some ([], Some p, args) | _ => None end
  else if c =? 37 then Some ([37], None, args)
  else Some ([37; c], None, args).

(** the string, and the stores of [%n]: pointer and value *)
Fixpoint vsprintf_loop (fuel : nat) (fmt : bytes) (args : list arg) (str : bytes) (stores : list (Z * Z))
  : option (bytes * list (Z * Z)) :=
  match fuel with
  | O => None
  | S fuel' =>
    match fmt with
    | [] => Some (str, stores)
    | c :: fmt =>
      if negb (c =? 37) then vsprintf_loop fuel' fmt args (str ++ [c]) stores
      else
        let '(flags, fmt) := get_flags fmt 0 in
        '(field_width, flags, fmt, args) ← get_width fmt flags args;
        '(precision, fmt, args) ← get_precision fmt args;
        match skip_qualifier fmt with
        | [] => Some (str ++ [37], stores)
        | c :: fmt =>
          '(s, n, args) ← conversion c flags field_width precision args;
          vsprintf_loop fuel' fmt args (str ++ s)
            (match n with Some p => stores ++ [(p, Z.of_nat (length str))] | None => stores end)
        end
    end
  end.

(** every turn of the loop consumes a character of the format *)
Definition vsprintf (fmt : bytes) (args : list arg) : option (bytes * list (Z * Z)) :=
  vsprintf_loop (S (length fmt)) fmt args [] [].

(** ** Reading numbers back *)

(** the value of a digit *)
Definition undigit (c : Z) : option Z :=
  if (48 <=? c) && (c <=? 57) then Some (c - 48)
  else if (65 <=? c) && (c <=? 90) then Some (c - 55)
  else if (97 <=? c) && (c <=? 122) then Some (c - 87)
  else None.

Fixpoint scan_digits (base acc : Z) (s : bytes) : Z :=
  match s with
  | c :: s' => match undigit c with Some d => scan_digits base (acc * base + d) s' | None => acc end
  | [] => acc
  end.

(** blanks, a sign, and digits of the base *)
Fixpoint scan (base : Z) (s : bytes) : Z :=
  match s with
  | c :: s' =>
    if c =? 32 then scan base s'
    else if c =? 45 then - scan_digits base 0 s'
    else if c =? 43 then scan_digits base 0 s'
    else scan_digits base 0 s
  | [] => 0
  end.

Lemma undigit_digit small d : 0 ≤ d < 36 → undigit (digit small d) = Some d.
Proof.
  intros Hd. unfold undigit, digit.
  destruct (d <? 10) eqn:E, small; b2p;
    repeat (match goal with |- context [?a <=? ?b] => destruct (a <=? b) eqn:? end; b2p; cbn [andb]; try lia);
    f_equal; lia.
Qed.

Definition step (base acc c : Z) : Z := acc * base + default 0 (undigit c).

Lemma scan_digits_app base l post acc :
  Forall (λ c, is_Some (undigit c)) l →
  scan_digits base acc (l ++ post) = scan_digits base (foldl (step base) acc l) post.
Proof.
  intros Hl. revert acc. induction Hl as [|c l [d Hd] _ IH]; intros acc; [done|].
  cbn [app scan_digits foldl]. rewrite Hd, IH. do 2 f_equal. unfold step. by rewrite Hd.
Qed.

Lemma digits_of_digits fuel small n base : 2 ≤ base ≤ 36 →
  Forall (λ c, is_Some (undigit c)) (digits_of fuel small n base).
Proof.
  intros Hb. revert n. induction fuel as [|fuel IH]; intros n; cbn; [done|]. destruct (n =? 0); [done|].
  constructor; [|apply IH]. rewrite undigit_digit; [eauto|]. pose proof (Z.mod_pos_bound n base). lia.
Qed.

Lemma digits_of_value small base fuel : 2 ≤ base ≤ 36 → ∀ n, 0 ≤ n < 2 ^ Z.of_nat fuel →
  foldl (step base) 0 (reverse (digits_of fuel small n base)) = n.
Proof.
  intros Hb. induction fuel as [|fuel IH]; intros n Hn; cbn [digits_of].
  { cbn in *. lia. }
  destruct (n =? 0) eqn:E; b2p; [by subst|].
  rewrite reverse_cons, foldl_app, IH.
  - cbn. unfold step. rewrite undigit_digit by (pose proof (Z.mod_pos_bound n base); lia). cbn.
    pose proof (Z.div_mod n base). lia.
  - split; [apply Z.div_pos; lia|]. apply Z.div_lt_upper_bound; [lia|].
    rewrite Nat2Z.inj_succ, Z.pow_succ_r in Hn by lia.
    pose proof (Z.pow_pos_nonneg 2 (Z.of_nat fuel) ltac:(done) ltac:(lia)).
    pose proof (Z.mul_le_mono_nonneg_r 2 base (2 ^ Z.of_nat fuel)). lia.
Qed.

Lemma fill_zeros base n : foldl (step base) 0 (fill 48 n) = 0.
Proof. unfold fill. induction (Z.to_nat n) as [|k IH]; [done|]. cbn. exact IH. Qed.

Lemma fill_digits n : Forall (λ c, is_Some (undigit c)) (fill 48 n).
Proof. unfold fill. induction (Z.to_nat n); cbn; constructor; [eauto|done]. Qed.

Lemma scan_blanks base n s : scan base (fill 32 n ++ s) = scan base s.
Proof. unfold fill. induction (Z.to_nat n) as [|k IH]; [done|]. exact IH. Qed.

Lemma scan_number base l post : l ≠ [] → Forall (λ c, is_Some (undigit c)) l →
  scan base (l ++ post) = scan_digits base 0 (l ++ post).
Proof.
  intros Hne Hl. destruct Hl as [|c l [d Hd] _]; [done|]. cbn [app scan].
  assert (c ≠ 32 ∧ c ≠ 45 ∧ c ≠ 43) as (H1 & H2 & H3).
  { unfold undigit in Hd. split_and!; intros ->; discriminate. }
  by rewrite !(proj2 (Z.eqb_neq _ _)) by done.
Qed.

(** the digits [number] prints for the absolute value [n], and what may follow *)
Lemma scan_value base small n m post : 2 ≤ base ≤ 36 → 0 ≤ n < 2 ^ 32 →
  let tmp := if n =? 0 then [48] else digits_of 32 small n base in
  let l := fill 48 m ++ reverse tmp in
  l ≠ [] ∧ Forall (λ c, is_Some (undigit c)) l ∧ scan_digits base 0 (l ++ fill 32 post) = n.
Proof.
  intros Hb Hn tmp l. assert (Ht : Forall (λ c, is_Some (undigit c)) tmp ∧ tmp ≠ [] ∧ foldl (step base) 0 (reverse tmp) = n).
  { unfold tmp. destruct (n =? 0) eqn:E; b2p.
    - subst n. split; [repeat constructor; eauto|]. split; done.
    - split; [by apply digits_of_digits|]. split; [cbn; by rewrite (proj2 (Z.eqb_neq _ _)) by done|by apply digits_of_value]. }
  destruct Ht as (H1 & H2 & H3).
  assert (Hl : Forall (λ c, is_Some (undigit c)) l).
  { apply Forall_app. split; [apply fill_digits|]. by apply Forall_reverse. }
  split; [|split; [done|]].
  - unfold l. intros [_ E]%app_nil. apply H2. by rewrite <- (reverse_involutive tmp), E.
  - rewrite scan_digits_app by done. unfold l. rewrite foldl_app, fill_zeros, H3.
    unfold fill. destruct (Z.to_nat post); done.
Qed.

Lemma u32_zero x : - 2 ^ 32 < x < 2 ^ 32 → u32 x = 0 ↔ x = 0.
Proof.
  intros Hx. unfold u32. destruct (decide (0 ≤ x)).
  - rewrite Z.mod_small by lia. done.
  - rewrite <- (Z.mod_add x 1), Z.mod_small by lia. lia.
Qed.

Lemma fill_zeros_app z m : fill 48 z ++ fill 48 m = fill 48 (Z.max 0 z + Z.max 0 m).
Proof. unfold fill. rewrite <- replicate_add. f_equal. lia. Qed.

Lemma scan_layout base small n a sg z m b : 2 ≤ base ≤ 36 → 0 ≤ n < 2 ^ 32 →
  sg ∈ [[]; [45]; [43]; [32]] →
  scan base (fill 32 a ++ sg ++ fill 48 z ++ fill 48 m ++
    reverse (if n =? 0 then [48] else digits_of 32 small n base) ++ fill 32 b)
  = if decide (sg = [45]) then - n else n.
Proof.
  intros Hb Hn Hsg. rewrite scan_blanks, (app_assoc (fill 48 z)), fill_zeros_app, app_assoc with (n := fill 32 b).
  destruct (scan_value base small n (Z.max 0 z + Z.max 0 m) b Hb Hn) as (Hne & Hd & Hv).
  set (l := fill 48 _ ++ _) in *. rewrite !elem_of_cons, elem_of_nil in Hsg.
  destruct Hsg as [->|[->|[->|[->|[]]]]]; cbn [app]; [rewrite decide_False by done; by rewrite scan_number| | |].
  - rewrite decide_True by done. cbn [scan]. by rewrite <- Hv.
  - rewrite decide_False by done. exact Hv.
  - rewrite decide_False by done. change (scan base (l ++ fill 32 b) = n). by rewrite scan_number.
Qed.

Lemma has_or ty f g : has ty (Z.lor f g) = has ty f || has ty g.
Proof.
  unfold has. rewrite Z.land_lor_distr_r. rewrite <- negb_andb. f_equal.
  apply eq_true_iff_eq. rewrite andb_true_iff, !Z.eqb_eq. split; [apply Z.lor_eq_0_iff|].
  intros [-> ->]. done.
Qed.

(** C31. What [number] prints is read back as the number printed, in every base,
    for every width and precision, and for all flags but that for the prefixes
    0 and 0x: as a signed number with [SIGN], and otherwise as an unsigned
    one. *)
Theorem number_reads_back (num base size precision type : Z) :
  2 ≤ base ≤ 36 → - 2 ^ 31 ≤ num < 2 ^ 31 → has type SPECIAL = false →
  ∃ s, number num base size precision type = Some s ∧
       scan base s = if has type SIGN then num else u32 num.
Proof.
  intros Hb Hn Hsp. unfold number.
  rewrite (proj2 (Z.ltb_ge base 2)), (proj2 (Z.ltb_ge 36 base)) by lia. cbn [orb].
  set (ty := if has type LEFT then _ else _).
  assert (has ty SPECIAL = false ∧ has ty SIGN = has type SIGN) as [Hsp' Hsg].
  { unfold ty, has in *. destruct (negb (Z.land type LEFT =? 0)); [|done].
    rewrite <- !Z.land_assoc. done. }
  rewrite Hsp', Hsg. set (neg := has type SIGN && (num <? 0)).
  set (n := if neg then - num else num).
  assert (0 ≤ u32 n < 2 ^ 32 ∧ (u32 n =? 0) = (n =? 0)) as [Hu Hz].
  { split; [apply u32_bound|]. apply eq_true_iff_eq. rewrite !Z.eqb_eq. apply u32_zero. unfold n. destruct neg; lia. }
  eexists. split; [reflexivity|]. rewrite <- Hz.
  set (tmp := if u32 n =? 0 then _ else _). set (w := _ - Z.max _ precision). set (m := Z.max _ precision - _).
  change (ZEROPAD + LEFT) with (Z.lor ZEROPAD LEFT). rewrite has_or.
  set (sg := if neg then 45 else _). set (sgl := if sg =? 0 then [] else [sg]).
  assert (sgl ∈ [[]; [45]; [43]; [32]] ∧ (sgl = [45] ↔ neg = true)) as [Hsgl Hneg].
  { unfold sgl, sg. destruct neg, (has ty PLUS), (has ty SPACE); cbn; rewrite !elem_of_cons;
      (split; [tauto|split; [by intros|by intros]]). }
  assert (Hval : (if decide (sgl = [45]) then - u32 n else u32 n) = if has type SIGN then num else u32 num).
  { unfold n, neg in *. destruct (has type SIGN), (num <? 0) eqn:E; cbn [andb] in *; b2p; case_decide as Hc;
      rewrite ?Hneg in Hc; try done; try (exfalso; by apply Hc); rewrite u32_id by lia; lia. }
  rewrite <- Hval.
  destruct (has ty ZEROPAD), (has ty LEFT); cbn [orb negb andb app].
  - rewrite <- (scan_layout base (has type SMALL) (u32 n) 0 sgl 0 m w) by done. done.
  - rewrite <- (scan_layout base (has type SMALL) (u32 n) 0 sgl w m 0) by done. done.
  - rewrite <- (scan_layout base (has type SMALL) (u32 n) 0 sgl 0 m w) by done. done.
  - rewrite <- (scan_layout base (has type SMALL) (u32 n) w sgl 0 m 0) by done. done.
Qed.

Lemma number_reads_back_witness :
  (∃ s, number (-255) 16 8 4 (Z.lor SIGN (Z.lor ZEROPAD SMALL)) = Some s ∧ scan 16 s = -255) ∧
  number (-255) 16 8 4 (Z.lor SIGN (Z.lor ZEROPAD SMALL)) = Some [45; 48; 48; 48; 48; 48; 102; 102].
Proof.
  split; [|vm_compute; reflexivity].
  apply (number_reads_back (-255) 16 8 4 (Z.lor SIGN (Z.lor ZEROPAD SMALL))); [lia|lia|reflexivity].
Defined.
