(* ===== verification/Malloc.v ===== *)
(** * The kernel's malloc

    Models [linux-0.11/lib/malloc.c].  A bucket is a page of objects of one
    size; it is described by a [struct bucket_desc] of 16 bytes, which like the
    objects is in memory: a pointer to one is its address, and 0 is NULL. *)

From S2P Require Import Prelude Memory.

(** the fields of [struct bucket_desc], by their offsets *)
Definition bd_page (a : Z) : Z := a.
Definition bd_next (a : Z) : Z := a + 4.
Definition bd_freeptr (a : Z) : Z := a + 8.
Definition bd_refcnt (a : Z) : Z := a + 12.
Definition bd_bucket_size (a : Z) : Z := a + 14.
Definition SIZEOF_BUCKET_DESC : Z := 16.

(** [bucket_dir], without its end marker: size and chain; and the free
    descriptors *)
Record buckets := mk_buckets { bucket_dir : list (Z * Z); free_bucket_desc : Z; b_mem : mem }.
Definition set_bucket_dir (v : list (Z * Z)) (x : buckets) : buckets := mk_buckets v (free_bucket_desc x) (b_mem x).
Definition set_free_bucket_desc (v : Z) (x : buckets) : buckets := mk_buckets (bucket_dir x) v (b_mem x).
Definition set_b_mem (v : mem) (x : buckets) : buckets := mk_buckets (bucket_dir x) (free_bucket_desc x) v.

Definition bucket_sizes : list Z := [16; 32; 64; 128; 256; 512; 1024; 2048; 4096].
Definition init_buckets (m : mem) : buckets := mk_buckets ((λ z, (z, 0)) <$> bucket_sizes) 0 m.

Definition on_bmem {A} (m : M mem A) : M buckets A := λ s,
  match m (b_mem s) with
  | Ret a x => Ret a (set_b_mem x s)
  | Panic w => Panic w
  | Sleep x => Sleep (set_b_mem x s)
  | Exit c x => Exit c (set_b_mem x s)
  | Fault => Fault
  | NoFuel => NoFuel
  end.
Definition ld (a : Z) : M buckets Z := on_bmem (load a).
Definition sto (a v : Z) : M buckets unit := on_bmem (store a v).
(** 16-bit fields *)
Definition ld16 (a : Z) : M buckets Z := on_bmem (gets (λ s, phys s a + 256 * phys s (a + 1))).
Definition sto16 (a v : Z) : M buckets unit :=
  on_bmem (modify (λ s, set_phys (mem_write a [v mod 256; v / 256 mod 256] (phys s)) s)).

Definition the_dir (i : nat) : M buckets (Z * Z) := λ s, of_opt (bucket_dir s !! i) s.
Definition put_chain (i : nat) (a : Z) : M buckets unit :=
  modify (λ s, set_bucket_dir (alter (λ d, (d.1, a)) i (bucket_dir s)) s).

(** [n] pieces of [size] bytes from [a] on, each linked to the next by the
    pointer at offset [off], the last to [last] *)
Fixpoint link_up (n : nat) (a size off last : Z) : M buckets unit :=
  match n with
  | O => mret tt
  | S O => sto (a + off) last
  | S n' => sto (a + off) (a + size) ;; link_up n' (a + size) size off last
  end.

Definition init_bucket_desc : M buckets unit :=
  first ← on_bmem get_free_page;
  if first =? 0 then panic "Out of memory in init_bucket_desc()"
  else
    old ← gets free_bucket_desc;
    link_up (Z.to_nat (PAGE_SIZE / SIZEOF_BUCKET_DESC)) first SIZEOF_BUCKET_DESC 4 old ;;
    modify (set_free_bucket_desc first).

(** the first descriptor of a chain for which [test] holds, and the one before
    it; chains are shorter than [fuel] *)
Fixpoint find_desc (fuel : nat) (test : Z → M buckets bool) (prev bdesc : Z) : M buckets (Z * Z) :=
  match fuel with
  | O => nofuel
  | S fuel' =>
    if bdesc =? 0 then mret (prev, 0)
    else
      ok ← test bdesc;
      if (ok : bool) then mret (prev, bdesc)
      else n ← ld (bd_next bdesc); find_desc fuel' test bdesc n
  end.

(** there are at most as many descriptors as pages, and the end of the chain *)
Definition CHAIN_FUEL : nat := Z.to_nat PAGING_PAGES + 1.

Definition new_bucket (i : nat) (size : Z) : M buckets Z :=
  f ← gets free_bucket_desc;
  when (f =? 0) init_bucket_desc ;;
  bdesc ← gets free_bucket_desc;
  n ← ld (bd_next bdesc);
  modify (set_free_bucket_desc n) ;;
  sto16 (bd_refcnt bdesc) 0 ;;
  sto16 (bd_bucket_size bdesc) size ;;
  cp ← on_bmem get_free_page;
  sto (bd_freeptr bdesc) cp ;;
  sto (bd_page bdesc) cp ;;
  if cp =? 0 then panic "Out of memory in kernel malloc()"
  else
    link_up (Z.to_nat (PAGE_SIZE / size)) cp size 0 0 ;;
    d ← the_dir i;
    sto (bd_next bdesc) d.2 ;;
    put_chain i bdesc ;;
    mret bdesc.

Definition malloc (len : Z) : M buckets Z :=
  p ← gets (λ s, find_idx (λ d, len <=? d.1) (bucket_dir s));
  match p with
  | None => panic "malloc: bad arg"
  | Some i =>
    d ← the_dir i;
    q ← find_desc CHAIN_FUEL (λ b, f ← ld (bd_freeptr b); mret (negb (f =? 0))) 0 d.2;
    bdesc ← (if q.2 =? 0 then new_bucket i d.1 else mret q.2);
    retval ← ld (bd_freeptr bdesc);
    n ← ld retval;
    sto (bd_freeptr bdesc) n ;;
    c ← ld16 (bd_refcnt bdesc);
    sto16 (bd_refcnt bdesc) (c + 1) ;;
    mret retval
  end.

(** the search of [free_s]: the index of the chain, the descriptor before the
    one found, and that descriptor.  (In the source [prev] is reset for each
    chain.) *)
Fixpoint find_page (l : list nat) (page size : Z) : M buckets (option (nat * Z * Z)) :=
  match l with
  | [] => mret None
  | i :: l' =>
    d ← the_dir i;
    if d.1 <? size then find_page l' page size
    else
      q ← find_desc CHAIN_FUEL (λ b, p ← ld (bd_page b); mret (p =? page)) 0 d.2;
      if q.2 =? 0 then find_page l' page size else mret (Some (i, q.1, q.2))
  end.

Definition free_s (obj size : Z) : M buckets unit :=
  let page := Z.land obj 0xfffff000 in
  n ← gets (λ s, length (bucket_dir s));
  r ← find_page (seq 0 n) page size;
  match r with
  | None => panic "Bad address passed to kernel free_s()"
  | Some (i, prev, bdesc) =>
    f ← ld (bd_freeptr bdesc);
    sto obj f ;;
    sto (bd_freeptr bdesc) obj ;;
    c ← ld16 (bd_refcnt bdesc);
    sto16 (bd_refcnt bdesc) (c - 1) ;;
    c ← ld16 (bd_refcnt bdesc);
    if negb (c =? 0) then mret tt
    else
      (** the check that [prev] is still accurate *)
      d ← the_dir i;
      pn ← (if prev =? 0 then mret 0 else ld (bd_next prev));
      prev ← (if (negb (prev =? 0) && negb (pn =? bdesc)) || ((prev =? 0) && negb (d.2 =? bdesc)) then
                q ← find_desc CHAIN_FUEL (λ b, n ← ld (bd_next b); mret (n =? bdesc)) 0 d.2;
                mret q.2
              else mret prev);
      n ← ld (bd_next bdesc);
      (if negb (prev =? 0) then sto (bd_next prev) n
       else if negb (d.2 =? bdesc) then panic "malloc bucket chains corrupted"
       else put_chain i n) ;;
      pg ← ld (bd_page bdesc);
      on_bmem (free_page pg) ;;
      old ← gets free_bucket_desc;
      sto (bd_next bdesc) old ;;
      modify (set_free_bucket_desc bdesc)
  end.
