(* ===== verification/Heap.v ===== *)
(** * The heap that malloc keeps

    What the memory of [Malloc] holds: descriptors in pages of their own, linked
    into the chains of the size classes and a list of free ones, and one page of
    objects per bucket, its free objects linked through their first words.
    [heap_ok] says so of an abstract heap; the lemmas here say which writes
    respect it, and how pages and searches fit in. *)

From S2P Require Import Prelude Memory Malloc.

(** ** Reading and writing the cells of the heap *)
Abbreviation pm s := (phys (b_mem s)).
Definition poke (q : Z → Z) (s : buckets) : buckets := set_b_mem (set_phys q (b_mem s)) s.
Definition word16 (p : Z → Z) (a : Z) : Z := p a + 256 * p (a + 1).
Definition wr16 (a v : Z) : (Z → Z) → Z → Z := mem_write a [v mod 256; v / 256 mod 256].

Lemma poke_poke q q' s : poke q' (poke q s) = poke q' s.
Proof. done. Qed.
Lemma poke_id s : poke (pm s) s = s.
Proof. by destruct s as [? ? []]. Qed.
Lemma wp_ld a Q s : Q (rd32 (pm s) a) s → wp (ld a) Q s.
Proof. by destruct s. Qed.
Lemma wp_sto a v Q s : Q tt (poke (wr32 a v (pm s)) s) → wp (sto a v) Q s.
Proof. done. Qed.
Lemma wp_ld16 a Q s : Q (word16 (pm s) a) s → wp (ld16 a) Q s.
Proof. by destruct s. Qed.
Lemma wp_sto16 a v Q s : Q tt (poke (wr16 a v (pm s)) s) → wp (sto16 a v) Q s.
Proof. done. Qed.

Lemma wr32_out a v p x : ¬ (a ≤ x < a + 4) → wr32 a v p x = p x.
Proof. intros Hx. unfold wr32. destruct (a <=? x) eqn:E1, (x <? a + 4) eqn:E2; cbn; try done; b2p; lia. Qed.
Lemma wr16_out a v p x : ¬ (a ≤ x < a + 2) → wr16 a v p x = p x.
Proof. intros Hx. unfold wr16, mem_write. destruct ((_ <=? _) && _) eqn:E; [|done]. apply andb_true_iff in E as [E1 E2]. b2p. cbn [length] in E2. lia. Qed.
Lemma word16_wr16 a v p : 0 ≤ v < 2 ^ 16 → word16 (wr16 a v p) a = v.
Proof.
  intros Hv. unfold word16, wr16, mem_write. cbn [length].
  rewrite Z.leb_refl, (proj2 (Z.ltb_lt a _)), (proj2 (Z.leb_le a _)), (proj2 (Z.ltb_lt (a + 1) _)) by lia. cbn [andb].
  rewrite Z.sub_diag. replace (a + 1 - a) with 1 by lia. cbn.
  rewrite (Z.mod_small (v / 256)) by (split; [apply Z.div_pos; lia|apply Z.div_lt_upper_bound; lia]).
  change (v mod 256 + 256 * (v / 256) = v). pose proof (Z.div_mod v 256 ltac:(done)). lia.
Qed.
Lemma word16_ext p q a : (∀ x, a ≤ x < a + 2 → q x = p x) → word16 q a = word16 p a.
Proof. intros Hq. unfold word16. rewrite !Hq by lia. done. Qed.

(** [linked off p a l e]: from [a] on, the pointers at offset [off] of the cells
    [l] lead to [e]. *)
Fixpoint linked (off : Z) (p : Z → Z) (a : Z) (l : list Z) (e : Z) : Prop :=
  match l with
  | [] => a = e
  | d :: l' => a = d ∧ d ≠ 0 ∧ linked off p (rd32 p (d + off)) l' e
  end.

Lemma linked_ext off p q a l e :
  (∀ d x, d ∈ l → d + off ≤ x < d + off + 4 → q x = p x) → linked off p a l e → linked off q a l e.
Proof.
  revert a. induction l as [|d l IH]; intros a Hq; [done|]. cbn. intros (-> & Hd & Hl). split_and!; [done..|].
  rewrite (rd32_ext q p). { apply IH; [|done]. intros d' x Hd'. apply Hq. by right. }
  intros x Hx. apply (Hq d); [by left|done].
Qed.
Lemma linked_app off p a l1 l2 e :
  linked off p a (l1 ++ l2) e ↔ ∃ b, linked off p a l1 b ∧ linked off p b l2 e.
Proof.
  revert a. induction l1 as [|d l1 IH]; intros a; cbn.
  - split; [by eauto|]. by intros (? & -> & ?).
  - rewrite IH. naive_solver.
Qed.
Lemma linked_head off p a l : linked off p a l 0 → a = hd 0 l.
Proof. destruct l; cbn; naive_solver. Qed.
Lemma linked_nonzero off p a l e d : linked off p a l e → d ∈ l → d ≠ 0.
Proof.
  revert a. induction l as [|d' l IH]; intros a; cbn; [intros _ []%not_elem_of_nil|].
  intros (_ & Hd & Hl) [->|Hin]%elem_of_cons; [done|by eapply IH].
Qed.

(** *** Dividing a page up *)
Definition objs (a size : Z) (n : nat) : list Z := (λ k, a + size * Z.of_nat k) <$> seq 0 n.

Lemma objs_S a size n : objs a size (S n) = a :: objs (a + size) size n.
Proof.
  unfold objs. cbn [seq fmap list_fmap]. rewrite Z.mul_0_r, Z.add_0_r. f_equal.
  rewrite <- fmap_S_seq, <- list_fmap_compose. apply list_fmap_ext. intros ? k _. cbn. lia.
Qed.
Lemma elem_of_objs a size n o : o ∈ objs a size n ↔ ∃ k, o = a + size * Z.of_nat k ∧ (k < n)%nat.
Proof.
  unfold objs. rewrite list_elem_of_fmap. split.
  - intros (k & -> & Hk). apply elem_of_seq in Hk. exists k. split; [done|lia].
  - intros (k & -> & Hk). exists k. split; [done|]. apply elem_of_seq. lia.
Qed.
Lemma length_slots a size n : length (objs a size n) = n.
Proof. unfold objs. by rewrite length_fmap, length_seq. Qed.
Lemma NoDup_slots a size n : 0 < size → NoDup (objs a size n).
Proof. intros Hs. apply NoDup_fmap_2_strong; [|apply NoDup_seq]. intros j k _ _ E. nia. Qed.
Lemma slots_range a size n o : 0 < size → o ∈ objs a size n → a ≤ o ∧ o + size ≤ a + size * Z.of_nat n.
Proof. intros Hs (k & -> & Hk)%elem_of_objs. nia. Qed.
(** two of them do not overlap *)
Lemma slots_apart a size n o o' : o ∈ objs a size n → o' ∈ objs a size n → o ≠ o' → 0 < size →
  o + size ≤ o' ∨ o' + size ≤ o.
Proof. intros (k & -> & _)%elem_of_objs (k' & -> & _)%elem_of_objs Hne Hs. assert (k ≠ k') by congruence. nia. Qed.

Lemma link_up_run n : ∀ a size off last s, 0 < a → 4 + off ≤ size → 0 ≤ off → 0 ≤ last < 2 ^ 32 →
  a + size * Z.of_nat (S n) ≤ 2 ^ 32 →
  wp (link_up (S n) a size off last) (λ _ s', ∃ q, s' = poke q s ∧
    linked off q a (objs a size (S n)) last ∧
    ∀ x, ¬ (a ≤ x < a + size * Z.of_nat (S n)) → q x = pm s x) s.
Proof.
  induction n as [|n IH]; intros a size off last s Ha Hoff Hoff0 Hlast Hend.
  - apply wp_sto. eexists. split; [done|]. rewrite objs_S. cbn. split.
    + split_and!; [done|lia|]. by rewrite rd32_wr32.
    + intros x Hx. apply wr32_out. lia.
  - assert (0 ≤ size * Z.of_nat n) by (apply Z.mul_nonneg_nonneg; lia).
    change (link_up (S (S n)) a size off last) with (sto (a + off) (a + size) ;; link_up (S n) (a + size) size off last).
    apply wp_bind, wp_sto. eapply wp_mono; [apply IH; lia|]. intros _ s' (q & -> & Hl & Hq).
    exists q. split; [done|]. rewrite objs_S. split.
    + cbn [linked]. split_and!; [done|lia|]. rewrite (rd32_ext q (wr32 (a + off) (a + size) (pm s))).
      * rewrite rd32_wr32 by lia. done.
      * intros x Hx. apply Hq. lia.
    + intros x Hx. rewrite Hq by lia. cbn. apply wr32_out. lia.
Qed.

(** ** The heap

    A bucket: its class, its descriptor, its page and the free objects in it.
    The heap: the buckets in use, those of a class in the order of its chain,
    the free descriptors, and the pages that hold descriptors. *)
Record bucket := mk_bucket { k_class : nat; k_desc : Z; k_page : nat; k_free : list Z }.
Record heap := mk_heap { in_use : list bucket; spare : list Z; desc_pages : list nat }.

Definition size_of (k : bucket) : Z := bucket_sizes !!! k_class k.
Definition capacity (k : bucket) : nat := Z.to_nat (PAGE_SIZE / size_of k).
Definition objects (k : bucket) : list Z := objs (frame (k_page k)) (size_of k) (capacity k).
Definition class_chain (i : nat) (ks : list bucket) : list Z := k_desc <$> filter (λ k, k_class k = i) ks.
Arguments class_chain : simpl never.
Definition desc_slots (i : nat) : list Z := objs (frame i) SIZEOF_BUCKET_DESC (Z.to_nat (PAGE_SIZE / SIZEOF_BUCKET_DESC)).
Definition descs (H : heap) : list Z := (k_desc <$> in_use H) ++ spare H.
Definition pages (H : heap) : list nat := desc_pages H ++ (k_page <$> in_use H).

Record bucket_ok (p : Z → Z) (k : bucket) : Prop := {
  bk_class : (k_class k < 9)%nat;
  bk_page : rd32 p (bd_page (k_desc k)) = frame (k_page k);
  bk_free : linked 0 p (rd32 p (bd_freeptr (k_desc k))) (k_free k) 0;
  bk_refcnt : word16 p (bd_refcnt (k_desc k)) = Z.of_nat (capacity k) - Z.of_nat (length (k_free k));
  bk_nodup : NoDup (k_free k);
  bk_sub : ∀ o, o ∈ k_free k → o ∈ objects k
}.

Record heap_ok (H : heap) (s : buckets) : Prop := {
  hp_mem : mem_ok (b_mem s);
  hp_sizes : (bucket_dir s).*1 = bucket_sizes;
  hp_chains i d : bucket_dir s !! i = Some d → linked 4 (pm s) d.2 (class_chain i (in_use H)) 0;
  hp_buckets : Forall (bucket_ok (pm s)) (in_use H);
  hp_spare : linked 4 (pm s) (free_bucket_desc s) (spare H) 0;
  hp_descs : NoDup (descs H);
  hp_at d : d ∈ descs H → ∃ i, i ∈ desc_pages H ∧ d ∈ desc_slots i;
  hp_pages : NoDup (pages H);
  hp_owned i : i ∈ pages H → mem_map (b_mem s) !! i = Some 1 ∧ frame i < HIGH_MEMORY (b_mem s)
}.

(** an object in use, with its size *)
Definition live (H : heap) (o z : Z) : Prop :=
  ∃ k, k ∈ in_use H ∧ o ∈ objects k ∧ o ∉ k_free k ∧ z = size_of k.

(** *** Sizes *)
Lemma class_facts k : (k_class k < 9)%nat →
  16 ≤ size_of k ≤ 4096 ∧ size_of k * Z.of_nat (capacity k) = 4096 ∧ (1 ≤ capacity k ≤ 256)%nat ∧
  bucket_sizes !! k_class k = Some (size_of k).
Proof.
  unfold capacity, size_of. generalize (k_class k). intros i Hi.
  do 9 (destruct i as [|i]; [apply (bool_decide_unpack _); by vm_compute|]). lia.
Qed.

Lemma owned_range H s i : heap_ok H s → i ∈ pages H → Z.of_nat i < 3840 ∧ 2 ^ 20 ≤ frame i ∧ frame i + 4096 ≤ 2 ^ 24.
Proof.
  intros Hok [Hi _]%(hp_owned _ _ Hok). apply lookup_lt_Some in Hi. rewrite (mo_len _ (hp_mem _ _ Hok)), PAGING_PAGES_val in Hi.
  unfold frame, LOW_MEM. lia.
Qed.

Lemma desc_range i d : d ∈ desc_slots i → frame i ≤ d ∧ d + 16 ≤ frame i + 4096 ∧ ∃ m, d = 16 * m.
Proof.
  intros Hd. split_and!.
  - by apply slots_range in Hd as [? _].
  - apply slots_range in Hd as [_ Hd]; [|done]. change (SIZEOF_BUCKET_DESC * _) with 4096 in Hd. unfold SIZEOF_BUCKET_DESC in Hd. lia.
  - apply elem_of_objs in Hd as (k & -> & _). exists (65536 + 256 * Z.of_nat i + Z.of_nat k). unfold frame, LOW_MEM, SIZEOF_BUCKET_DESC. lia.
Qed.

Section heap.
Context (H : heap) (s : buckets) (Hok : heap_ok H s).

Lemma desc_bounds d : d ∈ descs H → 2 ^ 20 ≤ d ∧ d + 16 ≤ 2 ^ 24 ∧ ∃ m, d = 16 * m.
Proof.
  intros (i & Hi & Hd)%(hp_at _ _ Hok). apply desc_range in Hd as (? & ? & ?).
  assert (i ∈ pages H) as Hp by (unfold pages; set_solver). pose proof (owned_range _ _ _ Hok Hp). split_and!; [lia..|done].
Qed.

(** two descriptors do not overlap, nor do a descriptor and an object, nor objects of two buckets *)
Lemma descs_apart d d' : d ∈ descs H → d' ∈ descs H → d ≠ d' → d + 16 ≤ d' ∨ d' + 16 ≤ d.
Proof. intros (_ & _ & m & ->)%desc_bounds (_ & _ & m' & ->)%desc_bounds ?. lia. Qed.

Lemma frames_apart i j : i ≠ j → frame i + 4096 ≤ frame j ∨ frame j + 4096 ≤ frame i.
Proof. unfold frame. lia. Qed.

Lemma desc_page_apart d k : d ∈ descs H → k ∈ in_use H →
  d + 16 ≤ frame (k_page k) ∨ frame (k_page k) + 4096 ≤ d.
Proof.
  intros (i & Hi & Hd)%(hp_at _ _ Hok) Hk. apply desc_range in Hd as (? & ? & _).
  destruct (frames_apart i (k_page k)); [|lia..].
  intros ->. pose proof (hp_pages _ _ Hok) as Hn. apply NoDup_app in Hn as (_ & Hn & _). apply (Hn _ Hi).
  by apply list_elem_of_fmap_2.
Qed.

Lemma object_range k o : k ∈ in_use H → o ∈ objects k →
  frame (k_page k) ≤ o ∧ o + size_of k ≤ frame (k_page k) + 4096 ∧ 16 ≤ size_of k.
Proof.
  intros Hk Ho. pose proof (proj1 (Forall_forall _ _) (hp_buckets _ _ Hok) _ Hk) as Hb.
  destruct (class_facts k (bk_class _ _ Hb)) as (? & Hc & _). apply slots_range in Ho as [? ?]; lia.
Qed.

Lemma page_bounds k : k ∈ in_use H → 2 ^ 20 ≤ frame (k_page k) ∧ frame (k_page k) + 4096 ≤ 2 ^ 24 ∧ Z.of_nat (k_page k) < 3840.
Proof.
  intros Hk. assert (k_page k ∈ pages H) as Hp.
  { unfold pages. apply elem_of_app. right. by apply list_elem_of_fmap_2. }
  pose proof (owned_range _ _ _ Hok Hp). lia.
Qed.

Lemma desc_in k : k ∈ in_use H → k_desc k ∈ descs H.
Proof. intros Hk. unfold descs. apply elem_of_app. left. by apply list_elem_of_fmap_2. Qed.
End heap.

Lemma bucket_ok_ext p q k : bucket_ok p k →
  (∀ x, k_desc k ≤ x < k_desc k + 4 ∨ k_desc k + 8 ≤ x < k_desc k + 16 → q x = p x) →
  (∀ o x, o ∈ k_free k → o ≤ x < o + 4 → q x = p x) → bucket_ok q k.
Proof.
  intros [Hc Hp Hf Hr Hn Hs] Hd Ho. unfold bd_page, bd_freeptr, bd_refcnt in *. constructor; try done.
  - rewrite (rd32_ext q p); [done|]. intros. apply Hd. unfold bd_page in *. lia.
  - rewrite (rd32_ext q p) by (intros; apply Hd; unfold bd_freeptr in *; lia). eapply linked_ext; [|done].
    intros o x Hin. rewrite Z.add_0_r. by apply Ho.
  - rewrite (word16_ext p q); [done|]. intros. apply Hd. unfold bd_refcnt in *. lia.
Qed.

Lemma class_chain_sub i ks d : d ∈ class_chain i ks → d ∈ k_desc <$> ks.
Proof. intros (k & -> & [_ Hk]%list_elem_of_filter)%list_elem_of_fmap. by apply list_elem_of_fmap_2. Qed.

(** memory that changes where no descriptor and no free object is *)
Lemma heap_frame H s q : heap_ok H s →
  (∀ d x, d ∈ descs H → d ≤ x < d + 16 → q x = pm s x) →
  (∀ k o x, k ∈ in_use H → o ∈ k_free k → o ≤ x < o + 4 → q x = pm s x) →
  heap_ok H (poke q s).
Proof.
  intros [Hmem Hsz Hch Hbk Hsp Hdn Hat Hpn Hown] Hd Ho. constructor; try done.
  - by destruct Hmem; constructor.
  - intros i d Hi. eapply linked_ext; [|by apply Hch]. cbn. intros d' x Hin%class_chain_sub Hx.
    apply (Hd d'); [unfold descs; set_solver|lia].
  - apply Forall_forall. intros k Hk. eapply bucket_ok_ext; [by eapply Forall_forall in Hbk| |].
    + intros x Hx. apply (Hd (k_desc k)); [|lia]. apply elem_of_app. left. by apply list_elem_of_fmap_2.
    + intros o x. by apply Ho.
  - eapply linked_ext; [|exact Hsp]. cbn. intros d' x Hin Hx. apply (Hd d'); [unfold descs; set_solver|lia].
Qed.

Lemma NoDup_fmap_others {A B} (f : A → B) l1 l2 k k0 :
  NoDup (f <$> l1 ++ k :: l2) → k0 ∈ l1 ++ l2 → f k0 ≠ f k.
Proof.
  rewrite fmap_app, fmap_cons. intros (_ & N1 & [N2 _]%NoDup_cons)%NoDup_app [Hk|Hk]%elem_of_app E.
  - apply (N1 (f k0)); [by apply list_elem_of_fmap_2|]. rewrite E. left.
  - apply N2. rewrite <- E. by apply list_elem_of_fmap_2.
Qed.

Lemma NoDup_fmap_unique {A B} (f : A → B) l k k' : NoDup (f <$> l) → k ∈ l → k' ∈ l → f k = f k' → k = k'.
Proof.
  intros Hn Hk (l1 & l2 & ->)%list_elem_of_split E.
  apply elem_of_app in Hk as [Hk|[->|Hk]%elem_of_cons]; [|done|];
    destruct (NoDup_fmap_others f l1 l2 k' k Hn); try done; apply elem_of_app; auto.
Qed.

(** one bucket's free list and counter change *)
Lemma heap_update l1 l2 (sp : list Z) dp k k' s q (H := mk_heap (l1 ++ k :: l2) sp dp) :
  heap_ok H s →
  k_class k' = k_class k → k_desc k' = k_desc k → k_page k' = k_page k →
  bucket_ok q k' →
  (∀ x, ¬ (k_desc k + 8 ≤ x < k_desc k + 16) → ¬ (frame (k_page k) ≤ x < frame (k_page k) + 4096) → q x = pm s x) →
  heap_ok (mk_heap (l1 ++ k' :: l2) sp dp) (poke q s).
Proof.
  intros Hok Ec Ed Ep Hk' Hq.
  assert (Hk : k ∈ in_use H) by (cbn; set_solver).
  assert (Hds : descs (mk_heap (l1 ++ k' :: l2) sp dp) = descs H).
  { unfold descs. cbn. by rewrite !fmap_app, !fmap_cons, Ed. }
  assert (Hpg : pages (mk_heap (l1 ++ k' :: l2) sp dp) = pages H).
  { unfold pages. cbn. by rewrite !fmap_app, !fmap_cons, Ep. }
  assert (Hnext : ∀ d x, d ∈ descs H → d + 4 ≤ x < d + 8 → q x = pm s x).
  { intros d x Hd Hx. pose proof (desc_page_apart _ _ Hok d k Hd Hk). apply Hq; [|lia].
    destruct (decide (d = k_desc k)) as [->|Hne]; [lia|].
    pose proof (descs_apart _ _ Hok d (k_desc k) Hd (desc_in H k Hk) Hne). lia. }
  pose proof (desc_in H k Hk) as Hkd.
  destruct (Hok) as [Hmem Hsz Hch Hbk Hsp Hdn Hat Hpn Hown]. constructor; rewrite ?Hds, ?Hpg; try done.
  - by destruct Hmem; constructor.
  - intros i d Hi. replace (class_chain i (in_use _)) with (class_chain i (l1 ++ k :: l2)).
    + eapply linked_ext; [|by apply Hch]. cbn. intros d' x Hin%class_chain_sub Hx.
      apply (Hnext d'); [|lia]; apply elem_of_app; by left.
    + unfold class_chain. cbn. rewrite !filter_app, !filter_cons, Ec. case_decide; rewrite !fmap_app, ?fmap_cons, ?Ed; done.
  - cbn. apply Forall_app in Hbk as [H1 H2]. apply Forall_cons in H2 as [_ H2].
    assert (∀ k0, k0 ∈ l1 ++ l2 → bucket_ok (pm s) k0 → bucket_ok q k0) as Hext.
    { intros k0 Hk0 Hb. assert (Hin : k0 ∈ in_use H) by (cbn; set_solver).
      assert (Hkd0 : k_desc k0 ≠ k_desc k).
      { apply NoDup_app in Hdn as (Hdn & _ & _). by apply (NoDup_fmap_others _ l1 l2). }
      assert (Hkp0 : k_page k0 ≠ k_page k).
      { apply NoDup_app in Hpn as (_ & _ & Hpn). by apply (NoDup_fmap_others _ l1 l2). }
      pose proof (desc_in H k0 Hin) as Hd0. apply (bucket_ok_ext (pm s)); [done| |].
      - intros x Hx. pose proof (descs_apart _ _ Hok _ _ Hd0 Hkd Hkd0). pose proof (desc_page_apart _ _ Hok _ _ Hd0 Hk).
        apply Hq; lia.
      - intros o x Ho%(bk_sub _ _ Hb) Hx. pose proof (object_range _ _ Hok _ _ Hin Ho).
        pose proof (desc_page_apart _ _ Hok _ _ Hkd Hin). destruct (frames_apart (k_page k0) (k_page k) Hkp0); apply Hq; lia. }
    apply Forall_app. split; [|apply Forall_cons; split; [done|]]; apply Forall_forall; intros k0 Hk0; apply Hext.
    + apply elem_of_app. by left.
    + by eapply Forall_forall in H1.
    + apply elem_of_app. by right.
    + by eapply Forall_forall in H2.
  - eapply linked_ext; [|exact Hsp]. cbn. intros d' x Hin Hx. apply (Hnext d'); [|lia]; apply elem_of_app; by right.
Qed.

(** ** Searching a chain *)
Section find_desc.
Context (test : Z → M buckets bool) (f : Z → bool) (s : buckets).

Lemma find_desc_none l : ∀ fuel prev a, linked 4 (pm s) a l 0 →
  (∀ d, d ∈ l → test d s = Ret (f d) s) → (∀ d, d ∈ l → f d = false) → (length l < fuel)%nat →
  wp (find_desc fuel test prev a) (λ r s', s' = s ∧ r.2 = 0) s.
Proof.
  induction l as [|d l IH]; intros fuel prev a Hl Ht Hf Hfuel; (destruct fuel as [|fuel]; [cbn in Hfuel; lia|]); cbn in Hl |- *.
  - subst a. by apply wp_ret.
  - destruct Hl as (-> & Hd & Hl). rewrite (proj2 (Z.eqb_neq _ _) Hd). apply wp_bind.
    eapply wp_eq; [apply Ht; left|]. rewrite (Hf d) by left. cbn beta. apply wp_bind, wp_ld.
    apply IH; [done| | |cbn in Hfuel; lia]; intros d' Hd'; [apply Ht|apply Hf]; by right.
Qed.

Lemma find_desc_some l1 d l2 : ∀ fuel prev a, linked 4 (pm s) a (l1 ++ d :: l2) 0 →
  (∀ d', d' ∈ l1 ++ [d] → test d' s = Ret (f d') s) → (∀ d', d' ∈ l1 → f d' = false) → f d = true →
  (length l1 < fuel)%nat →
  wp (find_desc fuel test prev a) (λ r s', s' = s ∧ r = (default prev (last l1), d)) s.
Proof.
  induction l1 as [|x l1 IH]; intros fuel prev a Hl Ht Hf Hd Hfuel; (destruct fuel as [|fuel]; [cbn in Hfuel; lia|]); cbn in Hl |- *.
  - destruct Hl as (-> & Hz & _). rewrite (proj2 (Z.eqb_neq _ _) Hz). apply wp_bind.
    eapply wp_eq; [apply Ht; left|]. rewrite Hd. by apply wp_ret.
  - destruct Hl as (-> & Hz & Hl). rewrite (proj2 (Z.eqb_neq _ _) Hz). apply wp_bind.
    eapply wp_eq; [apply Ht; left|]. rewrite (Hf x) by left. cbn beta. apply wp_bind, wp_ld.
    eapply wp_mono; [apply IH; [done| | |done|cbn in Hfuel; lia]; intros d' Hd'; [apply Ht|apply Hf]; by right|].
    intros r s' (-> & ->). split; [done|]. f_equal. destruct l1 as [|y l1]; [done|].
    change (last (x :: y :: l1)) with (last (y :: l1)). destruct (last (y :: l1)) eqn:E; [done|]. by apply last_None in E.
Qed.
End find_desc.

(** ** Operations that may panic for want of a page *)

(** [wpp m P Q s]: [m] returns and [Q] holds, or panics and [P] holds *)
Definition wpp {S A} (m : M S A) (P : Prop) (Q : A → S → Prop) (s : S) : Prop :=
  match m s with Ret a s' => Q a s' | Panic _ => P | _ => False end.

Lemma wpp_bind {S A B} (m : M S A) (k : A → M S B) P Q s :
  wpp m P (λ a, wpp (k a) P Q) s → wpp (m ≫= k) P Q s.
Proof. unfold wpp, mbind, M_bind. by destruct (m s). Qed.
Lemma wpp_mono {S A} (m : M S A) (P P' : Prop) (Q Q' : A → S → Prop) s :
  wpp m P Q s → (P → P') → (∀ a s', Q a s' → Q' a s') → wpp m P' Q' s.
Proof. unfold wpp. destruct (m s); auto. Qed.
Lemma wpp_wp {S A} (m : M S A) P Q s : wp m Q s → wpp m P Q s.
Proof. unfold wp, wpp. by destruct (m s). Qed.
Lemma wpp_wp_bind {S A B} (m : M S A) (k : A → M S B) P Q s :
  wp m (λ a, wpp (k a) P Q) s → wpp (m ≫= k) P Q s.
Proof. intros ?. by apply wpp_bind, wpp_wp. Qed.
Lemma wpp_panic {S A} w (P : Prop) (Q : A → S → Prop) s : P → wpp (panic w) P Q s.
Proof. done. Qed.

(** the bytes of the objects in use stay *)
Definition keeps_live (H : heap) (s s' : buckets) : Prop :=
  ∀ o z x, live H o z → o ≤ x < o + z → pm s' x = pm s x.
Lemma keeps_live_trans H s s1 s2 : keeps_live H s s1 → keeps_live H s1 s2 → keeps_live H s s2.
Proof. intros H1 H2 o z x Ho Hx. by rewrite (H2 o z x Ho Hx), (H1 o z x Ho Hx). Qed.

Lemma live_range H s o z : heap_ok H s → live H o z →
  16 ≤ z ∧ ∃ k, k ∈ in_use H ∧ frame (k_page k) ≤ o ∧ o + z ≤ frame (k_page k) + 4096.
Proof.
  intros Hok (k & Hk & Ho & _ & ->). pose proof (object_range _ _ Hok _ _ Hk Ho). split; [lia|]. exists k. split_and!; [done|lia..].
Qed.

(** Writes to a page that is not of the heap, or to a descriptor that is not,
    matter neither to the heap nor to the objects in use. *)
Lemma heap_frame_page H s q i : heap_ok H s → i ∉ pages H →
  (∀ x, ¬ (frame i ≤ x < frame i + 4096) → q x = pm s x) → heap_ok H (poke q s) ∧ keeps_live H s (poke q s).
Proof.
  intros Hok Hnew Hq.
  assert (Hpage : ∀ k, k ∈ in_use H → frame i + 4096 ≤ frame (k_page k) ∨ frame (k_page k) + 4096 ≤ frame i).
  { intros k Hk. apply frames_apart. intros ->. apply Hnew. apply elem_of_app. right. by apply list_elem_of_fmap_2. }
  split.
  - apply heap_frame; [done| |].
    + intros d x (j & Hj & Hd)%(hp_at _ _ Hok) Hx. apply desc_range in Hd as (? & ? & _). apply Hq.
      destruct (frames_apart i j); [|lia..]. intros ->. apply Hnew. apply elem_of_app. by left.
    + intros k o x Hk Ho Hx. apply Hq. pose proof (proj1 (Forall_forall _ _) (hp_buckets _ _ Hok) _ Hk) as Hb.
      pose proof (object_range _ _ Hok _ _ Hk (bk_sub _ _ Hb _ Ho)). destruct (Hpage k Hk); lia.
  - intros o z x Ho Hx. destruct (live_range _ _ _ _ Hok Ho) as (? & k & Hk & ? & ?). apply Hq. destruct (Hpage k Hk); lia.
Qed.

Lemma heap_frame_desc H s q d i : heap_ok H s → d ∉ descs H → i ∈ desc_pages H → d ∈ desc_slots i →
  (∀ x, ¬ (d ≤ x < d + 16) → q x = pm s x) → heap_ok H (poke q s) ∧ keeps_live H s (poke q s).
Proof.
  intros Hok Hnew Hi Hd Hq. apply desc_range in Hd as (? & ? & m & Em).
  assert (Hpage : ∀ k, k ∈ in_use H → frame i + 4096 ≤ frame (k_page k) ∨ frame (k_page k) + 4096 ≤ frame i).
  { intros k Hk. apply frames_apart. intros ->. pose proof (hp_pages _ _ Hok) as Hn.
    apply NoDup_app in Hn as (_ & Hn & _). apply (Hn _ Hi). by apply list_elem_of_fmap_2. }
  split.
  - apply heap_frame; [done| |].
    + intros d' x Hd' Hx. destruct (desc_bounds _ _ Hok _ Hd') as (_ & _ & m' & Em'). apply Hq.
      assert (d ≠ d') by (intros ->; done). lia.
    + intros k o x Hk Ho Hx. apply Hq. pose proof (proj1 (Forall_forall _ _) (hp_buckets _ _ Hok) _ Hk) as Hb.
      pose proof (object_range _ _ Hok _ _ Hk (bk_sub _ _ Hb _ Ho)). destruct (Hpage k Hk); lia.
  - intros o z x Ho Hx. destruct (live_range _ _ _ _ Hok Ho) as (? & k & Hk & ? & ?). apply Hq. destruct (Hpage k Hk); lia.
Qed.

(** ** A new page *)

(** page [i] is ours, and used for nothing yet *)
Record grabbed (H : heap) (s : buckets) (i : nat) (s' : buckets) : Prop := {
  gr_ok : heap_ok H s';
  gr_new : i ∉ pages H;
  gr_mem : mem_map (b_mem s') !! i = Some 1 ∧ frame i < HIGH_MEMORY (b_mem s');
  gr_rest : ∀ x, ¬ (frame i ≤ x < frame i + 4096) → pm s' x = pm s x;
  gr_dir : bucket_dir s' = bucket_dir s ∧ free_bucket_desc s' = free_bucket_desc s;
  gr_last : (∀ j, mem_map (b_mem s') !! j ≠ Some 0) → (free_pages (b_mem s) ≤ 1)%nat
}.

Lemma grabbed_live H s i s' : heap_ok H s → grabbed H s i s' → keeps_live H s s'.
Proof.
  intros Hok Hg o z x Ho Hx. destruct (live_range _ _ _ _ Hok Ho) as (? & k & Hk & ? & ?). apply (gr_rest _ _ _ _ Hg).
  destruct (frames_apart i (k_page k)); [|lia..]. intros ->. apply (gr_new _ _ _ _ Hg).
  apply elem_of_app. right. by apply list_elem_of_fmap_2.
Qed.

Lemma free_pages_none s : (∀ j, mem_map s !! j ≠ Some 0) → free_pages s = O.
Proof.
  intros Hz. unfold free_pages. destruct (filter _ _) as [|x l] eqn:E; [done|].
  assert (x ∈ filter (λ c, c = 0) (mem_map s)) as [-> [j Hj]%list_elem_of_lookup]%list_elem_of_filter by (rewrite E; left).
  by apply Hz in Hj.
Qed.
Lemma free_pages_last (m : list Z) i : (i < length m)%nat → (∀ j, <[i := 1]> m !! j ≠ Some 0) →
  (length (filter (λ c, c = 0%Z) m) ≤ 1)%nat.
Proof.
  intros Hi Hz. destruct (lookup_lt_is_Some_2 m i Hi) as [c Hc].
  rewrite <- (take_drop_middle m i c Hc), filter_app, filter_cons, length_app.
  assert (∀ l, (∀ j, l !! j ≠ Some 0) → filter (λ c, c = 0%Z) l = []) as Hnil.
  { intros l Hl. destruct (filter _ _) as [|x l'] eqn:E; [done|].
    assert (x ∈ filter (λ c, c = 0%Z) l) as [-> [j Hj]%list_elem_of_lookup]%list_elem_of_filter by (rewrite E; left).
    by apply Hl in Hj. }
  rewrite !Hnil.
  - case_decide; cbn; lia.
  - intros j. rewrite lookup_drop. intros E. apply (Hz (S i + j)%nat). by rewrite list_lookup_insert_ne by lia.
  - intros j E. apply lookup_take_Some in E as [E ?]. apply (Hz j). by rewrite list_lookup_insert_ne by lia.
Qed.

Lemma grab_page_run H s : heap_ok H s →
  wp (on_bmem get_free_page) (λ a s',
    (∃ i, a = frame i ∧ grabbed H s i s') ∨ (a = 0 ∧ s' = s ∧ ∀ j, mem_map (b_mem s) !! j ≠ Some 0)) s.
Proof.
  intros Hok. pose proof (hp_mem _ _ Hok) as Hm. unfold on_bmem, wp.
  destruct (get_free_page_run (b_mem s) Hm) as [(i & Hi & Hz & _ & ->)|[Hno ->]].
  2:{ right. by destruct s. }
  left. exists i. split; [done|]. destruct (mem_ok_alloc _ _ Hm Hi Hz) as [Hm' Hhi].
  assert (Hnew : i ∉ pages H) by (intros [Hone _]%(hp_owned _ _ Hok); congruence).
  set (q := clear_page (frame i) (pm s)) in *.
  assert (Hq : ∀ x, ¬ (frame i ≤ x < frame i + 4096) → q x = pm s x).
  { intros x Hx. unfold q, clear_page. destruct ((_ <=? _) && _) eqn:E; [|done]. apply andb_true_iff in E as [E1 E2]. b2p. lia. }
  destruct (heap_frame_page H s q i Hok Hnew Hq) as [Hok1 _].
  constructor; try done.
  - destruct Hok1 as [_ Hsz Hch Hbk Hsp Hdn Hat Hpn Hown]. constructor; try done. intros j Hj. cbn.
    rewrite list_lookup_insert_ne by (by intros ->). by apply Hown.
  - cbn. rewrite list_lookup_insert_eq by done. split; [done|lia].
  - cbn. intros Hall. unfold free_pages. by apply (free_pages_last _ i).
Qed.
