(* ===== verification/MallocSafe.v ===== *)
(** * malloc and free are safe

    [malloc] and [free_s] respect the heap of [Heap], and so serve any sequence
    of requests: [malloc_safe]. *)

From S2P Require Import Prelude Memory Malloc Heap.

(** *** A page of descriptors *)
Lemma spare_nil H s : heap_ok H s → free_bucket_desc s = 0 ↔ spare H = [].
Proof.
  intros Hok. pose proof (hp_spare _ _ Hok) as Hl. rewrite (linked_head _ _ _ _ Hl).
  destruct (spare H) as [|d l]; [done|]. split; [|done]. intros E. exfalso. apply (linked_nonzero _ _ _ _ _ d Hl); [left|exact E].
Qed.

Lemma init_bucket_desc_run ks dp s (H := mk_heap ks [] dp) : heap_ok H s →
  wpp init_bucket_desc (free_pages (b_mem s) ≤ 1)%nat (λ _ s', ∃ i, heap_ok (mk_heap ks (desc_slots i) (i :: dp)) s' ∧
    keeps_live H s s' ∧ ((∀ j, mem_map (b_mem s') !! j ≠ Some 0) → (free_pages (b_mem s) ≤ 1)%nat)) s.
Proof.
  intros Hok. unfold init_bucket_desc. apply wpp_wp_bind. eapply wp_mono; [by apply (grab_page_run H)|].
  intros a s1 [(i & -> & Hg)|(-> & -> & Hno)].
  2:{ apply wpp_panic. rewrite free_pages_none by done. lia. }
  pose proof (gr_ok _ _ _ _ Hg) as Hok1. pose proof (gr_new _ _ _ _ Hg) as Hnew.
  assert (Hi : Z.of_nat i < 3840).
  { destruct (gr_mem _ _ _ _ Hg) as [Hi _]. apply lookup_lt_Some in Hi. rewrite (mo_len _ (hp_mem _ _ Hok1)), PAGING_PAGES_val in Hi. lia. }
  rewrite (proj2 (Z.eqb_neq (frame i) 0)) by (unfold frame, LOW_MEM; lia). apply wpp_wp, wp_bind, wp_gets, wp_bind.
  rewrite (proj2 (spare_nil H s1 Hok1)) by done. change (Z.to_nat (PAGE_SIZE / SIZEOF_BUCKET_DESC)) with (S 255).
  assert (Hf : 2 ^ 20 ≤ frame i ∧ frame i + 4096 ≤ 2 ^ 24) by (unfold frame, LOW_MEM; lia).
  eapply wp_mono; [apply link_up_run; unfold SIZEOF_BUCKET_DESC; lia|]. intros _ s2 (q & -> & Hl & Hq).
  change (SIZEOF_BUCKET_DESC * _) with 4096 in Hq. apply wp_modify.
  assert (Hd : ∀ d, d ∈ descs H → d + 16 ≤ frame i ∨ frame i + 4096 ≤ d).
  { intros d (j & Hj & Hd)%(hp_at _ _ Hok). apply desc_range in Hd as (? & ? & _). destruct (frames_apart i j); [|lia..].
    intros ->. apply Hnew. apply elem_of_app. by left. }
  destruct (heap_frame_page H s1 q i Hok1 Hnew Hq) as [Hok2 Hlive].
  exists i. split; [|split; [|apply (gr_last _ _ _ _ Hg)]].
  - destruct Hok2 as [Hm Hsz Hch Hbk Hsp Hdn Hat Hpn Hown]. constructor; try done.
    + apply NoDup_app. split; [apply NoDup_app in Hdn; tauto|]. split; [|by apply NoDup_slots].
      intros d Hin Hs. apply desc_range in Hs as (? & ? & _). destruct (Hd d); [apply elem_of_app; by left|lia..].
    + intros d [Hin|Hin]%elem_of_app.
      * destruct (Hat d) as (j & Hj & ?); [apply elem_of_app; by left|]. exists j. split; [by right|done].
      * exists i. split; [left|done].
    + apply NoDup_cons. split; [exact Hnew|exact Hpn].
    + intros j [->|Hj]%elem_of_cons; [apply (gr_mem _ _ _ _ Hg)|by apply Hown].
  - eapply keeps_live_trans; [by eapply grabbed_live|exact Hlive].
Qed.

(** *** A new bucket *)
Lemma drop_spare ks d sp dp s : heap_ok (mk_heap ks (d :: sp) dp) s →
  free_bucket_desc s = d ∧ heap_ok (mk_heap ks sp dp) (set_free_bucket_desc (rd32 (pm s) (d + 4)) s) ∧
  d ∉ descs (mk_heap ks sp dp) ∧ (∃ i, i ∈ dp ∧ d ∈ desc_slots i).
Proof.
  intros [Hm Hsz Hch Hbk Hsp Hdn Hat Hpn Hown]. destruct Hsp as (-> & Hd & Hl).
  apply NoDup_app in Hdn as (N1 & N2 & N3). cbn in N1, N2, N3. apply NoDup_cons in N3 as [N3 N4].
  split_and!; [done| | |].
  - constructor; try done.
    + apply NoDup_app. split_and!; [done| |done]. intros x Hx Hin. apply (N2 x Hx). by right.
    + intros x [Hx|Hx]%elem_of_app; apply Hat, elem_of_app; [by left|]. right. cbn. by right.
  - intros [Hx|Hx]%elem_of_app; [|done]. apply (N2 _ Hx). left.
  - apply Hat, elem_of_app. right. left.
Qed.

Lemma put_chain_sizes (l : list (Z * Z)) i a : (alter (λ d, (d.1, a)) i l).*1 = l.*1.
Proof.
  apply list_eq. intros j. rewrite !list_lookup_fmap. destruct (decide (i = j)) as [<-|Hne].
  - rewrite list_lookup_alter_eq. by destruct (l !! i).
  - by rewrite list_lookup_alter_ne.
Qed.

Lemma push_bucket ks sp dp k i s : heap_ok (mk_heap ks sp dp) s → bucket_ok (pm s) k → k_class k = i →
  k_desc k ∉ descs (mk_heap ks sp dp) → k_desc k ≠ 0 → (∃ j, j ∈ dp ∧ k_desc k ∈ desc_slots j) →
  k_page k ∉ pages (mk_heap ks sp dp) →
  mem_map (b_mem s) !! k_page k = Some 1 ∧ frame (k_page k) < HIGH_MEMORY (b_mem s) →
  (∀ d, bucket_dir s !! i = Some d → rd32 (pm s) (k_desc k + 4) = d.2) →
  heap_ok (mk_heap (k :: ks) sp dp) (set_bucket_dir (alter (λ d, (d.1, k_desc k)) i (bucket_dir s)) s).
Proof.
  intros [Hm Hsz Hch Hbk Hsp Hdn Hat Hpn Hown] Hk Hi Hd Hd0 Hda Hp Hpo Hn. constructor; try done.
  - cbn. by rewrite put_chain_sizes.
  - intros j d Hj. cbn [bucket_dir set_bucket_dir] in Hj.
    change (linked 4 (pm s) d.2 (class_chain j (k :: ks)) 0). unfold class_chain. rewrite filter_cons, Hi. destruct (decide (i = j)) as [<-|Hij].
    + rewrite list_lookup_alter_eq in Hj. apply fmap_Some in Hj as (d0 & Hj & ->). cbn.
      split_and!; [done..|]. rewrite (Hn _ Hj). by apply Hch.
    + rewrite list_lookup_alter_ne in Hj by done. by apply Hch.
  - by apply Forall_cons.
  - unfold descs. cbn. by apply NoDup_cons.
  - unfold descs. cbn. intros x [->|Hx]%elem_of_cons; [done|by apply Hat].
  - unfold pages in *. cbn in *. apply NoDup_app in Hpn as (N1 & N2 & N3). apply NoDup_app. split_and!.
    + done.
    + intros x Hx [->|Hin]%elem_of_cons; [apply Hp, elem_of_app; by left|by eapply N2].
    + apply NoDup_cons. split; [|done]. intros Hin. apply Hp, elem_of_app. by right.
  - unfold pages in *. cbn in *. intros x [Hx|[->|Hx]%elem_of_cons]%elem_of_app; [|done|]; apply Hown, elem_of_app; [by left|by right].
Qed.

Lemma get_spare_run ks sp dp s (H := mk_heap ks sp dp) : heap_ok H s →
  wpp (when (free_bucket_desc s =? 0) init_bucket_desc) (free_pages (b_mem s) ≤ 1)%nat
    (λ _ s', ∃ d sp' dp', heap_ok (mk_heap ks (d :: sp') dp') s' ∧ keeps_live H s s' ∧
      ((∀ j, mem_map (b_mem s') !! j ≠ Some 0) → (free_pages (b_mem s) ≤ 1)%nat)) s.
Proof.
  intros Hok. destruct (free_bucket_desc s =? 0) eqn:E; b2p; cbn [when].
  - apply (spare_nil H s Hok) in E. cbn in E. subst sp. eapply wpp_mono; [by apply init_bucket_desc_run|done|].
    intros _ s' (i & Hok' & Hl & Hz). unfold desc_slots in Hok'.
    change (Z.to_nat (PAGE_SIZE / SIZEOF_BUCKET_DESC)) with (S 255) in Hok'. rewrite objs_S in Hok'. by eauto 6.
  - apply wpp_wp, wp_ret. destruct sp as [|d sp]; [by destruct E; apply (spare_nil H s Hok)|].
    exists d, sp, dp. split_and!; [done|by intros ???|]. intros Hno. rewrite free_pages_none by done. lia.
Qed.

Lemma objects_linked q k : linked 0 q (frame (k_page k)) (objects k) 0 → (k_class k < 9)%nat →
  rd32 q (bd_page (k_desc k)) = frame (k_page k) → rd32 q (bd_freeptr (k_desc k)) = frame (k_page k) →
  word16 q (bd_refcnt (k_desc k)) = 0 → k_free k = objects k → bucket_ok q k.
Proof.
  intros Hl Hc Hp Hf Hr E. destruct (class_facts k Hc) as (? & _ & _). constructor; rewrite ?E; try done.
  - by rewrite Hf.
  - rewrite Hr. unfold objects. rewrite length_slots. lia.
  - apply NoDup_slots. lia.
Qed.

(** the end of [new_bucket]: page [j] is made into objects, linked to descriptor
    [d], and the bucket is put into its chain *)
Lemma fill_bucket_run ks sp dp i size d j p s (H := mk_heap ks sp dp) : heap_ok H s → bucket_sizes !! i = Some size →
  d ∉ descs H → p ∈ desc_pages H → d ∈ desc_slots p → j ∉ pages H →
  mem_map (b_mem s) !! j = Some 1 ∧ frame j < HIGH_MEMORY (b_mem s) →
  rd32 (pm s) (bd_page d) = frame j → rd32 (pm s) (bd_freeptr d) = frame j → word16 (pm s) (bd_refcnt d) = 0 →
  2 ^ 20 ≤ frame j ∧ frame j + 4096 ≤ 2 ^ 24 → 2 ^ 20 ≤ d ∧ d + 16 ≤ 2 ^ 24 → d + 16 ≤ frame j ∨ frame j + 4096 ≤ d →
  wp (link_up (Z.to_nat (PAGE_SIZE / size)) (frame j) size 0 0 ;; e ← the_dir i; sto (bd_next d) e.2 ;; put_chain i d ;; mret d)
    (λ r s', r = d ∧ ∃ k, heap_ok (mk_heap (k :: ks) sp dp) s' ∧ k_class k = i ∧ k_desc k = d ∧ k_free k = objects k ∧ keeps_live H s s') s.
Proof.
  intros Hok Hsize Hd Hp Hdp Hnew Hmem Hpg Hfp Hrc Hj Hdb Hdj.
  set (k := mk_bucket i d j (objs (frame j) size (Z.to_nat (PAGE_SIZE / size)))).
  assert (size_of k = size) as Esize by (by apply list_lookup_total_correct).
  destruct (class_facts k) as (Hs1 & Hs2 & Hs3 & _); [exact (lookup_lt_Some _ _ _ Hsize)|]. unfold capacity in *. rewrite Esize in *.
  set (n0 := Z.to_nat (PAGE_SIZE / size)) in *. destruct n0 as [|n] eqn:En; [lia|].
  apply wp_bind. eapply wp_mono; [apply link_up_run; lia|]. intros _ s6 (q & -> & Hl & Hq). rewrite Hs2 in Hq.
  destruct (heap_frame_page H _ q j Hok Hnew Hq) as [Hok6 Hlive6].
  set (s6 := poke q _) in *. destruct (lookup_lt_is_Some_2 (bucket_dir s6) i) as [dir Hdir].
  { rewrite <- (length_fmap fst), (hp_sizes _ _ Hok6). by eapply lookup_lt_Some. }
  apply wp_bind. eapply wp_of_opt; [exact Hdir|]. apply wp_bind, wp_sto. change (bd_next d) with (d + 4).
  set (q7 := wr32 (d + 4) _ _).
  destruct (heap_frame_desc H s6 q7 d p Hok6 Hd Hp Hdp) as [Hok7 Hlive7].
  { intros x Hx. apply wr32_out. lia. }
  assert (Hobj : objects k = objs (frame j) size (S n)).
  { unfold objects, capacity. rewrite Esize. fold n0. by rewrite En. }
  assert (H74 : ∀ x, d ≤ x < d + 4 ∨ d + 8 ≤ x < d + 16 → q7 x = pm s x).
  { intros x Hx. unfold q7. rewrite wr32_out by lia. apply Hq. lia. }
  assert (Hk : bucket_ok q7 k).
  { apply objects_linked; cbn [k_page k_desc k_class k]; unfold bd_page, bd_freeptr, bd_refcnt in *; rewrite ?Hobj; try done.
    - eapply linked_ext; [|exact Hl]. intros o x Ho Hx. apply slots_range in Ho; [|lia]. apply wr32_out. lia.
    - exact (lookup_lt_Some _ _ _ Hsize).
    - by rewrite (rd32_ext _ (pm s)) by (intros; apply H74; lia).
    - by rewrite (rd32_ext _ (pm s)) by (intros; apply H74; lia).
    - by rewrite (word16_ext (pm s)) by (intros; apply H74; lia). }
  unfold put_chain. apply wp_bind, wp_modify, wp_ret. split; [done|]. exists k. split; [|split_and!; try done].
  - apply push_bucket; try done; try lia; [cbn; lia|by exists p|].
    intros dir' Hdir'. assert (dir' = dir) as -> by (change (bucket_dir s6 !! i = Some dir') in Hdir'; congruence).
    apply rd32_wr32. pose proof (hp_chains _ _ Hok6 _ _ Hdir) as Hc. rewrite (linked_head _ _ _ _ Hc).
    change (in_use H) with ks. destruct (class_chain i ks) as [|d' l] eqn:Ec; [cbn; lia|].
    destruct (desc_bounds _ _ Hok6 d') as (? & ? & _); [|cbn; lia].
    apply elem_of_app. left. apply (class_chain_sub i ks). rewrite Ec. left.
  - eapply keeps_live_trans; [exact Hlive6|exact Hlive7].
Qed.

Lemma new_bucket_run H i size s : heap_ok H s → bucket_sizes !! i = Some size →
  wpp (new_bucket i size) (free_pages (b_mem s) ≤ 1)%nat (λ d s', ∃ k sp dp,
    heap_ok (mk_heap (k :: in_use H) sp dp) s' ∧ k_class k = i ∧ k_desc k = d ∧ k_free k = objects k ∧
    keeps_live H s s') s.
Proof.
  intros Hok Hsize. destruct H as [ks sp0 dp0]. unfold new_bucket. apply wpp_wp_bind, wp_gets, wpp_bind.
  eapply wpp_mono; [by eapply get_spare_run|done|]. intros _ s1 (d & sp & dp & Hok1 & Hlive1 & Hz).
  set (H := mk_heap ks sp dp). apply wpp_wp_bind, wp_gets.
  destruct (drop_spare _ _ _ _ _ Hok1) as (-> & Hok2 & Hd & p & Hp & Hdp).
  destruct (desc_bounds _ _ Hok1 d) as (Hd1 & Hd2 & _); [apply elem_of_app; right; left|].
  apply wpp_wp_bind, wp_ld, wpp_wp_bind, wp_modify. change (bd_next d) with (d + 4).
  set (s2 := set_free_bucket_desc _ _) in *. apply wpp_wp_bind, wp_sto16, wpp_wp_bind, wp_sto16. rewrite poke_poke.
  set (q2 := wr16 (bd_bucket_size d) _ _).
  destruct (heap_frame_desc H s2 q2 d p Hok2 Hd Hp Hdp) as [Hok3 Hlive3].
  { intros x Hx. unfold q2. rewrite wr16_out by (unfold bd_bucket_size; lia). cbn. apply wr16_out. unfold bd_refcnt. lia. }
  apply wpp_wp_bind. eapply wp_mono; [by apply (grab_page_run H)|]. intros cp s4 Hcp.
  apply wpp_wp_bind, wp_sto, wpp_wp_bind, wp_sto. rewrite poke_poke.
  destruct Hcp as [(j & -> & Hg)|(-> & -> & Hno)].
  2:{ apply wpp_panic. by apply Hz. }
  pose proof (gr_ok _ _ _ _ Hg) as Hok4. pose proof (gr_new _ _ _ _ Hg) as Hnew.
  assert (Hj : 2 ^ 20 ≤ frame j ∧ frame j + 4096 ≤ 2 ^ 24).
  { destruct (gr_mem _ _ _ _ Hg) as [Hj _]. apply lookup_lt_Some in Hj.
    rewrite (mo_len _ (hp_mem _ _ Hok4)), PAGING_PAGES_val in Hj. unfold frame, LOW_MEM. lia. }
  assert (Hdj : d + 16 ≤ frame j ∨ frame j + 4096 ≤ d).
  { apply desc_range in Hdp as (? & ? & _). destruct (frames_apart p j); [|lia..]. intros ->. apply Hnew. apply elem_of_app. by left. }
  rewrite (proj2 (Z.eqb_neq (frame j) 0)) by lia. apply wpp_wp.
  set (q4 := wr32 (bd_page d) _ _). 
  destruct (heap_frame_desc H s4 q4 d p Hok4 Hd Hp Hdp) as [Hok5 Hlive5].
  { intros x Hx. unfold q4. rewrite wr32_out by (unfold bd_page; lia). cbn. apply wr32_out. unfold bd_freeptr. lia. }
  eapply wp_mono; [eapply (fill_bucket_run ks sp dp i size d j p (poke q4 s4)); try done; [exact (gr_mem _ _ _ _ Hg)|..]|].
  - cbn. apply rd32_wr32. lia.
  - cbn. unfold q4. rewrite rd32_wr32_ne by (unfold bd_page, bd_freeptr; lia). apply rd32_wr32. lia.
  - cbn. rewrite (word16_ext (pm s4)).
    2:{ intros x Hx. unfold q4, bd_refcnt, bd_page, bd_freeptr in *. rewrite wr32_out by lia. cbn. apply wr32_out. lia. }
    rewrite (word16_ext q2) by (unfold bd_refcnt; intros; apply (gr_rest _ _ _ _ Hg); lia).
    rewrite (word16_ext (wr16 (d + 12) 0 (pm s2))).
    2:{ intros x Hx. unfold q2, bd_bucket_size, bd_refcnt in *. rewrite wr16_out by lia. done. }
    by apply word16_wr16.
  - intros d' s' (-> & k & Hk & Ec & Ed & Ef & Hlive). exists k, sp, dp. split_and!; try done.
    eapply keeps_live_trans; [exact Hlive1|]. eapply keeps_live_trans; [exact Hlive3|].
    eapply keeps_live_trans; [exact (grabbed_live _ _ _ _ Hok3 Hg)|]. eapply keeps_live_trans; [exact Hlive5|exact Hlive].
Qed.

(** ** malloc *)

(** the size of the objects that [len] bytes get *)
Definition object_size (len : Z) : option Z := head (filter (λ z, len ≤ z) bucket_sizes).

Lemma object_size_class len z : object_size len = Some z →
  ∃ i, bucket_sizes !! i = Some z ∧ ∀ l : list (Z * Z), l.*1 = bucket_sizes → find_idx (λ d, len <=? d.1) l = Some i.
Proof.
  intros Hz. assert (∃ i, bucket_sizes !! i = Some z ∧ find_idx (λ y, len <=? y) bucket_sizes = Some i) as (i & Hi & Hf).
  { unfold object_size in Hz. revert Hz. generalize bucket_sizes. intros l. induction l as [|y l IH]; [done|].
    rewrite filter_cons. cbn [find_idx]. destruct (decide (len ≤ y)) as [Hle|Hle]; cbn.
    - intros [= ->]. exists O. by rewrite (proj2 (Z.leb_le _ _) Hle).
    - intros (i & Hi & Hf)%IH. exists (S i). rewrite (proj2 (Z.leb_gt _ _)), Hf by lia. done. }
  exists i. split; [done|]. intros l Hl. rewrite <- Hl in Hf. rewrite <- Hf. clear. induction l as [|d l IH]; [done|]. cbn.
  by rewrite IH.
Qed.

Lemma first_split {A} (f : A → bool) l :
  (∀ d, d ∈ l → f d = false) ∨ ∃ l1 d l2, l = l1 ++ d :: l2 ∧ f d = true ∧ ∀ x, x ∈ l1 → f x = false.
Proof.
  induction l as [|x l IH]; [left; intros d []%not_elem_of_nil|]. destruct (f x) eqn:Ex.
  - right. exists [], x, l. split_and!; [done..|]. intros ? []%not_elem_of_nil.
  - destruct IH as [IH|(l1 & d & l2 & -> & Hd & H1)].
    + left. intros d [->|Hd]%elem_of_cons; auto.
    + right. exists (x :: l1), d, l2. split_and!; [done..|]. intros y [->|Hy]%elem_of_cons; auto.
Qed.

Lemma chain_short H s i : heap_ok H s → (length (class_chain i (in_use H)) < CHAIN_FUEL)%nat.
Proof.
  intros Hok. assert (length (pages H) ≤ 3840)%nat as Hl.
  { rewrite <- (length_seq 3840 0). apply submseteq_length, NoDup_submseteq; [apply (hp_pages _ _ Hok)|].
    intros j Hj%(owned_range _ _ _ Hok). apply elem_of_seq. lia. }
  unfold pages in Hl. rewrite length_app, length_fmap in Hl. unfold class_chain. rewrite length_fmap.
  pose proof (length_filter (λ k, k_class k = i) (in_use H)). unfold CHAIN_FUEL. rewrite PAGING_PAGES_val. lia.
Qed.

Lemma class_chain_NoDup i ks : NoDup (k_desc <$> ks) → NoDup (class_chain i ks).
Proof.
  unfold class_chain. induction ks as [|k ks IH]; [done|]. rewrite fmap_cons, filter_cons. intros [Hk Hn]%NoDup_cons.
  case_decide; [|by apply IH]. rewrite fmap_cons. apply NoDup_cons. split; [|by apply IH].
  intros Hin. by apply Hk, (class_chain_sub i).
Qed.

Lemma chain_bucket H i d : d ∈ class_chain i (in_use H) →
  ∃ l1 k l2, in_use H = l1 ++ k :: l2 ∧ k_class k = i ∧ k_desc k = d.
Proof.
  intros (k & -> & [Hc Hk]%list_elem_of_filter)%list_elem_of_fmap.
  apply list_elem_of_split in Hk as (l1 & l2 & ->). by exists l1, k, l2.
Qed.

(** a page, a descriptor, an object is of one bucket *)
Lemma page_bucket H s k k' : heap_ok H s → k ∈ in_use H → k' ∈ in_use H → k_page k = k_page k' → k = k'.
Proof.
  intros Hok. apply NoDup_fmap_unique. by pose proof (hp_pages _ _ Hok) as (_ & _ & ?)%NoDup_app.
Qed.
Lemma desc_bucket H s k k' : heap_ok H s → k ∈ in_use H → k' ∈ in_use H → k_desc k = k_desc k' → k = k'.
Proof. intros Hok. apply NoDup_fmap_unique. by pose proof (hp_descs _ _ Hok) as (? & _)%NoDup_app. Qed.
Lemma objects_disjoint H s k k' o : heap_ok H s → k ∈ in_use H → k' ∈ in_use H → o ∈ objects k → o ∈ objects k' → k = k'.
Proof.
  intros Hok Hk Hk' Ho Ho'. pose proof (object_range _ _ Hok _ _ Hk Ho). pose proof (object_range _ _ Hok _ _ Hk' Ho').
  destruct (decide (k_page k = k_page k')) as [E|E]; [by eapply page_bucket|destruct (frames_apart _ _ E); lia].
Qed.

(** [k'] is [k] with the object [x] taken *)
Record takes (k k' : bucket) (x : Z) : Prop := {
  tk_class : k_class k' = k_class k;
  tk_desc : k_desc k' = k_desc k;
  tk_page : k_page k' = k_page k;
  tk_free : k_free k = x :: k_free k';
  tk_new : x ∉ k_free k';
  tk_in : x ∈ objects k
}.

Lemma takes_live l1 l2 k k' x sp dp : takes k k' x →
  ∀ o y, live (mk_heap (l1 ++ k' :: l2) sp dp) o y ↔ live (mk_heap (l1 ++ k :: l2) sp dp) o y ∨ (o = x ∧ y = size_of k).
Proof.
  intros [Ec Ed Ep Ef Hn Hx] o y.
  assert (Es : size_of k' = size_of k) by (unfold size_of; by rewrite Ec).
  assert (Eo : objects k' = objects k) by (unfold objects, capacity; by rewrite Es, Ep).
  unfold live. cbn [in_use]. split.
  - intros (k0 & Hk0 & Ho & Hf & ->). apply elem_of_app in Hk0 as [Hk0|[->|Hk0]%elem_of_cons].
    + left. exists k0. split_and!; try done. apply elem_of_app. by left.
    + rewrite Eo in Ho. destruct (decide (o = x)) as [->|Hne]; [right; done|]. left. exists k. split_and!; try done.
      * apply elem_of_app. right. left.
      * rewrite Ef. by intros [->|?]%elem_of_cons.
    + left. exists k0. split_and!; try done. apply elem_of_app. right. by right.
  - intros [(k0 & Hk0 & Ho & Hf & ->)|[-> ->]].
    + apply elem_of_app in Hk0 as [Hk0|[->|Hk0]%elem_of_cons].
      * exists k0. split_and!; try done. apply elem_of_app. by left.
      * exists k'. rewrite Eo, Es. split_and!; try done; [apply elem_of_app; right; left|]. rewrite Ef in Hf.
        intros Hin. apply Hf. by right.
      * exists k0. split_and!; try done. apply elem_of_app. right. by right.
    + exists k'. rewrite Eo, Es. split_and!; try done. apply elem_of_app. right. left.
Qed.

Lemma free_not_live H s k x y : heap_ok H s → k ∈ in_use H → x ∈ k_free k → ¬ live H x y.
Proof.
  intros Hok Hk Hx (k0 & Hk0 & Ho & Hf & _). pose proof (proj1 (Forall_forall _ _) (hp_buckets _ _ Hok) _ Hk) as Hb.
  by rewrite (objects_disjoint _ _ k0 k x Hok Hk0 Hk Ho (bk_sub _ _ Hb _ Hx)) in Hf.
Qed.

(** two objects in use do not overlap *)
Lemma live_apart H s o y o' y' : heap_ok H s → live H o y → live H o' y' → o ≠ o' → o + y ≤ o' ∨ o' + y' ≤ o.
Proof.
  intros Hok (k & Hk & Ho & _ & ->) (k' & Hk' & Ho' & _ & ->) Hne.
  pose proof (object_range _ _ Hok _ _ Hk Ho). pose proof (object_range _ _ Hok _ _ Hk' Ho').
  destruct (decide (k_page k = k_page k')) as [E|E]; [|destruct (frames_apart _ _ E); lia].
  destruct (page_bucket _ _ _ _ Hok Hk Hk' E).
  eapply slots_apart; try done. lia.
Qed.

Lemma take_object_run l1 k l2 sp dp x fr s (H := mk_heap (l1 ++ k :: l2) sp dp) : heap_ok H s → k_free k = x :: fr →
  wp (retval ← ld (bd_freeptr (k_desc k)); n ← ld retval; sto (bd_freeptr (k_desc k)) n ;;
      c ← ld16 (bd_refcnt (k_desc k)); sto16 (bd_refcnt (k_desc k)) (c + 1) ;; mret retval)
    (λ o s', o = x ∧ keeps_live H s s' ∧ ∃ k', takes k k' x ∧ heap_ok (mk_heap (l1 ++ k' :: l2) sp dp) s') s.
Proof.
  intros Hok Ef. assert (Hk : k ∈ in_use H) by (apply elem_of_app; right; left).
  pose proof (proj1 (Forall_forall _ _) (hp_buckets _ _ Hok) _ Hk) as Hb.
  destruct (Hb) as [Hc Hp Hf Hr Hn Hs]. destruct (class_facts k Hc) as (Hs1 & Hs2 & Hs3 & _).
  rewrite Ef in Hf, Hr, Hn, Hs. cbn in Hf, Hr. destruct Hf as (Hx & Hx0 & Hl). rewrite Z.add_0_r in Hl.
  apply NoDup_cons in Hn as [Hn Hn'].
  pose proof (desc_in H k Hk) as Hd. destruct (desc_bounds _ _ Hok _ Hd) as (Hd1 & Hd2 & _).
  assert (Hobj : ∀ o, o ∈ objects k → frame (k_page k) ≤ o ∧ o + 16 ≤ frame (k_page k) + 4096).
  { intros o Ho. pose proof (object_range _ _ Hok _ _ Hk Ho). lia. }
  pose proof (desc_page_apart _ _ Hok _ _ Hd Hk) as Hdk.
  apply wp_bind, wp_ld. rewrite Hx. apply wp_bind, wp_ld, wp_bind, wp_sto, wp_bind, wp_ld16, wp_bind, wp_sto16, wp_ret.
  rewrite poke_poke. unfold bd_freeptr, bd_refcnt in *. set (n := rd32 (pm s) x) in *. set (q := wr16 _ _ _).
  assert (Hq : ∀ y, ¬ (k_desc k + 8 ≤ y < k_desc k + 16) → q y = pm s y).
  { intros y Hy. unfold q. rewrite wr16_out by lia. cbn. apply wr32_out. lia. }
  split; [done|]. split.
  - intros o z y Ho Hy. destruct (live_range _ _ _ _ Hok Ho) as (? & k0 & Hk0 & ? & ?).
    pose proof (desc_page_apart _ _ Hok _ _ Hd Hk0). apply Hq. lia.
  - exists (mk_bucket (k_class k) (k_desc k) (k_page k) fr). split; [constructor; try done; apply Hs; left|].
    apply (heap_update _ _ _ _ k); try done; [|intros y Hy _; by apply Hq].
    constructor; cbn [k_class k_desc k_page k_free]; unfold bd_page, bd_freeptr, bd_refcnt in *; try done.
    + rewrite (rd32_ext _ (pm s)) by (intros; apply Hq; lia). done.
    + rewrite (rd32_ext _ (wr32 (k_desc k + 8) n (pm s))).
      2:{ intros y Hy. unfold q. rewrite wr16_out by lia. done. }
      rewrite rd32_wr32.
      * eapply linked_ext; [|exact Hl]. intros o y Ho Hy. pose proof (Hobj o (Hs o ltac:(by right))). apply Hq. lia.
      * rewrite (linked_head _ _ _ _ Hl). destruct fr as [|o fr]; [cbn; lia|].
        pose proof (Hobj o (Hs o ltac:(right; left))). pose proof (page_bounds _ _ Hok _ Hk). cbn. lia.
    + assert (Hc0 : word16 (wr32 (k_desc k + 8) n (pm s)) (k_desc k + 12) = word16 (pm s) (k_desc k + 12)).
      { apply word16_ext. intros y Hy. apply wr32_out. lia. }
      change (capacity _) with (capacity k). unfold q. cbn [b_mem poke set_b_mem phys set_phys]. rewrite Hc0, Hr.
      pose proof (submseteq_length (x :: fr) (objects k)) as Hlen. unfold objects in Hlen. rewrite length_slots in Hlen.
      specialize (Hlen ltac:(apply NoDup_submseteq; [by apply NoDup_cons|done])). cbn in Hlen.
      rewrite word16_wr16; lia.
    + intros o Ho. apply Hs. by right.
Qed.

(** no bucket is kept without an object in use *)
Definition busy (H : heap) : Prop := ∀ k, k ∈ in_use H → ∃ o, o ∈ objects k ∧ o ∉ k_free k.

(** what [malloc] promises of the object [o] of size [z] it returns *)
Definition handed H (z : Z) (s : buckets) (o : Z) (s' : buckets) : Prop := ∃ H', heap_ok H' s' ∧ (∀ y, ¬ live H o y) ∧
  (∀ o' y, live H' o' y ↔ live H o' y ∨ (o' = o ∧ y = z)) ∧ keeps_live H s s' ∧ (busy H → busy H').

(** what is left to do once a bucket with a free object is found *)
Lemma take_from H s z i l1 k l2 sp dp s1 x fr : bucket_sizes !! i = Some z →
  heap_ok (mk_heap (l1 ++ k :: l2) sp dp) s1 → k_free k = x :: fr → k_class k = i →
  (∀ o y, live (mk_heap (l1 ++ k :: l2) sp dp) o y ↔ live H o y) → keeps_live H s s1 →
  (∀ k', k' ∈ l1 ++ l2 → k' ∈ in_use H) →
  wp (retval ← ld (bd_freeptr (k_desc k)); n ← ld retval; sto (bd_freeptr (k_desc k)) n ;;
      c ← ld16 (bd_refcnt (k_desc k)); sto16 (bd_refcnt (k_desc k)) (c + 1) ;; mret retval) (handed H z s) s1.
Proof.
  intros Hi Hok1 Ef Ec Hlive Hkeep Hin. eapply wp_mono; [by eapply take_object_run|].
  intros o s' (-> & Hkeep' & k' & Ht & Hok'). eexists. split; [exact Hok'|].
  assert (Hsz : size_of k = z) by (unfold size_of; rewrite Ec; by apply list_lookup_total_correct). split_and!.
  - intros y Hy%Hlive. eapply free_not_live; [exact Hok1| | |exact Hy]; [apply elem_of_app; right; left|]. rewrite Ef. left.
  - intros o' y. rewrite (takes_live _ _ _ _ _ _ _ Ht), Hlive, Hsz. done.
  - eapply keeps_live_trans; [exact Hkeep|]. intros o' y w Ho. by apply Hkeep', Hlive.
  - intros Hbusy k0 Hk0. cbn in Hk0. apply elem_of_app in Hk0 as [Hk0|[->|Hk0]%elem_of_cons].
    + apply Hbusy, Hin, elem_of_app. by left.
    + destruct Ht as [Ec' _ Ep' _ Hx Hxo]. exists x. split; [|done]. unfold objects, capacity, size_of in *. by rewrite Ec', Ep'.
    + apply Hbusy, Hin, elem_of_app. by right.
Qed.

Lemma malloc_run H s len z : heap_ok H s → object_size len = Some z →
  wpp (malloc len) (free_pages (b_mem s) ≤ 1)%nat (handed H z s) s.
Proof.
  intros Hok Hz. destruct (object_size_class _ _ Hz) as (i & Hi & Hfind). unfold malloc.
  apply wpp_wp_bind, wp_gets. rewrite (Hfind _ (hp_sizes _ _ Hok)).
  destruct (lookup_lt_is_Some_2 (bucket_dir s) i) as [dir Hdir].
  { rewrite <- (length_fmap fst), (hp_sizes _ _ Hok). by eapply lookup_lt_Some. }
  assert (Hd1 : dir.1 = z).
  { rewrite <- (hp_sizes _ _ Hok), list_lookup_fmap, Hdir in Hi. by injection Hi. }
  apply wpp_wp_bind. eapply wp_of_opt; [exact Hdir|]. pose proof (hp_chains _ _ Hok _ _ Hdir) as Hch.
  set (f := λ b, negb (rd32 (pm s) (bd_freeptr b) =? 0)).
  assert (Htest : ∀ d, (f0 ← ld (bd_freeptr d); mret (negb (f0 =? 0))) s = Ret (f d) s) by (intros d; by destruct s).
  apply wpp_wp_bind. destruct (first_split f (class_chain i (in_use H))) as [Hnone|(c1 & d & c2 & Ec & Hd & Hc1)].
  - eapply wp_mono; [eapply (find_desc_none _ f); [exact Hch|by intros|exact Hnone|by eapply chain_short]|].
    intros [pr ds] s' [-> E]. cbn in E. subst ds. cbn [snd]. rewrite Z.eqb_refl. apply wpp_bind.
    rewrite Hd1. eapply wpp_mono; [by eapply new_bucket_run|done|].
    intros d s1 (k & sp & dp & Hok1 & Ec & <- & Ef & Hkeep). apply wpp_wp.
    assert (Hb : bucket_ok (pm s1) k) by (pose proof (hp_buckets _ _ Hok1) as HF; by inversion HF).
    destruct (class_facts k (bk_class _ _ Hb)) as (_ & _ & Hcap & _).
    assert (∃ x fr, k_free k = x :: fr) as (x & fr & Ef').
    { rewrite Ef. destruct (objects k) eqn:Eo; [|by eauto]. apply (f_equal length) in Eo. unfold objects in Eo.
      rewrite length_slots in Eo. cbn in Eo. lia. }
    eapply (take_from H s z i [] k (in_use H) sp dp s1 x fr); try done. intros o y. split.
    + intros (k0 & [->|Hk0]%elem_of_cons & Ho & Hf & ->); [by rewrite Ef in Hf|]. by exists k0.
    + intros (k0 & Hk0 & Ho & Hf & ->). exists k0. split_and!; try done. by right.
  - rewrite Ec in Hch. eapply wp_mono; [eapply (find_desc_some _ f); [exact Hch|by intros|exact Hc1|exact Hd|]|].
    { pose proof (chain_short H s i Hok) as Hsh. rewrite Ec, length_app in Hsh. lia. }
    intros r s' (-> & ->). cbn [snd].
    destruct (chain_bucket H i d) as (l1 & k & l2 & Eu & Eck & <-); [rewrite Ec; apply elem_of_app; right; left|].
    rewrite (proj2 (Z.eqb_neq _ 0)).
    2:{ apply (linked_nonzero _ _ _ _ _ _ Hch). apply elem_of_app. right. left. }
    apply wpp_wp, wp_bind, wp_ret. destruct H as [ks sp dp]. cbn in Eu. subst ks.
    assert (Hb : bucket_ok (pm s) k) by (apply (proj1 (Forall_forall _ _) (hp_buckets _ _ Hok)), elem_of_app; right; left).
    destruct (k_free k) as [|x fr] eqn:Ef.
    { pose proof (bk_free _ _ Hb) as Hfr. rewrite Ef in Hfr. cbn in Hfr. unfold f in Hd. by rewrite Hfr in Hd. }
    eapply (take_from _ s z i l1 k l2 sp dp s x fr); try done.
    intros k' [?|?]%elem_of_app; apply elem_of_app; [by left|right; by right].
Qed.

(** ** free *)

(** the bucket of an object in use is found by its page *)
Lemma find_page_run H s k l1 c1 c2 size : heap_ok H s → k ∈ in_use H → size ≤ size_of k →
  class_chain (k_class k) (in_use H) = c1 ++ k_desc k :: c2 → k_class k ∉ l1 → (∀ i, i ∈ l1 → (i < 9)%nat) → ∀ l2,
  wp (find_page (l1 ++ k_class k :: l2) (frame (k_page k)) size)
    (λ r s', s' = s ∧ r = Some (k_class k, default 0 (last c1), k_desc k)) s.
Proof.
  intros Hok Hk Hsize Ec Hl1 Hlt l2.
  pose proof (proj1 (Forall_forall _ _) (hp_buckets _ _ Hok) _ Hk) as Hb.
  set (f := λ b, rd32 (pm s) (bd_page b) =? frame (k_page k)).
  assert (Htest : ∀ d, (p ← ld (bd_page d); mret (p =? frame (k_page k))) s = Ret (f d) s) by (intros d; by destruct s).
  assert (Hf : ∀ i d, d ∈ class_chain i (in_use H) → d ≠ k_desc k → f d = false).
  { intros i d (m1 & k0 & m2 & Eu & _ & <-)%chain_bucket Hne. assert (Hk0 : k0 ∈ in_use H) by (rewrite Eu; apply elem_of_app; right; left).
    unfold f. rewrite (bk_page _ _ (proj1 (Forall_forall _ _) (hp_buckets _ _ Hok) _ Hk0)). apply Z.eqb_neq. intros E.
    apply Hne. f_equal. eapply page_bucket; try done. unfold frame in E. lia. }
  assert (Hdn : NoDup (k_desc <$> in_use H)) by (pose proof (hp_descs _ _ Hok) as (? & _)%NoDup_app; done).
  assert (Hdir : ∀ i, (i < 9)%nat → ∃ d, bucket_dir s !! i = Some d ∧ bucket_sizes !! i = Some d.1).
  { intros i Hi. destruct (lookup_lt_is_Some_2 (bucket_dir s) i) as [d Hd].
    - rewrite <- (length_fmap fst), (hp_sizes _ _ Hok). exact Hi.
    - exists d. split; [done|]. rewrite <- (hp_sizes _ _ Hok), list_lookup_fmap, Hd. done. }
  induction l1 as [|i l1 IH]; cbn [app find_page]; unfold the_dir.
  - destruct (Hdir _ (bk_class _ _ Hb)) as (d & Hd & Hz). apply wp_bind. eapply wp_of_opt; [exact Hd|].
    rewrite (proj2 (Z.ltb_ge _ _)).
    2:{ destruct (class_facts k (bk_class _ _ Hb)) as (_ & _ & _ & E). rewrite E in Hz. injection Hz as <-. done. }
    pose proof (hp_chains _ _ Hok _ _ Hd) as Hch. rewrite Ec in Hch. apply wp_bind.
    assert (Hnd : NoDup (class_chain (k_class k) (in_use H))).
    { by apply class_chain_NoDup. }
    rewrite Ec in Hnd. apply NoDup_app in Hnd as (_ & Hnd & _).
    eapply wp_mono; [eapply (find_desc_some _ f); [exact Hch|by intros| | |]|].
    + intros d' Hd'. apply (Hf (k_class k)); [rewrite Ec; apply elem_of_app; by left|]. intros ->. apply (Hnd _ Hd'). left.
    + apply Z.eqb_eq. apply (bk_page _ _ Hb).
    + pose proof (chain_short H s (k_class k) Hok) as Hsh. rewrite Ec, length_app in Hsh. lia.
    + intros r s' (-> & ->). cbn [fst snd]. rewrite (proj2 (Z.eqb_neq _ _)); [by apply wp_ret|].
      apply (linked_nonzero _ _ _ _ _ _ Hch). apply elem_of_app. right. left.
  - destruct (Hdir i) as (d & Hd & Hz); [apply Hlt; left|]. apply wp_bind. eapply wp_of_opt; [exact Hd|].
    assert (IH' := IH ltac:(set_solver) ltac:(set_solver)). destruct (d.1 <? size); [exact IH'|]. apply wp_bind.
    eapply wp_mono; [eapply (find_desc_none _ f); [apply (hp_chains _ _ Hok _ _ Hd)|by intros| |by eapply chain_short]|].
    + intros d' Hd'. apply (Hf i); [done|]. intros ->. apply chain_bucket in Hd' as (m1 & k0 & m2 & Eu & Ek & Ed).
      assert (k0 = k) as ->; [|apply Hl1; rewrite Ek; left].
      eapply desc_bucket; try done. rewrite Eu. apply elem_of_app. right. left.
    + intros [pr ds] s' (-> & E). cbn in E. subst ds. exact IH'.
Qed.

(** taking the cell [d] out of a chain *)
Lemma linked_unlink p a c1 d c2 : linked 4 p a (c1 ++ d :: c2) 0 → NoDup (c1 ++ d :: c2) →
  (∀ x, x ∈ c1 ++ d :: c2 → ∃ m, x = 16 * m) → 0 ≤ rd32 p (d + 4) < 2 ^ 32 →
  match last c1 with
  | None => linked 4 p (rd32 p (d + 4)) c2 0
  | Some pr => linked 4 (wr32 (pr + 4) (rd32 p (d + 4)) p) a (c1 ++ c2) 0
  end.
Proof.
  intros Hl Hn Hm Hv. apply linked_app in Hl as (b & H1 & H2). destruct H2 as (-> & Hd & H2).
  destruct (last c1) as [pr|] eqn:E.
  - apply last_Some in E as [c0 ->]. rewrite <- app_assoc in *. apply linked_app. apply linked_app in H1 as (e & H0 & H1).
    apply NoDup_app in Hn as (N0 & N1 & N2).
    assert (Hpr : ∃ m, pr = 16 * m) by (apply Hm; set_solver).
    assert (Hext : ∀ l, (∀ x, x ∈ l → x ≠ pr ∧ ∃ m, x = 16 * m) → ∀ a e, linked 4 p a l e →
      linked 4 (wr32 (pr + 4) (rd32 p (d + 4)) p) a l e).
    { intros l Hx a' e'. apply linked_ext. intros x y [Hne [m ->]]%Hx Hy. destruct Hpr as [m' ->]. apply wr32_out. lia. }
    cbn in H1. destruct H1 as (-> & Hp0 & H1). exists pr. split.
    + apply Hext; [|done]. intros x Hx. split; [|apply Hm; set_solver]. intros ->. apply (N1 _ Hx). left.
    + cbn. split_and!; [done..|]. rewrite rd32_wr32 by done. apply Hext; [|done].
      intros x Hx. split; [|apply Hm; set_solver]. intros ->. cbn in N2. apply NoDup_cons in N2 as [N2 _]. apply N2. set_solver.
  - apply last_None in E as ->. done.
Qed.

Lemma class_chain_app i l1 l2 : class_chain i (l1 ++ l2) = class_chain i l1 ++ class_chain i l2.
Proof. unfold class_chain. by rewrite filter_app, fmap_app. Qed.
Lemma class_chain_cons i k l : class_chain i (k :: l) =
  if decide (k_class k = i) then k_desc k :: class_chain i l else class_chain i l.
Proof. unfold class_chain. rewrite filter_cons. by case_decide. Qed.

Lemma mem_ok_free s i : mem_ok s → frame i < HIGH_MEMORY s → ∀ q,
  mem_ok (set_phys q (set_mem_map (<[i := 0]> (mem_map s)) s)).
Proof.
  intros [Hl Hb Hh Hu] Hi q. constructor; cbn; rewrite ?length_insert; try done.
  - apply Forall_insert; [done|]. unfold byte_ok. lia.
  - intros j Hj Hjl. destruct (decide (i = j)) as [<-|]; [lia|]. rewrite list_lookup_insert_ne by done. by apply Hu.
Qed.

(** a bucket is given back: only pointers to the next descriptor change *)
Lemma pop_bucket l1 k l2 sp dp s s' q (H := mk_heap (l1 ++ k :: l2) sp dp) (i := k_class k) : heap_ok H s →
  b_mem s' = set_phys q (set_mem_map (<[k_page k := 0]> (mem_map (b_mem s))) (b_mem s)) →
  (bucket_dir s').*1 = bucket_sizes →
  (∀ j d, j ≠ i → bucket_dir s' !! j = Some d → bucket_dir s !! j = Some d) →
  (∀ d, bucket_dir s' !! i = Some d → linked 4 q d.2 (class_chain i l1 ++ class_chain i l2) 0) →
  free_bucket_desc s' = k_desc k → rd32 q (k_desc k + 4) = free_bucket_desc s →
  (∀ x, (∀ d, d ∈ class_chain i l1 ++ [k_desc k] → ¬ (d + 4 ≤ x < d + 8)) → q x = pm s x) →
  heap_ok (mk_heap (l1 ++ l2) (k_desc k :: sp) dp) s'.
Proof.
  intros Hok Emem Hsz' Hother Hmine Hfree Hold Hq.
  assert (Hk : k ∈ in_use H) by (apply elem_of_app; right; left).
  assert (Hin : ∀ k0, k0 ∈ l1 ++ l2 → k0 ∈ in_use H) by (intros k0 [?|?]%elem_of_app; apply elem_of_app; [by left|right; by right]).
  assert (Hds : ∀ d, d ∈ class_chain i l1 ++ [k_desc k] → ∃ k0, k0 ∈ in_use H ∧ k_class k0 = i ∧ k_desc k0 = d).
  { intros d [(k0 & -> & [? ?]%list_elem_of_filter)%list_elem_of_fmap|E%list_elem_of_singleton]%elem_of_app; [|by exists k].
    exists k0. split_and!; [apply elem_of_app; by left|done..]. }
  assert (Hsame : ∀ d x, d ∈ descs H → (∀ e, e ∈ class_chain i l1 ++ [k_desc k] → d ≠ e) ∨ x < d + 4 ∨ d + 8 ≤ x →
    d ≤ x < d + 16 → q x = pm s x).
  { intros d x Hd Hx Hr. apply Hq. intros e He. destruct (Hds e He) as (k0 & Hk0 & _ & <-).
    pose proof (desc_in _ _ Hk0) as He'. destruct (decide (d = k_desc k0)) as [->|Hne].
    - destruct Hx as [Hx|Hx]; [by destruct (Hx _ He)|lia].
    - pose proof (descs_apart _ _ Hok _ _ Hd He' Hne). lia. }
  pose proof Hok as [Hm Hsz Hch Hbk Hsp Hdn Hat Hpn Hown]. constructor; try done; rewrite ?Emem; cbn [phys set_phys].
  - apply mem_ok_free; [done|]. apply Hown. apply elem_of_app. right. by apply list_elem_of_fmap_2.
  - intros j d Hj. cbn [in_use]. rewrite class_chain_app. destruct (decide (j = i)) as [->|Hne]; [by apply Hmine|].
    apply (linked_ext _ (pm s)).
    + intros e x He Hx. apply (Hsame e); [| |lia].
      * apply elem_of_app. left. apply (class_chain_sub j). cbn. rewrite class_chain_app, class_chain_cons.
        rewrite decide_False by (intros E; by apply Hne). exact He.
      * left. intros e' (k1 & Hk1 & Ek1 & <-)%Hds ->. rewrite <- class_chain_app in He.
        destruct (chain_bucket (mk_heap (l1 ++ l2) sp dp) j _ He) as (m1 & k0 & m2 & Eu & Ek & Ed). cbn in Eu.
        assert (k0 = k1) as ->; [|congruence]. eapply desc_bucket; try done. apply Hin. rewrite Eu. apply elem_of_app. right. left.
    + pose proof (Hch _ _ (Hother _ _ Hne Hj)) as Hl. cbn in Hl. rewrite class_chain_app, class_chain_cons in Hl.
      rewrite decide_False in Hl by (intros E; by apply Hne). exact Hl.
  - apply Forall_forall. intros k0 Hk0. cbn [in_use] in Hk0. apply Hin in Hk0.
    pose proof (proj1 (Forall_forall _ _) Hbk _ Hk0) as Hb. apply (bucket_ok_ext (pm s)); [done| |].
    + intros x Hx. apply (Hsame (k_desc k0)); [by apply (desc_in H)|lia|lia].
    + intros o x Ho%(bk_sub _ _ Hb) Hx. pose proof (object_range _ _ Hok _ _ Hk0 Ho). apply Hq.
      intros e (k1 & Hk1 & _ & <-)%Hds. pose proof (desc_page_apart _ _ Hok _ _ (desc_in H _ Hk1) Hk0). lia.
  - cbn [spare linked]. split_and!; [done| |].
    + destruct (desc_bounds _ _ Hok (k_desc k) (desc_in H k Hk)) as (? & _). lia.
    + rewrite Hold. eapply linked_ext; [|exact Hsp]. intros e x He Hx. apply (Hsame e); [apply elem_of_app; by right| |lia].
      left. intros e' (k1 & Hk1 & _ & <-)%Hds ->. apply NoDup_app in Hdn as (_ & Hdn & _).
      by apply (Hdn (k_desc k1)); [apply list_elem_of_fmap_2|].
  - unfold descs in *. cbn in *. rewrite fmap_app in *. rewrite fmap_cons in Hdn. rewrite <- app_assoc in Hdn |- *.
    cbn in *. by rewrite <- (Permutation_middle (k_desc <$> l2)).
  - intros d Hd. apply Hat. revert Hd. unfold descs. cbn. rewrite !fmap_app, fmap_cons. set_solver.
  - unfold pages in *. cbn in *. rewrite fmap_app in *. rewrite fmap_cons in Hpn. rewrite app_assoc in *.
    apply NoDup_app in Hpn as (N1 & N2 & N3). apply NoDup_cons in N3 as [_ N3]. apply NoDup_app. split_and!; try done.
    intros x Hx Hin'. apply (N2 x Hx). by right.
  - intros j Hj. assert (j ∈ pages H ∧ j ≠ k_page k) as [Hj1 Hj2].
    { unfold pages in *. cbn in *. split.
      { rewrite fmap_app, fmap_cons. apply elem_of_app in Hj as [Hj|Hj]; apply elem_of_app; [by left|right].
        rewrite fmap_app in Hj. apply elem_of_app in Hj as [Hj|Hj]; apply elem_of_app; [by left|right; by right]. }
      intros ->. apply elem_of_app in Hj as [Hj|Hj].
      - apply NoDup_app in Hpn as (_ & N2 & _). apply (N2 _ Hj). by apply list_elem_of_fmap_2.
      - apply NoDup_app in Hpn as (_ & _ & N3). apply list_elem_of_fmap in Hj as (k0 & E & Hk0).
        by apply (NoDup_fmap_others k_page l1 l2 k k0 N3). }
    cbn. rewrite list_lookup_insert_ne by done. by apply Hown.
Qed.

Definition give (k : bucket) (x : Z) : bucket := mk_bucket (k_class k) (k_desc k) (k_page k) (x :: k_free k).

Lemma give_object l1 k l2 sp dp s x (H := mk_heap (l1 ++ k :: l2) sp dp) (d := k_desc k)
    (q1 := wr32 (d + 8) x (wr32 x (rd32 (pm s) (d + 8)) (pm s))) (q := wr16 (d + 12) (word16 q1 (d + 12) - 1) q1) :
  heap_ok H s → x ∈ objects k → x ∉ k_free k →
  heap_ok (mk_heap (l1 ++ give k x :: l2) sp dp) (poke q s) ∧ takes (give k x) k x ∧
  keeps_live (mk_heap (l1 ++ give k x :: l2) sp dp) s (poke q s).
Proof.
  intros Hok Hx Hnew. assert (Hk : k ∈ in_use H) by (apply elem_of_app; right; left).
  pose proof (proj1 (Forall_forall _ _) (hp_buckets _ _ Hok) _ Hk) as Hb.
  destruct (Hb) as [Hc Hp Hf Hr Hn Hs]. destruct (class_facts k Hc) as (Hs1 & Hs2 & Hs3 & _).
  pose proof (desc_in H k Hk) as Hd. destruct (desc_bounds _ _ Hok _ Hd) as (Hd1 & Hd2 & _).
  pose proof (object_range _ _ Hok _ _ Hk Hx) as Hxr. pose proof (page_bounds _ _ Hok _ Hk) as Hpb.
  pose proof (desc_page_apart _ _ Hok _ _ Hd Hk) as Hdk. fold d in Hd, Hd1, Hd2, Hdk, Hp, Hf, Hr.
  unfold bd_page, bd_freeptr, bd_refcnt in *.
  assert (Hlen : (S (length (k_free k)) ≤ capacity k)%nat).
  { rewrite <- (length_slots (frame (k_page k)) (size_of k) (capacity k)).
    apply (submseteq_length (x :: k_free k)), NoDup_submseteq; [by apply NoDup_cons|].
    intros o [->|Ho]%elem_of_cons; [exact Hx|by apply Hs]. }
  assert (Hq : ∀ y, ¬ (d + 8 ≤ y < d + 16) → ¬ (x ≤ y < x + 4) → q y = pm s y).
  { intros y Hy Hy'. unfold q. rewrite wr16_out by lia. unfold q1. rewrite wr32_out by lia. apply wr32_out. lia. }
  assert (Hq1 : ∀ y, d + 8 ≤ y < d + 12 ∨ x ≤ y < x + 4 → q y = q1 y) by (intros y Hy; apply wr16_out; lia).
  assert (Hfree : ∀ o y, o ∈ k_free k → o ≤ y < o + 4 → q y = pm s y).
  { intros o y Ho Hy. pose proof (Hs o Ho) as Ho'. pose proof (object_range _ _ Hok _ _ Hk Ho').
    assert (x ≠ o) by (intros ->; done). destruct (slots_apart _ _ _ _ _ Hx Ho' ltac:(done)); [lia|apply Hq; lia..]. }
  assert (Hhead : 0 ≤ rd32 (pm s) (d + 8) < 2 ^ 32).
  { rewrite (linked_head _ _ _ _ Hf). destruct (k_free k) as [|o fr] eqn:Ef; [cbn; lia|]. cbn.
    pose proof (object_range _ _ Hok _ _ Hk (Hs o ltac:(left))). lia. }
  assert (Ht : takes (give k x) k x) by done.
  assert (Hok2 : heap_ok (mk_heap (l1 ++ give k x :: l2) sp dp) (poke q s)); [|split_and!; [done..|]].
  - apply (heap_update _ _ _ _ k); try done; [|intros y Hy Hy'; apply Hq; lia].
    constructor; cbn [give k_class k_desc k_page k_free]; fold d; unfold bd_page, bd_freeptr, bd_refcnt; try done.
    + rewrite (rd32_ext _ (pm s)) by (intros; apply Hq; lia). done.
    + rewrite (rd32_ext _ q1) by (intros; apply Hq1; lia). unfold q1 at 1. rewrite rd32_wr32 by lia. cbn [linked].
      split_and!; [done|lia|]. rewrite Z.add_0_r, (rd32_ext _ q1) by (intros; apply Hq1; lia). unfold q1.
      rewrite rd32_wr32_ne, rd32_wr32 by lia. eapply linked_ext; [|exact Hf]. intros o y Ho Hy. apply (Hfree o); [done|lia].
    + change (capacity (give k x)) with (capacity k). cbn [length]. unfold q.
      assert (word16 q1 (d + 12) = word16 (pm s) (d + 12)) as Hw.
      { apply word16_ext. intros y Hy. unfold q1. rewrite wr32_out by lia. apply wr32_out. lia. }
      rewrite Hw, Hr, word16_wr16; lia.
    + by apply NoDup_cons.
    + intros o [->|Ho]%elem_of_cons; [exact Hx|by apply Hs].
  - intros o z y Ho Hy. assert (o ≠ x) as Hne.
    { intros ->. eapply (free_not_live _ _ (give k x)); [exact Hok2|apply elem_of_app; right; left|left|exact Ho]. }
    assert (Ho' : live H o z) by (apply (takes_live _ _ _ _ _ _ _ Ht); by left).
    assert (Hx' : live H x (size_of k)) by (exists k; done).
    pose proof (live_apart _ _ _ _ _ _ Hok Ho' Hx' Hne). destruct (live_range _ _ _ _ Hok Ho') as (? & k0 & Hk0 & ? & ?).
    pose proof (desc_page_apart _ _ Hok _ _ Hd Hk0). apply Hq; lia.
Qed.

Lemma in_page_of k o s H : heap_ok H s → k ∈ in_use H → o ∈ objects k → Z.land o 0xfffff000 = frame (k_page k).
Proof.
  intros Hok Hk Ho. pose proof (object_range _ _ Hok _ _ Hk Ho). pose proof (page_bounds _ _ Hok _ Hk).
  replace o with (frame (k_page k) + (o - frame (k_page k))) by lia. rewrite Z.land_comm. apply page_of_frame; lia.
Qed.

(** the end of [free_s], when the last object of a bucket has come back *)
Definition return_bucket (i : nat) (prev bdesc : Z) : M buckets unit :=
  d ← the_dir i;
  pn ← (if prev =? 0 then mret 0 else ld (bd_next prev));
  prev ← (if (negb (prev =? 0) && negb (pn =? bdesc)) || ((prev =? 0) && negb (d.2 =? bdesc)) then
            q ← find_desc CHAIN_FUEL (λ b, n ← ld (bd_next b); mret (n =? bdesc)) 0 d.2;
            mret q.2
          else mret prev);
  n ← ld (bd_next bdesc);
  (if negb (prev =? 0) then sto (bd_next prev) n
   else if negb (d.2 =? bdesc) then panic "malloc bucket chains corrupted"
   else put_chain i n) ;;
  pg ← ld (bd_page bdesc);
  on_bmem (free_page pg) ;;
  old ← gets free_bucket_desc;
  sto (bd_next bdesc) old ;;
  modify (set_free_bucket_desc bdesc).

Lemma on_free_page_run s i : mem_ok (b_mem s) → mem_map (b_mem s) !! i = Some 1 → frame i < HIGH_MEMORY (b_mem s) →
  wp (on_bmem (free_page (frame i))) (λ _ s', s' = set_b_mem (set_mem_map (<[i := 0]> (mem_map (b_mem s))) (b_mem s)) s) s.
Proof. intros Hm Hi Hh. unfold wp, on_bmem. by rewrite (free_page_run _ _ _ Hm Hi Hh). Qed.

Section given_back.
Context (l1 : list bucket) (k : bucket) (l2 : list bucket) (sp : list Z) (dp : list nat) (s : buckets).
Abbreviation H := (mk_heap (l1 ++ k :: l2) sp dp).
Abbreviation i := (k_class k).
Abbreviation d := (k_desc k).
Abbreviation c1 := (class_chain i l1).
Abbreviation c2 := (class_chain i l2).
Context (Hok : heap_ok H s).

Lemma given_in : k ∈ in_use H.
Proof. apply elem_of_app. right. left. Qed.
Lemma given_chain : class_chain i (in_use H) = c1 ++ d :: c2.
Proof. cbn. by rewrite class_chain_app, class_chain_cons, decide_True. Qed.
Lemma given_descs e : e ∈ c1 ++ d :: c2 → e ∈ descs H.
Proof. intros He. rewrite <- given_chain in He. apply elem_of_app. left. by eapply class_chain_sub. Qed.
Lemma given_before e : e ∈ c1 ++ [d] → e ∈ c1 ++ d :: c2.
Proof. intros He. rewrite cons_middle, app_assoc. apply elem_of_app. by left. Qed.
Lemma given_aligned e : e ∈ c1 ++ d :: c2 → ∃ m, e = 16 * m.
Proof. intros He. by apply (desc_bounds _ _ Hok), given_descs. Qed.
Lemma given_NoDup : NoDup (c1 ++ d :: c2).
Proof. rewrite <- given_chain. apply class_chain_NoDup. by pose proof (hp_descs _ _ Hok) as (? & _)%NoDup_app. Qed.
Lemma given_other e : e ∈ c1 ++ c2 → e ∈ c1 ++ d :: c2 ∧ e ≠ d.
Proof.
  intros He. split; [apply elem_of_app in He as [?|?]; apply elem_of_app; [by left|right; by right]|].
  intros ->. pose proof given_NoDup as (_ & N1 & N2)%NoDup_app. apply NoDup_cons in N2 as [N2 _].
  apply elem_of_app in He as [He|He]; [|done]. apply (N1 d He). left.
Qed.

(** two descriptors of the chain do not overlap *)
Lemma given_apart e x : e ∈ c1 ++ c2 → e ≤ x < e + 16 → ¬ (d ≤ x < d + 16).
Proof.
  intros He Hx. destruct (given_other e He) as [He1 Hne]. destruct (given_aligned e He1) as [m' ->].
  destruct (given_aligned d) as [m Em]; [apply elem_of_app; right; left|]. lia.
Qed.

Lemma given_dir : ∃ dir, bucket_dir s !! i = Some dir ∧ linked 4 (phys (b_mem s)) dir.2 (c1 ++ d :: c2) 0.
Proof.
  pose proof (proj1 (Forall_forall _ _) (hp_buckets _ _ Hok) _ given_in) as Hb.
  destruct (lookup_lt_is_Some_2 (bucket_dir s) i) as [dir Hdir].
  { rewrite <- (length_fmap fst), (hp_sizes _ _ Hok). apply (bk_class _ _ Hb). }
  exists dir. split; [done|]. rewrite <- given_chain. by apply (hp_chains _ _ Hok).
Qed.

(** what is before the bucket in its chain *)
Lemma given_prev dir : linked 4 (phys (b_mem s)) dir (c1 ++ d :: c2) 0 →
  match last c1 with
  | Some pr => default 0 (last c1) = pr ∧ pr ≠ 0 ∧ rd32 (phys (b_mem s)) (pr + 4) = d
  | None => default 0 (last c1) = 0 ∧ dir = d
  end.
Proof.
  intros Hch. destruct (last c1) as [pr|] eqn:E.
  - apply last_Some in E as [c0 E]. rewrite E, <- app_assoc in Hch. apply linked_app in Hch as (b & _ & -> & Hp & <- & _). done.
  - apply last_None in E. rewrite E in Hch. destruct Hch as [-> _]. done.
Qed.

Lemma given_next dir : linked 4 (phys (b_mem s)) dir (c1 ++ d :: c2) 0 → 0 ≤ rd32 (phys (b_mem s)) (d + 4) < 2 ^ 32.
Proof.
  intros Hch. pose proof given_descs as Hin. apply linked_app in Hch as (b & _ & -> & _ & Hl). rewrite (linked_head _ _ _ _ Hl).
  destruct c2 as [|e c2']; [cbn; lia|].
  destruct (desc_bounds _ _ Hok e) as (? & ? & _); [apply Hin, elem_of_app; right; right; left|cbn; lia].
Qed.

(** what [unlink_run] leaves: memory [q] and the directory, in which the chain of
    class [i] goes past the bucket *)
Definition unlinked (q : Z → Z) (s1 : buckets) : Prop :=
  b_mem s1 = set_phys q (b_mem s) ∧ (bucket_dir s1).*1 = bucket_sizes ∧
  (∀ j e, j ≠ i → bucket_dir s1 !! j = Some e → bucket_dir s !! j = Some e) ∧
  (∀ e, bucket_dir s1 !! i = Some e → linked 4 q e.2 (c1 ++ c2) 0) ∧ free_bucket_desc s1 = free_bucket_desc s ∧
  (∀ x, (∀ e, e ∈ c1 → ¬ (e + 4 ≤ x < e + 8)) → q x = phys (b_mem s) x).

Lemma unlink_run dir : bucket_dir s !! i = Some dir → linked 4 (phys (b_mem s)) dir.2 (c1 ++ d :: c2) 0 →
  wp (if negb (default 0 (last c1) =? 0) then sto (bd_next (default 0 (last c1))) (rd32 (phys (b_mem s)) (d + 4))
      else if negb (dir.2 =? d) then panic "malloc bucket chains corrupted"
      else put_chain i (rd32 (phys (b_mem s)) (d + 4))) (λ _ s1, ∃ q, unlinked q s1) s.
Proof.
  intros Hdir Hch. pose proof (linked_unlink _ _ _ _ _ Hch given_NoDup given_aligned (given_next _ Hch)) as Hun.
  pose proof (given_prev _ Hch) as Hp. set (prev := default 0 (last c1)) in *. clearbody prev. destruct (last c1) as [pr|] eqn:E.
  - destruct Hp as (-> & Hp & _). rewrite (proj2 (Z.eqb_neq _ _) Hp). cbn [negb]. apply wp_sto. eexists. split; [done|].
    split; [apply (hp_sizes _ _ Hok)|]. split; [done|]. split; [|split; [done|]].
    + intros e He. assert (e = dir) as -> by (cbn in He; congruence). exact Hun.
    + intros x Hx. apply wr32_out. unfold bd_next. assert (pr ∈ c1) as Hpr by (apply last_Some in E as [c0 ->]; apply elem_of_app; right; left).
      specialize (Hx pr Hpr). lia.
  - destruct Hp as (-> & Hp). rewrite Hp, !Z.eqb_refl. cbn [negb]. apply wp_modify. exists (phys (b_mem s)). unfold unlinked. cbn.
    split; [by destruct (b_mem s)|]. rewrite put_chain_sizes. split; [apply (hp_sizes _ _ Hok)|]. split; [|split; [|done]].
    + intros j e Hj. by rewrite list_lookup_alter_ne by done.
    + intros e. rewrite list_lookup_alter_eq, Hdir. intros [= <-]. apply last_None in E. rewrite E. exact Hun.
Qed.

(** the page of the bucket is still known *)
Lemma unlinked_page q s1 : unlinked q s1 → rd32 q (bd_page d) = frame (k_page k).
Proof.
  intros (_ & _ & _ & _ & _ & Hq). pose proof (proj1 (Forall_forall _ _) (hp_buckets _ _ Hok) _ given_in) as Hb.
  rewrite <- (bk_page _ _ Hb). apply rd32_ext. intros x Hx. apply Hq. intros e He He'. unfold bd_page in *.
  apply (given_apart e x); [apply elem_of_app; by left|lia|lia].
Qed.

Lemma release_run :
  wp (return_bucket i (default 0 (last c1)) d) (λ _ s', heap_ok (mk_heap (l1 ++ l2) (d :: sp) dp) s' ∧ keeps_live H s s') s.
Proof.
  destruct given_dir as (dir & Hdir & Hch). pose proof (given_prev _ Hch) as Hprev. pose proof (unlink_run dir Hdir Hch) as Hrun.
  set (prev := default 0 (last c1)) in *. clearbody prev. unfold return_bucket, the_dir. apply wp_bind. eapply wp_of_opt; [exact Hdir|].
  apply wp_bind, wp_mono with (P := λ pn s', s' = s ∧ pn = match last c1 with Some _ => d | None => 0 end).
  { destruct (last c1) as [pr|]; [|destruct Hprev as (-> & _); by apply wp_ret].
    destruct Hprev as (-> & Hp & Hn). rewrite (proj2 (Z.eqb_neq _ _) Hp). by apply wp_ld. }
  intros pn s' [-> ->]. match goal with |- context [if ?b then _ else mret _] => assert (b = false) as -> end.
  { destruct (last c1); destruct Hprev as (-> & Hp); [destruct Hp as [Hp _]; rewrite (proj2 (Z.eqb_neq _ _) Hp)|]; cbn;
      rewrite ?Hp, Z.eqb_refl; done. }
  apply wp_bind, wp_ret, wp_bind, wp_ld. change (bd_next d) with (d + 4).
  apply wp_bind. eapply wp_mono; [exact Hrun|].
  intros _ s1 (q & Hu). pose proof (unlinked_page _ _ Hu) as Hqd. destruct Hu as (Em & Hsz & Hoth & Hmine & Hfree & Hq).
  destruct (hp_owned _ _ Hok (k_page k)) as [Hown Hhigh]; [apply elem_of_app; right; apply list_elem_of_fmap_2, given_in|].
  apply wp_bind, wp_ld. rewrite Em. cbn [phys set_phys]. rewrite Hqd. apply wp_bind.
  eapply wp_mono; [apply on_free_page_run; rewrite Em; [by destruct (hp_mem _ _ Hok); constructor|exact Hown|exact Hhigh]|].
  intros _ s2 ->. apply wp_bind, wp_gets, wp_bind, wp_sto, wp_modify. rewrite Em. cbn.
  set (q' := wr32 (d + 4) (free_bucket_desc s1) q).
  assert (Hq' : ∀ x, (∀ e, e ∈ c1 ++ [d] → ¬ (e + 4 ≤ x < e + 8)) → q' x = phys (b_mem s) x).
  { intros x Hx. unfold q'. rewrite wr32_out by (specialize (Hx d ltac:(apply elem_of_app; right; left)); lia). apply Hq. intros e He. apply Hx, elem_of_app. by left. }
  split.
  - apply (pop_bucket l1 k l2 sp dp s _ q'); try done.
    + intros e He. eapply linked_ext; [|by apply Hmine]. intros e' x He' Hx. apply wr32_out. pose proof (given_apart e' x He'). lia.
    + unfold q'. rewrite rd32_wr32; [done|]. rewrite Hfree, (linked_head _ _ _ _ (hp_spare _ _ Hok)). cbn.
      destruct sp as [|e sp']; [cbn; lia|]. destruct (desc_bounds _ _ Hok e) as (? & ? & _); [apply elem_of_app; right; left|cbn; lia].
  - intros o z x Ho Hx. destruct (live_range _ _ _ _ Hok Ho) as (? & k0 & Hk0 & ? & ?). apply Hq'. intros e He.
    pose proof (given_descs e (given_before e He)) as He'. pose proof (desc_page_apart _ _ Hok _ _ He' Hk0). lia.
Qed.
End given_back.

(** a bucket with counter 0 is all free, and one with another counter is not *)
Lemma all_free p k : bucket_ok p k → Z.of_nat (capacity k) - Z.of_nat (length (k_free k)) = 0 →
  ∀ o, o ∈ objects k → o ∈ k_free k.
Proof.
  intros [_ _ _ _ Hn Hs] E o Ho. assert (k_free k ≡ₚ objects k) as ->; [|done].
  apply submseteq_length_Permutation; [by apply NoDup_submseteq|]. unfold objects. rewrite length_slots. lia.
Qed.
Lemma not_all_free p k : bucket_ok p k → Z.of_nat (capacity k) - Z.of_nat (length (k_free k)) ≠ 0 →
  ∃ o, o ∈ objects k ∧ o ∉ k_free k.
Proof.
  intros [Hc _ _ _ Hn Hs] E. destruct (class_facts k Hc) as (? & _).
  destruct (decide (Forall (λ o, o ∈ k_free k) (objects k))) as [Hall|Hex].
  - exfalso. apply E. assert (k_free k ≡ₚ objects k) as Hp.
    { apply NoDup_Permutation; [done|apply NoDup_slots; lia|]. intros o. split; [apply Hs|]. intros Ho.
      by apply (proj1 (Forall_forall _ _) Hall). }
    apply Permutation_length in Hp. unfold objects in Hp. rewrite length_slots in Hp. lia.
  - apply not_Forall_Exists in Hex; [|apply _]. apply Exists_exists in Hex as (o & Ho & Hf). by exists o.
Qed.

Lemma free_s_run H s o z size : heap_ok H s → live H o z → size ≤ z →
  wp (free_s o size) (λ _ s', ∃ H', heap_ok H' s' ∧ (∀ o' y, live H' o' y ↔ live H o' y ∧ o' ≠ o) ∧
    keeps_live H' s s' ∧ (busy H → busy H')) s.
Proof.
  intros Hok (k & Hk & Ho & Hf & ->) Hsize. pose proof (proj1 (Forall_forall _ _) (hp_buckets _ _ Hok) _ Hk) as Hb.
  pose proof (in_page_of _ _ _ _ Hok Hk Ho) as Hpage. destruct (list_elem_of_split _ _ Hk) as (l1 & l2 & Eu).
  destruct H as [ks sp dp]. cbn in Eu. subst ks. set (i := k_class k) in *. set (H := mk_heap _ _ _) in *.
  assert (Ec : class_chain i (in_use H) = class_chain i l1 ++ k_desc k :: class_chain i l2).
  { cbn. by rewrite class_chain_app, class_chain_cons, decide_True. }
  unfold free_s. apply wp_bind, wp_gets. rewrite Hpage.
  assert (Hlen : length (bucket_dir s) = 9%nat) by (rewrite <- (length_fmap fst), (hp_sizes _ _ Hok); done).
  assert (Hseq : seq 0 9 = seq 0 i ++ i :: seq (S i) (8 - i)).
  { pose proof (bk_class _ _ Hb) as Hi. fold i in Hi. replace 9%nat with (i + S (8 - i))%nat by lia. by rewrite seq_app. }
  rewrite Hlen, Hseq. apply wp_bind. eapply wp_mono.
  { apply (find_page_run H s k _ _ _ _ Hok Hk Hsize Ec); [intros E%elem_of_seq; lia|].
    intros j Hj%elem_of_seq. pose proof (bk_class _ _ Hb) as Hi. fold i in Hi. lia. }
  intros r s' (-> & ->). apply wp_bind, wp_ld, wp_bind, wp_sto, wp_bind, wp_sto, wp_bind, wp_ld16, wp_bind, wp_sto16.
  destruct (give_object l1 k l2 sp dp s o Hok Ho Hf) as (Hok1 & Ht & Hkeep). rewrite !poke_poke.
  unfold bd_freeptr, bd_refcnt in *. set (s1 := poke _ s) in *. set (H1 := mk_heap (l1 ++ give k o :: l2) sp dp) in *.
  apply wp_bind, wp_ld16.
  assert (Hg : give k o ∈ in_use H1) by (apply elem_of_app; right; left).
  pose proof (proj1 (Forall_forall _ _) (hp_buckets _ _ Hok1) _ Hg) as Hb1.
  pose proof (bk_refcnt _ _ Hb1) as Hr. unfold bd_refcnt in Hr. change (k_desc (give k o)) with (k_desc k) in Hr.
  rewrite Hr. set (c := Z.of_nat _ - _).
  assert (Hothers : busy H → ∀ k0, k0 ∈ l1 ++ l2 → ∃ o, o ∈ objects k0 ∧ o ∉ k_free k0).
  { intros Hbusy k0 Hk0. apply Hbusy. apply elem_of_app in Hk0 as [?|?]; apply elem_of_app; [by left|right; by right]. }
  assert (Hlive : ∀ o' y, live H1 o' y ↔ live H o' y ∧ o' ≠ o).
  { intros o' y. pose proof (takes_live l1 l2 _ _ _ sp dp Ht o' y) as Htl. split.
    - intros Hl. split; [apply Htl; by left|]. intros ->. by eapply (free_not_live H1 s1 (give k o)); [..|left|].
    - intros [[?|[? _]]%Htl Hne]; done. }
  destruct (c =? 0) eqn:E; cbn [negb]; b2p.
  - fold (return_bucket i (default 0 (last (class_chain i l1))) (k_desc k)).
    eapply wp_mono; [by apply (release_run l1 (give k o) l2 sp dp s1)|]. intros _ s2 [Hok2 Hkeep2].
    assert (Hsame : ∀ o' y, live (mk_heap (l1 ++ l2) (k_desc k :: sp) dp) o' y ↔ live H1 o' y).
    { intros o' y. split.
      - intros (k0 & Hk0 & ?). exists k0. split; [|done]. apply elem_of_app in Hk0 as [?|?]; apply elem_of_app; [by left|right; by right].
      - intros (k0 & Hk0 & Ho' & Hf' & Hy). apply elem_of_app in Hk0 as [?|[->|?]%elem_of_cons].
        + exists k0. split_and!; try done. apply elem_of_app. by left.
        + destruct Hf'. by apply (all_free _ _ Hb1).
        + exists k0. split_and!; try done. apply elem_of_app. by right. }
    eexists. split; [exact Hok2|]. split; [|split].
    + intros o' y. by rewrite Hsame.
    + intros o' y x Ho' Hx. apply Hsame in Ho'. by rewrite (Hkeep2 o' y x Ho' Hx), (Hkeep o' y x Ho' Hx).
    + exact Hothers.
  - apply wp_ret. exists H1. split_and!; try done. intros Hbusy k0 Hk0. apply elem_of_app in Hk0 as [?|[->|?]%elem_of_cons].
    + apply Hothers; [done|]. apply elem_of_app. by left.
    + by apply (not_all_free (pm s1)).
    + apply Hothers; [done|]. apply elem_of_app. by right.
Qed.

(** ** What the clients see *)

Lemma heap_init m : mem_ok m → heap_ok (mk_heap [] [] []) (init_buckets m).
Proof.
  intros Hm. constructor; try done.
  - intros i d Hd. change (bucket_dir _) with ((λ z, (z, 0)) <$> bucket_sizes) in Hd.
    apply list_lookup_fmap_Some in Hd as (z & -> & _). done.
  - apply NoDup_nil_2.
  - intros d []%not_elem_of_nil.
  - apply NoDup_nil_2.
  - intros i []%not_elem_of_nil.
Qed.

(** a client stores a byte *)
Definition put_byte (x v : Z) (s : buckets) : buckets := poke (λ y, if decide (y = x) then v else pm s y) s.

(** The clients allocate, free what they hold, and write in what they hold;
    [L] are the objects they hold, with their sizes. *)
Inductive client : buckets * gset (Z * Z) → buckets * gset (Z * Z) → Prop :=
| client_malloc s L len z o s' : object_size len = Some z → malloc len s = Ret o s' →
    client (s, L) (s', {[(o, z)]} ∪ L)
| client_free s L o z size s' : (o, z) ∈ L → size ≤ z → free_s o size s = Ret tt s' →
    client (s, L) (s', L ∖ {[(o, z)]})
| client_write s L o z x v : (o, z) ∈ L → o ≤ x < o + z → client (s, L) (put_byte x v s, L).

Definition client_inv (st : buckets * gset (Z * Z)) : Prop :=
  ∃ H, heap_ok H st.1 ∧ busy H ∧ ∀ o z, (o, z) ∈ st.2 ↔ live H o z.

Lemma live_size H s o y z : heap_ok H s → live H o y → live H o z → y = z.
Proof.
  intros Hok (k & Hk & Ho & _ & ->) (k' & Hk' & Ho' & _ & ->). by rewrite (objects_disjoint _ _ _ _ _ Hok Hk Hk' Ho Ho').
Qed.

Lemma put_byte_ok H s o z x v : heap_ok H s → live H o z → o ≤ x < o + z → heap_ok H (put_byte x v s).
Proof.
  intros Hok Ho Hx. apply heap_frame; [done| |]; cbn.
  - intros d y Hd Hy. rewrite decide_False; [done|]. intros ->. destruct (live_range _ _ _ _ Hok Ho) as (? & k & Hk & ? & ?).
    pose proof (desc_page_apart _ _ Hok _ _ Hd Hk). lia.
  - intros k f y Hk Hf Hy. rewrite decide_False; [done|]. intros ->. destruct Ho as (k0 & Hk0 & Ho & Hof & ->).
    pose proof (proj1 (Forall_forall _ _) (hp_buckets _ _ Hok) _ Hk) as Hb. pose proof (bk_sub _ _ Hb _ Hf) as Hfo.
    pose proof (object_range _ _ Hok _ _ Hk Hfo). pose proof (object_range _ _ Hok _ _ Hk0 Ho).
    destruct (decide (k_page k = k_page k0)) as [E|E]; [|destruct (frames_apart _ _ E); lia].
    destruct (page_bucket _ _ _ _ Hok Hk Hk0 E). assert (o ≠ f) by (intros ->; done).
    destruct (slots_apart _ _ _ _ _ Ho Hfo ltac:(done)); lia.
Qed.

Lemma client_step st st' : client st st' → client_inv st → client_inv st'.
Proof.
  intros Hs (H & Hok & Hbusy & HL). destruct Hs as [s L len z o s' Hz Hm|s L o z size s' Ho Hsize Hf|s L o z x v Ho Hx]; cbn in *.
  - pose proof (malloc_run H s len z Hok Hz) as Hr. unfold wpp in Hr. rewrite Hm in Hr.
    destruct Hr as (H' & Hok' & _ & Hl & _ & Hb). exists H'. split_and!; [done|by apply Hb|]. cbn.
    intros o' y. rewrite Hl, elem_of_union, elem_of_singleton, HL. naive_solver.
  - apply HL in Ho as Hlo. pose proof (free_s_run H s o z size Hok Hlo Hsize) as Hr. unfold wp in Hr. rewrite Hf in Hr.
    destruct Hr as (H' & Hok' & Hl & _ & Hb). exists H'. split_and!; [done|by apply Hb|]. cbn.
    intros o' y. rewrite Hl, elem_of_difference, elem_of_singleton, HL. split; [|naive_solver].
    intros [Hlive Hne]. split; [done|]. intros ->. apply Hne. f_equal. exact (live_size H s o y z Hok Hlive Hlo).
  - exists H. split_and!; [|done|done]. cbn. apply (put_byte_ok H s o z); [done|by apply HL|done].
Qed.


Definition demo_kernel_mem : mem := mk_mem (replicate 4 0 ++ replicate 3836 USED) (LOW_MEM + 4 * 4096) (λ _, 255).

Lemma demo_kernel_mem_ok : mem_ok demo_kernel_mem.
Proof.
  constructor; [done|by apply (bool_decide_unpack _); vm_compute|done|].
  intros i Hi _ E. apply lookup_app_Some in E as [E|[_ E]]; apply lookup_replicate in E as [E ?]; [|done].
  unfold frame, demo_kernel_mem in Hi. cbn [HIGH_MEMORY] in Hi. lia.
Qed.

Lemma two_mallocs x y s : wp (_ ← malloc x; malloc y) (λ _ _, True) s →
  ∃ a s1 b s2, malloc x s = Ret a s1 ∧ malloc y s1 = Ret b s2.
Proof.
  intros H. apply wp_bind_inv, wp_exists in H as (a & s1 & H1 & H). apply wp_exists in H as (b & s2 & H2 & _). by exists a, s1, b, s2.
Qed.

